(* ===== verification/_CoqProject ===== *)
-Q . S2P
Prelude.v
Felt.v
FeltTypes.v
Hashers.v
Transactions.v
TxHash.v
CoreTx.v
Broadcast.v
Blocks.v
Db.v
BonsaiDb.v
Tries.v
Commitments.v
Backend.v
Convert.v
MappingSync.v
RpcEvents.v
RpcClient.v
Index.v
CallInfo.v
ContractClasses.v
UnusedHelpers.v
Pallet.v
Codecs.v
StateAdapter.v
Simulations.v
Runtime.v
Inherents.v
Overrides.v
Fetch.v
L1Sync.v
L2Sync.v
Traces.v
RpcTrace.v
RpcBlocks.v
RpcState.v
Genesis.v
RpcServer.v
EndToEnd.v
EndToEndQueries.v
EndToEndStorage.v
EndToEndGateway.v
Node.v
Setup.v
Cli.v
Tui.v
