(* ===== verification/Prelude.v ===== *)
(** * A verification of the Deoxys node

    Deoxys is a Starknet full node built on Substrate.  It fetches Starknet blocks,
    their state updates and classes from the sequencer gateway, recomputes the
    commitments and the state root, wraps each block in the digest of a Substrate
    block, whose execution writes the update to the storage of the Starknet pallet,
    indexes it, follows the blocks verified on L1, and answers JSON-RPC queries
    about blocks, transactions, receipts, traces, events and state.  The development
    translates the node's own code (the crates under [src/crates]) into executable
    definitions and proves the properties that make each part correct.

    ** The parts, and the files that model them

    - [Prelude] (this file): outcomes of Rust code ([Ok], [Err], [Panic]), machine
      integers, byte strings, the tactics and the generic lemmas.
    - [Felt] (primitives/felt/src/lib.rs): [Felt252Wrapper], the field element all
      components exchange, and its conversions to and from the number types of the
      libraries (class [FeltLibs]); SCALE encoding.  [FeltTypes]: the conversions of the
      typed field elements of starknet_api.
    - [Hashers] (primitives/hashers): the trait [HasherT] and its Pedersen and
      Poseidon implementations over the hash functions [StarknetCrypto].
    - [Transactions], [TxHash] (primitives/transactions/src/lib.rs, getters.rs,
      compute_hash.rs): the transaction types, their getters, and the hash of
      every type and version.
    - [CoreTx], [Broadcast] (to_starknet_core_transaction.rs,
      from_broadcasted_transactions.rs): transactions at the RPC boundary, stored
      ones as clients receive them and broadcast ones as the node executes them.
    - [Blocks] (primitives/block, chain-id, digest-log): headers and their hash,
      blocks, state updates, the lookup of the wrapped block in a digest.
    - [Db], [BonsaiDb] (client/db): the databases over RocksDB (class [KvStore]),
      with an abstract index that the mapping database refines; the key-value
      backend of the tries and its transactions (class [RocksTransaction]).
    - [Tries] (client/db/src/storage.rs): the handlers of the contract, storage and
      class tries over the trie library (class [BonsaiTrie]).
    - [Commitments] (client/sync/src/commitments): transaction and event
      commitments and the state root.
    - [Backend] (client/db/src/lib.rs): opening RocksDB and the tries, and the two
      process-wide singletons with their accessors.
    - [Convert] (client/sync/src/utils/convert.rs): sequencer blocks, transactions,
      events and state updates to the node's types.
    - [MappingSync] (client/mapping-sync): the worker that walks the Substrate chain
      from its leaves and fills the mapping database.  [Index] says what that database
      then answers.
    - [RpcEvents], [RpcClient] (client/rpc): paged event queries against the
      interface [BlockSource], and the lookups that implement it and serve
      transactions by hash.
    - [CallInfo] (the walks over call trees in pallets/starknet/src/lib.rs and
      client/rpc/src/utils.rs): events and messages of an execution.
    - [ContractClasses] (primitives/contract, primitives/convert): stored classes
      and ABIs, from and to the classes of the RPC specification.
    - [Pallet] (pallets/starknet/src/lib.rs, [create_digest] of
      node/src/service.rs): the pallet's storage as the record [PalletState], its
      hooks, inherent, genesis and getters, the digest of a new block and the
      execution of a block; [Chain] is the set of states that blocks can reach.
      [Codecs] has concrete SCALE codecs for it.
    - [StateAdapter], [Simulations] (blockifier_state_adapter.rs, simulations.rs,
      primitives/simulations): the state the blockifier reads and writes, fee
      estimates, simulations, re-execution and calls.
    - [Runtime] (runtime/src: config.rs, pallets.rs, lib.rs): constants, the sealing mode,
      the configuration of the pallet, the timestamp hook and the Starknet runtime API.
    - [Inherents] (primitives/sequencer-address, the inherent providers of service.rs):
      the sequencer address from the off-chain storage to the block.
    - [Overrides] (client/storage, primitives/storage, the getters of the runtime
      API): reading a block's state by raw key or through the runtime; [Layout] says
      where FRAME keeps the storage items.
    - [Fetch], [L1Sync], [L2Sync] (client/sync: fetch/fetchers.rs, l1.rs, l2.rs,
      lib.rs, utils/utility.rs, reorgs/lib.rs): fetching with retries, the readings
      of the Ethereum core contract, and the pipeline that verifies, converts and
      imports blocks.  The shared statics are the record [SyncState], the node is
      the record [World], and the tasks that run beside the imports are the rules of
      the relation [run_fetched] ([run] where only the blocks matter).
    - [Traces], [RpcTrace] (client/rpc/src/methods/trace): rendering of executions as
      traces, tracing of transactions and blocks, simulation of transactions.
    - [RpcBlocks], [RpcState] (client/rpc: get_block.rs, utils.rs, errors.rs, the
      other read methods, the write methods): blocks, receipts and status; classes,
      nonces, storage, calls, fee estimates, state updates, submissions.
    - [Genesis] (primitives/genesis-config, pallets/starknet/src/genesis_loader.rs,
      client/genesis-data-provider, node/src/chain_spec.rs and genesis_block.rs): the
      first state and the first block.
    - [RpcServer] (client/rpc/src/lib.rs, methods/*/lib.rs, node/src/rpc): the requests of
      the three JSON-RPC traits as indexed types, their handlers and their registration.
    - [EndToEnd], [EndToEndQueries], [EndToEndStorage], [EndToEndGateway]: the components
      together, with the Substrate client of the node that the synchronisation extends:
      blocks and transactions, events and contract state, contract storage and the
      tries, and the synchronisation from the answers of the gateway.
    - [UnusedHelpers] (client/sync/src/commitments/contracts.rs, the class conversions of
      client/rpc/src/utils.rs): code that nothing calls, compared with what replaced it.
    - [Node] (node/src: commands/run.rs, service.rs, chain_spec.rs, genesis_block.rs,
      command.rs): the start of a node, from the command line to the spawned tasks, as a
      state monad over [NodeState].
    - [Setup], [Cli] (node/src: commands/setup.rs, cli.rs, command.rs): the copy of the
      genesis assets, and the dispatch of the subcommands.
    - [Tui] (tui/src): the terminal dashboard, with [f64] as the Standard Library's
      [SpecFloat].

    ** How the code is represented

    Field elements, [u64] and [u128] values are integers [Z] with their range as a
    predicate ([is_felt], [is_u64], [is_u128]); where the code checks, saturates or
    wraps, the definition does.  Bytes are lists of integers below 256.  Records and
    enumerations keep the names of the source, prefixed where Rocq needs distinct
    field names.  Hash maps are [gmap]; the iteration order of a hash map and of
    parallel collection is not relied on.  A function that can fail returns an
    [Outcome]; [unwrap], [expect], [panic!] and out-of-range indexing are [Panic].
    The mapping worker, whose writes survive a later failure, is a state monad that
    returns the state with the outcome ([SyncM] of this file); the start of the node and
    the setup command use the same monad over their own state.

    Third-party code is a class of operations with the documented behaviour its
    users rely on in a second class: [FeltLibs], [StarknetCrypto],
    [ContractAddresses], [KvStore], [DbCodecs], [BonsaiTrie], [ClassLibs],
    [ProgramCodec], [SubstrateClient], [ChainBackend], [StorageProvider],
    [StorageCodecs], [DigestCodecs], [Blockifier], [NonceLibs], [Gateway] (the
    sequencer, whose answers depend on the attempt), [JoinSet] (tasks that finish
    in any order), [Ethereum], [Storage] (opening RocksDB), [InherentData], [Services]
    and [SpecLibs] (Substrate's services and chain specifications), [FileSystem], [SetupLibs],
    [RocksTransaction], [TuiLibs].  Each has a concrete instance, used by the
    witnesses of the theorems.  Hash functions are not assumed injective: theorems
    about what a hash determines assume that the hashed lists in question do not
    collide ([collision_free]).

    Recursion is structural on lists or counted: a printed [u64] has 20 digits at
    most; a client that pages through events is given one page more than the full
    chunks, which [events_pagination_complete] proves to be enough; the mapping
    worker is polled once more than there are unrecorded blocks, which
    [worker_catches_up] proves to be enough; fetching a block has the 15 turns of
    the code, which [fetch_terminates] proves to be enough; the decimal text of a
    field element has 80 digits at most.  The functions that rebuild declarations
    for receipts take fuel because they need not terminate: [None] is a call that
    has not returned, and [declare_receipt_diverges] shows that some never do.

    ** What the theorems show

    - Binding: transaction hashes and block hashes are computed without panicking and
      are equal exactly when the content they cover is ([transaction_hash_binding],
      [header_hash_binding]), and transaction commitments determine the hashes and the
      signatures they cover ([transaction_commitment_binding]), where the hash functions
      do not collide.
    - State root: which leaves a state difference writes to the tries, and how their
      roots are combined, in any order of parallel leaves ([update_state_root_correct]).
    - Databases: the mapping database refines an abstract index under any sequence
      of writes and answers queries from it; prefix reads and removals of the trie
      backend are exact and its transactions atomic ([transaction_atomic]); round trips
      of stored values; the backend is opened at most once ([backend_opened_once]).
    - Import: which sequencer blocks and transactions are converted, and with which
      fields: [stored_as] compares a stored transaction with the sequencer's field by
      field ([convert_block_spec], [transaction_conversion_roundtrip]).
    - Indexing: the mapping worker keeps its frontier, records each block as the digests
      at hand and in storage say ([sync_block_spec]), and catches up with the chain
      ([worker_catches_up]).
    - End to end: a block of the sequencer that the node has imported is served with
      the fields and transactions the sequencer gave it ([synced_block_served]), and its
      transactions are found by their hashes ([synced_transaction_found]), where
      [served_as] compares a served transaction with the sequencer's; a client that
      pages through events receives exactly those of the sequencer's receipts
      ([synced_events_served]); the contract state after every imported block is the
      fold of the sequencer's state updates ([synced_state_served]); the tries of a
      verifying node hold the storage that the updates write, which is what is served,
      and the recorded root is theirs ([verified_storage_served]); a node whose gateway
      answers imports its whole chain and then stops ([gateway_chain_imported]), and the
      class of a contract deployed on the way is the one fetched for it
      ([deployed_classes_served]); the genesis state is
      that of block 0, but for its fee tokens ([genesis_state_spec]).
    - Synchronisation: fetching ends and gives the missing classes
      ([fetch_terminates], [class_update_complete]); whatever the interleaving the
      blocks are imported in order and the imports make progress
      ([sync_imports_in_order], [import_progress]).
    - Pallet: importing a block overrides the state by exactly its update and leaves
      the block where the index looks for it ([block_import]); what holds between
      blocks ([pallet_invariant]); events and messages are recorded in the order of
      execution ([emitted_in_order]); the state adapter implements last-write-wins
      maps over the chain's state ([adapter_reads_last_write]); bounds of fee
      estimates ([fee_estimate_spec]).
    - Equivalences: raw storage and runtime API ([overrides_agree]), traces with and
      without the cache of class hashes ([trace_cache_transparent]), split and whole
      re-execution ([re_execute_is_sequential]), receipts and call trees
      ([receipt_items_complete]), unused helpers and what replaced them
      ([update_storage_trie_agrees], [casm_hash_agrees]).
    - Serving: transactions are found by hash and served with every field, broadcast
      transactions come back as they were sent, event pages cover the range exactly;
      blocks and the state of a block are served as they are stored ([block_served],
      [state_reads_spec], [legacy_class_served]); which executions a trace shows, and from
      which state ([trace_block_covers], [trace_transaction_target]).
    - Start: which starts succeed and what runs then ([node_start], [start_decided]);
      the sequencer address of every block ([sequencer_address_flow]); what the setup
      command may write and verifies ([setup_verified]); every method of the RPC is
      registered and served ([every_method_served]), and those about transactions agree,
      but for the pending tag ([transaction_methods_agree]).
    - Dashboard: it shows the last hundred readings, draws every frame but those with
      an undefined rate, and restores the terminal when it ends normally
      ([dashboard_shows_last_readings], [dashboard_frame], [terminal_restored]).
    - Departures from the intent of the code are theorems too, e.g.
      [sync_one_block_error], [declare_receipt_diverges],
      [storage_at_ignores_block], [receipt_order_lost], [gas_prices_served],
      [estimate_without_flags_is_empty], [pending_block_not_stored],
      [declare_v1_nonce_not_signed], [missing_to_block_is_genesis],
      [transactions_of_other_networks_not_found], [genesis_events_panic].

    ** What is not modelled

    The dispatchables of the pallet that are commented out and its file
    execution_config.rs, which no module includes, are left out, and so are the notes
    played by client/sync/src/utils/m.rs, what the macros of FRAME and clap generate, the
    runtime APIs that only forward to Substrate's pallets, the transport of the JSON-RPC
    server, the benchmark helpers of the node, type aliases, serialization derived by
    serde, the copy of Substrate's logger under tui/substrate, and the metrics registry. *)

(** ** Prelude: shared notations, tactics and generic lemmas *)

From Stdlib Require Export ZArith Lia.
From stdpp Require Export base list gmap strings fin_maps option.
From stdpp Require Import options.
Export stdpp.list.

#[global] Open Scope Z_scope.

(** ** Outcomes of fallible Rust code

    A Rust function either returns ([Ok]), returns an error value ([Err]) or
    panics ([Panic]: a failed [unwrap], [expect], [assert!], slice index or
    [panic!]).  A function whose Rust type is not a [Result] has the error
    type [Empty_set]. *)

Inductive Outcome (E A : Type) : Type :=
| Ok (a : A)
| Err (e : E)
| Panic.
Arguments Ok {E A} a.
Arguments Err {E A} e.
Arguments Panic {E A}.

#[global] Instance Outcome_ret {E} : MRet (Outcome E) := λ A a, Ok a.
#[global] Instance Outcome_bind {E} : MBind (Outcome E) := λ A B f m,
  match m with Ok a => f a | Err e => Err e | Panic => Panic end.
#[global] Instance Outcome_fmap {E} : FMap (Outcome E) := λ A B f m,
  match m with Ok a => Ok (f a) | Err e => Err e | Panic => Panic end.

#[global] Instance Outcome_eq_dec {E A} `{EqDecision E, EqDecision A} :
  EqDecision (Outcome E A).
Proof. solve_decision. Defined.

(** [Result::map_err]. *)
Definition map_err {E F A} (f : E → F) (m : Outcome E A) : Outcome F A :=
  match m with Ok a => Ok a | Err e => Err (f e) | Panic => Panic end.

(** [Result::unwrap] and [Result::expect]: an error value becomes a panic. *)
Definition unwrap {E F A} (m : Outcome E A) : Outcome F A :=
  match m with Ok a => Ok a | Err _ => Panic | Panic => Panic end.

(** [Option::unwrap] and [Option::expect]. *)
Definition unwrap_opt {E A} (o : option A) : Outcome E A :=
  match o with Some a => Ok a | None => Panic end.

(** [Option::ok_or]. *)
Definition ok_or {E A} (e : E) (o : option A) : Outcome E A :=
  match o with Some a => Ok a | None => Err e end.

(** [assert!]. *)
Definition assert_true {E} (b : bool) : Outcome E unit := if b then Ok tt else Panic.

(** [Result::is_ok]. *)
Definition is_ok {E A} (m : Outcome E A) : bool := match m with Ok _ => true | _ => false end.

(** A [for] loop whose body may fail ([?] in a loop). *)
Fixpoint foldM {E A B} (f : A → B → Outcome E A) (a : A) (l : list B) : Outcome E A :=
  match l with
  | [] => Ok a
  | x :: l => a ← f a x; foldM f a l
  end.

(** ** Machine integers *)

Definition u8_max : Z := 2 ^ 8 - 1.
Definition u32_max : Z := 2 ^ 32 - 1.
Definition u64_max : Z := 2 ^ 64 - 1.
Definition u128_max : Z := 2 ^ 128 - 1.

Definition is_u64 (x : Z) : Prop := 0 ≤ x ≤ u64_max.
Definition is_u128 (x : Z) : Prop := 0 ≤ x ≤ u128_max.

(** [u128::saturating_add], [saturating_mul] and [saturating_sub]. *)
Definition sat_add128 (x y : Z) : Z := Z.min (x + y) u128_max.
Definition sat_mul128 (x y : Z) : Z := Z.min (x * y) u128_max.
Definition sat_sub128 (x y : Z) : Z := Z.max (x - y) 0.

(** ** Byte strings, as lists of integers in [0, 256) *)

Abbreviation bytes := (list Z).

Definition is_byte (b : Z) : Prop := 0 ≤ b < 256.
Abbreviation all_bytes := (Forall is_byte).

#[global] Instance is_byte_dec b : Decision (is_byte b).
Proof. unfold is_byte. apply _. Defined.

(** Big-endian value of a byte string. *)
Definition be_decode (bs : bytes) : Z := foldl (λ acc b, acc * 256 + b) 0 bs.

(** The [n] low bytes of [x], most significant first ([to_be_bytes]). *)
Fixpoint be_encode (n : nat) (x : Z) : bytes :=
  match n with
  | O => []
  | S n => be_encode n (x / 256) ++ [x mod 256]
  end.

(** Little-endian counterparts ([to_le_bytes], [from_le_bytes]). *)
Definition le_encode (n : nat) (x : Z) : bytes := reverse (be_encode n x).
Definition le_decode (bs : bytes) : Z := be_decode (reverse bs).

(** The ASCII bytes of a Rust byte-string literal. *)
Definition bytes_of_string (s : string) : bytes :=
  (λ c, Z.of_N (Ascii.N_of_ascii c)) <$> String.list_ascii_of_string s.

(** ** Tactics *)

(** Splits on the scrutinee of the innermost [match] of the goal. *)
Ltac split_match :=
  match goal with
  | |- context [match ?x with _ => _ end] => destruct x eqn:?
  end.

(** Runs a hypothesis [m ≫= f = Ok r] backwards: every bound computation was [Ok]. *)
Ltac ok_inv :=
  repeat match goal with
  | H : mbind _ ?m = Ok _ |- _ => destruct m eqn:?; simpl in H; try discriminate H
  | H : Outcome_bind _ _ _ ?m = Ok _ |- _ => destruct m eqn:?; simpl in H; try discriminate H
  | H : mret _ = Ok _ |- _ => unfold mret, Outcome_ret in H
  | H : Ok _ = Ok _ |- _ => injection H as H; subst
  | H : Err _ = Ok _ |- _ => discriminate H
  | H : Panic = Ok _ |- _ => discriminate H
  end.

Ltac bool_to_prop :=
  repeat match goal with
  | H : (_ && _)%bool = true |- _ => apply andb_true_iff in H as [? ?]
  | H : (_ || _)%bool = false |- _ => apply orb_false_iff in H as [? ?]
  | H : (_ <? _) = true |- _ => apply Z.ltb_lt in H
  | H : (_ <? _) = false |- _ => apply Z.ltb_ge in H
  | H : (_ <=? _) = true |- _ => apply Z.leb_le in H
  | H : (_ <=? _) = false |- _ => apply Z.leb_gt in H
  | H : (_ =? _) = true |- _ => apply Z.eqb_eq in H
  | H : (_ =? _) = false |- _ => apply Z.eqb_neq in H
  end.

(** ** Lemmas on byte strings *)

Create HintDb bytes.
Create Rewrite HintDb bytes_rw.

Lemma be_decode_nil : be_decode [] = 0.
Proof. done. Qed.

Lemma be_decode_snoc bs b : be_decode (bs ++ [b]) = be_decode bs * 256 + b.
Proof. unfold be_decode. by rewrite foldl_app. Qed.

Lemma be_decode_app bs1 bs2 :
  be_decode (bs1 ++ bs2) = be_decode bs1 * 256 ^ Z.of_nat (length bs2) + be_decode bs2.
Proof.
  induction bs2 as [|b bs2 IH] using rev_ind.
  - rewrite app_nil_r. simpl. change (be_decode []) with 0. lia.
  - rewrite app_assoc, !be_decode_snoc, IH, length_app, Nat2Z.inj_add.
    change (Z.of_nat (length [b])) with 1. rewrite Z.pow_add_r, Z.pow_1_r by lia. ring.
Qed.

Lemma be_decode_cons b bs :
  be_decode (b :: bs) = b * 256 ^ Z.of_nat (length bs) + be_decode bs.
Proof. change (b :: bs) with ([b] ++ bs). by rewrite be_decode_app. Qed.

Lemma be_decode_bound bs :
  all_bytes bs → 0 ≤ be_decode bs < 256 ^ Z.of_nat (length bs).
Proof.
  induction bs as [|b bs IH] using rev_ind; intros H; [done|].
  apply Forall_app in H as [Hbs Hb]. rewrite Forall_singleton in Hb.
  specialize (IH Hbs). unfold is_byte in Hb.
  rewrite be_decode_snoc, length_app, Nat2Z.inj_add.
  change (Z.of_nat (length [b])) with 1. rewrite Z.pow_add_r, Z.pow_1_r by lia.
  lia.
Qed.

Lemma be_decode_replicate_0 n : be_decode (replicate n 0) = 0.
Proof.
  induction n as [|n IH]; [done|].
  change (replicate (S n) 0) with (0 :: replicate n 0).
  rewrite be_decode_cons, IH. lia.
Qed.

Lemma be_decode_pad n bs : be_decode (replicate n 0 ++ bs) = be_decode bs.
Proof. rewrite be_decode_app, be_decode_replicate_0. lia. Qed.

Lemma be_encode_length n x : length (be_encode n x) = n.
Proof.
  revert x; induction n as [|n IH]; intros x; simpl; [done|].
  rewrite length_app, IH. simpl. lia.
Qed.

Lemma be_encode_bytes n x : all_bytes (be_encode n x).
Proof.
  revert x; induction n as [|n IH]; intros x; simpl; [constructor|].
  apply Forall_app. split; [apply IH|].
  apply Forall_singleton. unfold is_byte. apply Z.mod_pos_bound. lia.
Qed.

Lemma be_decode_encode n x :
  0 ≤ x < 256 ^ Z.of_nat n → be_decode (be_encode n x) = x.
Proof.
  revert x; induction n as [|n IH]; intros x Hx; simpl.
  - change (Z.of_nat 0) with 0 in Hx. rewrite Z.pow_0_r in Hx. cbn. lia.
  - rewrite Nat2Z.inj_succ, Z.pow_succ_r in Hx by lia.
    rewrite be_decode_snoc, IH.
    + pose proof (Z.div_mod x 256). lia.
    + split; [apply Z.div_pos; lia|].
      apply Z.div_lt_upper_bound; lia.
Qed.

Lemma be_encode_decode bs :
  all_bytes bs → be_encode (length bs) (be_decode bs) = bs.
Proof.
  induction bs as [|b bs IH] using rev_ind; intros H; [done|].
  apply Forall_app in H as [Hbs Hb]. rewrite Forall_singleton in Hb.
  unfold is_byte in Hb.
  rewrite length_app. simpl length. rewrite Nat.add_1_r. simpl.
  rewrite be_decode_snoc.
  rewrite Z.div_add_l by lia. rewrite (Z.div_small b) by lia.
  rewrite Z.add_0_r, IH by done. f_equal. f_equal.
  rewrite Z.add_comm, Z_mod_plus_full. apply Z.mod_small. lia.
Qed.

Lemma be_decode_inj bs1 bs2 :
  all_bytes bs1 → all_bytes bs2 → length bs1 = length bs2 →
  be_decode bs1 = be_decode bs2 → bs1 = bs2.
Proof.
  intros H1 H2 Hlen Heq.
  rewrite <-(be_encode_decode bs1), <-(be_encode_decode bs2) by done.
  by rewrite Hlen, Heq.
Qed.

Lemma be_encode_inj n x y :
  0 ≤ x < 256 ^ Z.of_nat n → 0 ≤ y < 256 ^ Z.of_nat n →
  be_encode n x = be_encode n y → x = y.
Proof.
  intros Hx Hy Heq.
  rewrite <-(be_decode_encode n x), <-(be_decode_encode n y) by done.
  by rewrite Heq.
Qed.

Lemma le_encode_length n x : length (le_encode n x) = n.
Proof. unfold le_encode. by rewrite length_reverse, be_encode_length. Qed.

Lemma le_decode_encode n x :
  0 ≤ x < 256 ^ Z.of_nat n → le_decode (le_encode n x) = x.
Proof.
  intros H. unfold le_decode, le_encode. rewrite reverse_involutive.
  by apply be_decode_encode.
Qed.

#[global] Arguments be_encode : simpl never.
#[global] Arguments be_decode : simpl never.

#[export] Hint Resolve be_encode_bytes be_decode_bound : bytes.
#[export] Hint Rewrite be_encode_length le_encode_length : bytes_rw.

(** ** Lemmas on lists *)

Lemma cons_inj {A} (x y : A) l k : x :: l = y :: k → x = y ∧ l = k.
Proof. by intros [= -> ->]. Qed.

(** Componentwise equations of equal list literals. *)
Ltac cons_inv :=
  repeat match goal with
  | H : _ :: _ = _ :: _ |- _ => apply cons_inj in H as [? H]
  | H : [] = [] |- _ => clear H
  end.

Lemma Forall_elem {A} (P : A → Prop) l x : Forall P l → x ∈ l → P x.
Proof. rewrite Forall_forall. auto. Qed.

Lemma mapM_Ok_Forall2 {E A B} (f : A → Outcome E B) l k :
  mapM f l = Ok k ↔ Forall2 (λ x y, f x = Ok y) l k.
Proof.
  revert k; induction l as [|x l IH]; intros k; simpl.
  - split; [intros [= <-]; constructor | by inversion 1].
  - split.
    + intros H. ok_inv. constructor; naive_solver.
    + inversion 1 as [|? ? ? ? Hx Hl]; subst. rewrite Hx. simpl.
      apply IH in Hl. unfold mbind in *. by rewrite Hl.
Qed.

Lemma mapM_is_ok {E A B} (f : A → Outcome E B) l :
  Forall (λ x, is_ok (f x) = true) l → ∃ ys, mapM f l = Ok ys.
Proof.
  induction 1 as [|x l Hx _ [ys IH]]; [by exists []|]. simpl. rewrite IH.
  destruct (f x) as [y| |]; try discriminate. by exists (y :: ys).
Qed.

Lemma mapM_Ok_map {E A B} (f : A → Outcome E B) (g : A → B) l :
  Forall (λ x, f x = Ok (g x)) l → mapM f l = Ok (map g l).
Proof.
  intros H. apply mapM_Ok_Forall2. induction H; simpl; constructor; auto.
Qed.

Lemma foldM_ext {E A B} (f g : A → B → Outcome E A) a l :
  (∀ a x, f a x = g a x) → foldM f a l = foldM g a l.
Proof.
  intros H. revert a. induction l as [|x l IH]; intros a; simpl; [done|].
  rewrite H. destruct (g a x); simpl; [apply IH|done..].
Qed.

Lemma foldM_app {E A B} (f : A → B → Outcome E A) a l1 l2 :
  foldM f a (l1 ++ l2) = (a ← foldM f a l1; foldM f a l2).
Proof.
  revert a. induction l1 as [|x l1 IH]; intros a; simpl; [done|].
  destruct (f a x); simpl; [apply IH|done..].
Qed.

(** An invariant of the body that holds before the loop holds after it. *)
Lemma foldM_invariant {E A B} (P : A → Prop) (f : A → B → Outcome E A) a l a' :
  P a → (∀ a x a', x ∈ l → P a → f a x = Ok a' → P a') → foldM f a l = Ok a' → P a'.
Proof.
  intros HP Hf. revert a HP. induction l as [|x l IH]; intros a HP; simpl.
  { by intros [= <-]. }
  destruct (f a x) as [a1| |] eqn:E1; simpl; [|done..]. apply IH.
  - intros. eapply Hf; [by apply list_elem_of_further|done..].
  - eapply Hf; [apply list_elem_of_here|done..].
Qed.

(** A loop of map insertions with distinct keys. *)
Lemma foldl_insert {A V} (f : A → Z) (g : A → V) (l : list A) (m : gmap Z V) :
  NoDup (f <$> l) →
  (∀ x, x ∈ l → foldl (λ m x, <[f x := g x]> m) m l !! f x = Some (g x)) ∧
  (∀ k, k ∉ f <$> l → foldl (λ m x, <[f x := g x]> m) m l !! k = m !! k).
Proof.
  revert m. induction l as [|y l IH]; intros m Hnd; simpl.
  { split; [|done]. intros ? []%elem_of_nil. }
  rewrite fmap_cons in Hnd. apply NoDup_cons in Hnd as [Hy Hnd].
  destruct (IH (<[f y := g y]> m) Hnd) as [H1 H2]. split.
  - intros x [->|Hx]%elem_of_cons; [|by apply H1]. rewrite H2 by done. apply lookup_insert_eq.
  - intros k [Hne Hk]%not_elem_of_cons.
    rewrite H2 by done. by apply lookup_insert_ne.
Qed.

(** ** Effects: the state left behind, and the outcome

    A failing step keeps what it changed. *)

Definition SyncM (St E A : Type) : Type := St → St * Outcome E A.
#[global] Instance SyncM_ret {St E} : MRet (SyncM St E) := λ A a s, (s, Ok a).
#[global] Instance SyncM_bind {St E} : MBind (SyncM St E) := λ A B f m s,
  match m s with
  | (s', Ok a) => f a s'
  | (s', Err e) => (s', Err e)
  | (s', Panic) => (s', Panic)
  end.

Definition fail {St E A} (e : E) : SyncM St E A := λ s, (s, Err e).
Definition lift {St E A} (m : Outcome E A) : SyncM St E A := λ s, (s, m).
Definition lift_pure {St E A} (m : Outcome Empty_set A) : SyncM St E A :=
  lift (map_err (Empty_set_rect (λ _, E)) m).

(** [Result::map_err] of an effect. *)
Definition map_err_m {St E F A} (f : E → F) (m : SyncM St E A) : SyncM St F A := λ s,
  let '(s', r) := m s in (s', map_err f r).

(** What a step that succeeds consists of. *)
Lemma bind_ok {St E A B} (m : SyncM St E A) (f : A → SyncM St E B) s s' b :
  (m ≫= f) s = (s', Ok b) ↔ ∃ s1 a, m s = (s1, Ok a) ∧ f a s1 = (s', Ok b).
Proof.
  change ((m ≫= f) s) with (SyncM_bind A B f m s). unfold SyncM_bind.
  destruct (m s) as [s1 [a|e|]]; split; try done.
  - intros. by exists s1, a.
  - by intros (? & ? & [= <- <-] & ?).
  - by intros (? & ? & ? & ?).
  - by intros (? & ? & ? & ?).
Qed.

Lemma bind_err {St E A B} (m : SyncM St E A) (f : A → SyncM St E B) s s' e :
  (m ≫= f) s = (s', Err e) → m s = (s', Err e) ∨ ∃ s1 a, m s = (s1, Ok a) ∧ f a s1 = (s', Err e).
Proof.
  change ((m ≫= f) s) with (SyncM_bind A B f m s). unfold SyncM_bind.
  destruct (m s) as [s1 [a|e'|]]; intros H; [right; by exists s1, a | left; by injection H as <- <- | done].
Qed.

Lemma bind_run {St E A B} (m : SyncM St E A) (f : A → SyncM St E B) s s1 a :
  m s = (s1, Ok a) → (m ≫= f) s = f a s1.
Proof. intros H. change ((m ≫= f) s) with (SyncM_bind A B f m s). unfold SyncM_bind. by rewrite H. Qed.

(** Runs the steps of an effect, up to the first unknown outcome. *)
Ltac run_m := cbv beta iota zeta delta [mbind mret SyncM_bind SyncM_ret lift fail].

(** Runs a hypothesis [m s = (s', Ok a)] backwards. *)
Ltac sync_inv :=
  repeat match goal with
  | H : (_ ≫= _) _ = (_, Ok _) |- _ => apply bind_ok in H as (? & ? & ? & ?)
  | H : lift _ _ = (_, _) |- _ => unfold lift in H
  | H : lift_pure _ _ = (_, _) |- _ => unfold lift_pure, lift in H
  | H : mret _ _ = (_, _) |- _ => unfold mret, SyncM_ret in H
  | H : fail _ _ = (_, Ok _) |- _ => discriminate H
  | H : (if ?b then fail _ else _) _ = (_, Ok _) |- _ => destruct b eqn:?; [discriminate H|]
  | H : (_, _) = (_, _) |- _ => injection H as ? ?; subst
  | H : () |- _ => destruct H
  end.
