(* ===== verification/Felt.v ===== *)
(** * Felt: the field-element wrapper ([crates/primitives/felt])

    [Felt252Wrapper] wraps the [FieldElement] of starknet-ff.  A field element
    is represented here by its canonical value, an integer in [0, P).  The
    third-party number types the wrapper converts to and from (starknet-ff,
    starknet_api, starknet_types_core, cairo_vm, primitive-types) are the
    class [FeltLibs]; what the wrapper relies on is the class [FeltLibsSpec].
    [felt_libs_model] is a concrete instance, used by the examples. *)

From Stdlib Require Import Ascii.
From S2P Require Import Prelude.

(** The Stark prime; [FieldElement::MAX] is [P - 1] = 2^251 + 17 * 2^192. *)
Definition P : Z := 2 ^ 251 + 17 * 2 ^ 192 + 1.

Definition is_felt (x : Z) : Prop := 0 ≤ x < P.

#[global] Instance is_felt_dec x : Decision (is_felt x).
Proof. unfold is_felt. apply _. Defined.

(** ** Errors *)

Inductive FromByteSliceError := FBS_InvalidLength | FBS_OutOfRange.
Inductive FromStrError := FS_InvalidCharacter | FS_OutOfRange.

Inductive Felt252WrapperError :=
| FromArrayError
| InvalidLength
| InvalidCharacter
| OutOfRange
| ValueTooLarge.

#[global] Instance Felt252WrapperError_eq_dec : EqDecision Felt252WrapperError.
Proof. solve_decision. Defined.

(** ** The third-party number libraries *)

Class FeltLibs := {
  (* starknet_ff::FieldElement *)
  FieldElement_from_bytes_be : bytes → option Z;
  FieldElement_from_byte_slice_be : bytes → Outcome FromByteSliceError Z;
  FieldElement_to_bytes_be : Z → bytes;
  FieldElement_from_hex_be : string → Outcome FromStrError Z;
  FieldElement_from_dec_str : string → Outcome FromStrError Z;
  FieldElement_from_uint : Z → Z;          (* From<u8>, From<u32>, From<u64>, From<u128> *)
  FieldElement_try_into_u64 : Z → option Z;
  FieldElement_try_into_u128 : Z → option Z;
  FieldElement_add : Z → Z → Z;
  FieldElement_from_mont : Z → Z → Z → Z → Z;  (* the four limbs, least significant first *)
  (* primitive_types::U256, a 256-bit integer *)
  U256_from_u128 : Z → Z;
  U256_from_big_endian : bytes → Z;
  U256_to_big_endian : Z → bytes;
  (* starknet_api::hash::StarkFelt, 32 checked bytes *)
  StarkFelt_new : bytes → option bytes;
  (* starknet_types_core::felt::Felt *)
  Felt_from_bytes_be : bytes → Z;
  Felt_to_bytes_be : Z → bytes;
  (* cairo_vm::felt::Felt252 *)
  Felt252_from_bytes_be : bytes → Z;
  Felt252_to_be_bytes : Z → bytes;
}.

(** Documented behaviour the wrapper relies on. *)
Class FeltLibsSpec (libs : FeltLibs) : Prop := {
  from_bytes_be_ok bs : length bs = 32%nat → all_bytes bs →
    FieldElement_from_bytes_be bs = if be_decode bs <? P then Some (be_decode bs) else None;
  from_byte_slice_be_ok bs : all_bytes bs →
    FieldElement_from_byte_slice_be bs =
      if (32 <? length bs)%nat then Err FBS_InvalidLength
      else if be_decode bs <? P then Ok (be_decode bs) else Err FBS_OutOfRange;
  to_bytes_be_ok x : is_felt x → FieldElement_to_bytes_be x = be_encode 32 x;
  from_uint_ok x : is_u128 x → FieldElement_from_uint x = x;
  try_into_u64_ok x : is_felt x →
    FieldElement_try_into_u64 x = if x <=? u64_max then Some x else None;
  try_into_u128_ok x : is_felt x →
    FieldElement_try_into_u128 x = if x <=? u128_max then Some x else None;
  fe_add_ok x y : is_felt x → is_felt y → FieldElement_add x y = (x + y) mod P;
  from_mont_ok a b c d : is_felt (a + b * 2 ^ 64 + c * 2 ^ 128 + d * 2 ^ 192) →
    is_felt (FieldElement_from_mont a b c d) ∧
    (FieldElement_from_mont a b c d * 2 ^ 256) mod P = a + b * 2 ^ 64 + c * 2 ^ 128 + d * 2 ^ 192;
  u256_from_u128_ok x : is_u128 x → U256_from_u128 x = x;
  u256_from_be_ok bs : length bs = 32%nat → all_bytes bs →
    U256_from_big_endian bs = be_decode bs;
  u256_to_be_ok x : 0 ≤ x < 2 ^ 256 → U256_to_big_endian x = be_encode 32 x;
  starkfelt_new_ok bs : length bs = 32%nat → all_bytes bs →
    StarkFelt_new bs = if be_decode bs <? P then Some bs else None;
  felt_from_ok bs : length bs = 32%nat → all_bytes bs →
    Felt_from_bytes_be bs = be_decode bs mod P;
  felt_to_ok x : is_felt x → Felt_to_bytes_be x = be_encode 32 x;
  felt252_from_ok bs : length bs = 32%nat → all_bytes bs →
    Felt252_from_bytes_be bs = be_decode bs mod P;
  felt252_to_ok x : is_felt x → Felt252_to_be_bytes x = be_encode 32 x;
}.

(** ** UTF-8 validation of the standard library ([core::str::from_utf8]) *)

Definition in_range (lo hi b : Z) : bool := (lo <=? b) && (b <=? hi).
Definition is_cont : Z → bool := in_range 128 191.

(** Well-formed UTF-8 byte sequences, as the standard library's table of
    leading and continuation bytes has them. *)
Fixpoint utf8_valid (bs : bytes) : bool :=
  match bs with
  | [] => true
  | b0 :: r0 =>
    if b0 <? 128 then utf8_valid r0 else
    match r0 with
    | [] => false
    | b1 :: r1 =>
      if in_range 194 223 b0 then is_cont b1 && utf8_valid r1 else
      match r1 with
      | [] => false
      | b2 :: r2 =>
        if (b0 =? 224) && in_range 160 191 b1
           || in_range 225 236 b0 && is_cont b1
           || (b0 =? 237) && in_range 128 159 b1
           || in_range 238 239 b0 && is_cont b1
        then is_cont b2 && utf8_valid r2 else
        match r2 with
        | [] => false
        | b3 :: r3 =>
          ((b0 =? 240) && in_range 144 191 b1
           || in_range 241 243 b0 && is_cont b1
           || (b0 =? 244) && in_range 128 143 b1)
          && is_cont b2 && is_cont b3 && utf8_valid r3
        end
      end
    end
  end.

(** [str::trim_start_matches('\0')]. *)
Fixpoint trim_start_nul (bs : bytes) : bytes :=
  match bs with
  | b :: r => if b =? 0 then trim_start_nul r else bs
  | [] => []
  end.

(** ** The wrapper *)

Module Felt252Wrapper.
Section Wrapper.
Context `{libs : FeltLibs}.

Definition ZERO : Z := 0.
Definition ONE : Z := 1.
Definition TWO : Z := 2.
Definition THREE : Z := 3.
Definition MAX : Z := P - 1.

(** [impl From<FromStrError> for Felt252WrapperError] *)
Definition error_from_FromStrError (e : FromStrError) : Felt252WrapperError :=
  match e with
  | FS_InvalidCharacter => InvalidCharacter
  | FS_OutOfRange => OutOfRange
  end.

Definition from_hex_be (value : string) : Outcome Felt252WrapperError Z :=
  map_err error_from_FromStrError (FieldElement_from_hex_be value).

Definition from_dec_str (value : string) : Outcome Felt252WrapperError Z :=
  map_err error_from_FromStrError (FieldElement_from_dec_str value).

Definition from_utf8 (self : Z) : Outcome Felt252WrapperError bytes :=
  let bs := FieldElement_to_bytes_be self in
  if utf8_valid bs then Ok (trim_start_nul bs) else Err InvalidCharacter.

Definition default : Z := 0.

(** [impl From<Felt252Wrapper> for [u8; 32]] *)
Definition into_bytes (felt : Z) : bytes := FieldElement_to_bytes_be felt.

(** [impl TryFrom<&[u8; 32]>] *)
Definition try_from_array (bs : bytes) : Outcome Felt252WrapperError Z :=
  match FieldElement_from_bytes_be bs with
  | Some ff => Ok ff
  | None => Err FromArrayError
  end.

(** [impl TryFrom<&[u8]>] *)
Definition try_from_slice (bs : bytes) : Outcome Felt252WrapperError Z :=
  match FieldElement_from_byte_slice_be bs with
  | Ok ff => Ok ff
  | Err FBS_InvalidLength => Err InvalidLength
  | Err FBS_OutOfRange => Err OutOfRange
  | Panic => Panic
  end.

Definition from_u64 (value : Z) : Z := FieldElement_from_uint value.
Definition from_u32 (value : Z) : Z := FieldElement_from_uint value.
Definition from_u8 (value : Z) : Z := FieldElement_from_uint value.

(** [impl TryFrom<U256>] *)
Definition try_from_u256 (u256 : Z) : Outcome Felt252WrapperError Z :=
  let buf := U256_to_big_endian u256 in
  try_from_array buf.

(** [impl From<u128>] *)
Definition from_u128 (value : Z) : Outcome Empty_set Z :=
  unwrap (try_from_u256 (U256_from_u128 value)).

(** [impl TryFrom<Felt252Wrapper> for u64] and [for u128] *)
Definition try_into_u64 (value : Z) : Outcome Felt252WrapperError Z :=
  ok_or ValueTooLarge (FieldElement_try_into_u64 value).

Definition try_into_u128 (value : Z) : Outcome Felt252WrapperError Z :=
  ok_or ValueTooLarge (FieldElement_try_into_u128 value).

(** [impl From<Felt252Wrapper> for U256] *)
Definition into_u256 (felt : Z) : Z := U256_from_big_endian (FieldElement_to_bytes_be felt).

(** [impl TryFrom<H256>]; an [H256] is its 32 bytes. *)
Definition try_from_h256 (h : bytes) : Outcome Felt252WrapperError Z := try_from_slice h.

(** [impl From<Felt252Wrapper> for H256]; [H256::from_slice] panics on a wrong length. *)
Definition into_h256 (felt : Z) : Outcome Empty_set bytes :=
  let buf := into_bytes felt in
  if (length buf =? 32)%nat then Ok buf else Panic.

(** Conversions with the [Felt] of starknet_types_core *)
Definition from_felt (value : Z) : Outcome Empty_set Z :=
  unwrap (try_from_array (Felt_to_bytes_be value)).
Definition into_felt (value : Z) : Z := Felt_from_bytes_be (FieldElement_to_bytes_be value).

(** Conversions with the [Felt252] of cairo_vm *)
Definition from_felt252 (value : Z) : Outcome Empty_set Z :=
  unwrap (try_from_array (Felt252_to_be_bytes value)).
Definition into_felt252 (felt : Z) : Z :=
  let buf := into_bytes felt in Felt252_from_bytes_be buf.

(** Conversions with the [StarkFelt] of starknet_api, 32 bytes *)
Definition from_starkfelt (value : bytes) : Outcome Empty_set Z :=
  unwrap (try_from_slice value).
Definition into_starkfelt (felt : Z) : Outcome Empty_set bytes :=
  let buf := into_bytes felt in unwrap_opt (StarkFelt_new buf).

(** SCALE: [Encode::encode_to] writes the 32 bytes, [Decode::decode] reads 32
    bytes of the input (an error when it has fewer) and converts them. *)
Inductive CodecError := NotEnoughData | CannotGetFieldElement (buf : bytes) (e : Felt252WrapperError).

Definition encode_to (self : Z) (dest : bytes) : bytes := dest ++ FieldElement_to_bytes_be self.

Definition max_encoded_len : nat := 32.

Definition decode (input : bytes) : Outcome CodecError (Z * bytes) :=
  if (length input <? 32)%nat then Err NotEnoughData else
  let buf := take 32 input in
  let rest := drop 32 input in
  match try_from_array buf with
  | Ok felt => Ok (felt, rest)
  | Err e => Err (CannotGetFieldElement buf e)
  | Panic => Panic
  end.

End Wrapper.
End Felt252Wrapper.

(** ** A concrete instance of the number libraries *)

Definition hex_digit (c : Ascii.ascii) : option Z :=
  let n := Z.of_N (Ascii.N_of_ascii c) in
  if (48 <=? n) && (n <=? 57) then Some (n - 48)
  else if (97 <=? n) && (n <=? 102) then Some (n - 87)
  else if (65 <=? n) && (n <=? 70) then Some (n - 55)
  else None.

Definition parse_base (base : Z) (s : string) : Outcome FromStrError Z :=
  foldl (λ acc c,
    a ← acc;
    match hex_digit c with
    | Some d => if d <? base then
                  if a * base + d <? P then Ok (a * base + d) else Err FS_OutOfRange
                else Err FS_InvalidCharacter
    | None => Err FS_InvalidCharacter
    end) (Ok 0) (String.list_ascii_of_string s).

Definition strip_0x (s : string) : string :=
  match s with
  | String "0"%char (String "x"%char r) => r
  | _ => s
  end.

(** The inverse of the Montgomery radix 2^256 modulo [P]. *)
Definition mont_R_inv : Z :=
  113078212145816603762751633895895194930089271709401121343797004406777446400.

#[export] Instance felt_libs_model : FeltLibs := {|
  FieldElement_from_bytes_be bs :=
    if be_decode bs <? P then Some (be_decode bs) else None;
  FieldElement_from_byte_slice_be bs :=
    if (32 <? length bs)%nat then Err FBS_InvalidLength
    else if be_decode bs <? P then Ok (be_decode bs) else Err FBS_OutOfRange;
  FieldElement_to_bytes_be := be_encode 32;
  FieldElement_from_hex_be s := parse_base 16 (strip_0x s);
  FieldElement_from_dec_str := parse_base 10;
  FieldElement_from_uint x := x;
  FieldElement_try_into_u64 x := if x <=? u64_max then Some x else None;
  FieldElement_try_into_u128 x := if x <=? u128_max then Some x else None;
  FieldElement_add x y := (x + y) mod P;
  FieldElement_from_mont a b c d :=
    ((a + b * 2 ^ 64 + c * 2 ^ 128 + d * 2 ^ 192) * mont_R_inv) mod P;
  U256_from_u128 x := x;
  U256_from_big_endian := be_decode;
  U256_to_big_endian := be_encode 32;
  StarkFelt_new bs := if be_decode bs <? P then Some bs else None;
  Felt_from_bytes_be bs := be_decode bs mod P;
  Felt_to_bytes_be := be_encode 32;
  Felt252_from_bytes_be bs := be_decode bs mod P;
  Felt252_to_be_bytes := be_encode 32;
|}.

#[export] Instance felt_libs_model_spec : FeltLibsSpec felt_libs_model.
Proof.
  split; try done. intros a b c d H.
  remember (a + b * 2 ^ 64 + c * 2 ^ 128 + d * 2 ^ 192) as v eqn:E.
  simpl. rewrite <-E. split; [apply Z.mod_pos_bound; done|].
  rewrite Zmult_mod_idemp_l, <-Z.mul_assoc, Zmult_mod.
  change ((mont_R_inv * 2 ^ 256) mod P) with 1.
  rewrite Z.mul_1_r, Zmod_mod. by apply Z.mod_small.
Qed.

(** ** Properties *)

Lemma P_pos : 0 < P. Proof. done. Qed.
Lemma P_lt_2_252 : P < 2 ^ 252. Proof. done. Qed.
Lemma P_lt_256_32 : P < 256 ^ 32. Proof. done. Qed.
Lemma u128_lt_P : u128_max < P. Proof. done. Qed.
Lemma u64_lt_u128 : u64_max < u128_max. Proof. done. Qed.

Lemma is_felt_256 x : is_felt x → 0 ≤ x < 256 ^ Z.of_nat 32.
Proof. intros [? ?]. pose proof P_lt_256_32. change (Z.of_nat 32) with 32. lia. Qed.

Lemma is_u128_felt x : is_u128 x → is_felt x.
Proof. intros [? ?]. pose proof u128_lt_P. unfold is_felt. lia. Qed.

Lemma is_u64_u128 x : is_u64 x → is_u128 x.
Proof. intros [? ?]. pose proof u64_lt_u128. unfold is_u128. lia. Qed.

#[export] Hint Resolve is_felt_256 is_u128_felt is_u64_u128 : bytes.

Lemma be_decode_encode_felt x : is_felt x → be_decode (be_encode 32 x) = x.
Proof. intros ?. apply be_decode_encode. auto with bytes. Qed.

Lemma trim_start_nul_zeros n bs : trim_start_nul (replicate n 0 ++ bs) = trim_start_nul bs.
Proof. by induction n as [|n IH]. Qed.

Lemma trim_start_nul_id b bs : b ≠ 0 → trim_start_nul (b :: bs) = b :: bs.
Proof. intros ?. simpl. by rewrite (proj2 (Z.eqb_neq b 0)). Qed.

Lemma utf8_valid_zeros n bs : utf8_valid (replicate n 0 ++ bs) = utf8_valid bs.
Proof. by induction n as [|n IH]. Qed.

(** A byte string of at most 32 bytes whose value is in range is, after padding,
    the 32-byte encoding of that value. *)
Lemma be_encode_pad bs :
  all_bytes bs → (length bs ≤ 32)%nat →
  be_encode 32 (be_decode bs) = replicate (32 - length bs) 0 ++ bs.
Proof.
  intros Hbs Hlen.
  rewrite <-(be_encode_decode (replicate (32 - length bs) 0 ++ bs)).
  - rewrite be_decode_pad. f_equal. rewrite length_app, length_replicate. lia.
  - apply Forall_app. split; [|done]. apply Forall_replicate. by unfold is_byte.
Qed.

Section Properties.
Context `{Hlibs : !FeltLibsSpec libs}.
Import Felt252Wrapper.

Lemma into_bytes_ok x : is_felt x → into_bytes x = be_encode 32 x.
Proof. apply to_bytes_be_ok. Qed.

Lemma try_from_array_ok bs : length bs = 32%nat → all_bytes bs →
  try_from_array bs = if be_decode bs <? P then Ok (be_decode bs) else Err FromArrayError.
Proof.
  intros. unfold try_from_array. rewrite from_bytes_be_ok by done. by destruct (_ <? _).
Qed.

Lemma try_from_array_felt x : is_felt x → try_from_array (be_encode 32 x) = Ok x.
Proof.
  intros Hx. rewrite try_from_array_ok, be_decode_encode_felt by auto using be_encode_length with bytes.
  destruct Hx. by rewrite (proj2 (Z.ltb_lt x P)).
Qed.

Lemma try_from_slice_ok bs : all_bytes bs →
  try_from_slice bs =
    if (32 <? length bs)%nat then Err InvalidLength
    else if be_decode bs <? P then Ok (be_decode bs) else Err OutOfRange.
Proof.
  intros. unfold try_from_slice. rewrite from_byte_slice_be_ok by done.
  destruct (32 <? length bs)%nat; [done|]. by destruct (_ <? _).
Qed.

Lemma try_from_slice_felt x : is_felt x → try_from_slice (be_encode 32 x) = Ok x.
Proof.
  intros Hx. rewrite try_from_slice_ok, be_encode_length, be_decode_encode_felt by auto with bytes.
  destruct Hx. by rewrite (proj2 (Z.ltb_lt x P)).
Qed.

(** SCALE-decoding what [Encode] wrote gives the same field element back and
    leaves exactly the bytes that followed it, for every element of the field. *)
Theorem felt_scale_roundtrip x rest :
  is_felt x → decode (encode_to x [] ++ rest) = Ok (x, rest).
Proof.
  intros Hx. unfold decode, encode_to. simpl.
  rewrite to_bytes_be_ok by done.
  rewrite length_app, be_encode_length.
  replace (32 + length rest <? 32)%nat with false by (symmetry; apply Nat.ltb_ge; lia).
  rewrite take_app_length', drop_app_length' by by rewrite be_encode_length.
  by rewrite try_from_array_felt.
Qed.

(** C36: [decode] accepts exactly the inputs that start with the 32-byte encoding
    of a canonical field element: it fails on a short input and on any 32 bytes
    whose value is not below the modulus, and what it accepts re-encodes to the
    bytes that were read. *)
Theorem felt_scale_decode_complete input :
  all_bytes input →
  match decode input with
  | Ok (x, rest) => is_felt x ∧ input = encode_to x [] ++ rest
  | Err NotEnoughData => (length input < 32)%nat
  | Err (CannotGetFieldElement buf e) =>
      e = FromArrayError ∧ buf = take 32 input ∧ P ≤ be_decode buf
  | Panic => False
  end.
Proof.
  intros Hb. unfold decode.
  destruct (length input <? 32)%nat eqn:Hl; [by apply Nat.ltb_lt in Hl|].
  apply Nat.ltb_ge in Hl.
  assert (length (take 32 input) = 32%nat) as Hlen by (rewrite length_take; lia).
  assert (all_bytes (take 32 input)) as Ht by by apply Forall_take.
  rewrite try_from_array_ok by done.
  pose proof (be_decode_bound _ Ht) as [? _].
  destruct (be_decode (take 32 input) <? P) eqn:Hlt; bool_to_prop; [|done].
  split; [done|]. unfold encode_to. simpl.
  rewrite to_bytes_be_ok by done.
  rewrite <-Hlen at 1. rewrite be_encode_decode by done. by rewrite take_drop.
Qed.

(** Every [u128] converts to a field element without panicking, the element
    has that value, and converting back gives the integer again; [u64] values
    survive the narrower conversion too. *)
Theorem from_u128_total x :
  is_u128 x →
  from_u128 x = Ok x ∧ try_into_u128 x = Ok x
  ∧ try_into_u64 x = if x <=? u64_max then Ok x else Err ValueTooLarge.
Proof.
  intros Hx. pose proof (is_u128_felt _ Hx) as Hf.
  unfold from_u128, try_from_u256, try_into_u128, try_into_u64.
  rewrite u256_from_u128_ok, u256_to_be_ok, try_from_array_felt by
    (done || (destruct (is_felt_256 _ Hf); unfold is_felt in *; pose proof P_lt_256_32; lia)).
  rewrite try_into_u128_ok, try_into_u64_ok by done.
  destruct Hx as [? Hle]. rewrite (proj2 (Z.leb_le x u128_max)) by done.
  split; [done|]. split; [done|]. by destruct (_ <=? _).
Qed.

(** Converting a [U256] succeeds exactly below the modulus; above it the
    code answers [FromArrayError], although the documentation of the conversion
    announces [OutOfRange]. *)
Theorem try_from_u256_range u :
  0 ≤ u < 2 ^ 256 →
  try_from_u256 u = if u <? P then Ok u else Err FromArrayError.
Proof.
  intros Hu. unfold try_from_u256. rewrite u256_to_be_ok by done.
  assert (be_decode (be_encode 32 u) = u) as Hd by (apply be_decode_encode; exact Hu).
  rewrite try_from_array_ok by auto using be_encode_length with bytes. by rewrite Hd.
Qed.

(** The field element, read through any of the other number types
    ([StarkFelt], [Felt], [Felt252], [U256], [H256]) and back, is unchanged, and
    none of the [unwrap]s on the way panics. *)
Theorem felt_conversions_roundtrip x :
  is_felt x →
  (into_starkfelt x ≫= from_starkfelt) = Ok x ∧
  from_felt (into_felt x) = Ok x ∧
  from_felt252 (into_felt252 x) = Ok x ∧
  try_from_u256 (into_u256 x) = Ok x ∧
  (∃ h, into_h256 x = Ok h ∧ try_from_h256 h = Ok x).
Proof.
  intros Hx. pose proof Hx as [? HltP]. pose proof (is_felt_256 _ Hx) as H256.
  assert ((x <? P) = true) as Hb by by apply Z.ltb_lt.
  unfold into_starkfelt, from_starkfelt, from_felt, into_felt, from_felt252, into_felt252,
    into_u256, into_h256, try_from_h256.
  rewrite into_bytes_ok, to_bytes_be_ok by done.
  rewrite starkfelt_new_ok, felt_from_ok, felt252_from_ok, u256_from_be_ok
    by auto using be_encode_length with bytes.
  rewrite be_decode_encode_felt, Hb, Z.mod_small by done.
  rewrite felt_to_ok, felt252_to_ok, try_from_array_felt by done.
  rewrite be_encode_length. simpl.
  rewrite try_from_u256_range, Hb by (change (2 ^ 256) with (256 ^ Z.of_nat 32); lia).
  pose proof (try_from_slice_felt x Hx) as Hslice.
  split_and!; eauto. by rewrite Hslice.
Qed.

(** A version or chain string of at most 31 bytes, valid UTF-8 and not
    starting with a NUL, is stored in a field element by [try_from] and read
    back unchanged by [from_utf8]. *)
Theorem utf8_roundtrip s :
  all_bytes s → (length s ≤ 31)%nat → utf8_valid s = true → hd_error s ≠ Some 0 →
  ∃ x, try_from_slice s = Ok x ∧ is_felt x ∧ from_utf8 x = Ok s.
Proof.
  intros Hb Hlen Hutf Hhd. exists (be_decode s).
  assert (is_felt (be_decode s)) as Hf.
  { pose proof (be_decode_bound _ Hb) as [? Hlt]. split; [done|].
    eapply Z.lt_trans; [exact Hlt|].
    apply (Z.le_lt_trans _ (256 ^ 31)); [apply Z.pow_le_mono_r; lia | done]. }
  split_and!; [|done|].
  - rewrite try_from_slice_ok by done.
    replace (32 <? length s)%nat with false by (symmetry; apply Nat.ltb_ge; lia).
    destruct Hf. by rewrite (proj2 (Z.ltb_lt (be_decode s) P)).
  - unfold from_utf8. rewrite to_bytes_be_ok, be_encode_pad by (done || lia).
    rewrite utf8_valid_zeros, Hutf, trim_start_nul_zeros.
    destruct s as [|b s]; [done|]. rewrite trim_start_nul_id; [done|]. naive_solver.
Qed.

End Properties.

(** ** Witnesses *)

Lemma felt_scale_roundtrip_witness :
  is_felt 7 ∧ Felt252Wrapper.decode (Felt252Wrapper.encode_to 7 [] ++ [1; 2]) = Ok (7, [1; 2]).
Proof. split; [by vm_compute | apply (felt_scale_roundtrip 7 [1; 2]); by vm_compute]. Defined.

Lemma felt_scale_decode_complete_witness :
  all_bytes [1; 2; 3] ∧ (length [1; 2; 3] < 32)%nat.
Proof.
  assert (all_bytes [1; 2; 3]) as H by (repeat constructor; done).
  split; [exact H|]. exact (felt_scale_decode_complete [1; 2; 3] H).
Defined.

Lemma from_u128_total_witness : is_u128 5 ∧ Felt252Wrapper.from_u128 5 = Ok 5.
Proof. split; [done|]. refine (proj1 (from_u128_total 5 _)). done. Defined.

Lemma try_from_u256_range_witness :
  0 ≤ P < 2 ^ 256 ∧ Felt252Wrapper.try_from_u256 P = Err FromArrayError.
Proof. split; [done|]. exact (try_from_u256_range P ltac:(done)). Defined.

Lemma felt_conversions_roundtrip_witness :
  is_felt 9 ∧ Felt252Wrapper.from_felt (Felt252Wrapper.into_felt 9) = Ok 9.
Proof.
  split; [done|]. exact (proj1 (proj2 (felt_conversions_roundtrip 9 ltac:(done)))).
Defined.

Lemma utf8_roundtrip_witness :
  ∃ x, Felt252Wrapper.try_from_slice (bytes_of_string "0.13.1") = Ok x ∧ is_felt x
       ∧ Felt252Wrapper.from_utf8 x = Ok (bytes_of_string "0.13.1").
Proof.
  apply (utf8_roundtrip (bytes_of_string "0.13.1")).
  - by repeat constructor.
  - cbn. lia.
  - done.
  - done.
Defined.
