(* ===== verification/FeltTypes.v ===== *)
(** * FeltTypes: the typed field elements of starknet_api
    ([primitives/felt/src/starkware_types_conversions.rs], the texts of [felt/src/lib.rs])

    starknet_api wraps a [StarkFelt], 32 bytes, in a type for each use.  The conversions
    wrap and unwrap the conversion of the field element itself ([Felt.v]); a Patricia
    key is made without its bound. *)

From S2P Require Import Prelude Felt.

(** ** The types and their conversions *)

Record BlockHash := mk_BlockHash { un_BlockHash : bytes }.
Record TransactionHash := mk_TransactionHash { un_TransactionHash : bytes }.
Record Nonce := mk_Nonce { un_Nonce : bytes }.
Record ClassHash := mk_ClassHash { un_ClassHash : bytes }.
Record CompiledClassHash := mk_CompiledClassHash { un_CompiledClassHash : bytes }.
Record PatriciaKey := mk_PatriciaKey { un_PatriciaKey : bytes }.
Record ContractAddress := mk_ContractAddress { un_ContractAddress : PatriciaKey }.
Record EntryPointSelector := mk_EntryPointSelector { un_EntryPointSelector : bytes }.
Record ContractAddressSalt := mk_ContractAddressSalt { un_ContractAddressSalt : bytes }.
Record StorageKey := mk_StorageKey { un_StorageKey : PatriciaKey }.
Record TransactionVersion := mk_TransactionVersion { un_TransactionVersion : bytes }.
Record EventKey := mk_EventKey { un_EventKey : bytes }.

Section Conversions.
Context `{libs : FeltLibs}.
Abbreviation Res := (Outcome Empty_set).

Definition BlockHash_from (value : Z) : Res BlockHash := mk_BlockHash <$> Felt252Wrapper.into_starkfelt value.
Definition Felt_from_BlockHash (value : BlockHash) : Res Z := Felt252Wrapper.from_starkfelt (un_BlockHash value).
Definition TransactionHash_from (value : Z) : Res TransactionHash := mk_TransactionHash <$> Felt252Wrapper.into_starkfelt value.
Definition Felt_from_TransactionHash (value : TransactionHash) : Res Z := Felt252Wrapper.from_starkfelt (un_TransactionHash value).
Definition Nonce_from (value : Z) : Res Nonce := mk_Nonce <$> Felt252Wrapper.into_starkfelt value.
Definition Felt_from_Nonce (value : Nonce) : Res Z := Felt252Wrapper.from_starkfelt (un_Nonce value).
Definition ClassHash_from (value : Z) : Res ClassHash := mk_ClassHash <$> Felt252Wrapper.into_starkfelt value.
Definition Felt_from_ClassHash (value : ClassHash) : Res Z := Felt252Wrapper.from_starkfelt (un_ClassHash value).
Definition CompiledClassHash_from (value : Z) : Res CompiledClassHash := mk_CompiledClassHash <$> Felt252Wrapper.into_starkfelt value.
Definition Felt_from_CompiledClassHash (value : CompiledClassHash) : Res Z := Felt252Wrapper.from_starkfelt (un_CompiledClassHash value).
Definition PatriciaKey_from (value : Z) : Res PatriciaKey := mk_PatriciaKey <$> Felt252Wrapper.into_starkfelt value.
Definition Felt_from_PatriciaKey (value : PatriciaKey) : Res Z := Felt252Wrapper.from_starkfelt (un_PatriciaKey value).
Definition ContractAddress_from (value : Z) : Res ContractAddress := mk_ContractAddress <$> PatriciaKey_from value.
Definition Felt_from_ContractAddress (value : ContractAddress) : Res Z := Felt_from_PatriciaKey (un_ContractAddress value).
Definition EntryPointSelector_from (value : Z) : Res EntryPointSelector := mk_EntryPointSelector <$> Felt252Wrapper.into_starkfelt value.
Definition Felt_from_EntryPointSelector (value : EntryPointSelector) : Res Z := Felt252Wrapper.from_starkfelt (un_EntryPointSelector value).
Definition ContractAddressSalt_from (value : Z) : Res ContractAddressSalt := mk_ContractAddressSalt <$> Felt252Wrapper.into_starkfelt value.
Definition Felt_from_ContractAddressSalt (value : ContractAddressSalt) : Res Z := Felt252Wrapper.from_starkfelt (un_ContractAddressSalt value).
Definition StorageKey_from (value : Z) : Res StorageKey := mk_StorageKey <$> PatriciaKey_from value.
Definition Felt_from_StorageKey (value : StorageKey) : Res Z := Felt252Wrapper.from_starkfelt (un_PatriciaKey (un_StorageKey value)).
Definition TransactionVersion_from (value : Z) : Res TransactionVersion := mk_TransactionVersion <$> Felt252Wrapper.into_starkfelt value.
Definition Felt_from_TransactionVersion (value : TransactionVersion) : Res Z := Felt252Wrapper.from_starkfelt (un_TransactionVersion value).
Definition EventKey_from (value : Z) : Res EventKey := mk_EventKey <$> Felt252Wrapper.into_starkfelt value.
Definition Felt_from_EventKey (value : EventKey) : Res Z := Felt252Wrapper.from_starkfelt (un_EventKey value).
End Conversions.

(** ** Texts (lib.rs) *)

(** [impl From<Felt252WrapperError> for Cow<'static, str>] and [for String] *)
Definition error_to_cow (err : Felt252WrapperError) : string :=
  match err with
  | FromArrayError => "input array invalid"
  | InvalidCharacter => "invalid character"
  | OutOfRange => "number out of range"
  | InvalidLength => "invalid length"
  | ValueTooLarge => "felt252 value too large"
  end.
Definition error_to_string (felt_error : Felt252WrapperError) : string :=
  match felt_error with
  | FromArrayError => "input array invalid"
  | InvalidCharacter => "invalid character"
  | OutOfRange => "number out of range"
  | InvalidLength => "invalid length"
  | ValueTooLarge => "felt252 value too large"
  end.

(** ** Properties *)

Section Properties.
Context `{Hlibs : !FeltLibsSpec libs}.

Lemma starkfelt_bytes x : is_felt x → Felt252Wrapper.into_starkfelt x = Ok (be_encode 32 x).
Proof.
  intros Hx. unfold Felt252Wrapper.into_starkfelt. rewrite into_bytes_ok by done.
  rewrite starkfelt_new_ok, be_decode_encode_felt by auto using be_encode_length with bytes.
  destruct Hx as [_ Hx]. by rewrite (proj2 (Z.ltb_lt _ _) Hx).
Qed.
Lemma starkfelt_back x : is_felt x → Felt252Wrapper.from_starkfelt (be_encode 32 x) = Ok x.
Proof. intros Hx. unfold Felt252Wrapper.from_starkfelt. by rewrite try_from_slice_felt. Qed.

(** Every typed value keeps the field element it is made from. *)
Theorem typed_felts_roundtrip x :
  is_felt x →
  (BlockHash_from x ≫= Felt_from_BlockHash) = Ok x ∧
  (TransactionHash_from x ≫= Felt_from_TransactionHash) = Ok x ∧
  (Nonce_from x ≫= Felt_from_Nonce) = Ok x ∧
  (ClassHash_from x ≫= Felt_from_ClassHash) = Ok x ∧
  (CompiledClassHash_from x ≫= Felt_from_CompiledClassHash) = Ok x ∧
  (PatriciaKey_from x ≫= Felt_from_PatriciaKey) = Ok x ∧
  (ContractAddress_from x ≫= Felt_from_ContractAddress) = Ok x ∧
  (EntryPointSelector_from x ≫= Felt_from_EntryPointSelector) = Ok x ∧
  (ContractAddressSalt_from x ≫= Felt_from_ContractAddressSalt) = Ok x ∧
  (StorageKey_from x ≫= Felt_from_StorageKey) = Ok x ∧
  (TransactionVersion_from x ≫= Felt_from_TransactionVersion) = Ok x ∧
  (EventKey_from x ≫= Felt_from_EventKey) = Ok x.
Proof.
  intros Hx. unfold ContractAddress_from, StorageKey_from, PatriciaKey_from, BlockHash_from, TransactionHash_from,
    Nonce_from, ClassHash_from, CompiledClassHash_from, EntryPointSelector_from, ContractAddressSalt_from,
    TransactionVersion_from, EventKey_from. rewrite starkfelt_bytes by done.
  split_and!; exact (starkfelt_back x Hx).
Qed.

(** A Patricia key has 251 bits; the conversion makes one of any field element. *)
Lemma patricia_key_unchecked x :
  is_felt x → 2 ^ 251 ≤ x → ∃ k, PatriciaKey_from x = Ok k ∧ 2 ^ 251 ≤ be_decode (un_PatriciaKey k).
Proof.
  intros Hx Hb. unfold PatriciaKey_from. rewrite starkfelt_bytes by done. eexists. split; [done|].
  cbn [un_PatriciaKey]. by rewrite be_decode_encode_felt.
Qed.

Lemma error_texts_agree e : error_to_cow e = error_to_string e.
Proof. by destruct e. Qed.
End Properties.
