(* ===== verification/Hashers.v ===== *)
(** * Hashers: the hashing traits ([crates/primitives/hashers])

    [HasherT] is the trait of the source; the Pedersen and Poseidon hashers
    implement it on top of the hash functions of starknet_crypto and
    starknet_core, which are the class [StarknetCrypto]. *)

From S2P Require Import Prelude Felt.

(** Third-party hash functions. *)
Class StarknetCrypto := {
  pedersen_hash : Z → Z → Z;
  core_compute_hash_on_elements : list Z → Z;  (* starknet_core::crypto *)
  poseidon_hash : Z → Z → Z;
  poseidon_hash_many : list Z → Z;
  starknet_keccak : bytes → Z;
}.

(** [trait HasherT]. *)
Class HasherT := {
  hash_bytes : bytes → Outcome Empty_set Z;
  compute_hash_on_wrappers : list Z → Z;
  hash_elements : Z → Z → Z;
  compute_hash_on_elements : list Z → Z;
}.

(** [slice::chunks]: consecutive pieces of length [n], the last one possibly
    shorter.  [length l] steps always suffice for [0 < n]. *)
Fixpoint chunks_fuel (fuel n : nat) (l : bytes) : list bytes :=
  match fuel, l with
  | _, [] => []
  | O, _ => []
  | S fuel, _ => take n l :: chunks_fuel fuel n (drop n l)
  end.
Definition chunks (n : nat) (l : bytes) : list bytes := chunks_fuel (length l) n l.

Definition CHUNK_SIZE : nat := 31.

Section Hashers.
Context `{libs : FeltLibs} `{crypto : StarknetCrypto}.

(** The body of the two [hash_bytes]: one field element per 31-byte chunk. *)
Definition chunk_to_felt (chunk : bytes) : Outcome Empty_set Z :=
  unwrap (FieldElement_from_byte_slice_be chunk).

Definition PedersenHasher_hash_bytes (data : bytes) : Outcome Empty_set Z :=
  foldl (λ hash_value chunk,
           hash_value ← hash_value;
           field_element ← chunk_to_felt chunk;
           Ok (pedersen_hash hash_value field_element))
    (Ok 0) (chunks CHUNK_SIZE data).

Definition PoseidonHasher_hash_bytes (data : bytes) : Outcome Empty_set Z :=
  field_element_vector ← mapM chunk_to_felt (chunks CHUNK_SIZE data);
  Ok (poseidon_hash_many field_element_vector).

Definition PedersenHasher : HasherT := {|
  hash_bytes := PedersenHasher_hash_bytes;
  compute_hash_on_wrappers data := core_compute_hash_on_elements data;
  hash_elements a b := pedersen_hash a b;
  compute_hash_on_elements elements := core_compute_hash_on_elements elements;
|}.

Definition PoseidonHasher : HasherT := {|
  hash_bytes := PoseidonHasher_hash_bytes;
  compute_hash_on_wrappers data := poseidon_hash_many data;
  hash_elements a b := poseidon_hash a b;
  compute_hash_on_elements elements := poseidon_hash_many elements;
|}.

End Hashers.

(** No two different inputs of the list [inputs] have the same image: what the
    callers need of collision resistance on the inputs they actually hash. *)
Definition collision_free {A} (h : A → Z) (inputs : list A) : Prop :=
  ∀ x y, x ∈ inputs → y ∈ inputs → h x = h y → x = y.

(** ** Properties *)

Lemma chunks_fuel_concat fuel n l :
  (0 < n)%nat → (length l ≤ fuel)%nat → concat (chunks_fuel fuel n l) = l.
Proof.
  intros Hn. revert l. induction fuel as [|fuel IH]; intros l Hl; destruct l as [|x l]; try done.
  - simpl in Hl. lia.
  - cbn [chunks_fuel concat]. rewrite IH; [apply take_drop|].
    rewrite length_drop. simpl in *. lia.
Qed.

Lemma chunks_fuel_bound fuel n l : Forall (λ c, (length c ≤ n)%nat) (chunks_fuel fuel n l).
Proof.
  revert l. induction fuel as [|fuel IH]; intros [|x l]; simpl; constructor; [|apply IH].
  rewrite length_take. lia.
Qed.

Lemma chunks_fuel_bytes fuel n l : all_bytes l → Forall all_bytes (chunks_fuel fuel n l).
Proof.
  revert l. induction fuel as [|fuel IH]; intros [|x l] H; cbn [chunks_fuel]; constructor.
  - by apply Forall_take.
  - apply IH. by apply Forall_drop.
Qed.

Section Properties.
Context `{Hlibs : !FeltLibsSpec libs} `{crypto : StarknetCrypto}.

Lemma chunk_to_felt_ok c :
  all_bytes c → (length c ≤ CHUNK_SIZE)%nat → chunk_to_felt c = Ok (be_decode c).
Proof.
  intros Hc Hlen. unfold chunk_to_felt. rewrite from_byte_slice_be_ok by done.
  replace (32 <? length c)%nat with false
    by (symmetry; apply Nat.ltb_ge; unfold CHUNK_SIZE in Hlen; lia).
  rewrite (proj2 (Z.ltb_lt _ _)); [done|].
  eapply Z.lt_trans; [apply be_decode_bound, Hc|].
  apply (Z.le_lt_trans _ (256 ^ 31)); [|done].
  apply Z.pow_le_mono_r; unfold CHUNK_SIZE in Hlen; lia.
Qed.

Lemma chunks_to_felts_ok data :
  all_bytes data →
  mapM chunk_to_felt (chunks CHUNK_SIZE data) = Ok (map be_decode (chunks CHUNK_SIZE data)).
Proof.
  intros Hd. apply mapM_Ok_map, Forall_forall. intros c Hc. apply chunk_to_felt_ok.
  - eapply Forall_elem, Hc. by apply chunks_fuel_bytes.
  - eapply (Forall_elem _ _ _ (chunks_fuel_bound _ _ _)), Hc.
Qed.

Lemma foldl_chunks_ok (f : Z → Z → Z) cs acc :
  Forall (λ c, chunk_to_felt c = Ok (be_decode c)) cs →
  foldl (λ h c, h ← h; e ← chunk_to_felt c; Ok (f h e)) (Ok acc) cs
  = Ok (foldl (λ h c, f h (be_decode c)) acc cs).
Proof.
  intros H. revert acc. induction H as [|c cs Hc _ IH]; intros acc; simpl; [done|].
  rewrite Hc. simpl. apply IH.
Qed.

(** Hashing any byte string succeeds: the bytes are cut into 31-byte chunks
    whose concatenation is the input, every chunk fits in the field (so the
    [unwrap]s never panic), and the result is the Pedersen chain, respectively
    the Poseidon hash, of the chunk values. *)
Theorem hash_bytes_total data :
  all_bytes data →
  concat (chunks CHUNK_SIZE data) = data ∧
  Forall (λ c, (length c ≤ 31)%nat) (chunks CHUNK_SIZE data) ∧
  hash_bytes (HasherT := PedersenHasher) data
    = Ok (foldl (λ h c, pedersen_hash h (be_decode c)) 0 (chunks CHUNK_SIZE data)) ∧
  hash_bytes (HasherT := PoseidonHasher) data
    = Ok (poseidon_hash_many (map be_decode (chunks CHUNK_SIZE data))).
Proof.
  intros Hd. split_and!.
  - apply chunks_fuel_concat; unfold CHUNK_SIZE; lia.
  - apply chunks_fuel_bound.
  - apply foldl_chunks_ok.
    apply Forall_forall. intros c Hc. apply chunk_to_felt_ok.
    + eapply Forall_elem, Hc. by apply chunks_fuel_bytes.
    + eapply (Forall_elem _ _ _ (chunks_fuel_bound _ _ _)), Hc.
  - simpl. unfold PoseidonHasher_hash_bytes. by rewrite chunks_to_felts_ok.
Qed.

End Properties.

(** ** A concrete instance, for the examples: an injective pairing *)

Definition crypto_model : StarknetCrypto := {|
  pedersen_hash a b := Zpos (encode (a, b));
  core_compute_hash_on_elements l := Zpos (encode l);
  poseidon_hash a b := Zpos (encode (a, b));
  poseidon_hash_many l := Zpos (encode l);
  starknet_keccak bs := be_decode bs;
|}.

(** A cheap instance with values in the field, for the larger examples. *)
Definition crypto_small : StarknetCrypto := {|
  pedersen_hash a b := (a * 31 + b + 1) mod P;
  core_compute_hash_on_elements l := foldl (λ h x, (h * 31 + x + 1) mod P) 0 l;
  poseidon_hash a b := (a * 37 + b + 2) mod P;
  poseidon_hash_many l := foldl (λ h x, (h * 37 + x + 2) mod P) 0 l;
  starknet_keccak bs := be_decode bs mod P;
|}.

Lemma hash_bytes_total_witness :
  all_bytes [1; 2; 3] ∧
  hash_bytes (HasherT := @PoseidonHasher _ crypto_model) [1; 2; 3]
    = Ok (Zpos (encode [be_decode [1; 2; 3]])).
Proof.
  assert (all_bytes [1; 2; 3]) as H by (repeat constructor; done).
  split; [exact H|].
  exact (proj2 (proj2 (proj2 (hash_bytes_total (crypto := crypto_model) [1; 2; 3] H)))).
Defined.
