(* ===== verification/Transactions.v ===== *)
(** * Transactions: the transaction types ([crates/primitives/transactions])

    The records of starknet_api and of blockifier that the node works with, with
    the fields its code reads and writes, [TxType] and its conversions, and the
    [Getters] and [Hash] traits.  Field elements are canonical integers,
    [max_fee] is a [u128], [tip] a [u64]. *)

From S2P Require Import Prelude Felt.

(** ** starknet_api *)

Inductive DataAvailabilityMode := DA_L1 | DA_L2.
Inductive L1DataAvailabilityMode := L1DA_Calldata | L1DA_Blob.
Inductive Resource := L1Gas | L2Gas.

Record ResourceBounds := { max_amount : Z; max_price_per_unit : Z }.

#[global] Instance DataAvailabilityMode_eq_dec : EqDecision DataAvailabilityMode.
Proof. solve_decision. Defined.
#[global] Instance L1DataAvailabilityMode_eq_dec : EqDecision L1DataAvailabilityMode.
Proof. solve_decision. Defined.
#[global] Instance Resource_eq_dec : EqDecision Resource.
Proof. solve_decision. Defined.
#[global] Instance ResourceBounds_eq_dec : EqDecision ResourceBounds.
Proof. solve_decision. Defined.
#[global] Instance Resource_countable : Countable Resource.
Proof.
  refine (inj_countable' (λ r, match r with L1Gas => true | L2Gas => false end)
            (λ b : bool, if b then L1Gas else L2Gas) _).
  by intros [].
Defined.

(** [ResourceBoundsMapping], a [BTreeMap]. *)
Abbreviation ResourceBoundsMapping := (gmap Resource ResourceBounds).

Record DeclareTransactionV0V1 := {
  d1_max_fee : Z; d1_signature : list Z; d1_nonce : Z; d1_class_hash : Z; d1_sender_address : Z;
}.
Record DeclareTransactionV2 := {
  d2_max_fee : Z; d2_signature : list Z; d2_nonce : Z; d2_class_hash : Z;
  d2_compiled_class_hash : Z; d2_sender_address : Z;
}.
Record DeclareTransactionV3 := {
  d3_resource_bounds : ResourceBoundsMapping; d3_tip : Z; d3_signature : list Z; d3_nonce : Z;
  d3_class_hash : Z; d3_compiled_class_hash : Z; d3_sender_address : Z;
  d3_nonce_data_availability_mode : DataAvailabilityMode;
  d3_fee_data_availability_mode : DataAvailabilityMode;
  d3_paymaster_data : list Z; d3_account_deployment_data : list Z;
}.
Inductive DeclareTransaction :=
| Declare_V0 (tx : DeclareTransactionV0V1)
| Declare_V1 (tx : DeclareTransactionV0V1)
| Declare_V2 (tx : DeclareTransactionV2)
| Declare_V3 (tx : DeclareTransactionV3).

Record DeployAccountTransactionV1 := {
  da1_max_fee : Z; da1_signature : list Z; da1_nonce : Z; da1_class_hash : Z;
  da1_contract_address_salt : Z; da1_constructor_calldata : list Z;
}.
Record DeployAccountTransactionV3 := {
  da3_resource_bounds : ResourceBoundsMapping; da3_tip : Z; da3_signature : list Z; da3_nonce : Z;
  da3_class_hash : Z; da3_contract_address_salt : Z; da3_constructor_calldata : list Z;
  da3_nonce_data_availability_mode : DataAvailabilityMode;
  da3_fee_data_availability_mode : DataAvailabilityMode;
  da3_paymaster_data : list Z;
}.
Inductive DeployAccountTransaction :=
| DeployAccount_V1 (tx : DeployAccountTransactionV1)
| DeployAccount_V3 (tx : DeployAccountTransactionV3).

Record DeployTransaction := {
  dp_version : Z; dp_class_hash : Z; dp_contract_address_salt : Z; dp_constructor_calldata : list Z;
}.

Record InvokeTransactionV0 := {
  i0_max_fee : Z; i0_signature : list Z; i0_contract_address : Z; i0_entry_point_selector : Z;
  i0_calldata : list Z;
}.
Record InvokeTransactionV1 := {
  i1_max_fee : Z; i1_signature : list Z; i1_nonce : Z; i1_sender_address : Z; i1_calldata : list Z;
}.
Record InvokeTransactionV3 := {
  i3_resource_bounds : ResourceBoundsMapping; i3_tip : Z; i3_signature : list Z; i3_nonce : Z;
  i3_sender_address : Z; i3_calldata : list Z;
  i3_nonce_data_availability_mode : DataAvailabilityMode;
  i3_fee_data_availability_mode : DataAvailabilityMode;
  i3_paymaster_data : list Z; i3_account_deployment_data : list Z;
}.
Inductive InvokeTransaction :=
| Invoke_V0 (tx : InvokeTransactionV0)
| Invoke_V1 (tx : InvokeTransactionV1)
| Invoke_V3 (tx : InvokeTransactionV3).

Record L1HandlerTransaction := {
  lh_version : Z; lh_nonce : Z; lh_contract_address : Z; lh_entry_point_selector : Z;
  lh_calldata : list Z;
}.

Inductive Transaction :=
| Tx_Declare (tx : DeclareTransaction)
| Tx_Deploy (tx : DeployTransaction)
| Tx_DeployAccount (tx : DeployAccountTransaction)
| Tx_Invoke (tx : InvokeTransaction)
| Tx_L1Handler (tx : L1HandlerTransaction).

(** [starknet_api::transaction::Event] *)
Record Event := { from_address : Z; ev_keys : list Z; ev_data : list Z }.

#[global] Instance Event_eq_dec : EqDecision Event.
Proof. solve_decision. Defined.

#[global] Instance DeclareTransactionV0V1_eq_dec : EqDecision DeclareTransactionV0V1.
Proof. solve_decision. Defined.
#[global] Instance DeclareTransactionV2_eq_dec : EqDecision DeclareTransactionV2.
Proof. solve_decision. Defined.
#[global] Instance DeclareTransactionV3_eq_dec : EqDecision DeclareTransactionV3.
Proof. solve_decision. Defined.
#[global] Instance DeclareTransaction_eq_dec : EqDecision DeclareTransaction.
Proof. solve_decision. Defined.
#[global] Instance DeployAccountTransactionV1_eq_dec : EqDecision DeployAccountTransactionV1.
Proof. solve_decision. Defined.
#[global] Instance DeployAccountTransactionV3_eq_dec : EqDecision DeployAccountTransactionV3.
Proof. solve_decision. Defined.
#[global] Instance DeployAccountTransaction_eq_dec : EqDecision DeployAccountTransaction.
Proof. solve_decision. Defined.
#[global] Instance DeployTransaction_eq_dec : EqDecision DeployTransaction.
Proof. solve_decision. Defined.
#[global] Instance InvokeTransactionV0_eq_dec : EqDecision InvokeTransactionV0.
Proof. solve_decision. Defined.
#[global] Instance InvokeTransactionV1_eq_dec : EqDecision InvokeTransactionV1.
Proof. solve_decision. Defined.
#[global] Instance InvokeTransactionV3_eq_dec : EqDecision InvokeTransactionV3.
Proof. solve_decision. Defined.
#[global] Instance InvokeTransaction_eq_dec : EqDecision InvokeTransaction.
Proof. solve_decision. Defined.
#[global] Instance L1HandlerTransaction_eq_dec : EqDecision L1HandlerTransaction.
Proof. solve_decision. Defined.
#[global] Instance Transaction_eq_dec : EqDecision Transaction.
Proof. solve_decision. Defined.

(** ** blockifier

    The executable transactions: a starknet_api transaction with its hash, and
    what its execution needs besides ([C] is the type of class information). *)

Inductive AccountTransaction (C : Type) :=
| Acc_Declare (tx : DeclareTransaction) (tx_hash : Z) (class_info : C)
| Acc_DeployAccount (tx : DeployAccountTransaction) (tx_hash : Z) (contract_address : Z)
| Acc_Invoke (tx : InvokeTransaction) (tx_hash : Z).
Arguments Acc_Declare {C}. Arguments Acc_DeployAccount {C}. Arguments Acc_Invoke {C}.

Inductive ExecTransaction (C : Type) :=
| Exec_Account (tx : AccountTransaction C)
| Exec_L1Handler (tx : L1HandlerTransaction) (tx_hash : Z) (paid_fee_on_l1 : Z).
Arguments Exec_Account {C}. Arguments Exec_L1Handler {C}.

Inductive TransactionType :=
| TT_Declare | TT_DeployAccount | TT_InvokeFunction | TT_L1Handler.

(** ** [TxType] (lib.rs) *)

Inductive TxType := TxType_Invoke | TxType_Declare | TxType_DeployAccount | TxType_L1Handler.

Definition TransactionType_from_TxType (value : TxType) : TransactionType :=
  match value with
  | TxType_Invoke => TT_InvokeFunction
  | TxType_Declare => TT_Declare
  | TxType_DeployAccount => TT_DeployAccount
  | TxType_L1Handler => TT_L1Handler
  end.

Definition TxType_from_AccountTransaction {C} (value : AccountTransaction C) : TxType :=
  match value with
  | Acc_Declare _ _ _ => TxType_Declare
  | Acc_DeployAccount _ _ _ => TxType_DeployAccount
  | Acc_Invoke _ _ => TxType_Invoke
  end.

Definition TxType_from_Transaction {C} (value : ExecTransaction C) : TxType :=
  match value with
  | Exec_Account tx => TxType_from_AccountTransaction tx
  | Exec_L1Handler _ _ _ => TxType_L1Handler
  end.

(** ** The [Getters] and [Hash] traits (getters.rs)

    The accessors of the starknet_api enums are third-party methods. *)

Class TxAccessors := {
  Declare_sender_address : DeclareTransaction → Z;
  Declare_signature : DeclareTransaction → list Z;
  Declare_nonce : DeclareTransaction → Z;
  DeployAccount_contract_address_salt : DeployAccountTransaction → Z;
  DeployAccount_signature : DeployAccountTransaction → list Z;
  DeployAccount_constructor_calldata : DeployAccountTransaction → list Z;
  DeployAccount_nonce : DeployAccountTransaction → Z;
  Invoke_sender_address : InvokeTransaction → Z;
  Invoke_signature : InvokeTransaction → list Z;
  Invoke_calldata : InvokeTransaction → list Z;
  Invoke_nonce : InvokeTransaction → Z;
}.

Module Getters.
Section Getters.
Context `{acc : TxAccessors} {C : Type}.

Definition sender_address (self : AccountTransaction C) : Z :=
  match self with
  | Acc_Declare tx _ _ => Declare_sender_address tx
  | Acc_DeployAccount tx _ _ => DeployAccount_contract_address_salt tx
  | Acc_Invoke tx _ => Invoke_sender_address tx
  end.

Definition signature (self : AccountTransaction C) : list Z :=
  match self with
  | Acc_Declare tx _ _ => Declare_signature tx
  | Acc_DeployAccount tx _ _ => DeployAccount_signature tx
  | Acc_Invoke tx _ => Invoke_signature tx
  end.

Definition calldata (self : AccountTransaction C) : option (list Z) :=
  match self with
  | Acc_Declare _ _ _ => None
  | Acc_DeployAccount tx _ _ => Some (DeployAccount_constructor_calldata tx)
  | Acc_Invoke tx _ => Some (Invoke_calldata tx)
  end.

Definition nonce (self : AccountTransaction C) : option Z :=
  match self with
  | Acc_Declare tx _ _ => Some (Declare_nonce tx)
  | Acc_DeployAccount tx _ _ => Some (DeployAccount_nonce tx)
  | Acc_Invoke tx _ => Some (Invoke_nonce tx)
  end.

Definition tx_type (self : AccountTransaction C) : TxType :=
  match self with
  | Acc_Declare _ _ _ => TxType_Declare
  | Acc_DeployAccount _ _ _ => TxType_DeployAccount
  | Acc_Invoke _ _ => TxType_Invoke
  end.

Definition account_tx_hash (self : AccountTransaction C) : option Z :=
  match self with
  | Acc_Declare _ tx_hash _ => Some tx_hash
  | Acc_DeployAccount _ tx_hash _ => Some tx_hash
  | Acc_Invoke _ tx_hash => Some tx_hash
  end.

Definition tx_hash (self : ExecTransaction C) : option Z :=
  match self with
  | Exec_Account tx => account_tx_hash tx
  | Exec_L1Handler _ tx_hash _ => Some tx_hash
  end.

End Getters.
End Getters.
