(* ===== verification/TxHash.v ===== *)
(** * TxHash: transaction hashes ([primitives/transactions/src/compute_hash.rs])

    [ComputeTransactionHash] is the trait of the source, with one instance per
    transaction type.  The address computation of starknet_api is the class
    [ContractAddresses].

    The main theorems: the computation never panics and hashes exactly the list
    [preimage]; a transaction hash determines the chain id and the whole signed
    content of the transaction (everything but the signature), different
    transaction types and versions included; simulation hashes differ from real
    ones.  The exceptions the code has are theorems too: declare transactions
    of version 1 do not sign their nonce, and the deprecated formats of old
    blocks drop fields. *)

From S2P Require Import Prelude Felt Hashers Transactions.

(** [starknet_api::core::calculate_contract_address] *)
Class ContractAddresses := {
  calculate_contract_address :
    (* salt, class hash, constructor calldata, deployer *)
    Z → Z → list Z → Z → option Z;
}.
Class ContractAddressesSpec (ca : ContractAddresses) : Prop := {
  calculate_contract_address_ok salt class_hash calldata deployer :
    is_felt salt → is_felt class_hash → Forall is_felt calldata → is_felt deployer →
    ∃ a, calculate_contract_address salt class_hash calldata deployer = Some a ∧ is_felt a;
}.

(** ** Constants *)

Definition LEGACY_BLOCK_NUMBER : Z := 1470.
Definition LEGACY_L1_HANDLER_BLOCK : Z := 854.

Definition DECLARE_PREFIX : bytes := bytes_of_string "declare".
Definition DEPLOY_ACCOUNT_PREFIX : bytes := bytes_of_string "deploy_account".
Definition DEPLOY_PREFIX : bytes := bytes_of_string "deploy".
Definition INVOKE_PREFIX : bytes := bytes_of_string "invoke".
Definition L1_HANDLER_PREFIX : bytes := bytes_of_string "l1_handler".
Definition L1_GAS : bytes := bytes_of_string "L1_GAS".
Definition L2_GAS : bytes := bytes_of_string "L2_GAS".

(** Comparison of [Option<u64>] values: [None] is below every [Some]. *)
Definition opt_gt (o : option Z) (n : Z) : bool :=
  match o with Some x => n <? x | None => false end.
Definition opt_lt (o : option Z) (n : Z) : bool :=
  match o with Some x => x <? n | None => true end.

(** [buffer[lo..hi].copy_from_slice(src)] *)
Definition copy_from_slice (lo hi : nat) (src buffer : bytes) : Outcome Empty_set bytes :=
  if ((lo <=? hi) && (hi <=? length buffer) && (length src =? hi - lo))%nat
  then Ok (take lo buffer ++ src ++ drop hi buffer)
  else Panic.

(** ** The hash computations *)

Class ComputeTransactionHash `{FeltLibs} `{StarknetCrypto} `{ContractAddresses} (T : Type) :=
  compute_hash : ∀ `{!HasherT}, T → (* chain_id *) Z → (* offset_version *) bool →
                   (* block_number *) option Z → Outcome Empty_set Z.

Section ComputeHash.
Context `{libs : FeltLibs} `{crypto : StarknetCrypto} `{ca : ContractAddresses}.

Definition SIMULATE_TX_VERSION_OFFSET : Z :=
  FieldElement_from_mont 18446744073700081665 17407 18446744073709551584 576460752142434320.

(** Conversion of a [StarkFelt] list to [FieldElement]s. *)
Definition convert_calldata (calldata : list Z) : list Z := calldata.

Definition DataAvailabilityMode_as_u32 (mode : DataAvailabilityMode) : Z :=
  match mode with DA_L1 => 0 | DA_L2 => 1 end.

Definition prepare_resource_bound_value (resource_bounds_mapping : ResourceBoundsMapping)
    (resource : Resource) : Outcome Empty_set Z :=
  let buffer := replicate 32 0 in
  buffer ← copy_from_slice 2 8 (match resource with L1Gas => L1_GAS | L2Gas => L2_GAS end) buffer;
  buffer ← match resource_bounds_mapping !! resource with
           | Some resource_bounds =>
               buffer ← copy_from_slice 8 16 (be_encode 8 (max_amount resource_bounds)) buffer;
               copy_from_slice 16 (length buffer) (be_encode 16 (max_price_per_unit resource_bounds)) buffer
           | None => Ok buffer
           end;
  unwrap_opt (FieldElement_from_bytes_be buffer).

Definition prepare_data_availability_modes
    (nonce_data_availability_mode fee_data_availability_mode : DataAvailabilityMode) : Outcome Empty_set Z :=
  let buffer := replicate 32 0 in
  buffer ← copy_from_slice 8 12 (be_encode 4 (DataAvailabilityMode_as_u32 nonce_data_availability_mode)) buffer;
  buffer ← copy_from_slice 12 16 (be_encode 4 (DataAvailabilityMode_as_u32 fee_data_availability_mode)) buffer;
  unwrap_opt (FieldElement_from_bytes_be buffer).

(** The tip and resource bounds, hashed together (the [gas_hash] block of the V3
    transactions). *)
Definition gas_hash (tip : Z) (bounds : ResourceBoundsMapping) : Outcome Empty_set Z :=
  l1 ← prepare_resource_bound_value bounds L1Gas;
  l2 ← prepare_resource_bound_value bounds L2Gas;
  Ok (core_compute_hash_on_elements [FieldElement_from_uint tip; l1; l2]).

Definition byte_prefix (prefix : bytes) : Outcome Empty_set Z :=
  unwrap (FieldElement_from_byte_slice_be prefix).

#[global] Instance compute_hash_InvokeTransactionV0 : ComputeTransactionHash InvokeTransactionV0 :=
  λ H self chain_id offset_version block_number,
    prefix ← byte_prefix INVOKE_PREFIX;
    let version := if offset_version then SIMULATE_TX_VERSION_OFFSET else Felt252Wrapper.ZERO in
    let sender_address := i0_contract_address self in
    let entrypoint_selector := i0_entry_point_selector self in
    let calldata_hash := core_compute_hash_on_elements (convert_calldata (i0_calldata self)) in
    let max_fee := FieldElement_from_uint (i0_max_fee self) in
    if opt_gt block_number LEGACY_BLOCK_NUMBER then
      Ok (compute_hash_on_elements
            [prefix; version; sender_address; entrypoint_selector; calldata_hash; max_fee; chain_id])
    else
      Ok (compute_hash_on_elements
            [prefix; sender_address; entrypoint_selector; calldata_hash; chain_id]).

#[global] Instance compute_hash_InvokeTransactionV1 : ComputeTransactionHash InvokeTransactionV1 :=
  λ H self chain_id offset_version block_number,
    prefix ← byte_prefix INVOKE_PREFIX;
    let version := if offset_version then FieldElement_add SIMULATE_TX_VERSION_OFFSET Felt252Wrapper.ONE
                   else Felt252Wrapper.ONE in
    let sender_address := i1_sender_address self in
    let entrypoint_selector := Felt252Wrapper.ZERO in
    let calldata_hash := core_compute_hash_on_elements (convert_calldata (i1_calldata self)) in
    let max_fee := FieldElement_from_uint (i1_max_fee self) in
    let nonce := i1_nonce self in
    Ok (compute_hash_on_elements
          [prefix; version; sender_address; entrypoint_selector; calldata_hash; max_fee; chain_id; nonce]).

#[global] Instance compute_hash_InvokeTransactionV3 : ComputeTransactionHash InvokeTransactionV3 :=
  λ H self chain_id offset_version block_number,
    prefix ← byte_prefix INVOKE_PREFIX;
    let version := if offset_version then FieldElement_add SIMULATE_TX_VERSION_OFFSET Felt252Wrapper.THREE
                   else Felt252Wrapper.THREE in
    let sender_address := i3_sender_address self in
    gas_hash ← gas_hash (i3_tip self) (i3_resource_bounds self);
    let paymaster_hash := core_compute_hash_on_elements (i3_paymaster_data self) in
    let nonce := i3_nonce self in
    data_availability_modes ←
      prepare_data_availability_modes (i3_nonce_data_availability_mode self) (i3_fee_data_availability_mode self);
    let data_hash :=
      let account_deployment_data_hash := core_compute_hash_on_elements (i3_account_deployment_data self) in
      let calldata_hash := core_compute_hash_on_elements (i3_calldata self) in
      core_compute_hash_on_elements [account_deployment_data_hash; calldata_hash] in
    Ok (compute_hash_on_elements
          [prefix; version; sender_address; gas_hash; paymaster_hash; chain_id; nonce;
           data_availability_modes; data_hash]).

#[global] Instance compute_hash_InvokeTransaction : ComputeTransactionHash InvokeTransaction :=
  λ H self chain_id offset_version block_number,
    match self with
    | Invoke_V0 tx => compute_hash tx chain_id offset_version block_number
    | Invoke_V1 tx => compute_hash tx chain_id offset_version block_number
    | Invoke_V3 tx => compute_hash tx chain_id offset_version block_number
    end.

#[global] Instance compute_hash_DeclareTransactionV0V1 : ComputeTransactionHash DeclareTransactionV0V1 :=
  λ H self chain_id offset_version block_number,
    prefix ← byte_prefix DECLARE_PREFIX;
    let version := if offset_version then SIMULATE_TX_VERSION_OFFSET else Felt252Wrapper.ZERO in
    let sender_address := d1_sender_address self in
    let entrypoint_selector := Felt252Wrapper.ZERO in
    let max_fee := FieldElement_from_uint (d1_max_fee self) in
    let nonce_or_class_hash := if version =? Felt252Wrapper.ZERO then d1_class_hash self else d1_nonce self in
    let class_or_nothing_hash :=
      if version =? Felt252Wrapper.ZERO then core_compute_hash_on_elements []
      else core_compute_hash_on_elements [d1_class_hash self] in
    Ok (compute_hash_on_elements
          [prefix; version; sender_address; entrypoint_selector; class_or_nothing_hash; max_fee; chain_id;
           nonce_or_class_hash]).

#[global] Instance compute_hash_DeclareTransactionV2 : ComputeTransactionHash DeclareTransactionV2 :=
  λ H self chain_id offset_version block_number,
    prefix ← byte_prefix DECLARE_PREFIX;
    let version := if offset_version then FieldElement_add SIMULATE_TX_VERSION_OFFSET Felt252Wrapper.TWO
                   else Felt252Wrapper.TWO in
    let sender_address := d2_sender_address self in
    let entrypoint_selector := Felt252Wrapper.ZERO in
    let calldata := core_compute_hash_on_elements [d2_class_hash self] in
    let max_fee := FieldElement_from_uint (d2_max_fee self) in
    let nonce := d2_nonce self in
    let compiled_class_hash := d2_compiled_class_hash self in
    Ok (compute_hash_on_elements
          [prefix; version; sender_address; entrypoint_selector; calldata; max_fee; chain_id; nonce;
           compiled_class_hash]).

#[global] Instance compute_hash_DeclareTransactionV3 : ComputeTransactionHash DeclareTransactionV3 :=
  λ H self chain_id offset_version block_number,
    prefix ← byte_prefix DECLARE_PREFIX;
    let version := if offset_version then FieldElement_add SIMULATE_TX_VERSION_OFFSET Felt252Wrapper.THREE
                   else Felt252Wrapper.THREE in
    let sender_address := d3_sender_address self in
    gas_hash ← gas_hash (d3_tip self) (d3_resource_bounds self);
    let paymaster_hash := core_compute_hash_on_elements (d3_paymaster_data self) in
    let nonce := d3_nonce self in
    data_availability_modes ←
      prepare_data_availability_modes (d3_nonce_data_availability_mode self) (d3_fee_data_availability_mode self);
    let account_deployment_data_hash := core_compute_hash_on_elements (d3_account_deployment_data self) in
    Ok (compute_hash_on_elements
          [prefix; version; sender_address; gas_hash; paymaster_hash; chain_id; nonce;
           data_availability_modes; account_deployment_data_hash; d3_class_hash self;
           d3_compiled_class_hash self]).

#[global] Instance compute_hash_DeclareTransaction : ComputeTransactionHash DeclareTransaction :=
  λ H self chain_id offset_version block_number,
    match self with
    | Declare_V0 tx => compute_hash tx chain_id offset_version block_number
    | Declare_V1 tx => compute_hash tx chain_id offset_version block_number
    | Declare_V2 tx => compute_hash tx chain_id offset_version block_number
    | Declare_V3 tx => compute_hash tx chain_id offset_version block_number
    end.

#[global] Instance compute_hash_DeployAccountTransactionV1 : ComputeTransactionHash DeployAccountTransactionV1 :=
  λ H self chain_id offset_version block_number,
    let constructor_calldata := convert_calldata (da1_constructor_calldata self) in
    contract_address ← unwrap_opt
      (calculate_contract_address (da1_contract_address_salt self) (da1_class_hash self)
         (da1_constructor_calldata self) 0);
    prefix ← byte_prefix DEPLOY_ACCOUNT_PREFIX;
    let version := if offset_version then FieldElement_add SIMULATE_TX_VERSION_OFFSET Felt252Wrapper.ONE
                   else Felt252Wrapper.ONE in
    let entrypoint_selector := Felt252Wrapper.ZERO in
    let calldata := [da1_class_hash self] ++ [da1_contract_address_salt self] ++ constructor_calldata in
    let calldata_hash := core_compute_hash_on_elements calldata in
    let max_fee := FieldElement_from_uint (da1_max_fee self) in
    let nonce := da1_nonce self in
    Ok (compute_hash_on_elements
          [prefix; version; contract_address; entrypoint_selector; calldata_hash; max_fee; chain_id; nonce]).

#[global] Instance compute_hash_DeployAccountTransactionV3 : ComputeTransactionHash DeployAccountTransactionV3 :=
  λ H self chain_id offset_version block_number,
    prefix ← byte_prefix DEPLOY_ACCOUNT_PREFIX;
    let version := if offset_version then FieldElement_add SIMULATE_TX_VERSION_OFFSET Felt252Wrapper.THREE
                   else Felt252Wrapper.THREE in
    let constructor_calldata := convert_calldata (da3_constructor_calldata self) in
    contract_address ← unwrap_opt
      (calculate_contract_address (da3_contract_address_salt self) (da3_class_hash self)
         (da3_constructor_calldata self) 0);
    gas_hash ← gas_hash (da3_tip self) (da3_resource_bounds self);
    let paymaster_hash := core_compute_hash_on_elements (da3_paymaster_data self) in
    let nonce := da3_nonce self in
    data_availability_modes ←
      prepare_data_availability_modes (da3_nonce_data_availability_mode self) (da3_fee_data_availability_mode self);
    let constructor_calldata_hash := core_compute_hash_on_elements constructor_calldata in
    Ok (compute_hash_on_elements
          [prefix; version; contract_address; gas_hash; paymaster_hash; chain_id; nonce;
           data_availability_modes; constructor_calldata_hash; da3_class_hash self;
           da3_contract_address_salt self]).

#[global] Instance compute_hash_DeployAccountTransaction : ComputeTransactionHash DeployAccountTransaction :=
  λ H self chain_id offset_version block_number,
    match self with
    | DeployAccount_V1 tx => compute_hash tx chain_id offset_version block_number
    | DeployAccount_V3 tx => compute_hash tx chain_id offset_version block_number
    end.

Definition compute_hash_given_contract_address `{!HasherT} (transaction : DeployTransaction)
    (chain_id contract_address : Z) (is_query : bool) (block_number : option Z)
    (constructor_calldata : list Z) : Outcome Empty_set Z :=
  prefix ← byte_prefix DEPLOY_PREFIX;
  let version := dp_version transaction in
  let constructor_calldata := core_compute_hash_on_elements constructor_calldata in
  let constructor := starknet_keccak (bytes_of_string "constructor") in
  if opt_gt block_number LEGACY_BLOCK_NUMBER then
    Ok (compute_hash_on_elements
          [prefix; version; contract_address; constructor; constructor_calldata; Felt252Wrapper.ZERO; chain_id])
  else
    Ok (compute_hash_on_elements
          [prefix; contract_address; constructor; constructor_calldata; chain_id]).

#[global] Instance compute_hash_DeployTransaction : ComputeTransactionHash DeployTransaction :=
  λ H self chain_id is_query block_number,
    let constructor_calldata := convert_calldata (dp_constructor_calldata self) in
    contract_address ← unwrap_opt
      (calculate_contract_address (dp_contract_address_salt self) (dp_class_hash self)
         (dp_constructor_calldata self) 0);
    compute_hash_given_contract_address self chain_id contract_address is_query block_number
      constructor_calldata.

#[global] Instance compute_hash_L1HandlerTransaction : ComputeTransactionHash L1HandlerTransaction :=
  λ H self chain_id offset_version block_number,
    prefix ← byte_prefix L1_HANDLER_PREFIX;
    invoke_prefix ← byte_prefix INVOKE_PREFIX;
    let version := if offset_version then SIMULATE_TX_VERSION_OFFSET else Felt252Wrapper.ZERO in
    let contract_address := lh_contract_address self in
    let entrypoint_selector := lh_entry_point_selector self in
    let calldata_hash := core_compute_hash_on_elements (convert_calldata (lh_calldata self)) in
    let nonce := lh_nonce self in
    if opt_lt block_number LEGACY_L1_HANDLER_BLOCK && bool_decide (is_Some block_number) then
      Ok (compute_hash_on_elements
            [invoke_prefix; contract_address; entrypoint_selector; calldata_hash; chain_id])
    else if opt_lt block_number LEGACY_BLOCK_NUMBER && bool_decide (is_Some block_number) then
      Ok (compute_hash_on_elements
            [prefix; contract_address; entrypoint_selector; calldata_hash; chain_id; nonce])
    else
      Ok (compute_hash_on_elements
            [prefix; version; contract_address; entrypoint_selector; calldata_hash;
             Felt252Wrapper.ZERO; chain_id; nonce]).

#[global] Instance compute_hash_Transaction : ComputeTransactionHash Transaction :=
  λ H self chain_id offset_version block_number,
    match self with
    | Tx_Declare tx => compute_hash tx chain_id offset_version block_number
    | Tx_Deploy tx => compute_hash tx chain_id offset_version block_number
    | Tx_DeployAccount tx => compute_hash tx chain_id offset_version block_number
    | Tx_Invoke tx => compute_hash tx chain_id offset_version block_number
    | Tx_L1Handler tx => compute_hash tx chain_id offset_version block_number
    end.

End ComputeHash.

(** ** What a transaction hash commits to *)

(** The value ranges the Rust types guarantee. *)
Definition wf_bounds (m : ResourceBoundsMapping) : Prop :=
  ∀ r b, m !! r = Some b → is_u64 (max_amount b) ∧ is_u128 (max_price_per_unit b).

Definition wf_tx (tx : Transaction) : Prop :=
  match tx with
  | Tx_Declare (Declare_V0 t) | Tx_Declare (Declare_V1 t) => is_u128 (d1_max_fee t)
  | Tx_Declare (Declare_V2 t) => is_u128 (d2_max_fee t)
  | Tx_Declare (Declare_V3 t) => is_u64 (d3_tip t) ∧ wf_bounds (d3_resource_bounds t)
  | Tx_Deploy t => is_felt (dp_contract_address_salt t) ∧ is_felt (dp_class_hash t)
                   ∧ Forall is_felt (dp_constructor_calldata t)
  | Tx_DeployAccount (DeployAccount_V1 t) =>
      is_u128 (da1_max_fee t) ∧ is_felt (da1_contract_address_salt t) ∧ is_felt (da1_class_hash t)
      ∧ Forall is_felt (da1_constructor_calldata t)
  | Tx_DeployAccount (DeployAccount_V3 t) =>
      is_u64 (da3_tip t) ∧ wf_bounds (da3_resource_bounds t)
      ∧ is_felt (da3_contract_address_salt t) ∧ is_felt (da3_class_hash t)
      ∧ Forall is_felt (da3_constructor_calldata t)
  | Tx_Invoke (Invoke_V0 t) => is_u128 (i0_max_fee t)
  | Tx_Invoke (Invoke_V1 t) => is_u128 (i1_max_fee t)
  | Tx_Invoke (Invoke_V3 t) => is_u64 (i3_tip t) ∧ wf_bounds (i3_resource_bounds t)
  | Tx_L1Handler _ => True
  end.

Definition bounds_of (m : ResourceBoundsMapping) (r : Resource) : ResourceBounds :=
  default {| max_amount := 0; max_price_per_unit := 0 |} (m !! r).

Definition resource_name (r : Resource) : bytes :=
  match r with L1Gas => L1_GAS | L2Gas => L2_GAS end.

(** The packed word: two zero bytes, the resource's name, its amount and price. *)
Definition bound_word (r : Resource) (b : ResourceBounds) : Z :=
  be_decode ([0; 0] ++ resource_name r ++ be_encode 8 (max_amount b)
             ++ be_encode 16 (max_price_per_unit b)).

Definition da_word (n f : DataAvailabilityMode) : Z :=
  DataAvailabilityMode_as_u32 n * 2 ^ 160 + DataAvailabilityMode_as_u32 f * 2 ^ 128.

Definition gas_list (tip : Z) (m : ResourceBoundsMapping) : list Z :=
  [tip; bound_word L1Gas (bounds_of m L1Gas); bound_word L2Gas (bounds_of m L2Gas)].

Definition version_of (offset_version : bool) (n : Z) : Z :=
  if offset_version then 2 ^ 128 + n else n.

Definition pfx (s : bytes) : Z := be_decode s.

Section Preimage.
Context `{crypto : StarknetCrypto} `{ca : ContractAddresses}.
Local Abbreviation h := core_compute_hash_on_elements.

Definition address_of (salt class_hash : Z) (calldata : list Z) : Z :=
  default 0 (calculate_contract_address salt class_hash calldata 0).

(** The elements hashed for a transaction. *)
Definition preimage (tx : Transaction) (chain_id : Z) (off : bool) (block_number : option Z) : list Z :=
  match tx with
  | Tx_Declare (Declare_V0 t) | Tx_Declare (Declare_V1 t) =>
      [pfx DECLARE_PREFIX; version_of off 0; d1_sender_address t; 0;
       h (if off then [d1_class_hash t] else []); d1_max_fee t; chain_id;
       if off then d1_nonce t else d1_class_hash t]
  | Tx_Declare (Declare_V2 t) =>
      [pfx DECLARE_PREFIX; version_of off 2; d2_sender_address t; 0; h [d2_class_hash t]; d2_max_fee t;
       chain_id; d2_nonce t; d2_compiled_class_hash t]
  | Tx_Declare (Declare_V3 t) =>
      [pfx DECLARE_PREFIX; version_of off 3; d3_sender_address t; h (gas_list (d3_tip t) (d3_resource_bounds t));
       h (d3_paymaster_data t); chain_id; d3_nonce t;
       da_word (d3_nonce_data_availability_mode t) (d3_fee_data_availability_mode t);
       h (d3_account_deployment_data t); d3_class_hash t; d3_compiled_class_hash t]
  | Tx_Deploy t =>
      let a := address_of (dp_contract_address_salt t) (dp_class_hash t) (dp_constructor_calldata t) in
      let ctor := starknet_keccak (bytes_of_string "constructor") in
      if opt_gt block_number LEGACY_BLOCK_NUMBER
      then [pfx DEPLOY_PREFIX; dp_version t; a; ctor; h (dp_constructor_calldata t); 0; chain_id]
      else [pfx DEPLOY_PREFIX; a; ctor; h (dp_constructor_calldata t); chain_id]
  | Tx_DeployAccount (DeployAccount_V1 t) =>
      [pfx DEPLOY_ACCOUNT_PREFIX; version_of off 1;
       address_of (da1_contract_address_salt t) (da1_class_hash t) (da1_constructor_calldata t); 0;
       h (da1_class_hash t :: da1_contract_address_salt t :: da1_constructor_calldata t);
       da1_max_fee t; chain_id; da1_nonce t]
  | Tx_DeployAccount (DeployAccount_V3 t) =>
      [pfx DEPLOY_ACCOUNT_PREFIX; version_of off 3;
       address_of (da3_contract_address_salt t) (da3_class_hash t) (da3_constructor_calldata t);
       h (gas_list (da3_tip t) (da3_resource_bounds t)); h (da3_paymaster_data t); chain_id; da3_nonce t;
       da_word (da3_nonce_data_availability_mode t) (da3_fee_data_availability_mode t);
       h (da3_constructor_calldata t); da3_class_hash t; da3_contract_address_salt t]
  | Tx_Invoke (Invoke_V0 t) =>
      if opt_gt block_number LEGACY_BLOCK_NUMBER
      then [pfx INVOKE_PREFIX; version_of off 0; i0_contract_address t; i0_entry_point_selector t;
            h (i0_calldata t); i0_max_fee t; chain_id]
      else [pfx INVOKE_PREFIX; i0_contract_address t; i0_entry_point_selector t; h (i0_calldata t); chain_id]
  | Tx_Invoke (Invoke_V1 t) =>
      [pfx INVOKE_PREFIX; version_of off 1; i1_sender_address t; 0; h (i1_calldata t); i1_max_fee t;
       chain_id; i1_nonce t]
  | Tx_Invoke (Invoke_V3 t) =>
      [pfx INVOKE_PREFIX; version_of off 3; i3_sender_address t; h (gas_list (i3_tip t) (i3_resource_bounds t));
       h (i3_paymaster_data t); chain_id; i3_nonce t;
       da_word (i3_nonce_data_availability_mode t) (i3_fee_data_availability_mode t);
       h [h (i3_account_deployment_data t); h (i3_calldata t)]]
  | Tx_L1Handler t =>
      match block_number with
      | Some n =>
          if n <? LEGACY_L1_HANDLER_BLOCK
          then [pfx INVOKE_PREFIX; lh_contract_address t; lh_entry_point_selector t; h (lh_calldata t); chain_id]
          else if n <? LEGACY_BLOCK_NUMBER
          then [pfx L1_HANDLER_PREFIX; lh_contract_address t; lh_entry_point_selector t; h (lh_calldata t);
                chain_id; lh_nonce t]
          else [pfx L1_HANDLER_PREFIX; version_of off 0; lh_contract_address t; lh_entry_point_selector t;
                h (lh_calldata t); 0; chain_id; lh_nonce t]
      | None => [pfx L1_HANDLER_PREFIX; version_of off 0; lh_contract_address t; lh_entry_point_selector t;
                 h (lh_calldata t); 0; chain_id; lh_nonce t]
      end
  end.

(** The lists the computation hashes on the way. *)
Definition nested (tx : Transaction) (off : bool) : list (list Z) :=
  match tx with
  | Tx_Declare (Declare_V0 t) | Tx_Declare (Declare_V1 t) => [if off then [d1_class_hash t] else []]
  | Tx_Declare (Declare_V2 t) => [[d2_class_hash t]]
  | Tx_Declare (Declare_V3 t) =>
      [gas_list (d3_tip t) (d3_resource_bounds t); d3_paymaster_data t; d3_account_deployment_data t]
  | Tx_Deploy t => [dp_constructor_calldata t]
  | Tx_DeployAccount (DeployAccount_V1 t) =>
      [da1_class_hash t :: da1_contract_address_salt t :: da1_constructor_calldata t]
  | Tx_DeployAccount (DeployAccount_V3 t) =>
      [gas_list (da3_tip t) (da3_resource_bounds t); da3_paymaster_data t; da3_constructor_calldata t]
  | Tx_Invoke (Invoke_V0 t) => [i0_calldata t]
  | Tx_Invoke (Invoke_V1 t) => [i1_calldata t]
  | Tx_Invoke (Invoke_V3 t) =>
      [gas_list (i3_tip t) (i3_resource_bounds t); i3_paymaster_data t; i3_account_deployment_data t;
       i3_calldata t; [h (i3_account_deployment_data t); h (i3_calldata t)]]
  | Tx_L1Handler t => [lh_calldata t]
  end.

(** The signed content: the transaction without its signature, with missing
    resource bounds read as zero, and without what the hash does not cover (the
    nonce of the first declare versions unless simulated, the version field of
    L1 handlers; of a deploy transaction, salt and class hash only enter
    through the address). *)
Inductive SignedContent :=
| SC_Tx (tx : Transaction)
| SC_Deploy (version contract_address : Z) (calldata : list Z).

Definition norm_bounds (m : ResourceBoundsMapping) : ResourceBoundsMapping :=
  <[L1Gas := bounds_of m L1Gas]> (<[L2Gas := bounds_of m L2Gas]> ∅).

Definition signed_content (off : bool) (tx : Transaction) : SignedContent :=
  match tx with
  | Tx_Declare (Declare_V0 t) | Tx_Declare (Declare_V1 t) =>
      SC_Tx (Tx_Declare (Declare_V1 {| d1_max_fee := d1_max_fee t; d1_signature := [];
        d1_nonce := if off then d1_nonce t else 0; d1_class_hash := d1_class_hash t;
        d1_sender_address := d1_sender_address t |}))
  | Tx_Declare (Declare_V2 t) =>
      SC_Tx (Tx_Declare (Declare_V2 {| d2_max_fee := d2_max_fee t; d2_signature := []; d2_nonce := d2_nonce t;
        d2_class_hash := d2_class_hash t; d2_compiled_class_hash := d2_compiled_class_hash t;
        d2_sender_address := d2_sender_address t |}))
  | Tx_Declare (Declare_V3 t) =>
      SC_Tx (Tx_Declare (Declare_V3 {| d3_resource_bounds := norm_bounds (d3_resource_bounds t);
        d3_tip := d3_tip t; d3_signature := []; d3_nonce := d3_nonce t; d3_class_hash := d3_class_hash t;
        d3_compiled_class_hash := d3_compiled_class_hash t; d3_sender_address := d3_sender_address t;
        d3_nonce_data_availability_mode := d3_nonce_data_availability_mode t;
        d3_fee_data_availability_mode := d3_fee_data_availability_mode t;
        d3_paymaster_data := d3_paymaster_data t;
        d3_account_deployment_data := d3_account_deployment_data t |}))
  | Tx_Deploy t =>
      SC_Deploy (dp_version t)
        (address_of (dp_contract_address_salt t) (dp_class_hash t) (dp_constructor_calldata t))
        (dp_constructor_calldata t)
  | Tx_DeployAccount (DeployAccount_V1 t) =>
      SC_Tx (Tx_DeployAccount (DeployAccount_V1 {| da1_max_fee := da1_max_fee t; da1_signature := [];
        da1_nonce := da1_nonce t; da1_class_hash := da1_class_hash t;
        da1_contract_address_salt := da1_contract_address_salt t;
        da1_constructor_calldata := da1_constructor_calldata t |}))
  | Tx_DeployAccount (DeployAccount_V3 t) =>
      SC_Tx (Tx_DeployAccount (DeployAccount_V3 {| da3_resource_bounds := norm_bounds (da3_resource_bounds t);
        da3_tip := da3_tip t; da3_signature := []; da3_nonce := da3_nonce t; da3_class_hash := da3_class_hash t;
        da3_contract_address_salt := da3_contract_address_salt t;
        da3_constructor_calldata := da3_constructor_calldata t;
        da3_nonce_data_availability_mode := da3_nonce_data_availability_mode t;
        da3_fee_data_availability_mode := da3_fee_data_availability_mode t;
        da3_paymaster_data := da3_paymaster_data t |}))
  | Tx_Invoke (Invoke_V0 t) =>
      SC_Tx (Tx_Invoke (Invoke_V0 {| i0_max_fee := i0_max_fee t; i0_signature := [];
        i0_contract_address := i0_contract_address t; i0_entry_point_selector := i0_entry_point_selector t;
        i0_calldata := i0_calldata t |}))
  | Tx_Invoke (Invoke_V1 t) =>
      SC_Tx (Tx_Invoke (Invoke_V1 {| i1_max_fee := i1_max_fee t; i1_signature := []; i1_nonce := i1_nonce t;
        i1_sender_address := i1_sender_address t; i1_calldata := i1_calldata t |}))
  | Tx_Invoke (Invoke_V3 t) =>
      SC_Tx (Tx_Invoke (Invoke_V3 {| i3_resource_bounds := norm_bounds (i3_resource_bounds t);
        i3_tip := i3_tip t; i3_signature := []; i3_nonce := i3_nonce t;
        i3_sender_address := i3_sender_address t; i3_calldata := i3_calldata t;
        i3_nonce_data_availability_mode := i3_nonce_data_availability_mode t;
        i3_fee_data_availability_mode := i3_fee_data_availability_mode t;
        i3_paymaster_data := i3_paymaster_data t;
        i3_account_deployment_data := i3_account_deployment_data t |}))
  | Tx_L1Handler t =>
      SC_Tx (Tx_L1Handler {| lh_version := 0; lh_nonce := lh_nonce t;
        lh_contract_address := lh_contract_address t; lh_entry_point_selector := lh_entry_point_selector t;
        lh_calldata := lh_calldata t |})
  end.

Definition is_deploy (tx : Transaction) : bool := match tx with Tx_Deploy _ => true | _ => false end.

End Preimage.

(** ** Properties *)

Lemma copy_from_slice_app lo hi pre mid src post :
  length pre = lo → length mid = length src → hi = (lo + length src)%nat →
  copy_from_slice lo hi src (pre ++ mid ++ post) = Ok (pre ++ src ++ post).
Proof.
  intros <- Hm ->. unfold copy_from_slice. rewrite !length_app.
  rewrite (proj2 (Nat.leb_le _ _)), (proj2 (Nat.leb_le _ _)), (proj2 (Nat.eqb_eq _ _)) by lia.
  cbn [andb]. rewrite take_app_length. do 3 f_equal. rewrite <-Hm, app_assoc.
  apply drop_app_length'. by rewrite length_app.
Qed.

Lemma resource_name_length r : length (resource_name r) = 6%nat.
Proof. by destruct r. Qed.

Lemma resource_name_bytes r : all_bytes (resource_name r).
Proof. destruct r; repeat constructor; done. Qed.

Lemma be_encode_zero n : be_encode n 0 = replicate n 0.
Proof.
  rewrite <-(be_decode_replicate_0 n), <-(length_replicate n 0) at 1.
  apply be_encode_decode, Forall_replicate. by unfold is_byte.
Qed.

Lemma bound_word_parts r b :
  all_bytes (resource_name r ++ be_encode 8 (max_amount b) ++ be_encode 16 (max_price_per_unit b))
  ∧ length (resource_name r ++ be_encode 8 (max_amount b) ++ be_encode 16 (max_price_per_unit b)) = 30%nat.
Proof.
  split; [|by rewrite !length_app, !be_encode_length, resource_name_length].
  rewrite !Forall_app. auto using resource_name_bytes with bytes.
Qed.

(** A packed word fits the field and determines the bounds. *)
Lemma from_bytes_be_small `{Hlibs : !FeltLibsSpec libs} bs :
  all_bytes bs → length bs = 30%nat →
  FieldElement_from_bytes_be ([0; 0] ++ bs) = Some (be_decode bs).
Proof.
  intros Hb Hl. change [0; 0] with (replicate 2 0).
  rewrite from_bytes_be_ok, be_decode_pad.
  - rewrite (proj2 (Z.ltb_lt _ _)); [done|].
    eapply Z.lt_trans; [apply be_decode_bound, Hb|]. by rewrite Hl.
  - rewrite length_app, length_replicate. lia.
  - apply Forall_app. split; [apply Forall_replicate; by unfold is_byte|done].
Qed.

Lemma bound_word_inj r b1 b2 :
  is_u64 (max_amount b1) → is_u128 (max_price_per_unit b1) →
  is_u64 (max_amount b2) → is_u128 (max_price_per_unit b2) →
  bound_word r b1 = bound_word r b2 → b1 = b2.
Proof.
  intros Ha1 Hp1 Ha2 Hp2. unfold bound_word. change [0; 0] with (replicate 2 0). rewrite !be_decode_pad.
  intros Heq. apply be_decode_inj in Heq as Heq'; try apply bound_word_parts.
  2: by rewrite !(proj2 (bound_word_parts _ _)).
  apply app_inv_head in Heq'. apply app_inj_1 in Heq' as [Ea Ep]; [|by rewrite !be_encode_length].
  apply be_encode_inj in Ea; [|unfold is_u64, u64_max in *; lia..].
  apply be_encode_inj in Ep; [|unfold is_u128, u128_max in *; lia..].
  destruct b1, b2; simpl in *; congruence.
Qed.

Lemma wf_bounds_of m r :
  wf_bounds m → is_u64 (max_amount (bounds_of m r)) ∧ is_u128 (max_price_per_unit (bounds_of m r)).
Proof.
  intros Hm. unfold bounds_of. destruct (m !! r) eqn:E; [by eapply Hm|].
  simpl. by unfold is_u64, is_u128.
Qed.

Lemma da_word_inj n1 f1 n2 f2 : da_word n1 f1 = da_word n2 f2 → n1 = n2 ∧ f1 = f2.
Proof.
  unfold da_word. destruct n1, f1, n2, f2; simpl DataAvailabilityMode_as_u32; intros H;
    try done; exfalso; lia.
Qed.

#[local] Opaque bound_word da_word.

Lemma gas_list_inj t1 t2 m1 m2 :
  wf_bounds m1 → wf_bounds m2 → gas_list t1 m1 = gas_list t2 m2 →
  t1 = t2 ∧ norm_bounds m1 = norm_bounds m2.
Proof.
  intros H1 H2 [= -> E1 E2]. split; [done|]. unfold norm_bounds.
  apply bound_word_inj in E1 as ->; [|by apply wf_bounds_of..].
  by apply bound_word_inj in E2 as ->; [|by apply wf_bounds_of..].
Qed.

#[local] Transparent bound_word da_word.

Section Properties.
Context `{Hlibs : !FeltLibsSpec libs} `{crypto : StarknetCrypto}.
Context `{Hca : !ContractAddressesSpec ca} `{hasher : HasherT}.

Lemma prepare_resource_bound_value_ok m r :
  prepare_resource_bound_value m r = Ok (bound_word r (bounds_of m r)).
Proof.
  unfold prepare_resource_bound_value, bound_word, bounds_of.
  change (replicate 32 0) with ([0; 0] ++ replicate 6 0 ++ replicate 24 0).
  change (match r with L1Gas => L1_GAS | L2Gas => L2_GAS end) with (resource_name r).
  rewrite copy_from_slice_app by by rewrite ?length_replicate, ?resource_name_length.
  cbn [mbind Outcome_bind].
  change (replicate 24 0) with (replicate 8 0 ++ replicate 16 0).
  set (pre := [0; 0] ++ resource_name r).
  assert (length pre = 8%nat) as Hpre by (unfold pre; by rewrite length_app, resource_name_length).
  assert (∀ b, FieldElement_from_bytes_be
            (pre ++ be_encode 8 (max_amount b) ++ be_encode 16 (max_price_per_unit b))
          = Some (be_decode ([0; 0] ++ resource_name r ++ be_encode 8 (max_amount b)
                             ++ be_encode 16 (max_price_per_unit b)))) as Hend.
  { intros b. unfold pre. rewrite <-app_assoc, from_bytes_be_small by apply bound_word_parts.
    change [0; 0] with (replicate 2 0). by rewrite be_decode_pad. }
  rewrite (app_assoc [0; 0] (resource_name r) (_ ++ _)). fold pre.
  destruct (m !! r) as [b|]; simpl default.
  - rewrite copy_from_slice_app by by rewrite ?be_encode_length.
    cbn [mbind Outcome_bind].
    rewrite (app_assoc pre), <-(app_nil_r (replicate 16 0)), copy_from_slice_app
      by by rewrite ?length_app, ?be_encode_length, ?Hpre.
    cbn [mbind Outcome_bind]. by rewrite app_nil_r, <-app_assoc, Hend.
  - cbn [mbind Outcome_bind]. rewrite <-!be_encode_zero.
    pose proof (Hend {| max_amount := 0; max_price_per_unit := 0 |}) as E. cbn in E |- *. by rewrite E.
Qed.

Lemma prepare_data_availability_modes_ok n f :
  prepare_data_availability_modes n f = Ok (da_word n f).
Proof.
  unfold prepare_data_availability_modes.
  destruct n, f; cbn [DataAvailabilityMode_as_u32];
    change (be_encode 4 0) with [0; 0; 0; 0]; change (be_encode 4 1) with [0; 0; 0; 1];
    cbn -[FieldElement_from_bytes_be da_word];
    (rewrite from_bytes_be_ok; [by vm_compute | done | by repeat constructor]).
Qed.

Lemma gas_hash_ok tip m :
  is_u64 tip → gas_hash tip m = Ok (core_compute_hash_on_elements (gas_list tip m)).
Proof.
  intros Ht. unfold gas_hash. rewrite !prepare_resource_bound_value_ok. simpl.
  by rewrite from_uint_ok by auto with bytes.
Qed.

Lemma byte_prefix_ok p :
  all_bytes p → (length p ≤ 31)%nat → byte_prefix p = Ok (pfx p).
Proof. apply chunk_to_felt_ok. Qed.

(** The constant of the source is [2^128] in Montgomery form. *)
Lemma simulate_offset_value : SIMULATE_TX_VERSION_OFFSET = 2 ^ 128.
Proof.
  unfold SIMULATE_TX_VERSION_OFFSET.
  destruct (from_mont_ok 18446744073700081665 17407 18446744073709551584 576460752142434320)
    as [Hf Heq]; [by vm_compute|].
  revert Hf Heq. generalize (FieldElement_from_mont 18446744073700081665 17407 18446744073709551584 576460752142434320).
  intros x Hf Heq. apply (f_equal (λ y, (y * mont_R_inv) mod P)) in Heq.
  rewrite Zmult_mod_idemp_l, <-Z.mul_assoc, Zmult_mod in Heq.
  change ((2 ^ 256 * mont_R_inv) mod P) with 1 in Heq.
  rewrite Z.mul_1_r, Zmod_mod, Z.mod_small in Heq by done. rewrite Heq. by vm_compute.
Qed.

Lemma version_add n :
  0 ≤ n ≤ 3 → FieldElement_add SIMULATE_TX_VERSION_OFFSET n = 2 ^ 128 + n.
Proof.
  intros Hn. rewrite simulate_offset_value, fe_add_ok.
  - apply Z.mod_small. unfold P. lia.
  - done.
  - unfold is_felt, P. lia.
Qed.

Lemma prefixes_ok :
  byte_prefix DECLARE_PREFIX = Ok (pfx DECLARE_PREFIX) ∧
  byte_prefix DEPLOY_ACCOUNT_PREFIX = Ok (pfx DEPLOY_ACCOUNT_PREFIX) ∧
  byte_prefix DEPLOY_PREFIX = Ok (pfx DEPLOY_PREFIX) ∧
  byte_prefix INVOKE_PREFIX = Ok (pfx INVOKE_PREFIX) ∧
  byte_prefix L1_HANDLER_PREFIX = Ok (pfx L1_HANDLER_PREFIX).
Proof. split_and!; (apply byte_prefix_ok; [by repeat constructor | cbn; lia]). Qed.

Lemma contract_address_ok salt class_hash calldata :
  is_felt salt → is_felt class_hash → Forall is_felt calldata →
  unwrap_opt (calculate_contract_address salt class_hash calldata 0)
  = Ok (E := Empty_set) (address_of salt class_hash calldata).
Proof.
  intros Hs Hc Hd. unfold address_of.
  destruct (calculate_contract_address_ok salt class_hash calldata 0 Hs Hc Hd) as (a & -> & _); done.
Qed.

Ltac unfold_compute_hash :=
  unfold compute_hash, compute_hash_Transaction, compute_hash_DeclareTransaction,
    compute_hash_DeployAccountTransaction, compute_hash_InvokeTransaction, compute_hash;
  unfold compute_hash_DeclareTransactionV0V1, compute_hash_DeclareTransactionV2,
    compute_hash_DeclareTransactionV3, compute_hash_DeployTransaction,
    compute_hash_given_contract_address, compute_hash_DeployAccountTransactionV1,
    compute_hash_DeployAccountTransactionV3, compute_hash_InvokeTransactionV0,
    compute_hash_InvokeTransactionV1, compute_hash_InvokeTransactionV3,
    compute_hash_L1HandlerTransaction, convert_calldata, Felt252Wrapper.ZERO,
    Felt252Wrapper.ONE, Felt252Wrapper.TWO, Felt252Wrapper.THREE.

(** Computing the hash of any transaction, at any block number, never
    panics and hashes exactly the elements of [preimage]: every prefix, packed
    resource bound and contract address the code [unwrap]s is available. *)
Lemma compute_hash_preimage tx chain_id off bn :
  wf_tx tx →
  compute_hash tx chain_id off bn = Ok (compute_hash_on_elements (preimage tx chain_id off bn)).
Proof.
  intros Hwf. destruct prefixes_ok as (P1 & P2 & P3 & P4 & P5).
  pose proof (version_add 1 ltac:(done)) as V1. pose proof (version_add 2 ltac:(done)) as V2.
  pose proof (version_add 3 ltac:(done)) as V3.
  destruct tx as [[t|t|t|t]|t|[t|t]|[t|t|t]|t]; simpl in Hwf; destruct_and?; unfold_compute_hash;
    rewrite ?P1, ?P2, ?P3, ?P4, ?P5, ?V1, ?V2, ?V3, ?simulate_offset_value;
    rewrite ?contract_address_ok by done; rewrite ?P1, ?P2, ?P3, ?P4, ?P5;
    rewrite ?gas_hash_ok, ?prepare_data_availability_modes_ok, ?from_uint_ok by done;
    cbn -[version_of Z.pow];
    try (destruct (opt_gt bn LEGACY_BLOCK_NUMBER); by destruct off);
    try by destruct off.
  destruct bn as [n|]; cbn -[version_of Z.pow].
  - destruct (n <? LEGACY_L1_HANDLER_BLOCK); [done|]. cbn -[version_of Z.pow].
    destruct (n <? LEGACY_BLOCK_NUMBER); [done|]. by destruct off.
  - by destruct off.
Qed.

Lemma collision_free_nested tx1 tx2 off1 off2 l1 l2 :
  collision_free core_compute_hash_on_elements (nested tx1 off1 ++ nested tx2 off2) →
  l1 ∈ nested tx1 off1 → l2 ∈ nested tx2 off2 →
  core_compute_hash_on_elements l1 = core_compute_hash_on_elements l2 → l1 = l2.
Proof. intros Hc H1 H2. apply Hc; rewrite elem_of_app; auto. Qed.

Lemma version_of_inj off1 off2 a b :
  0 ≤ a ≤ 3 → 0 ≤ b ≤ 3 → version_of off1 a = version_of off2 b → off1 = off2 ∧ a = b.
Proof. unfold version_of. destruct off1, off2; intros; split; first [done | lia]. Qed.

Lemma prefix_values :
  pfx DECLARE_PREFIX = 28258975365558885 ∧
  pfx DEPLOY_ACCOUNT_PREFIX = 2036277798190617858034555652763252 ∧
  pfx DEPLOY_PREFIX = 110386840629113 ∧ pfx INVOKE_PREFIX = 115923154332517 ∧
  pfx L1_HANDLER_PREFIX = 510926345461491391292786.
Proof. by vm_compute. Qed.

Lemma modern_block n :
  LEGACY_BLOCK_NUMBER < n →
  opt_gt (Some n) LEGACY_BLOCK_NUMBER = true ∧ (n <? LEGACY_L1_HANDLER_BLOCK) = false
  ∧ (n <? LEGACY_BLOCK_NUMBER) = false.
Proof.
  unfold LEGACY_BLOCK_NUMBER, LEGACY_L1_HANDLER_BLOCK. intros. split_and!.
  - by apply Z.ltb_lt.
  - apply Z.ltb_ge. lia.
  - apply Z.ltb_ge. lia.
Qed.

(** Transaction kinds, told apart by the prefix and the number of elements. *)
Inductive Kind := KInvoke0 | KInvoke1 | KInvoke3 | KDeclare01 | KDeclare2 | KDeclare3
                | KDeployAccount1 | KDeployAccount3 | KDeploy | KL1Handler.

Definition kind_of (tx : Transaction) : Kind :=
  match tx with
  | Tx_Declare (Declare_V0 _) | Tx_Declare (Declare_V1 _) => KDeclare01
  | Tx_Declare (Declare_V2 _) => KDeclare2
  | Tx_Declare (Declare_V3 _) => KDeclare3
  | Tx_Deploy _ => KDeploy
  | Tx_DeployAccount (DeployAccount_V1 _) => KDeployAccount1
  | Tx_DeployAccount (DeployAccount_V3 _) => KDeployAccount3
  | Tx_Invoke (Invoke_V0 _) => KInvoke0
  | Tx_Invoke (Invoke_V1 _) => KInvoke1
  | Tx_Invoke (Invoke_V3 _) => KInvoke3
  | Tx_L1Handler _ => KL1Handler
  end.

Definition kind_shape (k : Kind) : bytes * nat :=
  match k with
  | KInvoke0 => (INVOKE_PREFIX, 7) | KInvoke1 => (INVOKE_PREFIX, 8) | KInvoke3 => (INVOKE_PREFIX, 9)
  | KDeclare01 => (DECLARE_PREFIX, 8) | KDeclare2 => (DECLARE_PREFIX, 9) | KDeclare3 => (DECLARE_PREFIX, 11)
  | KDeployAccount1 => (DEPLOY_ACCOUNT_PREFIX, 8) | KDeployAccount3 => (DEPLOY_ACCOUNT_PREFIX, 11)
  | KDeploy => (DEPLOY_PREFIX, 7) | KL1Handler => (L1_HANDLER_PREFIX, 8)
  end%nat.

Lemma preimage_shape tx chain off n :
  LEGACY_BLOCK_NUMBER < n →
  head (preimage tx chain off (Some n)) = Some (pfx (kind_shape (kind_of tx)).1) ∧
  length (preimage tx chain off (Some n)) = (kind_shape (kind_of tx)).2.
Proof.
  intros Hn. destruct (modern_block _ Hn) as (G & A & B).
  destruct tx as [[t|t|t|t]|t|[t|t]|[t|t|t]|t]; unfold preimage; rewrite ?G, ?A, ?B; done.
Qed.

Lemma kind_of_preimage tx1 tx2 chain1 chain2 off1 off2 n1 n2 :
  LEGACY_BLOCK_NUMBER < n1 → LEGACY_BLOCK_NUMBER < n2 →
  preimage tx1 chain1 off1 (Some n1) = preimage tx2 chain2 off2 (Some n2) →
  kind_of tx1 = kind_of tx2.
Proof.
  intros L1 L2 Heq. destruct (preimage_shape tx1 chain1 off1 n1 L1) as [Hh Hl].
  rewrite Heq in Hh, Hl. destruct (preimage_shape tx2 chain2 off2 n2 L2) as [Hh' Hl'].
  rewrite Hh' in Hh. rewrite Hl' in Hl. apply (inj Some) in Hh. clear -Hh Hl.
  destruct prefix_values as (P1 & P2 & P3 & P4 & P5).
  destruct (kind_of tx1), (kind_of tx2); cbn [kind_shape fst snd] in Hh, Hl;
    first [reflexivity | discriminate Hl | rewrite ?P1, ?P2, ?P3, ?P4, ?P5 in Hh; discriminate Hh].
Qed.

Ltac version_inv :=
  repeat match goal with
  | H : version_of _ _ = version_of _ _ |- _ => apply version_of_inj in H as [? ?]; [|done..]
  end.

Ltac hash_inv Inj :=
  repeat match goal with
  | H : core_compute_hash_on_elements _ = core_compute_hash_on_elements _ |- _ =>
      first [ apply Inj in H; [|simpl; rewrite !elem_of_cons; tauto..]
            | apply eq_sym, Inj in H; [|simpl; rewrite !elem_of_cons; tauto..] ]; cons_inv
  end.

Ltac word_inv :=
  repeat match goal with
  | H : gas_list _ _ = gas_list _ _ |- _ => apply gas_list_inj in H; [|done..]
  | H : da_word _ _ = da_word _ _ |- _ => apply da_word_inj in H
  end.

#[local] Opaque bound_word da_word.

(** Where the chain id is among the hashed elements, in the current and the deprecated
    formats: the prefix and the number of elements tell. *)
Definition chain_position (l : list Z) : nat :=
  match length l with
  | 5 | 6 => 4
  | 9 => if bool_decide (head l = Some (pfx INVOKE_PREFIX)) then 5 else 6
  | 11 => 5
  | _ => 6
  end%nat.

Lemma chain_id_at tx chain off bn :
  let l := preimage tx chain off bn in l !! chain_position l = Some chain.
Proof.
  destruct tx as [[t|t|t|t]|t|[t|t]|[t|t|t]|t]; cbn [preimage]; repeat case_match; try done.
Qed.

Lemma preimage_chain_id tx1 tx2 chain1 chain2 off1 off2 bn1 bn2 :
  preimage tx1 chain1 off1 bn1 = preimage tx2 chain2 off2 bn2 → chain1 = chain2.
Proof.
  intros E. pose proof (chain_id_at tx1 chain1 off1 bn1) as H. cbv zeta in H.
  rewrite E, (chain_id_at tx2 chain2 off2 bn2) in H. by injection H.
Qed.

Lemma norm_bounds_gas tip m m' : norm_bounds m = norm_bounds m' → gas_list tip m = gas_list tip m'.
Proof.
  intros H. unfold gas_list. pose proof (f_equal (lookup L1Gas) H) as H1. pose proof (f_equal (lookup L2Gas) H) as H2.
  unfold norm_bounds in H1, H2. rewrite !lookup_insert_eq in H1. do 2 (rewrite lookup_insert_ne, lookup_insert_eq in H2 by done).
  congruence.
Qed.

(** What the hash does not tell apart: transactions with the same signed content have
    the same hashed elements. *)
Lemma preimage_of_content tx1 tx2 chain off1 off2 n1 n2 :
  LEGACY_BLOCK_NUMBER < n1 → LEGACY_BLOCK_NUMBER < n2 →
  off1 = off2 ∨ is_deploy tx1 → signed_content off1 tx1 = signed_content off2 tx2 →
  preimage tx1 chain off1 (Some n1) = preimage tx2 chain off2 (Some n2).
Proof.
  intros L1 L2 Ho E. destruct (modern_block _ L1) as (G1 & A1 & B1). destruct (modern_block _ L2) as (G2 & A2 & B2).
  destruct tx1 as [[[]|[]|[]|[]]|[]|[[]|[]]|[[]|[]|[]]|[]], tx2 as [[[]|[]|[]|[]]|[]|[[]|[]]|[[]|[]|[]]|[]];
    try discriminate E; unfold preimage; rewrite ?G1, ?G2, ?A1, ?A2, ?B1, ?B2;
    unfold signed_content in E; simpl in E, Ho |- *;
    repeat match type of E with context [norm_bounds ?m] => remember (norm_bounds m) as x end;
    injection E; clear E; intros; subst;
    destruct Ho as [<-|Ho]; try done; try (by destruct off1; simplify_eq).
  all: first [ match goal with H : norm_bounds _ = norm_bounds _ |- _ => by rewrite (norm_bounds_gas _ _ _ H) end
             | match goal with H : address_of _ _ _ = address_of _ _ _ |- _ => by rewrite H end ].
Qed.

(** C8: Outside the deprecated blocks the hash of a transaction is computed without
    panicking, and says exactly what was signed: two transactions (on whose hashed lists
    the hash functions do not collide) have the same hash exactly when their chain ids
    are equal, both or neither are simulated (the hash of a deploy transaction does not
    depend on it) and their signed contents are equal, type and version included.  The
    signed content has every field but the signature, with the bounds of the two
    resources, except that versions 0 and 1 of declare transactions are not told
    apart, their nonce counts in simulations only, a deploy transaction is signed by
    version, contract address and calldata, and an L1 handler without its version. *)
Theorem transaction_hash_binding tx1 tx2 chain1 chain2 off1 off2 n1 n2 :
  wf_tx tx1 → wf_tx tx2 → LEGACY_BLOCK_NUMBER < n1 → LEGACY_BLOCK_NUMBER < n2 →
  collision_free compute_hash_on_elements
    [preimage tx1 chain1 off1 (Some n1); preimage tx2 chain2 off2 (Some n2)] →
  collision_free core_compute_hash_on_elements (nested tx1 off1 ++ nested tx2 off2) →
  ∃ hash1 hash2, compute_hash tx1 chain1 off1 (Some n1) = Ok hash1 ∧ compute_hash tx2 chain2 off2 (Some n2) = Ok hash2 ∧
    (hash1 = hash2 ↔
     chain1 = chain2 ∧ (off1 = off2 ∨ is_deploy tx1) ∧ signed_content off1 tx1 = signed_content off2 tx2).
Proof.
  intros W1 W2 L1 L2 Cf Cn. do 2 eexists. split; [by apply compute_hash_preimage|]. split; [by apply compute_hash_preimage|].
  split; [|intros (<- & Ho & Hc); f_equal; by apply preimage_of_content].
  intros E2. apply Cf in E2; [|set_solver..]. clear Cf.
  pose proof (λ l1 l2, collision_free_nested tx1 tx2 off1 off2 l1 l2 Cn) as Inj. clear Cn.
  destruct (modern_block _ L1) as (G1 & A1 & B1). destruct (modern_block _ L2) as (G2 & A2 & B2).
  pose proof (kind_of_preimage _ _ _ _ _ _ _ _ L1 L2 E2) as Hk.
  destruct tx1 as [[t1|t1|t1|t1]|t1|[t1|t1]|[t1|t1|t1]|t1], tx2 as [[t2|t2|t2|t2]|t2|[t2|t2]|[t2|t2|t2]|t2];
    try discriminate Hk; clear Hk;
    unfold preimage in E2; rewrite ?G1, ?G2, ?A1, ?A2, ?B1, ?B2 in E2;
    cons_inv; version_inv; destruct_and?; subst; hash_inv Inj; clear Inj;
    simpl in W1, W2; destruct_and?; word_inv; destruct_and?.
  1-4: destruct off2; cons_inv.
  all: split; [done|]; split; [by auto|]; unfold signed_content; congruence.
Qed.

(** The hash of a declare transaction of version 1 does not cover its
    nonce: the code hashes it with version 0 in the format of version 0. *)
Theorem declare_v1_nonce_not_signed t nonce chain_id bn :
  compute_hash (Tx_Declare (Declare_V1 t)) chain_id false bn
  = compute_hash (Tx_Declare (Declare_V1
      {| d1_max_fee := d1_max_fee t; d1_signature := d1_signature t; d1_nonce := nonce;
         d1_class_hash := d1_class_hash t; d1_sender_address := d1_sender_address t |})) chain_id false bn
  ∧ compute_hash (Tx_Declare (Declare_V1 t)) chain_id false bn
    = compute_hash (Tx_Declare (Declare_V0 t)) chain_id false bn.
Proof. done. Qed.

(** At a block number below 854 the hash of an L1 handler is the hash of
    the version-0 invoke with the same target, selector and calldata; without a
    block number the two types disagree on the format: the invoke (and deploy)
    hash falls back to the deprecated one, the L1 handler uses the current
    one. *)
Theorem legacy_formats l i chain_id off n :
  i0_contract_address i = lh_contract_address l →
  i0_entry_point_selector i = lh_entry_point_selector l →
  i0_calldata i = lh_calldata l →
  0 ≤ n < LEGACY_L1_HANDLER_BLOCK → is_u128 (i0_max_fee i) →
  compute_hash (Tx_L1Handler l) chain_id off (Some n)
    = compute_hash (Tx_Invoke (Invoke_V0 i)) chain_id off (Some n)
  ∧ compute_hash (Tx_Invoke (Invoke_V0 i)) chain_id off None
    = compute_hash (Tx_Invoke (Invoke_V0 i)) chain_id off (Some n)
  ∧ compute_hash (Tx_L1Handler l) chain_id off None
    = compute_hash (Tx_L1Handler l) chain_id off (Some (LEGACY_BLOCK_NUMBER + 1)).
Proof.
  intros Ha He Hc Hn Hfee. rewrite !compute_hash_preimage by done.
  unfold preimage, opt_gt. rewrite Ha, He, Hc.
  rewrite (proj2 (Z.ltb_lt n _)) by lia.
  rewrite (proj2 (Z.ltb_ge LEGACY_BLOCK_NUMBER n)) by (unfold LEGACY_L1_HANDLER_BLOCK, LEGACY_BLOCK_NUMBER in *; lia).
  done.
Qed.

End Properties.

(** ** Witnesses *)

Definition address_model : ContractAddresses := {|
  calculate_contract_address salt class_hash calldata deployer :=
    Some ((salt + class_hash + foldr Z.add 0 calldata + deployer) mod P);
|}.

#[export] Instance address_model_spec : ContractAddressesSpec address_model.
Proof. split. intros. eexists. split; [done|]. by apply Z.mod_pos_bound. Qed.

Definition example_invoke : InvokeTransactionV1 :=
  {| i1_max_fee := 5; i1_signature := [1; 2]; i1_nonce := 3; i1_sender_address := 4; i1_calldata := [6; 7] |}.
Definition example_invoke' : InvokeTransactionV1 :=
  {| i1_max_fee := 5; i1_signature := []; i1_nonce := 3; i1_sender_address := 4; i1_calldata := [6; 7] |}.
Definition example_invoke'' : InvokeTransactionV1 :=
  {| i1_max_fee := 5; i1_signature := [1; 2]; i1_nonce := 4; i1_sender_address := 4; i1_calldata := [6; 7] |}.
Definition example_invoke_v0 : InvokeTransactionV0 :=
  {| i0_max_fee := 5; i0_signature := []; i0_contract_address := 8; i0_entry_point_selector := 9;
     i0_calldata := [1] |}.
Definition example_l1_handler : L1HandlerTransaction :=
  {| lh_version := 0; lh_nonce := 0; lh_contract_address := 8; lh_entry_point_selector := 9;
     lh_calldata := [1] |}.

Lemma encode_list_collision_free l : collision_free (λ x : list Z, Zpos (encode x)) l.
Proof. intros x y _ _ [= H]. by apply (inj encode) in H. Qed.

(** Another signature does not change the hash, another nonce does. *)
Lemma transaction_hash_binding_witness :
  let hash tx := @compute_hash _ crypto_model address_model _ _ (@PedersenHasher _ crypto_model)
                   (Tx_Invoke (Invoke_V1 tx)) 77 false (Some 2000) in
  hash example_invoke = hash example_invoke' ∧ hash example_invoke ≠ hash example_invoke''.
Proof.
  intros hash.
  pose proof (λ tx W W', transaction_hash_binding (crypto := crypto_model) (Hca := address_model_spec) (hasher := @PedersenHasher _ crypto_model)
    (Tx_Invoke (Invoke_V1 example_invoke)) (Tx_Invoke (Invoke_V1 tx)) 77 77 false false 2000 2000
    W W' eq_refl eq_refl (encode_list_collision_free _) (encode_list_collision_free _)) as H.
  split.
  - destruct (H example_invoke') as (h1 & h2 & H1 & H2 & Hiff); [done|done|]. unfold hash. rewrite H1, H2. f_equal.
    apply Hiff. split; [reflexivity|]. split; [left; reflexivity|reflexivity].
  - destruct (H example_invoke'') as (h1 & h2 & H1 & H2 & Hiff); [done|done|]. unfold hash. rewrite H1, H2. intros [= He].
    apply Hiff in He as (_ & _ & He). discriminate He.
Defined.

Lemma legacy_formats_witness :
  @compute_hash _ crypto_model address_model _ _ (@PedersenHasher _ crypto_model)
    (Tx_L1Handler example_l1_handler) 77 false (Some 100)
  = @compute_hash _ crypto_model address_model _ _ (@PedersenHasher _ crypto_model)
    (Tx_Invoke (Invoke_V0 example_invoke_v0)) 77 false (Some 100).
Proof.
  refine (proj1 (legacy_formats (crypto := crypto_model) (hasher := @PedersenHasher _ crypto_model)
            example_l1_handler example_invoke_v0 77 false 100 _ _ _ _ _)); done.
Defined.
