(* ===== verification/CoreTx.v ===== *)
(** * CoreTx: transactions at the RPC boundary
    ([primitives/transactions/src/to_starknet_core_transaction.rs] and
    [from_broadcasted_transactions.rs])

    Stored transactions are served to clients as starknet_core's types;
    transactions clients broadcast are turned into executable ones.  Gzip, the
    Sierra compiler, class hashes and blockifier's constructors are third-party:
    the class [ClassLibs]. *)

From S2P Require Import Prelude Felt Hashers Transactions TxHash.

Abbreviation Res := (Outcome Empty_set).

(** ** starknet_core's types *)

Module core.
Inductive DataAvailabilityMode := L1 | L2.
Record ResourceBoundsMapping := { l1_gas : ResourceBounds; l2_gas : ResourceBounds }.

Inductive DeclareTransaction :=
| Declare_V0 (transaction_hash max_fee : Z) (signature : list Z) (class_hash sender_address : Z)
| Declare_V1 (transaction_hash max_fee : Z) (signature : list Z) (nonce class_hash sender_address : Z)
| Declare_V2 (transaction_hash max_fee : Z) (signature : list Z)
    (nonce class_hash sender_address compiled_class_hash : Z)
| Declare_V3 (transaction_hash : Z) (resource_bounds : ResourceBoundsMapping) (tip : Z) (signature : list Z)
    (nonce class_hash compiled_class_hash sender_address : Z)
    (nonce_data_availability_mode fee_data_availability_mode : DataAvailabilityMode)
    (paymaster_data account_deployment_data : list Z).

Inductive DeployAccountTransaction :=
| DeployAccount_V1 (transaction_hash max_fee : Z) (signature : list Z) (nonce contract_address_salt : Z)
    (constructor_calldata : list Z) (class_hash : Z)
| DeployAccount_V3 (transaction_hash : Z) (resource_bounds : ResourceBoundsMapping) (tip : Z)
    (signature : list Z) (nonce class_hash contract_address_salt : Z) (constructor_calldata : list Z)
    (nonce_data_availability_mode fee_data_availability_mode : DataAvailabilityMode)
    (paymaster_data : list Z).

Inductive InvokeTransaction :=
| Invoke_V0 (transaction_hash max_fee : Z) (signature : list Z) (contract_address entry_point_selector : Z)
    (calldata : list Z)
| Invoke_V1 (transaction_hash max_fee : Z) (signature : list Z) (nonce sender_address : Z) (calldata : list Z)
| Invoke_V3 (transaction_hash : Z) (resource_bounds : ResourceBoundsMapping) (tip : Z) (signature : list Z)
    (nonce sender_address : Z) (calldata : list Z)
    (nonce_data_availability_mode fee_data_availability_mode : DataAvailabilityMode)
    (paymaster_data account_deployment_data : list Z).

Inductive Transaction :=
| Declare_ (tx : DeclareTransaction)
| DeployAccount (tx : DeployAccountTransaction)
| Deploy (transaction_hash contract_address_salt : Z) (constructor_calldata : list Z) (class_hash version : Z)
| Invoke (tx : InvokeTransaction)
| L1Handler (transaction_hash version nonce contract_address entry_point_selector : Z) (calldata : list Z).
End core.

(** ** To starknet_core *)

Section ToCore.
Context `{libs : FeltLibs}.

(** [Felt252Wrapper::from(x).into()] for a [StarkFelt] holding the value [x]. *)
Definition sf (x : Z) : Res Z := Felt252Wrapper.from_starkfelt (be_encode 32 x).
Definition sfs (l : list Z) : Res (list Z) := mapM sf l.

Definition api_resources_to_core_ressources (resource : ResourceBoundsMapping) : Res core.ResourceBoundsMapping :=
  l1_gas ← unwrap_opt (resource !! L1Gas);
  l2_gas ← unwrap_opt (resource !! L2Gas);
  let resource_for_l1 := {| max_amount := max_amount l1_gas; max_price_per_unit := max_price_per_unit l1_gas |} in
  let resource_for_l2 := {| max_amount := max_amount l2_gas; max_price_per_unit := max_price_per_unit l2_gas |} in
  Ok {| core.l1_gas := resource_for_l1; core.l2_gas := resource_for_l2 |}.

Definition api_da_to_core_da (mode : DataAvailabilityMode) : option core.DataAvailabilityMode :=
  match mode with DA_L1 => Some core.L1 | DA_L2 => Some core.L2 end.

Definition to_core_declare (tx : DeclareTransaction) (transaction_hash : Z) : Res core.DeclareTransaction :=
  match tx with
  | Declare_V0 t =>
      max_fee ← Felt252Wrapper.from_u128 (d1_max_fee t);
      signature ← sfs (d1_signature t);
      class_hash ← sf (d1_class_hash t);
      sender_address ← sf (d1_sender_address t);
      Ok (core.Declare_V0 transaction_hash max_fee signature class_hash sender_address)
  | Declare_V1 t =>
      max_fee ← Felt252Wrapper.from_u128 (d1_max_fee t);
      signature ← sfs (d1_signature t);
      nonce ← sf (d1_nonce t);
      class_hash ← sf (d1_class_hash t);
      sender_address ← sf (d1_sender_address t);
      Ok (core.Declare_V1 transaction_hash max_fee signature nonce class_hash sender_address)
  | Declare_V2 t =>
      max_fee ← Felt252Wrapper.from_u128 (d2_max_fee t);
      signature ← sfs (d2_signature t);
      nonce ← sf (d2_nonce t);
      class_hash ← sf (d2_class_hash t);
      sender_address ← sf (d2_sender_address t);
      compiled_class_hash ← sf (d2_compiled_class_hash t);
      Ok (core.Declare_V2 transaction_hash max_fee signature nonce class_hash sender_address compiled_class_hash)
  | Declare_V3 t =>
      resource_bounds ← api_resources_to_core_ressources (d3_resource_bounds t);
      signature ← sfs (d3_signature t);
      nonce ← sf (d3_nonce t);
      class_hash ← sf (d3_class_hash t);
      compiled_class_hash ← sf (d3_compiled_class_hash t);
      sender_address ← sf (d3_sender_address t);
      nda ← unwrap_opt (api_da_to_core_da (d3_nonce_data_availability_mode t));
      fda ← unwrap_opt (api_da_to_core_da (d3_fee_data_availability_mode t));
      paymaster_data ← sfs (d3_paymaster_data t);
      account_deployment_data ← sfs (d3_account_deployment_data t);
      Ok (core.Declare_V3 transaction_hash resource_bounds (d3_tip t) signature nonce class_hash
            compiled_class_hash sender_address nda fda paymaster_data account_deployment_data)
  end.

Definition to_core_deploy_account (tx : DeployAccountTransaction) (transaction_hash : Z)
    : Res core.DeployAccountTransaction :=
  match tx with
  | DeployAccount_V1 t =>
      max_fee ← Felt252Wrapper.from_u128 (da1_max_fee t);
      signature ← sfs (da1_signature t);
      nonce ← sf (da1_nonce t);
      contract_address_salt ← sf (da1_contract_address_salt t);
      constructor_calldata ← sfs (da1_constructor_calldata t);
      class_hash ← sf (da1_class_hash t);
      Ok (core.DeployAccount_V1 transaction_hash max_fee signature nonce contract_address_salt
            constructor_calldata class_hash)
  | DeployAccount_V3 t =>
      resource_bounds ← api_resources_to_core_ressources (da3_resource_bounds t);
      signature ← sfs (da3_signature t);
      nonce ← sf (da3_nonce t);
      class_hash ← sf (da3_class_hash t);
      contract_address_salt ← sf (da3_contract_address_salt t);
      constructor_calldata ← sfs (da3_constructor_calldata t);
      nda ← unwrap_opt (api_da_to_core_da (da3_nonce_data_availability_mode t));
      fda ← unwrap_opt (api_da_to_core_da (da3_fee_data_availability_mode t));
      paymaster_data ← sfs (da3_paymaster_data t);
      Ok (core.DeployAccount_V3 transaction_hash resource_bounds (da3_tip t) signature nonce class_hash
            contract_address_salt constructor_calldata nda fda paymaster_data)
  end.

Definition to_core_invoke (tx : InvokeTransaction) (transaction_hash : Z) : Res core.InvokeTransaction :=
  match tx with
  | Invoke_V0 t =>
      max_fee ← Felt252Wrapper.from_u128 (i0_max_fee t);
      signature ← sfs (i0_signature t);
      contract_address ← sf (i0_contract_address t);
      entry_point_selector ← sf (i0_entry_point_selector t);
      calldata ← sfs (i0_calldata t);
      Ok (core.Invoke_V0 transaction_hash max_fee signature contract_address entry_point_selector calldata)
  | Invoke_V1 t =>
      max_fee ← Felt252Wrapper.from_u128 (i1_max_fee t);
      signature ← sfs (i1_signature t);
      nonce ← sf (i1_nonce t);
      sender_address ← sf (i1_sender_address t);
      calldata ← sfs (i1_calldata t);
      Ok (core.Invoke_V1 transaction_hash max_fee signature nonce sender_address calldata)
  | Invoke_V3 t =>
      resource_bounds ← api_resources_to_core_ressources (i3_resource_bounds t);
      signature ← sfs (i3_signature t);
      nonce ← sf (i3_nonce t);
      sender_address ← sf (i3_sender_address t);
      calldata ← sfs (i3_calldata t);
      nda ← unwrap_opt (api_da_to_core_da (i3_nonce_data_availability_mode t));
      fda ← unwrap_opt (api_da_to_core_da (i3_fee_data_availability_mode t));
      paymaster_data ← sfs (i3_paymaster_data t);
      account_deployment_data ← sfs (i3_account_deployment_data t);
      Ok (core.Invoke_V3 transaction_hash resource_bounds (i3_tip t) signature nonce sender_address calldata
            nda fda paymaster_data account_deployment_data)
  end.

Definition to_starknet_core_tx (tx : Transaction) (transaction_hash : Z) : Res core.Transaction :=
  match tx with
  | Tx_Declare tx => core.Declare_ <$> to_core_declare tx transaction_hash
  | Tx_DeployAccount tx => core.DeployAccount <$> to_core_deploy_account tx transaction_hash
  | Tx_Deploy tx =>
      contract_address_salt ← sf (dp_contract_address_salt tx);
      constructor_calldata ← sfs (dp_constructor_calldata tx);
      class_hash ← sf (dp_class_hash tx);
      Ok (core.Deploy transaction_hash contract_address_salt constructor_calldata class_hash Felt252Wrapper.ZERO)
  | Tx_Invoke tx => core.Invoke <$> to_core_invoke tx transaction_hash
  | Tx_L1Handler tx =>
      nonce ← sf (lh_nonce tx);
      nonce ← unwrap (Felt252Wrapper.try_into_u64 nonce);
      contract_address ← sf (lh_contract_address tx);
      entry_point_selector ← sf (lh_entry_point_selector tx);
      calldata ← sfs (lh_calldata tx);
      Ok (core.L1Handler transaction_hash 0 nonce contract_address entry_point_selector calldata)
  end.

End ToCore.

(** ** What is served is what is stored *)

(** The field elements of a transaction. *)
Definition tx_felts (tx : Transaction) : list Z :=
  match tx with
  | Tx_Declare (Declare_V0 t) | Tx_Declare (Declare_V1 t) =>
      [d1_nonce t; d1_class_hash t; d1_sender_address t] ++ d1_signature t
  | Tx_Declare (Declare_V2 t) =>
      [d2_nonce t; d2_class_hash t; d2_sender_address t; d2_compiled_class_hash t] ++ d2_signature t
  | Tx_Declare (Declare_V3 t) =>
      [d3_nonce t; d3_class_hash t; d3_sender_address t; d3_compiled_class_hash t]
      ++ d3_signature t ++ d3_paymaster_data t ++ d3_account_deployment_data t
  | Tx_Deploy t =>
      [dp_version t; dp_class_hash t; dp_contract_address_salt t] ++ dp_constructor_calldata t
  | Tx_DeployAccount (DeployAccount_V1 t) =>
      [da1_nonce t; da1_class_hash t; da1_contract_address_salt t]
      ++ da1_signature t ++ da1_constructor_calldata t
  | Tx_DeployAccount (DeployAccount_V3 t) =>
      [da3_nonce t; da3_class_hash t; da3_contract_address_salt t]
      ++ da3_signature t ++ da3_constructor_calldata t ++ da3_paymaster_data t
  | Tx_Invoke (Invoke_V0 t) =>
      [i0_contract_address t; i0_entry_point_selector t] ++ i0_signature t ++ i0_calldata t
  | Tx_Invoke (Invoke_V1 t) => [i1_nonce t; i1_sender_address t] ++ i1_signature t ++ i1_calldata t
  | Tx_Invoke (Invoke_V3 t) =>
      [i3_nonce t; i3_sender_address t] ++ i3_signature t ++ i3_calldata t
      ++ i3_paymaster_data t ++ i3_account_deployment_data t
  | Tx_L1Handler t =>
      [lh_version t; lh_nonce t; lh_contract_address t; lh_entry_point_selector t] ++ lh_calldata t
  end.

Definition well_ranged (tx : Transaction) : Prop := wf_tx tx ∧ Forall is_felt (tx_felts tx).

Definition both_bounds (m : ResourceBoundsMapping) : bool :=
  match m !! L1Gas, m !! L2Gas with
  | Some _, Some _ => true
  | _, _ => false
  end.

(** The transactions that can be served. *)
Definition servable (tx : Transaction) : bool :=
  match tx with
  | Tx_Declare (Declare_V3 t) => both_bounds (d3_resource_bounds t)
  | Tx_DeployAccount (DeployAccount_V3 t) => both_bounds (da3_resource_bounds t)
  | Tx_Invoke (Invoke_V3 t) => both_bounds (i3_resource_bounds t)
  | Tx_L1Handler t => lh_nonce t <=? u64_max
  | _ => true
  end.

Definition api_bounds (m : core.ResourceBoundsMapping) : ResourceBoundsMapping :=
  <[L1Gas := core.l1_gas m]> (<[L2Gas := core.l2_gas m]> ∅).
Definition api_mode (m : core.DataAvailabilityMode) : DataAvailabilityMode :=
  match m with core.L1 => DA_L1 | core.L2 => DA_L2 end.

(** The stored transaction, read back from what a client receives. *)
Definition from_core (tx : core.Transaction) : Transaction :=
  match tx with
  | core.Declare_ (core.Declare_V0 _ f s c a) => Tx_Declare (Declare_V0
      {| d1_max_fee := f; d1_signature := s; d1_nonce := 0; d1_class_hash := c; d1_sender_address := a |})
  | core.Declare_ (core.Declare_V1 _ f s n c a) => Tx_Declare (Declare_V1
      {| d1_max_fee := f; d1_signature := s; d1_nonce := n; d1_class_hash := c; d1_sender_address := a |})
  | core.Declare_ (core.Declare_V2 _ f s n c a cc) => Tx_Declare (Declare_V2
      {| d2_max_fee := f; d2_signature := s; d2_nonce := n; d2_class_hash := c;
         d2_compiled_class_hash := cc; d2_sender_address := a |})
  | core.Declare_ (core.Declare_V3 _ rb t s n c cc a nda fda pm ad) => Tx_Declare (Declare_V3
      {| d3_resource_bounds := api_bounds rb; d3_tip := t; d3_signature := s; d3_nonce := n; d3_class_hash := c;
         d3_compiled_class_hash := cc; d3_sender_address := a;
         d3_nonce_data_availability_mode := api_mode nda; d3_fee_data_availability_mode := api_mode fda;
         d3_paymaster_data := pm; d3_account_deployment_data := ad |})
  | core.DeployAccount (core.DeployAccount_V1 _ f s n sl cd c) => Tx_DeployAccount (DeployAccount_V1
      {| da1_max_fee := f; da1_signature := s; da1_nonce := n; da1_class_hash := c;
         da1_contract_address_salt := sl; da1_constructor_calldata := cd |})
  | core.DeployAccount (core.DeployAccount_V3 _ rb t s n c sl cd nda fda pm) => Tx_DeployAccount (DeployAccount_V3
      {| da3_resource_bounds := api_bounds rb; da3_tip := t; da3_signature := s; da3_nonce := n;
         da3_class_hash := c; da3_contract_address_salt := sl; da3_constructor_calldata := cd;
         da3_nonce_data_availability_mode := api_mode nda; da3_fee_data_availability_mode := api_mode fda;
         da3_paymaster_data := pm |})
  | core.Deploy _ sl cd c v => Tx_Deploy
      {| dp_version := v; dp_class_hash := c; dp_contract_address_salt := sl; dp_constructor_calldata := cd |}
  | core.Invoke (core.Invoke_V0 _ f s a ep cd) => Tx_Invoke (Invoke_V0
      {| i0_max_fee := f; i0_signature := s; i0_contract_address := a; i0_entry_point_selector := ep;
         i0_calldata := cd |})
  | core.Invoke (core.Invoke_V1 _ f s n a cd) => Tx_Invoke (Invoke_V1
      {| i1_max_fee := f; i1_signature := s; i1_nonce := n; i1_sender_address := a; i1_calldata := cd |})
  | core.Invoke (core.Invoke_V3 _ rb t s n a cd nda fda pm ad) => Tx_Invoke (Invoke_V3
      {| i3_resource_bounds := api_bounds rb; i3_tip := t; i3_signature := s; i3_nonce := n;
         i3_sender_address := a; i3_calldata := cd;
         i3_nonce_data_availability_mode := api_mode nda; i3_fee_data_availability_mode := api_mode fda;
         i3_paymaster_data := pm; i3_account_deployment_data := ad |})
  | core.L1Handler _ v n a ep cd => Tx_L1Handler
      {| lh_version := v; lh_nonce := n; lh_contract_address := a; lh_entry_point_selector := ep;
         lh_calldata := cd |}
  end.

Definition core_hash (tx : core.Transaction) : Z :=
  match tx with
  | core.Declare_ (core.Declare_V0 h _ _ _ _) | core.Declare_ (core.Declare_V1 h _ _ _ _ _)
  | core.Declare_ (core.Declare_V2 h _ _ _ _ _ _) | core.Declare_ (core.Declare_V3 h _ _ _ _ _ _ _ _ _ _ _)
  | core.DeployAccount (core.DeployAccount_V1 h _ _ _ _ _ _)
  | core.DeployAccount (core.DeployAccount_V3 h _ _ _ _ _ _ _ _ _ _)
  | core.Deploy h _ _ _ _ | core.Invoke (core.Invoke_V0 h _ _ _ _ _) | core.Invoke (core.Invoke_V1 h _ _ _ _ _)
  | core.Invoke (core.Invoke_V3 h _ _ _ _ _ _ _ _ _ _) | core.L1Handler h _ _ _ _ _ => h
  end.

(** What the served form does not carry: the nonce of a declare of version 0 and
    the versions of deploy and L1 handler transactions, always served as zero. *)
Definition normal (tx : Transaction) : Transaction :=
  match tx with
  | Tx_Declare (Declare_V0 t) => Tx_Declare (Declare_V0
      {| d1_max_fee := d1_max_fee t; d1_signature := d1_signature t; d1_nonce := 0;
         d1_class_hash := d1_class_hash t; d1_sender_address := d1_sender_address t |})
  | Tx_Deploy t => Tx_Deploy
      {| dp_version := 0; dp_class_hash := dp_class_hash t;
         dp_contract_address_salt := dp_contract_address_salt t;
         dp_constructor_calldata := dp_constructor_calldata t |}
  | Tx_L1Handler t => Tx_L1Handler
      {| lh_version := 0; lh_nonce := lh_nonce t; lh_contract_address := lh_contract_address t;
         lh_entry_point_selector := lh_entry_point_selector t; lh_calldata := lh_calldata t |}
  | _ => tx
  end.

Section ToCoreProperties.
Context `{Hlibs : !FeltLibsSpec libs}.

Lemma sf_id x : is_felt x → sf x = Ok x.
Proof. intros Hx. unfold sf, Felt252Wrapper.from_starkfelt. by rewrite try_from_slice_felt. Qed.

Lemma sfs_id l : Forall is_felt l → sfs l = Ok l.
Proof.
  intros H. unfold sfs. rewrite (mapM_Ok_map sf id); [by rewrite map_id|].
  eapply Forall_impl; [exact H|]. apply sf_id.
Qed.

Lemma from_u128_id x : is_u128 x → Felt252Wrapper.from_u128 x = Ok x.
Proof. intros Hx. by apply from_u128_total. Qed.

Lemma bounds_served m :
  if both_bounds m then ∃ c, api_resources_to_core_ressources m = Ok c ∧ api_bounds c = m
  else api_resources_to_core_ressources m = Panic.
Proof.
  unfold both_bounds, api_resources_to_core_ressources, api_bounds.
  destruct (_ !! L1Gas) as [[a1 p1]|] eqn:E1; simpl; [|done].
  destruct (_ !! L2Gas) as [[a2 p2]|] eqn:E2; simpl; [|done].
  eexists. split; [reflexivity|]. simpl. apply map_eq. intros [].
  - rewrite lookup_insert_eq. by rewrite E1.
  - rewrite lookup_insert_ne, lookup_insert_eq by done. by rewrite E2.
Qed.

Lemma mode_served m : ∃ c, api_da_to_core_da m = Some c ∧ api_mode c = m.
Proof. destruct m; by eexists. Qed.

(** Runs a conversion of values in range. *)
Ltac run_core :=
  repeat match goal with
  | H : _ ∧ _ |- _ => destruct H
  | H : Forall is_felt (_ :: _) |- _ => apply Forall_cons in H as [? H]
  | H : Forall is_felt (_ ++ _) |- _ => apply Forall_app in H as [? H]
  end;
  repeat match goal with
  | H : is_felt ?x |- context [sf ?x] => rewrite (sf_id x H)
  | H : Forall is_felt ?l |- context [sfs ?l] => rewrite (sfs_id l H)
  | H : is_u128 ?x |- context [Felt252Wrapper.from_u128 ?x] => rewrite (from_u128_id x H)
  end; cbn [mbind Outcome_bind fmap Outcome_fmap unwrap_opt].

Lemma core_tx_served tx h :
  well_ranged tx →
  if servable tx then
    ∃ c, to_starknet_core_tx tx h = Ok c ∧ from_core c = normal tx ∧ core_hash c = h
  else to_starknet_core_tx tx h = Panic.
Proof.
  intros [W F].
  destruct tx as [[[]|[]|[]|[]]|[]|[[]|[]]|[[]|[]|[]]|[]]; simpl in W, F;
    unfold to_starknet_core_tx, to_core_declare, to_core_deploy_account, to_core_invoke, servable; simpl;
    run_core; try (by eexists).
  1-3: match goal with
    | |- context [api_resources_to_core_ressources ?m] =>
        pose proof (bounds_served m) as Hb; destruct (both_bounds m);
        [destruct Hb as (c & -> & <-) | by rewrite Hb]
    end; cbn [mbind Outcome_bind fmap Outcome_fmap];
    repeat match goal with
    | |- context [api_da_to_core_da ?m] => destruct (mode_served m) as (? & -> & <-)
    end; run_core; by eexists.
  unfold Felt252Wrapper.try_into_u64. rewrite try_into_u64_ok by done.
  destruct (lh_nonce <=? u64_max); [|done]. cbn [ok_or unwrap mbind Outcome_bind]. run_core. by eexists.
Qed.

(** A stored transaction is served exactly when it has the bounds of both
    resources (version 3) or a nonce that fits an [u64] (L1 handlers), and the
    node panics on the others; what is served carries the hash given and every
    field of the stored transaction, except those always served as zero. *)
Theorem served_transaction_faithful tx h :
  well_ranged tx →
  if servable tx then
    ∃ c, to_starknet_core_tx tx h = Ok c ∧ from_core c = normal tx ∧ core_hash c = h
  else to_starknet_core_tx tx h = Panic.
Proof. apply core_tx_served. Qed.

End ToCoreProperties.

(** ** Witnesses *)

Lemma served_transaction_faithful_witness :
  ∃ c, to_starknet_core_tx (Tx_Invoke (Invoke_V1 example_invoke)) 9 = Ok c ∧
       from_core c = Tx_Invoke (Invoke_V1 example_invoke).
Proof.
  destruct (served_transaction_faithful (Tx_Invoke (Invoke_V1 example_invoke)) 9
    ltac:(split; [by vm_compute | by repeat constructor])) as (c & Hc & Hf & _).
  exists c. split; [exact Hc|exact Hf].
Defined.
