(* ===== verification/Broadcast.v ===== *)
(** * Broadcast: transactions sent by clients
    ([primitives/transactions/src/from_broadcasted_transactions.rs])

    A broadcasted transaction becomes an executable account transaction: its
    class is decompressed or compiled, its fields converted, its hash computed.
    Gzip, JSON, the Sierra compiler, class hashes and blockifier's constructors
    are third-party: the class [ClassLibs]. *)

From S2P Require Import Prelude Felt Hashers Transactions TxHash CoreTx.

Inductive BroadcastedTransactionConversionError :=
| MaxFeeTooBig
| ProgramDecompressionFailed
| ProgramDeserializationFailed
| ClassHashComputationFailed
| CasmContractClassConversionFailed
| InvalidCompiledClassHash
| SierraCompilationFailed
| UnsuportedTransactionVersion.

(** ** Classes *)

Record ByType (A : Type) := { constructor : list A; external : list A; l1_handler : list A }.
Arguments constructor {A}. Arguments external {A}. Arguments l1_handler {A}.

Record LegacyContractEntryPoint := { le_offset : Z; le_selector : Z }.
Record RawLegacyEntryPoint := { raw_offset : Z; raw_selector : Z }.   (* the offset is [U64AsInt] *)
Record EntryPoint := { ep_selector : bytes; ep_offset : Z }.
Inductive EntryPointType := EP_Constructor | EP_External | EP_L1Handler.
#[global] Instance EntryPointType_eq_dec : EqDecision EntryPointType.
Proof. solve_decision. Defined.

Record CompressedLegacyContractClass (Abi : Type) := {
  cl_program : bytes; cl_entry_points_by_type : ByType LegacyContractEntryPoint; cl_abi : option (list Abi) }.
Arguments cl_program {Abi}. Arguments cl_entry_points_by_type {Abi}. Arguments cl_abi {Abi}.

Record SierraEntryPoint := { se_selector : Z; se_function_idx : Z }.
Record FlattenedSierraClass := {
  fs_sierra_program : list Z; fs_contract_class_version : string;
  fs_entry_points_by_type : ByType SierraEntryPoint; fs_abi : bytes }.

(** cairo_lang's classes; big integers are [Z]. *)
Record ContractEntryPoint := { ce_selector : Z; ce_function_idx : Z }.
Record SierraContractClass := {
  sc_sierra_program : list Z; sc_contract_class_version : string;
  sc_entry_points_by_type : ByType ContractEntryPoint }.
Record CasmContractEntryPoint := { ca_selector : Z; ca_offset : Z; ca_builtins : list string }.
Record CasmContractClass := {
  casm_prime : Z; casm_compiler_version : string; casm_bytecode : list Z;
  casm_entry_points_by_type : ByType CasmContractEntryPoint }.

(** starknet_core's compiled class. *)
Record CompiledClassEntrypoint := { cc_selector : Z; cc_offset : Z; cc_builtins : list string }.
Record CompiledClass := {
  co_prime : Z; co_compiler_version : string; co_bytecode : list Z;
  co_entry_points_by_type : ByType CompiledClassEntrypoint }.

(** blockifier's classes, over the parsed programs [Prog] and the class [V1] of
    compiled Sierra. *)
Inductive ContractClass (Prog V1 : Type) :=
| ContractClass_V0 (program : Prog) (entry_points_by_type : list (EntryPointType * list EntryPoint))
| ContractClass_V1 (c : V1).
Arguments ContractClass_V0 {Prog V1}. Arguments ContractClass_V1 {Prog V1}.

Record LegacyContractClass (LProg Abi : Type) := {
  lc_program : LProg; lc_abi : option (list Abi); lc_entry_points_by_type : ByType RawLegacyEntryPoint }.
Arguments lc_program {LProg Abi}. Arguments lc_abi {LProg Abi}. Arguments lc_entry_points_by_type {LProg Abi}.

Class ClassLibs (Abi LProg Prog V1 Info : Type) := {
  gz_read_to_end : bytes → option bytes;
  json_from_slice : bytes → option LProg;
  legacy_class_hash : LegacyContractClass LProg Abi → option Z;
  Program_from_bytes : bytes → option Prog;
  casm_from_contract_class : SierraContractClass → option CasmContractClass;
  compiled_class_hash_of : CompiledClass → option Z;
  ContractClassV1_try_from : CasmContractClass → option V1;
  flattened_class_hash : FlattenedSierraClass → Z;
  ClassInfo_new : ContractClass Prog V1 → (* program length *) nat → (* abi length *) nat → option Info;
  btx_DeclareTransaction_new : DeclareTransaction → Z → Info → option (AccountTransaction Info);
  BigUint_to_bytes_be : Z → bytes;
}.

(** ** The broadcasted transactions (starknet_core) *)

Module b.
Record InvokeV1 := { i1_sender_address : Z; i1_calldata : list Z; i1_max_fee : Z; i1_signature : list Z;
  i1_nonce : Z; i1_is_query : bool }.
Record InvokeV3 := { i3_sender_address : Z; i3_calldata : list Z; i3_signature : list Z; i3_nonce : Z;
  i3_resource_bounds : core.ResourceBoundsMapping; i3_tip : Z; i3_paymaster_data : list Z;
  i3_account_deployment_data : list Z; i3_nonce_data_availability_mode : core.DataAvailabilityMode;
  i3_fee_data_availability_mode : core.DataAvailabilityMode; i3_is_query : bool }.
Record DeployAccountV1 := { da1_max_fee : Z; da1_signature : list Z; da1_nonce : Z;
  da1_contract_address_salt : Z; da1_constructor_calldata : list Z; da1_class_hash : Z; da1_is_query : bool }.
Record DeployAccountV3 := { da3_signature : list Z; da3_nonce : Z; da3_contract_address_salt : Z;
  da3_constructor_calldata : list Z; da3_class_hash : Z; da3_resource_bounds : core.ResourceBoundsMapping;
  da3_tip : Z; da3_paymaster_data : list Z; da3_nonce_data_availability_mode : core.DataAvailabilityMode;
  da3_fee_data_availability_mode : core.DataAvailabilityMode; da3_is_query : bool }.
Record DeclareV1 (Abi : Type) := { d1_sender_address : Z; d1_max_fee : Z; d1_signature : list Z; d1_nonce : Z;
  d1_contract_class : CompressedLegacyContractClass Abi; d1_is_query : bool }.
Record DeclareV2 := { d2_sender_address : Z; d2_compiled_class_hash : Z; d2_max_fee : Z; d2_signature : list Z;
  d2_nonce : Z; d2_contract_class : FlattenedSierraClass; d2_is_query : bool }.
Record DeclareV3 := { d3_sender_address : Z; d3_compiled_class_hash : Z; d3_signature : list Z; d3_nonce : Z;
  d3_contract_class : FlattenedSierraClass; d3_resource_bounds : core.ResourceBoundsMapping; d3_tip : Z;
  d3_paymaster_data : list Z; d3_account_deployment_data : list Z;
  d3_nonce_data_availability_mode : core.DataAvailabilityMode;
  d3_fee_data_availability_mode : core.DataAvailabilityMode; d3_is_query : bool }.
Arguments d1_sender_address {Abi}. Arguments d1_max_fee {Abi}. Arguments d1_signature {Abi}.
Arguments d1_nonce {Abi}. Arguments d1_contract_class {Abi}. Arguments d1_is_query {Abi}.

Inductive BroadcastedTransaction (Abi : Type) :=
| Invoke_V1 (tx : InvokeV1) | Invoke_V3 (tx : InvokeV3)
| Declare_V1 (tx : DeclareV1 Abi) | Declare_V2 (tx : DeclareV2) | Declare_V3 (tx : DeclareV3)
| DeployAccount_V1 (tx : DeployAccountV1) | DeployAccount_V3 (tx : DeployAccountV3).
Arguments Invoke_V1 {Abi}. Arguments Invoke_V3 {Abi}. Arguments Declare_V1 {Abi}. Arguments Declare_V2 {Abi}.
Arguments Declare_V3 {Abi}. Arguments DeployAccount_V1 {Abi}. Arguments DeployAccount_V3 {Abi}.
End b.

Section FromBroadcasted.
Context {Abi LProg Prog V1 Info : Type} `{cl : ClassLibs Abi LProg Prog V1 Info}.
Context `{libs : FeltLibs} `{crypto : StarknetCrypto} `{ca : ContractAddresses}.

Abbreviation M := (Outcome BroadcastedTransactionConversionError).

Definition pure_ {A} (m : Outcome Empty_set A) : M A := map_err (Empty_set_rect (λ _, _)) m.

(** [Felt252Wrapper::from(x).into()] to a [StarkFelt]. *)
Definition tf (x : Z) : M Z := pure_ (be_decode <$> Felt252Wrapper.into_starkfelt x).
Definition tfs (l : list Z) : M (list Z) := mapM tf l.

(** [u128::try_from(..).map_err(|_| MaxFeeTooBig).unwrap()] *)
Definition max_fee (f : Z) : M Z :=
  unwrap (map_err (λ _, MaxFeeTooBig) (Felt252Wrapper.try_into_u128 f)).

Definition core_da_to_api_da (da : core.DataAvailabilityMode) : DataAvailabilityMode :=
  match da with core.L1 => DA_L1 | core.L2 => DA_L2 end.

Definition core_resources_to_api_resources (core_resources : core.ResourceBoundsMapping) : ResourceBoundsMapping :=
  let api_resources_map : ResourceBoundsMapping := ∅ in
  let api_resources_map := <[L1Gas :=
    {| max_amount := max_amount (core.l1_gas core_resources);
       max_price_per_unit := max_price_per_unit (core.l1_gas core_resources) |}]> api_resources_map in
  <[L2Gas :=
    {| max_amount := max_amount (core.l2_gas core_resources);
       max_price_per_unit := max_price_per_unit (core.l2_gas core_resources) |}]> api_resources_map.

(** ** Class conversions *)

Definition to_raw_legacy_entry_point (entry_point : LegacyContractEntryPoint) : RawLegacyEntryPoint :=
  {| raw_offset := le_offset entry_point; raw_selector := le_selector entry_point |}.

Definition to_raw_legacy_entry_points (entry_points : ByType LegacyContractEntryPoint) : ByType RawLegacyEntryPoint :=
  {| constructor := map to_raw_legacy_entry_point (constructor entry_points);
     external := map to_raw_legacy_entry_point (external entry_points);
     l1_handler := map to_raw_legacy_entry_point (l1_handler entry_points) |}.

Definition blockifier_entry_point (entry_point : LegacyContractEntryPoint) : EntryPoint :=
  {| ep_selector := FieldElement_to_bytes_be (le_selector entry_point); ep_offset := le_offset entry_point |}.

Definition instantiate_blockifier_contract_class (contract_class : CompressedLegacyContractClass Abi)
    (program_decompressed_bytes : bytes) : M (ContractClass Prog V1) :=
  program ← ok_or ProgramDeserializationFailed (Program_from_bytes program_decompressed_bytes);
  let eps := cl_entry_points_by_type contract_class in
  let entry_points_by_type :=
    [(EP_Constructor, map blockifier_entry_point (constructor eps));
     (EP_External, map blockifier_entry_point (external eps));
     (EP_L1Handler, map blockifier_entry_point (l1_handler eps))] in
  Ok (ContractClass_V0 program entry_points_by_type).

(** [BigInt::from_bytes_be(Sign::Plus, &value.to_bytes_be()).to_biguint().unwrap()] *)
Definition field_element_to_big_uint (value : Z) : Z := be_decode (FieldElement_to_bytes_be value).

Definition sierra_entry_point_to_contract_entry_point (value : SierraEntryPoint) : ContractEntryPoint :=
  {| ce_selector := field_element_to_big_uint (se_selector value); ce_function_idx := se_function_idx value |}.

Definition entry_points_by_type_to_contract_entry_points (value : ByType SierraEntryPoint) : ByType ContractEntryPoint :=
  {| constructor := map sierra_entry_point_to_contract_entry_point (constructor value);
     external := map sierra_entry_point_to_contract_entry_point (external value);
     l1_handler := map sierra_entry_point_to_contract_entry_point (l1_handler value) |}.

Definition flattened_sierra_to_casm_contract_class (flattened_sierra : FlattenedSierraClass)
    : option CasmContractClass :=
  let sierra_contract_class := {|
    sc_sierra_program := map field_element_to_big_uint (fs_sierra_program flattened_sierra);
    sc_contract_class_version := fs_contract_class_version flattened_sierra;
    sc_entry_points_by_type :=
      entry_points_by_type_to_contract_entry_points (fs_entry_points_by_type flattened_sierra) |} in
  casm_from_contract_class sierra_contract_class.

Definition biguint_to_field_element (value : Z) : M Z :=
  unwrap (FieldElement_from_byte_slice_be (BigUint_to_bytes_be value)).

Definition casm_entry_point_to_compiled_entry_point (value : CasmContractEntryPoint) : M CompiledClassEntrypoint :=
  selector ← biguint_to_field_element (ca_selector value);
  Ok {| cc_selector := selector; cc_offset := ca_offset value; cc_builtins := ca_builtins value |}.

Definition casm_entry_points_to_compiled_entry_points (value : ByType CasmContractEntryPoint)
    : M (ByType CompiledClassEntrypoint) :=
  external ← mapM casm_entry_point_to_compiled_entry_point (external value);
  l1_handler ← mapM casm_entry_point_to_compiled_entry_point (l1_handler value);
  constructor ← mapM casm_entry_point_to_compiled_entry_point (constructor value);
  Ok {| constructor := constructor; external := external; l1_handler := l1_handler |}.

Definition casm_contract_class_to_compiled_class (casm_contract_class : CasmContractClass) : M CompiledClass :=
  bytecode ← mapM biguint_to_field_element (casm_bytecode casm_contract_class);
  entry_points_by_type ←
    casm_entry_points_to_compiled_entry_points (casm_entry_points_by_type casm_contract_class);
  Ok {| co_prime := casm_prime casm_contract_class;
        co_compiler_version := casm_compiler_version casm_contract_class;
        co_bytecode := bytecode; co_entry_points_by_type := entry_points_by_type |}.

Definition get_casm_contract_class_hash (casm_contract_class : CasmContractClass) : M Z :=
  compiled_class ← casm_contract_class_to_compiled_class casm_contract_class;
  unwrap_opt (compiled_class_hash_of compiled_class).

(** ** Transactions *)

(** The compiled class of a Sierra class, when its hash is the one signed. *)
Definition checked_sierra_class (contract_class : FlattenedSierraClass) (compiled_class_hash : Z)
    : M (ContractClass Prog V1) :=
  casm_contract_class ← ok_or SierraCompilationFailed (flattened_sierra_to_casm_contract_class contract_class);
  hash ← get_casm_contract_class_hash casm_contract_class;
  if negb (hash =? compiled_class_hash) then Err InvalidCompiledClassHash
  else ContractClass_V1 <$> ok_or CasmContractClassConversionFailed (ContractClassV1_try_from casm_contract_class).

(** The hash is computed for the chain id zero and no block number. *)
Definition new_declare (declare_tx : DeclareTransaction) (class : ContractClass Prog V1)
    (program_len abi_len : nat) : M (AccountTransaction Info) :=
  tx_hash ← pure_ (compute_hash (H2 := PedersenHasher) declare_tx Felt252Wrapper.ZERO false None);
  class_info ← unwrap_opt (ClassInfo_new class program_len abi_len);
  unwrap_opt (btx_DeclareTransaction_new declare_tx tx_hash class_info).

Definition declare_v1_to_account_transaction (value : b.DeclareV1 Abi) : M (AccountTransaction Info) :=
  let contract_class := b.d1_contract_class value in
  decompressed_bytes ← ok_or ProgramDecompressionFailed (gz_read_to_end (cl_program contract_class));
  program ← ok_or ProgramDeserializationFailed (json_from_slice decompressed_bytes);
  let legacy_contract_class := {|
    lc_program := program;
    lc_abi := match cl_abi contract_class with Some abi => Some abi | None => Some [] end;
    lc_entry_points_by_type := to_raw_legacy_entry_points (cl_entry_points_by_type contract_class) |} in
  class_hash ← ok_or ClassHashComputationFailed (legacy_class_hash legacy_contract_class);
  blockifier_contract_class ← instantiate_blockifier_contract_class contract_class decompressed_bytes;
  max_fee ← max_fee (b.d1_max_fee value);
  signature ← tfs (b.d1_signature value);
  nonce ← tf (b.d1_nonce value);
  class_hash ← tf class_hash;
  sender_address ← tf (b.d1_sender_address value);
  let declare_tx := Declare_V1 {| d1_max_fee := max_fee; d1_signature := signature; d1_nonce := nonce;
                                  d1_class_hash := class_hash; d1_sender_address := sender_address |} in
  abi ← unwrap_opt (cl_abi contract_class);
  new_declare declare_tx blockifier_contract_class (length (cl_program contract_class)) (length abi).

Definition declare_v2_to_account_transaction (value : b.DeclareV2) : M (AccountTransaction Info) :=
  let contract_class := b.d2_contract_class value in
  blockifier_contract_class ← checked_sierra_class contract_class (b.d2_compiled_class_hash value);
  max_fee ← max_fee (b.d2_max_fee value);
  signature ← tfs (b.d2_signature value);
  nonce ← tf (b.d2_nonce value);
  class_hash ← tf (flattened_class_hash contract_class);
  sender_address ← tf (b.d2_sender_address value);
  compiled_class_hash ← tf (b.d2_compiled_class_hash value);
  let declare_tx := Declare_V2 {| d2_max_fee := max_fee; d2_signature := signature; d2_nonce := nonce;
                                  d2_class_hash := class_hash; d2_compiled_class_hash := compiled_class_hash;
                                  d2_sender_address := sender_address |} in
  new_declare declare_tx blockifier_contract_class (length (fs_sierra_program contract_class))
    (length (fs_abi contract_class)).

Definition declare_v3_to_account_transaction (value : b.DeclareV3) : M (AccountTransaction Info) :=
  let contract_class := b.d3_contract_class value in
  blockifier_contract_class ← checked_sierra_class contract_class (b.d3_compiled_class_hash value);
  class_hash ← tf (flattened_class_hash contract_class);
  signature ← tfs (b.d3_signature value);
  nonce ← tf (b.d3_nonce value);
  sender_address ← tf (b.d3_sender_address value);
  compiled_class_hash ← tf (b.d3_compiled_class_hash value);
  paymaster_data ← tfs (b.d3_paymaster_data value);
  account_deployment_data ← tfs (b.d3_account_deployment_data value);
  let declare_tx := Declare_V3 {|
    d3_resource_bounds := core_resources_to_api_resources (b.d3_resource_bounds value); d3_tip := b.d3_tip value;
    d3_signature := signature; d3_nonce := nonce; d3_class_hash := class_hash;
    d3_compiled_class_hash := compiled_class_hash; d3_sender_address := sender_address;
    d3_nonce_data_availability_mode := core_da_to_api_da (b.d3_nonce_data_availability_mode value);
    d3_fee_data_availability_mode := core_da_to_api_da (b.d3_fee_data_availability_mode value);
    d3_paymaster_data := paymaster_data; d3_account_deployment_data := account_deployment_data |} in
  new_declare declare_tx blockifier_contract_class (length (fs_sierra_program contract_class))
    (length (fs_abi contract_class)).

Definition invoke_v1_to_account_transaction (value : b.InvokeV1) : M (AccountTransaction Info) :=
  max_fee ← max_fee (b.i1_max_fee value);
  signature ← tfs (b.i1_signature value);
  nonce ← tf (b.i1_nonce value);
  sender_address ← tf (b.i1_sender_address value);
  calldata ← tfs (b.i1_calldata value);
  let invoke_tx := Invoke_V1 {| i1_max_fee := max_fee; i1_signature := signature; i1_nonce := nonce;
                                i1_sender_address := sender_address; i1_calldata := calldata |} in
  tx_hash ← pure_ (compute_hash (H2 := PedersenHasher) invoke_tx Felt252Wrapper.ZERO false None);
  Ok (Acc_Invoke invoke_tx tx_hash).

Definition invoke_v3_to_account_transaction (value : b.InvokeV3) : M (AccountTransaction Info) :=
  signature ← tfs (b.i3_signature value);
  nonce ← tf (b.i3_nonce value);
  sender_address ← tf (b.i3_sender_address value);
  calldata ← tfs (b.i3_calldata value);
  paymaster_data ← tfs (b.i3_paymaster_data value);
  account_deployment_data ← tfs (b.i3_account_deployment_data value);
  let invoke_tx := Invoke_V3 {|
    i3_resource_bounds := core_resources_to_api_resources (b.i3_resource_bounds value); i3_tip := b.i3_tip value;
    i3_signature := signature; i3_nonce := nonce; i3_sender_address := sender_address; i3_calldata := calldata;
    i3_nonce_data_availability_mode := core_da_to_api_da (b.i3_nonce_data_availability_mode value);
    i3_fee_data_availability_mode := core_da_to_api_da (b.i3_fee_data_availability_mode value);
    i3_paymaster_data := paymaster_data; i3_account_deployment_data := account_deployment_data |} in
  tx_hash ← pure_ (compute_hash (H2 := PedersenHasher) invoke_tx Felt252Wrapper.ZERO false None);
  Ok (Acc_Invoke invoke_tx tx_hash).

(** The hash, and the address of the account ([calculate_contract_address] with
    the default deployer). *)
Definition new_deploy_account (deploy_account_tx : DeployAccountTransaction) (salt class_hash : Z)
    (calldata : list Z) : M (AccountTransaction Info) :=
  tx_hash ← pure_ (compute_hash (H2 := PedersenHasher) deploy_account_tx Felt252Wrapper.ZERO false None);
  salt ← tf salt;
  class_hash ← tf class_hash;
  contract_address ← unwrap_opt (calculate_contract_address salt class_hash calldata 0);
  Ok (Acc_DeployAccount deploy_account_tx tx_hash contract_address).

Definition deploy_account_v1_to_account_transaction (value : b.DeployAccountV1) : M (AccountTransaction Info) :=
  max_fee ← max_fee (b.da1_max_fee value);
  signature ← tfs (b.da1_signature value);
  nonce ← tf (b.da1_nonce value);
  contract_address_salt ← tf (b.da1_contract_address_salt value);
  constructor_calldata ← tfs (b.da1_constructor_calldata value);
  class_hash ← tf (b.da1_class_hash value);
  let deploy_account_tx := DeployAccount_V1 {|
    da1_max_fee := max_fee; da1_signature := signature; da1_nonce := nonce; da1_class_hash := class_hash;
    da1_contract_address_salt := contract_address_salt; da1_constructor_calldata := constructor_calldata |} in
  new_deploy_account deploy_account_tx (b.da1_contract_address_salt value) (b.da1_class_hash value)
    constructor_calldata.

Definition deploy_account_v3_to_account_transaction (value : b.DeployAccountV3) : M (AccountTransaction Info) :=
  signature ← tfs (b.da3_signature value);
  nonce ← tf (b.da3_nonce value);
  contract_address_salt ← tf (b.da3_contract_address_salt value);
  constructor_calldata ← tfs (b.da3_constructor_calldata value);
  class_hash ← tf (b.da3_class_hash value);
  paymaster_data ← tfs (b.da3_paymaster_data value);
  let deploy_account_tx := DeployAccount_V3 {|
    da3_resource_bounds := core_resources_to_api_resources (b.da3_resource_bounds value);
    da3_tip := b.da3_tip value; da3_signature := signature; da3_nonce := nonce; da3_class_hash := class_hash;
    da3_contract_address_salt := contract_address_salt; da3_constructor_calldata := constructor_calldata;
    da3_nonce_data_availability_mode := core_da_to_api_da (b.da3_nonce_data_availability_mode value);
    da3_fee_data_availability_mode := core_da_to_api_da (b.da3_fee_data_availability_mode value);
    da3_paymaster_data := paymaster_data |} in
  new_deploy_account deploy_account_tx (b.da3_contract_address_salt value) (b.da3_class_hash value)
    constructor_calldata.

Definition to_account_transaction (self : b.BroadcastedTransaction Abi) : M (AccountTransaction Info) :=
  match self with
  | b.Invoke_V1 tx => invoke_v1_to_account_transaction tx
  | b.Invoke_V3 tx => invoke_v3_to_account_transaction tx
  | b.Declare_V1 tx => declare_v1_to_account_transaction tx
  | b.Declare_V2 tx => declare_v2_to_account_transaction tx
  | b.Declare_V3 tx => declare_v3_to_account_transaction tx
  | b.DeployAccount_V1 tx => deploy_account_v1_to_account_transaction tx
  | b.DeployAccount_V3 tx => deploy_account_v3_to_account_transaction tx
  end.

End FromBroadcasted.

(** ** Properties *)

Section Properties.
Context {Abi LProg Prog V1 Info : Type} `{cl : ClassLibs Abi LProg Prog V1 Info}.
Context `{Hlibs : !FeltLibsSpec libs} `{crypto : StarknetCrypto} `{Hca : !ContractAddressesSpec ca}.

Lemma tf_id x : is_felt x → tf x = Ok x.
Proof.
  intros Hx. unfold tf, Felt252Wrapper.into_starkfelt. rewrite into_bytes_ok by done.
  rewrite starkfelt_new_ok, be_decode_encode_felt by auto using be_encode_length with bytes.
  destruct Hx. rewrite (proj2 (Z.ltb_lt x P)) by done. simpl. by rewrite be_decode_encode_felt.
Qed.

Lemma tfs_id l : Forall is_felt l → tfs l = Ok l.
Proof.
  intros H. unfold tfs. rewrite (mapM_Ok_map tf id); [by rewrite map_id|].
  eapply Forall_impl; [exact H|]. apply tf_id.
Qed.

Lemma max_fee_spec f : is_felt f → max_fee f = if f <=? u128_max then Ok f else Panic.
Proof.
  intros Hf. unfold max_fee, Felt252Wrapper.try_into_u128. rewrite try_into_u128_ok by done.
  by destruct (f <=? u128_max).
Qed.

(** The ranges of the fields a client sends; bounds as the types have them. *)
Definition wf_core_bounds (m : core.ResourceBoundsMapping) : Prop :=
  is_u64 (max_amount (core.l1_gas m)) ∧ is_u128 (max_price_per_unit (core.l1_gas m)) ∧
  is_u64 (max_amount (core.l2_gas m)) ∧ is_u128 (max_price_per_unit (core.l2_gas m)).

Definition wf_broadcast (tx : b.BroadcastedTransaction Abi) : Prop :=
  match tx with
  | b.Invoke_V1 t => is_felt (b.i1_max_fee t) ∧ Forall is_felt (b.i1_signature t) ∧ is_felt (b.i1_nonce t) ∧
      is_felt (b.i1_sender_address t) ∧ Forall is_felt (b.i1_calldata t)
  | b.Invoke_V3 t => Forall is_felt (b.i3_signature t) ∧ is_felt (b.i3_nonce t) ∧
      is_felt (b.i3_sender_address t) ∧ Forall is_felt (b.i3_calldata t) ∧ is_u64 (b.i3_tip t) ∧
      Forall is_felt (b.i3_paymaster_data t) ∧ Forall is_felt (b.i3_account_deployment_data t) ∧
      wf_core_bounds (b.i3_resource_bounds t)
  | b.DeployAccount_V1 t => is_felt (b.da1_max_fee t) ∧ Forall is_felt (b.da1_signature t) ∧
      is_felt (b.da1_nonce t) ∧ is_felt (b.da1_contract_address_salt t) ∧
      Forall is_felt (b.da1_constructor_calldata t) ∧ is_felt (b.da1_class_hash t)
  | b.DeployAccount_V3 t => Forall is_felt (b.da3_signature t) ∧ is_felt (b.da3_nonce t) ∧
      is_felt (b.da3_contract_address_salt t) ∧ Forall is_felt (b.da3_constructor_calldata t) ∧
      is_felt (b.da3_class_hash t) ∧ is_u64 (b.da3_tip t) ∧ Forall is_felt (b.da3_paymaster_data t) ∧
      wf_core_bounds (b.da3_resource_bounds t)
  | _ => False
  end.

(** The transaction as its sender meant it, in the form clients receive. *)
Definition sent (tx : b.BroadcastedTransaction Abi) (h : Z) : option core.Transaction :=
  match tx with
  | b.Invoke_V1 t => Some (core.Invoke (core.Invoke_V1 h (b.i1_max_fee t) (b.i1_signature t) (b.i1_nonce t)
      (b.i1_sender_address t) (b.i1_calldata t)))
  | b.Invoke_V3 t => Some (core.Invoke (core.Invoke_V3 h (b.i3_resource_bounds t) (b.i3_tip t) (b.i3_signature t)
      (b.i3_nonce t) (b.i3_sender_address t) (b.i3_calldata t) (b.i3_nonce_data_availability_mode t)
      (b.i3_fee_data_availability_mode t) (b.i3_paymaster_data t) (b.i3_account_deployment_data t)))
  | b.DeployAccount_V1 t => Some (core.DeployAccount (core.DeployAccount_V1 h (b.da1_max_fee t)
      (b.da1_signature t) (b.da1_nonce t) (b.da1_contract_address_salt t) (b.da1_constructor_calldata t)
      (b.da1_class_hash t)))
  | b.DeployAccount_V3 t => Some (core.DeployAccount (core.DeployAccount_V3 h (b.da3_resource_bounds t)
      (b.da3_tip t) (b.da3_signature t) (b.da3_nonce t) (b.da3_class_hash t) (b.da3_contract_address_salt t)
      (b.da3_constructor_calldata t) (b.da3_nonce_data_availability_mode t)
      (b.da3_fee_data_availability_mode t) (b.da3_paymaster_data t)))
  | _ => None
  end.

(** The fee fits an [u128] (transactions of version 3 have none). *)
Definition fee_fits (tx : b.BroadcastedTransaction Abi) : bool :=
  match tx with
  | b.Invoke_V1 t => b.i1_max_fee t <=? u128_max
  | b.DeployAccount_V1 t => b.da1_max_fee t <=? u128_max
  | _ => true
  end.

Definition account_tx (a : AccountTransaction Info) : Transaction :=
  match a with
  | Acc_Declare tx _ _ => Tx_Declare tx
  | Acc_DeployAccount tx _ _ => Tx_DeployAccount tx
  | Acc_Invoke tx _ => Tx_Invoke tx
  end.

Lemma da_roundtrip m : api_da_to_core_da (core_da_to_api_da m) = Some m.
Proof. by destruct m. Qed.

Lemma bounds_roundtrip m : api_resources_to_core_ressources (core_resources_to_api_resources m) = Ok m.
Proof.
  unfold api_resources_to_core_ressources, core_resources_to_api_resources.
  rewrite (lookup_insert_ne _ L2Gas L1Gas) by done. rewrite !lookup_insert_eq. by destruct m as [[] []].
Qed.

Lemma api_bounds_wf m : wf_core_bounds m → wf_bounds (core_resources_to_api_resources m).
Proof.
  intros (? & ? & ? & ?) r bb. unfold core_resources_to_api_resources.
  intros [[_ <-]|[_ [[_ <-]|[_ ?%lookup_empty_Some]]%lookup_insert_Some]]%lookup_insert_Some; done.
Qed.

Ltac run_broadcast :=
  repeat match goal with H : _ ∧ _ |- _ => destruct H end;
  repeat match goal with
  | H : is_felt ?x |- context [tf ?x] => rewrite (tf_id x H)
  | H : Forall is_felt ?l |- context [tfs ?l] => rewrite (tfs_id l H)
  | H : is_felt ?x |- context [max_fee ?x] => rewrite (max_fee_spec x H)
  | H : is_felt ?x |- context [sf ?x] => rewrite (sf_id x H)
  | H : Forall is_felt ?l |- context [sfs ?l] => rewrite (sfs_id l H)
  | |- context [api_da_to_core_da (core_da_to_api_da ?m)] => rewrite (da_roundtrip m)
  | |- context [api_resources_to_core_ressources (core_resources_to_api_resources ?m)] =>
      rewrite (bounds_roundtrip m)
  end; cbn [mbind Outcome_bind fmap Outcome_fmap unwrap_opt].

Abbreviation tx_preimage_hash t :=
  (compute_hash_on_elements (HasherT := PedersenHasher) (preimage t 0 false None)).

Lemma invoke_hash t :
  wf_tx (Tx_Invoke t) →
  compute_hash (H2 := PedersenHasher) t Felt252Wrapper.ZERO false None = Ok (tx_preimage_hash (Tx_Invoke t)).
Proof. apply (compute_hash_preimage (hasher := PedersenHasher) (Tx_Invoke t) 0 false None). Qed.

Lemma deploy_account_hash t :
  wf_tx (Tx_DeployAccount t) →
  compute_hash (H2 := PedersenHasher) t Felt252Wrapper.ZERO false None
  = Ok (tx_preimage_hash (Tx_DeployAccount t)).
Proof. apply (compute_hash_preimage (hasher := PedersenHasher) (Tx_DeployAccount t) 0 false None). Qed.

(** Accepted, and served as it was sent. *)
Definition broadcast_ok (tx : b.BroadcastedTransaction Abi) : Prop :=
  if fee_fits tx then
    ∃ a, to_account_transaction tx = Ok a ∧ wf_tx (account_tx a) ∧
      Getters.account_tx_hash a = Some (tx_preimage_hash (account_tx a)) ∧
      ∀ h, Some <$> to_starknet_core_tx (account_tx a) h = Ok (sent tx h)
  else to_account_transaction tx = Panic.

Lemma invoke_broadcast_ok tx :
  wf_broadcast tx → match tx with b.Invoke_V1 _ | b.Invoke_V3 _ => True | _ => False end → broadcast_ok tx.
Proof.
  intros W K. destruct tx as [[]|[]| | | | |]; try done; unfold broadcast_ok; simpl in *;
    [unfold invoke_v1_to_account_transaction | unfold invoke_v3_to_account_transaction]; simpl; run_broadcast.
  - destruct (i1_max_fee <=? u128_max) eqn:Ef; [|done]. cbn [mbind Outcome_bind]. bool_to_prop.
    rewrite invoke_hash by (simpl; unfold is_u128, is_felt in *; lia). eexists. split; [reflexivity|].
    assert (is_u128 i1_max_fee) as Hf by (unfold is_u128, is_felt in *; lia).
    split; [done|]. split; [done|]. intros h. simpl. run_broadcast.
    rewrite from_u128_id by done. by cbn [mbind Outcome_bind fmap Outcome_fmap].
  - rewrite invoke_hash by (simpl; auto using api_bounds_wf). eexists. split; [reflexivity|].
    split; [simpl; auto using api_bounds_wf|]. split; [done|]. intros h. simpl. by run_broadcast.
Qed.

Lemma deploy_account_broadcast_ok tx :
  wf_broadcast tx → match tx with b.DeployAccount_V1 _ | b.DeployAccount_V3 _ => True | _ => False end →
  broadcast_ok tx.
Proof.
  intros W K. destruct tx as [ | | | | | []|[]]; try done; unfold broadcast_ok; simpl in *;
    [unfold deploy_account_v1_to_account_transaction | unfold deploy_account_v3_to_account_transaction];
    unfold new_deploy_account; simpl; run_broadcast.
  - destruct (da1_max_fee <=? u128_max) eqn:Ef; [|done]. cbn [mbind Outcome_bind]. bool_to_prop.
    assert (is_u128 da1_max_fee) as Hf by (unfold is_u128, is_felt in *; lia).
    rewrite deploy_account_hash by (simpl; auto). cbn [pure_ map_err mbind Outcome_bind]. run_broadcast.
    destruct (calculate_contract_address_ok da1_contract_address_salt da1_class_hash
      da1_constructor_calldata 0) as (a & -> & _); try done. eexists. split; [reflexivity|].
    split; [simpl; auto|]. split; [done|]. intros h. simpl. run_broadcast.
    rewrite from_u128_id by done. by cbn [mbind Outcome_bind fmap Outcome_fmap].
  - rewrite deploy_account_hash by (simpl; auto using api_bounds_wf).
    cbn [pure_ map_err mbind Outcome_bind]. run_broadcast.
    destruct (calculate_contract_address_ok da3_contract_address_salt da3_class_hash
      da3_constructor_calldata 0) as (a & -> & _); try done. eexists. split; [reflexivity|].
    split; [simpl; auto 10 using api_bounds_wf|]. split; [done|]. intros h. simpl. by run_broadcast.
Qed.

(** C27: An invoke or deploy-account transaction a client broadcasts is accepted
    exactly when its fee fits an [u128] (the node panics otherwise, it does not
    report [MaxFeeTooBig]); the executable transaction carries the hash of its
    content for the chain id zero, and is served back to clients with exactly
    the fields that were sent. *)
Theorem broadcast_served_unchanged tx :
  wf_broadcast tx →
  if fee_fits tx then
    ∃ a, to_account_transaction tx = Ok a ∧ wf_tx (account_tx a) ∧
      Getters.account_tx_hash a = Some (tx_preimage_hash (account_tx a)) ∧
      ∀ h, Some <$> to_starknet_core_tx (account_tx a) h = Ok (sent tx h)
  else to_account_transaction tx = Panic.
Proof.
  intros W. destruct tx; try done;
    first [exact (invoke_broadcast_ok _ W I) | exact (deploy_account_broadcast_ok _ W I)].
Qed.

(** A declare transaction for a Sierra class is accepted only when the hash
    of the class compiled from it is the compiled class hash the sender signed;
    a different hash is answered with [InvalidCompiledClassHash]. *)
Theorem declare_checks_compiled_class (tx : b.BroadcastedTransaction Abi) class signed casm hash :
  (∃ t, tx = b.Declare_V2 t ∧ b.d2_contract_class t = class ∧ b.d2_compiled_class_hash t = signed) ∨
  (∃ t, tx = b.Declare_V3 t ∧ b.d3_contract_class t = class ∧ b.d3_compiled_class_hash t = signed) →
  flattened_sierra_to_casm_contract_class class = Some casm →
  get_casm_contract_class_hash casm = Ok hash →
  (hash ≠ signed → to_account_transaction tx = Err InvalidCompiledClassHash) ∧
  (∀ a, to_account_transaction tx = Ok a → hash = signed).
Proof.
  intros Htx Hc Hh.
  assert (hash ≠ signed → to_account_transaction tx = Err InvalidCompiledClassHash) as H.
  { intros Hne. destruct Htx as [(t & -> & Ht & Hs)|(t & -> & Ht & Hs)]; simpl;
      [unfold declare_v2_to_account_transaction | unfold declare_v3_to_account_transaction];
      unfold checked_sierra_class; rewrite Ht, Hs, Hc; cbn [ok_or mbind Outcome_bind];
      rewrite Hh; cbn [mbind Outcome_bind]; by rewrite (proj2 (Z.eqb_neq hash signed)). }
  split; [done|]. intros a Ha. destruct (decide (hash = signed)); [done|]. by rewrite H in Ha.
Qed.

(** A legacy class broadcast without its ABI is never declared: the class
    hash is computed with an empty ABI, but the ABI is then unwrapped, so the
    node panics unless an earlier step reported an error. *)
Theorem declare_v1_needs_abi (t : b.DeclareV1 Abi) a :
  cl_abi (b.d1_contract_class t) = None → to_account_transaction (b.Declare_V1 t) ≠ Ok a.
Proof.
  intros Habi. simpl. unfold declare_v1_to_account_transaction. rewrite Habi.
  repeat match goal with |- context [?m ≫= _] => destruct m; [|done..]; simpl end; done.
Qed.

End Properties.

(** ** Witnesses *)

Definition class_libs_model : ClassLibs unit unit unit unit unit := {|
  gz_read_to_end := Some;
  json_from_slice _ := Some tt;
  legacy_class_hash c := Some (Z.of_nat (length (default [] (lc_abi c))));
  Program_from_bytes _ := Some tt;
  casm_from_contract_class c := Some {|
    casm_prime := P; casm_compiler_version := sc_contract_class_version c; casm_bytecode := sc_sierra_program c;
    casm_entry_points_by_type := {| constructor := []; external := []; l1_handler := [] |} |};
  compiled_class_hash_of c := Some (foldl Z.add 0 (co_bytecode c));
  ContractClassV1_try_from _ := Some tt;
  flattened_class_hash c := foldl Z.add 1 (fs_sierra_program c);
  ClassInfo_new _ _ _ := Some tt;
  btx_DeclareTransaction_new tx h i := Some (Acc_Declare tx h i);
  BigUint_to_bytes_be := be_encode 32;
|}.

Definition example_broadcast : b.BroadcastedTransaction unit := b.Invoke_V1
  {| b.i1_sender_address := 4; b.i1_calldata := [6; 7]; b.i1_max_fee := 5; b.i1_signature := [1; 2];
     b.i1_nonce := 3; b.i1_is_query := false |}.

Lemma broadcast_served_unchanged_witness :
  ∃ a, to_account_transaction (cl := class_libs_model) (crypto := crypto_small) (ca := address_model)
         example_broadcast = Ok a
       ∧ ∀ h, Some <$> to_starknet_core_tx (account_tx a) h = Ok (sent example_broadcast h).
Proof.
  destruct (broadcast_served_unchanged (cl := class_libs_model) (crypto := crypto_small) (ca := address_model)
    example_broadcast ltac:(repeat split; by repeat constructor)) as (a & Ha & _ & _ & Hs).
  exists a. split; [exact Ha|exact Hs].
Defined.

Definition example_sierra : FlattenedSierraClass :=
  {| fs_sierra_program := [1; 2; 3]; fs_contract_class_version := "0.1.0";
     fs_entry_points_by_type := {| constructor := []; external := []; l1_handler := [] |}; fs_abi := [] |}.

Definition example_declare_v2 (signed : Z) : b.BroadcastedTransaction unit := b.Declare_V2
  {| b.d2_sender_address := 4; b.d2_compiled_class_hash := signed; b.d2_max_fee := 5; b.d2_signature := [];
     b.d2_nonce := 0; b.d2_contract_class := example_sierra; b.d2_is_query := false |}.

Lemma declare_checks_compiled_class_witness :
  to_account_transaction (cl := class_libs_model) (crypto := crypto_small) (ca := address_model)
    (example_declare_v2 7) = Err InvalidCompiledClassHash.
Proof.
  refine (proj1 (declare_checks_compiled_class (cl := class_libs_model) (crypto := crypto_small)
    (ca := address_model) (example_declare_v2 7) example_sierra 7
    {| casm_prime := P; casm_compiler_version := "0.1.0"; casm_bytecode := [1; 2; 3];
       casm_entry_points_by_type := {| constructor := []; external := []; l1_handler := [] |} |} 6
    _ _ _) _).
  - left. eexists. split; [reflexivity|]. split; reflexivity.
  - vm_compute. reflexivity.
  - vm_compute. reflexivity.
  - discriminate.
Defined.

Lemma declare_v1_needs_abi_witness :
  to_account_transaction (cl := class_libs_model) (crypto := crypto_small) (ca := address_model)
    (b.Declare_V1 {| b.d1_sender_address := 4; b.d1_max_fee := 5; b.d1_signature := []; b.d1_nonce := 0;
       b.d1_contract_class := {| cl_program := [1];
         cl_entry_points_by_type := {| constructor := []; external := []; l1_handler := [] |}; cl_abi := None |};
       b.d1_is_query := false |}) ≠ Ok (Acc_Invoke (Invoke_V1 example_invoke) 0).
Proof. apply declare_v1_needs_abi. reflexivity. Defined.
