(* ===== verification/Blocks.v ===== *)
(** * Blocks: block primitives ([crates/primitives/{block,chain-id,digest-log}])

    The Starknet block wrapped by the node ([DeoxysBlock]), its header and hash,
    the state update types, the chain identifiers, and the lookup of the wrapped
    block in the digest of a Substrate block. *)

From S2P Require Import Prelude Felt Hashers Transactions TxHash.

(** ** Chain identifiers *)

Section ChainId.
Context `{libs : FeltLibs}.

Definition SN_GOERLI_CHAIN_ID : Z :=
  FieldElement_from_mont 3753493103916128178 18446744073709548950 18446744073709551615 398700013197595345.
Definition SN_SEPOLIA_CHAIN_ID : Z :=
  FieldElement_from_mont 1555806712078248243 18446744073708869172 18446744073709551615 507980251676163170.
Definition SN_MAIN_CHAIN_ID : Z :=
  FieldElement_from_mont 17696389056366564951 18446744073709551615 18446744073709551615 502562008147966918.
Definition MADARA_CHAIN_ID : Z :=
  FieldElement_from_mont 18444025906882525153 18446744073709551615 18446744073709551615 530251916243973616.

End ChainId.

(** ** Block identifiers *)

Inductive BlockTag := Latest | Pending.
Inductive BlockId :=
| BlockId_Hash (hash : Z)
| BlockId_Number (n : Z)
| BlockId_Tag (tag : BlockTag).

(** ** Block status *)

Inductive BlockStatus := BS_Pending | BS_AcceptedOnL2 | BS_AcceptedOnL1 | BS_Rejected.
Definition BlockStatus_default : BlockStatus := BS_AcceptedOnL2.

(** ** Headers *)

(** blockifier's [GasPrices]: four non-zero [u128]. *)
Record GasPrices := {
  eth_l1_gas_price : Z;
  strk_l1_gas_price : Z;
  eth_l1_data_gas_price : Z;
  strk_l1_data_gas_price : Z;
}.

Record Header := {
  parent_block_hash : Z;
  block_number : Z;
  global_state_root : Z;
  sequencer_address : Z;
  block_timestamp : Z;
  transaction_count : Z;
  transaction_commitment : Z;
  event_count : Z;
  event_commitment : Z;
  protocol_version : Z;
  l1_gas_price : option GasPrices;
  l1_da_mode : L1DataAvailabilityMode;
  extra_data : option Z;
}.

#[global] Instance GasPrices_eq_dec : EqDecision GasPrices.
Proof. solve_decision. Defined.
#[global] Instance Header_eq_dec : EqDecision Header.
Proof. solve_decision. Defined.

(** [derive(Default)]; [L1DataAvailabilityMode] defaults to calldata. *)
Definition Header_default : Header := {|
  parent_block_hash := 0; block_number := 0; global_state_root := 0; sequencer_address := 0;
  block_timestamp := 0; transaction_count := 0; transaction_commitment := 0; event_count := 0;
  event_commitment := 0; protocol_version := 0; l1_gas_price := None; l1_da_mode := L1DA_Calldata;
  extra_data := None |}.

Definition Header_new (parent_block_hash block_number global_state_root sequencer_address
    block_timestamp transaction_count transaction_commitment event_count event_commitment
    protocol_version : Z) (gas_prices : option GasPrices) (l1_da_mode : L1DataAvailabilityMode)
    (extra_data : option Z) : Header :=
  {| parent_block_hash := parent_block_hash; block_number := block_number;
     global_state_root := global_state_root; sequencer_address := sequencer_address;
     block_timestamp := block_timestamp; transaction_count := transaction_count;
     transaction_commitment := transaction_commitment; event_count := event_count;
     event_commitment := event_commitment; protocol_version := protocol_version;
     l1_gas_price := gas_prices; l1_da_mode := l1_da_mode; extra_data := extra_data |}.

(** blockifier's [BlockInfo] and [BlockContext]; [C] is the type of the
    versioned constants. *)
Record BlockInfo := {
  bi_block_number : Z;
  bi_block_timestamp : Z;
  bi_sequencer_address : Z;
  bi_gas_prices : GasPrices;
  bi_use_kzg_da : bool;
}.
Record FeeTokenAddresses := { eth_fee_token_address : Z; strk_fee_token_address : Z }.
Record ChainInfo := { ci_chain_id : bytes; ci_fee_token_addresses : FeeTokenAddresses }.
Record BlockContext (C : Type) := {
  bc_block_info : BlockInfo; bc_chain_info : ChainInfo; bc_versioned_constants : C }.
Arguments bc_block_info {C}. Arguments bc_chain_info {C}. Arguments bc_versioned_constants {C}.

(** [NonZeroU128::new] *)
Definition NonZeroU128_new (x : Z) : option Z := if x =? 0 then None else Some x.

Definition into_block_context {C} (latest_constants : C) (self : Header)
    (fee_token_addresses : FeeTokenAddresses) (chain_id : bytes) : Outcome Empty_set (BlockContext C) :=
  one ← unwrap_opt (NonZeroU128_new 1);
  Ok {| bc_block_info := {|
          bi_block_number := block_number self;
          bi_block_timestamp := block_timestamp self;
          bi_sequencer_address := sequencer_address self;
          bi_gas_prices := default {| eth_l1_gas_price := one; strk_l1_gas_price := one;
                                      eth_l1_data_gas_price := one; strk_l1_data_gas_price := one |}
                             (l1_gas_price self);
          bi_use_kzg_da := false |};
        bc_chain_info := {| ci_chain_id := chain_id; ci_fee_token_addresses := fee_token_addresses |};
        bc_versioned_constants := latest_constants |}.

Section HeaderHash.
Context `{libs : FeltLibs} `{hasher : HasherT}.

Definition Header_hash (self : Header) : Outcome Empty_set Z :=
  transaction_count' ← Felt252Wrapper.from_u128 (transaction_count self);
  if 833 <=? block_number self then
    event_count' ← Felt252Wrapper.from_u128 (event_count self);
    Ok (compute_hash_on_wrappers
          [Felt252Wrapper.from_u64 (block_number self);
           global_state_root self;
           sequencer_address self;
           Felt252Wrapper.from_u64 (block_timestamp self);
           transaction_count';
           transaction_commitment self;
           event_count';
           event_commitment self;
           Felt252Wrapper.ZERO;
           Felt252Wrapper.ZERO;
           parent_block_hash self])
  else
    sn_main ← unwrap (FieldElement_from_byte_slice_be (bytes_of_string "SN_MAIN"));
    Ok (compute_hash_on_wrappers
          [Felt252Wrapper.from_u64 (block_number self);
           global_state_root self;
           Felt252Wrapper.ZERO;
           Felt252Wrapper.ZERO;
           transaction_count';
           transaction_commitment self;
           Felt252Wrapper.ZERO;
           Felt252Wrapper.ZERO;
           Felt252Wrapper.ZERO;
           Felt252Wrapper.ZERO;
           sn_main;
           parent_block_hash self]).

End HeaderHash.

(** ** Blocks and their events *)

Record OrderedEvents := { oe_index : Z; oe_events : list Event }.
Definition OrderedEvents_new (index : Z) (events : list Event) : OrderedEvents :=
  {| oe_index := index; oe_events := events |}.

Record DeoxysBlock := {
  header : Header;
  transactions : list Transaction;
  events : list OrderedEvents;
}.

Definition DeoxysBlock_new (header : Header) (transactions : list Transaction)
    (events : list OrderedEvents) : DeoxysBlock :=
  {| header := header; transactions := transactions; events := events |}.

Definition transactions_hashes `{FeltLibs, StarknetCrypto, ContractAddresses, HasherT}
    (self : DeoxysBlock) (chain_id : Z) (block_number : option Z) : Outcome Empty_set (list Z) :=
  mapM (λ tx, compute_hash tx chain_id false block_number) (transactions self).

(** ** State updates (state_update.rs)

    The provider's [StateUpdate] keeps storage differences and nonces in hash
    maps; the wrapper has vectors of pairs in the iteration order of the maps. *)

Record StorageDiffWrapper := { sd_key : Z; sd_value : Z }.
Record DeployedContractWrapper := { dc_address : Z; dc_class_hash : Z }.
Record DeclaredContractWrapper := { decl_class_hash : Z; decl_compiled_class_hash : Z }.

Record StateDiffWrapper := {
  storage_diffs : list (Z * list StorageDiffWrapper);
  deployed_contracts : list DeployedContractWrapper;
  old_declared_contracts : list Z;
  declared_classes : list DeclaredContractWrapper;
  nonces : list (Z * Z);
  replaced_classes : list DeployedContractWrapper;
}.

Record StateUpdateWrapper := {
  su_block_hash : option Z;
  su_new_root : option Z;
  su_old_root : Z;
  su_state_diff : StateDiffWrapper;
}.

Module Provider.
Record StorageDiff := { key : Z; value : Z }.
Record DeployedContract := { address : Z; class_hash : Z }.
Record DeclaredContract := { decl_class_hash : Z; compiled_class_hash : Z }.
Record StateDiff := {
  storage_diffs : gmap Z (list StorageDiff);
  deployed_contracts : list DeployedContract;
  old_declared_contracts : list Z;
  declared_classes : list DeclaredContract;
  nonces : gmap Z Z;
  replaced_classes : list DeployedContract;
}.
Record StateUpdate := {
  block_hash : option Z;
  new_root : option Z;
  old_root : Z;
  state_diff : StateDiff;
}.
End Provider.

Definition StorageDiffWrapper_from (diff : Provider.StorageDiff) : StorageDiffWrapper :=
  {| sd_key := Provider.key diff; sd_value := Provider.value diff |}.
Definition DeployedContractWrapper_from (c : Provider.DeployedContract) : DeployedContractWrapper :=
  {| dc_address := Provider.address c; dc_class_hash := Provider.class_hash c |}.
Definition DeclaredContractWrapper_from (c : Provider.DeclaredContract) : DeclaredContractWrapper :=
  {| decl_class_hash := Provider.decl_class_hash c;
     decl_compiled_class_hash := Provider.compiled_class_hash c |}.

Definition StateDiffWrapper_from (diff : Provider.StateDiff) : StateDiffWrapper := {|
  storage_diffs := map (λ '(key, diffs), (key, map StorageDiffWrapper_from diffs))
                     (map_to_list (Provider.storage_diffs diff));
  deployed_contracts := map DeployedContractWrapper_from (Provider.deployed_contracts diff);
  old_declared_contracts := Provider.old_declared_contracts diff;
  declared_classes := map DeclaredContractWrapper_from (Provider.declared_classes diff);
  nonces := map_to_list (Provider.nonces diff);
  replaced_classes := map DeployedContractWrapper_from (Provider.replaced_classes diff);
|}.

Definition StateUpdateWrapper_from (update : Provider.StateUpdate) : StateUpdateWrapper := {|
  su_block_hash := Provider.block_hash update;
  su_new_root := Provider.new_root update;
  su_old_root := Provider.old_root update;
  su_state_diff := StateDiffWrapper_from (Provider.state_diff update);
|}.

(** ** The digest log

    A digest is a list of opaque items; [DigestItem::try_to] (sp_runtime) decodes
    an item filed under the given engine id. *)

Inductive FindLogError := NotLog | MultipleLogs.
Inductive Log := Log_Block (b : DeoxysBlock).

Definition MADARA_ENGINE_ID : bytes := bytes_of_string "mada".
Definition BLOCK_ENGINE_ID : bytes := bytes_of_string "bloc".
Definition STATE_ENGINE_ID : bytes := bytes_of_string "stat".
Definition CLASS_ENGINE_ID : bytes := bytes_of_string "claz".

Class DigestItems (Item : Type) := try_to : Item → bytes → option Log.

Section DigestLog.
Context {Item : Type} `{items : DigestItems Item}.

Fixpoint _find_log_loop (digest_item_id : bytes) (logs : list Item) (found : option Log)
    : Outcome FindLogError (option Log) :=
  match logs with
  | [] => Ok found
  | log :: logs =>
      match try_to log digest_item_id, found with
      | Some _, Some _ => Err MultipleLogs
      | Some log, None => _find_log_loop digest_item_id logs (Some log)
      | None, _ => _find_log_loop digest_item_id logs found
      end
  end.

Definition _find_log (digest : list Item) (digest_item_id : bytes) : Outcome FindLogError Log :=
  found ← _find_log_loop digest_item_id digest None;
  ok_or NotLog found.

Definition find_log (digest : list Item) : Outcome FindLogError Log :=
  _find_log digest MADARA_ENGINE_ID.

Definition find_starknet_block (digest : list Item) : Outcome FindLogError DeoxysBlock :=
  (λ log, match log with Log_Block b => b end) <$> find_log digest.

Definition ensure_log (digest : list Item) : Outcome FindLogError unit :=
  (λ _, tt) <$> find_log digest.

(** The Madara logs of a digest. *)
Definition madara_logs (digest : list Item) : list Log :=
  omap (λ item, try_to item MADARA_ENGINE_ID) digest.

Lemma _find_log_loop_spec logs found :
  _find_log_loop MADARA_ENGINE_ID logs found =
  match found, madara_logs logs with
  | Some log, [] => Ok (Some log)
  | Some _, _ :: _ => Err MultipleLogs
  | None, [] => Ok None
  | None, [log] => Ok (Some log)
  | None, _ :: _ :: _ => Err MultipleLogs
  end.
Proof.
  revert found. induction logs as [|item logs IH]; intros found; [by destruct found|].
  assert (madara_logs (item :: logs) = match try_to item MADARA_ENGINE_ID with
            | Some log => log :: madara_logs logs | None => madara_logs logs end) as -> by done.
  cbn [_find_log_loop]. destruct (try_to item MADARA_ENGINE_ID) as [log|]; [|apply IH].
  destruct found as [f|]; [done|]. rewrite IH. by destruct (madara_logs logs).
Qed.

Lemma find_starknet_block_logs digest :
  find_starknet_block digest =
  match madara_logs digest with
  | [] => Err NotLog
  | [Log_Block b] => Ok b
  | _ :: _ :: _ => Err MultipleLogs
  end.
Proof.
  unfold find_starknet_block, find_log, _find_log. rewrite _find_log_loop_spec.
  by destruct (madara_logs digest) as [|[b] [|? ?]].
Qed.

(** The wrapped block is found exactly when the digest holds one Madara log;
    with none the search fails with [NotLog], with several with
    [MultipleLogs], whatever other items the digest holds. *)
Theorem find_starknet_block_spec digest :
  find_starknet_block digest =
  match madara_logs digest with
  | [] => Err NotLog
  | [Log_Block b] => Ok b
  | _ :: _ :: _ => Err MultipleLogs
  end
  ∧ (ensure_log digest = Ok tt ↔ ∃ b, find_starknet_block digest = Ok b).
Proof.
  split; [apply find_starknet_block_logs|]. rewrite find_starknet_block_logs.
  unfold ensure_log, find_log, _find_log. rewrite _find_log_loop_spec.
  destruct (madara_logs digest) as [|[b] [|? ?]]; simpl; naive_solver.
Qed.

End DigestLog.

(** ** Properties of headers and chain identifiers *)

Definition wf_header (h : Header) : Prop :=
  is_u64 (block_number h) ∧ is_u64 (block_timestamp h)
  ∧ is_u128 (transaction_count h) ∧ is_u128 (event_count h).

(** The hashed elements. *)
Definition header_preimage (h : Header) : list Z :=
  if 833 <=? block_number h then
    [block_number h; global_state_root h; sequencer_address h; block_timestamp h; transaction_count h;
     transaction_commitment h; event_count h; event_commitment h; 0; 0; parent_block_hash h]
  else
    [block_number h; global_state_root h; 0; 0; transaction_count h; transaction_commitment h; 0; 0; 0; 0;
     pfx (bytes_of_string "SN_MAIN"); parent_block_hash h].

(** What the hash of a block covers: after block 833 everything but the
    protocol version, gas prices, data availability mode and extra data; before,
    only the number, the roots, the transactions and the parent. *)
Definition header_content (h : Header) : list Z :=
  if 833 <=? block_number h then
    [block_number h; parent_block_hash h; global_state_root h; transaction_count h;
     transaction_commitment h; sequencer_address h; block_timestamp h; event_count h; event_commitment h]
  else
    [block_number h; parent_block_hash h; global_state_root h; transaction_count h;
     transaction_commitment h].

Section Properties.
Context `{Hlibs : !FeltLibsSpec libs}.

Lemma from_u64_ok x : is_u64 x → Felt252Wrapper.from_u64 x = x.
Proof. intros. apply from_uint_ok. auto with bytes. Qed.

Lemma from_u128_ok x : is_u128 x → Felt252Wrapper.from_u128 x = Ok x.
Proof.
  intros Hx. unfold Felt252Wrapper.from_u128, Felt252Wrapper.try_from_u256.
  rewrite u256_from_u128_ok, u256_to_be_ok, try_from_array_felt by
    (auto with bytes || (unfold is_u128, u128_max in Hx; lia)). done.
Qed.

Lemma header_hash_preimage `{hasher : HasherT} h :
  wf_header h → Header_hash h = Ok (compute_hash_on_wrappers (header_preimage h)).
Proof.
  intros (Hn & Ht & Htc & Hec). unfold Header_hash, header_preimage.
  rewrite !from_u64_ok, !(from_u128_ok _ Htc), !(from_u128_ok _ Hec) by done. simpl.
  destruct (833 <=? block_number h); [done|].
  change (unwrap (FieldElement_from_byte_slice_be (bytes_of_string "SN_MAIN")))
    with (byte_prefix (bytes_of_string "SN_MAIN")).
  rewrite byte_prefix_ok; [done | by repeat constructor | cbn; lia].
Qed.

(** C33: The block hash of a header in range is computed without panicking and says
    exactly what it covers: two headers (on whose hashed lists the hash function does not
    collide) have the same hash exactly when they agree on number, parent, state root,
    transaction count and commitment, and from block 833 on also on sequencer, timestamp,
    event count and commitment; headers of the old and the new format differ in
    their number and so in their hash. *)
Theorem header_hash_binding `{hasher : HasherT} h1 h2 :
  wf_header h1 → wf_header h2 →
  collision_free compute_hash_on_wrappers [header_preimage h1; header_preimage h2] →
  ∃ hash1 hash2, Header_hash h1 = Ok hash1 ∧ Header_hash h2 = Ok hash2 ∧
    (hash1 = hash2 ↔ header_content h1 = header_content h2).
Proof.
  intros W1 W2 Cf. do 2 eexists. split; [by apply header_hash_preimage|]. split; [by apply header_hash_preimage|]. split.
  - intros E2. apply Cf in E2; [|set_solver..]. revert E2. unfold header_preimage, header_content.
    destruct (833 <=? block_number h1), (833 <=? block_number h2); intros E2; cons_inv;
      by first [congruence | discriminate].
  - intros E. f_equal. revert E. unfold header_preimage, header_content.
    destruct (833 <=? block_number h1), (833 <=? block_number h2); intros E; cons_inv;
      by first [congruence | discriminate].
Qed.

(** The hashes of the transactions of any block, at any block number, are
    computed without panicking, in order, and each hashes exactly the elements
    of [preimage]: every prefix, packed resource bound and contract address the
    code [unwrap]s is available. *)
Theorem transactions_hashes_total `{crypto : StarknetCrypto} `{Hca : !ContractAddressesSpec ca}
    `{hasher : HasherT} block chain_id bn :
  Forall wf_tx (transactions block) →
  transactions_hashes block chain_id bn
  = Ok (map (λ tx, compute_hash_on_elements (preimage tx chain_id false bn)) (transactions block)).
Proof.
  intros Hwf. apply mapM_Ok_map. eapply Forall_impl; [exact Hwf|]. intros tx. apply compute_hash_preimage.
Qed.

(** A Montgomery constant is recognised by multiplying out its radix. *)
Lemma from_mont_value a b c d v :
  is_felt (a + b * 2 ^ 64 + c * 2 ^ 128 + d * 2 ^ 192) → is_felt v →
  (v * 2 ^ 256) mod P = a + b * 2 ^ 64 + c * 2 ^ 128 + d * 2 ^ 192 →
  FieldElement_from_mont a b c d = v.
Proof.
  intros Hl Hv Hm. destruct (from_mont_ok a b c d Hl) as [Hf Heq].
  rewrite <-Hm in Heq. apply (f_equal (λ y, (y * mont_R_inv) mod P)) in Heq.
  rewrite !Zmult_mod_idemp_l, <-!Z.mul_assoc in Heq.
  rewrite (Zmult_mod (FieldElement_from_mont a b c d)), (Zmult_mod v) in Heq.
  change ((2 ^ 256 * mont_R_inv) mod P) with 1 in Heq.
  by rewrite !Z.mul_1_r, !Zmod_mod, !Z.mod_small in Heq by done.
Qed.

(** The chain identifiers, given in the source as Montgomery limbs, are the
    ASCII encodings of the chains' names. *)
Theorem chain_ids_are_names :
  SN_GOERLI_CHAIN_ID = be_decode (bytes_of_string "SN_GOERLI") ∧
  SN_SEPOLIA_CHAIN_ID = be_decode (bytes_of_string "SN_SEPOLIA") ∧
  SN_MAIN_CHAIN_ID = be_decode (bytes_of_string "SN_MAIN") ∧
  MADARA_CHAIN_ID = be_decode (bytes_of_string "MADARA").
Proof. split_and!; apply from_mont_value; by vm_compute. Qed.

End Properties.

(** ** Witnesses *)

(** Before block 833 the sequencer is not covered, the parent is. *)
Lemma header_hash_binding_witness :
  let hdr parent sequencer := Header_new parent 7 0 sequencer 3 0 0 0 0 0 None L1DA_Blob None in
  let hash h := Header_hash (hasher := @PedersenHasher _ crypto_model) h in
  hash (hdr 1 5) = hash (hdr 1 6) ∧ hash (hdr 1 5) ≠ hash (hdr 2 5).
Proof.
  intros hdr hash. unfold hash. split.
  - destruct (header_hash_binding (hasher := @PedersenHasher _ crypto_model) (hdr 1 5) (hdr 1 6))
      as (x & y & Hx & Hy & Hiff); [by vm_compute|by vm_compute|apply encode_list_collision_free|].
    rewrite Hx, Hy. f_equal. apply Hiff. reflexivity.
  - destruct (header_hash_binding (hasher := @PedersenHasher _ crypto_model) (hdr 1 5) (hdr 2 5))
      as (x & y & Hx & Hy & Hiff); [by vm_compute|by vm_compute|apply encode_list_collision_free|].
    rewrite Hx, Hy. intros [= He]. apply Hiff in He. discriminate He.
Defined.

Lemma chain_ids_are_names_witness :
  SN_MAIN_CHAIN_ID = be_decode (bytes_of_string "SN_MAIN").
Proof. exact (proj1 (proj2 (proj2 chain_ids_are_names))). Defined.

Lemma transactions_hashes_total_witness :
  ∃ hashes, @transactions_hashes _ crypto_model address_model (@PedersenHasher _ crypto_model)
    {| header := Header_default; transactions := [Tx_Invoke (Invoke_V1 example_invoke)]; events := [] |} 77 None
    = Ok hashes.
Proof.
  eexists.
  refine (transactions_hashes_total (crypto := crypto_model) (hasher := @PedersenHasher _ crypto_model)
    {| header := Header_default; transactions := [Tx_Invoke (Invoke_V1 example_invoke)]; events := [] |} 77 None _).
  by repeat constructor.
Defined.
