(* ===== verification/Db.v ===== *)
(** * Db: the client database ([crates/client/db])

    The databases of the node are columns of one RocksDB instance.  RocksDB is
    the class [KvStore]: its operations may fail, a failed one leaves the
    contents as they were.  The SCALE codecs of the stored values are the class
    [DbCodecs].  [MappingDb] is refined to an abstract index
    ([AbsMapping]); [MetaDb], [DaDb], [L1HandlerTxFeeDb] and [BonsaiDb] have
    their functional behaviour proved. *)

From stdpp Require Import sorting.
From S2P Require Import Prelude Felt.

(** ** Columns (lib.rs) *)

Inductive Column :=
| Meta | BlockMapping | TransactionMapping | SyncedMapping | Da
| StarknetTransactionHashesCache | StarknetBlockHashesCache | L1HandlerPaidFee
| BonsaiContractsTrie | BonsaiContractsFlat | BonsaiContractsLog
| BonsaiContractsStorageTrie | BonsaiContractsStorageFlat | BonsaiContractsStorageLog
| BonsaiClassesTrie | BonsaiClassesFlat | BonsaiClassesLog.

Definition Column_ALL : list Column :=
  [Meta; BlockMapping; TransactionMapping; SyncedMapping; Da; StarknetTransactionHashesCache;
   StarknetBlockHashesCache; L1HandlerPaidFee; BonsaiContractsTrie; BonsaiContractsFlat;
   BonsaiContractsLog; BonsaiContractsStorageTrie; BonsaiContractsStorageFlat;
   BonsaiContractsStorageLog; BonsaiClassesTrie; BonsaiClassesFlat; BonsaiClassesLog].

Definition rocksdb_name (self : Column) : string :=
  match self with
  | Meta => "meta"
  | BlockMapping => "block_mapping"
  | TransactionMapping => "transaction_mapping"
  | SyncedMapping => "synced_mapping"
  | Da => "da"
  | StarknetTransactionHashesCache => "starknet_transaction_hashes_cache"
  | StarknetBlockHashesCache => "starnet_block_hashes_cache"
  | L1HandlerPaidFee => "l1_handler_paid_fee"
  | BonsaiContractsTrie => "bonsai_contracts_trie"
  | BonsaiContractsFlat => "bonsai_contracts_flat"
  | BonsaiContractsLog => "bonsai_contracts_log"
  | BonsaiContractsStorageTrie => "bonsai_contracts_storage_trie"
  | BonsaiContractsStorageFlat => "bonsai_contracts_storage_flat"
  | BonsaiContractsStorageLog => "bonsai_contracts_storage_log"
  | BonsaiClassesTrie => "bonsai_classes_trie"
  | BonsaiClassesFlat => "bonsai_classes_flat"
  | BonsaiClassesLog => "bonsai_classes_log"
  end.

#[global] Instance Column_eq_dec : EqDecision Column.
Proof. solve_decision. Defined.

Lemma Column_ALL_complete c : c ∈ Column_ALL.
Proof. destruct c; repeat first [apply list_elem_of_here | apply list_elem_of_further]. Qed.

(** Column families are opened under their names, so the names must be distinct. *)
Lemma rocksdb_name_inj c1 c2 : rocksdb_name c1 = rocksdb_name c2 → c1 = c2.
Proof. destruct c1, c2; try reflexivity; intros H; discriminate H. Qed.

#[global] Instance Column_countable : Countable Column.
Proof.
  refine (inj_countable rocksdb_name
    (λ s, head (filter (λ c, rocksdb_name c = s) Column_ALL)) _).
  by intros [].
Defined.

Module static_keys.
Definition CURRENT_SYNCING_TIPS : bytes := bytes_of_string "CURRENT_SYNCING_TIPS".
Definition LAST_PROVED_BLOCK : bytes := bytes_of_string "LAST_PROVED_BLOCK".
Definition LAST_SYNCED_L1_EVENT_BLOCK : bytes := bytes_of_string "LAST_SYNCED_L1_EVENT_BLOCK".
End static_keys.

(** ** RocksDB *)

Inductive BatchOp :=
| BPut (col : Column) (key value : bytes)
| BDelete (col : Column) (key : bytes).

Abbreviation Contents := (gmap (Column * bytes) bytes).

Definition apply_op (m : Contents) (op : BatchOp) : Contents :=
  match op with
  | BPut c k v => <[(c, k) := v]> m
  | BDelete c k => delete (c, k) m
  end.
Definition apply_batch (m : Contents) (ops : list BatchOp) : Contents := foldl apply_op m ops.

(** The byte-wise lexicographic order of keys. *)
Fixpoint bytes_ltb (a b : bytes) : bool :=
  match a, b with
  | [], [] => false
  | [], _ :: _ => true
  | _ :: _, [] => false
  | x :: a, y :: b => if x <? y then true else if y <? x then false else bytes_ltb a b
  end.

(** [slice::starts_with] *)
Fixpoint starts_with (k p : bytes) : bool :=
  match p, k with
  | [], _ => true
  | _ :: _, [] => false
  | x :: p, y :: k => (x =? y) && starts_with k p
  end.

Class KvStore (E S : Type) := {
  get_cf : S → Column → bytes → Outcome E (option bytes);
  put_cf : S → Column → bytes → bytes → Outcome E S;
  delete_cf : S → Column → bytes → Outcome E S;
  write : S → list BatchOp → Outcome E S;
  (* iteration forward from a key; an item may be an error *)
  iterator_cf : S → Column → bytes → list (Outcome E (bytes * bytes));
}.

Definition key_le (a b : bytes * bytes) : Prop := bytes_ltb b.1 a.1 = false.

Class KvStoreSpec {E S} (kv : KvStore E S) := {
  contents : S → Contents;
  get_cf_ok s c k : match get_cf s c k with
    | Ok v => v = contents s !! (c, k) | Err _ => True | Panic => False end;
  put_cf_ok s c k v : match put_cf s c k v with
    | Ok s' => contents s' = <[(c, k) := v]> (contents s) | Err _ => True | Panic => False end;
  delete_cf_ok s c k : match delete_cf s c k with
    | Ok s' => contents s' = delete (c, k) (contents s) | Err _ => True | Panic => False end;
  write_ok s ops : match write s ops with
    | Ok s' => contents s' = apply_batch (contents s) ops | Err _ => True | Panic => False end;
  iterator_cf_ok s c from :
    (∃ l, iterator_cf s c from = Ok <$> l ∧ StronglySorted key_le l ∧
       ∀ k v, (k, v) ∈ l ↔ contents s !! (c, k) = Some v ∧ bytes_ltb k from = false)
    ∨ ∃ e, Err e ∈ iterator_cf s c from;
}.

(** ** Errors *)

Inductive DbError (E : Type) :=
| RocksDB (e : E)
| DeserializeError
| UuidError
| ValueNotInitialized (col : Column) (key : bytes).
Arguments RocksDB {E}. Arguments DeserializeError {E}. Arguments UuidError {E}.
Arguments ValueNotInitialized {E}.

#[global] Instance DbError_eq_dec {E} `{EqDecision E} : EqDecision (DbError E).
Proof. solve_decision. Defined.

(** ** Codecs *)

(** Substrate block hashes. *)
Inductive DHashT := DHash (h : Z).
#[global] Instance DHashT_eq_dec : EqDecision DHashT.
Proof. solve_decision. Defined.
#[global] Instance DHashT_countable : Countable DHashT.
Proof. by apply (inj_countable' (λ '(DHash h), h) DHash); intros []. Defined.

Class DbCodecs := {
  enc_bool : bool → bytes;             dec_bool : bytes → option bool;
  enc_dhash : DHashT → bytes;          dec_dhash : bytes → option DHashT;
  enc_dhashes : list DHashT → bytes;   dec_dhashes : bytes → option (list DHashT);
  enc_felt : Z → bytes;                dec_felt : bytes → option Z;
  enc_felts : list Z → bytes;          dec_felts : bytes → option (list Z);
  enc_u64 : Z → bytes;                 dec_u64 : bytes → option Z;
}.

Class DbCodecsSpec (codecs : DbCodecs) : Prop := {
  bool_codec b : dec_bool (enc_bool b) = Some b;
  dhash_codec h : dec_dhash (enc_dhash h) = Some h;
  dhashes_codec hs : dec_dhashes (enc_dhashes hs) = Some hs;
  felt_codec x : is_felt x → dec_felt (enc_felt x) = Some x;
  felts_codec xs : Forall is_felt xs → dec_felts (enc_felts xs) = Some xs;
  u64_codec n : is_u64 n → dec_u64 (enc_u64 n) = Some n;
}.

(** ** The mapping database (mapping_db.rs) *)

Record MappingCommitment := {
  mc_block_number : Z;
  mc_block_hash : DHashT;
  mc_starknet_block_hash : Z;
  mc_starknet_transaction_hashes : list Z;
}.

Module MappingDb.
Section MappingDb.
Context {E S : Type} `{kv : KvStore E S} `{codecs : DbCodecs}.
Variable cache_more_things : bool.

(** Reads a column and decodes the value found. *)
Definition read {A} (dec : bytes → option A) (db : S) (col : Column) (key : bytes)
    : Outcome (DbError E) (option A) :=
  raw ← map_err RocksDB (get_cf db col key);
  match raw with
  | Some raw => a ← ok_or DeserializeError (dec raw); Ok (Some a)
  | None => Ok None
  end.

Definition is_synced (db : S) (block_hash : DHashT) : Outcome (DbError E) bool :=
  default false <$> read dec_bool db SyncedMapping (enc_dhash block_hash).

Definition block_hash (db : S) (starknet_block_hash : Z) : Outcome (DbError E) (option (list DHashT)) :=
  read dec_dhashes db BlockMapping (enc_felt starknet_block_hash).

Definition write_none (db : S) (block_hash : DHashT) : Outcome (DbError E) S :=
  map_err RocksDB (put_cf db SyncedMapping (enc_dhash block_hash) (enc_bool true)).

Definition write_hashes (db : S) (commitment : MappingCommitment) : Outcome (DbError E) S :=
  substrate_hashes ← match block_hash db (mc_starknet_block_hash commitment) with
                     | Ok (Some data) => Ok (data ++ [mc_block_hash commitment])
                     | Panic => Panic
                     | _ => Ok [mc_block_hash commitment]
                     end;
  let transaction := [BPut BlockMapping (enc_felt (mc_starknet_block_hash commitment))
                        (enc_dhashes substrate_hashes)] in
  let transaction := transaction ++
    [BPut SyncedMapping (enc_dhash (mc_block_hash commitment)) (enc_bool true)] in
  let transaction := transaction ++
    map (λ transaction_hash,
           BPut TransactionMapping (enc_felt transaction_hash) (enc_dhash (mc_block_hash commitment)))
      (mc_starknet_transaction_hashes commitment) in
  let transaction := if cache_more_things then
      transaction ++
      [BPut StarknetTransactionHashesCache (enc_felt (mc_starknet_block_hash commitment))
         (enc_felts (mc_starknet_transaction_hashes commitment));
       BPut StarknetBlockHashesCache (enc_u64 (mc_block_number commitment))
         (enc_felt (mc_starknet_block_hash commitment))]
    else transaction in
  map_err RocksDB (write db transaction).

Definition block_hash_from_transaction_hash (db : S) (transaction_hash : Z)
    : Outcome (DbError E) (option DHashT) :=
  read dec_dhash db TransactionMapping (enc_felt transaction_hash).

Definition cached_transaction_hashes_from_block_hash (db : S) (starknet_block_hash : Z)
    : Outcome (DbError E) (option (list Z)) :=
  if negb cache_more_things then Ok None
  else read dec_felts db StarknetTransactionHashesCache (enc_felt starknet_block_hash).

Definition cached_block_hash_from_block_number (db : S) (starknet_block_number : Z)
    : Outcome (DbError E) (option Z) :=
  if negb cache_more_things then Ok None
  else read dec_felt db StarknetBlockHashesCache (enc_u64 starknet_block_number).

End MappingDb.
End MappingDb.

(** ** The meta database (meta_db.rs) *)

Module MetaDb.
Section MetaDb.
Context {E S : Type} `{kv : KvStore E S} `{codecs : DbCodecs}.

Definition current_syncing_tips (db : S) : Outcome (DbError E) (list DHashT) :=
  default [] <$> MappingDb.read dec_dhashes db Meta static_keys.CURRENT_SYNCING_TIPS.

Definition write_current_syncing_tips (db : S) (tips : list DHashT) : Outcome (DbError E) S :=
  map_err RocksDB (put_cf db Meta static_keys.CURRENT_SYNCING_TIPS (enc_dhashes tips)).

End MetaDb.
End MetaDb.

(** ** The data-availability database (da_db.rs)

    A block hash is stored under its 32 bytes; [D] is the type of state
    differences and [U] that of job identifiers (uuid). *)

Class DaCodecs (D U : Type) := {
  enc_diff : D → bytes;  dec_diff : bytes → option D;
  uuid_into_bytes : U → bytes;  uuid_from_slice : bytes → option U;
}.
Class DaCodecsSpec {D U} (dc : DaCodecs D U) : Prop := {
  diff_codec d : dec_diff (enc_diff d) = Some d;
  uuid_codec u : uuid_from_slice (uuid_into_bytes u) = Some u;
}.

Module DaDb.
Section DaDb.
Context {E S D U : Type} `{kv : KvStore E S} `{codecs : DbCodecs} `{dc : DaCodecs D U}.

(** [block_hash.0.bytes()] *)
Definition hash_bytes (block_hash : Z) : bytes := be_encode 32 block_hash.

Definition state_diff (db : S) (block_hash : Z) : Outcome (DbError E) D :=
  d ← MappingDb.read dec_diff db Da (hash_bytes block_hash);
  ok_or (ValueNotInitialized Da (hash_bytes block_hash)) d.

Definition store_state_diff (db : S) (block_hash : Z) (diff : D) : Outcome (DbError E) S :=
  map_err RocksDB (put_cf db Da (hash_bytes block_hash) (enc_diff diff)).

Definition cairo_job (db : S) (block_hash : Z) : Outcome (DbError E) (option U) :=
  raw ← map_err RocksDB (get_cf db Da (hash_bytes block_hash));
  match raw with
  | Some raw => u ← ok_or UuidError (uuid_from_slice raw); Ok (Some u)
  | None => Ok None
  end.

Definition update_cairo_job (db : S) (block_hash : Z) (job_id : U) : Outcome (DbError E) S :=
  map_err RocksDB (put_cf db Da (hash_bytes block_hash) (uuid_into_bytes job_id)).

Definition last_proved_block (db : S) : Outcome (DbError E) Z :=
  b ← MappingDb.read dec_felt db Da static_keys.LAST_PROVED_BLOCK;
  ok_or (ValueNotInitialized Da static_keys.LAST_PROVED_BLOCK) b.

Definition update_last_proved_block (db : S) (block_hash : Z) : Outcome (DbError E) S :=
  map_err RocksDB (put_cf db Da static_keys.LAST_PROVED_BLOCK (enc_felt block_hash)).

End DaDb.
End DaDb.

(** ** Fees paid on L1 (l1_handler_tx_fee.rs) *)

Module L1HandlerTxFeeDb.
Section L1HandlerTxFeeDb.
Context {E S : Type} `{kv : KvStore E S} `{codecs : DbCodecs}.

Definition store_fee_paid_for_l1_handler_tx (db : S) (tx_hash fee : Z) : Outcome (DbError E) S :=
  map_err RocksDB (put_cf db L1HandlerPaidFee (enc_felt tx_hash) (le_encode 16 fee)).

Definition get_fee_paid_for_l1_handler_tx (db : S) (tx_hash : Z) : Outcome (DbError E) Z :=
  raw ← map_err RocksDB (get_cf db L1HandlerPaidFee (enc_felt tx_hash));
  match raw with
  | Some bytes =>
      (* [copy_from_slice] panics when the lengths differ *)
      if (length bytes =? 16)%nat then Ok (le_decode bytes) else Panic
  | None => Err (ValueNotInitialized L1HandlerPaidFee (enc_felt tx_hash))
  end.

End L1HandlerTxFeeDb.
End L1HandlerTxFeeDb.

(** ** The abstract index, and refinement of the mapping database to it *)

Record AbsMapping := {
  a_synced : gset DHashT;
  a_blocks : gmap Z (list DHashT);
  a_txs : gmap Z DHashT;
  a_block_txs : gmap Z (list Z);
  a_numbers : gmap Z Z;
}.

Definition abs_empty : AbsMapping :=
  {| a_synced := ∅; a_blocks := ∅; a_txs := ∅; a_block_txs := ∅; a_numbers := ∅ |}.

Definition abs_write_none (h : DHashT) (a : AbsMapping) : AbsMapping :=
  {| a_synced := {[ h ]} ∪ a_synced a; a_blocks := a_blocks a; a_txs := a_txs a;
     a_block_txs := a_block_txs a; a_numbers := a_numbers a |}.

Definition abs_write_hashes (cache : bool) (c : MappingCommitment) (a : AbsMapping) : AbsMapping :=
  let sbh := mc_starknet_block_hash c in
  let txs := mc_starknet_transaction_hashes c in
  {| a_synced := {[ mc_block_hash c ]} ∪ a_synced a;
     a_blocks := <[sbh := default [] (a_blocks a !! sbh) ++ [mc_block_hash c]]> (a_blocks a);
     a_txs := foldl (λ m tx, <[tx := mc_block_hash c]> m) (a_txs a) txs;
     a_block_txs := if cache then <[sbh := txs]> (a_block_txs a) else a_block_txs a;
     a_numbers := if cache then <[mc_block_number c := sbh]> (a_numbers a) else a_numbers a |}.

Inductive MappingOp := OpWriteNone (h : DHashT) | OpWriteHashes (c : MappingCommitment).

Definition abs_step (cache : bool) (a : AbsMapping) (op : MappingOp) : AbsMapping :=
  match op with
  | OpWriteNone h => abs_write_none h a
  | OpWriteHashes c => abs_write_hashes cache c a
  end.

Definition wf_commitment (c : MappingCommitment) : Prop :=
  is_u64 (mc_block_number c) ∧ is_felt (mc_starknet_block_hash c)
  ∧ Forall is_felt (mc_starknet_transaction_hashes c).

Definition wf_op (op : MappingOp) : Prop :=
  match op with OpWriteNone _ => True | OpWriteHashes c => wf_commitment c end.

(** A query that succeeds gives the expected answer; only the store itself can
    make it fail. *)
Definition answers {E A} (m : Outcome (DbError E) A) (a : A) : Prop :=
  match m with Ok a' => a' = a | Err (RocksDB _) => True | _ => False end.

Section Mapping.
Context {E S : Type} `{kv : KvStore E S} `{codecs : DbCodecs}.
Context {Hkv : KvStoreSpec kv} {Hcodecs : DbCodecsSpec codecs}.
Variable cache : bool.

Definition codec_ok {A} (enc : A → bytes) (dec : bytes → option A) (a : A) : Prop :=
  dec (enc a) = Some a.

Record refines (m : Contents) (a : AbsMapping) : Prop := {
  r_synced h : m !! (SyncedMapping, enc_dhash h)
    = if bool_decide (h ∈ a_synced a) then Some (enc_bool true) else None;
  r_blocks x : is_felt x → m !! (BlockMapping, enc_felt x) = enc_dhashes <$> a_blocks a !! x;
  r_txs x : is_felt x → m !! (TransactionMapping, enc_felt x) = enc_dhash <$> a_txs a !! x;
  r_block_txs x : is_felt x →
    m !! (StarknetTransactionHashesCache, enc_felt x) = enc_felts <$> a_block_txs a !! x;
  r_numbers n : is_u64 n → m !! (StarknetBlockHashesCache, enc_u64 n) = enc_felt <$> a_numbers a !! n;
  r_block_txs_wf x l : a_block_txs a !! x = Some l → Forall is_felt l;
  r_numbers_wf n x : a_numbers a !! n = Some x → is_felt x;
}.

Definition step (db : S) (op : MappingOp) : Outcome (DbError E) S :=
  match op with
  | OpWriteNone h => MappingDb.write_none db h
  | OpWriteHashes c => MappingDb.write_hashes cache db c
  end.

(** The read of [write_hashes] did not fail. *)
Definition op_read_ok (db : S) (op : MappingOp) : Prop :=
  match op with
  | OpWriteNone _ => True
  | OpWriteHashes c => ∃ v, MappingDb.block_hash db (mc_starknet_block_hash c) = Ok v
  end.

Lemma enc_felt_inj x y : is_felt x → is_felt y → enc_felt x = enc_felt y → x = y.
Proof. intros Hx Hy H. apply (f_equal dec_felt) in H. rewrite !felt_codec in H by done. by injection H. Qed.
Lemma enc_u64_inj x y : is_u64 x → is_u64 y → enc_u64 x = enc_u64 y → x = y.
Proof. intros Hx Hy H. apply (f_equal dec_u64) in H. rewrite !u64_codec in H by done. by injection H. Qed.
Lemma enc_dhash_inj x y : enc_dhash x = enc_dhash y → x = y.
Proof. intros H. apply (f_equal dec_dhash) in H. rewrite !dhash_codec in H. by injection H. Qed.

(** Reading a key whose stored value is the encoding of [o] answers [o]. *)
Lemma read_answers {A} (enc : A → bytes) (dec : bytes → option A) db col key (o : option A) :
  contents db !! (col, key) = enc <$> o → (∀ a, o = Some a → dec (enc a) = Some a) →
  answers (MappingDb.read dec db col key) o.
Proof.
  intros Hc Hd. unfold MappingDb.read. pose proof (get_cf_ok db col key) as Hg.
  destruct (get_cf db col key) as [v|e|]; simpl; [|done|done].
  subst v. rewrite Hc. destruct o as [a|]; simpl; [|done]. by rewrite (Hd a).
Qed.

Lemma put_lookup m c k v c' k' :
  apply_op m (BPut c k v) !! (c', k') = if decide ((c, k) = (c', k')) then Some v else m !! (c', k').
Proof. simpl. destruct (decide _) as [<-|Hne]; [apply lookup_insert_eq | by apply lookup_insert_ne]. Qed.

Lemma puts_lookup_other m c' k' puts :
  Forall (λ op, match op with BPut c k _ => (c, k) ≠ (c', k') | BDelete _ _ => False end) puts →
  apply_batch m puts !! (c', k') = m !! (c', k').
Proof.
  intros H. revert m. induction H as [|op puts Hop _ IH]; intros m; [done|].
  unfold apply_batch in *. simpl. rewrite IH. destruct op as [c k v|c k]; [|done].
  simpl. by apply lookup_insert_ne.
Qed.

(** The transaction puts of a batch. *)
Lemma tx_puts_lookup m (h : DHashT) txs x (t : gmap Z DHashT) :
  Forall is_felt txs → is_felt x →
  m !! (TransactionMapping, enc_felt x) = enc_dhash <$> t !! x →
  apply_batch m (map (λ tx, BPut TransactionMapping (enc_felt tx) (enc_dhash h)) txs)
    !! (TransactionMapping, enc_felt x)
  = enc_dhash <$> foldl (λ t tx, <[tx := h]> t) t txs !! x.
Proof.
  intros Htx Hx. revert m t. induction Htx as [|tx txs Htx _ IH]; intros m t Hm; [done|].
  unfold apply_batch in *. simpl. apply IH. destruct (decide (tx = x)) as [->|Hne].
  - by rewrite !lookup_insert_eq.
  - rewrite lookup_insert_ne, lookup_insert_ne; [done|done|].
    intros [= He]. by apply enc_felt_inj in He.
Qed.

(** Looking up a key through a batch of puts none of which touches it. *)
Ltac other_col := apply puts_lookup_other; repeat (apply Forall_cons; split; [done|]); try done.

Lemma synced_other (h h' : DHashT) (X : gset DHashT) :
  h ≠ h' → bool_decide (h' ∈ {[ h ]} ∪ X) = bool_decide (h' ∈ X).
Proof. intros. apply bool_decide_ext. set_solver. Qed.

Lemma refines_write_none m a h :
  refines m a → refines (<[(SyncedMapping, enc_dhash h) := enc_bool true]> m) (abs_write_none h a).
Proof.
  intros R. split; simpl; intros; try (rewrite lookup_insert_ne by done; by apply R).
  - destruct (decide (h = h0)) as [<-|Hne].
    + rewrite lookup_insert_eq, bool_decide_true by set_solver. done.
    + rewrite lookup_insert_ne by (intros [= He]; by apply enc_dhash_inj in He).
      by rewrite (r_synced _ _ R), synced_other.
  - by eapply R.
  - by eapply R.
Qed.

(** The batch of [write_hashes], given the hashes already recorded for the block. *)
Definition mapping_batch (c : MappingCommitment) (old : list DHashT) : list BatchOp :=
  [BPut BlockMapping (enc_felt (mc_starknet_block_hash c)) (enc_dhashes (old ++ [mc_block_hash c]));
   BPut SyncedMapping (enc_dhash (mc_block_hash c)) (enc_bool true)]
  ++ map (λ tx, BPut TransactionMapping (enc_felt tx) (enc_dhash (mc_block_hash c)))
       (mc_starknet_transaction_hashes c)
  ++ if cache then
       [BPut StarknetTransactionHashesCache (enc_felt (mc_starknet_block_hash c))
          (enc_felts (mc_starknet_transaction_hashes c));
        BPut StarknetBlockHashesCache (enc_u64 (mc_block_number c)) (enc_felt (mc_starknet_block_hash c))]
     else [].

Lemma write_hashes_batch db c :
  MappingDb.write_hashes cache db c =
  match MappingDb.block_hash db (mc_starknet_block_hash c) with
  | Ok (Some data) => map_err RocksDB (write db (mapping_batch c data))
  | Panic => Panic
  | _ => map_err RocksDB (write db (mapping_batch c []))
  end.
Proof.
  unfold MappingDb.write_hashes, mapping_batch.
  destruct (MappingDb.block_hash _ _) as [[data|]|e|]; simpl; try done;
    destruct cache; by rewrite ?app_nil_r.
Qed.

Lemma mapping_batch_app m c old :
  apply_batch m (mapping_batch c old) =
  apply_batch (apply_batch
    (<[(SyncedMapping, enc_dhash (mc_block_hash c)) := enc_bool true]>
       (<[(BlockMapping, enc_felt (mc_starknet_block_hash c)) := enc_dhashes (old ++ [mc_block_hash c])]> m))
    (map (λ tx, BPut TransactionMapping (enc_felt tx) (enc_dhash (mc_block_hash c)))
       (mc_starknet_transaction_hashes c)))
    (if cache then
       [BPut StarknetTransactionHashesCache (enc_felt (mc_starknet_block_hash c))
          (enc_felts (mc_starknet_transaction_hashes c));
        BPut StarknetBlockHashesCache (enc_u64 (mc_block_number c)) (enc_felt (mc_starknet_block_hash c))]
     else []).
Proof. unfold mapping_batch, apply_batch. by rewrite !foldl_app. Qed.

Lemma tx_puts_other m (h : DHashT) txs c' k' :
  c' ≠ TransactionMapping →
  apply_batch m (map (λ tx, BPut TransactionMapping (enc_felt tx) (enc_dhash h)) txs) !! (c', k')
  = m !! (c', k').
Proof.
  intros Hc. apply puts_lookup_other, Forall_map, Forall_forall. intros x _. simpl. congruence.
Qed.

Lemma cache_puts_other m c c' k' :
  c' ≠ StarknetTransactionHashesCache → c' ≠ StarknetBlockHashesCache →
  apply_batch m (if cache then
       [BPut StarknetTransactionHashesCache (enc_felt (mc_starknet_block_hash c))
          (enc_felts (mc_starknet_transaction_hashes c));
        BPut StarknetBlockHashesCache (enc_u64 (mc_block_number c)) (enc_felt (mc_starknet_block_hash c))]
     else []) !! (c', k') = m !! (c', k').
Proof.
  intros H1 H2. apply puts_lookup_other. destruct cache; repeat constructor; congruence.
Qed.

Lemma refines_write_hashes m a c :
  wf_commitment c → refines m a →
  refines (apply_batch m (mapping_batch c (default [] (a_blocks a !! mc_starknet_block_hash c))))
    (abs_write_hashes cache c a).
Proof.
  intros (Hn & Hb & Htx) R. rewrite mapping_batch_app. split; simpl.
  - intros h. rewrite cache_puts_other, tx_puts_other by done.
    destruct (decide (mc_block_hash c = h)) as [<-|Hne].
    + rewrite lookup_insert_eq, bool_decide_true by set_solver. done.
    + rewrite !lookup_insert_ne by first [done | intros [= He]; by apply enc_dhash_inj in He].
      by rewrite (r_synced _ _ R), synced_other.
  - intros x Hx. rewrite cache_puts_other, tx_puts_other, lookup_insert_ne by done.
    destruct (decide (mc_starknet_block_hash c = x)) as [<-|Hne].
    + by rewrite !lookup_insert_eq.
    + rewrite !lookup_insert_ne by first [done | intros [= He]; by apply enc_felt_inj in He].
      by apply R.
  - intros x Hx. rewrite cache_puts_other by done. apply tx_puts_lookup; [done..|].
    rewrite !lookup_insert_ne by done. by apply R.
  - intros x Hx. destruct cache; simpl.
    + rewrite lookup_insert_ne by done. destruct (decide (mc_starknet_block_hash c = x)) as [<-|Hne].
      * by rewrite !lookup_insert_eq.
      * rewrite !(lookup_insert_ne _ (_, enc_felt (mc_starknet_block_hash c))), lookup_insert_ne
          by first [done | intros [= He]; by apply enc_felt_inj in He].
        rewrite tx_puts_other, !lookup_insert_ne by done. by apply R.
    + rewrite tx_puts_other, !lookup_insert_ne by done. by apply R.
  - intros n Hn'. destruct cache; simpl.
    + destruct (decide (mc_block_number c = n)) as [<-|Hne].
      * by rewrite !lookup_insert_eq.
      * rewrite !lookup_insert_ne by first [done | intros [= He]; by apply enc_u64_inj in He].
        rewrite tx_puts_other, !lookup_insert_ne by done. by apply R.
    + rewrite tx_puts_other, !lookup_insert_ne by done. by apply R.
  - intros x l. destruct cache; [|apply R].
    intros [[<- <-]|[_ Hl]]%lookup_insert_Some; [done|by eapply R].
  - intros n x. destruct cache; [|apply R].
    intros [[<- <-]|[_ Hl]]%lookup_insert_Some; [done|by eapply R].
Qed.

Lemma is_synced_answers db (h : DHashT) (b : bool) :
  contents db !! (SyncedMapping, enc_dhash h) = (if b then Some (enc_bool true) else None) →
  answers (MappingDb.is_synced db h) b.
Proof.
  intros Hc. unfold MappingDb.is_synced.
  pose proof (read_answers enc_bool dec_bool db SyncedMapping (enc_dhash h)
    (if b then Some true else None)) as Ha. rewrite Hc in Ha.
  specialize (Ha ltac:(by destruct b) ltac:(intros; apply bool_codec)).
  destruct (MappingDb.read _ _ _ _) as [v|[]|]; simpl in *; subst; by destruct b.
Qed.

Lemma block_hash_answers db a x :
  refines (contents db) a → is_felt x → answers (MappingDb.block_hash db x) (a_blocks a !! x).
Proof.
  intros R Hx. apply (read_answers enc_dhashes); [by apply R|]. intros. apply dhashes_codec.
Qed.

(** One write, its read of the previous entry included. *)
Lemma step_refines db a op db' :
  refines (contents db) a → wf_op op → op_read_ok db op → step db op = Ok db' →
  refines (contents db') (abs_step cache a op).
Proof.
  intros R Hop Hr Hstep. destruct op as [h|c]; simpl in *.
  - unfold MappingDb.write_none in Hstep.
    pose proof (put_cf_ok db SyncedMapping (enc_dhash h) (enc_bool true)) as Hput.
    destruct (put_cf _ _ _ _); simplify_eq/=. rewrite Hput. by apply refines_write_none.
  - destruct Hr as [v Hv]. pose proof (block_hash_answers db a _ R (proj1 (proj2 Hop))) as Ha.
    rewrite write_hashes_batch, Hv in Hstep. rewrite Hv in Ha. simpl in Ha. subst v.
    pose proof (refines_write_hashes _ _ c Hop R) as R'.
    destruct (a_blocks a !! mc_starknet_block_hash c) as [data|]; simpl in *.
    + pose proof (write_ok db (mapping_batch c data)) as Hw.
      destruct (write _ _); simplify_eq/=. by rewrite Hw.
    + pose proof (write_ok db (mapping_batch c [])) as Hw.
      destruct (write _ _); simplify_eq/=. by rewrite Hw.
Qed.

(** C17: The mapping database implements the abstract index: every write that
    succeeds (its read of the previous entry included) takes a store that
    refines an index to one that refines the updated index, for any sequence of
    writes, block and transaction hashes shared between blocks included. *)
Theorem mapping_db_refinement ops db a db' :
  refines (contents db) a → Forall wf_op ops →
  foldM step db ops = Ok db' →
  (∀ i op dbi, ops !! i = Some op →
     foldM step db (take i ops) = Ok dbi → op_read_ok dbi op) →
  refines (contents db') (foldl (abs_step cache) a ops).
Proof.
  revert db a. induction ops as [|op ops IH]; intros db a R Hwf Hrun Hread.
  { injection Hrun as <-. exact R. }
  apply Forall_cons in Hwf as [Hop Hwf]. simpl in Hrun.
  destruct (step db op) as [db1|e|] eqn:Hstep; [|discriminate..].
  apply (IH db1); [| done | done |].
  - by apply (step_refines db a op db1 R Hop (Hread 0%nat op db eq_refl eq_refl)).
  - intros i o dbi Hi Hrun'. apply (Hread (1 + i)%nat o dbi Hi). simpl. by rewrite Hstep.
Qed.

(** Every query of the mapping database on a store that refines an index
    answers what the index says, or reports an error of the store itself: no
    query finds a value it cannot decode. *)
Theorem mapping_db_queries db a x h n :
  refines (contents db) a → is_felt x → is_u64 n →
  answers (MappingDb.is_synced db h) (bool_decide (h ∈ a_synced a)) ∧
  answers (MappingDb.block_hash db x) (a_blocks a !! x) ∧
  answers (MappingDb.block_hash_from_transaction_hash db x) (a_txs a !! x) ∧
  answers (MappingDb.cached_transaction_hashes_from_block_hash cache db x)
    (if cache then a_block_txs a !! x else None) ∧
  answers (MappingDb.cached_block_hash_from_block_number cache db n)
    (if cache then a_numbers a !! n else None).
Proof.
  intros R Hx Hn. split_and!.
  - apply is_synced_answers, R.
  - by apply block_hash_answers.
  - apply (read_answers enc_dhash); [by apply R|]. intros. apply dhash_codec.
  - unfold MappingDb.cached_transaction_hashes_from_block_hash. destruct cache; simpl; [|done].
    apply (read_answers enc_felts); [by apply R|]. intros l Hl. by apply felts_codec, (r_block_txs_wf _ _ R x).
  - unfold MappingDb.cached_block_hash_from_block_number. destruct cache; simpl; [|done].
    apply (read_answers enc_felt); [by apply R|]. intros y Hy. by apply felt_codec, (r_numbers_wf _ _ R n).
Qed.

(** When the store cannot read the entry of a Starknet block, [write_hashes]
    takes the block as unseen: if the write then succeeds, every Substrate hash
    recorded for it before is replaced by the new one alone. *)
Theorem write_hashes_read_error_forgets db a c e db' :
  refines (contents db) a → wf_commitment c →
  MappingDb.block_hash db (mc_starknet_block_hash c) = Err e →
  MappingDb.write_hashes cache db c = Ok db' →
  answers (MappingDb.block_hash db' (mc_starknet_block_hash c)) (Some [mc_block_hash c]).
Proof.
  intros R Hwf He Hw. rewrite write_hashes_batch, He in Hw.
  pose proof (write_ok db (mapping_batch c [])) as Hc.
  destruct (write _ _); [|discriminate..]. injection Hw as ->.
  apply (read_answers enc_dhashes); [|intros; apply dhashes_codec].
  rewrite Hc, mapping_batch_app, cache_puts_other, tx_puts_other, lookup_insert_ne by done.
  by rewrite lookup_insert_eq.
Qed.

End Mapping.

(** ** The other databases *)

Section OtherDbs.
Context {E S D U : Type} `{kv : KvStore E S} `{codecs : DbCodecs} `{dc : DaCodecs D U}.
Context {Hkv : KvStoreSpec kv} {Hcodecs : DbCodecsSpec codecs} {Hdc : DaCodecsSpec dc}.

Lemma put_contents db c k v db' :
  map_err (F := DbError E) RocksDB (put_cf db c k v) = Ok db' → contents db' = <[(c, k) := v]> (contents db).
Proof.
  pose proof (put_cf_ok db c k v) as H. destruct (put_cf db c k v); [|discriminate..].
  intros Heq. injection Heq as ->. exact H.
Qed.

(** The syncing tips read back are the ones last written, and an empty list
    before the first write. *)
Theorem syncing_tips_roundtrip db tips :
  (∀ db', MetaDb.write_current_syncing_tips db tips = Ok db' →
     answers (MetaDb.current_syncing_tips db') tips) ∧
  (contents db !! (Meta, static_keys.CURRENT_SYNCING_TIPS) = None →
     answers (MetaDb.current_syncing_tips db) []).
Proof.
  unfold MetaDb.current_syncing_tips. split.
  - intros db' Hw. apply put_contents in Hw.
    pose proof (read_answers enc_dhashes dec_dhashes db' Meta static_keys.CURRENT_SYNCING_TIPS (Some tips)) as Ha.
    rewrite Hw, lookup_insert_eq in Ha. specialize (Ha eq_refl ltac:(intros; apply dhashes_codec)).
    destruct (MappingDb.read _ _ _ _) as [v|[]|]; simpl in *; by subst.
  - intros Hn.
    pose proof (read_answers enc_dhashes dec_dhashes db Meta static_keys.CURRENT_SYNCING_TIPS None Hn) as Ha.
    specialize (Ha ltac:(done)).
    destruct (MappingDb.read _ _ _ _) as [v|[]|]; simpl in *; by subst.
Qed.

(** The fee stored for an L1 handler transaction is read back exactly, for
    every [u128] fee, without the fixed-size copy panicking, and storing it
    leaves the fees of other transactions alone. *)
Theorem l1_handler_fee_roundtrip db tx_hash fee db' tx_hash' :
  is_felt tx_hash → is_felt tx_hash' → is_u128 fee →
  L1HandlerTxFeeDb.store_fee_paid_for_l1_handler_tx db tx_hash fee = Ok db' →
  answers (L1HandlerTxFeeDb.get_fee_paid_for_l1_handler_tx db' tx_hash) fee ∧
  (tx_hash' ≠ tx_hash →
   contents db' !! (L1HandlerPaidFee, enc_felt tx_hash') = contents db !! (L1HandlerPaidFee, enc_felt tx_hash')).
Proof.
  intros Hf Hf' Hfee Hs. apply put_contents in Hs. split.
  - unfold L1HandlerTxFeeDb.get_fee_paid_for_l1_handler_tx.
    pose proof (get_cf_ok db' L1HandlerPaidFee (enc_felt tx_hash)) as Hg.
    destruct (get_cf _ _ _) as [v| |]; simpl; [|done..].
    rewrite Hs, lookup_insert_eq in Hg. subst v. rewrite le_encode_length. simpl.
    apply le_decode_encode. unfold is_u128, u128_max in Hfee. change (256 ^ Z.of_nat 16) with (2 ^ 128). lia.
  - intros Hne. rewrite Hs, lookup_insert_ne; [done|]. intros [= He]. by apply enc_felt_inj in He.
Qed.

(** State differences and proving jobs live under the same key of the same
    column: registering a job for a block replaces its state difference, which
    is then read as a decoding of the job identifier; conversely, the state
    difference of a block is found as long as no job was registered for it. *)
Theorem da_job_overwrites_diff db bh diff job db1 db2 :
  DaDb.store_state_diff db bh diff = Ok db1 →
  answers (DaDb.state_diff db1 bh) diff ∧
  (DaDb.update_cairo_job db1 bh job = Ok db2 →
   answers (DaDb.cairo_job db2 bh) (Some job) ∧
   contents db2 !! (Da, DaDb.hash_bytes bh) = Some (uuid_into_bytes job) ∧
   (dec_diff (uuid_into_bytes job) = None →
    ∀ d, DaDb.state_diff db2 bh ≠ Ok d)).
Proof.
  intros H1. apply put_contents in H1. split.
  - unfold DaDb.state_diff.
    pose proof (read_answers enc_diff dec_diff db1 Da (DaDb.hash_bytes bh) (Some diff)) as Ha.
    rewrite H1, lookup_insert_eq in Ha. specialize (Ha eq_refl ltac:(intros; apply diff_codec)).
    destruct (MappingDb.read _ _ _ _) as [v|[]|]; simpl in *; by subst.
  - intros H2. apply put_contents in H2. split_and!.
    + unfold DaDb.cairo_job. pose proof (get_cf_ok db2 Da (DaDb.hash_bytes bh)) as Hg.
      destruct (get_cf _ _ _) as [v| |]; simpl; [|done..].
      rewrite H2, lookup_insert_eq in Hg. subst v. by rewrite uuid_codec.
    + by rewrite H2, lookup_insert_eq.
    + intros Hd d. unfold DaDb.state_diff, MappingDb.read.
      pose proof (get_cf_ok db2 Da (DaDb.hash_bytes bh)) as Hg.
      destruct (get_cf _ _ _) as [v| |]; simpl; [|done..].
      rewrite H2, lookup_insert_eq in Hg. subst v. rewrite Hd. done.
Qed.

End OtherDbs.

(** ** Key order *)

Lemma bytes_ltb_irrefl a : bytes_ltb a a = false.
Proof. induction a as [|x a IH]; [done|]. simpl. by rewrite Z.ltb_irrefl. Qed.

Lemma bytes_ltb_trans a b c :
  bytes_ltb b a = false → bytes_ltb c b = false → bytes_ltb c a = false.
Proof.
  revert b c. induction a as [|x a IH]; intros [|y b] [|z c]; simpl; try done.
  destruct (y <? x) eqn:?, (x <? y) eqn:?, (z <? y) eqn:?, (y <? z) eqn:?; try done;
    bool_to_prop; destruct (z <? x) eqn:?, (x <? z) eqn:?; bool_to_prop; try done; try lia.
  apply IH.
Qed.

Lemma bytes_ltb_total a b : bytes_ltb b a = false ∨ bytes_ltb a b = false.
Proof.
  revert b. induction a as [|x a IH]; intros [|y b]; simpl; try by auto.
  destruct (y <? x) eqn:?, (x <? y) eqn:?; bool_to_prop; auto. lia.
Qed.

(** Keys with a common prefix are contiguous. *)
Lemma starts_with_between p k1 k2 :
  starts_with k2 p = true → bytes_ltb k1 p = false → bytes_ltb k2 k1 = false →
  starts_with k1 p = true.
Proof.
  revert k1 k2. induction p as [|x p IH]; intros [|y k1] [|z k2]; simpl; try done.
  destruct (x =? z) eqn:?; [|done]. bool_to_prop. subst z. simpl.
  destruct (y <? x) eqn:?, (x <? y) eqn:?; try done; bool_to_prop.
  replace (x =? y) with true by (symmetry; apply Z.eqb_eq; lia). apply IH.
Qed.

(** ** A concrete store and codecs *)

#[local] Instance key_le_dec : RelDecision key_le.
Proof. intros a b. unfold key_le. apply _. Defined.
#[local] Instance key_le_total : Total key_le.
Proof. intros a b. apply bytes_ltb_total. Qed.
#[local] Instance key_le_trans : Transitive key_le.
Proof. intros a b c. unfold key_le. apply bytes_ltb_trans. Qed.

Definition column_entries (m : Contents) (col : Column) (from : bytes) : list (bytes * bytes) :=
  merge_sort key_le
    (omap (λ '((c, k), v), if bool_decide (c = col) && negb (bytes_ltb k from) then Some (k, v) else None)
       (map_to_list m)).

Definition kv_model : KvStore Empty_set Contents := {|
  get_cf m c k := Ok (m !! (c, k));
  put_cf m c k v := Ok (<[(c, k) := v]> m);
  delete_cf m c k := Ok (delete (c, k) m);
  write m ops := Ok (apply_batch m ops);
  iterator_cf m c from := Ok <$> column_entries m c from;
|}.

Lemma column_entries_ok m c from :
  StronglySorted key_le (column_entries m c from) ∧
  ∀ k v, (k, v) ∈ column_entries m c from ↔ m !! (c, k) = Some v ∧ bytes_ltb k from = false.
Proof.
  split; [apply StronglySorted_merge_sort; apply _|].
  intros k v. unfold column_entries. rewrite merge_sort_Permutation, list_elem_of_omap. split.
  - intros ([[c' k'] v'] & Hin & Hb). destruct (bool_decide (c' = c)) eqn:Hc; [|done].
    apply bool_decide_eq_true in Hc as ->. destruct (bytes_ltb k' from) eqn:?; simplify_eq/=.
    split; [by apply elem_of_map_to_list|done].
  - intros [Hl Hf]. exists ((c, k), v). split; [by apply elem_of_map_to_list|].
    rewrite bool_decide_true, Hf by done. done.
Qed.

Definition kv_model_spec : KvStoreSpec kv_model.
Proof.
  refine {| contents := λ m : Contents, m |}; try done.
  intros m c from. left. exists (column_entries m c from). split; [done|]. apply column_entries_ok.
Defined.

(** A codec for any countable type: one "byte" holding its number. *)
Definition enc1 {A} `{Countable A} (a : A) : bytes := [Zpos (encode a)].
Definition dec1 {A} `{Countable A} (bs : bytes) : option A :=
  match bs with [Zpos p] => decode p | _ => None end.

Lemma dec1_enc1 {A} `{Countable A} (a : A) : dec1 (enc1 a) = Some a.
Proof. apply decode_encode. Qed.

Definition codecs_model : DbCodecs := {|
  enc_bool := enc1; dec_bool := dec1; enc_dhash := enc1; dec_dhash := dec1;
  enc_dhashes := enc1; dec_dhashes := dec1; enc_felt := enc1; dec_felt := dec1;
  enc_felts := enc1; dec_felts := dec1; enc_u64 := enc1; dec_u64 := dec1;
|}.

#[export] Instance codecs_model_spec : DbCodecsSpec codecs_model.
Proof. split; intros; apply dec1_enc1. Qed.

Definition da_codecs_model : DaCodecs (list Z) Z := {|
  enc_diff d := 0 :: enc1 d; dec_diff bs := match bs with 0 :: bs => dec1 bs | _ => None end;
  uuid_into_bytes := enc1; uuid_from_slice := dec1;
|}.

#[export] Instance da_codecs_model_spec : DaCodecsSpec da_codecs_model.
Proof. split; intros; apply dec1_enc1. Qed.

Definition example_commitment : MappingCommitment :=
  {| mc_block_number := 7; mc_block_hash := DHash 70; mc_starknet_block_hash := 700;
     mc_starknet_transaction_hashes := [11; 12] |}.

Lemma refines_empty `{codecs : DbCodecs} : refines ∅ abs_empty.
Proof. by split. Qed.

Lemma mapping_db_refinement_witness :
  ∃ db' : Contents, refines (codecs := codecs_model) db'
      (foldl (abs_step true) abs_empty [OpWriteNone (DHash 1); OpWriteHashes example_commitment]).
Proof.
  eexists.
  refine (mapping_db_refinement (kv := kv_model) (codecs := codecs_model) (Hkv := kv_model_spec) true
            [OpWriteNone (DHash 1); OpWriteHashes example_commitment] ∅ abs_empty _ _ _ _ _).
  - apply refines_empty.
  - repeat constructor; done.
  - reflexivity.
  - intros [|[|i]] op dbi Hi Hdbi.
    + injection Hi as <-. exact I.
    + injection Hi as <-. injection Hdbi as <-. eexists. reflexivity.
    + discriminate Hi.
Defined.

Lemma mapping_db_queries_witness :
  answers (MappingDb.is_synced (kv := kv_model) (codecs := codecs_model) ∅ (DHash 3)) false.
Proof.
  refine (proj1 (mapping_db_queries (kv := kv_model) (codecs := codecs_model) (Hkv := kv_model_spec)
            true ∅ abs_empty 5 (DHash 3) 5 _ _ _)); [apply refines_empty | done..].
Defined.

(** A store whose reads fail until the next write. *)
Definition kv_flaky : KvStore unit (bool * Contents) := {|
  get_cf := λ (s : bool * Contents) c k, if s.1 then Err tt else Ok (s.2 !! (c, k));
  put_cf := λ (s : bool * Contents) c k v, Ok (false, <[(c, k) := v]> s.2);
  delete_cf := λ (s : bool * Contents) c k, Ok (false, delete (c, k) s.2);
  write := λ (s : bool * Contents) ops, Ok (false, apply_batch s.2 ops);
  iterator_cf := λ (s : bool * Contents) c from, Ok <$> column_entries s.2 c from;
|}.

Definition kv_flaky_spec : KvStoreSpec kv_flaky.
Proof.
  refine {| contents := λ s : bool * Contents, s.2 |}; try done.
  - intros [[] m] c k; done.
  - intros [b m] c from. left. exists (column_entries m c from). split; [done|]. apply column_entries_ok.
Defined.

Lemma write_hashes_read_error_forgets_witness :
  ∃ db', MappingDb.write_hashes (kv := kv_flaky) (codecs := codecs_model) true (true, ∅) example_commitment
         = Ok db'
       ∧ answers (MappingDb.block_hash (kv := kv_flaky) (codecs := codecs_model) db' 700) (Some [DHash 70]).
Proof.
  eexists. split; [reflexivity|].
  refine (write_hashes_read_error_forgets (kv := kv_flaky) (codecs := codecs_model) (Hkv := kv_flaky_spec)
            true (true, ∅) abs_empty example_commitment (RocksDB tt) _ _ _ _ _).
  - apply refines_empty.
  - repeat constructor; done.
  - reflexivity.
  - reflexivity.
Defined.

Lemma syncing_tips_roundtrip_witness :
  answers (MetaDb.current_syncing_tips (kv := kv_model) (codecs := codecs_model) ∅) [].
Proof.
  refine (proj2 (syncing_tips_roundtrip (kv := kv_model) (codecs := codecs_model) (Hkv := kv_model_spec)
            ∅ [DHash 1]) _). reflexivity.
Defined.

Lemma l1_handler_fee_roundtrip_witness :
  ∃ db', L1HandlerTxFeeDb.store_fee_paid_for_l1_handler_tx (kv := kv_model) (codecs := codecs_model) ∅ 5 300
         = Ok db'
       ∧ answers (L1HandlerTxFeeDb.get_fee_paid_for_l1_handler_tx (kv := kv_model) (codecs := codecs_model) db' 5)
           300.
Proof.
  eexists. split; [reflexivity|].
  refine (proj1 (l1_handler_fee_roundtrip (kv := kv_model) (codecs := codecs_model) (Hkv := kv_model_spec)
            ∅ 5 300 _ 6 _ _ _ _)); done.
Defined.

Lemma da_job_overwrites_diff_witness :
  ∃ db1, DaDb.store_state_diff (kv := kv_model) (dc := da_codecs_model) ∅ 9 [1; 2] = Ok db1
       ∧ answers (DaDb.state_diff (kv := kv_model) (dc := da_codecs_model) db1 9) [1; 2].
Proof.
  eexists. split; [reflexivity|].
  refine (proj1 (da_job_overwrites_diff (kv := kv_model) (dc := da_codecs_model) (Hkv := kv_model_spec)
            ∅ 9 [1; 2] 4 _ ∅ _)). reflexivity.
Defined.
