(* ===== verification/BonsaiDb.v ===== *)
(** * BonsaiDb: the key-value backend of the tries ([client/db/src/bonsai_db.rs])

    The trie library stores its nodes through [BonsaiDatabase]; the node
    implements it over three RocksDB columns.  [BonsaiDb] works on the database,
    [BonsaiTransaction] on a RocksDB transaction; the bodies of the two are the
    same, over the operations of their store (a transaction is a store of its own,
    [txn_store]), and differ in the initial batch and in what writing one means.
    [merge] commits a transaction to the database. *)

From stdpp Require Import sorting.
From S2P Require Import Prelude Felt Db.

Inductive DatabaseKey := Trie (k : bytes) | Flat (k : bytes) | TrieLog (k : bytes).

(** [DatabaseKey::as_slice] *)
Definition as_slice (key : DatabaseKey) : bytes :=
  match key with Trie k | Flat k | TrieLog k => k end.

Record DatabaseKeyMapping := { flat : Column; trie : Column; trie_log : Column }.

Definition DatabaseKeyMapping_map (self : DatabaseKeyMapping) (key : DatabaseKey) : Column :=
  match key with
  | Trie _ => trie self
  | Flat _ => flat self
  | TrieLog _ => trie_log self
  end.

(** The three mappings of [DeoxysBackend::new]. *)
Definition contracts_mapping : DatabaseKeyMapping :=
  {| flat := BonsaiContractsFlat; trie := BonsaiContractsTrie; trie_log := BonsaiContractsLog |}.
Definition contracts_storage_mapping : DatabaseKeyMapping :=
  {| flat := BonsaiContractsStorageFlat; trie := BonsaiContractsStorageTrie;
     trie_log := BonsaiContractsStorageLog |}.
Definition classes_mapping : DatabaseKeyMapping :=
  {| flat := BonsaiClassesFlat; trie := BonsaiClassesTrie; trie_log := BonsaiClassesLog |}.

Inductive BonsaiDbError (E : Type) := Bonsai_Io | Bonsai_RocksDB (e : E).
Arguments Bonsai_Io {E}. Arguments Bonsai_RocksDB {E}.

Module BonsaiDb.
Section BonsaiDb.
Context {E S : Type} `{kv : KvStore E S}.
Variable column_mapping : DatabaseKeyMapping.
(** [create_batch]: empty for the database, the pending write batch for a transaction. *)
Variable create_batch : S → list BatchOp.

Definition get (db : S) (key : DatabaseKey) : Outcome (BonsaiDbError E) (option bytes) :=
  map_err Bonsai_RocksDB (get_cf db (DatabaseKeyMapping_map column_mapping key) (as_slice key)).

(** [map_while] over the iterator: it stops at the first error or foreign key. *)
Fixpoint take_prefix (prefix : bytes) (iter : list (Outcome E (bytes * bytes))) : list (bytes * bytes) :=
  match iter with
  | Ok (key, value) :: iter =>
      if starts_with key prefix then (key, value) :: take_prefix prefix iter else []
  | _ => []
  end.

Definition get_by_prefix (db : S) (prefix : DatabaseKey)
    : Outcome (BonsaiDbError E) (list (bytes * bytes)) :=
  Ok (take_prefix (as_slice prefix)
        (iterator_cf db (DatabaseKeyMapping_map column_mapping prefix) (as_slice prefix))).

Definition contains (db : S) (key : DatabaseKey) : Outcome (BonsaiDbError E) bool :=
  map_err Bonsai_RocksDB
    ((λ value, bool_decide (is_Some value))
       <$> get_cf db (DatabaseKeyMapping_map column_mapping key) (as_slice key)).

(** The result is the new store, the new batch and the old value. *)
Definition insert (db : S) (key : DatabaseKey) (value : bytes) (batch : option (list BatchOp))
    : Outcome (BonsaiDbError E) (S * option (list BatchOp) * option bytes) :=
  let col := DatabaseKeyMapping_map column_mapping key in
  old_value ← map_err Bonsai_RocksDB (get_cf db col (as_slice key));
  match batch with
  | Some batch => Ok (db, Some (batch ++ [BPut col (as_slice key) value]), old_value)
  | None =>
      db ← map_err Bonsai_RocksDB (put_cf db col (as_slice key) value);
      Ok (db, None, old_value)
  end.

Definition remove (db : S) (key : DatabaseKey) (batch : option (list BatchOp))
    : Outcome (BonsaiDbError E) (S * option (list BatchOp) * option bytes) :=
  let col := DatabaseKeyMapping_map column_mapping key in
  old_value ← map_err Bonsai_RocksDB (get_cf db col (as_slice key));
  match batch with
  | Some batch => Ok (db, Some (batch ++ [BDelete col (as_slice key)]), old_value)
  | None =>
      db ← map_err Bonsai_RocksDB (delete_cf db col (as_slice key));
      Ok (db, None, old_value)
  end.

Definition write_batch (db : S) (batch : list BatchOp) : Outcome (BonsaiDbError E) S :=
  map_err Bonsai_RocksDB (write db batch).

(** The loop of [remove_by_prefix]. *)
Fixpoint delete_loop (col : Column) (prefix : bytes) (batch : list BatchOp)
    (iter : list (Outcome E (bytes * bytes))) : list BatchOp :=
  match iter with
  | Ok (key, _) :: iter =>
      if starts_with key prefix then delete_loop col prefix (batch ++ [BDelete col key]) iter else batch
  | _ => batch
  end.

Definition remove_by_prefix (db : S) (prefix : DatabaseKey) : Outcome (BonsaiDbError E) S :=
  let col := DatabaseKeyMapping_map column_mapping prefix in
  let iter := iterator_cf db col (as_slice prefix) in
  let batch := delete_loop col (as_slice prefix) (create_batch db) iter in
  write_batch db batch.

End BonsaiDb.
End BonsaiDb.

(** ** Transactions

    RocksDB's optimistic transactions: the writes are kept in a batch, reads see
    them over the database the transaction was opened on, and [rebuild_from_writebatch]
    adds the operations of a batch. *)

Class RocksTransaction (E S T : Type) := {
  transaction_opt : S → T;
  txn_get_cf : T → Column → bytes → Outcome E (option bytes);
  txn_put_cf : T → Column → bytes → bytes → Outcome E T;
  txn_delete_cf : T → Column → bytes → Outcome E T;
  txn_iterator_cf : T → Column → bytes → list (Outcome E (bytes * bytes));
  get_writebatch : T → list BatchOp;
  rebuild_from_writebatch : T → list BatchOp → Outcome E T;
  txn_commit : S → T → Outcome E S;
}.

(** A transaction as a store. *)
Definition txn_store {E S T} `{RocksTransaction E S T} : KvStore E T := {|
  get_cf := txn_get_cf; put_cf := txn_put_cf; delete_cf := txn_delete_cf;
  write := rebuild_from_writebatch; iterator_cf := txn_iterator_cf;
|}.

Class RocksTransactionSpec {E S T} {kv : KvStore E S} (Hkv : KvStoreSpec kv) (rt : RocksTransaction E S T) := {
  txn_spec : KvStoreSpec (txn_store (H := rt));
  (* the contents the transaction was opened on *)
  txn_base : T → Contents;
  txn_contents t : contents (KvStoreSpec := txn_spec) t = apply_batch (txn_base t) (get_writebatch t);
  txn_opened s : txn_base (transaction_opt s) = contents (KvStoreSpec := Hkv) s ∧ get_writebatch (transaction_opt s) = [];
  txn_put_base t c k v t' : txn_put_cf t c k v = Ok t' → txn_base t' = txn_base t;
  txn_delete_base t c k t' : txn_delete_cf t c k = Ok t' → txn_base t' = txn_base t;
  txn_rebuild_base t ops t' : rebuild_from_writebatch t ops = Ok t' → txn_base t' = txn_base t;
  txn_commit_ok s t s' : txn_commit s t = Ok s' →
    contents (KvStoreSpec := Hkv) s' = apply_batch (contents (KvStoreSpec := Hkv) s) (get_writebatch t);
}.

Module BonsaiTransaction.
Section BonsaiTransaction.
Context {E S T : Type} `{rt : RocksTransaction E S T}.
Variable column_mapping : DatabaseKeyMapping.

Definition create_batch (t : T) : list BatchOp := get_writebatch t.
Definition get (t : T) (key : DatabaseKey) : Outcome (BonsaiDbError E) (option bytes) :=
  BonsaiDb.get (kv := txn_store) column_mapping t key.
Definition get_by_prefix (t : T) (prefix : DatabaseKey) : Outcome (BonsaiDbError E) (list (bytes * bytes)) :=
  BonsaiDb.get_by_prefix (kv := txn_store) column_mapping t prefix.
Definition contains (t : T) (key : DatabaseKey) : Outcome (BonsaiDbError E) bool :=
  BonsaiDb.contains (kv := txn_store) column_mapping t key.
Definition insert (t : T) (key : DatabaseKey) (value : bytes) (batch : option (list BatchOp))
    : Outcome (BonsaiDbError E) (T * option (list BatchOp) * option bytes) :=
  BonsaiDb.insert (kv := txn_store) column_mapping t key value batch.
Definition remove (t : T) (key : DatabaseKey) (batch : option (list BatchOp))
    : Outcome (BonsaiDbError E) (T * option (list BatchOp) * option bytes) :=
  BonsaiDb.remove (kv := txn_store) column_mapping t key batch.
Definition remove_by_prefix (t : T) (prefix : DatabaseKey) : Outcome (BonsaiDbError E) T :=
  BonsaiDb.remove_by_prefix (kv := txn_store) column_mapping create_batch t prefix.
Definition write_batch (t : T) (batch : list BatchOp) : Outcome (BonsaiDbError E) T :=
  BonsaiDb.write_batch (kv := txn_store) t batch.

End BonsaiTransaction.
End BonsaiTransaction.

(** ** Snapshots (the [BonsaiPersistentDatabase] implementation)

    Snapshots are kept by identifier; a transaction is opened only for an
    identifier that has one, and reads the database it is opened on: the
    snapshot's read options are built and dropped. *)

Record SnapshotDb (S : Type) := { sdb : S; snapshots : gmap Z S }.
Arguments sdb {S}. Arguments snapshots {S}.

Definition snapshot {S} (self : SnapshotDb S) (id : Z) : SnapshotDb S :=
  {| sdb := sdb self; snapshots := <[id := sdb self]> (snapshots self) |}.

Definition transaction {E S T} `{RocksTransaction E S T} (self : SnapshotDb S) (id : Z) : option T :=
  match snapshots self !! id with
  | Some _ => Some (transaction_opt (sdb self))
  | None => None
  end.

Definition merge {E S T} `{RocksTransaction E S T} (self : SnapshotDb S) (t : T)
    : Outcome (BonsaiDbError E) (SnapshotDb S) :=
  db ← map_err Bonsai_RocksDB (txn_commit (sdb self) t);
  Ok {| sdb := db; snapshots := snapshots self |}.

(** ** Properties *)

(** No column is shared between the tries, nor between the parts of one. *)
Lemma bonsai_columns_disjoint :
  NoDup [flat contracts_mapping; trie contracts_mapping; trie_log contracts_mapping;
         flat contracts_storage_mapping; trie contracts_storage_mapping; trie_log contracts_storage_mapping;
         flat classes_mapping; trie classes_mapping; trie_log classes_mapping].
Proof. by apply (bool_decide_unpack _). Qed.

Section Properties.
Context {E S : Type} `{kv : KvStore E S} {Hkv : KvStoreSpec kv}.
Variable mapping : DatabaseKeyMapping.
Implicit Types l : list (bytes * bytes).

Lemma take_prefix_filter p l :
  StronglySorted key_le l → Forall (λ kv, bytes_ltb kv.1 p = false) l →
  BonsaiDb.take_prefix (E := E) p (Ok <$> l) = filter (λ kv, starts_with kv.1 p = true) l.
Proof.
  induction 1 as [|[k v] l Hl IH Hle]; intros Hp; [done|].
  apply Forall_cons in Hp as [Hk Hp]. simpl in *.
  rewrite filter_cons. simpl. destruct (starts_with k p) eqn:Hs.
  - rewrite decide_True by done. f_equal. by apply IH.
  - rewrite decide_False by done. symmetry. clear IH Hl.
    induction l as [|[k' v'] l IH]; [done|].
    apply Forall_cons in Hp as [Hk' Hp]. apply Forall_cons in Hle as [Hle' Hle]. simpl in *.
    rewrite filter_cons, decide_False; [by apply IH|]. simpl. intros Hs'.
    rewrite (starts_with_between p k k') in Hs by done. done.
Qed.

Lemma delete_loop_batch col p iter batch :
  BonsaiDb.delete_loop (E := E) col p batch iter
  = batch ++ map (λ kv, BDelete col kv.1) (BonsaiDb.take_prefix p iter).
Proof.
  revert batch. induction iter as [|[[k v]|e|] iter IH]; intros batch; simpl; try by rewrite app_nil_r.
  destruct (starts_with k p); simpl; [|by rewrite app_nil_r].
  by rewrite IH, <-app_assoc.
Qed.

Lemma apply_batch_app m ops1 ops2 : apply_batch m (ops1 ++ ops2) = apply_batch (apply_batch m ops1) ops2.
Proof. apply foldl_app. Qed.

Lemma deletes_lookup m col l c k :
  (c = col ∧ k ∈ l.*1 → apply_batch m (map (λ kv, BDelete col kv.1) l) !! (c, k) = None) ∧
  (¬ (c = col ∧ k ∈ l.*1) → apply_batch m (map (λ kv, BDelete col kv.1) l) !! (c, k) = m !! (c, k)).
Proof.
  unfold apply_batch. revert m. induction l as [|[k' v'] l IH]; intros m.
  { split; [|done]. intros [_ H]. by apply elem_of_nil in H. }
  simpl. destruct (IH (delete (col, k') m)) as [IH1 IH2]. rewrite elem_of_cons. split.
  - intros [-> Hk]. destruct (decide (k ∈ l.*1)) as [Hin|Hnin]; [by apply IH1|].
    rewrite IH2 by tauto. destruct Hk as [<-|?]; [apply lookup_delete_eq|done].
  - intros Hn. rewrite IH2 by tauto. apply lookup_delete_ne. intros [= <- <-]. apply Hn. auto.
Qed.

(** The entries of a column under a prefix, when the iteration has no error. *)
Lemma prefix_entries db col p :
  (∀ e, Err e ∉ iterator_cf db col p) →
  ∀ k v, (k, v) ∈ BonsaiDb.take_prefix p (iterator_cf db col p) ↔
         contents db !! (col, k) = Some v ∧ starts_with k p = true.
Proof.
  intros Hne. destruct (iterator_cf_ok db col p) as [(l & Hit & Hs & Hl)|[e He]]; [|by destruct (Hne e)].
  intros k v. rewrite Hit, take_prefix_filter; [|done|].
  - rewrite list_elem_of_filter, Hl. simpl. split; [tauto|]. intros [Hc Hp]. split_and!; [done..|].
    clear -Hp. revert k Hp. induction p as [|x p IH]; intros [|y k] Hp; simpl in *; try done.
    destruct (x =? y) eqn:?; [|done]. bool_to_prop. subst. rewrite Z.ltb_irrefl. by apply IH.
  - apply Forall_forall. intros [k' v'] Hin. by apply Hl in Hin as [_ ?].
Qed.

(** Reading by prefix returns exactly the entries of the key's column whose
    key starts with the prefix, when the iteration reports no error: the scan
    that stops at the first foreign key misses nothing. *)
Theorem get_by_prefix_complete db prefix l :
  (∀ e, Err e ∉ iterator_cf db (DatabaseKeyMapping_map mapping prefix) (as_slice prefix)) →
  BonsaiDb.get_by_prefix mapping db prefix = Ok l →
  ∀ k v, (k, v) ∈ l ↔
    contents db !! (DatabaseKeyMapping_map mapping prefix, k) = Some v
    ∧ starts_with k (as_slice prefix) = true.
Proof. intros Hne [= <-]. by apply prefix_entries. Qed.

(** Removing by prefix deletes exactly those entries in one atomic batch
    and changes nothing else, provided the batch it starts with has no effect. *)
Theorem remove_by_prefix_exact (create_batch : S → list BatchOp) db prefix db' :
  (∀ e, Err e ∉ iterator_cf db (DatabaseKeyMapping_map mapping prefix) (as_slice prefix)) →
  apply_batch (contents db) (create_batch db) = contents db →
  BonsaiDb.remove_by_prefix mapping create_batch db prefix = Ok db' →
  ∀ c k, contents db' !! (c, k) =
    if bool_decide (c = DatabaseKeyMapping_map mapping prefix ∧ starts_with k (as_slice prefix) = true)
    then None else contents db !! (c, k).
Proof.
  intros Hne Hb Hr c k. set (col := DatabaseKeyMapping_map mapping prefix) in *.
  unfold BonsaiDb.remove_by_prefix, BonsaiDb.write_batch in Hr. fold col in Hr.
  rewrite delete_loop_batch in Hr.
  pose proof (write_ok db (create_batch db ++ map (λ kv, BDelete col kv.1)
    (BonsaiDb.take_prefix (as_slice prefix) (iterator_cf db col (as_slice prefix))))) as Hw.
  rewrite apply_batch_app, Hb in Hw. destruct (write _ _); [|discriminate..]. injection Hr as ->.
  rewrite Hw. clear Hw. pose proof (prefix_entries db col _ Hne) as Hp.
  set (l := BonsaiDb.take_prefix _ _) in *.
  destruct (deletes_lookup (contents db) col l c k) as [Hdel Hkeep].
  assert (k ∈ l.*1 ↔ is_Some (contents db !! (col, k)) ∧ starts_with k (as_slice prefix) = true) as Hin.
  { rewrite list_elem_of_fmap. split.
    - intros ([k' v'] & -> & H). apply Hp in H as [H ?]. simpl. rewrite H. eauto.
    - intros [[v Hv] Hs]. exists (k, v). split; [done|]. by apply Hp. }
  destruct (bool_decide _) eqn:Hd; [apply bool_decide_eq_true in Hd as [-> Hs] | apply bool_decide_eq_false in Hd].
  - destruct (contents db !! (col, k)) as [v|] eqn:Hk; [apply Hdel; split; [done|]; apply Hin; eauto|].
    apply Hkeep. rewrite Hin. intros [_ [[v Hv] _]]. done.
  - apply Hkeep. intros [-> H]. apply Hd. split; [done|]. by apply Hin.
Qed.

(** An insertion or removal through a batch returns the stored value, leaves
    the store as it is and, once the batch is written, has the effect of the
    direct operation. *)
Theorem batched_ops_deferred db key value batch db1 batch1 old db2 :
  BonsaiDb.insert mapping db key value (Some batch) = Ok (db1, batch1, old) →
  db1 = db ∧ old = contents db !! (DatabaseKeyMapping_map mapping key, as_slice key) ∧
  ∃ b, batch1 = Some b ∧
    (BonsaiDb.write_batch db b = Ok db2 →
     contents db2 = <[(DatabaseKeyMapping_map mapping key, as_slice key) := value]>
                      (apply_batch (contents db) batch)).
Proof.
  unfold BonsaiDb.insert. set (col := DatabaseKeyMapping_map mapping key).
  pose proof (get_cf_ok db col (as_slice key)) as Hg.
  destruct (get_cf _ _ _) as [v| |]; [|discriminate..]. simpl. intros [= <- <- <-].
  split_and!; [done|done|]. eexists. split; [done|]. unfold BonsaiDb.write_batch.
  pose proof (write_ok db (batch ++ [BPut col (as_slice key) value])) as Hw.
  destruct (write _ _); [|discriminate..]. intros [= ->]. rewrite Hw.
  unfold apply_batch. by rewrite foldl_app.
Qed.

End Properties.

(** ** Atomicity of transactions *)

(** The last operation of a batch on a key. *)
Definition last_write (ops : list BatchOp) (ck : Column * bytes) : option (option bytes) :=
  foldl (λ acc op, match op with
                   | BPut c k v => if decide ((c, k) = ck) then Some (Some v) else acc
                   | BDelete c k => if decide ((c, k) = ck) then Some None else acc
                   end) None ops.

Lemma apply_batch_lookup m ops ck :
  apply_batch m ops !! ck = match last_write ops ck with Some v => v | None => m !! ck end.
Proof.
  induction ops as [|op ops IH] using rev_ind; [done|].
  unfold last_write in *. rewrite apply_batch_app, foldl_app. destruct op as [c k v|c k]; simpl; case_decide; subst.
  - apply lookup_insert_eq.
  - by rewrite lookup_insert_ne.
  - apply lookup_delete_eq.
  - by rewrite lookup_delete_ne.
Qed.

(** Writing a batch twice is writing it once. *)
Lemma apply_batch_replay m ops : apply_batch (apply_batch m ops) ops = apply_batch m ops.
Proof. apply map_eq. intros ck. rewrite !apply_batch_lookup. by destruct (last_write ops ck). Qed.

(** What the trie library does with its store. *)
Inductive TrieOp := T_Insert (key : DatabaseKey) (value : bytes) | T_Remove (key : DatabaseKey)
                  | T_RemovePrefix (prefix : DatabaseKey) | T_Write (batch : list BatchOp).

Section Atomicity.
Context {E S T : Type} `{kv : KvStore E S} {Hkv : KvStoreSpec kv} `{rt : RocksTransaction E S T}.
Context {Hrt : RocksTransactionSpec Hkv rt}.
Variable mapping : DatabaseKeyMapping.

Definition txn_step (t : T) (op : TrieOp) : Outcome (BonsaiDbError E) T :=
  match op with
  | T_Insert key value => '(t, _, _) ← BonsaiTransaction.insert mapping t key value None; Ok t
  | T_Remove key => '(t, _, _) ← BonsaiTransaction.remove mapping t key None; Ok t
  | T_RemovePrefix prefix => BonsaiTransaction.remove_by_prefix mapping t prefix
  | T_Write batch => BonsaiTransaction.write_batch t batch
  end.

(** Its effect on the entries of the database. *)
Definition effect (m : Contents) (op : TrieOp) : Contents :=
  match op with
  | T_Insert key value => <[(DatabaseKeyMapping_map mapping key, as_slice key) := value]> m
  | T_Remove key => delete (DatabaseKeyMapping_map mapping key, as_slice key) m
  | T_RemovePrefix prefix =>
      filter (λ e, ¬ (e.1.1 = DatabaseKeyMapping_map mapping prefix ∧ starts_with e.1.2 (as_slice prefix) = true)) m
  | T_Write batch => apply_batch m batch
  end.

Abbreviation seen t := (contents (KvStoreSpec := txn_spec (Hkv := Hkv)) t).

(** The iterations of the transaction report no error. *)
Definition iterators_ok : Prop := ∀ (t : T) c p e, Err e ∉ txn_iterator_cf t c p.

Lemma txn_step_effect t op t' : iterators_ok → txn_step t op = Ok t' →
  seen t' = effect (seen t) op ∧ txn_base t' = txn_base t.
Proof.
  intros Hit H. destruct op as [key value|key|prefix|batch]; cbn [txn_step effect] in *.
  - unfold BonsaiTransaction.insert, BonsaiDb.insert in H. ok_inv.
    pose proof (put_cf_ok (KvStoreSpec := txn_spec) t (DatabaseKeyMapping_map mapping key) (as_slice key) value) as Hp.
    cbn in Hp. destruct (txn_put_cf t _ _ value) eqn:Ht; [|done..]. simplify_eq/=. by apply txn_put_base in Ht.
  - unfold BonsaiTransaction.remove, BonsaiDb.remove in H. ok_inv.
    pose proof (delete_cf_ok (KvStoreSpec := txn_spec) t (DatabaseKeyMapping_map mapping key) (as_slice key)) as Hp.
    cbn in Hp. destruct (txn_delete_cf t _ _) eqn:Ht; [|done..]. simplify_eq/=. by apply txn_delete_base in Ht.
  - split.
    + apply map_eq. intros [c k]. unfold BonsaiTransaction.remove_by_prefix in H.
      rewrite (remove_by_prefix_exact (kv := txn_store) (Hkv := txn_spec) mapping _ t prefix t') by
        (apply Hit || exact H || (unfold BonsaiTransaction.create_batch; rewrite txn_contents; apply apply_batch_replay)).
      rewrite map_lookup_filter. case_bool_decide as Hd; destruct (seen t !! (c, k)) as [v|] eqn:Hv; cbn; try done.
      * by rewrite option_guard_False by (cbn; tauto).
      * by rewrite option_guard_True by done.
    + unfold BonsaiTransaction.remove_by_prefix, BonsaiDb.remove_by_prefix, BonsaiDb.write_batch in H. cbn in H.
      destruct (rebuild_from_writebatch t _) eqn:Ht; simplify_eq/=. by apply txn_rebuild_base in Ht.
  - unfold BonsaiTransaction.write_batch, BonsaiDb.write_batch in H. cbn in H.
    pose proof (write_ok (KvStoreSpec := txn_spec) t batch) as Hp. cbn in Hp.
    destruct (rebuild_from_writebatch t batch) eqn:Ht; simplify_eq/=. by apply txn_rebuild_base in Ht.
Qed.

Lemma txn_steps_effect ops : ∀ t t', iterators_ok → foldM txn_step t ops = Ok t' →
  seen t' = foldl effect (seen t) ops ∧ txn_base t' = txn_base t.
Proof.
  induction ops as [|op ops IH]; intros t t' Hit H; cbn [foldM foldl] in *; [by injection H as <-|].
  destruct (txn_step t op) as [t1| |] eqn:H1; [|done..]. apply txn_step_effect in H1 as [<- <-]; [|done]. by apply IH.
Qed.

(** Transactions of the trie store are atomic and lose nothing: whatever insertions,
    removals, removals by prefix and batches the trie library makes in one, it sees the
    effect of all of them on the database the transaction was opened on, the database
    itself stays as it was, and merging the transaction into it has the same effect, all
    at once.  This holds although [remove_by_prefix] starts from the pending batch and so
    writes every pending operation again. *)
Theorem transaction_atomic (self : SnapshotDb S) id t ops t' self' :
  iterators_ok → transaction self id = Some t → foldM txn_step t ops = Ok t' → merge self t' = Ok self' →
  is_Some (snapshots self !! id) ∧ snapshots self' = snapshots self ∧
  seen t' = foldl effect (contents (sdb self)) ops ∧ contents (sdb self') = foldl effect (contents (sdb self)) ops.
Proof.
  intros Hit Ht Hs Hm. unfold transaction in Ht. destruct (snapshots self !! id); [|done]. injection Ht as <-.
  destruct (txn_opened (sdb self)) as [Hb Hw]. apply txn_steps_effect in Hs as [Hseen Hbase]; [|done].
  rewrite (txn_contents (transaction_opt _)), Hw, Hb in Hseen. cbn [apply_batch foldl] in Hseen.
  unfold merge in Hm. destruct (txn_commit (sdb self) t') as [db| |] eqn:Hc; [|done..]. cbn in Hm. injection Hm as <-.
  cbn [sdb snapshots]. apply txn_commit_ok in Hc. split_and!; [done|done|done|].
  by rewrite Hc, <- Hseen, txn_contents, Hbase, Hb.
Qed.

End Atomicity.

(** ** Witnesses *)

Definition example_contents : Contents :=
  <[(BonsaiContractsTrie, [1; 2]) := [9]]> (<[(BonsaiContractsTrie, [1; 7; 3]) := [8]]>
    (<[(BonsaiContractsTrie, [2]) := [5]]> ∅)).

Lemma get_by_prefix_complete_witness :
  ([1; 2], [9]) ∈ [([1; 2], [9]); ([1; 7; 3], [8])].
Proof.
  refine (proj2 (get_by_prefix_complete (kv := kv_model) (Hkv := kv_model_spec) contracts_mapping
            example_contents (Trie [1]) _ _ _ [1; 2] [9]) _).
  - intros [].
  - vm_compute. reflexivity.
  - by vm_compute.
Defined.

(** Transactions over the store of maps: the map they were opened on and their batch. *)
Definition txn_model : RocksTransaction Empty_set Contents (Contents * list BatchOp) := {|
  transaction_opt s := (s, []);
  txn_get_cf t c k := get_cf (KvStore := kv_model) (apply_batch t.1 t.2) c k;
  txn_put_cf t c k v := Ok (t.1, t.2 ++ [BPut c k v]);
  txn_delete_cf t c k := Ok (t.1, t.2 ++ [BDelete c k]);
  txn_iterator_cf t c p := iterator_cf (KvStore := kv_model) (apply_batch t.1 t.2) c p;
  get_writebatch t := t.2;
  rebuild_from_writebatch t ops := Ok (t.1, t.2 ++ ops);
  txn_commit s t := Ok (apply_batch s t.2);
|}.

Definition txn_model_store : KvStoreSpec (txn_store (H := txn_model)).
Proof.
  refine {| contents (t : Contents * list BatchOp) := apply_batch t.1 t.2 |}.
  - intros s c k. exact (get_cf_ok (KvStoreSpec := kv_model_spec) (apply_batch s.1 s.2) c k).
  - intros s c k v. cbn. apply apply_batch_app.
  - intros s c k. cbn. apply apply_batch_app.
  - intros s ops. cbn. apply apply_batch_app.
  - intros s c k. exact (iterator_cf_ok (KvStoreSpec := kv_model_spec) (apply_batch s.1 s.2) c k).
Defined.

Definition txn_model_spec : RocksTransactionSpec kv_model_spec txn_model.
Proof.
  refine {| txn_spec := txn_model_store; txn_base (t : Contents * list BatchOp) := t.1 |}; try done.
  - by intros ? ? ? ? ? [= <-].
  - by intros ? ? ? ? [= <-].
  - by intros ? ? ? [= <-].
  - by intros ? ? ? [= <-].
Defined.

(** An insertion, then the removal of everything under its prefix. *)
Lemma transaction_atomic_witness : ∃ self',
  merge (H := txn_model) {| sdb := example_contents; snapshots := {[3 := example_contents]} |}
    (example_contents, [BPut BonsaiContractsTrie [1; 5] [4]] ++
       [BPut BonsaiContractsTrie [1; 5] [4]; BDelete BonsaiContractsTrie [1; 2]; BDelete BonsaiContractsTrie [1; 5];
        BDelete BonsaiContractsTrie [1; 7; 3]]) = Ok self' ∧
  sdb self' !! (BonsaiContractsTrie, [1; 5]) = None ∧ sdb self' !! (BonsaiContractsTrie, [2]) = Some [5].
Proof.
  eexists. split; [reflexivity|].
  destruct (transaction_atomic (kv := kv_model) (Hkv := kv_model_spec) (rt := txn_model) (Hrt := txn_model_spec)
    contracts_mapping {| sdb := example_contents; snapshots := {[3 := example_contents]} |} 3 (example_contents, [])
    [T_Insert (Trie [1; 5]) [4]; T_RemovePrefix (Trie [1])] _ _ ltac:(intros ? ? ? []) eq_refl eq_refl eq_refl)
    as (_ & _ & _ & H).
  cbn in H. cbn [sdb]. split; vm_compute; reflexivity.
Defined.

Lemma remove_by_prefix_exact_witness :
  ∃ db', BonsaiDb.remove_by_prefix (kv := kv_model) contracts_mapping (λ _, []) example_contents (Trie [1])
         = Ok db'
       ∧ db' !! (BonsaiContractsTrie, [1; 2]) = None.
Proof.
  eexists. split; [reflexivity|].
  refine (remove_by_prefix_exact (kv := kv_model) (Hkv := kv_model_spec) contracts_mapping (λ _, [])
            example_contents (Trie [1]) _ _ _ _ BonsaiContractsTrie [1; 2]).
  - intros [].
  - reflexivity.
  - reflexivity.
Defined.

Lemma batched_ops_deferred_witness :
  ∃ old, BonsaiDb.insert (kv := kv_model) contracts_mapping example_contents (Trie [2]) [6] (Some [])
         = Ok (example_contents, Some [BPut BonsaiContractsTrie [2] [6]], old) ∧ old = Some [5].
Proof.
  eexists. split; [reflexivity|].
  refine (proj1 (proj2 (batched_ops_deferred (kv := kv_model) (Hkv := kv_model_spec) contracts_mapping
            example_contents (Trie [2]) [6] [] _ _ _ ∅ _))). reflexivity.
Defined.
