(* ===== verification/Tries.v ===== *)
(** * Tries: the storage handlers ([client/db/src/storage.rs])

    The node keeps three persistent tries in the bonsai-trie library: contract
    leaves, contract storage (one tree per contract) and classes.  The library
    is the class [BonsaiTrie]; its documented behaviour is [BonsaiTrieSpec]: a
    map per tree, where writing zero removes a key, and a root that reflects the
    last commit.  The handlers write through to the backend's tries: the
    transactional state they are created from is only checked to exist, and
    [apply_changes] does nothing. *)

From S2P Require Import Prelude Felt Blocks.

(** Tree keys: bit strings. *)
Abbreviation bits := (list bool).

(** [as_bits::<Msb0>()] *)
Definition byte_bits (b : Z) : bits :=
  [Z.testbit b 7; Z.testbit b 6; Z.testbit b 5; Z.testbit b 4;
   Z.testbit b 3; Z.testbit b 2; Z.testbit b 1; Z.testbit b 0].
Definition as_bits (bs : bytes) : bits := concat (map byte_bits bs).

Class BonsaiTrie (B : Type) := {
  bonsai_init_tree : B → bytes → Outcome unit B;
  bonsai_insert : B → bytes → bits → Z → Outcome unit B;
  bonsai_commit : B → Z → Outcome unit B;
  bonsai_root_hash : B → bytes → Outcome unit Z;
  bonsai_get : B → bytes → bits → Outcome unit (option Z);
  bonsai_get_key_value_pairs : B → bytes → Outcome unit (list (bytes * bytes));
  bonsai_get_latest_id : B → option Z;
  (* whether a transactional state exists for an identifier *)
  bonsai_get_transactional_state : B → Z → Outcome unit (option unit);
}.

(** The contents of the trees: an update with zero removes the key. *)
Definition trie_set (k : bits) (v : Z) (m : gmap bits Z) : gmap bits Z :=
  if v =? 0 then delete k m else <[k := v]> m.
Definition trie_val (v : Z) : option Z := if v =? 0 then None else Some v.

Class BonsaiTrieSpec {B} (bt : BonsaiTrie B) := {
  trie_root : gmap bits Z → Z;
  tree : B → bytes → gmap bits Z;        (* current contents *)
  committed : B → bytes → gmap bits Z;   (* contents at the last commit *)
  init_tree_ok b id b' : bonsai_init_tree b id = Ok b' → ∀ i, tree b' i = tree b i ∧ committed b' i = committed b i;
  insert_ok b id k v b' : bonsai_insert b id k v = Ok b' →
    (∀ i, tree b' i = if decide (i = id) then trie_set k v (tree b i) else tree b i)
    ∧ ∀ i, committed b' i = committed b i;
  commit_ok b n b' : bonsai_commit b n = Ok b' → ∀ i, tree b' i = tree b i ∧ committed b' i = tree b i;
  root_hash_ok b id r : bonsai_root_hash b id = Ok r → r = trie_root (committed b id);
  trie_get_ok b id k v : bonsai_get b id k = Ok v → v = tree b id !! k;
  no_panic b id k v n : bonsai_init_tree b id ≠ Panic ∧ bonsai_insert b id k v ≠ Panic
    ∧ bonsai_commit b n ≠ Panic ∧ bonsai_root_hash b id ≠ Panic ∧ bonsai_get b id k ≠ Panic;
}.

(** The root of a tree at its last commit, and of its current contents. *)
Definition committed_root {B} {bt : BonsaiTrie B} {spec : BonsaiTrieSpec bt} (b : B) (id : bytes) : Z :=
  trie_root (committed b id).
Definition tree_root {B} {bt : BonsaiTrie B} {spec : BonsaiTrieSpec bt} (b : B) (id : bytes) : Z :=
  trie_root (tree b id).

(** ** Errors *)

Inductive StorageType := StorageType_Contract | StorageType_ContractStorage | StorageType_Class.

Inductive DeoxysStorageError :=
| StoraveViewError (t : StorageType)
| StorageInsertionError (t : StorageType)
| StorageRetrievalError (t : StorageType)
| TrieInitError (t : StorageType)
| TrieRootError (t : StorageType)
| TrieCommitError (t : StorageType)
| TrieMergeError (t : StorageType)
| TrieIdError (t : StorageType).

Module bonsai_identifier.
Definition CONTRACT : bytes := bytes_of_string "0xcontract".
Definition CLASS : bytes := bytes_of_string "0xclass".
Definition TRANSACTION : bytes := bytes_of_string "0xtransaction".
Definition EVENT : bytes := bytes_of_string "0xevent".
End bonsai_identifier.

(** ** Key conversions: 32 big-endian bytes, without the 5 most significant bits *)

Definition felt_bytes (x : Z) : bytes := be_encode 32 x.
Definition conv_contract_identifier (identifier : Z) : bytes := felt_bytes identifier.
Definition conv_contract_key (key : Z) : bits := drop 5 (as_bits (felt_bytes key)).
Definition conv_contract_storage_key (key : Z) : bits := drop 5 (as_bits (felt_bytes key)).
Definition conv_contract_value (value : Z) : Z := value.
Definition conv_class_key (key : Z) : bits := drop 5 (as_bits (felt_bytes key)).

(** ** The handlers

    [BP] is the type of Pedersen tries (contracts and their storage), [BC] that
    of Poseidon tries (classes). *)

Record Tries (BP BC : Type) := {
  t_contract : BP;
  t_storage : BP;
  t_class : BC;
}.
Arguments t_contract {BP BC}. Arguments t_storage {BP BC}. Arguments t_class {BP BC}.

Section Handlers.
Context {BP BC : Type} `{btp : BonsaiTrie BP} `{btc : BonsaiTrie BC}.
Abbreviation St := (Tries BP BC).
Abbreviation M := (Outcome DeoxysStorageError).

Definition with_contract (t : St) (b : BP) : St :=
  {| t_contract := b; t_storage := t_storage t; t_class := t_class t |}.
Definition with_storage (t : St) (b : BP) : St :=
  {| t_contract := t_contract t; t_storage := b; t_class := t_class t |}.
Definition with_class (t : St) (b : BC) : St :=
  {| t_contract := t_contract t; t_storage := t_storage t; t_class := b |}.

Definition conv_block_id {B} `{BonsaiTrie B} (bonsai : B) (block_id : BlockId) (storage_type : StorageType)
    : M Z :=
  match block_id with
  | BlockId_Number block_number => Ok block_number
  | _ => match bonsai_get_latest_id bonsai with
         | Some id => Ok id
         | None => Err (TrieIdError storage_type)
         end
  end.

(** The three [*_mut] constructors. *)
Definition handler_mut {B} `{BonsaiTrie B} (bonsai : B) (block_id : BlockId) (storage_type : StorageType)
    : M unit :=
  bonsai_id ← conv_block_id bonsai block_id storage_type;
  match bonsai_get_transactional_state bonsai bonsai_id with
  | Ok (Some _) => Ok tt
  | Panic => Panic
  | _ => Err (StoraveViewError storage_type)
  end.

Definition contract_mut (t : St) (block_id : BlockId) : M unit :=
  handler_mut (t_contract t) block_id StorageType_Contract.
Definition contract_storage_mut (t : St) (block_id : BlockId) : M unit :=
  handler_mut (t_storage t) block_id StorageType_ContractStorage.
Definition class_mut (t : St) (block_id : BlockId) : M unit :=
  handler_mut (t_class t) block_id StorageType_Class.

(** The three read-only views: the trie behind its lock, which a panic of a writer
    poisons. *)
Definition handler_view {B} (poisoned : bool) (bonsai : B) (storage_type : StorageType) : M B :=
  if poisoned then Err (StoraveViewError storage_type) else Ok bonsai.

Definition contract (poisoned : bool) (t : St) : M BP := handler_view poisoned (t_contract t) StorageType_Contract.
Definition contract_storage (poisoned : bool) (t : St) : M BP :=
  handler_view poisoned (t_storage t) StorageType_ContractStorage.
Definition class (poisoned : bool) (t : St) : M BC := handler_view poisoned (t_class t) StorageType_Class.

(** [ContractTrieMut] *)
Definition ContractTrieMut_update (t : St) (updates : list (Z * Z)) : M St :=
  foldM (λ t '(key, value),
    with_contract t <$> map_err (λ _, StorageInsertionError StorageType_Contract)
      (bonsai_insert (t_contract t) bonsai_identifier.CONTRACT (conv_contract_key key) value)) t updates.
Definition ContractTrieMut_commit (t : St) (block_number : Z) : M St :=
  with_contract t <$> map_err (λ _, TrieCommitError StorageType_Contract)
                        (bonsai_commit (t_contract t) block_number).
Definition ContractTrieMut_init (t : St) : M St :=
  with_contract t <$> map_err (λ _, TrieInitError StorageType_Contract)
                        (bonsai_init_tree (t_contract t) bonsai_identifier.CONTRACT).
Definition ContractTrieMut_apply_changes (t : St) : M St := Ok t.
Definition ContractTrie_get (t : St) (key : Z) : M (option Z) :=
  map_err (λ _, StorageRetrievalError StorageType_Contract)
    (bonsai_get (t_contract t) bonsai_identifier.CONTRACT (conv_contract_key key)).
Definition ContractTrieView_get (b : BP) (key : Z) : M (option Z) :=
  map_err (λ _, StorageRetrievalError StorageType_Contract)
    (bonsai_get b bonsai_identifier.CONTRACT (conv_contract_key key)).
Definition ContractTrieView_root (t : St) : M Z :=
  map_err (λ _, TrieRootError StorageType_Contract)
    (bonsai_root_hash (t_contract t) bonsai_identifier.CONTRACT).

(** [ContractStorageTrieMut] *)
Definition ContractStorageTrieMut_insert (t : St) (identifier key value : Z) : M St :=
  with_storage t <$> map_err (λ _, StorageInsertionError StorageType_ContractStorage)
    (bonsai_insert (t_storage t) (conv_contract_identifier identifier) (conv_contract_storage_key key)
       (conv_contract_value value)).
Definition ContractStorageTrieMut_commit (t : St) (block_number : Z) : M St :=
  with_storage t <$> map_err (λ _, TrieCommitError StorageType_ContractStorage)
                       (bonsai_commit (t_storage t) block_number).
Definition ContractStorageTrieMut_init (t : St) (identifier : Z) : M St :=
  with_storage t <$> map_err (λ _, TrieInitError StorageType_ContractStorage)
                       (bonsai_init_tree (t_storage t) (conv_contract_identifier identifier)).
Definition ContractStorageTrieMut_apply_changes (t : St) : M St := Ok t.
Definition ContractStorageTrie_get (t : St) (identifier key : Z) : M (option Z) :=
  map_err (λ _, StorageRetrievalError StorageType_ContractStorage)
    (bonsai_get (t_storage t) (conv_contract_identifier identifier) (conv_contract_storage_key key)).
Definition ContractStorageTrie_get_storage (from_bytes_be_slice : bytes → Z) (t : St) (identifier : Z)
    : M (list (Z * Z)) :=
  pairs ← map_err (λ _, StorageRetrievalError StorageType_ContractStorage)
            (bonsai_get_key_value_pairs (t_storage t) (conv_contract_identifier identifier));
  Ok (map (λ '(k, v), (from_bytes_be_slice k, from_bytes_be_slice v)) pairs).
Definition ContractStorageTrieView_get (b : BP) (identifier key : Z) : M (option Z) :=
  map_err (λ _, StorageRetrievalError StorageType_ContractStorage)
    (bonsai_get b (conv_contract_identifier identifier) (conv_contract_storage_key key)).
Definition ContractStorageTrieView_get_storage (from_bytes_be_slice : bytes → Z) (b : BP) (identifier : Z)
    : M (list (Z * Z)) :=
  pairs ← map_err (λ _, StorageRetrievalError StorageType_ContractStorage)
            (bonsai_get_key_value_pairs b (conv_contract_identifier identifier));
  Ok (map (λ '(k, v), (from_bytes_be_slice k, from_bytes_be_slice v)) pairs).
Definition ContractStorageTrieView_root (t : St) (identifier : Z) : M Z :=
  map_err (λ _, TrieRootError StorageType_ContractStorage)
    (bonsai_root_hash (t_storage t) (conv_contract_identifier identifier)).

(** [ClassTrieMut] *)
Definition ClassTrieMut_update (t : St) (updates : list (Z * Z)) : M St :=
  foldM (λ t '(key, value),
    with_class t <$> map_err (λ _, StorageInsertionError StorageType_Class)
      (bonsai_insert (t_class t) bonsai_identifier.CLASS (conv_class_key key) value)) t updates.
Definition ClassTrieMut_commit (t : St) (block_number : Z) : M St :=
  with_class t <$> map_err (λ _, TrieCommitError StorageType_Class) (bonsai_commit (t_class t) block_number).
Definition ClassTrieMut_init (t : St) : M St :=
  with_class t <$> map_err (λ _, TrieInitError StorageType_Class)
                     (bonsai_init_tree (t_class t) bonsai_identifier.CLASS).
Definition ClassTrieMut_apply_changes (t : St) : M St := Ok t.
Definition ClassTrie_get (t : St) (key : Z) : M (option Z) :=
  map_err (λ _, StorageRetrievalError StorageType_Class)
    (bonsai_get (t_class t) bonsai_identifier.CLASS (conv_class_key key)).
Definition ClassTrieView_get (b : BC) (key : Z) : M (option Z) :=
  map_err (λ _, StorageRetrievalError StorageType_Class) (bonsai_get b bonsai_identifier.CLASS (conv_class_key key)).
Definition ClassTrieView_root (t : St) : M Z :=
  map_err (λ _, TrieRootError StorageType_Class) (bonsai_root_hash (t_class t) bonsai_identifier.CLASS).

End Handlers.

(** ** Keys *)

Lemma as_bits_length bs : length (as_bits bs) = (8 * length bs)%nat.
Proof.
  unfold as_bits. induction bs as [|b bs IH]; [done|]. simpl map. simpl concat.
  rewrite !length_cons, IH. lia.
Qed.

(** The value of a big-endian bit string. *)
Definition bits_val (bs : bits) : Z := foldl (λ acc (b : bool), 2 * acc + Z.b2z b) 0 bs.

Lemma bits_val_app l1 l2 :
  bits_val (l1 ++ l2) = bits_val l1 * 2 ^ Z.of_nat (length l2) + bits_val l2.
Proof.
  induction l2 as [|b l2 IH] using rev_ind.
  - rewrite app_nil_r. simpl. change (bits_val []) with 0. lia.
  - assert (∀ l, bits_val (l ++ [b]) = 2 * bits_val l + Z.b2z b) as Hs
      by (intros l; unfold bits_val; by rewrite foldl_app).
    rewrite app_assoc, !Hs, IH, length_app, Nat2Z.inj_add. change (Z.of_nat (length [b])) with 1.
    rewrite Z.pow_add_r, Z.pow_1_r by lia. ring.
Qed.

Lemma bits_val_nonneg l : 0 ≤ bits_val l.
Proof.
  induction l as [|b l IH] using rev_ind; [done|]. rewrite bits_val_app. simpl length.
  assert (0 ≤ bits_val [b]) by by destruct b. lia.
Qed.

Lemma byte_bits_val b : is_byte b → bits_val (byte_bits b) = b.
Proof.
  intros Hb.
  assert (forallb (λ x, bits_val (byte_bits x) =? x) (seqZ 0 256) = true) as H by by vm_compute.
  rewrite List.forallb_forall in H. apply Z.eqb_eq, H, list_elem_of_In, elem_of_seqZ.
  unfold is_byte in Hb. lia.
Qed.

Lemma as_bits_val bs : all_bytes bs → bits_val (as_bits bs) = be_decode bs.
Proof.
  induction 1 as [|b bs Hb Hbs IH]; [done|].
  change (as_bits (b :: bs)) with (byte_bits b ++ as_bits bs).
  rewrite bits_val_app, byte_bits_val, IH, as_bits_length, be_decode_cons by done.
  rewrite Nat2Z.inj_mul, Z.pow_mul_r by lia. done.
Qed.

Lemma conv_key_val x : 0 ≤ x < 2 ^ 251 → bits_val (drop 5 (as_bits (felt_bytes x))) = x.
Proof.
  intros Hx. pose proof (as_bits_val (felt_bytes x) (be_encode_bytes _ _)) as Hv.
  unfold felt_bytes in Hv at 2. rewrite be_decode_encode in Hv
    by (change (256 ^ Z.of_nat 32) with (2 ^ 256); lia).
  rewrite <-(take_drop 5 (as_bits (felt_bytes x))), bits_val_app in Hv.
  rewrite length_drop, as_bits_length in Hv. unfold felt_bytes in Hv at 2. rewrite be_encode_length in Hv.
  change (Z.of_nat (8 * 32 - 5)) with 251 in Hv.
  pose proof (bits_val_nonneg (take 5 (as_bits (felt_bytes x)))).
  pose proof (bits_val_nonneg (drop 5 (as_bits (felt_bytes x)))).
  assert (bits_val (take 5 (as_bits (felt_bytes x))) = 0) by nia. lia.
Qed.

(** The 251-bit trie keys identify their contract, storage slot or class:
    two values below 2^251, the range of Patricia keys, never share a key, and
    trees of different contracts never share an identifier; the five dropped
    bits do collide outside that range. *)
Theorem trie_keys_injective x y :
  0 ≤ x < 2 ^ 251 → 0 ≤ y < 2 ^ 251 →
  (conv_contract_key x = conv_contract_key y ↔ x = y) ∧
  (conv_contract_storage_key x = conv_contract_storage_key y ↔ x = y) ∧
  (conv_class_key x = conv_class_key y ↔ x = y) ∧
  (conv_contract_identifier x = conv_contract_identifier y ↔ x = y) ∧
  length (conv_contract_key x) = 251%nat ∧
  conv_contract_key (2 ^ 251 + 1) = conv_contract_key 1.
Proof.
  intros Hx Hy.
  assert (conv_contract_key x = conv_contract_key y ↔ x = y) as Hk.
  { split; [|by intros ->]. intros He. apply (f_equal bits_val) in He.
    unfold conv_contract_key in He. by rewrite !conv_key_val in He. }
  split_and!; try done.
  - split; [|by intros ->]. apply be_encode_inj; change (256 ^ Z.of_nat 32) with (2 ^ 256); lia.
Qed.

Lemma trie_keys_injective_witness : conv_contract_key 5 = conv_contract_key 5 ↔ 5 = 5.
Proof. exact (proj1 (trie_keys_injective 5 5 ltac:(lia) ltac:(lia))). Defined.

Lemma trie_set_lookup k v m : trie_set k v m !! k = trie_val v.
Proof. unfold trie_set, trie_val. destruct (v =? 0); [apply lookup_delete_eq | apply lookup_insert_eq]. Qed.

Lemma trie_set_lookup_ne k k' v m : k ≠ k' → trie_set k v m !! k' = m !! k'.
Proof.
  intros. unfold trie_set. destruct (v =? 0); [by apply lookup_delete_ne | by apply lookup_insert_ne].
Qed.

(** ** What a sequence of insertions leaves in a tree

    [written conv l m m'] : [m'] is [m] with the entries of [l] written, whatever
    the order of [l]. *)

Definition written (conv : Z → bits) (l : list (Z * Z)) (m m' : gmap bits Z) : Prop :=
  (∀ key v, (key, v) ∈ l → m' !! conv key = trie_val v) ∧
  (∀ k, (∀ key v, (key, v) ∈ l → conv key ≠ k) → m' !! k = m !! k).

#[global] Instance written_perm_proper conv :
  Proper ((≡ₚ) ==> (=) ==> (=) ==> iff) (written conv).
Proof.
  intros l1 l2 Hp m1 ? <- m2 ? <-. unfold written. by setoid_rewrite Hp.
Qed.

Lemma written_cons conv key v l m m' :
  key ∉ l.*1 → (∀ k, k ∈ l.*1 → conv k = conv key → k = key) →
  written conv l (trie_set (conv key) v m) m' → written conv ((key, v) :: l) m m'.
Proof.
  intros Hk Hinj [H1 H2]. split.
  - intros key' v' [[= -> ->]|Hin]%elem_of_cons; [|by apply H1].
    rewrite H2; [apply trie_set_lookup|]. intros key' v' Hin He.
    assert (key' ∈ l.*1) as Hin' by (apply list_elem_of_fmap; by exists (key', v')).
    by rewrite (Hinj key' Hin' He) in Hin'.
  - intros k Hk'. rewrite H2.
    + apply trie_set_lookup_ne, (Hk' key v), list_elem_of_here.
    + intros key' v' Hin. by apply (Hk' key' v'), list_elem_of_further.
Qed.

Definition patricia (x : Z) : Prop := 0 ≤ x < 2 ^ 251.
#[global] Instance patricia_dec x : Decision (patricia x).
Proof. unfold patricia. apply _. Defined.

Section InsertLoop.
Context {St B R E : Type} `{bt : BonsaiTrie B} {Hbt : BonsaiTrieSpec bt}.
Variables (get : St → B) (rest : St → R) (f : St → Z * Z → Outcome E St) (id : bytes) (conv : Z → bits).
Hypothesis Hf : ∀ t k v t', f t (k, v) = Ok t' →
  bonsai_insert (get t) id (conv k) v = Ok (get t') ∧ rest t' = rest t.

(** A loop of insertions into one tree through some handler. *)
Lemma insert_loop l t t' :
  NoDup l.*1 → (∀ k1 k2, k1 ∈ l.*1 → k2 ∈ l.*1 → conv k1 = conv k2 → k1 = k2) →
  foldM f t l = Ok t' →
  written conv l (tree (get t) id) (tree (get t') id)
  ∧ (∀ i, i ≠ id → tree (get t') i = tree (get t) i)
  ∧ (∀ i, committed (get t') i = committed (get t) i) ∧ rest t' = rest t.
Proof.
  revert t. induction l as [|[k v] l IH]; intros t Hnd Hinj; simpl.
  { intros [= <-]. split_and!; try done. split; [|done]. intros ? ? []%elem_of_nil. }
  destruct (f t (k, v)) as [t1| |] eqn:E1; [|discriminate..]. simpl. intros Hl.
  apply Hf in E1 as [Hi Hr]. apply insert_ok in Hi as [Ht Hc].
  apply NoDup_cons in Hnd as [Hk Hnd].
  destruct (IH t1) as (W & O & C & R1); [done| |done|].
  { intros. apply Hinj; [by apply list_elem_of_further..|done]. }
  split_and!.
  - apply written_cons; [done| |].
    + intros k' Hk'. apply Hinj; [by apply list_elem_of_further|apply list_elem_of_here].
    + rewrite Ht, decide_True in W by done. exact W.
  - intros i Hne. by rewrite O, Ht, decide_False.
  - intros i. by rewrite C, Hc.
  - by rewrite R1.
Qed.

End InsertLoop.

Lemma conv_key_inj (l : list (Z * Z)) :
  Forall (λ kv, patricia kv.1) l →
  ∀ k1 k2, k1 ∈ l.*1 → k2 ∈ l.*1 →
  drop 5 (as_bits (felt_bytes k1)) = drop 5 (as_bits (felt_bytes k2)) → k1 = k2.
Proof.
  intros Hl k1 k2 ([? ?] & -> & H1)%list_elem_of_fmap ([? ?] & -> & H2)%list_elem_of_fmap He.
  apply (f_equal bits_val) in He.
  pose proof (Forall_elem _ _ _ Hl H1). pose proof (Forall_elem _ _ _ Hl H2).
  by rewrite !conv_key_val in He.
Qed.

Section HandlerLemmas.
Context {BP BC : Type} `{btp : BonsaiTrie BP} `{btc : BonsaiTrie BC}.
Context {Hp : BonsaiTrieSpec btp} {Hc : BonsaiTrieSpec btc}.
Implicit Types t : Tries BP BC.

(** Runs the single trie operation a handler performs. *)
Ltac handler_inv H :=
  let E := fresh "E" in
  match type of H with _ <$> map_err _ ?op = Ok _ =>
    destruct op eqn:E; simpl in H; [injection H as <-|discriminate H..]
  end.

Lemma ContractTrieMut_update_ok t l t' :
  NoDup l.*1 → Forall (λ kv, patricia kv.1) l → ContractTrieMut_update t l = Ok t' →
  written conv_contract_key l (tree (t_contract t) bonsai_identifier.CONTRACT)
    (tree (t_contract t') bonsai_identifier.CONTRACT)
  ∧ t_storage t' = t_storage t ∧ t_class t' = t_class t.
Proof.
  intros Hnd Hpat Hu. unfold ContractTrieMut_update in Hu.
  eapply (insert_loop t_contract (λ t, (t_storage t, t_class t)) _ bonsai_identifier.CONTRACT
            conv_contract_key) in Hu as (W & _ & _ & [= H1 H2]); [done| |done|by apply conv_key_inj].
  intros t0 k v t1 H. handler_inv H. by split.
Qed.

Lemma ClassTrieMut_update_ok t l t' :
  NoDup l.*1 → Forall (λ kv, patricia kv.1) l → ClassTrieMut_update t l = Ok t' →
  written conv_class_key l (tree (t_class t) bonsai_identifier.CLASS)
    (tree (t_class t') bonsai_identifier.CLASS)
  ∧ t_storage t' = t_storage t ∧ t_contract t' = t_contract t.
Proof.
  intros Hnd Hpat Hu. unfold ClassTrieMut_update in Hu.
  eapply (insert_loop t_class (λ t, (t_storage t, t_contract t)) _ bonsai_identifier.CLASS
            conv_class_key) in Hu as (W & _ & _ & [= H1 H2]); [done| |done|by apply conv_key_inj].
  intros t0 k v t1 H. handler_inv H. by split.
Qed.

Lemma storage_inserts_ok t address l t' :
  NoDup l.*1 → Forall (λ kv, patricia kv.1) l →
  foldM (λ t '(key, value), ContractStorageTrieMut_insert t address key value) t l = Ok t' →
  written conv_contract_storage_key l (tree (t_storage t) (conv_contract_identifier address))
    (tree (t_storage t') (conv_contract_identifier address))
  ∧ (∀ i, i ≠ conv_contract_identifier address → tree (t_storage t') i = tree (t_storage t) i)
  ∧ t_contract t' = t_contract t ∧ t_class t' = t_class t.
Proof.
  intros Hnd Hpat Hu.
  eapply (insert_loop t_storage (λ t, (t_contract t, t_class t)) _ (conv_contract_identifier address)
            conv_contract_storage_key) in Hu as (W & O & _ & [= H1 H2]); [done| |done|by apply conv_key_inj].
  intros t0 k v t1 H. unfold ContractStorageTrieMut_insert in H. handler_inv H. by split.
Qed.

Lemma ContractTrieMut_init_ok t t' :
  ContractTrieMut_init t = Ok t' →
  (∀ i, tree (t_contract t') i = tree (t_contract t) i) ∧ t_storage t' = t_storage t ∧ t_class t' = t_class t.
Proof.
  unfold ContractTrieMut_init. intros H. handler_inv H. split_and!; try done. intros i. by eapply init_tree_ok.
Qed.

Lemma ClassTrieMut_init_ok t t' :
  ClassTrieMut_init t = Ok t' →
  (∀ i, tree (t_class t') i = tree (t_class t) i) ∧ t_storage t' = t_storage t ∧ t_contract t' = t_contract t.
Proof.
  unfold ClassTrieMut_init. intros H. handler_inv H. split_and!; try done. intros i. by eapply init_tree_ok.
Qed.

Lemma ContractStorageTrieMut_init_ok t a t' :
  ContractStorageTrieMut_init t a = Ok t' →
  (∀ i, tree (t_storage t') i = tree (t_storage t) i) ∧ t_contract t' = t_contract t ∧ t_class t' = t_class t.
Proof.
  unfold ContractStorageTrieMut_init. intros H. handler_inv H. split_and!; try done.
  intros i. by eapply init_tree_ok.
Qed.

Lemma ContractTrieMut_commit_ok t n t' :
  ContractTrieMut_commit t n = Ok t' →
  (∀ i, tree (t_contract t') i = tree (t_contract t) i ∧ committed (t_contract t') i = tree (t_contract t) i)
  ∧ t_storage t' = t_storage t ∧ t_class t' = t_class t.
Proof.
  unfold ContractTrieMut_commit. intros H. handler_inv H. split_and!; try done. intros i. by eapply commit_ok.
Qed.

Lemma ClassTrieMut_commit_ok t n t' :
  ClassTrieMut_commit t n = Ok t' →
  (∀ i, tree (t_class t') i = tree (t_class t) i ∧ committed (t_class t') i = tree (t_class t) i)
  ∧ t_storage t' = t_storage t ∧ t_contract t' = t_contract t.
Proof.
  unfold ClassTrieMut_commit. intros H. handler_inv H. split_and!; try done. intros i. by eapply commit_ok.
Qed.

Lemma ContractStorageTrieMut_commit_ok t n t' :
  ContractStorageTrieMut_commit t n = Ok t' →
  (∀ i, tree (t_storage t') i = tree (t_storage t) i ∧ committed (t_storage t') i = tree (t_storage t) i)
  ∧ t_contract t' = t_contract t ∧ t_class t' = t_class t.
Proof.
  unfold ContractStorageTrieMut_commit. intros H. handler_inv H. split_and!; try done.
  intros i. by eapply commit_ok.
Qed.

Lemma ContractTrieView_root_ok t r :
  ContractTrieView_root t = Ok r → r = committed_root (t_contract t) bonsai_identifier.CONTRACT.
Proof.
  unfold ContractTrieView_root. destruct (bonsai_root_hash _ _) eqn:E; [|discriminate..].
  intros [= ->]. by apply root_hash_ok.
Qed.

Lemma ClassTrieView_root_ok t r :
  ClassTrieView_root t = Ok r → r = committed_root (t_class t) bonsai_identifier.CLASS.
Proof.
  unfold ClassTrieView_root. destruct (bonsai_root_hash _ _) eqn:E; [|discriminate..].
  intros [= ->]. by apply root_hash_ok.
Qed.

Lemma ContractStorageTrieView_root_ok t a r :
  ContractStorageTrieView_root t a = Ok r →
  r = committed_root (t_storage t) (conv_contract_identifier a).
Proof.
  unfold ContractStorageTrieView_root. destruct (bonsai_root_hash _ _) eqn:E; [|discriminate..].
  intros [= ->]. by apply root_hash_ok.
Qed.

End HandlerLemmas.
