(* ===== verification/Commitments.v ===== *)
(** * Commitments: block commitments and the state root
    ([client/sync/src/commitments])

    Transaction and event commitments are roots of in-memory tries; the state
    root combines the roots of the persistent contract and class tries after
    the state difference of a block has been written to them.  Hash values and
    trie values are canonical integers, so the conversions between the three
    field-element types of the code are identities (their round trips are
    theorems of [Felt]).  Parallel collection ([par_bridge] of rayon) gives the
    results in no particular order: the class [ParBridge]. *)

From S2P Require Import Prelude Felt Hashers Transactions TxHash Blocks Tries.

(** [ParallelBridge::par_bridge().map(f).collect()]: the results, in some order. *)
Class ParBridge := par_collect : ∀ {A}, list A → list A.
Class ParBridgeSpec (pb : ParBridge) : Prop := par_collect_perm A (l : list A) : par_collect l ≡ₚ l.

(** ** Event and transaction hashes (events.rs, transactions.rs) *)

Section Hashes.
Context `{hasher : HasherT}.

Definition calculate_event_hash (event : Event) : Z :=
  let keys_hash := compute_hash_on_elements (ev_keys event) in
  let data_hash := compute_hash_on_elements (ev_data event) in
  compute_hash_on_elements [from_address event; keys_hash; data_hash].

Context `{libs : FeltLibs} `{crypto : StarknetCrypto} `{ca : ContractAddresses} `{acc : TxAccessors}.

Definition calculate_transaction_hash_with_signature (transaction : Transaction) (chain_id block_number : Z)
    : Outcome Empty_set Z :=
  let include_signature := 61394 <=? block_number in
  let signature_hash :=
    match transaction with
    | Tx_Invoke invoke_tx => compute_hash_on_elements (Invoke_signature invoke_tx)
    | Tx_Declare declare_tx =>
        if include_signature then compute_hash_on_elements (Declare_signature declare_tx)
        else compute_hash_on_elements []
    | Tx_DeployAccount deploy_account_tx =>
        if include_signature then compute_hash_on_elements (DeployAccount_signature deploy_account_tx)
        else compute_hash_on_elements []
    | Tx_L1Handler _ => compute_hash_on_elements []
    | _ => compute_hash_on_elements []
    end in
  hash ← compute_hash transaction chain_id false (Some block_number);
  Ok (hash_elements hash signature_hash).

End Hashes.

(** ** In-memory commitments *)

Section MemoryCommitments.
Context {B : Type} `{bt : BonsaiTrie B}.
(** [BonsaiStorage::new] over a fresh in-memory map. *)
Variable bonsai_new : Outcome unit B.

(** [BitVec::from_vec(i.to_be_bytes().to_vec())] for a [usize] index. *)
Definition index_key (i : nat) : bits := as_bits (be_encode 8 (Z.of_nat i)).

(** The insertion loop over [hashes.into_iter().enumerate()], then the commit. *)
Fixpoint insert_all (identifier : bytes) (b : B) (i : nat) (hashes : list Z) : Outcome unit B :=
  match hashes with
  | [] => Ok b
  | hash :: hashes =>
      b ← bonsai_insert b identifier (index_key i) hash;
      insert_all identifier b (S i) hashes
  end.

Definition commit_hashes (identifier : bytes) (hashes : list Z) : Outcome unit Z :=
  b ← bonsai_new;
  b ← insert_all identifier b 0 hashes;
  b ← bonsai_commit b 0;
  bonsai_root_hash b identifier.

Context `{libs : FeltLibs} `{crypto : StarknetCrypto} `{ca : ContractAddresses} `{acc : TxAccessors}.

(** Every [expect] of the two functions is a panic on a trie error. *)
Definition memory_event_commitment (events : list Event) : Outcome string Z :=
  if decide (events = []) then Ok Felt252Wrapper.ZERO else
  let events := map (calculate_event_hash (hasher := PedersenHasher)) events in
  unwrap (commit_hashes bonsai_identifier.EVENT events).

Definition memory_transaction_commitment (transactions : list Transaction) (chain_id block_number : Z)
    : Outcome string Z :=
  txs ← map_err (λ e : Empty_set, match e with end)
          (mapM (λ tx, calculate_transaction_hash_with_signature (hasher := PedersenHasher)
                         tx chain_id block_number) transactions);
  unwrap (commit_hashes bonsai_identifier.TRANSACTION txs).

Definition calculate_commitments (transactions : list Transaction) (events : list Event)
    (chain_id block_number : Z) : Outcome Empty_set (Z * Z) :=
  commitment_tx ← unwrap (memory_transaction_commitment transactions chain_id block_number);
  commitment_event ← unwrap (memory_event_commitment events);
  Ok (commitment_tx, commitment_event).

End MemoryCommitments.

(** ** The state root (lib.rs) *)

(** blockifier's [CommitmentStateDiff]. *)
Record CommitmentStateDiff := {
  address_to_class_hash : gmap Z Z;
  address_to_nonce : gmap Z Z;
  storage_updates : gmap Z (gmap Z Z);
  class_hash_to_compiled_class_hash : gmap Z Z;
}.

Definition build_commitment_state_diff (state_update_wrapper : StateUpdateWrapper) : CommitmentStateDiff :=
  let diff := su_state_diff state_update_wrapper in
  {| address_to_class_hash :=
       foldl (λ m deployed_contract,
                let address := dc_address deployed_contract in
                let class_hash := if address =? Felt252Wrapper.ONE then Felt252Wrapper.ZERO
                                  else dc_class_hash deployed_contract in
                <[address := class_hash]> m) ∅ (deployed_contracts diff);
     address_to_nonce :=
       foldl (λ m '(address, nonce), <[address := nonce]> m) ∅ (nonces diff);
     storage_updates :=
       foldl (λ m '(address, storage_diffs),
                <[address := foldl (λ sm storage_diff, <[sd_key storage_diff := sd_value storage_diff]> sm)
                               ∅ storage_diffs]> m) ∅ (storage_diffs diff);
     class_hash_to_compiled_class_hash :=
       foldl (λ m declared_class,
                <[decl_class_hash declared_class := decl_compiled_class_hash declared_class]> m)
         ∅ (declared_classes diff) |}.

Section StateRoot.
Context {BP BC : Type} `{btp : BonsaiTrie BP} `{btc : BonsaiTrie BC}.
Context `{libs : FeltLibs} `{crypto : StarknetCrypto} `{pb : ParBridge}.
(** [StorageOverride::contract_class_hash_by_address] of the pallet's storage. *)
Variable contract_class_hash_by_address : Z → Z → option Z.
Abbreviation St := (Tries BP BC).
Abbreviation M := (Outcome DeoxysStorageError).

Definition calculate_state_root `{hasher : HasherT} (contracts_trie_root classes_trie_root : Z)
    : Outcome Empty_set Z :=
  starknet_state_prefix ← unwrap (Felt252Wrapper.try_from_slice (bytes_of_string "STARKNET_STATE_V0"));
  if classes_trie_root =? Felt252Wrapper.ZERO then Ok contracts_trie_root
  else Ok (compute_hash_on_elements [starknet_state_prefix; contracts_trie_root; classes_trie_root]).

Definition class_hash (csd : CommitmentStateDiff) (contract_address : Z) (maybe_block_hash : option Z) : M Z :=
  match address_to_class_hash csd !! contract_address with
  | Some class_hash => Ok class_hash
  | None => match maybe_block_hash with
            | Some block_hash => unwrap_opt (contract_class_hash_by_address block_hash contract_address)
            | None => Panic (* unreachable! *)
            end
  end.

Definition contract_state_leaf_hash (csd : CommitmentStateDiff) (contract_address storage_root : Z)
    (maybe_block_hash : option Z) : M Z :=
  class_hash ← class_hash csd contract_address maybe_block_hash;
  let nonce := default 0 (address_to_nonce csd !! contract_address) in
  let contract_state_hash := pedersen_hash class_hash storage_root in
  let contract_state_hash := pedersen_hash contract_state_hash nonce in
  let contract_state_hash := pedersen_hash contract_state_hash Felt252Wrapper.ZERO in
  Ok contract_state_hash.

(** The loop over the storage updates: one tree per contract. *)
Definition insert_updates (t : St) (contract_address : Z) (updates : gmap Z Z) : M St :=
  t ← ContractStorageTrieMut_init t contract_address;
  foldM (λ t '(key, value), ContractStorageTrieMut_insert t contract_address key value)
    t (map_to_list updates).

(** [block_number + 1] on a [u64]. *)
Definition u64_succ (n : Z) : M Z := if n =? u64_max then Panic else Ok (n + 1).

Definition contract_trie_root (t : St) (csd : CommitmentStateDiff) (block_number : Z)
    (maybe_block_hash : option Z) : M (St * Z) :=
  _ ← contract_mut t (BlockId_Number block_number);
  _ ← contract_storage_mut t (BlockId_Number block_number);
  t ← ContractTrieMut_init t;
  t ← foldM (λ t '(contract_address, updates), insert_updates t contract_address updates)
        t (map_to_list (storage_updates csd));
  next ← u64_succ block_number;
  t ← ContractStorageTrieMut_commit t next;
  t ← ContractStorageTrieMut_apply_changes t;
  updates ← mapM (λ '(contract_address, _),
                    storage_root ← unwrap (ContractStorageTrieView_root t contract_address);
                    leaf_hash ← contract_state_leaf_hash csd contract_address storage_root maybe_block_hash;
                    Ok (contract_address, leaf_hash))
              (map_to_list (storage_updates csd));
  t ← ContractTrieMut_update t (par_collect updates);
  t ← ContractTrieMut_commit t next;
  t ← ContractTrieMut_apply_changes t;
  root ← ContractTrieView_root t;
  Ok (t, root).

Definition class_trie_root (t : St) (csd : CommitmentStateDiff) (block_number : Z) : M (St * Z) :=
  _ ← class_mut t (BlockId_Number block_number);
  version ← unwrap (FieldElement_from_byte_slice_be (bytes_of_string "CONTRACT_CLASS_LEAF_V0"));
  let updates := map (λ '(class_hash, compiled_class_hash),
                        (class_hash, poseidon_hash version compiled_class_hash))
                   (map_to_list (class_hash_to_compiled_class_hash csd)) in
  t ← ClassTrieMut_init t;
  t ← ClassTrieMut_update t (par_collect updates);
  next ← u64_succ block_number;
  t ← ClassTrieMut_commit t next;
  t ← ClassTrieMut_apply_changes t;
  root ← ClassTrieView_root t;
  Ok (t, root).

(** The two roots are computed on different tries, in parallel; every error is
    an [expect]ed one. *)
Definition update_state_root (t : St) (csd : CommitmentStateDiff) (block_number : Z)
    (substrate_block_hash : option Z) : Outcome Empty_set (St * Z) :=
  '(t, contract_trie_root) ← unwrap (contract_trie_root t csd block_number substrate_block_hash);
  '(t, class_trie_root) ← unwrap (class_trie_root t csd block_number);
  root ← calculate_state_root (hasher := PoseidonHasher) contract_trie_root class_trie_root;
  Ok (t, root).

End StateRoot.

(** ** Properties of the in-memory commitments *)

(** The contents of a commitment trie: entry [i] is the [i]-th hash. *)
Fixpoint indexed (i : nat) (hashes : list Z) (m : gmap bits Z) : gmap bits Z :=
  match hashes with
  | [] => m
  | hash :: hashes => indexed (S i) hashes (trie_set (index_key i) hash m)
  end.

Lemma index_key_inj i j :
  Z.of_nat i < 2 ^ 64 → Z.of_nat j < 2 ^ 64 → index_key i = index_key j → i = j.
Proof.
  intros Hi Hj He. apply (f_equal bits_val) in He. unfold index_key in He.
  rewrite !as_bits_val, !be_decode_encode in He by
    (apply be_encode_bytes || (change (256 ^ Z.of_nat 8) with (2 ^ 64); lia)). lia.
Qed.

Lemma indexed_lookup hashes i m j :
  Z.of_nat (i + length hashes) ≤ 2 ^ 64 → Z.of_nat j < 2 ^ 64 →
  indexed i hashes m !! index_key j =
    if decide (i ≤ j < i + length hashes)%nat then hashes !! (j - i)%nat ≫= trie_val
    else m !! index_key j.
Proof.
  revert i m. induction hashes as [|h hashes IH]; intros i m Hlen Hj; simpl in *.
  { rewrite decide_False by lia. done. }
  rewrite IH by lia. destruct (decide (j = i)) as [->|Hne].
  - rewrite decide_False, decide_True, Nat.sub_diag by lia. apply trie_set_lookup.
  - rewrite trie_set_lookup_ne by (intros He; apply index_key_inj in He; lia).
    destruct (decide (S i ≤ j < S i + length hashes)%nat).
    + rewrite decide_True by lia. by replace (j - i)%nat with (S (j - S i)) by lia.
    + rewrite decide_False by lia. done.
Qed.

Section MemoryProperties.
Context {B : Type} `{bt : BonsaiTrie B} {Hbt : BonsaiTrieSpec bt}.
Variable bonsai_new : Outcome unit B.
Hypothesis bonsai_new_ok : ∀ b i, bonsai_new = Ok b → tree b i = ∅.

Lemma insert_all_ok id b i hashes b' :
  insert_all id b i hashes = Ok b' → tree b' id = indexed i hashes (tree b id).
Proof.
  revert b i. induction hashes as [|h hashes IH]; intros b i; simpl.
  { by intros [= <-]. }
  destruct (bonsai_insert _ _ _ _) as [b1| |] eqn:E; [|discriminate..]. simpl.
  apply insert_ok in E as [Ht _]. intros ->%IH. by rewrite Ht, decide_True.
Qed.

Lemma commit_hashes_root id hashes r :
  commit_hashes bonsai_new id hashes = Ok r → r = trie_root (indexed 0 hashes ∅).
Proof.
  unfold commit_hashes. destruct bonsai_new as [b0| |] eqn:E0; [|discriminate..].
  cbn [mbind Outcome_bind].
  destruct (insert_all id b0 0 hashes) as [b1| |] eqn:E1; [|discriminate..]. cbn [mbind Outcome_bind].
  destruct (bonsai_commit b1 0) as [b2| |] eqn:E2; [|discriminate..]. cbn [mbind Outcome_bind].
  intros ->%root_hash_ok. apply commit_ok with (i := id) in E2 as [_ ->].
  apply insert_all_ok in E1 as ->. by rewrite (bonsai_new_ok b0).
Qed.

Context `{libs : FeltLibs} `{crypto : StarknetCrypto} `{ca : ContractAddresses} `{acc : TxAccessors}.

(** The transaction and event commitments of a block are the roots of the
    tries that hold, at index [i], the hash of the [i]-th transaction with its
    signature, respectively of the [i]-th event: no index overwrites another,
    and a block without events commits to zero. *)
Theorem commitments_are_roots txs evs chain_id n ctx cev :
  Z.of_nat (length txs) ≤ 2 ^ 64 → Z.of_nat (length evs) ≤ 2 ^ 64 →
  calculate_commitments bonsai_new txs evs chain_id n = Ok (ctx, cev) →
  ∃ hashes,
    Forall2 (λ tx h, calculate_transaction_hash_with_signature (hasher := PedersenHasher) tx chain_id n = Ok h)
      txs hashes ∧
    ctx = trie_root (indexed 0 hashes ∅) ∧
    (∀ j h, hashes !! j = Some h → indexed 0 hashes ∅ !! index_key j = trie_val h) ∧
    cev = (if decide (evs = []) then 0
           else trie_root (indexed 0 (map (calculate_event_hash (hasher := PedersenHasher)) evs) ∅)).
Proof.
  intros Htx Hev. unfold calculate_commitments, memory_transaction_commitment, memory_event_commitment.
  destruct (mapM _ txs) as [hashes|[]|] eqn:Hm; [|discriminate]. simpl.
  destruct (commit_hashes bonsai_new bonsai_identifier.TRANSACTION hashes) as [r| |] eqn:Hc; [|discriminate..].
  simpl. apply mapM_Ok_Forall2 in Hm. apply commit_hashes_root in Hc. intros H.
  exists hashes. split; [done|]. pose proof (Forall2_length _ _ _ Hm) as Hlen.
  assert (ctx = r ∧ cev = if decide (evs = []) then 0
           else trie_root (indexed 0 (map (calculate_event_hash (hasher := PedersenHasher)) evs) ∅)) as [-> ->].
  { destruct (decide (evs = [])); simpl in H; [by injection H|].
    destruct (commit_hashes _ bonsai_identifier.EVENT _) as [r'| |] eqn:Hc'; [|discriminate..].
    apply commit_hashes_root in Hc'. simpl in H. injection H as <- <-. done. }
  split_and!; try done. intros j h Hj. pose proof (lookup_lt_Some _ _ _ Hj).
  rewrite indexed_lookup, decide_True, Nat.sub_0_r, Hj by (simpl; lia). done.
Qed.




Context `{Hlibs : !FeltLibsSpec libs} `{Hca : !ContractAddressesSpec ca}.




End MemoryProperties.

(** ** Properties of the state root *)

(** Addresses, storage keys and class hashes are Patricia keys. *)
Definition wf_csd (csd : CommitmentStateDiff) : Prop :=
  map_Forall (λ a ups, patricia a ∧ map_Forall (λ k _, patricia k) ups) (storage_updates csd) ∧
  map_Forall (λ c _, patricia c) (class_hash_to_compiled_class_hash csd).

Lemma map_to_list_patricia (m : gmap Z Z) :
  (∀ k v, m !! k = Some v → patricia k) → Forall (λ kv, patricia kv.1) (map_to_list m).
Proof. intros H. apply Forall_forall. intros [k v] Hin%elem_of_map_to_list. by apply (H k v). Qed.

Lemma identifier_inj x y : patricia x → patricia y →
  conv_contract_identifier x = conv_contract_identifier y → x = y.
Proof.
  unfold patricia. intros Hx Hy. apply be_encode_inj; change (256 ^ Z.of_nat 32) with (2 ^ 256); lia.
Qed.

(** The leaves written to the class trie. *)
Definition class_leaves `{crypto : StarknetCrypto} (csd : CommitmentStateDiff) : list (Z * Z) :=
  map (λ '(class_hash, compiled_class_hash),
         (class_hash, poseidon_hash (be_decode (bytes_of_string "CONTRACT_CLASS_LEAF_V0")) compiled_class_hash))
    (map_to_list (class_hash_to_compiled_class_hash csd)).

Section StateRootProperties.
Context {BP BC : Type} `{btp : BonsaiTrie BP} `{btc : BonsaiTrie BC}.
Context {Hp : BonsaiTrieSpec btp} {Hc : BonsaiTrieSpec btc}.
Context `{Hlibs : !FeltLibsSpec libs} `{crypto : StarknetCrypto} `{Hpb : !ParBridgeSpec pb}.
Variable contract_class_hash_by_address : Z → Z → option Z.
Implicit Types t : Tries BP BC.
Abbreviation ident := conv_contract_identifier.

Lemma insert_updates_ok t a ups t' :
  (∀ k v, ups !! k = Some v → patricia k) → insert_updates t a ups = Ok t' →
  written conv_contract_storage_key (map_to_list ups) (tree (t_storage t) (ident a)) (tree (t_storage t') (ident a))
  ∧ (∀ i, i ≠ ident a → tree (t_storage t') i = tree (t_storage t) i)
  ∧ t_contract t' = t_contract t ∧ t_class t' = t_class t.
Proof.
  intros Hpat. unfold insert_updates.
  destruct (ContractStorageTrieMut_init t a) as [t1| |] eqn:E; [|discriminate..].
  cbn [mbind Outcome_bind]. apply ContractStorageTrieMut_init_ok in E as (Ht & Hco & Hcl).
  intros (W & O & C1 & C2)%storage_inserts_ok; [|apply NoDup_fst_map_to_list|by apply map_to_list_patricia].
  rewrite Ht in W. split_and!; [done| |congruence..]. intros i Hi. by rewrite O, Ht.
Qed.

Lemma storage_loop_ok l t t' :
  NoDup l.*1 → Forall (λ au, patricia au.1 ∧ ∀ k v, au.2 !! k = Some v → patricia k) l →
  foldM (λ t '(contract_address, updates), insert_updates t contract_address updates) t l = Ok t' →
  (∀ a ups, (a, ups) ∈ l → written conv_contract_storage_key (map_to_list ups)
     (tree (t_storage t) (ident a)) (tree (t_storage t') (ident a)))
  ∧ (∀ i, (∀ a ups, (a, ups) ∈ l → i ≠ ident a) → tree (t_storage t') i = tree (t_storage t) i)
  ∧ t_contract t' = t_contract t ∧ t_class t' = t_class t.
Proof.
  revert t. induction l as [|[a ups] l IH]; intros t Hnd Hpat; simpl.
  { intros [= <-]. split_and!; try done. intros ? ? []%elem_of_nil. }
  apply NoDup_cons in Hnd as [Ha Hnd]. apply Forall_cons in Hpat as [[Hpa Hpk] Hpat]. simpl in *.
  destruct (insert_updates t a ups) as [t1| |] eqn:E; [|discriminate..]. cbn [mbind Outcome_bind].
  apply insert_updates_ok in E as (W & O & C1 & C2); [|done].
  intros (IW & IO & IC1 & IC2)%IH; [|done..].
  assert (∀ a' ups', (a', ups') ∈ l → ident a' ≠ ident a) as Hne.
  { intros a' ups' Hin He. pose proof (Forall_elem _ _ _ Hpat Hin) as [Hpa' _].
    apply identifier_inj in He; [|done..]. subst a'. apply Ha, list_elem_of_fmap. by exists (a, ups'). }
  split_and!; [| |congruence..].
  - intros a' ups' [[= -> ->]|Hin]%elem_of_cons.
    + rewrite IO; [done|]. intros a' ups' Hin He. by eapply Hne.
    + rewrite <-(O (ident a')); [by apply IW|by eapply Hne].
  - intros i Hi. rewrite IO, O; [done| |].
    + eapply Hi, list_elem_of_here.
    + intros a' ups' Hin. by eapply Hi, list_elem_of_further.
Qed.

(** The leaf of a contract: its class (that of the difference, otherwise the one of the
    previous block), its storage root, and its nonce in the difference, which counts
    as 0 when the difference has none. *)
Definition leaf_for (csd : CommitmentStateDiff) (bh : option Z) (a storage_root leaf : Z) : Prop :=
  ∃ class, match address_to_class_hash csd !! a with
           | Some c => class = c
           | None => ∃ h, bh = Some h ∧ contract_class_hash_by_address h a = Some class
           end ∧
    leaf = pedersen_hash (pedersen_hash (pedersen_hash class storage_root)
             (match address_to_nonce csd !! a with Some nonce => nonce | None => 0 end)) 0.

Lemma leaf_hash_for csd bh a storage_root leaf :
  contract_state_leaf_hash contract_class_hash_by_address csd a storage_root bh = Ok leaf →
  leaf_for csd bh a storage_root leaf.
Proof.
  unfold contract_state_leaf_hash, class_hash, leaf_for. destruct (address_to_class_hash csd !! a) as [c|].
  - intros [= <-]. by exists c.
  - destruct bh as [h|]; [|discriminate]. destruct (contract_class_hash_by_address h a) as [c|] eqn:Hcls; [|discriminate].
    intros [= <-]. exists c. split; [by exists h|done].
Qed.

(** What writing a state difference leaves in the contract tries. *)
Definition contracts_updated (csd : CommitmentStateDiff) (bh : option Z) (t t' : Tries BP BC) : Prop :=
  (* the storage tree of every contract in the difference holds its updates *)
  (∀ a ups, storage_updates csd !! a = Some ups →
     written conv_contract_storage_key (map_to_list ups)
       (tree (t_storage t) (ident a)) (tree (t_storage t') (ident a))) ∧
  (* the other storage trees are unchanged *)
  (∀ i, (∀ a, is_Some (storage_updates csd !! a) → i ≠ ident a) →
     tree (t_storage t') i = tree (t_storage t) i) ∧
  (* the contract trie has, for each of those contracts, the leaf of its new storage root *)
  ∃ leaves, leaves.*1 ≡ₚ (map_to_list (storage_updates csd)).*1 ∧
    (∀ a leaf, (a, leaf) ∈ leaves → leaf_for csd bh a (tree_root (t_storage t') (ident a)) leaf) ∧
    written conv_contract_key leaves (tree (t_contract t) bonsai_identifier.CONTRACT)
      (tree (t_contract t') bonsai_identifier.CONTRACT).

Lemma leaves_ok csd bh t leaves :
  (∀ i, committed (t_storage t) i = tree (t_storage t) i) →
  mapM (λ '(a, _),
          storage_root ← unwrap (ContractStorageTrieView_root t a);
          leaf_hash ← contract_state_leaf_hash contract_class_hash_by_address csd a storage_root bh;
          Ok (a, leaf_hash)) (map_to_list (storage_updates csd)) = Ok leaves →
  leaves.*1 = (map_to_list (storage_updates csd)).*1 ∧
  ∀ a leaf, (a, leaf) ∈ leaves →
    contract_state_leaf_hash contract_class_hash_by_address csd a (tree_root (t_storage t) (ident a)) bh
    = Ok leaf.
Proof.
  intros Hcom. rewrite mapM_Ok_Forall2. intros HF.
  assert (Forall2 (λ (x : Z * gmap Z Z) y, y.1 = x.1 ∧
    contract_state_leaf_hash contract_class_hash_by_address csd y.1
      (tree_root (t_storage t) (ident y.1)) bh = Ok y.2) (map_to_list (storage_updates csd)) leaves) as HF'.
  { eapply Forall2_impl; [exact HF|]. intros [a ups] y Hy. simpl in Hy.
    destruct (ContractStorageTrieView_root t a) as [r| |] eqn:Er; [|discriminate..].
    apply ContractStorageTrieView_root_ok in Er. simpl in Hy.
    assert (r = tree_root (t_storage t) (ident a)) as ->
      by (subst r; unfold committed_root, tree_root; by rewrite Hcom).
    destruct (contract_state_leaf_hash _ _ _ _ _) as [leaf| |] eqn:El; [|discriminate..].
    simpl in Hy. injection Hy as <-. done. }
  clear HF. split.
  - induction HF' as [|x y l k [H _] _ IH]; [done|]. rewrite !fmap_cons. congruence.
  - intros a leaf Hin. apply (Forall2_Forall_r _ (λ y, contract_state_leaf_hash
      contract_class_hash_by_address csd y.1 (tree_root (t_storage t) (ident y.1)) bh = Ok y.2)) in HF'.
    + exact (Forall_elem _ _ _ HF' Hin).
    + apply Forall_forall. intros. tauto.
Qed.

Lemma contract_trie_root_ok t csd n bh t' root :
  wf_csd csd → contract_trie_root contract_class_hash_by_address t csd n bh = Ok (t', root) →
  contracts_updated csd bh t t' ∧ root = tree_root (t_contract t') bonsai_identifier.CONTRACT
  ∧ t_class t' = t_class t.
Proof.
  intros [Hwf _]. unfold contract_trie_root, ContractTrieMut_apply_changes, ContractStorageTrieMut_apply_changes.
  destruct (contract_mut _ _) as [[]| |]; [|discriminate..]. cbn [mbind Outcome_bind].
  destruct (contract_storage_mut _ _) as [[]| |]; [|discriminate..]. cbn [mbind Outcome_bind].
  destruct (ContractTrieMut_init t) as [t1| |] eqn:E1; [|discriminate..]. cbn [mbind Outcome_bind].
  destruct (foldM _ _ _) as [t2| |] eqn:E2; [|discriminate..]. cbn [mbind Outcome_bind].
  destruct (u64_succ n) as [m| |]; [|discriminate..]. cbn [mbind Outcome_bind].
  destruct (ContractStorageTrieMut_commit t2 m) as [t3| |] eqn:E3; [|discriminate..]. cbn [mbind Outcome_bind].
  destruct (mapM _ _) as [leaves| |] eqn:E4; [|discriminate..]. cbn [mbind Outcome_bind].
  destruct (ContractTrieMut_update t3 _) as [t4| |] eqn:E5; [|discriminate..]. cbn [mbind Outcome_bind].
  destruct (ContractTrieMut_commit t4 m) as [t5| |] eqn:E6; [|discriminate..]. cbn [mbind Outcome_bind].
  destruct (ContractTrieView_root t5) as [r| |] eqn:E7; [|discriminate..]. cbn [mbind Outcome_bind].
  intros [= <- <-].
  apply ContractTrieMut_init_ok in E1 as (T1 & S1 & C1).
  apply storage_loop_ok in E2 as (W2 & O2 & K2 & C2);
    [|apply NoDup_fst_map_to_list|apply Forall_forall; intros [a ups] Hin%elem_of_map_to_list; by apply Hwf].
  apply ContractStorageTrieMut_commit_ok in E3 as (T3 & K3 & C3).
  apply leaves_ok in E4 as (F4 & L4); [|intros i; destruct (T3 i); congruence].
  assert (NoDup (par_collect leaves).*1) as Hnd
    by (rewrite par_collect_perm, F4; apply NoDup_fst_map_to_list).
  assert (Forall (λ kv, patricia kv.1) (par_collect leaves)) as Hpat.
  { apply Forall_forall. intros [a leaf]. rewrite par_collect_perm. intros Hin. simpl.
    assert (a ∈ leaves.*1) as Ha by (apply list_elem_of_fmap; by exists (a, leaf)).
    rewrite F4 in Ha. apply list_elem_of_fmap in Ha as ([a' ups] & -> & Hin'%elem_of_map_to_list).
    by apply (Hwf a' ups). }
  apply ContractTrieMut_update_ok in E5 as (W5 & S5 & C5); [|done..].
  rewrite par_collect_perm in W5.
  apply ContractTrieMut_commit_ok in E6 as (T6 & S6 & C6).
  apply ContractTrieView_root_ok in E7.
  assert (∀ i, tree (t_storage t5) i = tree (t_storage t2) i) as TS
    by (intros i; rewrite S6, S5; apply T3).
  split_and!; [split_and!| |congruence].
  - intros a ups Ha. rewrite TS. rewrite S1 in W2. by apply W2, elem_of_map_to_list.
  - intros i Hi. rewrite TS, O2, S1; [done|]. intros a ups Hin%elem_of_map_to_list. apply Hi. by exists ups.
  - exists leaves. split; [by rewrite F4|]. split.
    + intros a leaf Hin. rewrite S6, S5. by apply leaf_hash_for, L4.
    + rewrite (proj1 (T6 _)). rewrite K3, K2, T1 in W5. exact W5.
  - rewrite E7. unfold committed_root, tree_root. destruct (T6 bonsai_identifier.CONTRACT). congruence.
Qed.

Lemma class_trie_root_ok t csd n t' root :
  wf_csd csd → class_trie_root t csd n = Ok (t', root) →
  written conv_class_key (class_leaves csd) (tree (t_class t) bonsai_identifier.CLASS)
    (tree (t_class t') bonsai_identifier.CLASS)
  ∧ root = tree_root (t_class t') bonsai_identifier.CLASS
  ∧ t_contract t' = t_contract t ∧ t_storage t' = t_storage t.
Proof.
  intros [_ Hwf]. unfold class_trie_root, ClassTrieMut_apply_changes.
  destruct (class_mut _ _) as [[]| |]; [|discriminate..]. cbn [mbind Outcome_bind].
  change (unwrap (FieldElement_from_byte_slice_be (bytes_of_string "CONTRACT_CLASS_LEAF_V0")))
    with (@unwrap FromByteSliceError DeoxysStorageError Z
            (FieldElement_from_byte_slice_be (bytes_of_string "CONTRACT_CLASS_LEAF_V0"))).
  rewrite from_byte_slice_be_ok by by repeat constructor.
  change (32 <? length (bytes_of_string "CONTRACT_CLASS_LEAF_V0"))%nat with false.
  change (be_decode (bytes_of_string "CONTRACT_CLASS_LEAF_V0") <? P) with true.
  cbn [unwrap mbind Outcome_bind]. fold (class_leaves csd).
  destruct (ClassTrieMut_init t) as [t1| |] eqn:E1; [|discriminate..]. cbn [mbind Outcome_bind].
  destruct (ClassTrieMut_update t1 _) as [t2| |] eqn:E2; [|discriminate..]. cbn [mbind Outcome_bind].
  destruct (u64_succ n) as [m| |]; [|discriminate..]. cbn [mbind Outcome_bind].
  destruct (ClassTrieMut_commit t2 m) as [t3| |] eqn:E3; [|discriminate..]. cbn [mbind Outcome_bind].
  destruct (ClassTrieView_root t3) as [r| |] eqn:E4; [|discriminate..]. cbn [mbind Outcome_bind].
  intros [= <- <-].
  assert ((class_leaves csd).*1 = (map_to_list (class_hash_to_compiled_class_hash csd)).*1) as HF.
  { unfold class_leaves. induction (map_to_list _) as [|[c h] l IH]; [done|]. simpl. by f_equal. }
  apply ClassTrieMut_init_ok in E1 as (T1 & S1 & C1).
  apply ClassTrieMut_update_ok in E2 as (W2 & S2 & C2).
  2: { rewrite par_collect_perm, HF. apply NoDup_fst_map_to_list. }
  2: { apply Forall_forall. intros [c h]. rewrite par_collect_perm. unfold class_leaves. simpl.
       intros ([c' h'] & [= -> _] & Hin)%list_elem_of_fmap. apply elem_of_map_to_list in Hin.
       by apply (Hwf c' h'). }
  rewrite par_collect_perm, T1 in W2.
  apply ClassTrieMut_commit_ok in E3 as (T3 & S3 & C3).
  apply ClassTrieView_root_ok in E4.
  split_and!; [|rewrite E4; unfold committed_root, tree_root; destruct (T3 bonsai_identifier.CLASS); congruence
               |congruence..].
  by rewrite (proj1 (T3 _)).
Qed.

(** The tries and the root after the computation. *)
Lemma state_root_updated t csd n bh t' root :
  wf_csd csd →
  update_state_root contract_class_hash_by_address t csd n bh = Ok (t', root) →
  contracts_updated csd bh t t' ∧
  written conv_class_key (class_leaves csd) (tree (t_class t) bonsai_identifier.CLASS)
    (tree (t_class t') bonsai_identifier.CLASS) ∧
  root = (let contracts := tree_root (t_contract t') bonsai_identifier.CONTRACT in
          let classes := tree_root (t_class t') bonsai_identifier.CLASS in
          if classes =? 0 then contracts
          else poseidon_hash_many [be_decode (bytes_of_string "STARKNET_STATE_V0"); contracts; classes]).
Proof.
  intros Hwf. unfold update_state_root.
  destruct (contract_trie_root _ _ _ _ _) as [[t1 r1]| |] eqn:E1; [|discriminate..].
  cbn [unwrap mbind Outcome_bind].
  destruct (class_trie_root t1 csd n) as [[t2 r2]| |] eqn:E2; [|discriminate..].
  cbn [unwrap mbind Outcome_bind].
  apply contract_trie_root_ok in E1 as (U1 & R1 & C1); [|done].
  apply class_trie_root_ok in E2 as (W2 & R2 & C2 & S2); [|done].
  unfold calculate_state_root. rewrite try_from_slice_ok by by repeat constructor.
  change (32 <? length (bytes_of_string "STARKNET_STATE_V0"))%nat with false.
  change (be_decode (bytes_of_string "STARKNET_STATE_V0") <? P) with true.
  cbn [unwrap mbind Outcome_bind]. intros H.
  assert (t' = t2 ∧ root = if r2 =? 0 then r1
    else poseidon_hash_many [be_decode (bytes_of_string "STARKNET_STATE_V0"); r1; r2]) as [-> ->].
  { unfold Felt252Wrapper.ZERO in H. destruct (r2 =? 0); simpl in H; by injection H. }
  split_and!.
  - unfold contracts_updated in *. by rewrite C2, S2.
  - by rewrite <-C1.
  - by rewrite R1, R2, C2.
Qed.

(** C9: When the state root of a block is computed (for addresses, storage keys and
    class hashes in the range of the trie), the tries have been changed exactly so: every
    storage update is in the tree of its contract, every contract with storage updates
    has a new leaf of its class, its new storage root and its nonce in the
    difference, 0 if there is none, every declared class has its leaf, and nothing else
    in these trees changed, in whatever order the parallel computation delivered the leaves; the
    returned root is the combination of the roots of the updated tries.  Contracts that
    are only deployed, or change only their nonce or class, get no leaf. *)
Theorem update_state_root_correct t csd n bh t' root :
  wf_csd csd →
  update_state_root contract_class_hash_by_address t csd n bh = Ok (t', root) →
  contracts_updated csd bh t t' ∧
  written conv_class_key (class_leaves csd) (tree (t_class t) bonsai_identifier.CLASS)
    (tree (t_class t') bonsai_identifier.CLASS) ∧
  root = (let contracts := tree_root (t_contract t') bonsai_identifier.CONTRACT in
          let classes := tree_root (t_class t') bonsai_identifier.CLASS in
          if classes =? 0 then contracts
          else poseidon_hash_many [be_decode (bytes_of_string "STARKNET_STATE_V0"); contracts; classes]).
Proof. apply state_root_updated. Qed.

End StateRootProperties.

(** ** The state difference handed to the tries *)

Lemma foldl_ext_list {A B} (f g : A → B → A) a l :
  (∀ a b, f a b = g a b) → foldl f a l = foldl g a l.
Proof. intros H. revert a. induction l as [|b l IH]; intros a; simpl; [done|]. by rewrite H, IH. Qed.

(** The commitment state difference has every deployed contract with its
    class (the system contract 1 with class 0), every nonce, every storage map
    and every declared class of the update, and nothing for other addresses; the
    class replacements of the update are not part of it. *)
Theorem build_commitment_state_diff_spec su r :
  let d := su_state_diff su in
  let csd := build_commitment_state_diff su in
  NoDup (dc_address <$> deployed_contracts d) → NoDup (nonces d).*1 →
  NoDup (storage_diffs d).*1 → NoDup (decl_class_hash <$> declared_classes d) →
  (∀ c, c ∈ deployed_contracts d →
     address_to_class_hash csd !! dc_address c = Some (if dc_address c =? 1 then 0 else dc_class_hash c)) ∧
  (∀ a, a ∉ dc_address <$> deployed_contracts d → address_to_class_hash csd !! a = None) ∧
  (∀ a n, (a, n) ∈ nonces d → address_to_nonce csd !! a = Some n) ∧
  (∀ a, a ∉ (nonces d).*1 → address_to_nonce csd !! a = None) ∧
  (∀ a l, (a, l) ∈ storage_diffs d → NoDup (sd_key <$> l) →
     ∃ m, storage_updates csd !! a = Some m ∧
       (∀ s, s ∈ l → m !! sd_key s = Some (sd_value s)) ∧ ∀ k, k ∉ sd_key <$> l → m !! k = None) ∧
  (∀ a, a ∉ (storage_diffs d).*1 → storage_updates csd !! a = None) ∧
  (∀ c, c ∈ declared_classes d →
     class_hash_to_compiled_class_hash csd !! decl_class_hash c = Some (decl_compiled_class_hash c)) ∧
  build_commitment_state_diff
    {| su_block_hash := su_block_hash su; su_new_root := su_new_root su; su_old_root := su_old_root su;
       su_state_diff := {| storage_diffs := storage_diffs d; deployed_contracts := deployed_contracts d;
         old_declared_contracts := old_declared_contracts d; declared_classes := declared_classes d;
         nonces := nonces d; replaced_classes := r |} |} = csd.
Proof.
  intros d csd N1 N2 N3 N4. unfold csd, build_commitment_state_diff. fold d. simpl.
  destruct (foldl_insert dc_address (λ c, if dc_address c =? 1 then 0 else dc_class_hash c)
              (deployed_contracts d) ∅ N1) as [D1 D2].
  destruct (foldl_insert fst snd (nonces d) ∅ N2) as [E1 E2].
  destruct (foldl_insert fst (λ al : Z * list StorageDiffWrapper,
              foldl (λ sm s, <[sd_key s := sd_value s]> sm) (∅ : gmap Z Z) al.2) (storage_diffs d) ∅ N3) as [F1 F2].
  destruct (foldl_insert decl_class_hash decl_compiled_class_hash (declared_classes d) ∅ N4) as [G1 G2].
  rewrite (foldl_ext_list (λ m '(address, nonce), <[address := nonce]> m) (λ m x, <[x.1 := x.2]> m))
    by by intros ? [].
  rewrite (foldl_ext_list
    (λ m '(address, storage_diffs),
       <[address := foldl (λ sm s, <[sd_key s := sd_value s]> sm) (∅ : gmap Z Z) storage_diffs]> m)
    (λ m x, <[x.1 := foldl (λ sm s, <[sd_key s := sd_value s]> sm) ∅ x.2]> m)) by by intros ? [].
  split; [exact D1|]. split; [exact D2|].
  split; [intros a n Hin; exact (E1 (a, n) Hin)|]. split; [exact E2|]. split; [|split; [exact F2|by split]].
  intros a l Hin Hnd. eexists. split; [exact (F1 (a, l) Hin)|].
  destruct (foldl_insert sd_key sd_value l ∅ Hnd) as [S1 S2]. by split.
Qed.

(** ** A concrete trie, and accessors that read the fields of the transactions *)

Definition accessors_model : TxAccessors := {|
  Declare_sender_address tx := match tx with
    | Declare_V0 t | Declare_V1 t => d1_sender_address t
    | Declare_V2 t => d2_sender_address t | Declare_V3 t => d3_sender_address t end;
  Declare_signature tx := match tx with
    | Declare_V0 t | Declare_V1 t => d1_signature t
    | Declare_V2 t => d2_signature t | Declare_V3 t => d3_signature t end;
  Declare_nonce tx := match tx with
    | Declare_V0 t | Declare_V1 t => d1_nonce t
    | Declare_V2 t => d2_nonce t | Declare_V3 t => d3_nonce t end;
  DeployAccount_contract_address_salt tx := match tx with
    | DeployAccount_V1 t => da1_contract_address_salt t
    | DeployAccount_V3 t => da3_contract_address_salt t end;
  DeployAccount_signature tx := match tx with
    | DeployAccount_V1 t => da1_signature t | DeployAccount_V3 t => da3_signature t end;
  DeployAccount_constructor_calldata tx := match tx with
    | DeployAccount_V1 t => da1_constructor_calldata t | DeployAccount_V3 t => da3_constructor_calldata t end;
  DeployAccount_nonce tx := match tx with
    | DeployAccount_V1 t => da1_nonce t | DeployAccount_V3 t => da3_nonce t end;
  Invoke_sender_address tx := match tx with
    | Invoke_V0 t => i0_contract_address t | Invoke_V1 t => i1_sender_address t
    | Invoke_V3 t => i3_sender_address t end;
  Invoke_signature tx := match tx with
    | Invoke_V0 t => i0_signature t | Invoke_V1 t => i1_signature t | Invoke_V3 t => i3_signature t end;
  Invoke_calldata tx := match tx with
    | Invoke_V0 t => i0_calldata t | Invoke_V1 t => i1_calldata t | Invoke_V3 t => i3_calldata t end;
  Invoke_nonce tx := match tx with
    | Invoke_V0 t => 0 | Invoke_V1 t => i1_nonce t | Invoke_V3 t => i3_nonce t end;
|}.


Record TrieModel := { cur : gmap bytes (gmap bits Z); com : gmap bytes (gmap bits Z) }.
Definition model_tree (m : gmap bytes (gmap bits Z)) (id : bytes) : gmap bits Z := default ∅ (m !! id).

Definition trie_model : BonsaiTrie TrieModel := {|
  bonsai_init_tree b id := Ok b;
  bonsai_insert b id k v := Ok {| cur := <[id := trie_set k v (model_tree (cur b) id)]> (cur b); com := com b |};
  bonsai_commit b n := Ok {| cur := cur b; com := cur b |};
  bonsai_root_hash b id := Ok (if decide (model_tree (com b) id = ∅) then 0
                               else Zpos (encode (map_to_list (model_tree (com b) id))));
  bonsai_get b id k := Ok (model_tree (cur b) id !! k);
  bonsai_get_key_value_pairs b id := Ok [];
  bonsai_get_latest_id b := Some 0;
  bonsai_get_transactional_state b n := Ok (Some tt);
|}.

Definition trie_model_spec : BonsaiTrieSpec trie_model.
Proof.
  refine {| trie_root := λ m, if decide (m = ∅) then 0 else Zpos (encode (map_to_list m));
            tree := λ b id, model_tree (cur b) id; committed := λ b id, model_tree (com b) id |};
    simpl; intros; simplify_eq/=; try done.
  split; [|done]. intros i. unfold model_tree. destruct (decide (i = id)) as [->|Hne].
  - by rewrite lookup_insert_eq.
  - by rewrite lookup_insert_ne.
Defined.

Definition trie_empty : TrieModel := {| cur := ∅; com := ∅ |}.
Definition tries_empty : Tries TrieModel TrieModel :=
  {| t_contract := trie_empty; t_storage := trie_empty; t_class := trie_empty |}.

Definition par_model : ParBridge := λ A l, reverse l.
#[export] Instance par_model_spec : ParBridgeSpec par_model.
Proof. intros A l. apply reverse_Permutation. Qed.

Definition example_update : StateUpdateWrapper :=
  {| su_block_hash := None; su_new_root := None; su_old_root := 0;
     su_state_diff := {| storage_diffs := [(7, [{| sd_key := 1; sd_value := 2 |}])];
       deployed_contracts := [{| dc_address := 7; dc_class_hash := 70 |}];
       old_declared_contracts := [];
       declared_classes := [{| decl_class_hash := 70; decl_compiled_class_hash := 71 |}];
       nonces := [(7, 1)]; replaced_classes := [] |} |}.

Lemma build_commitment_state_diff_spec_witness :
  address_to_nonce (build_commitment_state_diff example_update) !! 7 = Some 1.
Proof.
  refine (proj1 (proj2 (proj2 (build_commitment_state_diff_spec example_update [] _ _ _ _))) 7 1 _);
    try (repeat constructor; set_solver).
Defined.

Definition example_root : Outcome Empty_set (Tries TrieModel TrieModel * Z) :=
  update_state_root (btp := trie_model) (btc := trie_model) (crypto := crypto_small) (pb := par_model)
    (λ _ _, None) tries_empty (build_commitment_state_diff example_update) 5 None.

Lemma update_state_root_correct_witness :
  let csd := build_commitment_state_diff example_update in
  ∃ t' root, example_root = Ok (t', root) ∧
    contracts_updated (Hp := trie_model_spec) (crypto := crypto_small) (λ _ _, None) csd None
      tries_empty t' ∧
    written conv_class_key (class_leaves (crypto := crypto_small) csd)
      (tree (BonsaiTrieSpec := trie_model_spec) (t_class tries_empty) bonsai_identifier.CLASS)
      (tree (BonsaiTrieSpec := trie_model_spec) (t_class t') bonsai_identifier.CLASS).
Proof.
  intros csd. assert (is_ok example_root = true) as Hok by (vm_compute; reflexivity).
  destruct example_root as [[t' root]| |] eqn:E; [|discriminate Hok..].
  exists t', root. split; [reflexivity|].
  destruct (update_state_root_correct (btp := trie_model) (btc := trie_model)
    (Hp := trie_model_spec) (Hc := trie_model_spec) (crypto := crypto_small) (pb := par_model)
    (λ _ _, None) tries_empty csd 5 None t' root) as (H1 & H2 & _).
  - split; apply (bool_decide_unpack _); vm_compute; exact I.
  - exact E.
  - split; [exact H1|exact H2].
Defined.

Lemma commitments_are_roots_witness :
  ∃ hashes, Forall2 (λ tx h, @calculate_transaction_hash_with_signature (@PedersenHasher _ crypto_model)
      _ crypto_model address_model accessors_model tx 77 2000 = Ok h) [Tx_Invoke (Invoke_V1 example_invoke)] hashes.
Proof.
  destruct (commitments_are_roots (bt := trie_model) (Hbt := trie_model_spec) (Ok trie_empty)
    ltac:(by intros ? ? [= <-]) (crypto := crypto_model) (ca := address_model) (acc := accessors_model)
    [Tx_Invoke (Invoke_V1 example_invoke)] [] 77 2000 _ _ ltac:(simpl; lia) ltac:(simpl; lia) eq_refl)
    as (hashes & H & _).
  exists hashes. exact H.
Defined.



