(* ===== verification/Backend.v ===== *)
(** * Backend: opening the databases ([client/db/src/lib.rs])

    [DeoxysBackend::open] opens one RocksDB with all the columns, creates the three
    tries over it and publishes the result in two global [OnceLock]s, which every
    database access of the node goes through.  RocksDB's opening and the creation of
    a bonsai trie are parameters. *)

From S2P Require Import Prelude Felt Db BonsaiDb Tries Commitments.

(** A path is its list of components. *)
Abbreviation Path := (list string).

(** [sc_client_db::DatabaseSource] *)
Inductive DatabaseSource :=
| Source_Auto (paritydb_path rocksdb_path : Path) (cache_size : Z)
| Source_RocksDb (path : Path) (cache_size : Z)
| Source_ParityDb (path : Path)
| Source_Custom (require_create_flag : bool).

Record DatabaseSettings := {
  source : DatabaseSource;
  max_saved_trie_logs : option Z;
  max_saved_snapshots : option Z;
  snapshot_interval : Z;
}.

Record BonsaiStorageConfig := {
  bc_max_saved_trie_logs : option Z;
  bc_max_saved_snapshots : option Z;
  bc_snapshot_interval : Z;
}.

Definition BonsaiStorageConfig_from (val : DatabaseSettings) : BonsaiStorageConfig := {|
  bc_max_saved_trie_logs := max_saved_trie_logs val;
  bc_max_saved_snapshots := max_saved_snapshots val;
  bc_snapshot_interval := snapshot_interval val;
|}.

(** The options of RocksDB that are set. *)
Record Options := {
  report_bg_io_stats : bool; use_fsync : bool; create_if_missing : bool; create_missing_column_families : bool;
  bytes_per_sync : Z; keep_log_file_num : Z; parallelism : Z;
}.

Definition starknet_database_dir (db_config_dir : Path) (db_path : string) : Path :=
  db_config_dir ++ ["starknet"%string] ++ [db_path].

(** The libraries: RocksDB's [open_cf_descriptors] with the names of the column
    families, [BonsaiStorage::new] over a database and its columns, and the number of
    processors. *)
Class Storage (E S BP BC : Type) := {
  open_cf_descriptors : Options → Path → list string → Outcome E S;
  available_parallelism : option Z;
  bonsai_pedersen_new : S → DatabaseKeyMapping → BonsaiStorageConfig → Outcome unit BP;
  bonsai_poseidon_new : S → DatabaseKeyMapping → BonsaiStorageConfig → Outcome unit BC;
}.

(** The databases share the handle; the mapping database also holds the flag of the
    cache. *)
Record DeoxysBackend (S BP BC : Type) := {
  be_meta : S; be_mapping : S * bool; be_da : S; be_l1_handler_paid_fee : S; be_tries : Tries BP BC;
}.
Arguments be_meta {S BP BC}. Arguments be_mapping {S BP BC}. Arguments be_da {S BP BC}.
Arguments be_l1_handler_paid_fee {S BP BC}. Arguments be_tries {S BP BC}.

(** [BACKEND_SINGLETON] and [DB_SINGLETON] *)
Record Singletons (S BP BC : Type) := { backend_singleton : option (DeoxysBackend S BP BC); db_singleton : option S }.
Arguments backend_singleton {S BP BC}. Arguments db_singleton {S BP BC}.

Module DeoxysBackend.
Section DeoxysBackend.
Context {E S BP BC : Type} `{sto : Storage E S BP BC} `{btp : BonsaiTrie BP} `{btc : BonsaiTrie BC}.
Abbreviation St := (Singletons S BP BC).
Abbreviation M := (SyncM St string).

Definition no_singletons : St := {| backend_singleton := None; db_singleton := None |}.

(** [OnceLock::set]: whether the value was taken. *)
Definition set_db (db : S) : M bool := λ s,
  match db_singleton s with
  | None => ({| backend_singleton := backend_singleton s; db_singleton := Some db |}, Ok true)
  | Some _ => (s, Ok false)
  end.
Definition set_backend (b : DeoxysBackend S BP BC) : M bool := λ s,
  match backend_singleton s with
  | None => ({| backend_singleton := Some b; db_singleton := db_singleton s |}, Ok true)
  | Some _ => (s, Ok false)
  end.

(** [OnceLock::get] *)
Definition get_db : M (option S) := λ s, (s, Ok (db_singleton s)).
Definition get_backend : M (option (DeoxysBackend S BP BC)) := λ s, (s, Ok (backend_singleton s)).

Definition cores : Z := default 1 available_parallelism.

Definition open_rocksdb (path : Path) (create : bool) : Outcome string S :=
  let opts := {| report_bg_io_stats := true; use_fsync := false; create_if_missing := create;
                 create_missing_column_families := true; bytes_per_sync := 1024 * 1024; keep_log_file_num := 1;
                 parallelism := Z.max (cores `quot` 2) 1 |} in
  map_err (λ _, "rocksdb"%string) (open_cf_descriptors opts path (map rocksdb_name Column_ALL)).

Definition open_database (config : DatabaseSettings) : Outcome string S :=
  match source config with
  | Source_RocksDb path _ => open_rocksdb path true
  | Source_Auto _ rocksdb_path _ => open_rocksdb rocksdb_path false
  | _ => Err "only the rocksdb database source is supported at the moment"%string
  end.

Definition new (config : DatabaseSettings) (cache_more_things : bool) : M (DeoxysBackend S BP BC) :=
  opened ← lift (open_database config);
  fresh ← set_db opened;
  _ ← lift (assert_true fresh);
  db ← get_db;
  db ← lift (unwrap_opt db);
  let bonsai_config := BonsaiStorageConfig_from config in
  bonsai_contract ← lift (unwrap (bonsai_pedersen_new db contracts_mapping bonsai_config));
  bonsai_contract ← lift (unwrap (bonsai_commit bonsai_contract 0));
  bonsai_contract_storage ← lift (unwrap (bonsai_pedersen_new db contracts_storage_mapping bonsai_config));
  bonsai_contract_storage ← lift (unwrap (bonsai_commit bonsai_contract_storage 0));
  bonsai_classes ← lift (unwrap (bonsai_poseidon_new db classes_mapping bonsai_config));
  bonsai_classes ← lift (unwrap (bonsai_commit bonsai_classes 0));
  mret {| be_mapping := (db, cache_more_things); be_meta := db; be_da := db; be_l1_handler_paid_fee := db;
          be_tries := {| t_contract := bonsai_contract; t_storage := bonsai_contract_storage;
                         t_class := bonsai_classes |} |}.

Definition init_source (database : DatabaseSource) (db_config_dir : Path) : Outcome string DatabaseSource :=
  match database with
  | Source_RocksDb _ _ => Ok (Source_RocksDb (starknet_database_dir db_config_dir "rockdb") 0)
  | Source_ParityDb _ => Ok (Source_ParityDb (starknet_database_dir db_config_dir "paritydb"))
  | Source_Auto _ _ _ => Ok (Source_Auto (starknet_database_dir db_config_dir "paritydb")
                               (starknet_database_dir db_config_dir "rockdb") 0)
  | Source_Custom _ => Err "Supported db sources: `rocksdb` | `paritydb` | `auto`"%string
  end.

Definition init (database : DatabaseSource) (db_config_dir : Path) (cache_more_things : bool)
    : M (DeoxysBackend S BP BC) :=
  source ← lift (init_source database db_config_dir);
  new {| source := source; max_saved_trie_logs := None; max_saved_snapshots := None; snapshot_interval := 100 |}
    cache_more_things.

(** [Result::unwrap] of an effect. *)
Definition unwrap_m {A} (m : M A) : M A := λ s,
  match m s with (s', Ok a) => (s', Ok a) | (s', _) => (s', Panic) end.

Definition open (database : DatabaseSource) (db_config_dir : Path) (cache_more_things : bool)
    : M (DeoxysBackend S BP BC) :=
  backend ← unwrap_m (init database db_config_dir cache_more_things);
  fresh ← set_backend backend;
  _ ← (if fresh : bool then mret tt else fail "Backend already initialized"%string);
  backend ← get_backend;
  lift (unwrap_opt backend).

(** The accessors: [expect("Backend not initialized")]. *)
Definition accessor {A} (f : DeoxysBackend S BP BC → A) (s : St) : Outcome Empty_set A :=
  unwrap_opt (f <$> backend_singleton s).
Definition mapping : St → Outcome Empty_set (S * bool) := accessor be_mapping.
Definition meta : St → Outcome Empty_set S := accessor be_meta.
Definition da : St → Outcome Empty_set S := accessor be_da.
Definition bonsai_contract : St → Outcome Empty_set BP := accessor (t_contract ∘ be_tries).
Definition bonsai_storage : St → Outcome Empty_set BP := accessor (t_storage ∘ be_tries).
Definition bonsai_class : St → Outcome Empty_set BC := accessor (t_class ∘ be_tries).
Definition l1_handler_paid_fee : St → Outcome Empty_set S := accessor be_l1_handler_paid_fee.
End DeoxysBackend.
End DeoxysBackend.

(** ** Properties *)

Section Properties.
Context {E S BP BC : Type} `{sto : Storage E S BP BC} `{btp : BonsaiTrie BP} `{btc : BonsaiTrie BC}.
Abbreviation St := (Singletons S BP BC).
Abbreviation Backend := (DeoxysBackend S BP BC).

(** What a call of [open] names: the source, the directory and the flag. *)
Definition Call : Type := DatabaseSource * Path * bool.

Definition open_call (c : Call) : SyncM St string Backend := DeoxysBackend.open c.1.1 c.1.2 c.2.

(** Several calls, one after the other, each with its outcome. *)
Fixpoint opens (calls : list Call) (s : St) : St * list (Outcome string Backend) :=
  match calls with
  | [] => (s, [])
  | c :: calls => let '(s1, r) := open_call c s in let '(s2, rs) := opens calls s1 in (s2, r :: rs)
  end.

(** The RocksDB a call is served by: only the RocksDB and the automatic source are
    supported, and only the former creates a missing database. *)
Definition rocksdb_of (c : Call) (db : S) : Prop :=
  ∃ create opts,
    match c.1.1 with Source_RocksDb _ _ => create = true | Source_Auto _ _ _ => create = false | _ => False end ∧
    create_if_missing opts = create ∧ create_missing_column_families opts = true ∧ 1 ≤ parallelism opts ∧
    open_cf_descriptors opts (c.1.2 ++ ["starknet"; "rockdb"]%string) (map rocksdb_name Column_ALL) = Ok db.

(** The backend a call makes of a database: the shared handle, the flag, and the three
    tries over their own columns, committed at block 0. *)
Definition made_of (c : Call) (db : S) (b : Backend) : Prop :=
  be_mapping b = (db, c.2) ∧ be_meta b = db ∧ be_da b = db ∧ be_l1_handler_paid_fee b = db ∧
  let config := {| bc_max_saved_trie_logs := None; bc_max_saved_snapshots := None; bc_snapshot_interval := 100 |} in
  (t ← bonsai_pedersen_new db contracts_mapping config; bonsai_commit t 0) = Ok (t_contract (be_tries b)) ∧
  (t ← bonsai_pedersen_new db contracts_storage_mapping config; bonsai_commit t 0) = Ok (t_storage (be_tries b)) ∧
  (t ← bonsai_poseidon_new db classes_mapping config; bonsai_commit t 0) = Ok (t_class (be_tries b)).

(** Once the handle is published every call panics, and changes nothing. *)
Lemma open_locked c (s : St) db : db_singleton s = Some db → open_call c s = (s, Panic).
Proof.
  intros H. unfold open_call, DeoxysBackend.open, DeoxysBackend.unwrap_m, DeoxysBackend.init, DeoxysBackend.new. run_m.
  destruct (DeoxysBackend.init_source _ _); [|done..].
  destruct (DeoxysBackend.open_database _); [|done..]. unfold DeoxysBackend.set_db. by rewrite H.
Qed.

(** The database of a first call. *)
Lemma open_database_ok c src db :
  DeoxysBackend.init_source c.1.1 c.1.2 = Ok src →
  DeoxysBackend.open_database {| source := src; max_saved_trie_logs := None; max_saved_snapshots := None;
    snapshot_interval := 100 |} = Ok db → rocksdb_of c db.
Proof.
  unfold rocksdb_of. destruct c as [[[] dir] cache]; cbn [fst snd DeoxysBackend.init_source]; intros [= <-]; [..|done];
    unfold DeoxysBackend.open_database; cbn [source]; intros H; try done;
    unfold DeoxysBackend.open_rocksdb, map_err in H; destruct (open_cf_descriptors _ _ _) eqn:Ho; simplify_eq; do 2 eexists;
    (split_and!; [| | | |eassumption]); solve [reflexivity | simpl; lia].
Qed.

(** A first call either fails before the handle is published, or publishes it, and
    the backend as well when the tries can be made. *)
Lemma open_fresh c s' r :
  open_call c DeoxysBackend.no_singletons = (s', r) →
  (s' = DeoxysBackend.no_singletons ∧ r = Panic) ∨
  ∃ db, rocksdb_of c db ∧ db_singleton s' = Some db ∧
    ((backend_singleton s' = None ∧ r = Panic) ∨ ∃ b, made_of c db b ∧ backend_singleton s' = Some b ∧ r = Ok b).
Proof.
  unfold open_call, DeoxysBackend.open, DeoxysBackend.unwrap_m, DeoxysBackend.init, DeoxysBackend.new. run_m.
  destruct (DeoxysBackend.init_source _ _) as [src| |] eqn:Hs; [|intros [= <- <-]; by left..].
  destruct (DeoxysBackend.open_database _) as [db| |] eqn:Hd; [|intros [= <- <-]; by left..].
  pose proof (open_database_ok _ _ _ Hs Hd) as Hdb.
  cbn [DeoxysBackend.no_singletons DeoxysBackend.set_db db_singleton assert_true DeoxysBackend.get_db unwrap_opt].
  intros H. right. exists db. split; [done|]. revert H. unfold BonsaiStorageConfig_from, unwrap.
  cbn [max_saved_trie_logs max_saved_snapshots snapshot_interval].
  repeat match goal with
  | |- context [match ?m with Ok _ => _ | _ => _ end] =>
      match m with
      | context [match _ with Ok _ => _ | _ => _ end] => fail 1
      | _ => destruct m eqn:?; [|intros [= <- <-]; split; [reflexivity | by left]..]
      end
  end.
  cbn [DeoxysBackend.set_backend DeoxysBackend.no_singletons backend_singleton DeoxysBackend.get_backend unwrap_opt].
  intros [= <- <-]. split; [done|]. right. eexists. split; [|done].
  unfold made_of. split_and!; [done..| | |]; cbn [be_tries t_contract t_storage t_class];
    unfold mbind, Outcome_bind; by repeat match goal with H : ?m = Ok _ |- context [?m] => rewrite H end.
Qed.

Lemma opens_locked calls (s : St) db s' rs :
  db_singleton s = Some db → opens calls s = (s', rs) → s' = s ∧ Forall (λ r, r = Panic) rs.
Proof.
  intros Hd. revert rs. induction calls as [|c calls IH]; intros rs; simpl; [intros [= <- <-]; by constructor|].
  rewrite (open_locked c s db) by done. destruct (opens calls s) as [s2 rs2] eqn:Ho.
  intros [= <- <-]. destruct (IH _ eq_refl). by split; [|constructor].
Qed.

Lemma opens_spec calls (s : St) rs :
  opens calls DeoxysBackend.no_singletons = (s, rs) →
  match backend_singleton s with
  | Some b => ∃ k c db, calls !! k = Some c ∧ rocksdb_of c db ∧ made_of c db b ∧
      ∀ j r, rs !! j = Some r → r = if decide (j = k) then Ok b else Panic
  | None => Forall (λ r, r = Panic) rs
  end.
Proof.
  revert rs. induction calls as [|c calls IH]; intros rs; simpl; [intros [= <- <-]; by constructor|].
  destruct (open_call c _) as [s1 r] eqn:Hc, (opens calls s1) as [s2 rs2] eqn:Ho. intros [= <- <-].
  destruct (open_fresh _ _ _ Hc) as [[-> ->]|(db & Hdb & Hd & Hr)].
  - specialize (IH _ Ho). destruct (backend_singleton s2) as [b|]; [|by constructor].
    destruct IH as (k & c' & db & Hk & Hdb & Hm & Hall). exists (Datatypes.S k), c', db. split_and!; try done.
    intros [|j] r; simpl; [by intros [= <-]|]. intros Hj. rewrite (Hall _ _ Hj).
    by repeat case_decide; simplify_eq.
  - destruct (opens_locked _ _ _ _ _ Hd Ho) as [-> Hp]. destruct Hr as [[-> ->]|(b & Hm & -> & ->)]; [by constructor|].
    exists 0%nat, c, db. split_and!; try done. intros [|j] r; simpl; [by intros [= <-]|].
    intros Hj. by apply (Forall_lookup_1 _ _ _ _ Hp Hj).
Qed.

(** Of any sequence of calls of [DeoxysBackend::open] in one process, at most one
    succeeds, and every other one panics: no call ever returns its error value "Backend
    already initialized".  When one succeeds, the databases and tries every accessor
    returns are those it made, over one RocksDB opened with all the columns, at the
    directory and with the flag of that call; otherwise the accessors panic. *)
Theorem backend_opened_once (calls : list Call) (s : St) rs :
  opens calls DeoxysBackend.no_singletons = (s, rs) →
  match backend_singleton s with
  | Some b => ∃ k c db, calls !! k = Some c ∧ rocksdb_of c db ∧ made_of c db b ∧
      (∀ j r, rs !! j = Some r → r = if decide (j = k) then Ok b else Panic) ∧
      DeoxysBackend.mapping s = Ok (db, c.2) ∧ DeoxysBackend.meta s = Ok db ∧ DeoxysBackend.da s = Ok db ∧
      DeoxysBackend.l1_handler_paid_fee s = Ok db ∧
      DeoxysBackend.bonsai_contract s = Ok (t_contract (be_tries b)) ∧
      DeoxysBackend.bonsai_storage s = Ok (t_storage (be_tries b)) ∧
      DeoxysBackend.bonsai_class s = Ok (t_class (be_tries b))
  | None => Forall (λ r, r = Panic) rs ∧ DeoxysBackend.mapping s = Panic ∧ DeoxysBackend.meta s = Panic ∧
      DeoxysBackend.da s = Panic ∧ DeoxysBackend.l1_handler_paid_fee s = Panic ∧
      DeoxysBackend.bonsai_contract s = Panic ∧ DeoxysBackend.bonsai_storage s = Panic ∧
      DeoxysBackend.bonsai_class s = Panic
  end.
Proof.
  intros H. pose proof (opens_spec calls _ _ H) as Ho. unfold DeoxysBackend.mapping, DeoxysBackend.meta, DeoxysBackend.da,
    DeoxysBackend.l1_handler_paid_fee, DeoxysBackend.bonsai_contract, DeoxysBackend.bonsai_storage,
    DeoxysBackend.bonsai_class, DeoxysBackend.accessor.
  destruct (backend_singleton s) as [b|]; [|by split_and!].
  destruct Ho as (k & c & db & Hk & Hdb & Hm & Hr). exists k, c, db.
  destruct Hm as (M1 & M2 & M3 & M4 & M5). split_and!; try done; simpl; congruence.
Qed.
End Properties.

(** ** A model of the libraries: nothing is on disk, and tries start empty *)

Definition storage_model : Storage unit Contents TrieModel TrieModel := {|
  open_cf_descriptors opts path cols := if create_if_missing opts then Ok ∅ else Err tt;
  available_parallelism := Some 8;
  bonsai_pedersen_new db mapping config := Ok {| cur := ∅; com := ∅ |};
  bonsai_poseidon_new db mapping config := Ok {| cur := ∅; com := ∅ |};
|}.

(** The automatic source does not create the database: the first call panics, the
    second one succeeds and the third one panics. *)
Definition example_calls : list Call :=
  [(Source_Auto ["p"] ["r"] 0, ["config"], true); (Source_RocksDb ["r"] 0, ["config"], true);
   (Source_RocksDb ["r"] 0, ["config"], false)]%string.

Definition example_opens : Singletons Contents TrieModel TrieModel * list (Outcome string _) :=
  opens (sto := storage_model) (btp := trie_model) (btc := trie_model) example_calls DeoxysBackend.no_singletons.

Lemma backend_opened_once_witness :
  is_ok <$> example_opens.2 = [false; true; false] ∧
  ∃ k c db, example_calls !! k = Some c ∧ rocksdb_of (sto := storage_model) c db ∧
    DeoxysBackend.mapping example_opens.1 = Ok (db, c.2).
Proof.
  split; [reflexivity|].
  pose proof (backend_opened_once (sto := storage_model) (btp := trie_model) (btc := trie_model) example_calls
    example_opens.1 example_opens.2 (surjective_pairing _)) as H.
  destruct (backend_singleton _) as [b|] eqn:Hb; [|discriminate Hb].
  destruct H as (k & c & db & Hk & Hdb & _ & _ & Hm & _). by exists k, c, db.
Defined.
