(* ===== verification/Convert.v ===== *)
(** * Convert: from the sequencer's blocks to the node's
    ([client/sync/src/utils/convert.rs])

    The sequencer gateway answers with the types of starknet_providers, in
    which most fields of a transaction are optional; the node works with the
    types of starknet_api.  A missing field, an unsupported version or a value
    out of range is a panic of the conversion. *)

From stdpp Require Import sorting.
From S2P Require Import Prelude Felt Hashers Transactions TxHash CoreTx Blocks Tries Commitments.

(** ** The provider's types ([starknet_providers::sequencer::models]) *)

Module p.
Record ResourceBoundsMapping := { l1_gas : ResourceBounds; l2_gas : ResourceBounds }.
Inductive DataAvailabilityMode := L1 | L2.

Record DeclareTransaction := {
  d_version : Z; d_max_fee : option Z; d_signature : list Z; d_nonce : Z; d_class_hash : Z;
  d_compiled_class_hash : option Z; d_sender_address : Z;
  d_resource_bounds : option ResourceBoundsMapping; d_tip : option Z;
  d_nonce_data_availability_mode : option DataAvailabilityMode;
  d_fee_data_availability_mode : option DataAvailabilityMode;
  d_paymaster_data : option (list Z); d_account_deployment_data : option (list Z);
}.
Record DeployTransaction := {
  dp_version : Z; dp_class_hash : Z; dp_contract_address_salt : Z; dp_constructor_calldata : list Z;
}.
Record DeployAccountTransaction := {
  da_max_fee : option Z; da_signature : list Z; da_nonce : Z; da_class_hash : Z;
  da_contract_address_salt : Z; da_constructor_calldata : list Z;
  da_resource_bounds : option ResourceBoundsMapping; da_tip : option Z;
  da_nonce_data_availability_mode : option DataAvailabilityMode;
  da_fee_data_availability_mode : option DataAvailabilityMode;
  da_paymaster_data : option (list Z);
}.
Record InvokeFunctionTransaction := {
  i_version : Z; i_max_fee : option Z; i_signature : list Z; i_nonce : option Z; i_sender_address : Z;
  i_entry_point_selector : option Z; i_calldata : list Z;
  i_resource_bounds : option ResourceBoundsMapping; i_tip : option Z;
  i_nonce_data_availability_mode : option DataAvailabilityMode;
  i_fee_data_availability_mode : option DataAvailabilityMode;
  i_paymaster_data : option (list Z); i_account_deployment_data : option (list Z);
}.
Record L1HandlerTransaction := {
  lh_version : Z; lh_nonce : option Z; lh_contract_address : Z; lh_entry_point_selector : Z;
  lh_calldata : list Z;
}.
Inductive TransactionType :=
| Declare_ (tx : DeclareTransaction)
| Deploy (tx : DeployTransaction)
| DeployAccount (tx : DeployAccountTransaction)
| InvokeFunction (tx : InvokeFunctionTransaction)
| L1Handler (tx : L1HandlerTransaction).

Record Event := { from_address : Z; keys : list Z; data : list Z }.
Record ConfirmedTransactionReceipt := { events : list Event }.
Record ResourcePrice := { price_in_fri : Z; price_in_wei : Z }.
Inductive L1DataAvailabilityMode := Calldata | Blob.

Record Block := {
  transactions : list TransactionType;
  transaction_receipts : list ConfirmedTransactionReceipt;
  parent_block_hash : Z;
  block_number : option Z;
  timestamp : Z;
  state_root : option Z;
  sequencer_address : option Z;
  starknet_version : option bytes;
  l1_gas_price : ResourcePrice;
  l1_data_gas_price : ResourcePrice;
  l1_da_mode : L1DataAvailabilityMode;
  block_hash : option Z;
}.
End p.

(** starknet_api's [ResourceBoundsMapping::try_from(Vec<(Resource, ResourceBounds)>)]. *)
Class BoundsFromVec := ResourceBoundsMapping_try_from :
  list (Resource * ResourceBounds) → option ResourceBoundsMapping.
Class BoundsFromVecSpec (bv : BoundsFromVec) : Prop :=
  bounds_from_both l1 l2 :
    ResourceBoundsMapping_try_from [(L1Gas, l1); (L2Gas, l2)] = Some (<[L1Gas := l1]> {[L2Gas := l2]}).

Abbreviation Res := (Outcome Empty_set).

Module convert.
Section Convert.
Context `{libs : FeltLibs} `{bv : BoundsFromVec}.

(** ** Values *)

(** [StarkFelt::new(field_element.to_bytes_be()).unwrap()] *)
Definition felt (field_element : Z) : Res Z :=
  bytes ← unwrap_opt (StarkFelt_new (FieldElement_to_bytes_be field_element)); Ok (be_decode bytes).

Definition fee (f : Z) : Res Z := unwrap_opt (FieldElement_try_into_u128 f).
Definition signature (signature : list Z) : Res (list Z) := mapM felt signature.
Definition contract_address (address : Z) : Res Z := felt address.
Definition entry_point (entry_point : Z) : Res Z := felt entry_point.
Definition call_data (call_data : list Z) : Res (list Z) := mapM felt call_data.
Definition nonce (nonce : Z) : Res Z := felt nonce.
Definition class_hash (class_hash : Z) : Res Z := felt class_hash.
Definition compiled_class_hash (compiled_class_hash : Z) : Res Z := felt compiled_class_hash.
Definition contract_address_salt (contract_address_salt : Z) : Res Z := felt contract_address_salt.
Definition transaction_version (version : Z) : Res Z := felt version.
Definition tip (tip : Z) : Z := tip.
Definition paymaster_data (paymaster_data : list Z) : Res (list Z) := mapM felt paymaster_data.
Definition account_deployment_data (account_deployment_data : list Z) : Res (list Z) :=
  mapM felt account_deployment_data.

Definition data_availability_mode (mode : p.DataAvailabilityMode) : DataAvailabilityMode :=
  match mode with p.L1 => DA_L1 | p.L2 => DA_L2 end.

Definition l1_da_mode (mode : p.L1DataAvailabilityMode) : L1DataAvailabilityMode :=
  match mode with p.Calldata => L1DA_Calldata | p.Blob => L1DA_Blob end.

Definition resource_bounds (ressource_bounds : p.ResourceBoundsMapping) : Res ResourceBoundsMapping :=
  unwrap_opt (ResourceBoundsMapping_try_from
    [(L1Gas, {| max_amount := max_amount (p.l1_gas ressource_bounds);
                max_price_per_unit := max_price_per_unit (p.l1_gas ressource_bounds) |});
     (L2Gas, {| max_amount := max_amount (p.l2_gas ressource_bounds);
                max_price_per_unit := max_price_per_unit (p.l2_gas ressource_bounds) |})]).

Definition starknet_version (version : option bytes) : Res Z :=
  match version with
  | Some version => unwrap (Felt252Wrapper.try_from_slice version)
  | None => Ok Felt252Wrapper.ZERO
  end.

Definition field_element_to_non_zero_u128 (field_element : Z) : Res Z :=
  value ← (if field_element =? 0 then Ok 1 else unwrap_opt (FieldElement_try_into_u128 field_element));
  unwrap_opt (NonZeroU128_new value).

Definition resource_price (l1_gas_price l1_data_gas_price : p.ResourcePrice) : Res (option GasPrices) :=
  if p.price_in_wei l1_gas_price =? 0 then Ok None
  else
    eth_l1_gas_price ← field_element_to_non_zero_u128 (p.price_in_wei l1_gas_price);
    strk_l1_gas_price ← field_element_to_non_zero_u128 (p.price_in_fri l1_gas_price);
    eth_l1_data_gas_price ← field_element_to_non_zero_u128 (p.price_in_wei l1_data_gas_price);
    strk_l1_data_gas_price ← field_element_to_non_zero_u128 (p.price_in_fri l1_data_gas_price);
    Ok (Some {| eth_l1_gas_price := eth_l1_gas_price; strk_l1_gas_price := strk_l1_gas_price;
                eth_l1_data_gas_price := eth_l1_data_gas_price;
                strk_l1_data_gas_price := strk_l1_data_gas_price |}).

(** ** Transactions *)

Definition declare_transaction (tx : p.DeclareTransaction) : Res DeclareTransaction :=
  if (p.d_version tx =? 0) || (p.d_version tx =? 1) then
    max_fee ← unwrap_opt (p.d_max_fee tx); max_fee ← fee max_fee;
    signature ← signature (p.d_signature tx);
    nonce ← nonce (p.d_nonce tx);
    class_hash ← class_hash (p.d_class_hash tx);
    sender_address ← contract_address (p.d_sender_address tx);
    Ok (Declare_V1 {| d1_max_fee := max_fee; d1_signature := signature; d1_nonce := nonce;
                      d1_class_hash := class_hash; d1_sender_address := sender_address |})
  else if p.d_version tx =? 2 then
    max_fee ← unwrap_opt (p.d_max_fee tx); max_fee ← fee max_fee;
    signature ← signature (p.d_signature tx);
    nonce ← nonce (p.d_nonce tx);
    class_hash ← class_hash (p.d_class_hash tx);
    cch ← unwrap_opt (p.d_compiled_class_hash tx); compiled_class_hash ← compiled_class_hash cch;
    sender_address ← contract_address (p.d_sender_address tx);
    Ok (Declare_V2 {| d2_max_fee := max_fee; d2_signature := signature; d2_nonce := nonce;
                      d2_class_hash := class_hash; d2_compiled_class_hash := compiled_class_hash;
                      d2_sender_address := sender_address |})
  else if p.d_version tx =? 3 then
    rb ← unwrap_opt (p.d_resource_bounds tx); resource_bounds ← resource_bounds rb;
    t ← unwrap_opt (p.d_tip tx);
    signature ← signature (p.d_signature tx);
    nonce ← nonce (p.d_nonce tx);
    class_hash ← class_hash (p.d_class_hash tx);
    cch ← unwrap_opt (p.d_compiled_class_hash tx); compiled_class_hash ← compiled_class_hash cch;
    sender_address ← contract_address (p.d_sender_address tx);
    nda ← unwrap_opt (p.d_nonce_data_availability_mode tx);
    fda ← unwrap_opt (p.d_fee_data_availability_mode tx);
    pm ← unwrap_opt (p.d_paymaster_data tx); paymaster_data ← paymaster_data pm;
    ad ← unwrap_opt (p.d_account_deployment_data tx); account_deployment_data ← account_deployment_data ad;
    Ok (Declare_V3 {| d3_resource_bounds := resource_bounds; d3_tip := tip t; d3_signature := signature;
                      d3_nonce := nonce; d3_class_hash := class_hash;
                      d3_compiled_class_hash := compiled_class_hash; d3_sender_address := sender_address;
                      d3_nonce_data_availability_mode := data_availability_mode nda;
                      d3_fee_data_availability_mode := data_availability_mode fda;
                      d3_paymaster_data := paymaster_data;
                      d3_account_deployment_data := account_deployment_data |})
  else Panic.

Definition deploy_transaction (tx : p.DeployTransaction) : Res DeployTransaction :=
  version ← transaction_version (p.dp_version tx);
  class_hash ← class_hash (p.dp_class_hash tx);
  contract_address_salt ← contract_address_salt (p.dp_contract_address_salt tx);
  constructor_calldata ← call_data (p.dp_constructor_calldata tx);
  Ok {| dp_version := version; dp_class_hash := class_hash;
        dp_contract_address_salt := contract_address_salt;
        dp_constructor_calldata := constructor_calldata |}.

Definition deploy_account_transaction_version (tx : p.DeployAccountTransaction) : Z :=
  if bool_decide (is_Some (p.da_resource_bounds tx)) then 3 else 1.

Definition deploy_account_transaction (tx : p.DeployAccountTransaction) : Res DeployAccountTransaction :=
  if deploy_account_transaction_version tx =? 1 then
    max_fee ← unwrap_opt (p.da_max_fee tx); max_fee ← fee max_fee;
    signature ← signature (p.da_signature tx);
    nonce ← nonce (p.da_nonce tx);
    class_hash ← class_hash (p.da_class_hash tx);
    contract_address_salt ← contract_address_salt (p.da_contract_address_salt tx);
    constructor_calldata ← call_data (p.da_constructor_calldata tx);
    Ok (DeployAccount_V1 {| da1_max_fee := max_fee; da1_signature := signature; da1_nonce := nonce;
                            da1_class_hash := class_hash;
                            da1_contract_address_salt := contract_address_salt;
                            da1_constructor_calldata := constructor_calldata |})
  else if deploy_account_transaction_version tx =? 3 then
    rb ← unwrap_opt (p.da_resource_bounds tx); resource_bounds ← resource_bounds rb;
    t ← unwrap_opt (p.da_tip tx);
    signature ← signature (p.da_signature tx);
    nonce ← nonce (p.da_nonce tx);
    class_hash ← class_hash (p.da_class_hash tx);
    contract_address_salt ← contract_address_salt (p.da_contract_address_salt tx);
    constructor_calldata ← call_data (p.da_constructor_calldata tx);
    nda ← unwrap_opt (p.da_nonce_data_availability_mode tx);
    fda ← unwrap_opt (p.da_fee_data_availability_mode tx);
    pm ← unwrap_opt (p.da_paymaster_data tx); paymaster_data ← paymaster_data pm;
    Ok (DeployAccount_V3 {| da3_resource_bounds := resource_bounds; da3_tip := tip t;
                            da3_signature := signature; da3_nonce := nonce; da3_class_hash := class_hash;
                            da3_contract_address_salt := contract_address_salt;
                            da3_constructor_calldata := constructor_calldata;
                            da3_nonce_data_availability_mode := data_availability_mode nda;
                            da3_fee_data_availability_mode := data_availability_mode fda;
                            da3_paymaster_data := paymaster_data |})
  else Panic.

Definition invoke_transaction (tx : p.InvokeFunctionTransaction) : Res InvokeTransaction :=
  if p.i_version tx =? 0 then
    max_fee ← unwrap_opt (p.i_max_fee tx); max_fee ← fee max_fee;
    signature ← signature (p.i_signature tx);
    contract_address ← contract_address (p.i_sender_address tx);
    eps ← unwrap_opt (p.i_entry_point_selector tx); entry_point_selector ← entry_point eps;
    calldata ← call_data (p.i_calldata tx);
    Ok (Invoke_V0 {| i0_max_fee := max_fee; i0_signature := signature;
                     i0_contract_address := contract_address;
                     i0_entry_point_selector := entry_point_selector; i0_calldata := calldata |})
  else if p.i_version tx =? 1 then
    max_fee ← unwrap_opt (p.i_max_fee tx); max_fee ← fee max_fee;
    signature ← signature (p.i_signature tx);
    n ← unwrap_opt (p.i_nonce tx); nonce ← nonce n;
    sender_address ← contract_address (p.i_sender_address tx);
    calldata ← call_data (p.i_calldata tx);
    Ok (Invoke_V1 {| i1_max_fee := max_fee; i1_signature := signature; i1_nonce := nonce;
                     i1_sender_address := sender_address; i1_calldata := calldata |})
  else if p.i_version tx =? 3 then
    rb ← unwrap_opt (p.i_resource_bounds tx); resource_bounds ← resource_bounds rb;
    t ← unwrap_opt (p.i_tip tx);
    signature ← signature (p.i_signature tx);
    n ← unwrap_opt (p.i_nonce tx); nonce ← nonce n;
    sender_address ← contract_address (p.i_sender_address tx);
    calldata ← call_data (p.i_calldata tx);
    nda ← unwrap_opt (p.i_nonce_data_availability_mode tx);
    fda ← unwrap_opt (p.i_fee_data_availability_mode tx);
    pm ← unwrap_opt (p.i_paymaster_data tx); paymaster_data ← paymaster_data pm;
    ad ← unwrap_opt (p.i_account_deployment_data tx); account_deployment_data ← account_deployment_data ad;
    Ok (Invoke_V3 {| i3_resource_bounds := resource_bounds; i3_tip := tip t; i3_signature := signature;
                     i3_nonce := nonce; i3_sender_address := sender_address; i3_calldata := calldata;
                     i3_nonce_data_availability_mode := data_availability_mode nda;
                     i3_fee_data_availability_mode := data_availability_mode fda;
                     i3_paymaster_data := paymaster_data;
                     i3_account_deployment_data := account_deployment_data |})
  else Panic.

Definition l1_handler_transaction (tx : p.L1HandlerTransaction) : Res L1HandlerTransaction :=
  version ← transaction_version (p.lh_version tx);
  nonce ← nonce (default 0 (p.lh_nonce tx));
  contract_address ← contract_address (p.lh_contract_address tx);
  entry_point_selector ← entry_point (p.lh_entry_point_selector tx);
  calldata ← call_data (p.lh_calldata tx);
  Ok {| lh_version := version; lh_nonce := nonce; lh_contract_address := contract_address;
        lh_entry_point_selector := entry_point_selector; lh_calldata := calldata |}.

Definition transaction (transaction : p.TransactionType) : Res Transaction :=
  match transaction with
  | p.Declare_ tx => Tx_Declare <$> declare_transaction tx
  | p.Deploy tx => Tx_Deploy <$> deploy_transaction tx
  | p.DeployAccount tx => Tx_DeployAccount <$> deploy_account_transaction tx
  | p.InvokeFunction tx => Tx_Invoke <$> invoke_transaction tx
  | p.L1Handler tx => Tx_L1Handler <$> l1_handler_transaction tx
  end.

Definition transactions (txs : list p.TransactionType) : Res (list Transaction) := mapM transaction txs.

(** ** Events *)

Definition event (event : p.Event) : Res Event :=
  from_address ← contract_address (p.from_address event);
  keys ← mapM felt (p.keys event);
  data ← mapM felt (p.data event);
  Ok {| from_address := from_address; ev_keys := keys; ev_data := data |}.

Definition events (receipts : list p.ConfirmedTransactionReceipt) : Res (list Event) :=
  mapM event (receipts ≫= p.events).

(** The events of each receipt that has some, under the index of the receipt. *)
Definition ordered_events (receipts : list p.ConfirmedTransactionReceipt) : Res (list OrderedEvents) :=
  mapM (λ '(i, r), OrderedEvents_new (Z.of_nat i) <$> mapM event (p.events r))
    (filter (λ '(_, r), p.events r ≠ []) (imap pair receipts)).

(** ** State updates: from the provider's to starknet_core's *)

Record StorageEntry := { se_key : Z; se_value : Z }.
Record ContractStorageDiffItem := { csd_address : Z; csd_storage_entries : list StorageEntry }.
Record DeclaredClassItem := { dci_class_hash : Z; dci_compiled_class_hash : Z }.
Record DeployedContractItem := { dpi_address : Z; dpi_class_hash : Z }.
Record ReplacedClassItem := { rci_contract_address : Z; rci_class_hash : Z }.
Record NonceUpdate := { nu_contract_address : Z; nu_nonce : Z }.
Record StateDiffCore := {
  core_storage_diffs : list ContractStorageDiffItem;
  core_deprecated_declared_classes : list Z;
  core_declared_classes : list DeclaredClassItem;
  core_deployed_contracts : list DeployedContractItem;
  core_replaced_classes : list ReplacedClassItem;
  core_nonces : list NonceUpdate;
}.
Record PendingStateUpdate := { psu_old_root : Z; psu_state_diff : StateDiffCore }.

Definition storage_entries (storage_entries : list Provider.StorageDiff) : list StorageEntry :=
  map (λ d, {| se_key := Provider.key d; se_value := Provider.value d |}) storage_entries.
Definition storage_diffs (storage_diffs : gmap Z (list Provider.StorageDiff)) : list ContractStorageDiffItem :=
  map (λ '(address, entries), {| csd_address := address; csd_storage_entries := storage_entries entries |})
    (map_to_list storage_diffs).
Definition declared_classes (declared_classes : list Provider.DeclaredContract) : list DeclaredClassItem :=
  map (λ d, {| dci_class_hash := Provider.decl_class_hash d;
               dci_compiled_class_hash := Provider.compiled_class_hash d |}) declared_classes.
Definition deployed_contracts (deployed_contracts : list Provider.DeployedContract) : list DeployedContractItem :=
  map (λ d, {| dpi_address := Provider.address d; dpi_class_hash := Provider.class_hash d |}) deployed_contracts.
Definition replaced_classes (replaced_classes : list Provider.DeployedContract) : list ReplacedClassItem :=
  map (λ d, {| rci_contract_address := Provider.address d; rci_class_hash := Provider.class_hash d |})
    replaced_classes.
Definition nonces (nonces : gmap Z Z) : list NonceUpdate :=
  map (λ '(contract_address, nonce), {| nu_contract_address := contract_address; nu_nonce := nonce |})
    (map_to_list nonces).

Definition state_diff (state_diff : Provider.StateDiff) : StateDiffCore := {|
  core_storage_diffs := storage_diffs (Provider.storage_diffs state_diff);
  core_deprecated_declared_classes := Provider.old_declared_contracts state_diff;
  core_declared_classes := declared_classes (Provider.declared_classes state_diff);
  core_deployed_contracts := deployed_contracts (Provider.deployed_contracts state_diff);
  core_replaced_classes := replaced_classes (Provider.replaced_classes state_diff);
  core_nonces := nonces (Provider.nonces state_diff);
|}.

Definition state_update (state_update : Provider.StateUpdate) : PendingStateUpdate :=
  {| psu_old_root := Provider.old_root state_update;
     psu_state_diff := state_diff (Provider.state_diff state_update) |}.

(** ** Blocks *)

Context `{crypto : StarknetCrypto} `{ca : ContractAddresses} `{acc : TxAccessors}.
Context {B : Type} `{bt : BonsaiTrie B}.
Variable bonsai_new : Outcome unit B.
(** The chain id of the global configuration, when it can be read ([get_config]). *)
Variable config_chain_id : option Z.

Definition chain_id : Res Z :=
  match config_chain_id with
  | Some chain_id => Ok chain_id
  | None => unwrap (FieldElement_from_byte_slice_be [])
  end.

Definition commitments (transactions : list Transaction) (events : list Event) (block_number : Z) : Res (Z * Z) :=
  chain_id ← chain_id;
  calculate_commitments bonsai_new transactions events chain_id block_number.

Definition convert_block_sync (block : p.Block) : Res DeoxysBlock :=
  transactions ← transactions (p.transactions block);
  events ← events (p.transaction_receipts block);
  parent_block_hash ← felt (p.parent_block_hash block);
  block_number ← unwrap_opt (p.block_number block);
  let block_timestamp := p.timestamp block in
  root ← unwrap_opt (p.state_root block);
  global_state_root ← felt root;
  sequencer_address ← (match p.sequencer_address block with
                       | Some address => contract_address address
                       | None => contract_address 0
                       end);
  let transaction_count := Z.of_nat (length transactions) in
  let event_count := Z.of_nat (length events) in
  '(transaction_commitment, event_commitment) ← commitments transactions events block_number;
  protocol_version ← starknet_version (p.starknet_version block);
  l1_gas_price ← resource_price (p.l1_gas_price block) (p.l1_data_gas_price block);
  let l1_da_mode := l1_da_mode (p.l1_da_mode block) in
  let extra_data := (λ h, U256_from_big_endian (FieldElement_to_bytes_be h)) <$> p.block_hash block in
  let header := {|
    parent_block_hash := parent_block_hash; block_number := block_number;
    block_timestamp := block_timestamp; global_state_root := global_state_root;
    sequencer_address := sequencer_address; transaction_count := transaction_count;
    transaction_commitment := transaction_commitment; event_count := event_count;
    event_commitment := event_commitment; protocol_version := protocol_version;
    l1_gas_price := l1_gas_price; Blocks.l1_da_mode := l1_da_mode; extra_data := extra_data |} in
  ordered_events ← ordered_events (p.transaction_receipts block);
  Ok (DeoxysBlock_new header transactions ordered_events).

End Convert.
End convert.

(** ** Properties *)

Lemma mapM_app {E A B} (f : A → Outcome E B) l1 l2 :
  mapM f (l1 ++ l2) = (k1 ← mapM f l1; k2 ← mapM f l2; Ok (k1 ++ k2)).
Proof.
  induction l1 as [|x l1 IH]; simpl.
  - by destruct (mapM f l2).
  - unfold mbind in *. rewrite IH. destruct (f x); simpl; [|done..].
    destruct (mapM f l1); simpl; [|done..]. by destruct (mapM f l2).
Qed.

Lemma mapM_Ok_id {E A} (f : A → Outcome E A) l : Forall (λ x, f x = Ok x) l → mapM f l = Ok l.
Proof. intros H. rewrite (mapM_Ok_map f id) by done. by rewrite map_id. Qed.

Section Properties.
Context `{Hlibs : !FeltLibsSpec libs} `{Hbv : !BoundsFromVecSpec bv}.
Import convert.

Lemma felt_id x : is_felt x → felt x = Ok x.
Proof.
  intros Hx. unfold felt. rewrite to_bytes_be_ok by done.
  rewrite starkfelt_new_ok by auto using be_encode_length with bytes.
  rewrite be_decode_encode_felt by done. destruct Hx. rewrite (proj2 (Z.ltb_lt x P)) by done. simpl.
  by rewrite be_decode_encode_felt.
Qed.

Lemma felts_id l : Forall is_felt l → mapM felt l = Ok l.
Proof. intros H. apply mapM_Ok_id. eapply Forall_impl; [exact H|]. apply felt_id. Qed.

Lemma fee_spec x : is_felt x → fee x = if x <=? u128_max then Ok x else Panic.
Proof. intros Hx. unfold fee. rewrite try_into_u128_ok by done. by destruct (_ <=? _). Qed.

(** *** Events *)

(** The filtered enumeration of the receipts, from index [k]. *)
Definition numbered (k : nat) (receipts : list p.ConfirmedTransactionReceipt) :
    list (nat * p.ConfirmedTransactionReceipt) :=
  filter (λ '(_, r), p.events r ≠ []) (imap (λ i r, ((k + i)%nat, r)) receipts).

Lemma numbered_cons k r receipts :
  numbered k (r :: receipts) =
  (if decide (p.events r = []) then [] else [(k, r)]) ++ numbered (Datatypes.S k) receipts.
Proof.
  unfold numbered. simpl. rewrite filter_cons.
  rewrite (imap_ext _ (λ i r, ((Datatypes.S k + i)%nat, r))) by (intros; simpl; f_equal; lia).
  rewrite Nat.add_0_r. destruct (decide (p.events r = [])); destruct (decide (_ ≠ _)); naive_solver.
Qed.

Definition order_event : nat * p.ConfirmedTransactionReceipt → Res OrderedEvents :=
  λ '(i, r), OrderedEvents_new (Z.of_nat i) <$> mapM event (p.events r).

Lemma ordered_events_numbered receipts : ordered_events receipts = mapM order_event (numbered 0 receipts).
Proof. done. Qed.

Lemma order_events_spec k receipts evs :
  events receipts = Ok evs →
  ∃ oes, mapM order_event (numbered k receipts) = Ok oes ∧ (oes ≫= oe_events) = evs ∧
    StronglySorted Z.lt (oe_index <$> oes) ∧ Forall (λ o, Z.of_nat k ≤ oe_index o) oes ∧
    ∀ i es, OrderedEvents_new (Z.of_nat (k + i)) es ∈ oes ↔
      es ≠ [] ∧ ∃ r, receipts !! i = Some r ∧ mapM event (p.events r) = Ok es.
Proof.
  unfold events. revert k evs. induction receipts as [|r receipts IH]; intros k evs.
  { intros [= <-]. exists []. split_and!; try constructor; [inversion 1|].
    intros (_ & r & [=] & _). }
  rewrite bind_cons, mapM_app. destruct (mapM event (p.events r)) as [es| |] eqn:Heqo; [|done..].
  destruct (mapM event (receipts ≫= p.events)) as [evs'| |] eqn:Heqo0; [|done..]. intros [= <-].
  destruct (IH (Datatypes.S k) evs' eq_refl) as (oes & Hm & Hf & Hs & Hge & Hi).
  rewrite numbered_cons, mapM_app, Hm. clear IH Hm.
  destruct (decide (p.events r = [])) as [He|He].
  - rewrite He in Heqo. injection Heqo as <-. exists oes. simpl. split_and!; try done.
    + eapply Forall_impl; [exact Hge|]. simpl. lia.
    + intros [|i] es'; simpl.
      * split.
        -- intros Hin. eapply Forall_elem in Hin; [|exact Hge]. simpl in Hin. lia.
        -- intros (Hne & r' & [= <-] & Hr). rewrite He in Hr. by injection Hr as <-.
      * rewrite <-Hi. by rewrite <-Nat.add_succ_comm.
  - simpl. rewrite Heqo. simpl. exists (OrderedEvents_new (Z.of_nat k) es :: oes).
    assert (es ≠ []) as Hes.
    { intros ->. destruct (p.events r) as [|e l]; [done|]. simpl in Heqo. ok_inv. }
    split_and!; [done|by rewrite bind_cons, Hf| | |].
    + constructor; [done|]. apply Forall_fmap. eapply Forall_impl; [exact Hge|]. simpl. lia.
    + constructor; [done|]. eapply Forall_impl; [exact Hge|]. simpl. lia.
    + intros [|i] es'; rewrite elem_of_cons; simpl.
      * rewrite Nat.add_0_r. split.
        -- intros [[= ->]|Hin]; [naive_solver|].
           eapply Forall_elem in Hin; [|exact Hge]. simpl in Hin. lia.
        -- intros (Hne & r' & [= <-] & Hr). left. rewrite Heqo in Hr. by injection Hr as <-.
      * rewrite <-Hi, <-Nat.add_succ_comm. split; [|by right].
        intros [[= Hk _]|?]; [lia|done].
Qed.

(** Mapping over the groups of events is mapping over the receipts: what has no
    events contributes nothing. *)
Lemma ordered_events_map {A} (f : nat → Event → A) k receipts evs oes :
  events receipts = Ok evs → mapM order_event (numbered k receipts) = Ok oes →
  Forall (λ o, Z.of_nat k ≤ oe_index o < Z.of_nat (k + length receipts)) oes ∧
  ∃ gs, mapM (λ r, mapM event (p.events r)) receipts = Ok gs ∧
    concat (map (λ o, map (f (Z.to_nat (oe_index o))) (oe_events o)) oes) =
    concat (imap (λ i es, map (f (k + i)%nat) es) gs).
Proof.
  unfold events. revert k evs oes. induction receipts as [|r receipts IH]; intros k evs oes.
  { intros [= <-] [= <-]. split; [constructor|]. by exists []. }
  rewrite bind_cons, numbered_cons, !mapM_app.
  destruct (mapM event (p.events r)) as [es| |] eqn:He; [|done..].
  destruct (mapM event (receipts ≫= p.events)) as [evs'| |] eqn:Hes; [|done..]. intros _.
  destruct (mapM order_event (numbered _ _)) as [oes'| |] eqn:Ho;
    [|intros H; by repeat (simpl in H; ok_inv)..].
  destruct (IH _ _ _ eq_refl Ho) as (Hb & gs & Hgs & Hc). intros H.
  assert (oes = (if decide (p.events r = []) then [] else [OrderedEvents_new (Z.of_nat k) es]) ++ oes') as ->.
  { destruct (decide _); simpl in H; [by injection H|]. rewrite He in H. simpl in H. by injection H. }
  split.
  { apply Forall_app. split; [destruct (decide _); [constructor|apply Forall_singleton; simpl; lia]|].
    eapply Forall_impl; [exact Hb|]. simpl. lia. }
  exists (es :: gs). simpl. rewrite He, Hgs. split; [done|]. rewrite map_app, concat_app, Hc. f_equal.
  - destruct (decide (p.events r = [])) as [Hnil|]; simpl.
    + rewrite Hnil in He. by injection He as <-.
    + by rewrite Nat2Z.id, Nat.add_0_r, app_nil_r.
  - f_equal. apply imap_ext. intros i x _. simpl. by rewrite Nat.add_succ_r.
Qed.

(** The events of a block are kept by transaction without loss: whenever
    the events of the receipts convert, so do the ordered events; read in order
    they are exactly those events, their indices increase strictly, and a group
    of events is filed under the index of a receipt exactly when it is not empty
    and is what that receipt converts to. *)
Theorem ordered_events_faithful receipts evs :
  events receipts = Ok evs →
  ∃ oes, ordered_events receipts = Ok oes ∧ (oes ≫= oe_events) = evs ∧
    StronglySorted Z.lt (oe_index <$> oes) ∧
    ∀ i es, OrderedEvents_new (Z.of_nat i) es ∈ oes ↔
      es ≠ [] ∧ ∃ r, receipts !! i = Some r ∧ mapM event (p.events r) = Ok es.
Proof.
  intros H. destruct (order_events_spec 0 receipts evs H) as (oes & ? & ? & ? & _ & ?).
  exists oes. by rewrite ordered_events_numbered.
Qed.

(** *** Transactions *)

Definition opt_ok {A} (P : A → Prop) (o : option A) : Prop := ∀ a, o = Some a → P a.

Definition wf_p_bounds (m : p.ResourceBoundsMapping) : Prop :=
  Forall (λ b, is_u64 (max_amount b) ∧ is_u128 (max_price_per_unit b)) [p.l1_gas m; p.l2_gas m].

(** The ranges of the provider's types. *)
Definition wf_p_tx (tx : p.TransactionType) : Prop :=
  match tx with
  | p.Declare_ t =>
      opt_ok is_felt (p.d_max_fee t) ∧ Forall is_felt (p.d_signature t) ∧ is_felt (p.d_nonce t) ∧
      is_felt (p.d_class_hash t) ∧ opt_ok is_felt (p.d_compiled_class_hash t) ∧
      is_felt (p.d_sender_address t) ∧ opt_ok wf_p_bounds (p.d_resource_bounds t) ∧ opt_ok is_u64 (p.d_tip t) ∧
      opt_ok (Forall is_felt) (p.d_paymaster_data t) ∧ opt_ok (Forall is_felt) (p.d_account_deployment_data t)
  | p.Deploy t =>
      is_felt (p.dp_version t) ∧ is_felt (p.dp_class_hash t) ∧ is_felt (p.dp_contract_address_salt t) ∧
      Forall is_felt (p.dp_constructor_calldata t)
  | p.DeployAccount t =>
      opt_ok is_felt (p.da_max_fee t) ∧ Forall is_felt (p.da_signature t) ∧ is_felt (p.da_nonce t) ∧
      is_felt (p.da_class_hash t) ∧ is_felt (p.da_contract_address_salt t) ∧
      Forall is_felt (p.da_constructor_calldata t) ∧ opt_ok wf_p_bounds (p.da_resource_bounds t) ∧
      opt_ok is_u64 (p.da_tip t) ∧ opt_ok (Forall is_felt) (p.da_paymaster_data t)
  | p.InvokeFunction t =>
      opt_ok is_felt (p.i_max_fee t) ∧ Forall is_felt (p.i_signature t) ∧ opt_ok is_felt (p.i_nonce t) ∧
      is_felt (p.i_sender_address t) ∧ opt_ok is_felt (p.i_entry_point_selector t) ∧
      Forall is_felt (p.i_calldata t) ∧ opt_ok wf_p_bounds (p.i_resource_bounds t) ∧
      opt_ok is_u64 (p.i_tip t) ∧ opt_ok (Forall is_felt) (p.i_paymaster_data t) ∧
      opt_ok (Forall is_felt) (p.i_account_deployment_data t)
  | p.L1Handler t =>
      is_felt (p.lh_version t) ∧ opt_ok is_felt (p.lh_nonce t) ∧ is_felt (p.lh_contract_address t) ∧
      is_felt (p.lh_entry_point_selector t) ∧ Forall is_felt (p.lh_calldata t)
  end.

Definition has {A} (o : option A) : bool := match o with Some _ => true | None => false end.
Definition fee_fits (o : option Z) : bool := match o with Some f => f <=? u128_max | None => false end.

(** The transactions the conversion accepts: a supported version with the fields
    of that version, the fee fitting an [u128]. *)
Definition convertible (tx : p.TransactionType) : bool :=
  match tx with
  | p.Declare_ t =>
      if (p.d_version t =? 0) || (p.d_version t =? 1) then fee_fits (p.d_max_fee t)
      else if p.d_version t =? 2 then fee_fits (p.d_max_fee t) && has (p.d_compiled_class_hash t)
      else (p.d_version t =? 3) && has (p.d_resource_bounds t) && has (p.d_tip t)
           && has (p.d_compiled_class_hash t) && has (p.d_nonce_data_availability_mode t)
           && has (p.d_fee_data_availability_mode t) && has (p.d_paymaster_data t)
           && has (p.d_account_deployment_data t)
  | p.Deploy _ | p.L1Handler _ => true
  | p.DeployAccount t =>
      if has (p.da_resource_bounds t) then
        has (p.da_tip t) && has (p.da_nonce_data_availability_mode t)
        && has (p.da_fee_data_availability_mode t) && has (p.da_paymaster_data t)
      else fee_fits (p.da_max_fee t)
  | p.InvokeFunction t =>
      if p.i_version t =? 0 then fee_fits (p.i_max_fee t) && has (p.i_entry_point_selector t)
      else if p.i_version t =? 1 then fee_fits (p.i_max_fee t) && has (p.i_nonce t)
      else (p.i_version t =? 3) && has (p.i_resource_bounds t) && has (p.i_tip t) && has (p.i_nonce t)
           && has (p.i_nonce_data_availability_mode t) && has (p.i_fee_data_availability_mode t)
           && has (p.i_paymaster_data t) && has (p.i_account_deployment_data t)
  end.

Lemma resource_bounds_spec m :
  resource_bounds m = Ok (<[L1Gas := p.l1_gas m]> {[L2Gas := p.l2_gas m]}).
Proof.
  unfold resource_bounds. rewrite bounds_from_both. by destruct (p.l1_gas m), (p.l2_gas m).
Qed.

Lemma wf_resource_bounds m :
  wf_p_bounds m → wf_bounds (<[L1Gas := p.l1_gas m]> {[L2Gas := p.l2_gas m]}).
Proof.
  intros [H1 [H2 _]%Forall_cons]%Forall_cons r b.
  intros [[_ <-]|[_ [_ <-]%lookup_singleton_Some]]%lookup_insert_Some; done.
Qed.

(** Runs a conversion whose values are in range. *)
Ltac run_convert :=
  repeat match goal with
  | H : _ ∧ _ |- _ => destruct H
  | H : opt_ok _ (Some _) |- _ => specialize (H _ eq_refl)
  end;
  repeat first
    [ progress (unfold signature, contract_address, entry_point, call_data, nonce, class_hash,
        compiled_class_hash, contract_address_salt, transaction_version, paymaster_data,
        account_deployment_data)
    | match goal with
      | |- context [resource_bounds ?m] => rewrite (resource_bounds_spec m)
      | H : is_felt ?x |- context [felt ?x] => rewrite (felt_id x H)
      | H : Forall is_felt ?l |- context [mapM felt ?l] => rewrite (felts_id l H)
      | H : is_felt ?x |- context [fee ?x] => rewrite (fee_spec x H)
      end ].

(** Splits on the next optional field. *)
Ltac split_fields :=
  repeat (run_convert; simpl;
    match goal with
    | |- context [unwrap_opt ?o] => is_var o; destruct o; simpl
    | |- context [fee_fits ?o] => is_var o; destruct o; simpl
    | |- context [has ?o] => is_var o; destruct o; simpl
    | |- context [?x <=? u128_max] => destruct (x <=? u128_max) eqn:?; bool_to_prop; simpl
    end); run_convert; simpl.

(** What the node stores for a transaction of the sequencer, field by field.  A declare
    transaction of version 0 is stored as one of version 1; a missing nonce of an L1
    handler is 0. *)
Inductive same_mode : p.DataAvailabilityMode → DataAvailabilityMode → Prop :=
| same_L1 : same_mode p.L1 DA_L1
| same_L2 : same_mode p.L2 DA_L2.

Definition both (m : p.ResourceBoundsMapping) : ResourceBoundsMapping := <[L1Gas := p.l1_gas m]> {[L2Gas := p.l2_gas m]}.

Inductive stored_as : p.TransactionType → Transaction → Prop :=
| stored_declare_v0_v1 t fee :
    p.d_version t = 0 ∨ p.d_version t = 1 → p.d_max_fee t = Some fee → fee ≤ u128_max →
    stored_as (p.Declare_ t) (Tx_Declare (Declare_V1 {| d1_max_fee := fee; d1_signature := p.d_signature t;
      d1_nonce := p.d_nonce t; d1_class_hash := p.d_class_hash t; d1_sender_address := p.d_sender_address t |}))
| stored_declare_v2 t fee cc :
    p.d_version t = 2 → p.d_max_fee t = Some fee → fee ≤ u128_max → p.d_compiled_class_hash t = Some cc →
    stored_as (p.Declare_ t) (Tx_Declare (Declare_V2 {| d2_max_fee := fee; d2_signature := p.d_signature t;
      d2_nonce := p.d_nonce t; d2_class_hash := p.d_class_hash t; d2_compiled_class_hash := cc;
      d2_sender_address := p.d_sender_address t |}))
| stored_declare_v3 t rb tip cc nda nda' fda fda' pm ad :
    p.d_version t = 3 → p.d_resource_bounds t = Some rb → p.d_tip t = Some tip → p.d_compiled_class_hash t = Some cc →
    p.d_nonce_data_availability_mode t = Some nda → same_mode nda nda' →
    p.d_fee_data_availability_mode t = Some fda → same_mode fda fda' →
    p.d_paymaster_data t = Some pm → p.d_account_deployment_data t = Some ad →
    stored_as (p.Declare_ t) (Tx_Declare (Declare_V3 {| d3_resource_bounds := both rb; d3_tip := tip;
      d3_signature := p.d_signature t; d3_nonce := p.d_nonce t; d3_class_hash := p.d_class_hash t;
      d3_compiled_class_hash := cc; d3_sender_address := p.d_sender_address t;
      d3_nonce_data_availability_mode := nda'; d3_fee_data_availability_mode := fda';
      d3_paymaster_data := pm; d3_account_deployment_data := ad |}))
| stored_deploy t :
    stored_as (p.Deploy t) (Tx_Deploy {| dp_version := p.dp_version t; dp_class_hash := p.dp_class_hash t;
      dp_contract_address_salt := p.dp_contract_address_salt t;
      dp_constructor_calldata := p.dp_constructor_calldata t |})
| stored_deploy_account_v1 t fee :
    p.da_resource_bounds t = None → p.da_max_fee t = Some fee → fee ≤ u128_max →
    stored_as (p.DeployAccount t) (Tx_DeployAccount (DeployAccount_V1 {| da1_max_fee := fee;
      da1_signature := p.da_signature t; da1_nonce := p.da_nonce t; da1_class_hash := p.da_class_hash t;
      da1_contract_address_salt := p.da_contract_address_salt t;
      da1_constructor_calldata := p.da_constructor_calldata t |}))
| stored_deploy_account_v3 t rb tip nda nda' fda fda' pm :
    p.da_resource_bounds t = Some rb → p.da_tip t = Some tip →
    p.da_nonce_data_availability_mode t = Some nda → same_mode nda nda' →
    p.da_fee_data_availability_mode t = Some fda → same_mode fda fda' → p.da_paymaster_data t = Some pm →
    stored_as (p.DeployAccount t) (Tx_DeployAccount (DeployAccount_V3 {| da3_resource_bounds := both rb;
      da3_tip := tip; da3_signature := p.da_signature t; da3_nonce := p.da_nonce t;
      da3_class_hash := p.da_class_hash t; da3_contract_address_salt := p.da_contract_address_salt t;
      da3_constructor_calldata := p.da_constructor_calldata t; da3_nonce_data_availability_mode := nda';
      da3_fee_data_availability_mode := fda'; da3_paymaster_data := pm |}))
| stored_invoke_v0 t fee ep :
    p.i_version t = 0 → p.i_max_fee t = Some fee → fee ≤ u128_max → p.i_entry_point_selector t = Some ep →
    stored_as (p.InvokeFunction t) (Tx_Invoke (Invoke_V0 {| i0_max_fee := fee; i0_signature := p.i_signature t;
      i0_contract_address := p.i_sender_address t; i0_entry_point_selector := ep; i0_calldata := p.i_calldata t |}))
| stored_invoke_v1 t fee n :
    p.i_version t = 1 → p.i_max_fee t = Some fee → fee ≤ u128_max → p.i_nonce t = Some n →
    stored_as (p.InvokeFunction t) (Tx_Invoke (Invoke_V1 {| i1_max_fee := fee; i1_signature := p.i_signature t;
      i1_nonce := n; i1_sender_address := p.i_sender_address t; i1_calldata := p.i_calldata t |}))
| stored_invoke_v3 t rb tip n nda nda' fda fda' pm ad :
    p.i_version t = 3 → p.i_resource_bounds t = Some rb → p.i_tip t = Some tip → p.i_nonce t = Some n →
    p.i_nonce_data_availability_mode t = Some nda → same_mode nda nda' →
    p.i_fee_data_availability_mode t = Some fda → same_mode fda fda' →
    p.i_paymaster_data t = Some pm → p.i_account_deployment_data t = Some ad →
    stored_as (p.InvokeFunction t) (Tx_Invoke (Invoke_V3 {| i3_resource_bounds := both rb; i3_tip := tip;
      i3_signature := p.i_signature t; i3_nonce := n; i3_sender_address := p.i_sender_address t;
      i3_calldata := p.i_calldata t; i3_nonce_data_availability_mode := nda'; i3_fee_data_availability_mode := fda';
      i3_paymaster_data := pm; i3_account_deployment_data := ad |}))
| stored_l1_handler t :
    stored_as (p.L1Handler t) (Tx_L1Handler {| lh_version := p.lh_version t; lh_nonce := default 0 (p.lh_nonce t);
      lh_contract_address := p.lh_contract_address t; lh_entry_point_selector := p.lh_entry_point_selector t;
      lh_calldata := p.lh_calldata t |}).

Lemma same_mode_converted m : same_mode m (data_availability_mode m).
Proof. by destruct m; constructor. Qed.

Definition converts (tx : p.TransactionType) : Prop :=
  if convertible tx then ∃ t, transaction tx = Ok t ∧ well_ranged t ∧ stored_as tx t else transaction tx = Panic.

Ltac finish_convert :=
  rewrite ?andb_false_r; try done;
  try (eexists; split; [reflexivity|]; split; [split; simpl;
       [ repeat match goal with |- _ ∧ _ => split end; auto using wf_resource_bounds;
         unfold is_felt, is_u128 in *; lia
       | repeat (apply Forall_cons_2 || apply Forall_app_2 || apply Forall_nil_2); done ]|]);
  try (rewrite ?orb_true_iff, ?Z.eqb_eq in *;
       econstructor; simpl; first [reflexivity | apply same_mode_converted | done | lia]).

Lemma declare_converts t : wf_p_tx (p.Declare_ t) → converts (p.Declare_ t).
Proof.
  destruct t as [v f s n c cc sa rb tp nda fda pm ad]. intros W. unfold converts, transaction, declare_transaction.
  simpl in *. destruct ((v =? 0) || (v =? 1)) eqn:E1; [split_fields; finish_convert|].
  destruct (v =? 2) eqn:E2; [split_fields; finish_convert|].
  destruct (v =? 3) eqn:E3; [|done]. split_fields; finish_convert.
Qed.

Lemma invoke_converts t : wf_p_tx (p.InvokeFunction t) → converts (p.InvokeFunction t).
Proof.
  destruct t as [v f s n sa ep cd rb tp nda fda pm ad]. intros W. unfold converts, transaction, invoke_transaction.
  simpl in *. destruct (v =? 0) eqn:E1; [split_fields; finish_convert|].
  destruct (v =? 1) eqn:E2; [split_fields; finish_convert|].
  destruct (v =? 3) eqn:E3; [|done]. split_fields; finish_convert.
Qed.

Lemma deploy_account_converts t : wf_p_tx (p.DeployAccount t) → converts (p.DeployAccount t).
Proof.
  destruct t as [f s n c sl cd rb tp nda fda pm]. intros W.
  unfold converts, transaction, deploy_account_transaction, deploy_account_transaction_version.
  simpl in *. destruct rb as [rb|]; simpl; split_fields; finish_convert.
Qed.

Lemma transaction_converts tx : wf_p_tx tx → converts tx.
Proof.
  destruct tx as [t|t|t|t|t]; [apply declare_converts | | apply deploy_account_converts
    | apply invoke_converts | ]; destruct t; intros W; unfold converts; simpl in *.
  - unfold deploy_transaction. simpl. split_fields; finish_convert.
  - unfold l1_handler_transaction. simpl.
    assert (is_felt (default 0 lh_nonce)) by (destruct W as (_ & W & _); destruct lh_nonce; [by apply W | done]).
    split_fields; finish_convert.
Qed.

(** The conversion of a transaction succeeds exactly on the supported
    versions with all the fields of their version (the fee within an [u128]), and
    panics on everything else; what it gives is in the ranges the hash functions
    rely on. *)
Theorem transaction_conversion_total tx :
  wf_p_tx tx →
  is_ok (transaction tx) = convertible tx ∧ ∀ t, transaction tx = Ok t → wf_tx t.
Proof.
  intros W. pose proof (transaction_converts tx W) as C. unfold converts in C.
  destruct (convertible tx); [|by rewrite C]. destruct C as (t & -> & [Ht _] & _).
  split; [done|]. by intros t' [= <-].
Qed.

(** A transaction of the node, as the sequencer presents it. *)
Definition p_bounds (m : ResourceBoundsMapping) : option p.ResourceBoundsMapping :=
  l1 ← m !! L1Gas; l2 ← m !! L2Gas; Some {| p.l1_gas := l1; p.l2_gas := l2 |}.
Definition p_mode (m : DataAvailabilityMode) : p.DataAvailabilityMode :=
  match m with DA_L1 => p.L1 | DA_L2 => p.L2 end.

Definition present_declare (v : Z) (fee : option Z) (signature : list Z) (n c : Z) (cc : option Z) (sender : Z)
    (t : option DeclareTransactionV3) : p.TransactionType :=
  p.Declare_ {| p.d_version := v; p.d_max_fee := fee; p.d_signature := signature; p.d_nonce := n;
    p.d_class_hash := c; p.d_compiled_class_hash := cc; p.d_sender_address := sender;
    p.d_resource_bounds := t ≫= p_bounds ∘ d3_resource_bounds; p.d_tip := d3_tip <$> t;
    p.d_nonce_data_availability_mode := p_mode ∘ d3_nonce_data_availability_mode <$> t;
    p.d_fee_data_availability_mode := p_mode ∘ d3_fee_data_availability_mode <$> t;
    p.d_paymaster_data := d3_paymaster_data <$> t;
    p.d_account_deployment_data := d3_account_deployment_data <$> t |}.

Definition present_invoke (v : Z) (fee : option Z) (signature : list Z) (n : option Z) (sender : Z)
    (ep : option Z) (calldata : list Z) (t : option InvokeTransactionV3) : p.TransactionType :=
  p.InvokeFunction {| p.i_version := v; p.i_max_fee := fee; p.i_signature := signature; p.i_nonce := n;
    p.i_sender_address := sender; p.i_entry_point_selector := ep; p.i_calldata := calldata;
    p.i_resource_bounds := t ≫= p_bounds ∘ i3_resource_bounds; p.i_tip := i3_tip <$> t;
    p.i_nonce_data_availability_mode := p_mode ∘ i3_nonce_data_availability_mode <$> t;
    p.i_fee_data_availability_mode := p_mode ∘ i3_fee_data_availability_mode <$> t;
    p.i_paymaster_data := i3_paymaster_data <$> t;
    p.i_account_deployment_data := i3_account_deployment_data <$> t |}.

Definition present_deploy_account (fee : option Z) (signature : list Z) (n c salt : Z) (calldata : list Z)
    (t : option DeployAccountTransactionV3) : p.TransactionType :=
  p.DeployAccount {| p.da_max_fee := fee; p.da_signature := signature; p.da_nonce := n; p.da_class_hash := c;
    p.da_contract_address_salt := salt; p.da_constructor_calldata := calldata;
    p.da_resource_bounds := t ≫= p_bounds ∘ da3_resource_bounds; p.da_tip := da3_tip <$> t;
    p.da_nonce_data_availability_mode := p_mode ∘ da3_nonce_data_availability_mode <$> t;
    p.da_fee_data_availability_mode := p_mode ∘ da3_fee_data_availability_mode <$> t;
    p.da_paymaster_data := da3_paymaster_data <$> t |}.

Definition present (t : Transaction) : p.TransactionType :=
  match t with
  | Tx_Declare (Declare_V0 t) => present_declare 0 (Some (d1_max_fee t)) (d1_signature t) (d1_nonce t)
      (d1_class_hash t) None (d1_sender_address t) None
  | Tx_Declare (Declare_V1 t) => present_declare 1 (Some (d1_max_fee t)) (d1_signature t) (d1_nonce t)
      (d1_class_hash t) None (d1_sender_address t) None
  | Tx_Declare (Declare_V2 t) => present_declare 2 (Some (d2_max_fee t)) (d2_signature t) (d2_nonce t)
      (d2_class_hash t) (Some (d2_compiled_class_hash t)) (d2_sender_address t) None
  | Tx_Declare (Declare_V3 t) => present_declare 3 None (d3_signature t) (d3_nonce t)
      (d3_class_hash t) (Some (d3_compiled_class_hash t)) (d3_sender_address t) (Some t)
  | Tx_Deploy t => p.Deploy {| p.dp_version := dp_version t; p.dp_class_hash := dp_class_hash t;
      p.dp_contract_address_salt := dp_contract_address_salt t;
      p.dp_constructor_calldata := dp_constructor_calldata t |}
  | Tx_DeployAccount (DeployAccount_V1 t) => present_deploy_account (Some (da1_max_fee t)) (da1_signature t)
      (da1_nonce t) (da1_class_hash t) (da1_contract_address_salt t) (da1_constructor_calldata t) None
  | Tx_DeployAccount (DeployAccount_V3 t) => present_deploy_account None (da3_signature t)
      (da3_nonce t) (da3_class_hash t) (da3_contract_address_salt t) (da3_constructor_calldata t) (Some t)
  | Tx_Invoke (Invoke_V0 t) => present_invoke 0 (Some (i0_max_fee t)) (i0_signature t) None
      (i0_contract_address t) (Some (i0_entry_point_selector t)) (i0_calldata t) None
  | Tx_Invoke (Invoke_V1 t) => present_invoke 1 (Some (i1_max_fee t)) (i1_signature t) (Some (i1_nonce t))
      (i1_sender_address t) None (i1_calldata t) None
  | Tx_Invoke (Invoke_V3 t) => present_invoke 3 None (i3_signature t) (Some (i3_nonce t))
      (i3_sender_address t) None (i3_calldata t) (Some t)
  | Tx_L1Handler t => p.L1Handler {| p.lh_version := lh_version t; p.lh_nonce := Some (lh_nonce t);
      p.lh_contract_address := lh_contract_address t; p.lh_entry_point_selector := lh_entry_point_selector t;
      p.lh_calldata := lh_calldata t |}
  end.

(** The bounds of both resources are given. *)
Definition full_bounds (t : Transaction) : Prop :=
  match t with
  | Tx_Declare (Declare_V3 t) => is_Some (p_bounds (d3_resource_bounds t))
  | Tx_DeployAccount (DeployAccount_V3 t) => is_Some (p_bounds (da3_resource_bounds t))
  | Tx_Invoke (Invoke_V3 t) => is_Some (p_bounds (i3_resource_bounds t))
  | _ => True
  end.

(** The conversion folds the two oldest versions of declare transactions. *)
Definition folded (t : Transaction) : Transaction :=
  match t with Tx_Declare (Declare_V0 t) => Tx_Declare (Declare_V1 t) | _ => t end.

Lemma p_bounds_full m pm : p_bounds m = Some pm → m = <[L1Gas := p.l1_gas pm]> {[L2Gas := p.l2_gas pm]}.
Proof.
  unfold p_bounds. destruct (m !! L1Gas) as [l1|] eqn:E1; [|done]. simpl.
  destruct (m !! L2Gas) as [l2|] eqn:E2; [|done]. simpl. intros [= <-]. simpl.
  apply map_eq. intros [].
  - rewrite E1. symmetry. apply lookup_insert_eq.
  - rewrite E2. symmetry. rewrite lookup_insert_ne by done. apply lookup_singleton_eq.
Qed.

Lemma mode_present m : data_availability_mode (p_mode m) = m.
Proof. by destruct m. Qed.

(** C24: The conversion keeps every field: the transaction a sequencer presents
    with the fields of a node transaction converts to that transaction, for every
    type and version, except that a declare transaction of version 0 becomes one
    of version 1. *)
Theorem transaction_conversion_roundtrip t :
  wf_p_tx (present t) → wf_tx t → full_bounds t → transaction (present t) = Ok (folded t).
Proof.
  intros W T B.
  destruct t as [[[]|[]|[]|[]]|[]|[[]|[]]|[[]|[]|[]]|[]]; simpl in W, T, B.
  all: unfold transaction, present, folded, declare_transaction, invoke_transaction, deploy_transaction,
    deploy_account_transaction, deploy_account_transaction_version, l1_handler_transaction; simpl.
  all: try (destruct B as [pm Hpm]; rewrite Hpm in *; apply p_bounds_full in Hpm as ->; simpl).
  all: run_convert; simpl; rewrite ?mode_present; try done.
  all: rewrite (proj2 (Z.leb_le _ u128_max)) by (unfold is_u128 in *; lia); by run_convert.
Qed.

(** ** What a client receives for a transaction of the sequencer

    Field by field, with the hash [h] it is served under.  A declare transaction of
    version 0 is served as one of version 1, and deploy and L1 handler transactions with
    version 0. *)
Inductive core_mode : p.DataAvailabilityMode → core.DataAvailabilityMode → Prop :=
| core_L1 : core_mode p.L1 core.L1
| core_L2 : core_mode p.L2 core.L2.

Definition core_bounds (m : p.ResourceBoundsMapping) : core.ResourceBoundsMapping :=
  {| core.l1_gas := p.l1_gas m; core.l2_gas := p.l2_gas m |}.

Inductive served_as (h : Z) : p.TransactionType → core.Transaction → Prop :=
| served_declare_v0_v1 t fee :
    p.d_version t = 0 ∨ p.d_version t = 1 → p.d_max_fee t = Some fee →
    served_as h (p.Declare_ t) (core.Declare_ (core.Declare_V1 h fee (p.d_signature t) (p.d_nonce t)
      (p.d_class_hash t) (p.d_sender_address t)))
| served_declare_v2 t fee cc :
    p.d_version t = 2 → p.d_max_fee t = Some fee → p.d_compiled_class_hash t = Some cc →
    served_as h (p.Declare_ t) (core.Declare_ (core.Declare_V2 h fee (p.d_signature t) (p.d_nonce t)
      (p.d_class_hash t) (p.d_sender_address t) cc))
| served_declare_v3 t rb tip cc nda nda' fda fda' pm ad :
    p.d_version t = 3 → p.d_resource_bounds t = Some rb → p.d_tip t = Some tip → p.d_compiled_class_hash t = Some cc →
    p.d_nonce_data_availability_mode t = Some nda → core_mode nda nda' →
    p.d_fee_data_availability_mode t = Some fda → core_mode fda fda' →
    p.d_paymaster_data t = Some pm → p.d_account_deployment_data t = Some ad →
    served_as h (p.Declare_ t) (core.Declare_ (core.Declare_V3 h (core_bounds rb) tip (p.d_signature t) (p.d_nonce t)
      (p.d_class_hash t) cc (p.d_sender_address t) nda' fda' pm ad))
| served_deploy t :
    served_as h (p.Deploy t) (core.Deploy h (p.dp_contract_address_salt t) (p.dp_constructor_calldata t)
      (p.dp_class_hash t) 0)
| served_deploy_account_v1 t fee :
    p.da_resource_bounds t = None → p.da_max_fee t = Some fee →
    served_as h (p.DeployAccount t) (core.DeployAccount (core.DeployAccount_V1 h fee (p.da_signature t) (p.da_nonce t)
      (p.da_contract_address_salt t) (p.da_constructor_calldata t) (p.da_class_hash t)))
| served_deploy_account_v3 t rb tip nda nda' fda fda' pm :
    p.da_resource_bounds t = Some rb → p.da_tip t = Some tip →
    p.da_nonce_data_availability_mode t = Some nda → core_mode nda nda' →
    p.da_fee_data_availability_mode t = Some fda → core_mode fda fda' → p.da_paymaster_data t = Some pm →
    served_as h (p.DeployAccount t) (core.DeployAccount (core.DeployAccount_V3 h (core_bounds rb) tip (p.da_signature t)
      (p.da_nonce t) (p.da_class_hash t) (p.da_contract_address_salt t) (p.da_constructor_calldata t) nda' fda' pm))
| served_invoke_v0 t fee ep :
    p.i_version t = 0 → p.i_max_fee t = Some fee → p.i_entry_point_selector t = Some ep →
    served_as h (p.InvokeFunction t) (core.Invoke (core.Invoke_V0 h fee (p.i_signature t) (p.i_sender_address t) ep
      (p.i_calldata t)))
| served_invoke_v1 t fee n :
    p.i_version t = 1 → p.i_max_fee t = Some fee → p.i_nonce t = Some n →
    served_as h (p.InvokeFunction t) (core.Invoke (core.Invoke_V1 h fee (p.i_signature t) n (p.i_sender_address t)
      (p.i_calldata t)))
| served_invoke_v3 t rb tip n nda nda' fda fda' pm ad :
    p.i_version t = 3 → p.i_resource_bounds t = Some rb → p.i_tip t = Some tip → p.i_nonce t = Some n →
    p.i_nonce_data_availability_mode t = Some nda → core_mode nda nda' →
    p.i_fee_data_availability_mode t = Some fda → core_mode fda fda' →
    p.i_paymaster_data t = Some pm → p.i_account_deployment_data t = Some ad →
    served_as h (p.InvokeFunction t) (core.Invoke (core.Invoke_V3 h (core_bounds rb) tip (p.i_signature t) n
      (p.i_sender_address t) (p.i_calldata t) nda' fda' pm ad))
| served_l1_handler t :
    served_as h (p.L1Handler t) (core.L1Handler h 0 (default 0 (p.lh_nonce t)) (p.lh_contract_address t)
      (p.lh_entry_point_selector t) (p.lh_calldata t)).

Lemma api_bounds_both rb m : api_bounds rb = both m → rb = core_bounds m.
Proof.
  intros H. destruct rb as [b1 b2]. unfold core_bounds.
  pose proof (f_equal (lookup L1Gas) H) as H1. pose proof (f_equal (lookup L2Gas) H) as H2.
  vm_compute in H1. vm_compute in H2. by simplify_eq.
Qed.

Lemma core_mode_same m m' c : same_mode m m' → api_mode c = m' → core_mode m c.
Proof. destruct 1, c; try done; constructor. Qed.

(** Storing and serving together. *)
Lemma stored_served tx t c : stored_as tx t → from_core c = normal t → served_as (core_hash c) tx c.
Proof.
  intros Hs Hc. destruct Hs; destruct c as [[]|[]| |[]|]; try discriminate Hc; cbn [normal from_core] in Hc;
    try match type of Hc with context [api_bounds ?r] => remember (api_bounds r) as x eqn:Hx end;
    try match type of Hc with context [both ?m] => remember (both m) as y eqn:Hy end;
    injection Hc; clear Hc; intros; subst; cbn [core_hash]; try (by econstructor).
  all: match goal with H : both _ = api_bounds _ |- _ => apply eq_sym, api_bounds_both in H
                  | H : api_bounds _ = both _ |- _ => apply api_bounds_both in H end; subst.
  all: econstructor; try eassumption; by eapply core_mode_same.
Qed.

Lemma served_as_hash h tx c : served_as h tx c → core_hash c = h.
Proof. by destruct 1. Qed.

(** The nonces of L1 handlers are served as 64-bit numbers. *)
Definition nonce_served (tx : p.TransactionType) : Prop :=
  match tx with p.L1Handler t => default 0 (p.lh_nonce t) ≤ u64_max | _ => True end.

Lemma stored_servable tx t : stored_as tx t → nonce_served tx → servable t = true.
Proof. destruct 1; cbn; try done; intros H. - by apply Z.leb_le in H. Qed.

(** *** State updates *)

(** The provider's state difference, read back from starknet_core's. *)
Definition provider_state_diff (d : StateDiffCore) : Provider.StateDiff := {|
  Provider.storage_diffs := list_to_map (map (λ i, (csd_address i,
     map (λ e, {| Provider.key := se_key e; Provider.value := se_value e |}) (csd_storage_entries i)))
     (core_storage_diffs d));
  Provider.deployed_contracts := map (λ i, {| Provider.address := dpi_address i;
     Provider.class_hash := dpi_class_hash i |}) (core_deployed_contracts d);
  Provider.old_declared_contracts := core_deprecated_declared_classes d;
  Provider.declared_classes := map (λ i, {| Provider.decl_class_hash := dci_class_hash i;
     Provider.compiled_class_hash := dci_compiled_class_hash i |}) (core_declared_classes d);
  Provider.nonces := list_to_map (map (λ n, (nu_contract_address n, nu_nonce n)) (core_nonces d));
  Provider.replaced_classes := map (λ i, {| Provider.address := rci_contract_address i;
     Provider.class_hash := rci_class_hash i |}) (core_replaced_classes d);
|}.

Lemma map_map_id {A B} (f : A → B) (g : B → A) l : (∀ x, g (f x) = x) → map g (map f l) = l.
Proof. intros H. rewrite map_map. induction l as [|x l IH]; simpl; [done|]. by rewrite H, IH. Qed.

(** The state difference handed to the RPC clients has exactly the content
    of the sequencer's, whatever order the hash maps are iterated in: every
    storage entry, nonce, deployment, declaration and replacement. *)
Theorem state_update_faithful u :
  provider_state_diff (psu_state_diff (state_update u)) = Provider.state_diff u ∧
  psu_old_root (state_update u) = Provider.old_root u.
Proof.
  split; [|done]. destruct u as [bh nr old [sd dc od dcl ns rc]].
  unfold state_update, provider_state_diff, state_diff. simpl. f_equal.
  - unfold storage_diffs. rewrite map_map_id; [apply list_to_map_to_list|].
    intros [a es]. simpl. f_equal. unfold storage_entries. apply map_map_id. by intros [].
  - apply map_map_id. by intros [].
  - apply map_map_id. by intros [].
  - unfold nonces. rewrite map_map_id; [apply list_to_map_to_list|]. by intros [].
  - apply map_map_id. by intros [].
Qed.

(** *** Blocks *)

Definition wf_p_event (e : p.Event) : Prop :=
  is_felt (p.from_address e) ∧ Forall is_felt (p.keys e) ∧ Forall is_felt (p.data e).

Definition wf_p_price (r : p.ResourcePrice) : Prop := is_felt (p.price_in_wei r) ∧ is_felt (p.price_in_fri r).

(** The ranges of the fields of a sequencer block; the lists fit in memory. *)
Record wf_p_block (b : p.Block) : Prop := {
  wfb_txs : Forall wf_p_tx (p.transactions b);
  wfb_events : Forall (λ r, Forall wf_p_event (p.events r)) (p.transaction_receipts b);
  wfb_parent : is_felt (p.parent_block_hash b);
  wfb_number : opt_ok is_u64 (p.block_number b);
  wfb_timestamp : is_u64 (p.timestamp b);
  wfb_root : opt_ok is_felt (p.state_root b);
  wfb_sequencer : opt_ok is_felt (p.sequencer_address b);
  wfb_version : opt_ok all_bytes (p.starknet_version b);
  wfb_prices : wf_p_price (p.l1_gas_price b) ∧ wf_p_price (p.l1_data_gas_price b);
  wfb_hash : opt_ok is_felt (p.block_hash b);
  wfb_sizes : is_u64 (Z.of_nat (length (p.transactions b)))
              ∧ is_u64 (Z.of_nat (length (p.transaction_receipts b ≫= p.events)));
}.

Definition version_fits (v : option bytes) : bool :=
  match v with
  | Some bs => (length bs <=? 32)%nat && (be_decode bs <? P)
  | None => true
  end.

Definition prices_fit (l1 data : p.ResourcePrice) : bool :=
  (p.price_in_wei l1 =? 0) ||
  (p.price_in_wei l1 <=? u128_max) && (p.price_in_fri l1 <=? u128_max)
  && (p.price_in_wei data <=? u128_max) && (p.price_in_fri data <=? u128_max).

(** The blocks the conversion accepts. *)
Definition block_convertible (b : p.Block) : bool :=
  forallb convertible (p.transactions b) && has (p.block_number b) && has (p.state_root b)
  && version_fits (p.starknet_version b) && prices_fit (p.l1_gas_price b) (p.l1_data_gas_price b).

(** The gas prices recorded: none for a zero price in wei, otherwise at least one. *)
Definition gas_prices (l1 data : p.ResourcePrice) : option GasPrices :=
  if p.price_in_wei l1 =? 0 then None
  else Some {| eth_l1_gas_price := Z.max 1 (p.price_in_wei l1); strk_l1_gas_price := Z.max 1 (p.price_in_fri l1);
               eth_l1_data_gas_price := Z.max 1 (p.price_in_wei data);
               strk_l1_data_gas_price := Z.max 1 (p.price_in_fri data) |}.

Lemma event_id e : wf_p_event e →
  event e = Ok {| from_address := p.from_address e; ev_keys := p.keys e; ev_data := p.data e |}.
Proof. intros (? & ? & ?). unfold event. by run_convert. Qed.

Lemma non_zero_spec x : is_felt x →
  field_element_to_non_zero_u128 x = if x <=? u128_max then Ok (Z.max 1 x) else Panic.
Proof.
  intros Hx. unfold field_element_to_non_zero_u128. rewrite try_into_u128_ok by done.
  destruct Hx as [H0 _]. destruct (x =? 0) eqn:E0; bool_to_prop; [by subst|].
  destruct (x <=? u128_max) eqn:E1; [|done]. simpl. unfold NonZeroU128_new.
  rewrite (proj2 (Z.eqb_neq x 0)) by done. simpl. f_equal. lia.
Qed.

Lemma resource_price_spec l1 data : wf_p_price l1 → wf_p_price data →
  resource_price l1 data = if prices_fit l1 data then Ok (gas_prices l1 data) else Panic.
Proof.
  intros [? ?] [? ?]. unfold resource_price, prices_fit, gas_prices.
  destruct (p.price_in_wei l1 =? 0); [done|]. simpl. rewrite !non_zero_spec by done.
  by repeat (destruct (_ <=? u128_max); simpl).
Qed.

Lemma version_spec v : opt_ok all_bytes v →
  starknet_version v = if version_fits v then Ok (match v with Some bs => be_decode bs | None => 0 end) else Panic.
Proof.
  intros Hv. destruct v as [bs|]; [|done]. simpl. rewrite try_from_slice_ok by by apply Hv.
  destruct (32 <? length bs)%nat eqn:E.
  - apply Nat.ltb_lt in E. by rewrite (proj2 (Nat.leb_gt _ _)).
  - apply Nat.ltb_ge in E. rewrite (proj2 (Nat.leb_le _ _)) by done. simpl. by destruct (_ <? _).
Qed.

Lemma transactions_convert txs :
  Forall wf_p_tx txs →
  if forallb convertible txs then ∃ ts, transactions txs = Ok ts ∧ Forall well_ranged ts ∧ Forall2 stored_as txs ts
  else transactions txs = Panic.
Proof.
  unfold transactions. induction 1 as [|tx txs W _ IH]; simpl.
  { by exists []. }
  pose proof (transaction_converts tx W) as C. unfold converts in C. unfold mbind in *.
  destruct (convertible tx); simpl; [|by rewrite C]. destruct C as (t & -> & Ht & Hst). simpl.
  destruct (forallb convertible txs); [|by rewrite IH].
  destruct IH as (ts & -> & Hts & Hall). exists (t :: ts). simpl. auto.
Qed.

Definition plain_event (e : p.Event) : Event :=
  {| from_address := p.from_address e; ev_keys := p.keys e; ev_data := p.data e |}.

Lemma events_convert receipts :
  Forall (λ r, Forall wf_p_event (p.events r)) receipts →
  events receipts = Ok (map plain_event (receipts ≫= p.events)).
Proof.
  intros H. apply mapM_Ok_map. rewrite Forall_forall in H. apply Forall_forall.
  intros e (r & Hin & Hr)%list_elem_of_bind. apply event_id. eapply Forall_elem; [by apply H|done].
Qed.

(** The events of a block by transaction: those of each receipt that has some, under the
    position of the receipt. *)
Definition events_by_transaction (receipts : list p.ConfirmedTransactionReceipt) : list OrderedEvents :=
  concat (imap (λ i r, match p.events r with
                       | [] => []
                       | es => [{| oe_index := Z.of_nat i; oe_events := map plain_event es |}]
                       end) receipts).

Lemma ordered_events_grouped receipts :
  Forall (λ r, Forall wf_p_event (p.events r)) receipts →
  ordered_events receipts = Ok (events_by_transaction receipts).
Proof.
  rewrite ordered_events_numbered. unfold events_by_transaction.
  rewrite (imap_ext _ (λ i r, match p.events r with
    | [] => [] | es => [{| oe_index := Z.of_nat (0 + i); oe_events := map plain_event es |}] end)) by done.
  generalize 0%nat. intros k H. revert k. induction H as [|r receipts Hr _ IH]; intros k; [done|].
  rewrite numbered_cons, mapM_app. simpl concat. rewrite Nat.add_0_r.
  replace (imap _ receipts) with (imap (λ i r, match p.events r with
    | [] => [] | es => [{| oe_index := Z.of_nat (Datatypes.S k + i); oe_events := map plain_event es |}] end) receipts)
    by (apply imap_ext; intros i x _; simpl; by rewrite Nat.add_succ_r).
  rewrite IH. destruct (p.events r) as [|e es] eqn:He; [done|]. rewrite decide_False by done.
  cbn [mapM order_event]. rewrite He. rewrite (mapM_Ok_map event plain_event); [done|].
  eapply Forall_impl; [exact Hr|]. apply event_id.
Qed.

Context `{crypto : StarknetCrypto} `{ca : ContractAddresses} `{acc : TxAccessors}.
Context {B : Type} `{bt : BonsaiTrie B}.
Variable bonsai_new : Outcome unit B.
Variable config_chain_id : option Z.

(** The header of a converted block. *)
Definition converted_header (b : p.Block) (n root ctx cev : Z) : Header := {|
  parent_block_hash := p.parent_block_hash b;
  block_number := n;
  global_state_root := root;
  sequencer_address := default 0 (p.sequencer_address b);
  block_timestamp := p.timestamp b;
  transaction_count := Z.of_nat (length (p.transactions b));
  transaction_commitment := ctx;
  event_count := Z.of_nat (length (p.transaction_receipts b ≫= p.events));
  event_commitment := cev;
  protocol_version := match p.starknet_version b with Some bs => be_decode bs | None => 0 end;
  l1_gas_price := gas_prices (p.l1_gas_price b) (p.l1_data_gas_price b);
  Blocks.l1_da_mode := match p.l1_da_mode b with p.Calldata => L1DA_Calldata | p.Blob => L1DA_Blob end;
  extra_data := p.block_hash b |}.

Lemma extra_data_id o : opt_ok is_felt o →
  (λ h, U256_from_big_endian (FieldElement_to_bytes_be h)) <$> o = o.
Proof.
  intros H. destruct o as [h|]; [|done]. simpl. f_equal.
  rewrite to_bytes_be_ok, u256_from_be_ok by auto using be_encode_length with bytes.
  by apply be_decode_encode_felt, H.
Qed.

Lemma sequencer_id o : opt_ok is_felt o →
  (match o with Some address => contract_address address | None => contract_address 0 end) = Ok (default 0 o).
Proof. intros H. destruct o as [a|]; simpl; apply felt_id; [by apply H|done]. Qed.

(** The conversion without the parts that cannot fail on a block in range. *)
Lemma convert_block_unfold b oes :
  wf_p_block b → ordered_events (p.transaction_receipts b) = Ok oes →
  (oes ≫= oe_events) = map plain_event (p.transaction_receipts b ≫= p.events) →
  convert_block_sync bonsai_new config_chain_id b =
    (txs ← transactions (p.transactions b);
     n ← unwrap_opt (p.block_number b); root ← unwrap_opt (p.state_root b);
     '(ctx, cev) ← commitments bonsai_new config_chain_id txs (oes ≫= oe_events) n;
     if version_fits (p.starknet_version b) && prices_fit (p.l1_gas_price b) (p.l1_data_gas_price b)
     then Ok (DeoxysBlock_new (converted_header b n root ctx cev) txs oes) else Panic).
Proof.
  intros W Ho Hf. pose proof (events_convert _ (wfb_events _ W)) as He. unfold convert_block_sync.
  destruct (transactions (p.transactions b)) as [txs|[]|] eqn:Et; [|done].
  assert (length txs = length (p.transactions b)) as Hlen.
  { symmetry. eapply Forall2_length, mapM_Ok_Forall2, Et. }
  cbn [mbind Outcome_bind]. rewrite He, (felt_id _ (wfb_parent _ W)), Hf.
  cbn [mbind Outcome_bind].
  destruct (p.block_number b) as [n|]; [|done]. cbn [mbind Outcome_bind unwrap_opt].
  destruct (p.state_root b) as [root|] eqn:Er; [|done]. cbn [mbind Outcome_bind unwrap_opt].
  rewrite (felt_id root) by by apply (wfb_root _ W). cbn [mbind Outcome_bind].
  rewrite sequencer_id by apply W. cbn [mbind Outcome_bind].
  destruct (commitments _ _ txs _ n) as [[ctx cev]|[]|]; [|done]. cbn [mbind Outcome_bind].
  rewrite version_spec, resource_price_spec by apply W.
  destruct (version_fits _); [|done]. cbn [mbind Outcome_bind].
  destruct (prices_fit _ _); [|done]. cbn [mbind Outcome_bind andb].
  rewrite Ho, extra_data_id by apply W. cbn [mbind Outcome_bind].
  unfold converted_header. by rewrite Hlen, length_map.
Qed.

Lemma ordered_events_total b : wf_p_block b → ∃ oes,
  ordered_events (p.transaction_receipts b) = Ok oes ∧
  (oes ≫= oe_events) = map plain_event (p.transaction_receipts b ≫= p.events).
Proof.
  intros W. destruct (order_events_spec 0 _ _ (events_convert _ (wfb_events _ W))) as (oes & Ho & Hf & _).
  rewrite <-ordered_events_numbered in Ho. by exists oes.
Qed.

Lemma converted_header_wf b n root ctx cev :
  wf_p_block b → p.block_number b = Some n → wf_header (converted_header b n root ctx cev).
Proof.
  intros W En. unfold wf_header. simpl. destruct (wfb_sizes _ W). pose proof (wfb_number _ W n En).
  pose proof (wfb_timestamp _ W). split_and!; auto with bytes.
Qed.

(** What a converted block consists of. *)
Lemma convert_block_Ok b conv :
  wf_p_block b → convert_block_sync bonsai_new config_chain_id b = Ok conv →
  ∃ txs oes n root ctx cev, conv = DeoxysBlock_new (converted_header b n root ctx cev) txs oes ∧
    transactions (p.transactions b) = Ok txs ∧ Forall well_ranged txs ∧
    p.block_number b = Some n ∧ p.state_root b = Some root ∧ version_fits (p.starknet_version b) = true ∧
    ordered_events (p.transaction_receipts b) = Ok oes.
Proof.
  intros W H. destruct (ordered_events_total b W) as (oes & Ho & Hf).
  rewrite (convert_block_unfold b oes W Ho Hf) in H.
  pose proof (transactions_convert _ (wfb_txs _ W)) as Ht.
  destruct (transactions (p.transactions b)) as [txs| |] eqn:Et; try discriminate. simpl in H.
  destruct (forallb convertible _); [|discriminate]. destruct Ht as (? & [= <-] & Hwf & _).
  destruct (p.block_number b) as [n|]; [|discriminate]. destruct (p.state_root b) as [root|]; [|discriminate].
  simpl in H. destruct (commitments _ _ _ _ _) as [[ctx cev]|[]|]; try discriminate. simpl in H.
  destruct (version_fits _) eqn:Ev; [|discriminate]. destruct (prices_fit _ _); [|discriminate].
  injection H as <-. by exists txs, oes, n, root, ctx, cev.
Qed.

(** The transactions of a converted block. *)
Lemma convert_block_stored b conv :
  wf_p_block b → convert_block_sync bonsai_new config_chain_id b = Ok conv →
  Forall2 stored_as (p.transactions b) (Blocks.transactions conv).
Proof.
  intros W H. destruct (convert_block_Ok b conv W H) as (txs & oes & n & root & ctx & cev & -> & Ht & _). simpl.
  pose proof (transactions_convert _ (wfb_txs _ W)) as C. rewrite Ht in C.
  destruct (forallb convertible _); [|discriminate]. by destruct C as (? & [= <-] & _ & ?).
Qed.

(** C23: The conversion of a block accepts exactly the blocks that have a number, a state
    root, convertible transactions, a version string of at most 32 bytes whose value is
    below the field modulus (the comment in the code says 31 bytes) and gas prices
    within an [u128], and panics on the others.  The block it gives has the fields of
    the sequencer's header, the counts of its transactions and events, and the
    commitments computed from them; the sequencer's transactions in order, field by field
    (with declare transactions of version 0 as version 1); and the events of each receipt
    under its position.  Header and transactions are in the ranges the hash functions
    rely on. *)
Theorem convert_block_spec b :
  wf_p_block b →
  if block_convertible b then
    ∃ txs n root, Forall2 stored_as (p.transactions b) txs ∧
      p.block_number b = Some n ∧ p.state_root b = Some root ∧ Forall wf_tx txs ∧
      (∀ ctx cev, wf_header (converted_header b n root ctx cev)) ∧
      convert_block_sync bonsai_new config_chain_id b =
        ('(ctx, cev) ← commitments bonsai_new config_chain_id txs
                         (map plain_event (p.transaction_receipts b ≫= p.events)) n;
         Ok {| header := converted_header b n root ctx cev; Blocks.transactions := txs;
               Blocks.events := events_by_transaction (p.transaction_receipts b) |})
  else convert_block_sync bonsai_new config_chain_id b = Panic.
Proof.
  intros W. destruct (ordered_events_total b W) as (oes & Ho & Hf).
  unfold block_convertible. rewrite (convert_block_unfold b oes W Ho Hf), Hf.
  rewrite (ordered_events_grouped _ (wfb_events _ W)) in Ho. injection Ho as <-.
  pose proof (transactions_convert _ (wfb_txs _ W)) as Ht.
  destruct (forallb convertible _); [|by rewrite Ht]. destruct Ht as (txs & Ht & Hwf & Hst). rewrite Ht.
  assert (Forall wf_tx txs) by (eapply Forall_impl; [exact Hwf|by intros ? []]).
  destruct (p.block_number b) as [n|] eqn:En; [|done].
  destruct (p.state_root b) as [root|] eqn:Er; [|done]. cbn [has andb].
  destruct (version_fits _ && prices_fit _ _).
  - exists txs, n, root. split_and!; try done. intros ctx cev. by apply converted_header_wf.
  - cbn [mbind Outcome_bind unwrap_opt]. by destruct (commitments _ _ _ _ _) as [[? ?]|[]|].
Qed.

End Properties.

(** ** Witnesses *)

Definition bounds_model : BoundsFromVec := λ l,
  match l with
  | [(L1Gas, l1); (L2Gas, l2)] => Some (<[L1Gas := l1]> {[L2Gas := l2]})
  | _ => None
  end.
#[local] Instance bounds_model_spec : BoundsFromVecSpec bounds_model.
Proof. done. Qed.

Definition example_receipts : list p.ConfirmedTransactionReceipt :=
  [{| p.events := [] |}; {| p.events := [{| p.from_address := 7; p.keys := [1]; p.data := [2; 3] |}] |}].

Lemma ordered_events_faithful_witness :
  ∃ oes, convert.ordered_events example_receipts = Ok oes ∧
    (oes ≫= oe_events) = [{| from_address := 7; ev_keys := [1]; ev_data := [2; 3] |}].
Proof.
  destruct (ordered_events_faithful (libs := felt_libs_model) example_receipts
    [{| from_address := 7; ev_keys := [1]; ev_data := [2; 3] |}] ltac:(vm_compute; reflexivity))
    as (oes & H & Hf & _).
  exists oes. split; [exact H|exact Hf].
Defined.

Lemma transaction_conversion_total_witness :
  is_ok (convert.transaction (bv := bounds_model) (present (Tx_Invoke (Invoke_V1 example_invoke)))) = true.
Proof.
  refine (proj1 (transaction_conversion_total (bv := bounds_model)
    (present (Tx_Invoke (Invoke_V1 example_invoke))) _)).
  simpl. unfold opt_ok. split_and!; try done; try (by repeat constructor); by intros ? [= <-].
Defined.

Lemma transaction_conversion_roundtrip_witness :
  convert.transaction (bv := bounds_model) (present (Tx_Invoke (Invoke_V1 example_invoke)))
  = Ok (Tx_Invoke (Invoke_V1 example_invoke)).
Proof.
  refine (transaction_conversion_roundtrip (bv := bounds_model) (Tx_Invoke (Invoke_V1 example_invoke)) _ _ _).
  - simpl. unfold opt_ok. split_and!; try done; try (by repeat constructor); by intros ? [= <-].
  - by vm_compute.
  - done.
Defined.

Definition example_p_block : p.Block := {|
  p.transactions := [present (Tx_Invoke (Invoke_V1 example_invoke))];
  p.transaction_receipts := example_receipts;
  p.parent_block_hash := 1; p.block_number := Some 1000; p.timestamp := 5; p.state_root := Some 6;
  p.sequencer_address := None; p.starknet_version := Some (bytes_of_string "0.13.1");
  p.l1_gas_price := {| p.price_in_fri := 0; p.price_in_wei := 8 |};
  p.l1_data_gas_price := {| p.price_in_fri := 0; p.price_in_wei := 0 |};
  p.l1_da_mode := p.Blob; p.block_hash := Some 12 |}.

Lemma example_p_block_wf : wf_p_block example_p_block.
Proof.
  split; unfold opt_ok; simpl; try (by intros ? [= <-]); try done; try (by repeat constructor).
  - apply Forall_singleton. simpl. unfold opt_ok.
    split_and!; try done; try (by repeat constructor); by intros ? [= <-].
  - intros ? [= <-]. by repeat constructor.
Qed.

Lemma convert_block_spec_witness :
  ∃ txs, Forall2 stored_as (p.transactions example_p_block) txs ∧
    convert.convert_block_sync (bv := bounds_model) (crypto := crypto_small) (ca := address_model)
      (acc := accessors_model) (bt := trie_model) (Ok trie_empty) (Some 77) example_p_block =
      ('(ctx, cev) ← convert.commitments (crypto := crypto_small) (ca := address_model)
         (acc := accessors_model) (bt := trie_model) (Ok trie_empty) (Some 77) txs
         [{| from_address := 7; ev_keys := [1]; ev_data := [2; 3] |}] 1000;
       Ok {| header := converted_header example_p_block 1000 6 ctx cev; transactions := txs;
             events := [{| oe_index := 1; oe_events := [{| from_address := 7; ev_keys := [1]; ev_data := [2; 3] |}] |}] |}).
Proof.
  destruct (convert_block_spec (bv := bounds_model) (crypto := crypto_small) (ca := address_model)
    (acc := accessors_model) (bt := trie_model) (Ok trie_empty) (Some 77) example_p_block example_p_block_wf)
    as (txs & n & root & Ht & [= <-] & [= <-] & _ & _ & H).
  exists txs. split; [exact Ht|exact H].
Defined.
