(* ===== verification/MappingSync.v ===== *)
(** * MappingSync: the worker that fills the mapping database
    ([crates/client/mapping-sync])

    The worker walks the Substrate chain from its leaves towards genesis.  The
    blocks still to visit are the syncing tips of [MetaDb]; each call pops one,
    records the Starknet block of its digest in [MappingDb], and pushes the
    parent.  A step returns an outcome and the state it leaves behind: an error
    after a successful write does not undo the write. *)

From S2P Require Import Prelude Felt Hashers Transactions TxHash Blocks Db.

(** ** The Substrate node around the worker *)

(** A Substrate header ([DHeaderT]); [Item] is the type of digest items. *)
Record DHeaderT (Item : Type) := {
  dh_number : Z;
  dh_parent_hash : DHashT;
  dh_digest : list Item;
}.
Arguments dh_number {Item}. Arguments dh_parent_hash {Item}. Arguments dh_digest {Item}.

(** [HeaderBackend], [Backend::blockchain], the runtime API and [Header::hash]. *)
Class SubstrateClient (E Item : Type) := {
  header_hash : DHeaderT Item → DHashT;
  client_header : DHashT → Outcome E (option (DHeaderT Item));
  blockchain_leaves : Outcome E (list DHashT);
  runtime_chain_id : DHashT → Outcome E Z;
}.

(** Prometheus values are 64-bit floats. *)
Class F64 (F : Type) := {
  f64_of_u64 : Z → F;
  f64_from_u128 : Z → option F;
  f64_MIN : F;
  f64_add : F → F → F;
}.

Record BlockMetrics (F : Type) := {
  bm_block_height : F;
  bm_transaction_count : F;
  bm_event_count : F;
  bm_l1_gas_price_wei : F;
  bm_l1_gas_price_strk : F;
}.
Arguments bm_block_height {F}. Arguments bm_transaction_count {F}. Arguments bm_event_count {F}.
Arguments bm_l1_gas_price_wei {F}. Arguments bm_l1_gas_price_strk {F}.

Inductive SyncError (E1 E2 : Type) :=
| Sync_Db (e : DbError E1)
| Sync_Client (e : E2)
| Sync_HashMismatch (digest_hash storage_hash : Z)
| Sync_MultipleLogs
| Sync_HeaderNotFound.
Arguments Sync_Db {E1 E2}. Arguments Sync_Client {E1 E2}. Arguments Sync_HashMismatch {E1 E2}.
Arguments Sync_MultipleLogs {E1 E2}. Arguments Sync_HeaderNotFound {E1 E2}.

Record SyncState (S F : Type) := { ss_db : S; ss_metrics : option (BlockMetrics F) }.
Arguments ss_db {S F}. Arguments ss_metrics {S F}.

Section MappingSync.
Context {E1 E2 S Item F : Type} `{kv : KvStore E1 S} `{codecs : DbCodecs}.
Context `{items : DigestItems Item} `{client : SubstrateClient E2 Item} `{f64 : F64 F}.
Context `{libs : FeltLibs} `{crypto : StarknetCrypto} `{ca : ContractAddresses} `{hasher : HasherT}.
Variable cache_more_things : bool.

Abbreviation St := (SyncState S F).
Abbreviation M := (SyncM St (SyncError E1 E2)).

(** Reads and writes of the global database. *)
Definition db_read {A} (f : S → Outcome (DbError E1) A) : M A := λ s, (s, map_err Sync_Db (f (ss_db s))).
Definition db_write (f : S → Outcome (DbError E1) S) : M unit := λ s,
  match f (ss_db s) with
  | Ok db => ({| ss_db := db; ss_metrics := ss_metrics s |}, Ok tt)
  | Err e => (s, Err (Sync_Db e))
  | Panic => (s, Panic)
  end.

(** [mc_rpc::utils::get_block_by_block_hash] *)
Inductive BlockError := FailedToRetrieveHeader | BlockError_Log (e : FindLogError).

Definition get_block_by_block_hash (block_hash : DHashT) : Outcome BlockError DeoxysBlock :=
  header ← match client_header block_hash with
           | Ok h => ok_or FailedToRetrieveHeader h
           | Err _ => Err FailedToRetrieveHeader
           | Panic => Panic
           end;
  let digest := dh_digest header in
  map_err BlockError_Log (find_starknet_block digest).

(** The updates of the gauges and counters in [sync_block]. *)
Definition update_metrics (starknet_block : DeoxysBlock) (m : BlockMetrics F) : BlockMetrics F :=
  let h := header starknet_block in
  let l1_gas_price := default {| eth_l1_gas_price := 1; strk_l1_gas_price := 1;
                                 eth_l1_data_gas_price := 1; strk_l1_data_gas_price := 1 |}
                        (l1_gas_price h) in
  {| bm_block_height := f64_of_u64 (block_number h);
     bm_transaction_count :=
       f64_add (bm_transaction_count m) (default f64_MIN (f64_from_u128 (transaction_count h)));
     bm_event_count := f64_add (bm_event_count m) (default f64_MIN (f64_from_u128 (event_count h)));
     bm_l1_gas_price_wei := default f64_MIN (f64_from_u128 (eth_l1_gas_price l1_gas_price));
     bm_l1_gas_price_strk := default f64_MIN (f64_from_u128 (strk_l1_gas_price l1_gas_price)) |}.

Definition record_metrics (starknet_block : DeoxysBlock) : M unit := λ s,
  ({| ss_db := ss_db s; ss_metrics := update_metrics starknet_block <$> ss_metrics s |}, Ok tt).

Definition sync_block (dheader : DHeaderT Item) : M unit :=
  let substrate_block_hash := header_hash dheader in
  match find_starknet_block (dh_digest dheader) with
  | Ok digest_starknet_block =>
      match get_block_by_block_hash substrate_block_hash with
      | Ok storage_starknet_block =>
          digest_starknet_block_hash ← lift_pure (Header_hash (header digest_starknet_block));
          storage_starknet_block_hash ← lift_pure (Header_hash (header storage_starknet_block));
          if negb (digest_starknet_block_hash =? storage_starknet_block_hash) then
            fail (Sync_HashMismatch digest_starknet_block_hash storage_starknet_block_hash)
          else
            chain_id ← lift (map_err Sync_Client (runtime_chain_id substrate_block_hash));
            hashes ← lift_pure (mapM (λ tx,
                       compute_hash tx chain_id false (Some (block_number (header digest_starknet_block))))
                       (transactions digest_starknet_block));
            let mapping_commitment := {|
              mc_block_number := block_number (header digest_starknet_block);
              mc_block_hash := substrate_block_hash;
              mc_starknet_block_hash := digest_starknet_block_hash;
              mc_starknet_transaction_hashes := hashes |} in
            _ ← record_metrics digest_starknet_block;
            db_write (λ db, MappingDb.write_hashes cache_more_things db mapping_commitment)
      | Err _ => db_write (λ db, MappingDb.write_none db substrate_block_hash)
      | Panic => lift Panic
      end
  | Err NotLog => db_write (λ db, MappingDb.write_none db substrate_block_hash)
  | Err MultipleLogs => fail Sync_MultipleLogs
  | Panic => lift Panic
  end.

Definition sync_genesis_block (dheader : DHeaderT Item) : M unit :=
  let substrate_block_hash := header_hash dheader in
  match find_starknet_block (dh_digest dheader) with
  | Ok block =>
      block_hash ← lift_pure (Header_hash (header block));
      let mapping_commitment := {|
        mc_block_number := block_number (header block);
        mc_block_hash := substrate_block_hash;
        mc_starknet_block_hash := block_hash;
        mc_starknet_transaction_hashes := [] |} in
      db_write (λ db, MappingDb.write_hashes cache_more_things db mapping_commitment)
  | Err NotLog => db_write (λ db, MappingDb.write_none db substrate_block_hash)
  | Err MultipleLogs => fail Sync_MultipleLogs
  | Panic => lift Panic
  end.

Definition fetch_header (checking_tip : DHashT) (sync_from : Z) : M (option (DHeaderT Item)) :=
  synced ← db_read (λ db, MappingDb.is_synced db checking_tip);
  if synced : bool then mret None
  else match client_header checking_tip with
       | Ok (Some checking_header) =>
           if sync_from <=? dh_number checking_header then mret (Some checking_header) else mret None
       | Ok None | Err _ => fail Sync_HeaderNotFound
       | Panic => lift Panic
       end.

(** [while let Some(checking_tip) = current_syncing_tips.pop()]: the tips are
    given last first, the rest is returned the same way. *)
Fixpoint pop_tips (rtips : list DHashT) (sync_from : Z) : M (option (DHeaderT Item) * list DHashT) :=
  match rtips with
  | [] => mret (None, [])
  | checking_tip :: rtips =>
      checking_header ← fetch_header checking_tip sync_from;
      match checking_header with
      | Some checking_header => mret (Some checking_header, rtips)
      | None => pop_tips rtips sync_from
      end
  end.

Definition write_tips (tips : list DHashT) : M unit :=
  db_write (λ db, MetaDb.write_current_syncing_tips db tips).

Definition sync_one_block (sync_from : Z) : M bool :=
  current_syncing_tips ← db_read MetaDb.current_syncing_tips;
  leaves ← (if decide (current_syncing_tips = []) then lift (map_err Sync_Client blockchain_leaves)
            else mret []);
  if decide (current_syncing_tips = [] ∧ leaves = []) then mret false
  else
    let current_syncing_tips := current_syncing_tips ++ leaves in
    '(operating_header, rtips) ← pop_tips (reverse current_syncing_tips) sync_from;
    let current_syncing_tips := reverse rtips in
    match operating_header with
    | None => _ ← write_tips current_syncing_tips; mret false
    | Some operating_header =>
        if dh_number operating_header =? 0 then
          _ ← sync_genesis_block operating_header;
          _ ← write_tips current_syncing_tips;
          mret true
        else
          _ ← sync_block operating_header;
          _ ← write_tips (current_syncing_tips ++ [dh_parent_hash operating_header]);
          mret true
    end.

(** [for _ in 0..limit { synced_any = synced_any || sync_one_block(..)?; }] *)
Fixpoint sync_blocks_loop (limit : nat) (sync_from : Z) (synced_any : bool) : M bool :=
  match limit with
  | O => mret synced_any
  | Datatypes.S limit =>
      synced_any ← (if synced_any then mret true else sync_one_block sync_from);
      sync_blocks_loop limit sync_from synced_any
  end.

Definition sync_blocks (limit : nat) (sync_from : Z) : M bool := sync_blocks_loop limit sync_from false.

(** ** The worker (lib.rs) *)

Record MappingSyncWorker := {
  w_inner_delay : bool;   (* a delay is pending *)
  w_have_next : bool;
  w_retry_times : nat;
  w_sync_from : Z;
  w_state : St;
}.

Definition MappingSyncWorker_new (retry_times : nat) (sync_from : Z) (s : St) : MappingSyncWorker :=
  {| w_inner_delay := false; w_have_next := true; w_retry_times := retry_times;
     w_sync_from := sync_from; w_state := s |}.

(** The answers of the import notifications until they are pending or over. *)
Inductive Notifications := Notif_Pending | Notif_Some (rest : Notifications) | Notif_Closed.

Fixpoint drain_notifications (n : Notifications) (fire : bool) : option bool :=
  match n with
  | Notif_Pending => Some fire
  | Notif_Some n => drain_notifications n true
  | Notif_Closed => None
  end.

Inductive PollResult := Poll_Pending | Poll_Ready (item : option unit).

(** One poll: [delay_ready] is the answer of the timer.
 *)
Definition poll_next (w : MappingSyncWorker) (notifications : Notifications) (delay_ready : bool)
    : MappingSyncWorker * Outcome Empty_set PollResult :=
  match drain_notifications notifications false with
  | None => (w, Ok (Poll_Ready None))
  | Some fire =>
      let fire := if delay_ready then true else fire in
      let fire := if w_have_next w then true else fire in
      if fire then
        match sync_blocks (w_retry_times w) (w_sync_from w) (w_state w) with
        | (s, Ok have_next) =>
            ({| w_inner_delay := false; w_have_next := have_next; w_retry_times := w_retry_times w;
                w_sync_from := w_sync_from w; w_state := s |}, Ok (Poll_Ready (Some tt)))
        | (s, Err _) =>
            ({| w_inner_delay := false; w_have_next := false; w_retry_times := w_retry_times w;
                w_sync_from := w_sync_from w; w_state := s |}, Ok (Poll_Ready (Some tt)))
        | (s, Panic) =>
            ({| w_inner_delay := false; w_have_next := w_have_next w; w_retry_times := w_retry_times w;
                w_sync_from := w_sync_from w; w_state := s |}, Panic)
        end
      else
        ({| w_inner_delay := true; w_have_next := w_have_next w; w_retry_times := w_retry_times w;
            w_sync_from := w_sync_from w; w_state := w_state w |}, Ok Poll_Pending)
  end.

End MappingSync.

(** ** What the worker sees of the store *)

(** The synced blocks and the syncing tips a store holds. *)
Record sync_view `{codecs : DbCodecs} (m : Contents) (synced : gset DHashT) (tips : list DHashT) : Prop := {
  sv_synced h : m !! (SyncedMapping, enc_dhash h)
    = if bool_decide (h ∈ synced) then Some (enc_bool true) else None;
  sv_tips : m !! (Meta, static_keys.CURRENT_SYNCING_TIPS) = Some (enc_dhashes tips)
    ∨ m !! (Meta, static_keys.CURRENT_SYNCING_TIPS) = None ∧ tips = [];
}.

Section Views.
Context {E S : Type} `{kv : KvStore E S} `{codecs : DbCodecs}.
Context {Hkv : KvStoreSpec kv} {Hcodecs : DbCodecsSpec codecs}.

Lemma is_synced_view db synced tips h :
  sync_view (contents db) synced tips →
  answers (MappingDb.is_synced db h) (bool_decide (h ∈ synced)).
Proof. intros V. apply is_synced_answers, V. Qed.

Lemma tips_view db synced tips :
  sync_view (contents db) synced tips → answers (MetaDb.current_syncing_tips db) tips.
Proof.
  intros V. unfold MetaDb.current_syncing_tips.
  pose proof (read_answers enc_dhashes dec_dhashes db Meta static_keys.CURRENT_SYNCING_TIPS) as Ha.
  destruct (sv_tips _ _ _ V) as [Ht|[Ht ->]]; rewrite Ht in Ha.
  - specialize (Ha (Some tips) eq_refl ltac:(intros; apply dhashes_codec)).
    destruct (MappingDb.read _ _ _ _) as [o|[]|]; simpl in *; by subst.
  - specialize (Ha None eq_refl ltac:(done)).
    destruct (MappingDb.read _ _ _ _) as [o|[]|]; simpl in *; by subst.
Qed.

Lemma write_none_view db synced tips h db' :
  sync_view (contents db) synced tips → MappingDb.write_none db h = Ok db' →
  sync_view (contents db') ({[h]} ∪ synced) tips.
Proof.
  intros V Hw. unfold MappingDb.write_none in Hw.
  pose proof (put_cf_ok db SyncedMapping (enc_dhash h) (enc_bool true)) as Hp.
  destruct (put_cf _ _ _ _); simplify_eq/=. rewrite Hp. split.
  - intros h'. destruct (decide (h = h')) as [<-|Hne].
    + rewrite lookup_insert_eq, bool_decide_true by set_solver. done.
    + rewrite lookup_insert_ne by (intros [= He]; by apply enc_dhash_inj in He).
      by rewrite (sv_synced _ _ _ V), synced_other.
  - rewrite lookup_insert_ne by done. apply V.
Qed.

Lemma mapping_batch_view cache db synced tips c old :
  sync_view (contents db) synced tips →
  sync_view (apply_batch (contents db) (mapping_batch cache c old)) ({[mc_block_hash c]} ∪ synced) tips.
Proof.
  intros V. rewrite mapping_batch_app. split.
  - intros h'. rewrite cache_puts_other, tx_puts_other by done.
    destruct (decide (mc_block_hash c = h')) as [<-|Hne].
    + rewrite lookup_insert_eq, bool_decide_true by set_solver. done.
    + rewrite !lookup_insert_ne by first [done | intros [= He]; by apply enc_dhash_inj in He].
      by rewrite (sv_synced _ _ _ V), synced_other.
  - rewrite cache_puts_other, tx_puts_other, !lookup_insert_ne by done. apply V.
Qed.

Lemma write_hashes_view cache db synced tips c db' :
  sync_view (contents db) synced tips → MappingDb.write_hashes cache db c = Ok db' →
  sync_view (contents db') ({[mc_block_hash c]} ∪ synced) tips.
Proof.
  intros V. rewrite write_hashes_batch.
  destruct (MappingDb.block_hash _ _) as [[data|]| |]; try discriminate;
    [pose proof (write_ok db (mapping_batch cache c data)) as Hw
    |pose proof (write_ok db (mapping_batch cache c [])) as Hw..];
    (destruct (write _ _); simpl; [|discriminate..]); intros [= ->];
    rewrite Hw; by apply mapping_batch_view.
Qed.

Lemma write_tips_view db synced tips tips' db' :
  sync_view (contents db) synced tips → MetaDb.write_current_syncing_tips db tips' = Ok db' →
  sync_view (contents db') synced tips'.
Proof.
  intros V Hw. unfold MetaDb.write_current_syncing_tips in Hw.
  pose proof (put_cf_ok db Meta static_keys.CURRENT_SYNCING_TIPS (enc_dhashes tips')) as Hp.
  destruct (put_cf _ _ _ _); simplify_eq/=. rewrite Hp. split.
  - intros h. rewrite lookup_insert_ne by done. apply V.
  - left. apply lookup_insert_eq.
Qed.

End Views.

(** ** Properties *)

Section Properties.
Context {E1 E2 S Item F : Type} `{kv : KvStore E1 S} `{codecs : DbCodecs}.
Context `{items : DigestItems Item} `{client : SubstrateClient E2 Item} `{f64 : F64 F}.
Context `{Hlibs : !FeltLibsSpec libs} `{crypto : StarknetCrypto} `{Hca : !ContractAddressesSpec ca}.
Context `{hasher : HasherT}.
Context {Hkv : KvStoreSpec kv} {Hcodecs : DbCodecsSpec codecs}.
Variable cache : bool.

Implicit Types (s : SyncState S F) (synced : gset DHashT) (tips : list DHashT).

Abbreviation view s synced tips := (sync_view (contents (ss_db s)) synced tips).

(** The chain the client serves: a header is found under its own hash, and the
    parent of every block but the genesis is there, one number lower. *)
Record chain_ok : Prop := {
  header_found h hdr : client_header h = Ok (Some hdr) → header_hash hdr = h;
  number_nonneg h hdr : client_header h = Ok (Some hdr) → 0 ≤ dh_number hdr;
  parent_found h hdr : client_header h = Ok (Some hdr) → dh_number hdr ≠ 0 →
    ∃ p, client_header (dh_parent_hash hdr) = Ok (Some p) ∧ dh_number p = dh_number hdr - 1;
}.

(** Nothing to do for a block: it is recorded or below the first block to sync. *)
Definition settled sync_from synced (h : DHashT) : Prop :=
  h ∈ synced ∨ ∃ hdr, client_header h = Ok (Some hdr) ∧ dh_number hdr < sync_from.

(** The frontier: the parent of a recorded block is recorded, a tip, or below
    the first block to sync. *)
Definition frontier sync_from synced tips : Prop :=
  ∀ h hdr, h ∈ synced → client_header h = Ok (Some hdr) → dh_number hdr ≠ 0 →
    dh_parent_hash hdr ∈ tips ∨ settled sync_from synced (dh_parent_hash hdr).

Lemma db_write_ok (f : S → Outcome (DbError E1) S) s s' u :
  db_write (E2 := E2) f s = (s', Ok u) → f (ss_db s) = Ok (ss_db s') ∧ ss_metrics s' = ss_metrics s.
Proof. unfold db_write. destruct (f (ss_db s)); intros [= <- <-]. done. Qed.

Lemma write_none_synced s s' h u synced tips :
  view s synced tips → db_write (E2 := E2) (λ db, MappingDb.write_none db h) s = (s', Ok u) →
  view s' ({[h]} ∪ synced) tips.
Proof. intros V [Hw _]%db_write_ok. by eapply write_none_view. Qed.

Lemma write_hashes_synced s s' c u synced tips :
  view s synced tips → db_write (E2 := E2) (λ db, MappingDb.write_hashes cache db c) s = (s', Ok u) →
  view s' ({[mc_block_hash c]} ∪ synced) tips.
Proof. intros V [Hw _]%db_write_ok. by eapply write_hashes_view. Qed.

Lemma sync_block_synced hdr s s' u synced tips :
  view s synced tips → sync_block (E1 := E1) cache hdr s = (s', Ok u) →
  view s' ({[header_hash hdr]} ∪ synced) tips.
Proof.
  intros V. unfold sync_block.
  destruct (find_starknet_block _) as [b|[]|]; [|by apply write_none_synced|discriminate..].
  destruct (get_block_by_block_hash _) as [b'|e|]; [|by apply write_none_synced|discriminate].
  intros H. sync_inv.
  match goal with H : record_metrics _ _ = _ |- _ => injection H as <- end.
  match goal with H : db_write _ _ = _ |- _ => by eapply write_hashes_synced in H end.
Qed.

Lemma sync_genesis_block_synced hdr s s' u synced tips :
  view s synced tips → sync_genesis_block (E1 := E1) (E2 := E2) cache hdr s = (s', Ok u) →
  view s' ({[header_hash hdr]} ∪ synced) tips.
Proof.
  intros V. unfold sync_genesis_block.
  destruct (find_starknet_block _) as [b|[]|]; [|by apply write_none_synced|discriminate..].
  intros H. sync_inv. 
  match goal with H : db_write _ _ = _ |- _ => by eapply write_hashes_synced in H end.
Qed.

(** The two ways [fetch_header] succeeds. *)
Lemma fetch_header_ok sync_from t s s' o synced tips :
  view s synced tips → fetch_header (E1 := E1) t sync_from s = (s', Ok o) →
  s' = s ∧ match o with
           | None => settled sync_from synced t
           | Some hdr => (t ∉ synced) ∧ client_header t = Ok (Some hdr) ∧ sync_from ≤ dh_number hdr
           end.
Proof.
  intros V H. unfold fetch_header in H. sync_inv.
  unfold db_read in H. pose proof (is_synced_view _ _ _ t V) as Ha.
  destruct (MappingDb.is_synced _ _) as [b|e|]; simplify_eq/=.
  case_bool_decide.
  - sync_inv. split; [done|]. by left.
  - destruct (client_header t) as [[hdr|]|e|] eqn:Eh; try discriminate.
    destruct (sync_from <=? dh_number hdr) eqn:En; bool_to_prop; sync_inv; split; try done.
    right. eauto.
Qed.

Lemma pop_tips_ok sync_from rtips s s' o rest synced tips :
  view s synced tips → pop_tips (E1 := E1) rtips sync_from s = (s', Ok (o, rest)) →
  s' = s ∧ ∃ skipped, Forall (settled sync_from synced) skipped ∧
    match o with
    | None => rtips = skipped ∧ rest = []
    | Some hdr => ∃ t, rtips = skipped ++ t :: rest ∧ (t ∉ synced) ∧
                       client_header t = Ok (Some hdr) ∧ sync_from ≤ dh_number hdr
    end.
Proof.
  intros V. revert s'. induction rtips as [|t rtips IH]; intros s' H; simpl in H.
  { sync_inv. simplify_eq. split; [done|]. by exists []. }
  apply bind_ok in H as (s1 & oh & Hf & H). apply (fetch_header_ok _ _ _ _ _ _ _ V) in Hf as [-> Hf].
  destruct oh as [hdr|].
  - sync_inv. simplify_eq. split; [done|]. exists []. split; [constructor|]. by exists t.
  - destruct (IH _ H) as (-> & skipped & Hs & Ho). split; [done|].
    exists (t :: skipped). split; [by constructor|].
    destruct o as [hdr|].
    + destruct Ho as (t' & -> & Ho). by exists t'.
    + by destruct Ho as [-> ->].
Qed.

(** The start of a call: the tips it works on. *)
Lemma frontier_insert sync_from synced tips hdr rest t (skipped : list DHashT) :
  chain_ok → frontier sync_from synced tips → (∀ x, x ∈ tips → x ∈ rest ∨ x = t ∨ x ∈ skipped) →
  Forall (settled sync_from synced) skipped → client_header t = Ok (Some hdr) →
  frontier sync_from ({[t]} ∪ synced)
    (rest ++ if dh_number hdr =? 0 then [] else [dh_parent_hash hdr]).
Proof.
  intros C Fr Hsub Hsk Ht h hdr' Hh Hhdr Hn.
  assert (∀ x, settled sync_from synced x → settled sync_from ({[t]} ∪ synced) x) as Hmono.
  { intros x [?|?]; [left; set_solver | by right]. }
  apply elem_of_union in Hh as [->%elem_of_singleton|Hh].
  - rewrite Hhdr in Ht. injection Ht as ->.
    destruct (dh_number hdr =? 0) eqn:E0; bool_to_prop; [done|]. left. set_solver.
  - destruct (Fr _ _ Hh Hhdr Hn) as [Hp|Hp]; [|right; by apply Hmono].
    destruct (Hsub _ Hp) as [Hr|[->|Hs]].
    + left. set_solver.
    + right. left. set_solver.
    + right. apply Hmono. by eapply Forall_elem.
Qed.

(** The blocks a walk from the tips, or from the leaves, visits. *)
Inductive reached tips : DHashT → Prop :=
| reached_tip h : h ∈ tips → reached tips h
| reached_leaf ls h : blockchain_leaves = Ok ls → h ∈ ls → reached tips h
| reached_parent h hdr : reached tips h → client_header h = Ok (Some hdr) → dh_number hdr ≠ 0 →
    reached tips (dh_parent_hash hdr).

(** What one successful call does: progress records exactly one new block and
    keeps the frontier; no progress leaves the record as it is, without tips,
    and with every tip it started from settled. *)
Lemma sync_one_block_ok sync_from s s' b synced tips :
  chain_ok → view s synced tips → frontier sync_from synced tips →
  sync_one_block cache sync_from s = (s', Ok b) →
  ∃ synced' tips', view s' synced' tips' ∧ frontier sync_from synced' tips' ∧
    (∀ x, x ∈ tips' → reached tips x) ∧
    if b : bool then
      ∃ h hdr, (h ∉ synced) ∧ synced' = {[h]} ∪ synced ∧
        client_header h = Ok (Some hdr) ∧ sync_from ≤ dh_number hdr ∧ reached tips h
    else synced' = synced ∧ tips' = [] ∧
      (tips = [] → ∃ ls, blockchain_leaves = Ok ls ∧ Forall (settled sync_from synced) ls).
Proof.
  intros C V Fr H. unfold sync_one_block in H.
  apply bind_ok in H as (s1 & cur & Hcur & H).
  pose proof (tips_view _ _ _ V) as Ht. unfold db_read in Hcur.
  destruct (MetaDb.current_syncing_tips _) as [cur'|e|]; [|discriminate..].
  simpl in Ht, Hcur. subst cur'. injection Hcur as <- <-.
  apply bind_ok in H as (s1 & leaves & Hl & H).
  assert (s1 = s ∧ (if decide (tips = []) then blockchain_leaves = Ok leaves else leaves = []))
    as [-> Hleaves].
  { destruct (decide _); sync_inv; [|done]. by destruct blockchain_leaves; simplify_eq/=. }
  destruct (decide (tips = [] ∧ leaves = [])) as [[-> ->]|_].
  { sync_inv. exists synced, []. do 2 (split; [done|]). split; [set_solver|].
    do 2 (split; [done|]). intros _. by exists []. }
  assert (∀ x, x ∈ tips ++ leaves → reached tips x) as Hreach.
  { intros x [Hx|Hx]%elem_of_app; [by apply reached_tip|].
    destruct (decide _); [by eapply reached_leaf | set_solver]. }
  apply bind_ok in H as (s1 & [o rest] & Hp & H).
  destruct (pop_tips_ok _ _ _ _ _ _ _ _ V Hp) as (-> & skipped & Hsk & Ho).
  destruct o as [hdr|].
  - destruct Ho as (t & Hr & Hnt & Hhdr & Hge). apply (f_equal reverse) in Hr.
    rewrite reverse_involutive, reverse_app, reverse_cons in Hr.
    assert (frontier sync_from ({[t]} ∪ synced)
      (reverse rest ++ if dh_number hdr =? 0 then [] else [dh_parent_hash hdr])) as Fr'.
    { apply (frontier_insert _ _ tips _ _ _ (reverse skipped)); try done.
      - intros x Hx. assert (x ∈ tips ++ leaves) as Hx' by set_solver.
        rewrite Hr in Hx'. set_solver.
      - by apply Forall_reverse. }
    assert (header_hash hdr = t) as Hhash by by eapply header_found.
    destruct (dh_number hdr =? 0) eqn:E0; bool_to_prop; sync_inv.
    all: match goal with
      | H : sync_genesis_block _ _ _ = _ |- _ =>
          apply (sync_genesis_block_synced _ _ _ _ _ _ V) in H as V1
      | H : sync_block _ _ _ = _ |- _ => apply (sync_block_synced _ _ _ _ _ _ V) in H as V1
      end.
    all: match goal with H : write_tips _ _ = _ |- _ => unfold write_tips in H; apply db_write_ok in H as [Hw _] end.
    all: eapply write_tips_view in Hw; [|exact V1].
    all: rewrite ?app_nil_r in Fr'.
    all: assert (reached tips (header_hash hdr)) as Hin by (apply Hreach; rewrite Hr; set_solver).
    all: assert (∀ x, x ∈ reverse rest → reached tips x) as Hrest
      by (intros; apply Hreach; rewrite Hr; set_solver).
    all: eexists _, _; split; [exact Hw|]; split; [exact Fr'|]; split; [|by eexists _, hdr].
    + done.
    + intros y [Hy| ->%list_elem_of_singleton]%elem_of_app; [by apply Hrest|].
      by eapply reached_parent.
  - destruct Ho as [Hr ->]. sync_inv.
    match goal with H : write_tips _ _ = _ |- _ => unfold write_tips in H; apply db_write_ok in H as [Hw _] end.
    eapply write_tips_view in Hw; [|exact V].
    exists synced, []. split; [done|]. split; [|split; [set_solver|]; do 2 (split; [done|])].
    + intros h hdr Hh Hhdr Hn. right.
      destruct (Fr _ _ Hh Hhdr Hn) as [Hin|]; [|done].
      eapply Forall_elem; [exact Hsk|]. apply elem_of_reverse. set_solver.
    + intros ->. exists leaves. split; [done|]. by rewrite <-Forall_reverse.
Qed.

Lemma sync_blocks_loop_true n sync_from s :
  sync_blocks_loop (E1 := E1) (E2 := E2) cache n sync_from true s = (s, Ok true).
Proof. induction n as [|n IH]; [done|]. exact IH. Qed.

(** A call of [sync_blocks]: its first call of [sync_one_block] that progresses
    is the last one. *)
Lemma sync_blocks_ok limit sync_from s s' b synced tips :
  chain_ok → view s synced tips → frontier sync_from synced tips →
  sync_blocks cache limit sync_from s = (s', Ok b) →
  ∃ synced' tips', view s' synced' tips' ∧ frontier sync_from synced' tips' ∧
    (∀ x, x ∈ tips' → reached tips x) ∧
    if b : bool then
      ∃ h hdr, (h ∉ synced) ∧ synced' = {[h]} ∪ synced ∧
        client_header h = Ok (Some hdr) ∧ sync_from ≤ dh_number hdr ∧ reached tips h
    else synced' = synced ∧ (limit ≠ O ∨ tips = [] → tips' = []) ∧
      ((2 ≤ limit)%nat ∨ tips = [] ∧ limit ≠ O → ∃ ls, blockchain_leaves = Ok ls ∧ Forall (settled sync_from synced) ls).
Proof.
  intros C. revert s synced tips. unfold sync_blocks.
  induction limit as [|limit IH]; intros s synced tips V Fr H; simpl in H.
  { sync_inv. exists synced, tips. do 2 (split; [done|]). split; [intros; by apply reached_tip|].
    split; [done|]. split; [naive_solver|]. intros [?|[? ?]]; [lia|done]. }
  apply bind_ok in H as (s1 & b1 & H1 & H2).
  apply (sync_one_block_ok _ _ _ _ _ _ C V Fr) in H1 as (synced1 & tips1 & V1 & Fr1 & R1 & H1).
  destruct b1.
  - rewrite sync_blocks_loop_true in H2. injection H2 as <- <-. by exists synced1, tips1.
  - destruct H1 as (-> & -> & Hl).
    destruct (IH _ _ _ V1 Fr1 H2) as (synced2 & tips2 & V2 & Fr2 & R2 & H).
    assert (∀ x, reached [] x → reached tips x) as Hmono.
    { intros x. induction 1; [set_solver | by eapply reached_leaf | by eapply reached_parent]. }
    exists synced2, tips2. do 2 (split; [done|]). split; [auto|].
    destruct b.
    + destruct H as (h & hdr & ? & ? & ? & ? & ?). exists h, hdr. auto 10.
    + destruct H as (-> & Ht & Hl2). split; [done|]. split; [auto|].
      intros [?|[? _]]; [apply Hl2; right; split; [done|lia] | auto].
Qed.

(** The ancestors of a block, itself included. *)
Inductive ancestor (h : DHashT) : DHashT → Prop :=
| ancestor_refl : ancestor h h
| ancestor_parent h' hdr : ancestor h h' → client_header h' = Ok (Some hdr) → dh_number hdr ≠ 0 →
    ancestor h (dh_parent_hash hdr).

(** Without tips, every ancestor of a settled block is settled. *)
Lemma frontier_closed sync_from synced h h' :
  chain_ok → frontier sync_from synced [] → settled sync_from synced h → ancestor h h' →
  settled sync_from synced h'.
Proof.
  intros C Fr Hs Ha. induction Ha as [|h' hdr Ha IH Hhdr Hn]; [done|].
  destruct IH as [Hin|(hdr' & Hhdr' & Hlt)].
  - by destruct (Fr _ _ Hin Hhdr Hn) as [?%not_elem_of_nil|].
  - rewrite Hhdr in Hhdr'. injection Hhdr' as <-.
    destruct (parent_found C _ _ Hhdr Hn) as (p & Hp & Hnp). right. exists p. split; [done|lia].
Qed.

Lemma leaves_complete sync_from synced ls l h hdr :
  chain_ok → frontier sync_from synced [] → Forall (settled sync_from synced) ls →
  l ∈ ls → ancestor l h → client_header h = Ok (Some hdr) → sync_from ≤ dh_number hdr → h ∈ synced.
Proof.
  intros C Fr Hls Hl Ha Hhdr Hge.
  destruct (frontier_closed _ _ _ _ C Fr (Forall_elem _ _ _ Hls Hl) Ha) as [?|(hdr' & Hhdr' & ?)]; [done|].
  rewrite Hhdr in Hhdr'. injection Hhdr' as <-. lia.
Qed.

(** C12: The worker never loses a block: a call of [sync_blocks] that succeeds
    keeps the frontier (the parent of a recorded block is recorded, still a
    tip, or below [sync_from]), for any limit.  When it reports progress,
    exactly one block was recorded, one that was not before, however large the
    limit; when it reports none, the record is unchanged. *)
Theorem sync_blocks_frontier limit sync_from s s' b synced tips :
  chain_ok → view s synced tips → frontier sync_from synced tips →
  sync_blocks cache limit sync_from s = (s', Ok b) →
  ∃ synced' tips', view s' synced' tips' ∧ frontier sync_from synced' tips' ∧
    if b : bool then
      ∃ h hdr, (h ∉ synced) ∧ synced' = {[h]} ∪ synced ∧
        client_header h = Ok (Some hdr) ∧ sync_from ≤ dh_number hdr
    else synced' = synced.
Proof.
  intros C V Fr H.
  destruct (sync_blocks_ok _ _ _ _ _ _ _ C V Fr H) as (synced' & tips' & V' & Fr' & _ & H').
  exists synced', tips'. split_and!; [done..|]. destruct b; naive_solver.
Qed.

(** When [sync_blocks], allowed two rounds or more, reports no progress, the
    index is complete: every ancestor of every leaf, from block [sync_from] on,
    is recorded. *)
Theorem sync_blocks_complete limit sync_from s s' synced tips ls l h hdr :
  chain_ok → view s synced tips → frontier sync_from synced tips → (2 ≤ limit)%nat →
  sync_blocks cache limit sync_from s = (s', Ok false) →
  blockchain_leaves = Ok ls → l ∈ ls → ancestor l h →
  client_header h = Ok (Some hdr) → sync_from ≤ dh_number hdr →
  h ∈ synced ∧ view s' synced [].
Proof.
  intros C V Fr Hlim H Hls Hl Ha Hhdr Hge.
  destruct (sync_blocks_ok _ _ _ _ _ _ _ C V Fr H)
    as (synced' & tips' & V' & Fr' & _ & -> & Ht & Hset).
  destruct (Hset (or_introl Hlim)) as (ls' & Hls' & Hset'). rewrite Hls in Hls'. injection Hls' as <-.
  rewrite Ht in V', Fr' by (left; lia). split; [|done]. by eapply leaves_complete.
Qed.

(** ** What is recorded for a block *)

Definition wf_block (b : DeoxysBlock) : Prop := wf_header (header b) ∧ Forall wf_tx (transactions b).

(** The entry of the index for the Substrate block [h] wrapping [b]. *)
Definition commitment_of (h : DHashT) (b : DeoxysBlock) (chain_id : Z) : MappingCommitment := {|
  mc_block_number := block_number (header b);
  mc_block_hash := h;
  mc_starknet_block_hash := compute_hash_on_wrappers (header_preimage (header b));
  mc_starknet_transaction_hashes :=
    map (λ tx, compute_hash_on_elements (preimage tx chain_id false (Some (block_number (header b)))))
      (transactions b) |}.

(** The record of a block, by the Starknet logs of its digest. *)
Definition record_block (hdr : DHeaderT Item) s
    : SyncState S F * Outcome (SyncError E1 E2) unit :=
  match madara_logs (dh_digest hdr) with
  | [] => db_write (λ db, MappingDb.write_none db (header_hash hdr)) s
  | [Log_Block b] =>
      match runtime_chain_id (header_hash hdr) with
      | Ok chain_id =>
          db_write (λ db, MappingDb.write_hashes cache db (commitment_of (header_hash hdr) b chain_id))
            {| ss_db := ss_db s; ss_metrics := update_metrics b <$> ss_metrics s |}
      | Err e => (s, Err (Sync_Client e))
      | Panic => (s, Panic)
      end
  | _ :: _ :: _ => (s, Err Sync_MultipleLogs)
  end.

Lemma get_block_found hdr :
  client_header (header_hash hdr) = Ok (Some hdr) →
  get_block_by_block_hash (header_hash hdr) = map_err BlockError_Log (find_starknet_block (dh_digest hdr)).
Proof. intros Hc. unfold get_block_by_block_hash. by rewrite Hc. Qed.

Lemma block_hashes_ok b chain_id :
  Forall wf_tx (transactions b) →
  mapM (λ tx, compute_hash tx chain_id false (Some (block_number (header b)))) (transactions b)
  = Ok (map (λ tx, compute_hash_on_elements
         (preimage tx chain_id false (Some (block_number (header b))))) (transactions b)).
Proof.
  intros Hwf. apply mapM_Ok_map. eapply Forall_impl; [exact Hwf|]. intros tx. apply compute_hash_preimage.
Qed.

Lemma sync_block_logs hdr s :
  client_header (header_hash hdr) = Ok (Some hdr) →
  (∀ b, Log_Block b ∈ madara_logs (dh_digest hdr) → wf_block b) →
  sync_block cache hdr s = record_block hdr s.
Proof.
  intros Hc Hwf. unfold sync_block, record_block. rewrite get_block_found, find_starknet_block_logs by done.
  destruct (madara_logs (dh_digest hdr)) as [|[b] [|? ?]]; simpl; [done| |done].
  destruct (Hwf b ltac:(set_solver)) as [Hh Htx].
  unfold mbind, SyncM_bind, lift_pure, lift. rewrite header_hash_preimage by done. simpl.
  rewrite Z.eqb_refl. simpl. destruct (runtime_chain_id _) as [cid|e|]; simpl; [|done..].
  by rewrite block_hashes_ok.
Qed.

(** *** The decision, by the digest at hand and the one of the client's storage *)

Definition logged (hdr : DHeaderT Item) (b : DeoxysBlock) : Prop := madara_logs (dh_digest hdr) = [Log_Block b].
Definition stored_block (h : DHashT) (b : DeoxysBlock) : Prop :=
  ∃ hdr, client_header h = Ok (Some hdr) ∧ logged hdr b.
Definition logged_hash (b : DeoxysBlock) : Z := compute_hash_on_wrappers (header_preimage (header b)).

Inductive verdict (hdr : DHeaderT Item) : Outcome (SyncError E1 E2) MappingOp → Prop :=
| no_log : madara_logs (dh_digest hdr) = [] → verdict hdr (Ok (OpWriteNone (header_hash hdr)))
| several_logs : (2 ≤ length (madara_logs (dh_digest hdr)))%nat → verdict hdr (Err Sync_MultipleLogs)
| not_stored b :
    logged hdr b → client_header (header_hash hdr) ≠ Panic → (∀ b', ¬ stored_block (header_hash hdr) b') →
    verdict hdr (Ok (OpWriteNone (header_hash hdr)))
| header_panics b : logged hdr b → client_header (header_hash hdr) = Panic → verdict hdr Panic
| digests_differ b b' :
    logged hdr b → stored_block (header_hash hdr) b' → logged_hash b ≠ logged_hash b' →
    verdict hdr (Err (Sync_HashMismatch (logged_hash b) (logged_hash b')))
| digests_agree b b' r :
    logged hdr b → stored_block (header_hash hdr) b' → logged_hash b = logged_hash b' →
    runtime_chain_id (header_hash hdr) = r →
    verdict hdr ((λ cid, OpWriteHashes (commitment_of (header_hash hdr) b cid)) <$> map_err Sync_Client r).

(** The gauges and counters after a block: its number, the counts added to the
    totals, and its gas prices, 1 when it has none. *)
Definition as_f64 (x : Z) : F := default f64_MIN (f64_from_u128 x).
Record metrics_after (b : DeoxysBlock) (m m' : BlockMetrics F) : Prop := {
  ma_height : bm_block_height m' = f64_of_u64 (block_number (header b));
  ma_transactions : bm_transaction_count m' = f64_add (bm_transaction_count m) (as_f64 (transaction_count (header b)));
  ma_events : bm_event_count m' = f64_add (bm_event_count m) (as_f64 (event_count (header b)));
  ma_wei : bm_l1_gas_price_wei m' = as_f64 (from_option eth_l1_gas_price 1 (l1_gas_price (header b)));
  ma_strk : bm_l1_gas_price_strk m' = as_f64 (from_option strk_l1_gas_price 1 (l1_gas_price (header b)));
}.

Lemma update_metrics_after b (m : option (BlockMetrics F)) : option_Forall2 (metrics_after b) m (update_metrics b <$> m).
Proof. destruct m as [m|]; constructor. by split; simpl; destruct (l1_gas_price (header b)). Qed.

(** A write of the mapping database refines the step of the index, or reports the error of the store. *)
Lemma db_write_step op (s : SyncState S F) a s' r :
  refines (contents (ss_db s)) a → wf_op op → db_write (E2 := E2) (λ db, step cache db op) s = (s', r) →
  ss_metrics s' = ss_metrics s ∧
  match r with
  | Ok _ => op_read_ok (ss_db s) op → refines (contents (ss_db s')) (abs_step cache a op)
  | Err e => ss_db s' = ss_db s ∧ ∃ dberr, e = Sync_Db (RocksDB dberr)
  | Panic => False
  end.
Proof.
  intros R Hop. unfold db_write. destruct (step cache (ss_db s) op) as [db'|e|] eqn:Hs; intros [= <- <-].
  - split; [done|]. intros Hr. by eapply step_refines.
  - split; [done|]. split; [done|]. revert Hs. destruct op as [h|c]; simpl.
    + unfold MappingDb.write_none. destruct (put_cf _ _ _ _); simpl; intros [= <-]. by eexists.
    + rewrite write_hashes_batch. destruct (MappingDb.block_hash _ _) as [[?|]| |]; try done;
        (destruct (write _ _); simpl; intros [= <-]; by eexists).
  - exfalso. revert Hs. destruct op as [h|c]; simpl.
    + unfold MappingDb.write_none. pose proof (put_cf_ok (ss_db s) SyncedMapping (enc_dhash h) (enc_bool true)).
      by destruct (put_cf _ _ _ _).
    + rewrite write_hashes_batch. pose proof (block_hash_answers (ss_db s) a _ R (proj1 (proj2 Hop))) as Ha.
      assert (∀ l, map_err RocksDB (write (ss_db s) l) ≠ Panic) as Hw.
      { intros l. pose proof (write_ok (ss_db s) l). by destruct (write _ _). }
      destruct (MappingDb.block_hash _ _) as [[?|]| |]; [apply Hw..|done].
Qed.

Lemma get_block_stored h :
  match get_block_by_block_hash h with
  | Ok b => stored_block h b
  | Err _ => client_header h ≠ Panic ∧ ∀ b, ¬ stored_block h b
  | Panic => client_header h = Panic
  end.
Proof.
  unfold get_block_by_block_hash, stored_block, logged.
  destruct (client_header h) as [[hdr|]|e|]; simpl; try naive_solver.
  rewrite find_starknet_block_logs. destruct (madara_logs (dh_digest hdr)) as [|[b] [|? ?]] eqn:Hl; simpl;
    [|by exists hdr|]; (split; [done|]); intros b0 (? & [= <-] & ?); congruence.
Qed.

(** What [sync_block] does is the write of the verdict, after the update of the metrics. *)
Lemma sync_block_verdict hdr s :
  (∀ b, logged hdr b → wf_block b) → (∀ b, stored_block (header_hash hdr) b → wf_header (header b)) →
  ∃ v, verdict hdr v ∧
    match v with
    | Ok (OpWriteNone h) => sync_block cache hdr s = db_write (λ db, step cache db (OpWriteNone h)) s
    | Ok (OpWriteHashes c) => ∃ b, logged hdr b ∧ sync_block cache hdr s =
        db_write (λ db, step cache db (OpWriteHashes c)) {| ss_db := ss_db s; ss_metrics := update_metrics b <$> ss_metrics s |}
    | Err e => sync_block cache hdr s = (s, Err e)
    | Panic => sync_block cache hdr s = (s, Panic)
    end.
Proof.
  intros Hwf Hwf'. unfold sync_block. rewrite find_starknet_block_logs.
  destruct (madara_logs (dh_digest hdr)) as [|[b] [|? ?]] eqn:Hl.
  { eexists. split; [by apply no_log|done]. }
  2: { eexists. split; [apply several_logs; rewrite Hl; simpl; lia|done]. }
  pose proof (get_block_stored (header_hash hdr)) as Hg. destruct (get_block_by_block_hash _) as [b'|e|].
  - destruct (Hwf b Hl) as [Hh Htx]. unfold mbind, SyncM_bind, lift_pure, lift.
    rewrite !header_hash_preimage by auto. cbn [map_err].
    change (compute_hash_on_wrappers (header_preimage (header b))) with (logged_hash b).
    change (compute_hash_on_wrappers (header_preimage (header b'))) with (logged_hash b').
    destruct (Z.eqb_spec (logged_hash b) (logged_hash b')) as [He|He]; cbn [negb].
    + eexists. split; [by eapply digests_agree|].
      destruct (runtime_chain_id _) as [cid|e|]; cbn; [|done..]. rewrite block_hashes_ok by done. by exists b.
    + eexists. split; [by eapply digests_differ|done].
  - destruct Hg. eexists. split; [by eapply not_stored|done].
  - eexists. split; [by eapply header_panics|done].
Qed.

(** C25: What [sync_block] records, on every branch, by the Starknet logs of the header at
    hand and of the header that the client stores under its hash.  Without a log, or with
    one while the client has no such header, cannot read it, or its digest does not have
    exactly one log, the Substrate block is recorded as having no Starknet block; with
    several logs, with two logged blocks of different hashes, or without a chain id, the
    call fails and changes nothing; otherwise the block enters the index under the hash of
    its header with the hashes of its transactions, the metrics being updated first, also
    when the write then fails, which leaves the database as it was.  (The blocks and the
    commitment are well formed; the index is right when the earlier entry could be read.) *)
Theorem sync_block_spec hdr s s' r a :
  sync_block cache hdr s = (s', r) → refines (contents (ss_db s)) a →
  (∀ b, logged hdr b → wf_block b) → (∀ b, stored_block (header_hash hdr) b → wf_header (header b)) →
  (∀ op, verdict hdr (Ok op) → wf_op op) →
  ∃ v, verdict hdr v ∧
    match v with
    | Ok op =>
        match op with
        | OpWriteNone _ => ss_metrics s' = ss_metrics s
        | OpWriteHashes _ => ∃ b, logged hdr b ∧ option_Forall2 (metrics_after b) (ss_metrics s) (ss_metrics s')
        end ∧
        match r with
        | Ok _ => op_read_ok (ss_db s) op → refines (contents (ss_db s')) (abs_step cache a op)
        | Err e => ss_db s' = ss_db s ∧ ∃ dberr, e = Sync_Db (RocksDB dberr)
        | Panic => False
        end
    | Err e => s' = s ∧ r = Err e
    | Panic => s' = s ∧ r = Panic
    end.
Proof.
  intros H R Hwf Hwf' Hop. destruct (sync_block_verdict hdr s Hwf Hwf') as (v & Hv & Hs). exists v. split; [done|].
  destruct v as [[h|c]|e|]; [| |rewrite Hs in H; by injection H as <- <-..].
  - rewrite Hs in H. by apply (db_write_step _ _ _ _ _ R (Hop _ Hv)) in H.
  - destruct Hs as (b & Hb & Hs). rewrite Hs in H.
    apply (db_write_step _ {| ss_db := ss_db s; ss_metrics := _ |} a) in H as [Hm H]; [|done|by apply Hop].
    split; [|done]. exists b. split; [done|]. rewrite Hm. apply update_metrics_after.
Qed.

(** ** Failures *)

Lemma db_write_err (f : S → Outcome (DbError E1) S) s s' e :
  db_write (E2 := E2) f s = (s', Err e) → s' = s.
Proof. unfold db_write. by destruct (f (ss_db s)); intros [= <- <-]. Qed.

(** A failure before the write to the database leaves the database alone. *)
Ltac err_inv :=
  repeat match goal with
  | H : (_ ≫= _) _ = (_, Err _) |- _ => apply bind_err in H as [H|(? & ? & ? & H)]
  | H : lift _ _ = (_, _) |- _ => unfold lift in H
  | H : lift_pure _ _ = (_, _) |- _ => unfold lift_pure, lift in H
  | H : db_read _ _ = (_, _) |- _ => unfold db_read in H
  | H : record_metrics _ _ = (_, _) |- _ => unfold record_metrics in H
  | H : fail _ _ = (_, _) |- _ => unfold fail in H
  | H : mret _ _ = (_, _) |- _ => unfold mret, SyncM_ret in H
  | H : (_, _) = (_, _) |- _ => injection H as ? ?; subst
  | H : Ok _ = Err _ |- _ => discriminate H
  | H : (if ?b then _ else _) _ = (_, Err _) |- _ => destruct b
  | H : db_write _ _ = (_, Err _) |- _ => apply db_write_err in H; subst
  end; try done.

Lemma sync_block_err hdr s s' e :
  sync_block (E1 := E1) cache hdr s = (s', Err e) → ss_db s' = ss_db s.
Proof.
  unfold sync_block.
  destruct (find_starknet_block _) as [b|[]|]; [|by intros ->%db_write_err|by intros [= <- <-]|by intros [=]].
  destruct (get_block_by_block_hash _) as [b'|e'|]; [|by intros ->%db_write_err|by intros [=]].
  intros H. err_inv.
Qed.

Lemma sync_genesis_block_err hdr s s' e :
  sync_genesis_block (E1 := E1) (E2 := E2) cache hdr s = (s', Err e) → ss_db s' = ss_db s.
Proof.
  unfold sync_genesis_block.
  destruct (find_starknet_block _) as [b|[]|]; [|by intros ->%db_write_err|by intros [= <- <-]|by intros [=]].
  intros H. err_inv.
Qed.

Lemma pop_tips_err rtips sync_from s s' e synced tips :
  view s synced tips → pop_tips (E1 := E1) rtips sync_from s = (s', Err e) → s' = s.
Proof.
  intros V. induction rtips as [|t rtips IH]; simpl; intros H; [done|].
  apply bind_err in H as [H|(s1 & o & Hf & H)].
  - unfold fetch_header in H. err_inv. destruct (client_header t) as [[hdr|]|e'|]; err_inv.
  - apply (fetch_header_ok _ _ _ _ _ _ _ V) in Hf as [-> _]. destruct o; [err_inv|auto].
Qed.

Lemma write_tips_err tips s s' e :
  write_tips (E1 := E1) (E2 := E2) tips s = (s', Err e) →
  ∃ dberr, s' = s ∧ put_cf (ss_db s) Meta static_keys.CURRENT_SYNCING_TIPS (enc_dhashes tips) = Err dberr ∧
    e = Sync_Db (RocksDB dberr).
Proof.
  unfold write_tips, db_write, MetaDb.write_current_syncing_tips.
  destruct (put_cf _ _ _ _) as [|x|]; simpl; intros [= <- <-]. by exists x.
Qed.

Lemma read_tips_ok s s' cur synced tips :
  view s synced tips → db_read (E2 := E2) MetaDb.current_syncing_tips s = (s', Ok cur) → s' = s ∧ cur = tips.
Proof.
  intros V. pose proof (tips_view _ _ _ V) as Ha. unfold db_read.
  destruct (MetaDb.current_syncing_tips _); simpl in *; intros [= <- <-]. by subst.
Qed.

Lemma read_leaves_ok (s s' : SyncState S F) tips leaves :
  (if decide (tips = []) then lift (map_err (Sync_Client (E1 := E1)) blockchain_leaves) else mret []) s = (s', Ok leaves) →
  s' = s ∧ ∀ h, h ∈ tips ++ leaves → h ∈ tips ∨ tips = [] ∧ ∃ ls, blockchain_leaves = Ok ls ∧ h ∈ ls.
Proof.
  destruct (decide (tips = [])) as [->|Hne].
  - unfold lift. destruct blockchain_leaves as [ls| |] eqn:Hl; simpl; intros [= <- <-]. split; [done|].
    intros h Hh. right. split; [done|]. by exists ls.
  - intros [= <- <-]. split; [done|]. rewrite app_nil_r. auto.
Qed.

(** C37: A call of [sync_one_block] that fails leaves the database as it was, unless what
    failed is its last write, that of the tips: a block [h], one of the tips or of the
    leaves, is then recorded and the tips are the old ones.  The error is that of the
    store for the tips where the parent of [h] takes its place, so the parent is a tip only
    if it was one before; when it was not, and is neither recorded nor below the first
    block to sync, the frontier is lost. *)
Theorem sync_one_block_error sync_from s s' e synced tips :
  chain_ok → view s synced tips → sync_one_block cache sync_from s = (s', Err e) →
  ss_db s' = ss_db s ∨
  ∃ h hdr rest dberr, (h ∉ synced) ∧ (h ∈ tips ∨ tips = [] ∧ ∃ ls, blockchain_leaves = Ok ls ∧ h ∈ ls) ∧
    client_header h = Ok (Some hdr) ∧ sync_from ≤ dh_number hdr ∧
    put_cf (ss_db s') Meta static_keys.CURRENT_SYNCING_TIPS
      (enc_dhashes (if dh_number hdr =? 0 then rest else rest ++ [dh_parent_hash hdr])) = Err dberr ∧
    e = Sync_Db (RocksDB dberr) ∧ view s' ({[h]} ∪ synced) tips ∧
    (dh_number hdr ≠ 0 → dh_parent_hash hdr ∉ tips → ¬ settled sync_from ({[h]} ∪ synced) (dh_parent_hash hdr) →
     ¬ frontier sync_from ({[h]} ∪ synced) tips).
Proof.
  intros C V H. unfold sync_one_block in H.
  apply bind_err in H as [H|(s1 & cur & Hcur & H)]; [left; by err_inv|].
  apply (read_tips_ok _ _ _ _ _ V) in Hcur as [-> ->].
  apply bind_err in H as [H|(s1 & leaves & Hl & H)]; [left; destruct (decide _); err_inv|].
  assert (s1 = s ∧ ∀ h, h ∈ tips ++ leaves → h ∈ tips ∨ tips = [] ∧ ∃ ls, blockchain_leaves = Ok ls ∧ h ∈ ls)
    as [-> Hor] by by eapply read_leaves_ok.
  destruct (decide (_ ∧ _)); [err_inv|].
  apply bind_err in H as [H|(s1 & [o rest] & Hp & H)]; [left; by rewrite (pop_tips_err _ _ _ _ _ _ _ V H)|].
  destruct (pop_tips_ok _ _ _ _ _ _ _ _ V Hp) as (-> & sk & _ & Ho).
  destruct o as [hdr|]; [|left; err_inv; unfold write_tips in H; err_inv].
  destruct Ho as (t & Hrev & Hnt & Hhdr & Hfrom). pose proof (header_found C _ _ Hhdr) as <-.
  assert (header_hash hdr ∈ tips ++ leaves) as Hin by (rewrite <- elem_of_reverse, Hrev; set_solver).
  destruct (dh_number hdr =? 0) eqn:Hz; (apply bind_err in H as [H|(s1 & [] & Hs & H)];
    [left; eauto using sync_block_err, sync_genesis_block_err|]).
  all: apply bind_err in H as [H|(s2 & [] & _ & H)]; [|err_inv].
  all: apply write_tips_err in H as (dberr & -> & Hput & ->).
  all: right; exists (header_hash hdr), hdr, (reverse rest), dberr; rewrite Hz; split_and!; auto.
  1: by eapply sync_genesis_block_synced.
  2: by eapply sync_block_synced.
  all: intros Hn Hnp Hns Fr; destruct (Fr (header_hash hdr) hdr); set_solver.
Qed.

(** ** Progress *)

(** The environment of a run without failures: the store answers, the blocks of
    the finite chain [all] are served, each with at most one, well-formed,
    Starknet log. *)
Record env_ok (all : gset DHashT) : Prop := {
  get_total db c k : is_ok (get_cf db c k) = true;
  put_total db c k v : is_ok (put_cf db c k v) = true;
  write_total db ops : is_ok (write db ops) = true;
  leaves_total : ∃ ls, blockchain_leaves = Ok ls ∧ Forall (.∈ all) ls;
  block_total h : h ∈ all → ∃ hdr chain_id, client_header h = Ok (Some hdr) ∧
    (dh_number hdr ≠ 0 → dh_parent_hash hdr ∈ all) ∧ runtime_chain_id h = Ok chain_id ∧
    (length (madara_logs (dh_digest hdr)) ≤ 1)%nat ∧
    ∀ b, Log_Block b ∈ madara_logs (dh_digest hdr) → wf_block b;
}.

Lemma is_ok_inv {E A} (m : Outcome E A) : is_ok m = true → ∃ a, m = Ok a.
Proof. destruct m; [by eexists | done..]. Qed.

Lemma db_write_total (f : S → Outcome (DbError E1) S) s :
  is_ok (f (ss_db s)) = true → ∃ s', db_write (E2 := E2) f s = (s', Ok tt).
Proof. intros [db Hdb]%is_ok_inv. unfold db_write. rewrite Hdb. by eexists. Qed.

Lemma write_none_total all db h : env_ok all → is_ok (MappingDb.write_none db h) = true.
Proof.
  intros En. unfold MappingDb.write_none.
  by destruct (is_ok_inv _ (put_total _ En db SyncedMapping (enc_dhash h) (enc_bool true))) as [? ->].
Qed.

Lemma write_hashes_total all db c : env_ok all → is_ok (MappingDb.write_hashes cache db c) = true.
Proof.
  intros En. rewrite write_hashes_batch. unfold MappingDb.block_hash, MappingDb.read.
  destruct (is_ok_inv _ (get_total _ En db BlockMapping (enc_felt (mc_starknet_block_hash c)))) as [o ->].
  assert (∀ ops, is_ok (map_err RocksDB (write db ops)) = true) as Hw.
  { intros ops. by destruct (is_ok_inv _ (write_total _ En db ops)) as [? ->]. }
  destruct o as [raw|]; [|apply Hw]. simpl. destruct (dec_dhashes raw); apply Hw.
Qed.

Lemma is_synced_total all s h synced tips :
  env_ok all → view s synced tips → MappingDb.is_synced (ss_db s) h = Ok (bool_decide (h ∈ synced)).
Proof.
  intros En V. pose proof (is_synced_view _ _ _ h V) as Ha. unfold MappingDb.is_synced, MappingDb.read in *.
  destruct (is_ok_inv _ (get_total _ En (ss_db s) SyncedMapping (enc_dhash h))) as [r Hr].
  rewrite Hr in *. simpl in *. destruct r as [r|]; simpl in *; [|by rewrite Ha].
  destruct (dec_bool r); simpl in *; [by rewrite Ha|done].
Qed.

Lemma tips_total all s synced tips :
  env_ok all → view s synced tips → MetaDb.current_syncing_tips (ss_db s) = Ok tips.
Proof.
  intros En V. pose proof (tips_view _ _ _ V) as Ha.
  unfold MetaDb.current_syncing_tips, MappingDb.read in *.
  destruct (is_ok_inv _ (get_total _ En (ss_db s) Meta static_keys.CURRENT_SYNCING_TIPS)) as [r Hr].
  rewrite Hr in *. simpl in *. destruct r as [r|]; simpl in *; [|by rewrite Ha].
  destruct (dec_dhashes r); simpl in *; [by rewrite Ha|done].
Qed.

Lemma pop_tips_total all sync_from rtips s synced tips :
  env_ok all → view s synced tips → Forall (.∈ all) rtips →
  ∃ r, pop_tips (E1 := E1) rtips sync_from s = (s, Ok r).
Proof.
  intros En V. induction 1 as [|t rtips Ht _ IH]; simpl; [by eexists|].
  destruct (block_total _ En t Ht) as (hdr & cid & Hhdr & _).
  assert (∃ o, fetch_header (E1 := E1) t sync_from s = (s, Ok o)) as [o Ho].
  { unfold fetch_header, db_read.
    erewrite bind_run; [|by rewrite (is_synced_total _ _ _ _ _ En V)].
    case_bool_decide; [by eexists|]. rewrite Hhdr. destruct (_ <=? _); by eexists. }
  rewrite (bind_run _ _ _ _ _ Ho). destruct o; [by eexists|done].
Qed.

Lemma sync_block_total all hdr s chain_id :
  env_ok all → client_header (header_hash hdr) = Ok (Some hdr) →
  runtime_chain_id (header_hash hdr) = Ok chain_id →
  (length (madara_logs (dh_digest hdr)) ≤ 1)%nat →
  (∀ b, Log_Block b ∈ madara_logs (dh_digest hdr) → wf_block b) →
  ∃ s', sync_block (E1 := E1) cache hdr s = (s', Ok tt).
Proof.
  intros En Hc Hid Hlen Hwf. rewrite sync_block_logs by done. unfold record_block.
  destruct (madara_logs (dh_digest hdr)) as [|[b] [|? ?]]; simpl in Hlen; [| |lia].
  - apply db_write_total. by eapply write_none_total.
  - rewrite Hid. apply db_write_total. by eapply write_hashes_total.
Qed.

Lemma sync_genesis_block_total all hdr s :
  env_ok all → (length (madara_logs (dh_digest hdr)) ≤ 1)%nat →
  (∀ b, Log_Block b ∈ madara_logs (dh_digest hdr) → wf_block b) →
  ∃ s', sync_genesis_block (E1 := E1) (E2 := E2) cache hdr s = (s', Ok tt).
Proof.
  intros En Hlen Hwf. unfold sync_genesis_block. rewrite find_starknet_block_logs.
  destruct (madara_logs (dh_digest hdr)) as [|[b] [|? ?]]; simpl in Hlen; [| |lia].
  - apply db_write_total. by eapply write_none_total.
  - destruct (Hwf b ltac:(set_solver)) as [Hh _].
    erewrite bind_run; [|unfold lift_pure, lift; by rewrite header_hash_preimage].
    apply db_write_total. by eapply write_hashes_total.
Qed.

Lemma write_tips_total all tips s :
  env_ok all → ∃ s', write_tips (E1 := E1) (E2 := E2) tips s = (s', Ok tt).
Proof.
  intros En. apply db_write_total. unfold MetaDb.write_current_syncing_tips.
  by destruct (is_ok_inv _ (put_total _ En (ss_db s) Meta static_keys.CURRENT_SYNCING_TIPS
                              (enc_dhashes tips))) as [? ->].
Qed.

Lemma sync_one_block_total all sync_from s synced tips :
  env_ok all → chain_ok → view s synced tips → Forall (.∈ all) tips →
  ∃ s' b, sync_one_block (E1 := E1) cache sync_from s = (s', Ok b).
Proof.
  intros En C V Ht. destruct (leaves_total _ En) as (ls & Hls & Hall). unfold sync_one_block.
  erewrite bind_run; [|unfold db_read; by rewrite (tips_total _ _ _ _ En V)].
  erewrite (bind_run _ _ s s (if decide (tips = []) then ls else []));
    [|destruct (decide _); [by rewrite Hls|done]].
  destruct (decide (_ ∧ _)); [by eexists _, _|].
  destruct (pop_tips_total all sync_from (reverse (tips ++ if decide (tips = []) then ls else [])) _ _ _ En V)
    as [[o rest] Hp].
  { apply Forall_reverse, Forall_app. split; [done|]. by destruct (decide _). }
  rewrite (bind_run _ _ _ _ _ Hp). destruct (pop_tips_ok _ _ _ _ _ _ _ _ V Hp) as (_ & sk & Hsk & Ho).
  destruct o as [hdr|].
  - destruct Ho as (t & Hr & _ & Hhdr & _).
    assert (t ∈ all) as Hta.
    { apply (Forall_elem (.∈ all) (tips ++ if decide (tips = []) then ls else [])).
      - apply Forall_app. split; [done|]. by destruct (decide _).
      - apply elem_of_reverse. rewrite Hr. set_solver. }
    destruct (block_total _ En t Hta) as (hdr' & cid & Hhdr' & _ & Hcid & Hlen & Hwf).
    rewrite Hhdr in Hhdr'. injection Hhdr' as <-.
    pose proof (header_found C _ _ Hhdr) as <-.
    destruct (dh_number hdr =? 0).
    + destruct (sync_genesis_block_total all hdr s En Hlen Hwf) as [s1 H1]. rewrite (bind_run _ _ _ _ _ H1).
      destruct (write_tips_total all (reverse rest) s1 En) as [s2 H2].
      rewrite (bind_run _ _ _ _ _ H2). by eexists _, _.
    + destruct (sync_block_total all hdr s cid En Hhdr Hcid Hlen Hwf) as [s1 H1].
      rewrite (bind_run _ _ _ _ _ H1).
      destruct (write_tips_total all (reverse rest ++ [dh_parent_hash hdr]) s1 En) as [s2 H2].
      rewrite (bind_run _ _ _ _ _ H2). by eexists _, _.
  - destruct (write_tips_total all (reverse rest) s En) as [s2 H2].
    rewrite (bind_run _ _ _ _ _ H2). by eexists _, _.
Qed.

(** What a walk reaches from blocks of the chain is in the chain. *)
Lemma reached_all all tips h : env_ok all → Forall (.∈ all) tips → reached tips h → h ∈ all.
Proof.
  intros En Ht. induction 1 as [h Hh|ls h Hls Hh|h hdr _ IH Hhdr Hn].
  - by apply (Forall_elem (.∈ all) tips).
  - destruct (leaves_total _ En) as (ls' & Hls' & Hall). rewrite Hls in Hls'. injection Hls' as <-.
    by apply (Forall_elem (.∈ all) ls).
  - destruct (block_total _ En h IH) as (hdr' & _ & Hhdr' & Hp & _).
    rewrite Hhdr in Hhdr'. injection Hhdr' as <-. by apply Hp.
Qed.

Lemma sync_blocks_total all limit sync_from s synced tips :
  env_ok all → chain_ok → view s synced tips → frontier sync_from synced tips →
  Forall (.∈ all) tips → ∃ s' b, sync_blocks (E1 := E1) cache limit sync_from s = (s', Ok b).
Proof.
  intros En C. unfold sync_blocks. revert s synced tips.
  induction limit as [|limit IH]; intros s synced tips V Fr Ht; simpl; [by eexists _, _|].
  destruct (sync_one_block_total all sync_from s synced tips En C V Ht) as (s1 & b1 & H1).
  rewrite (bind_run _ _ _ _ _ H1).
  destruct (sync_one_block_ok _ _ _ _ _ _ C V Fr H1) as (synced1 & tips1 & V1 & Fr1 & R1 & _).
  destruct b1; [rewrite sync_blocks_loop_true; by eexists _, _|].
  apply (IH _ _ _ V1 Fr1). apply Forall_forall. intros x Hx. by eapply reached_all, R1.
Qed.

(** A poll without notification while the timer runs. *)
Definition quiet_poll (w : MappingSyncWorker (S := S) (F := F)) : MappingSyncWorker :=
  (poll_next (E1 := E1) (E2 := E2) cache w Notif_Pending false).1.

(** The index is complete from [sync_from] on, with no tip left. *)
Definition caught_up sync_from s : Prop :=
  ∃ synced, view s synced [] ∧
    ∀ ls l h hdr, blockchain_leaves = Ok ls → l ∈ ls → ancestor l h →
      client_header h = Ok (Some hdr) → sync_from ≤ dh_number hdr → h ∈ synced.

Lemma quiet_poll_idle n w :
  w_have_next w = false →
  w_have_next (Nat.iter n quiet_poll w) = false ∧ w_state (Nat.iter n quiet_poll w) = w_state w.
Proof.
  intros Hw. induction n as [|n [IH1 IH2]]; [done|]. rewrite Nat.iter_succ.
  unfold quiet_poll at 1 3, poll_next. simpl. by rewrite IH1.
Qed.

(** A poll that fires: it records one more block, or the index is complete. *)
Lemma quiet_poll_fires all w synced tips :
  env_ok all → chain_ok → (2 ≤ w_retry_times w)%nat → w_have_next w = true →
  view (w_state w) synced tips → frontier (w_sync_from w) synced tips → Forall (.∈ all) tips →
  let w' := quiet_poll w in
  w_retry_times w' = w_retry_times w ∧ w_sync_from w' = w_sync_from w ∧
  if w_have_next w' then
    ∃ h tips', h ∈ all ∧ (h ∉ synced) ∧ view (w_state w') ({[h]} ∪ synced) tips' ∧
      frontier (w_sync_from w) ({[h]} ∪ synced) tips' ∧ Forall (.∈ all) tips'
  else caught_up (w_sync_from w) (w_state w').
Proof.
  intros En C Hlim Hn V Fr Ht. unfold quiet_poll, poll_next. simpl. rewrite Hn.
  destruct (sync_blocks_total all (w_retry_times w) (w_sync_from w) _ _ _ En C V Fr Ht) as (s' & b & H).
  rewrite H. simpl. do 2 (split; [done|]).
  destruct (sync_blocks_ok _ _ _ _ _ _ _ C V Fr H) as (synced' & tips' & V' & Fr' & R & Hb).
  destruct b.
  - destruct Hb as (h & hdr & Hh & -> & _ & _ & Hr). exists h, tips'.
    split; [by eapply reached_all|]. do 3 (split; [done|]).
    apply Forall_forall. intros x Hx. by eapply reached_all, R.
  - destruct Hb as (-> & Htips & Hl). rewrite Htips in * by (left; lia).
    exists synced. split; [done|]. intros ls l h hdr Hls Hl' Ha Hhdr Hge.
    destruct (Hl (or_introl Hlim)) as (ls' & Hls' & Hset). rewrite Hls in Hls'. injection Hls' as <-.
    by eapply leaves_complete.
Qed.

(** The worker catches up: without failures, a worker that has been told
    there is work, polled once more than there are unrecorded blocks, needs no
    notification and no timer to record every ancestor of every leaf from
    [sync_from] on, and then rests. *)
Lemma catches_up all w synced tips :
  env_ok all → chain_ok → (2 ≤ w_retry_times w)%nat → w_have_next w = true →
  view (w_state w) synced tips → frontier (w_sync_from w) synced tips → Forall (.∈ all) tips →
  let w' := Nat.iter (1 + size (all ∖ synced)) quiet_poll w in
  w_have_next w' = false ∧ caught_up (w_sync_from w) (w_state w').
Proof.
  intros En C Hlim Hn V Fr Ht. assert (size (all ∖ synced) ≤ size (all ∖ synced))%nat as Hle by done.
  revert Hle. generalize (size (all ∖ synced)) at 2 3. intros n. revert w synced tips Hlim Hn V Fr Ht.
  induction n as [|n IH]; intros w synced tips Hlim Hn V Fr Ht Hle.
  all: pose proof (quiet_poll_fires all w synced tips En C Hlim Hn V Fr Ht) as (Hr & Hf & Hw).
  - change (Nat.iter (1 + 0) quiet_poll w) with (quiet_poll w).
    destruct (w_have_next (quiet_poll w)) eqn:Hn'; [|done].
    destruct Hw as (h & _ & Hh & Hns & _). assert (h ∈ all ∖ synced) as Hin by set_solver.
    assert (all ∖ synced ≡ ∅) as He by (apply size_empty_inv; lia). set_solver.
  - assert (Nat.iter (1 + Datatypes.S n) quiet_poll w = Nat.iter (1 + n) quiet_poll (quiet_poll w)) as ->
      by (rewrite <-Nat.iter_succ_r; done).
    destruct (w_have_next (quiet_poll w)) eqn:Hn'.
    + destruct Hw as (h & tips' & Hh & Hns & V' & Fr' & Ht').
      rewrite <-Hf. eapply IH; [by rewrite Hr|done|done|by rewrite Hf|done|].
      assert (size (all ∖ ({[h]} ∪ synced)) < size (all ∖ synced))%nat; [|lia].
      apply subset_size. set_solver.
    + destruct (quiet_poll_idle (1 + n) _ Hn') as [Hi1 Hi2]. split; [exact Hi1|].
      cbv zeta. by rewrite Hi2.
Qed.

End Properties.

(** ** Witnesses: a chain of two blocks *)

Definition log_items : DigestItems DeoxysBlock := λ b engine_id,
  if decide (engine_id = MADARA_ENGINE_ID) then Some (Log_Block b) else None.

Definition example_block : DeoxysBlock :=
  {| header := Header_default; transactions := [Tx_Invoke (Invoke_V1 example_invoke)];
     events := [OrderedEvents_new 0 [{| from_address := 7; ev_keys := [1]; ev_data := [2] |}]] |}.

Definition client_model : SubstrateClient unit DeoxysBlock := {|
  header_hash hdr := DHash (dh_number hdr);
  client_header h := let 'DHash n := h in
    Ok (if n =? 0 then Some {| dh_number := 0; dh_parent_hash := DHash (-1); dh_digest := [] |}
        else if n =? 1 then Some {| dh_number := 1; dh_parent_hash := DHash 0; dh_digest := [example_block] |}
        else None);
  blockchain_leaves := Ok [DHash 1];
  runtime_chain_id _ := Ok 77;
|}.

Definition f64_model : F64 Z := {|
  f64_of_u64 := id; f64_from_u128 := Some; f64_MIN := 0; f64_add := Z.add |}.

Lemma client_model_cases h hdr :
  @client_header _ _ client_model h = Ok (Some hdr) →
  h = DHash 0 ∧ hdr = {| dh_number := 0; dh_parent_hash := DHash (-1); dh_digest := [] |} ∨
  h = DHash 1 ∧ hdr = {| dh_number := 1; dh_parent_hash := DHash 0; dh_digest := [example_block] |}.
Proof.
  destruct h as [n]. simpl. destruct (n =? 0) eqn:?; bool_to_prop; [subst; intros [= <-]; by left|].
  destruct (n =? 1) eqn:?; bool_to_prop; [subst; intros [= <-]; by right|]. by intros [=].
Qed.

Lemma client_model_ok : @chain_ok _ _ client_model.
Proof.
  split; intros h hdr Hh; destruct (client_model_cases _ _ Hh) as [[-> ->]|[-> ->]]; try done; simpl; try lia.
  intros _. eexists. split; [reflexivity|]. simpl. lia.
Qed.

Definition state_of (m : Contents) : SyncState Contents Z := {| ss_db := m; ss_metrics := None |}.

Lemma view_empty : @sync_view codecs_model ∅ ∅ [].
Proof. split; [|by right]. intros h. by rewrite bool_decide_false by set_solver. Qed.

Definition worker_model : MappingSyncWorker (S := Contents) (F := Z) :=
  MappingSyncWorker_new 3 0 (state_of ∅).

Definition all_model : gset DHashT := {[DHash 0; DHash 1]}.

Lemma env_model :
  env_ok (kv := kv_model) (items := log_items) (client := client_model) all_model.
Proof.
  split; try done.
  - exists [DHash 1]. split; [done|]. apply Forall_singleton. unfold all_model. set_solver.
  - intros h [->%elem_of_singleton| ->%elem_of_singleton]%elem_of_union;
      eexists _, 77; (split; [reflexivity|]); split_and!; try done; try (simpl; lia).
    + intros b Hb. by apply not_elem_of_nil in Hb.
    + intros b Hb. assert (b = example_block) as ->.
      { apply list_elem_of_singleton in Hb. by injection Hb. }
      split; [by vm_compute | by repeat constructor].
Qed.

Definition poll_model :=
  quiet_poll (E2 := unit) (items := log_items) (client := client_model) (f64 := f64_model)
    (crypto := crypto_small) (ca := address_model) (hasher := @PedersenHasher _ crypto_small)
    (kv := kv_model) (codecs := codecs_model) false.

Definition header_model : DHeaderT DeoxysBlock :=
  {| dh_number := 1; dh_parent_hash := DHash 0; dh_digest := [example_block] |}.
Definition metrics_model : BlockMetrics Z := {|
  bm_block_height := 0; bm_transaction_count := 5; bm_event_count := 3; bm_l1_gas_price_wei := 0; bm_l1_gas_price_strk := 0 |}.

Abbreviation commitment_model := (commitment_of (crypto := crypto_small) (ca := address_model)
  (hasher := @PedersenHasher _ crypto_small) (DHash 1) example_block 77).
Abbreviation verdict_model := (verdict (E1 := Empty_set) (E2 := unit) (items := log_items) (client := client_model)
  (crypto := crypto_small) (ca := address_model) (hasher := @PedersenHasher _ crypto_small) header_model).
Abbreviation sync_block_model := (sync_block (E1 := Empty_set) (E2 := unit) (items := log_items) (client := client_model)
  (f64 := f64_model) (crypto := crypto_small) (ca := address_model) (hasher := @PedersenHasher _ crypto_small)
  (kv := kv_model) (codecs := codecs_model) false header_model
  {| ss_db := ∅ : Contents; ss_metrics := Some metrics_model |}).

Lemma header_model_logged b : logged (items := log_items) header_model b → b = example_block.
Proof. intros H. by injection H as <-. Qed.
Lemma header_model_stored b : stored_block (items := log_items) (client := client_model) (DHash 1) b → b = example_block.
Proof. intros (hdr & [= <-] & H). by injection H as <-. Qed.

Lemma header_model_wf : wf_block example_block.
Proof. split; [by vm_compute | by repeat constructor]. Qed.
Lemma commitment_model_wf : wf_commitment commitment_model.
Proof. split; [by vm_compute|]. split; [by vm_compute|]. apply Forall_singleton. by vm_compute. Qed.

Lemma verdict_model_ok v : verdict_model v → v = Ok (OpWriteHashes commitment_model).
Proof.
  intros Hv. destruct Hv as [Hl|Hl|b Hl _ Hs|b Hl Hc|b b' Hl Hs Hne|b b' r Hl Hs He Hr].
  - discriminate Hl.
  - simpl in Hl. lia.
  - exfalso. apply (Hs example_block). exists header_model. by split.
  - discriminate Hc.
  - exfalso. apply Hne. by rewrite (header_model_logged _ Hl), (header_model_stored _ Hs).
  - rewrite (header_model_logged _ Hl), <- Hr. reflexivity.
Qed.

(** Block 1 enters the empty index, and its one transaction and one event the totals. *)
Lemma sync_block_spec_witness : ∃ s', sync_block_model = (s', Ok tt) ∧
  refines (codecs := codecs_model) (ss_db s') (abs_write_hashes false commitment_model abs_empty) ∧
  bm_transaction_count <$> ss_metrics s' = Some (5 + transaction_count Header_default).
Proof.
  destruct sync_block_model as [s' r] eqn:H.
  assert (r = Ok tt) as -> by (apply (f_equal snd) in H; vm_compute in H; exact (eq_sym H)).
  destruct (sync_block_spec (E1 := Empty_set) (E2 := unit) (codecs := codecs_model)
    (items := log_items) (client := client_model)
    (f64 := f64_model) (crypto := crypto_small) (ca := address_model)
    (hasher := @PedersenHasher _ crypto_small) (kv := kv_model) (Hkv := kv_model_spec)
    false header_model _ s' _ abs_empty H (refines_empty (codecs := codecs_model))) as (v & Hv & Hs).
  - intros b Hb. rewrite (header_model_logged _ Hb). exact header_model_wf.
  - intros b Hb. rewrite (header_model_stored _ Hb). exact (proj1 header_model_wf).
  - intros op Hop. pose proof (verdict_model_ok _ Hop) as Ho. injection Ho as ->. exact commitment_model_wf.
  - rewrite (verdict_model_ok _ Hv) in Hs. destruct Hs as [(b & Hb & Hm) Hr].
    rewrite (header_model_logged _ Hb) in Hm. exists s'. split; [reflexivity|].
    split; [apply Hr; exists None; vm_compute; reflexivity|]. clear H Hr.
    destruct (ss_metrics s') as [m|]; [|inversion Hm]. assert (metrics_after (f64 := f64_model) example_block metrics_model m) as Hma by (inversion Hm; assumption).
    exact (f_equal Some (ma_transactions _ _ _ Hma)).
Defined.

Definition sync_blocks_model :=
  sync_blocks (E1 := Empty_set) (E2 := unit) (items := log_items) (client := client_model) (f64 := f64_model)
    (crypto := crypto_small) (ca := address_model) (hasher := @PedersenHasher _ crypto_small)
    (kv := kv_model) (codecs := codecs_model) false.

Lemma sync_blocks_frontier_witness :
  ∃ s' b synced' tips', sync_blocks_model 5 0 (state_of ∅) = (s', Ok b) ∧
    sync_view (codecs := codecs_model) (ss_db s') synced' tips' ∧
    frontier (client := client_model) 0 synced' tips'.
Proof.
  assert (frontier (client := client_model) 0 ∅ []) as Fr by (intros h hdr []%elem_of_empty).
  destruct (sync_blocks_total (codecs := codecs_model) (items := log_items) (client := client_model)
    (f64 := f64_model) (crypto := crypto_small) (ca := address_model)
    (hasher := @PedersenHasher _ crypto_small) (kv := kv_model) (Hkv := kv_model_spec)
    false all_model 5 0 (state_of ∅) ∅ [] env_model client_model_ok view_empty Fr ltac:(constructor))
    as (s' & b & H).
  destruct (sync_blocks_frontier (codecs := codecs_model) (items := log_items) (client := client_model)
    (f64 := f64_model) (crypto := crypto_small) (ca := address_model)
    (hasher := @PedersenHasher _ crypto_small) (kv := kv_model) (Hkv := kv_model_spec)
    false 5 0 (state_of ∅) s' b ∅ [] client_model_ok view_empty Fr H) as (synced' & tips' & V & Fr' & _).
  exists s', b, synced', tips'. split; [exact H|]. split; [exact V|exact Fr'].
Defined.

(** Both blocks recorded. *)
Definition synced_store : Contents :=
  <[(SyncedMapping, @enc_dhash codecs_model (DHash 0)) := @enc_bool codecs_model true]>
    (<[(SyncedMapping, @enc_dhash codecs_model (DHash 1)) := @enc_bool codecs_model true]> ∅).

Lemma synced_store_view : @sync_view codecs_model synced_store all_model [].
Proof.
  assert (all_model = {[DHash 0]} ∪ ({[DHash 1]} ∪ ∅)) as -> by set_solver.
  refine (write_none_view (kv := kv_model) (Hkv := kv_model_spec)
    (<[(SyncedMapping, @enc_dhash codecs_model (DHash 1)) := @enc_bool codecs_model true]> ∅)
    _ _ (DHash 0) _ _ eq_refl).
  exact (write_none_view (kv := kv_model) (Hkv := kv_model_spec) ∅ _ _ (DHash 1) _ view_empty eq_refl).
Qed.

Lemma sync_blocks_complete_witness :
  DHash 0 ∈ all_model ∧
  ∃ s', sync_blocks_model 2 0 (state_of synced_store) = (s', Ok false) ∧
        sync_view (codecs := codecs_model) (ss_db s') all_model [].
Proof.
  destruct (sync_blocks_model 2 0 (state_of synced_store)) as [s' r] eqn:H.
  assert (r = Ok false) as ->.
  { apply (f_equal snd) in H. vm_compute in H. exact (eq_sym H). }
  assert (frontier (client := client_model) 0 all_model []) as Fr.
  { intros h hdr Hh Hhdr Hn. right. left.
    destruct (client_model_cases _ _ Hhdr) as [[-> ->]|[-> ->]]; [done|]. unfold all_model. set_solver. }
  assert (ancestor (client := client_model) (DHash 1) (DHash 0)) as Ha
    by (refine (ancestor_parent (client := client_model) (DHash 1) (DHash 1)
          {| dh_number := 1; dh_parent_hash := DHash 0; dh_digest := [example_block] |}
          (ancestor_refl _) eq_refl _); done).
  destruct (sync_blocks_complete (codecs := codecs_model) (items := log_items) (client := client_model)
    (f64 := f64_model) (crypto := crypto_small) (ca := address_model)
    (hasher := @PedersenHasher _ crypto_small) (kv := kv_model) (Hkv := kv_model_spec)
    false 2 0 (state_of synced_store) s' all_model [] [DHash 1] (DHash 1) (DHash 0)
    {| dh_number := 0; dh_parent_hash := DHash (-1); dh_digest := [] |}
    client_model_ok synced_store_view Fr ltac:(lia) H eq_refl ltac:(set_solver) Ha eq_refl ltac:(simpl; lia))
    as [Hin V].
  split; [exact Hin|]. exists s'. split; [reflexivity|exact V].
Defined.

(** A store whose [Meta] column cannot be written. *)
Definition kv_no_meta : KvStore unit Contents := {|
  get_cf m c k := Ok (m !! (c, k));
  put_cf m c k v := if decide (c = Meta) then Err tt else Ok (<[(c, k) := v]> m);
  delete_cf m c k := Ok (delete (c, k) m);
  write m ops := Ok (apply_batch m ops);
  iterator_cf m c from := Ok <$> column_entries m c from;
|}.

Definition kv_no_meta_spec : KvStoreSpec kv_no_meta.
Proof.
  refine {| contents m := m |}; try done.
  - intros m c k v. simpl. by destruct (decide _).
  - intros m c from. left. exists (column_entries m c from).
    split; [done|]. apply column_entries_ok.
Defined.

Lemma leaf_model h :
  (h ∈ [] ∨ ([] : list DHashT) = [] ∧ ∃ ls, @blockchain_leaves _ _ client_model = Ok ls ∧ h ∈ ls) → h = DHash 1.
Proof. intros [[]%not_elem_of_nil|(_ & ls & [= <-] & ->%list_elem_of_singleton)]. done. Qed.
Lemma root_unsettled : ¬ settled (client := client_model) 0 {[DHash 1]} (DHash 0).
Proof. intros [Hs|(hdr & [= <-] & Hlt)]; [set_solver|simpl in Hlt; lia]. Qed.

(** On such a store block 1 is recorded, and the tips where block 0 would take its
    place are not: the call fails, and the frontier is lost. *)
Lemma sync_one_block_error_witness : ∃ s',
  sync_one_block (E1 := unit) (E2 := unit) (items := log_items) (client := client_model)
    (f64 := f64_model) (crypto := crypto_small) (ca := address_model)
    (hasher := @PedersenHasher _ crypto_small) (kv := kv_no_meta) (codecs := codecs_model)
    false 0 (state_of ∅) = (s', Err (Sync_Db (RocksDB tt))) ∧
  sync_view (codecs := codecs_model) (ss_db s') {[DHash 1]} [] ∧
  ¬ frontier (client := client_model) 0 {[DHash 1]} [].
Proof.
  destruct (sync_one_block _ 0 _) as [s' r] eqn:H.
  assert (r = Err (Sync_Db (RocksDB tt))) as -> by (apply (f_equal snd) in H; vm_compute in H; exact (eq_sym H)).
  destruct (sync_one_block_error (codecs := codecs_model) (items := log_items) (client := client_model)
    (f64 := f64_model) (crypto := crypto_small) (ca := address_model)
    (hasher := @PedersenHasher _ crypto_small) (kv := kv_no_meta) (Hkv := kv_no_meta_spec)
    false 0 (state_of ∅) s' _ ∅ [] client_model_ok view_empty H)
    as [Hdb|(h & hdr & rest & e & _ & Hin & Hhdr & _ & _ & _ & V & Hfr)].
  - exfalso. apply (f_equal (λ p, bool_decide (ss_db p.1 = ∅))) in H. simpl in H.
    rewrite (bool_decide_true (ss_db s' = ∅)) in H by exact Hdb. vm_compute in H. discriminate H.
  - exists s'. split; [reflexivity|]. clear H.
    pose proof (leaf_model _ Hin) as ->. injection Hhdr as <-. rewrite union_empty_r_L in V, Hfr.
    split; [exact V|]. exact (Hfr ltac:(discriminate) (not_elem_of_nil _) root_unsettled).
Defined.
