(* ===== verification/RpcEvents.v ===== *)
(** * RpcEvents: event queries
    ([client/rpc/src/types.rs] and [methods/read/get_events.rs])

    [starknet_getEvents] walks the blocks of a range, keeps the events that
    match the filter, and answers a page at a time; the continuation token names
    the block and the number of matching events already given.  The blocks and
    their events are the interface [BlockSource]. *)

From S2P Require Import Prelude Felt Blocks.

(** ** Errors of the RPC (errors.rs) *)

Inductive StarknetRpcApiError :=
| FailedToReceiveTxn | ContractNotFound | BlockNotFound | InvalidTxnHash | InvalidBlockHash | InvalidTxnIndex
| ClassHashNotFound | TxnHashNotFound | PageSizeTooBig | NoBlocks | InvalidContinuationToken
| TooManyKeysInFilter | FailedToFetchPendingTransactions | ContractError | TxnExecutionError
| InvalidContractClass | ClassAlreadyDeclared | InvalidTxnNonce | InsufficientMaxFee
| InsufficientAccountBalance | ValidationFailure | CompilationFailed | ContractClassSizeTooLarge
| NonAccount | DuplicateTxn | CompiledClassHashMismatch | UnsupportedTxnVersion
| UnsupportedContractClassVersion | ErrUnexpectedError | InternalServerError | UnimplementedMethod
| ProofLimitExceeded.

(** ** The continuation token (types.rs) *)

Record ContinuationToken := { block_n : Z; event_n : Z }.

(** Why [str::parse::<u64>] fails. *)
Inductive ParseIntError := PIE_Empty | PIE_InvalidDigit | PIE_PosOverflow.
Inductive ParseTokenError := WrongToken | ParseFailed (e : ParseIntError).

(** [Display] of an [u64]: decimal digits, most significant first. *)
Fixpoint decimal (fuel : nat) (n : Z) (acc : bytes) : bytes :=
  match fuel with
  | O => acc
  | S fuel => let acc := 48 + n mod 10 :: acc in if n / 10 =? 0 then acc else decimal fuel (n / 10) acc
  end.
(** An [u64] has at most 20 digits. *)
Definition u64_to_string (n : Z) : bytes := decimal 20 n [].

(** [str::parse::<u64>]: an optional plus sign, then digits, checked for overflow. *)
Fixpoint parse_digits (s : bytes) (acc : Z) : Outcome ParseIntError Z :=
  match s with
  | [] => Ok acc
  | c :: s =>
      if (48 <=? c) && (c <=? 57) then
        let acc := acc * 10 + (c - 48) in
        if acc <=? u64_max then parse_digits s acc else Err PIE_PosOverflow
      else Err PIE_InvalidDigit
  end.
Definition parse_u64 (s : bytes) : Outcome ParseIntError Z :=
  match s with
  | [] => Err PIE_Empty
  | c :: digits =>
      if c =? 43 then (if decide (digits = []) then Err PIE_InvalidDigit else parse_digits digits 0)
      else parse_digits s 0
  end.

(** [str::split]: the pieces between the separators. *)
Fixpoint split (sep : Z) (s : bytes) : list bytes :=
  match s with
  | [] => [[]]
  | c :: s =>
      if c =? sep then [] :: split sep s
      else match split sep s with
           | piece :: pieces => (c :: piece) :: pieces
           | [] => [[c]]
           end
  end.

Definition dash : Z := 45.

Definition ContinuationToken_to_string (self : ContinuationToken) : bytes :=
  u64_to_string (block_n self) ++ [dash] ++ u64_to_string (event_n self).

Definition ContinuationToken_parse (token : bytes) : Outcome ParseTokenError ContinuationToken :=
  match split dash token with
  | [b; e] =>
      block_n ← map_err ParseFailed (parse_u64 b);
      event_n ← map_err ParseFailed (parse_u64 e);
      Ok {| block_n := block_n; event_n := event_n |}
  | _ => Err WrongToken
  end.

(** ** Event queries *)

Definition MAX_EVENTS_KEYS : nat := 100.
Definition MAX_EVENTS_CHUNK_SIZE : Z := 1000.

Record EmittedEvent := {
  ee_from_address : Z;
  ee_keys : list Z;
  ee_data : list Z;
  ee_block_hash : option Z;
  ee_block_number : option Z;
  ee_transaction_hash : Z;
}.

Record EventFilterWithPage := {
  f_from_block : option BlockId;
  f_to_block : option BlockId;
  f_address : option Z;
  f_keys : option (list (list Z));
  f_continuation_token : option bytes;
  f_chunk_size : Z;
}.

Record EventsPage := { page_events : list EmittedEvent; page_continuation_token : option bytes }.

(** What the query needs of the node. *)
Class BlockSource := {
  substrate_block_number_from_starknet_block : BlockId → Outcome StarknetRpcApiError Z;
  get_block_events : BlockId → Outcome StarknetRpcApiError (list EmittedEvent);
}.

Section GetEvents.
Context `{src : BlockSource}.

Definition event_match_filter (event : EmittedEvent) (address : option Z) (keys : list (list Z)) : bool :=
  let match_from_address := match address with Some addr => addr =? ee_from_address event | None => true end in
  let match_keys :=
    forallb (λ '(i, keys),
      match ee_keys event !! i with
      | Some k => bool_decide (keys = []) || bool_decide (k ∈ keys)
      | None => false
      end) (imap pair keys) in
  match_from_address && match_keys.

Definition is_pending (b : option BlockId) : bool :=
  match b with Some (BlockId_Tag Pending) => true | _ => false end.

Definition block_number_of (b : BlockId) : Outcome StarknetRpcApiError Z :=
  map_err (λ _, BlockNotFound) (substrate_block_number_from_starknet_block b).

Definition block_range (from_block to_block : option BlockId) : Outcome StarknetRpcApiError (Z * Z * Z) :=
  latest ← block_number_of (BlockId_Tag Latest);
  from ← (if is_pending from_block then Ok (latest + 1)
          else block_number_of (default (BlockId_Number 0) from_block));
  to ← (if is_pending to_block then Ok (latest + 1)
        else block_number_of (default (BlockId_Number 0) to_block));
  Ok (from, to, latest).

(** [usize] subtraction and [u64] addition. *)
Definition usize_sub (a b : Z) : Outcome StarknetRpcApiError Z := if b <=? a then Ok (a - b) else Panic.
Definition u64_add (a b : Z) : Outcome StarknetRpcApiError Z := if a + b <=? u64_max then Ok (a + b) else Panic.

Section Loop.
Variable from_address : option Z.
Variable keys : list (list Z).
Variable chunk_size latest_block : Z.
Variable continuation_token : ContinuationToken.

(** [for current_block in from_block..=to_block] *)
Fixpoint events_loop (blocks : list Z) (from_block : Z) (filtered_events : list EmittedEvent)
    : Outcome StarknetRpcApiError EventsPage :=
  match blocks with
  | [] => Ok {| page_events := filtered_events; page_continuation_token := None |}
  | current_block :: blocks =>
      events ← (if current_block <=? latest_block then get_block_events (BlockId_Number current_block)
                else get_block_events (BlockId_Tag Pending));
      let block_filtered_events := filter (λ e, event_match_filter e from_address keys = true) events in
      if (current_block =? from_block)
         && (Z.of_nat (length block_filtered_events) <? event_n continuation_token)
      then Err InvalidContinuationToken
      else
        left ← usize_sub chunk_size (Z.of_nat (length filtered_events));
        let block_filtered_reduced_events :=
          take (Z.to_nat left)
            (drop (if current_block =? from_block then Z.to_nat (event_n continuation_token) else 0%nat)
               block_filtered_events) in
        let num_events := length block_filtered_reduced_events in
        let filtered_events := filtered_events ++ block_filtered_reduced_events in
        if Z.of_nat (length filtered_events) =? chunk_size then
          event_n ← (if current_block =? from_block then u64_add (event_n continuation_token) chunk_size
                     else Ok (Z.of_nat num_events));
          let token := Some (ContinuationToken_to_string {| block_n := current_block; event_n := event_n |}) in
          Ok {| page_events := filtered_events; page_continuation_token := token |}
        else events_loop blocks from_block filtered_events
  end.

End Loop.

Definition get_events (filter : EventFilterWithPage) : Outcome StarknetRpcApiError EventsPage :=
  let from_address := f_address filter in
  let keys := default [] (f_keys filter) in
  let chunk_size := f_chunk_size filter in
  if (MAX_EVENTS_KEYS <? length keys)%nat then Err TooManyKeysInFilter
  else if MAX_EVENTS_CHUNK_SIZE <? chunk_size then Err PageSizeTooBig
  else
    '(from_block, to_block, latest_block) ← block_range (f_from_block filter) (f_to_block filter);
    continuation_token ←
      (match f_continuation_token filter with
       | Some token => map_err (λ _, InvalidContinuationToken) (ContinuationToken_parse token)
       | None => Ok {| block_n := from_block; event_n := 0 |}
       end);
    if to_block <? from_block then Ok {| page_events := []; page_continuation_token := None |}
    else
      let from_block := block_n continuation_token in
      events_loop from_address keys chunk_size latest_block continuation_token
        (seqZ from_block (to_block + 1 - from_block)) from_block [].

End GetEvents.

(** ** The token is read back *)

Definition digit (c : Z) : Prop := 48 ≤ c ≤ 57.
Definition digits_value (ds : bytes) (acc : Z) : Z := foldl (λ a c, a * 10 + (c - 48)) acc ds.

Lemma digits_value_le ds acc : Forall digit ds → 0 ≤ acc → acc ≤ digits_value ds acc.
Proof.
  intros H. revert acc. induction H as [|c ds Hc _ IH]; intros acc Ha; [done|]. simpl.
  unfold digit in Hc. etrans; [|apply IH]; lia.
Qed.

Lemma parse_digits_value ds acc :
  Forall digit ds → 0 ≤ acc → digits_value ds acc ≤ u64_max → parse_digits ds acc = Ok (digits_value ds acc).
Proof.
  intros H. revert acc. induction H as [|c ds Hc Hds IH]; intros acc Ha Hle; [done|]. simpl in *.
  unfold digit in Hc. rewrite !(proj2 (Z.leb_le _ _)) by lia. simpl.
  pose proof (digits_value_le ds (acc * 10 + (c - 48)) Hds ltac:(lia)).
  rewrite (proj2 (Z.leb_le _ _)) by (unfold digits_value in *; lia). apply IH; [lia|done].
Qed.

Lemma decimal_spec fuel n acc :
  (0 < fuel)%nat → 0 ≤ n < 10 ^ Z.of_nat fuel →
  ∃ ds, decimal fuel n acc = ds ++ acc ∧ ds ≠ [] ∧ Forall digit ds ∧ digits_value ds 0 = n.
Proof.
  revert n acc. induction fuel as [|fuel IH]; intros n acc Hf Hn; [lia|]. cbn [decimal].
  assert (digit (48 + n mod 10)) as Hd by (pose proof (Z.mod_pos_bound n 10); unfold digit; lia).
  destruct (n / 10 =? 0) eqn:E; bool_to_prop.
  - exists [48 + n mod 10]. split_and!; try done; [by constructor|]. unfold digits_value. simpl.
    pose proof (Z.div_mod n 10). lia.
  - rewrite Nat2Z.inj_succ, Z.pow_succ_r in Hn by lia.
    assert (0 <= n / 10 < 10 ^ Z.of_nat fuel) as Hn'.
    { split; [apply Z.div_pos; lia | apply Z.div_lt_upper_bound; lia]. }
    assert (0 < fuel)%nat as Hf'.
    { destruct fuel; [|lia]. rewrite Z.pow_0_r in Hn'. lia. }
    destruct (IH (n / 10) (48 + n mod 10 :: acc) Hf' Hn') as (ds & -> & Hne & Hds & Hv).
    exists (ds ++ [48 + n mod 10]). split_and!.
    + by rewrite <-app_assoc.
    + by destruct ds.
    + apply Forall_app. split; [done|by constructor].
    + unfold digits_value in *. rewrite foldl_app, Hv. simpl. pose proof (Z.div_mod n 10). lia.
Qed.

Lemma u64_to_string_spec n : is_u64 n →
  Forall digit (u64_to_string n) ∧ parse_u64 (u64_to_string n) = Ok n.
Proof.
  intros Hn. destruct (decimal_spec 20 n [] ltac:(lia)) as (ds & Hds & Hne & Hf & Hv).
  { split; [apply Hn|]. eapply Z.le_lt_trans; [apply Hn|done]. }
  unfold u64_to_string. rewrite Hds, app_nil_r. split; [done|].
  assert (parse_u64 ds = parse_digits ds 0) as ->.
  { destruct ds as [|c ds]; [done|]. apply Forall_cons in Hf as [Hc _]. unfold parse_u64, digit in *.
    by rewrite (proj2 (Z.eqb_neq c 43)) by lia. }
  rewrite parse_digits_value; rewrite ?Hv; try done. apply Hn.
Qed.

Lemma split_piece sep ds rest :
  Forall (λ c, c ≠ sep) ds → split sep (ds ++ sep :: rest) = ds :: split sep rest.
Proof.
  induction 1 as [|c ds Hc _ IH]; simpl.
  - by rewrite Z.eqb_refl.
  - rewrite (proj2 (Z.eqb_neq c sep)) by done. by rewrite IH.
Qed.

Lemma split_last sep ds : Forall (λ c, c ≠ sep) ds → split sep ds = [ds].
Proof.
  induction 1 as [|c ds Hc _ IH]; simpl; [done|]. rewrite (proj2 (Z.eqb_neq c sep)) by done. by rewrite IH.
Qed.

Lemma digit_not_dash ds : Forall digit ds → Forall (λ c, c ≠ dash) ds.
Proof. intros H. eapply Forall_impl; [exact H|]. unfold digit, dash. lia. Qed.

Lemma token_parse_print t :
  is_u64 (block_n t) → is_u64 (event_n t) → ContinuationToken_parse (ContinuationToken_to_string t) = Ok t.
Proof.
  intros Hb He. destruct (u64_to_string_spec _ Hb) as [Db Pb]. destruct (u64_to_string_spec _ He) as [De Pe].
  unfold ContinuationToken_parse, ContinuationToken_to_string. simpl. revert Db Pb De Pe.
  generalize (u64_to_string (block_n t)), (u64_to_string (event_n t)). intros db de Db Pb De Pe.
  rewrite split_piece, split_last by by apply digit_not_dash. rewrite Pb, Pe. by destruct t.
Qed.

(** A continuation token is read back from its printed form, for every block
    and event number. *)
Theorem continuation_token_roundtrip t :
  is_u64 (block_n t) → is_u64 (event_n t) → ContinuationToken_parse (ContinuationToken_to_string t) = Ok t.
Proof. apply token_parse_print. Qed.

(** ** Pagination *)

Section Pagination.
Context `{src : BlockSource}.

(** A query whose range has been resolved, over blocks that can all be read. *)
Variable from_address : option Z.
Variable keys : list (list Z).
Variable chunk_size latest_block from to : Z.
Variable block_events : Z → list EmittedEvent.

Hypothesis chunk_pos : 1 ≤ chunk_size ≤ MAX_EVENTS_CHUNK_SIZE.
Hypothesis range_u64 : 0 ≤ from ∧ to ≤ u64_max.
Hypothesis events_read : ∀ n, from ≤ n ≤ to →
  (if n <=? latest_block then get_block_events (BlockId_Number n) else get_block_events (BlockId_Tag Pending))
  = Ok (block_events n).
(** Fewer than [2^63] events in a block. *)
Hypothesis events_fit : ∀ n, Z.of_nat (length (block_events n)) ≤ 2 ^ 63.

(** The events of a block that match the filter. *)
Definition matching (n : Z) : list EmittedEvent :=
  filter (λ e, event_match_filter e from_address keys = true) (block_events n).

(** All matching events of the blocks from [n] on. *)
Definition matching_from (n : Z) : list EmittedEvent := seqZ n (to + 1 - n) ≫= matching.

(** What is left to give at a position of the walk. *)
Definition remaining (t : ContinuationToken) : list EmittedEvent :=
  drop (Z.to_nat (event_n t)) (matching (block_n t)) ++ matching_from (block_n t + 1).

Definition valid_token (t : ContinuationToken) : Prop :=
  from ≤ block_n t ≤ to ∧ 0 ≤ event_n t ≤ Z.of_nat (length (matching (block_n t))).

Lemma matching_from_step n : n ≤ to → matching_from n = matching n ++ matching_from (n + 1).
Proof.
  intros Hn. unfold matching_from. rewrite seqZ_cons by lia. rewrite bind_cons.
  by replace (Z.pred (to + 1 - n)) with (to + 1 - Z.succ n) by lia.
Qed.

Lemma matching_from_end : matching_from (to + 1) = [].
Proof. unfold matching_from. by replace (to + 1 - (to + 1)) with 0 by lia. Qed.

Lemma matching_length n : Z.of_nat (length (matching n)) ≤ 2 ^ 63.
Proof.
  etrans; [|apply (events_fit n)]. apply inj_le. unfold matching. apply length_filter.
Qed.

(** A page: all that is left, or a full chunk and a token for the rest. *)
Definition page_of (left : list EmittedEvent) (m : Outcome StarknetRpcApiError EventsPage) : Prop :=
  if Z.of_nat (length left) <? chunk_size then
    m = Ok {| page_events := left; page_continuation_token := None |}
  else ∃ t, valid_token t ∧ remaining t = drop (Z.to_nat chunk_size) left ∧
    m = Ok {| page_events := take (Z.to_nat chunk_size) left;
              page_continuation_token := Some (ContinuationToken_to_string t) |}.

Lemma chunk_split {A} (a m r : list A) c :
  (length a ≤ c ≤ length a + length m)%nat →
  take c (a ++ m ++ r) = a ++ take (c - length a) m ∧ drop c (a ++ m ++ r) = drop (c - length a) m ++ r.
Proof.
  intros H. rewrite !take_app, !drop_app, (take_ge a), (drop_ge a) by lia.
  replace (c - length a - length m)%nat with 0%nat by lia. by rewrite take_0, drop_0, app_nil_r.
Qed.

(** The blocks after the first one of a page. *)
Lemma later_blocks tok fromb n acc :
  from ≤ fromb < n ∧ n ≤ to + 1 → Z.of_nat (length acc) < chunk_size →
  page_of (acc ++ matching_from n)
    (events_loop from_address keys chunk_size latest_block tok (seqZ n (to + 1 - n)) fromb acc).
Proof.
  remember (Z.to_nat (to + 1 - n)) as k eqn:Hk. revert n acc Hk.
  induction k as [|k IH]; intros n acc Hk Hn Hacc.
  { assert (n = to + 1) as -> by lia. rewrite matching_from_end, app_nil_r.
    replace (to + 1 - (to + 1)) with 0 by lia. unfold page_of. by rewrite (proj2 (Z.ltb_lt _ _)). }
  rewrite seqZ_cons by lia. cbn [events_loop]. rewrite events_read by lia. cbn [mbind Outcome_bind].
  change (filter (λ e, event_match_filter e from_address keys = true) (block_events n)) with (matching n).
  rewrite (proj2 (Z.eqb_neq n fromb)) by lia. cbn [andb]. unfold usize_sub.
  rewrite (proj2 (Z.leb_le _ _)) by lia. cbn [mbind Outcome_bind]. rewrite drop_0, length_app, length_take.
  pose proof (matching_length n) as Hml. rewrite (matching_from_step n) by lia.
  destruct (Z.of_nat (length acc + Z.to_nat (chunk_size - Z.of_nat (length acc)) `min` length (matching n))
    =? chunk_size) eqn:Ec; bool_to_prop.
  - destruct (chunk_split acc (matching n) (matching_from (n + 1)) (Z.to_nat chunk_size)) as [Ht Hd]; [lia|].
    unfold page_of. rewrite (proj2 (Z.ltb_ge _ _)) by (rewrite !length_app; lia).
    replace (Z.to_nat (chunk_size - Z.of_nat (length acc))) with (Z.to_nat chunk_size - length acc)%nat by lia.
    eexists. split; [|split; [|rewrite Ht; reflexivity]].
    + unfold valid_token. simpl. lia.
    + unfold remaining. simpl. rewrite Hd. f_equal. f_equal. lia.
  - rewrite take_ge by lia. rewrite app_assoc.
    replace (Z.pred (to + 1 - n)) with (to + 1 - Z.succ n) by lia.
    apply (IH (Z.succ n)); [lia|lia|]. rewrite length_app. lia.
Qed.

(** A page from a valid position. *)
Lemma page_from_token t :
  valid_token t →
  page_of (remaining t)
    (events_loop from_address keys chunk_size latest_block t (seqZ (block_n t) (to + 1 - block_n t)) (block_n t) []).
Proof.
  destruct t as [n e]. unfold valid_token, remaining. simpl. intros [Hn He].
  rewrite seqZ_cons by lia. cbn [events_loop]. rewrite events_read by lia. cbn [mbind Outcome_bind].
  change (filter (λ e, event_match_filter e from_address keys = true) (block_events n)) with (matching n).
  rewrite Z.eqb_refl, (proj2 (Z.ltb_ge _ _)) by (simpl; lia). cbn [andb]. unfold usize_sub.
  rewrite (proj2 (Z.leb_le _ _)) by (simpl; lia). cbn [mbind Outcome_bind event_n].
  rewrite app_nil_l, Z.sub_0_r, length_take, length_drop.
  pose proof (matching_length n) as Hml. unfold MAX_EVENTS_CHUNK_SIZE in chunk_pos.
  destruct (Z.of_nat (Z.to_nat chunk_size `min` (length (matching n) - Z.to_nat e)) =? chunk_size) eqn:Ec;
    bool_to_prop.
  - unfold u64_add. rewrite (proj2 (Z.leb_le _ _)) by (unfold u64_max; lia). cbn [mbind Outcome_bind].
    destruct (chunk_split [] (drop (Z.to_nat e) (matching n)) (matching_from (n + 1)) (Z.to_nat chunk_size))
      as [Ht Hd]; [rewrite length_drop; simpl; lia|]. simpl in Ht, Hd. rewrite Nat.sub_0_r in Ht, Hd.
    unfold page_of. rewrite (proj2 (Z.ltb_ge _ _)) by (rewrite !length_app, length_drop; lia).
    eexists. split; [|split; [|rewrite Ht; reflexivity]].
    + unfold valid_token. simpl. lia.
    + unfold remaining. simpl. rewrite Hd, drop_drop. f_equal. f_equal. lia.
  - rewrite take_ge by (rewrite length_drop; lia).
    replace (Z.pred (to + 1 - n)) with (to + 1 - Z.succ n) by lia.
    apply (later_blocks _ n (Z.succ n)); [lia|]. rewrite length_drop. lia.
Qed.

(** The same query with another continuation token. *)
Definition with_token (f : EventFilterWithPage) (token : option bytes) : EventFilterWithPage :=
  {| f_from_block := f_from_block f; f_to_block := f_to_block f; f_address := f_address f; f_keys := f_keys f;
     f_continuation_token := token; f_chunk_size := f_chunk_size f |}.

(** A client that asks for page after page, at most [fuel] of them. *)
Fixpoint collect (fuel : nat) (f : EventFilterWithPage) (token : option bytes)
    : Outcome StarknetRpcApiError (list EmittedEvent) :=
  match fuel with
  | O => Panic
  | S fuel =>
      page ← get_events (with_token f token);
      match page_continuation_token page with
      | None => Ok (page_events page)
      | Some t => rest ← collect fuel f (Some t); Ok (page_events page ++ rest)
      end
  end.

Section Query.
Variable f : EventFilterWithPage.
Hypothesis f_ok : f_address f = from_address ∧ default [] (f_keys f) = keys ∧ f_chunk_size f = chunk_size.
Hypothesis keys_ok : (length keys ≤ MAX_EVENTS_KEYS)%nat.
Hypothesis range_ok : block_range (f_from_block f) (f_to_block f) = Ok (from, to, latest_block).
Hypothesis range_pos : from ≤ to.

(** The position a token stands for. *)
Definition position (token : option bytes) : Outcome ParseTokenError ContinuationToken :=
  match token with Some t => ContinuationToken_parse t | None => Ok {| block_n := from; event_n := 0 |} end.

Lemma get_events_page token t :
  position token = Ok t → valid_token t → page_of (remaining t) (get_events (with_token f token)).
Proof.
  intros Hp Hv. destruct f_ok as (Ha & Hk & Hc). unfold get_events. simpl.
  rewrite Ha, Hk, Hc, (proj2 (Nat.ltb_ge _ _)), (proj2 (Z.ltb_ge _ _)), range_ok by (apply keys_ok || lia).
  cbn [mbind Outcome_bind].
  assert ((match token with
    | Some tk => map_err (λ _, InvalidContinuationToken) (ContinuationToken_parse tk)
    | None => Ok {| block_n := from; event_n := 0 |} end) = Ok t) as ->.
  { destruct token as [tk|]; simpl in Hp; [by rewrite Hp | by injection Hp as <-]. }
  cbn [mbind Outcome_bind]. rewrite (proj2 (Z.ltb_ge _ _)) by lia. by apply page_from_token.
Qed.

Lemma collect_from token t fuel :
  position token = Ok t → valid_token t →
  Z.of_nat (length (remaining t)) < Z.of_nat fuel * chunk_size →
  collect fuel f token = Ok (remaining t).
Proof.
  revert token t. induction fuel as [|fuel IH]; intros token t Hp Hv Hf; [lia|]. cbn [collect].
  pose proof (get_events_page token t Hp Hv) as H. unfold page_of in H.
  destruct (Z.of_nat (length (remaining t)) <? chunk_size) eqn:Ec; bool_to_prop; [by rewrite H|].
  destruct H as (t' & Hv' & Hr & ->). cbn [mbind Outcome_bind page_continuation_token page_events].
  rewrite (IH _ t'); [cbn [mbind Outcome_bind]; by rewrite Hr, take_drop | | done |].
  - apply token_parse_print; destruct Hv' as [? [? ?]]; pose proof (matching_length (block_n t'));
      unfold is_u64, u64_max in *; lia.
  - rewrite Hr, length_drop. lia.
Qed.

End Query.
End Pagination.

(** The pages of a query put together. *)
Lemma pages_complete `{src : BlockSource} f from to latest block_events :
  1 ≤ f_chunk_size f ≤ MAX_EVENTS_CHUNK_SIZE →
  (length (default [] (f_keys f)) ≤ MAX_EVENTS_KEYS)%nat →
  block_range (f_from_block f) (f_to_block f) = Ok (from, to, latest) →
  0 ≤ from ≤ to ∧ to ≤ u64_max →
  (∀ n, from ≤ n ≤ to →
     (if n <=? latest then get_block_events (BlockId_Number n) else get_block_events (BlockId_Tag Pending))
     = Ok (block_events n)) →
  (∀ n, Z.of_nat (length (block_events n)) ≤ 2 ^ 63) →
  let all := seqZ from (to + 1 - from) ≫= matching (f_address f) (default [] (f_keys f)) block_events in
  collect (1 + length all / Z.to_nat (f_chunk_size f)) f None = Ok all.
Proof.
  intros Hc Hk Hr Hrange Hev Hfit all.
  pose (t := {| block_n := from; event_n := 0 |}).
  assert (remaining (f_address f) (default [] (f_keys f)) to block_events t = all) as Hall.
  { unfold remaining, t. simpl. rewrite drop_0. symmetry. apply matching_from_step. lia. }
  rewrite <-Hall at 2.
  apply (collect_from (f_address f) (default [] (f_keys f)) (f_chunk_size f) latest from to block_events); try done.
  - lia.
  - lia.
  - unfold valid_token, t. simpl. lia.
  - rewrite Hall. pose proof (Nat.div_mod (length all) (Z.to_nat (f_chunk_size f))).
    pose proof (Nat.mod_upper_bound (length all) (Z.to_nat (f_chunk_size f))).
    set (q := (length all / Z.to_nat (f_chunk_size f))%nat) in *. nia.
Qed.

(** C16: Asking for page after page gives every matching event of the range
    exactly once and in order: over blocks that can be read, a client that
    follows the continuation tokens receives, after one page more than the number
    of full chunks, exactly the events of the blocks from [from] to [to] that
    match the filter. *)
Theorem events_pagination_complete `{src : BlockSource} f from to latest block_events :
  1 ≤ f_chunk_size f ≤ MAX_EVENTS_CHUNK_SIZE →
  (length (default [] (f_keys f)) ≤ MAX_EVENTS_KEYS)%nat →
  block_range (f_from_block f) (f_to_block f) = Ok (from, to, latest) →
  0 ≤ from ≤ to ∧ to ≤ u64_max →
  (∀ n, from ≤ n ≤ to →
     (if n <=? latest then get_block_events (BlockId_Number n) else get_block_events (BlockId_Tag Pending))
     = Ok (block_events n)) →
  (∀ n, Z.of_nat (length (block_events n)) ≤ 2 ^ 63) →
  let all := seqZ from (to + 1 - from) ≫= matching (f_address f) (default [] (f_keys f)) block_events in
  collect (1 + length all / Z.to_nat (f_chunk_size f)) f None = Ok all.
Proof. apply pages_complete. Qed.

(** A query that names no last block only searches up to the genesis block:
    [to_block] defaults to block 0, so that any range starting after it is
    answered with an empty last page. *)
Theorem missing_to_block_is_genesis `{src : BlockSource} f n latest :
  (∀ n, substrate_block_number_from_starknet_block (BlockId_Number n) = Ok n) →
  substrate_block_number_from_starknet_block (BlockId_Tag Latest) = Ok latest →
  f_from_block f = Some (BlockId_Number n) → 0 < n → f_to_block f = None → f_continuation_token f = None →
  (length (default [] (f_keys f)) ≤ MAX_EVENTS_KEYS)%nat → f_chunk_size f ≤ MAX_EVENTS_CHUNK_SIZE →
  get_events f = Ok {| page_events := []; page_continuation_token := None |}.
Proof.
  intros Hnum Hl Hf Hn Ht Htok Hk Hc. unfold get_events, block_range, block_number_of.
  rewrite (proj2 (Nat.ltb_ge _ _)), (proj2 (Z.ltb_ge _ _)), Hl, Hf, Ht, Htok by done. simpl.
  rewrite !Hnum. simpl. by rewrite (proj2 (Z.ltb_lt 0 n)).
Qed.

(** A chunk size of zero is accepted and never progresses: the page is empty
    and its token stands where the query started. *)
Theorem zero_chunk_stuck `{src : BlockSource} f from to latest t events :
  f_chunk_size f = 0 → (length (default [] (f_keys f)) ≤ MAX_EVENTS_KEYS)%nat →
  block_range (f_from_block f) (f_to_block f) = Ok (from, to, latest) → from ≤ to →
  f_continuation_token f = Some (ContinuationToken_to_string t) →
  is_u64 (block_n t) → is_u64 (event_n t) → block_n t ≤ to →
  (if block_n t <=? latest then get_block_events (BlockId_Number (block_n t))
   else get_block_events (BlockId_Tag Pending)) = Ok events →
  event_n t ≤ Z.of_nat (length (matching (f_address f) (default [] (f_keys f)) (λ _, events) (block_n t))) →
  get_events f = Ok {| page_events := []; page_continuation_token := f_continuation_token f |}.
Proof.
  intros Hc Hk Hr Hle Htok Hb He Hbt Hev Hen. unfold get_events. rewrite Htok, Hc, Hr.
  rewrite (proj2 (Nat.ltb_ge _ _)) by done. change (MAX_EVENTS_CHUNK_SIZE <? 0) with false.
  cbn [mbind Outcome_bind]. rewrite token_parse_print by done. cbn [map_err mbind Outcome_bind].
  rewrite (proj2 (Z.ltb_ge _ _)), seqZ_cons by lia. cbn [events_loop]. rewrite Hev. cbn [mbind Outcome_bind].
  unfold matching in Hen. rewrite Z.eqb_refl, (proj2 (Z.ltb_ge _ _)) by done. cbn [andb length].
  change (usize_sub 0 (Z.of_nat 0)) with (Ok 0 : Outcome StarknetRpcApiError Z). cbn [mbind Outcome_bind].
  change (Z.to_nat 0) with 0%nat. unfold u64_add. rewrite take_0. cbn [app length]. rewrite Z.add_0_r, (proj2 (Z.leb_le _ _)) by apply He.
  simpl. by destruct t.
Qed.

Example token_print : ContinuationToken_to_string {| block_n := 30; event_n := 4 |} = bytes_of_string "30-4".
Proof. reflexivity. Qed.
Example token_parse : ContinuationToken_parse (bytes_of_string "30-4") = Ok {| block_n := 30; event_n := 4 |}.
Proof. reflexivity. Qed.

(** ** Witnesses *)

Definition source_model : BlockSource := {|
  substrate_block_number_from_starknet_block b :=
    match b with BlockId_Number n => Ok n | _ => Ok 2 end;
  get_block_events b :=
    Ok (match b with
        | BlockId_Number n =>
            map (λ k, {| ee_from_address := 7; ee_keys := [k]; ee_data := []; ee_block_hash := None;
                         ee_block_number := Some n; ee_transaction_hash := k |}) [1; 2; 3]
        | _ => []
        end);
|}.

Definition example_filter : EventFilterWithPage :=
  {| f_from_block := Some (BlockId_Number 1); f_to_block := Some (BlockId_Tag Latest); f_address := Some 7;
     f_keys := Some [[1; 3]]; f_continuation_token := None; f_chunk_size := 2 |}.

Lemma continuation_token_roundtrip_witness :
  ContinuationToken_parse (ContinuationToken_to_string {| block_n := 30; event_n := 4 |})
  = Ok {| block_n := 30; event_n := 4 |}.
Proof. apply (continuation_token_roundtrip {| block_n := 30; event_n := 4 |}); done. Defined.

Definition model_events (n : Z) : list EmittedEvent :=
  map (λ k, {| ee_from_address := 7; ee_keys := [k]; ee_data := []; ee_block_hash := None;
               ee_block_number := Some n; ee_transaction_hash := k |}) [1; 2; 3].

Lemma events_pagination_complete_witness :
  let all := seqZ 1 (2 + 1 - 1) ≫= matching (Some 7) [[1; 3]] model_events in
  length all = 4%nat ∧ collect (src := source_model) (1 + length all / 2) example_filter None = Ok all.
Proof.
  intros all. split; [reflexivity|].
  refine (events_pagination_complete (src := source_model) example_filter 1 2 2 model_events _ _ _ _ _ _).
  - done.
  - simpl. unfold MAX_EVENTS_KEYS. lia.
  - reflexivity.
  - done.
  - intros n Hn. rewrite (proj2 (Z.leb_le n 2)) by lia. reflexivity.
  - intros n. simpl. lia.
Defined.

Lemma missing_to_block_is_genesis_witness :
  get_events (src := source_model)
    {| f_from_block := Some (BlockId_Number 1); f_to_block := None; f_address := None; f_keys := None;
       f_continuation_token := None; f_chunk_size := 10 |}
  = Ok {| page_events := []; page_continuation_token := None |}.
Proof.
  refine (missing_to_block_is_genesis (src := source_model) _ 1 2 _ _ _ _ _ _ _ _); try done.
  simpl. unfold MAX_EVENTS_KEYS. lia.
Defined.

Lemma zero_chunk_stuck_witness :
  let token := ContinuationToken_to_string {| block_n := 1; event_n := 1 |} in
  get_events (src := source_model)
    {| f_from_block := Some (BlockId_Number 1); f_to_block := Some (BlockId_Tag Latest); f_address := None;
       f_keys := None; f_continuation_token := Some token; f_chunk_size := 0 |}
  = Ok {| page_events := []; page_continuation_token := Some token |}.
Proof.
  intros token.
  refine (zero_chunk_stuck (src := source_model)
    {| f_from_block := Some (BlockId_Number 1); f_to_block := Some (BlockId_Tag Latest); f_address := None;
       f_keys := None; f_continuation_token := Some token; f_chunk_size := 0 |}
    1 2 2 {| block_n := 1; event_n := 1 |} (model_events 1) _ _ _ _ _ _ _ _ _ _); try done.
  simpl. unfold MAX_EVENTS_KEYS. lia.
Defined.
