(* ===== verification/RpcClient.v ===== *)
(** * RpcClient: reading blocks and transactions through the RPC
    ([client/rpc/src/lib.rs], [madara_backend_client.rs], [events/mod.rs] and the
    read methods that look blocks and transactions up)

    A Starknet block id is resolved to a Substrate hash by the mapping database
    or the Substrate client; the Starknet block is in the digest of that header.
    This file implements the interface [BlockSource] of the event queries. *)

From S2P Require Import Prelude Felt Hashers Transactions TxHash CoreTx Blocks Db MappingSync RpcEvents.

(** What the RPC uses of the Substrate client besides headers. *)
Class ChainBackend (E : Type) := {
  client_number : DHashT → Outcome E (option Z);
  client_hash : Z → Outcome E (option DHashT);
  best_hash : DHashT;
  best_number : Z;
}.

(** [UniqueSaturatedInto] to the 32-bit Substrate block numbers. *)
Definition saturated_u32 (n : Z) : Z := Z.min n u32_max.

(** Errors of the RPC methods: those of the specification, and failed calls. *)
Inductive RpcError := Rpc_Api (e : StarknetRpcApiError) | Rpc_Failed.

Section Client.
Context {E1 E2 S Item : Type} `{kv : KvStore E1 S} `{codecs : DbCodecs}.
Context `{items : DigestItems Item} `{client : SubstrateClient E2 Item} `{chain : ChainBackend E2}.
Context `{libs : FeltLibs} `{crypto : StarknetCrypto} `{ca : ContractAddresses} `{hasher : HasherT}.
Variable cache_more_things : bool.
Variable db : S.
(** The pending block kept by the sync worker, and the configured chain id. *)
Variable pending_block : option DeoxysBlock.
Variable config_chain_id : option Z.

Abbreviation M := (Outcome StarknetRpcApiError).
Abbreviation R := (Outcome RpcError).

Definition no_err {E A} (m : Outcome Empty_set A) : Outcome E A := map_err (Empty_set_rect (λ _, E)) m.

(** ** madara_backend_client.rs *)

Definition is_canon (target_hash : DHashT) : bool :=
  match client_number target_hash with
  | Ok (Some number) =>
      match client_hash number with
      | Ok (Some hash) => bool_decide (hash = target_hash)
      | _ => false
      end
  | _ => false
  end.

Definition load_hash (hash : Z) : Outcome (DbError E1) (option DHashT) :=
  substrate_hashes ← MappingDb.block_hash db hash;
  match substrate_hashes with
  | Some substrate_hashes => Ok (head (filter (λ h, is_canon h = true) substrate_hashes))
  | None => Ok None
  end.

(** ** lib.rs *)

Definition chain_id : M Z := ok_or InternalServerError config_chain_id.

Definition substrate_block_hash_from_starknet_block (block_id : BlockId) : M DHashT :=
  o ← (match block_id with
       | BlockId_Hash h => map_err (λ _, BlockNotFound) (load_hash h)
       | BlockId_Number n => map_err (λ _, BlockNotFound) (client_hash (saturated_u32 n))
       | BlockId_Tag _ => Ok (Some best_hash)
       end);
  ok_or BlockNotFound o.

Definition block_number_from_starknet_block (block_id : BlockId) : M Z :=
  match block_id with
  | BlockId_Number x => Ok x
  | _ =>
      substrate_block_hash ← substrate_block_hash_from_starknet_block block_id;
      starknet_block ← map_err (λ _, BlockNotFound) (get_block_by_block_hash substrate_block_hash);
      Ok (block_number (header starknet_block))
  end.

Definition current_block_hash : M Z :=
  let substrate_block_hash := best_hash in
  starknet_block ← map_err (λ _, BlockNotFound) (get_block_by_block_hash substrate_block_hash);
  no_err (Header_hash (header starknet_block)).

(** An error of the cache is logged and treated as a miss. *)
Definition get_cached_transaction_hashes (block_hash : Z) : M (option (list Z)) :=
  match MappingDb.cached_transaction_hashes_from_block_hash cache_more_things db block_hash with
  | Ok hashes => Ok hashes
  | Err _ => Ok None
  | Panic => Panic
  end.

(** ** events/mod.rs *)

Definition get_block_by_number (block_number : Z) : M DeoxysBlock :=
  substrate_block_hash ← map_err (λ _, BlockNotFound)
    (substrate_block_hash_from_starknet_block (BlockId_Number block_number));
  map_err (λ _, BlockNotFound) (get_block_by_block_hash substrate_block_hash).

Definition get_block_by_hash (block_hash : Z) : M DeoxysBlock :=
  substrate_block_hash ← map_err (λ _, BlockNotFound)
    (substrate_block_hash_from_starknet_block (BlockId_Hash block_hash));
  map_err (λ _, BlockNotFound) (get_block_by_block_hash substrate_block_hash).

Definition get_block_by_tag (block_tag : BlockTag) : M DeoxysBlock :=
  match block_tag with
  | Latest =>
      n ← map_err (λ _, BlockNotFound) (block_number_from_starknet_block (BlockId_Tag Latest));
      get_block_by_number n
  | Pending => ok_or BlockNotFound pending_block
  end.

Definition get_block_txs_hashes (starknet_block : DeoxysBlock) : M (list Z) :=
  block_hash ← no_err (Header_hash (header starknet_block));
  chain_id ← unwrap chain_id;
  cached ← get_cached_transaction_hashes block_hash;
  match cached with
  | Some tx_hashes => Ok tx_hashes
  | None => no_err (transactions_hashes starknet_block chain_id (Some (block_number (header starknet_block))))
  end.

Definition get_pending_txs_hashes (starknet_block : DeoxysBlock) : M (list Z) :=
  chain_id ← unwrap chain_id;
  no_err (transactions_hashes starknet_block chain_id None).

(** The events of a transaction group, with the hash of the transaction
    ([txs_hashes[index]] panics out of range). *)
Definition tag_events (txs_hashes : list Z) (ordered_event : OrderedEvents) : M (list (Z * Event)) :=
  tx_hash ← unwrap_opt (txs_hashes !! Z.to_nat (oe_index ordered_event));
  Ok (map (λ event, (tx_hash, event)) (oe_events ordered_event)).

Definition emit (block_hash block_number : option Z) (e : Z * Event) : EmittedEvent :=
  {| ee_from_address := from_address e.2; ee_keys := ev_keys e.2; ee_data := ev_data e.2;
     ee_block_hash := block_hash; ee_block_number := block_number; ee_transaction_hash := e.1 |}.

Definition block_events (block_id : BlockId) : M (list EmittedEvent) :=
  starknet_block ← (match block_id with
                    | BlockId_Number n => get_block_by_number n
                    | BlockId_Tag tag => get_block_by_tag tag
                    | BlockId_Hash hash => get_block_by_hash hash
                    end);
  let pending := match block_id with BlockId_Tag Pending => true | _ => false end in
  txs_hashes ← (if pending then get_pending_txs_hashes starknet_block else get_block_txs_hashes starknet_block);
  tx_hash_and_events ← mapM (tag_events txs_hashes) (events starknet_block);
  '(block_hash, block_number) ←
    (if pending then Ok (None, None)
     else h ← no_err (Header_hash (header starknet_block));
          Ok (Some h, Some (block_number (header starknet_block))));
  Ok (map (emit block_hash block_number) (concat tx_hash_and_events)).

#[global] Instance node_block_source : BlockSource := {|
  substrate_block_number_from_starknet_block := block_number_from_starknet_block;
  get_block_events := block_events;
|}.

(** ** Reading transactions *)

Definition api {A} (m : M A) : R A := map_err Rpc_Api m.
(** [?] on an anyhow error of [get_block_by_block_hash]. *)
Definition get_block (substrate_block_hash : DHashT) : R DeoxysBlock :=
  map_err (λ _, Rpc_Failed) (get_block_by_block_hash substrate_block_hash).

Definition get_transaction_by_block_id_and_index (block_id : BlockId) (index : Z) : R core.Transaction :=
  substrate_block_hash ← api (map_err (λ _, BlockNotFound) (substrate_block_hash_from_starknet_block block_id));
  starknet_block ← get_block substrate_block_hash;
  transaction ← ok_or (Rpc_Api InvalidTxnIndex) (transactions starknet_block !! Z.to_nat index);
  chain_id ← api chain_id;
  block_hash ← no_err (Header_hash (header starknet_block));
  opt_cached_transaction_hashes ← api (get_cached_transaction_hashes block_hash);
  transaction_hash ←
    (match opt_cached_transaction_hashes with
     | Some cached_tx_hashes => ok_or Rpc_Failed (cached_tx_hashes !! Z.to_nat index)
     | None => no_err (compute_hash transaction chain_id false (Some (block_number (header starknet_block))))
     end);
  no_err (to_starknet_core_tx transaction transaction_hash).

(** [Iterator::find] with a predicate that may panic. *)
Fixpoint find_tx {A} (f : A → Outcome Empty_set bool) (l : list A) : Outcome Empty_set (option A) :=
  match l with
  | [] => Ok None
  | x :: l => b ← f x; if b : bool then Ok (Some x) else find_tx f l
  end.

Definition get_transaction_by_hash (transaction_hash : Z) : R core.Transaction :=
  substrate_block_hash_from_db ← map_err (λ _, Rpc_Api TxnHashNotFound)
    (MappingDb.block_hash_from_transaction_hash db transaction_hash);
  substrate_block_hash ← ok_or (Rpc_Api TxnHashNotFound) substrate_block_hash_from_db;
  starknet_block ← get_block substrate_block_hash;
  chain_id ← api chain_id;
  block_hash ← no_err (Header_hash (header starknet_block));
  cached ← api (get_cached_transaction_hashes block_hash);
  found ← (match cached with
           | Some tx_hashes =>
               Ok (snd <$> head (filter (λ p, p.1 = transaction_hash)
                                   (zip tx_hashes (transactions starknet_block))))
           | None =>
               no_err (find_tx (λ tx,
                 h ← compute_hash tx chain_id false (Some (block_number (header starknet_block)));
                 Ok (h =? transaction_hash)) (transactions starknet_block))
           end);
  match found with
  | Some tx => no_err (to_starknet_core_tx tx transaction_hash)
  | None => Err (Rpc_Api TxnHashNotFound)
  end.

Definition get_block_transaction_count (block_id : BlockId) : R Z :=
  substrate_block_hash ← api (map_err (λ _, BlockNotFound) (substrate_block_hash_from_starknet_block block_id));
  starknet_block ← get_block substrate_block_hash;
  Ok (transaction_count (header starknet_block)).

(** [block_hash] is the big-endian bytes of an [H256]. *)
Definition block_hash_and_number : R (Z * Z) :=
  let block_number := best_number in
  h ← api (map_err (λ _, NoBlocks) current_block_hash);
  block_hash ← unwrap (FieldElement_from_byte_slice_be (be_encode 32 h));
  Ok (block_hash, block_number).

End Client.

(** ** Properties *)

Section Properties.
Context {E1 E2 S Item : Type} `{kv : KvStore E1 S} `{codecs : DbCodecs}.
Context `{items : DigestItems Item} `{client : SubstrateClient E2 Item} `{chain : ChainBackend E2}.
Context `{Hlibs : !FeltLibsSpec libs} `{crypto : StarknetCrypto} `{Hca : !ContractAddressesSpec ca}.
Context `{hasher : HasherT} {Hkv : KvStoreSpec kv} {Hcodecs : DbCodecsSpec codecs}.
Variable cache : bool.
Variable db : S.
Variable pending_block : option DeoxysBlock.
Variable cid : Z.

(** The client serves the Starknet block [b] under the Substrate hash [h]. *)
Definition serves (h : DHashT) (b : DeoxysBlock) : Prop :=
  ∃ hdr, client_header h = Ok (Some hdr) ∧ madara_logs (dh_digest hdr) = [Log_Block b].

(** The hash of a block and the hashes of its transactions. *)
Definition block_hash_of (b : DeoxysBlock) : Z := compute_hash_on_wrappers (header_preimage (header b)).
Definition tx_hash_of (b : DeoxysBlock) (tx : Transaction) : Z :=
  compute_hash_on_elements (preimage tx cid false (Some (block_number (header b)))).
Definition tx_hashes_of (b : DeoxysBlock) : list Z := map (tx_hash_of b) (transactions b).

Lemma get_block_served h b : serves h b → get_block_by_block_hash h = Ok b.
Proof.
  intros (hdr & Hh & Hl). unfold get_block_by_block_hash. rewrite Hh. simpl.
  by rewrite find_starknet_block_logs, Hl.
Qed.

(** What the cache says of the block, when it answers, is right. *)
Definition cache_ok (a : AbsMapping) (b : DeoxysBlock) : Prop :=
  ∀ l, a_block_txs a !! block_hash_of b = Some l → l = tx_hashes_of b.

Lemma cached_hashes_cases a b :
  refines (contents db) a → is_felt (block_hash_of b) → cache_ok a b →
  get_cached_transaction_hashes cache db (block_hash_of b) = Ok None ∨
  get_cached_transaction_hashes cache db (block_hash_of b) = Ok (Some (tx_hashes_of b)).
Proof.
  intros R Hf Hc. unfold get_cached_transaction_hashes, MappingDb.cached_transaction_hashes_from_block_hash.
  destruct cache; simpl; [|by left].
  pose proof (read_answers enc_felts dec_felts db StarknetTransactionHashesCache (enc_felt (block_hash_of b))
    (a_block_txs a !! block_hash_of b)) as Ha.
  rewrite (r_block_txs _ _ R _ Hf) in Ha.
  specialize (Ha eq_refl ltac:(intros l Hl; by eapply felts_codec, (r_block_txs_wf _ _ R))).
  destruct (MappingDb.read _ _ _ _) as [o|e|]; simpl in Ha; [|by left|done].
  subst o. destruct (a_block_txs a !! block_hash_of b) as [l|] eqn:El; [right|by left]. by rewrite (Hc l El).
Qed.

Lemma tx_mapping_read a x h :
  refines (contents db) a → is_felt x → a_txs a !! x = Some h →
  is_ok (get_cf db TransactionMapping (enc_felt x)) = true →
  MappingDb.block_hash_from_transaction_hash db x = Ok (Some h).
Proof.
  intros R Hx Ha Hg. unfold MappingDb.block_hash_from_transaction_hash, MappingDb.read.
  pose proof (get_cf_ok db TransactionMapping (enc_felt x)) as Hc.
  destruct (get_cf _ _ _) as [v| |]; try done. simpl. subst v.
  rewrite (r_txs _ _ R _ Hx), Ha. simpl. by rewrite dhash_codec.
Qed.

(** The first transaction of the block with the hash looked for. *)
Lemma find_first b x i tx :
  Forall wf_tx (transactions b) → transactions b !! i = Some tx → tx_hash_of b tx = x →
  (∀ j tx', (j < i)%nat → transactions b !! j = Some tx' → tx_hash_of b tx' ≠ x) →
  find_tx (λ tx, h ← compute_hash tx cid false (Some (block_number (header b))); Ok (h =? x)) (transactions b)
    = Ok (Some tx)
  ∧ snd <$> head (filter (λ p, p.1 = x) (zip (tx_hashes_of b) (transactions b))) = Some tx.
Proof.
  unfold tx_hashes_of. generalize (transactions b). intros txs Hwf Hi Hx Hfirst.
  revert i Hi Hfirst. induction Hwf as [|t txs Ht _ IH]; intros i Hi Hfirst; [done|]. simpl.
  rewrite compute_hash_preimage by done. cbn [mbind Outcome_bind].
  change (compute_hash_on_elements (preimage t cid false (Some (block_number (header b))))) with (tx_hash_of b t).
  rewrite filter_cons. destruct i as [|i]; simpl in Hi.
  - injection Hi as ->. rewrite (proj2 (Z.eqb_eq _ _)) by done. by rewrite decide_True by done.
  - pose proof (Hfirst 0%nat t ltac:(lia) eq_refl) as Hne. rewrite (proj2 (Z.eqb_neq _ _)) by done.
    rewrite decide_False by done. apply (IH i); [done|].
    intros j tx' Hj Htx'. apply (Hfirst (Datatypes.S j)); [lia|done].
Qed.

(** A transaction of an indexed block is looked up by its hash: the first
    transaction of the block that has it is converted, whether the hashes are
    cached, not cached, or the cache cannot be read. *)
Lemma transaction_lookup a h b i tx x :
  refines (contents db) a → a_txs a !! x = Some h → serves h b → wf_block b →
  is_felt x → is_felt (block_hash_of b) → cache_ok a b →
  is_ok (get_cf db TransactionMapping (enc_felt x)) = true →
  transactions b !! i = Some tx → tx_hash_of b tx = x →
  (∀ j tx', (j < i)%nat → transactions b !! j = Some tx' → tx_hash_of b tx' ≠ x) →
  get_transaction_by_hash cache db (Some cid) x = no_err (to_starknet_core_tx tx x).
Proof.
  intros R Ha Hs [Hh Htx] Hx Hbh Hc Hg Hi Heq Hfirst.
  destruct (find_first b x i tx Htx Hi Heq Hfirst) as [Hf1 Hf2].
  unfold get_transaction_by_hash. rewrite (tx_mapping_read a x h) by done. cbn [map_err mbind Outcome_bind ok_or].
  unfold get_block. rewrite (get_block_served h b Hs). cbn [map_err mbind Outcome_bind].
  unfold chain_id, api. cbn [ok_or map_err mbind Outcome_bind].
  rewrite header_hash_preimage by done. unfold no_err. cbn [map_err mbind Outcome_bind].
  change (compute_hash_on_wrappers (header_preimage (header b))) with (block_hash_of b).
  destruct (cached_hashes_cases a b R Hbh Hc) as [-> | ->]; cbn [map_err mbind Outcome_bind].
  - by rewrite Hf1.
  - by rewrite Hf2.
Qed.

(** The node answers with every field of the transaction kept. *)
Lemma transaction_found_by_hash a h b i tx x :
  refines (contents db) a → a_txs a !! x = Some h → serves h b → wf_block b →
  is_felt x → is_felt (block_hash_of b) → cache_ok a b →
  is_ok (get_cf db TransactionMapping (enc_felt x)) = true →
  transactions b !! i = Some tx → tx_hash_of b tx = x →
  (∀ j tx', (j < i)%nat → transactions b !! j = Some tx' → tx_hash_of b tx' ≠ x) →
  well_ranged tx → servable tx = true →
  ∃ c, get_transaction_by_hash cache db (Some cid) x = Ok c ∧ from_core c = normal tx ∧ core_hash c = x.
Proof.
  intros. rewrite (transaction_lookup a h b i tx x) by done.
  pose proof (core_tx_served tx x ltac:(done)) as Hcore. destruct (servable tx); [|done].
  destruct Hcore as (c & Hc1 & Hc2 & Hc3). exists c. by rewrite Hc1.
Qed.

Lemma tag_events_ok hashes oe :
  0 ≤ oe_index oe < Z.of_nat (length hashes) →
  tag_events hashes oe = Ok (map (pair (hashes !!! Z.to_nat (oe_index oe))) (oe_events oe)).
Proof.
  intros Hi. unfold tag_events.
  rewrite (list_lookup_lookup_total_lt hashes (Z.to_nat (oe_index oe))) by lia. done.
Qed.

(** The events of a block are served in order, each with the hash of the
    transaction that emitted it, the hash and the number of its block. *)
Theorem block_events_faithful a h b n :
  client_hash (saturated_u32 n) = Ok (Some h) → serves h b → wf_block b →
  refines (contents db) a → is_felt (block_hash_of b) → cache_ok a b →
  Forall (λ oe, 0 ≤ oe_index oe < Z.of_nat (length (transactions b))) (events b) →
  block_events cache db pending_block (Some cid) (BlockId_Number n) =
  Ok (concat (map (λ oe,
        map (λ e, emit (Some (block_hash_of b)) (Some (block_number (header b)))
                    (tx_hashes_of b !!! Z.to_nat (oe_index oe), e)) (oe_events oe)) (events b))).
Proof.
  intros Hn Hs [Hh Htx] R Hbh Hc He. unfold block_events, get_block_by_number,
    substrate_block_hash_from_starknet_block. rewrite Hn. cbn [map_err mbind Outcome_bind ok_or].
  rewrite (get_block_served h b Hs). cbn [map_err mbind Outcome_bind].
  assert (get_block_txs_hashes cache db (Some cid) b = Ok (tx_hashes_of b)) as ->.
  { unfold get_block_txs_hashes, no_err. rewrite header_hash_preimage by done.
    cbn [map_err mbind Outcome_bind chain_id ok_or unwrap].
    change (compute_hash_on_wrappers (header_preimage (header b))) with (block_hash_of b).
    destruct (cached_hashes_cases a b R Hbh Hc) as [-> | ->]; cbn [map_err mbind Outcome_bind]; [|done].
    unfold transactions_hashes. by rewrite block_hashes_ok. }
  cbn [mbind Outcome_bind].
  rewrite (mapM_Ok_map (tag_events (tx_hashes_of b))
    (λ oe, map (pair (tx_hashes_of b !!! Z.to_nat (oe_index oe))) (oe_events oe))).
  2: { eapply Forall_impl; [exact He|]. intros oe Hoe. apply tag_events_ok.
       unfold tx_hashes_of. by rewrite length_map. }
  cbn [mbind Outcome_bind]. unfold no_err. rewrite header_hash_preimage by done.
  cbn [map_err mbind Outcome_bind]. f_equal. rewrite concat_map, map_map. f_equal.
  apply map_ext. intros oe. by rewrite map_map.
Qed.

End Properties.

(** ** Witnesses: the two-block chain of the mapping worker, after it synced block 1 *)

Definition backend_model : ChainBackend unit := {|
  client_number h := let 'DHash n := h in Ok (Some n);
  client_hash n := Ok (Some (DHash n));
  best_hash := DHash 1;
  best_number := 1;
|}.

Definition tx_model : Transaction := Tx_Invoke (Invoke_V1 example_invoke).
Definition hash_model : Z :=
  tx_hash_of (crypto := crypto_small) (ca := address_model) (hasher := @PedersenHasher _ crypto_small)
    77 example_block tx_model.

Lemma serves_model : serves (items := log_items) (client := client_model) (DHash 1) example_block.
Proof. eexists. split; reflexivity. Qed.

(** The store and the index after block 1 was recorded. *)
Definition commitment_model : MappingCommitment :=
  commitment_of (crypto := crypto_small) (ca := address_model) (hasher := @PedersenHasher _ crypto_small)
    (DHash 1) example_block 77.
Definition store_model : Contents :=
  apply_batch ∅ (mapping_batch (codecs := codecs_model) true commitment_model []).
Definition index_model : AbsMapping := abs_write_hashes true commitment_model abs_empty.

Lemma store_model_refines : refines (codecs := codecs_model) store_model index_model.
Proof.
  apply (refines_write_hashes (codecs := codecs_model) true ∅ abs_empty commitment_model); [|apply refines_empty].
  split; [done|]. split; [by vm_compute|]. apply (bool_decide_unpack _). by vm_compute.
Qed.

Lemma cache_model :
  cache_ok (crypto := crypto_small) (ca := address_model) (hasher := @PedersenHasher _ crypto_small)
    77 index_model example_block.
Proof. intros l Hl. vm_compute in Hl. injection Hl as <-. by vm_compute. Qed.

Lemma block_model_ok : wf_block example_block.
Proof. split; [by vm_compute | by repeat constructor]. Qed.

Lemma block_events_faithful_witness :
  block_events (E2 := unit) (kv := kv_model) (codecs := codecs_model) (items := log_items)
    (client := client_model) (chain := backend_model) (crypto := crypto_small) (ca := address_model)
    (hasher := @PedersenHasher _ crypto_small) true store_model None (Some 77) (BlockId_Number 1)
  = Ok [emit (Some (block_hash_of (hasher := @PedersenHasher _ crypto_small) example_block)) (Some 0)
          (hash_model, {| from_address := 7; ev_keys := [1]; ev_data := [2] |})].
Proof.
  refine (block_events_faithful (kv := kv_model) (codecs := codecs_model) (items := log_items)
    (client := client_model) (chain := backend_model) (crypto := crypto_small) (ca := address_model)
    (hasher := @PedersenHasher _ crypto_small) (Hkv := kv_model_spec) true store_model None 77
    index_model (DHash 1) example_block 1 _ serves_model block_model_ok store_model_refines _ cache_model _).
  - reflexivity.
  - by vm_compute.
  - by repeat constructor.
Defined.
