(* ===== verification/Index.v ===== *)
(** * Index: what the mapping worker leaves for the RPC

    The mapping worker ([MappingSync]) records Substrate blocks one by one; the
    RPC ([RpcClient]) looks blocks and transactions up in what it recorded.  This
    file joins the two: after any number of polls the mapping database is the
    abstract index of the recorded blocks in the order of recording, and what that
    index answers for a hash is read off the recorded blocks. *)

From S2P Require Import Prelude Felt Hashers Transactions TxHash CoreTx Blocks Db MappingSync.
From S2P Require Import RpcEvents RpcClient.

Section Index.
Context {E1 E2 S Item F : Type} `{kv : KvStore E1 S} `{codecs : DbCodecs}.
Context `{items : DigestItems Item} `{client : SubstrateClient E2 Item} `{f64 : F64 F}.
Context `{Hlibs : !FeltLibsSpec libs} `{crypto : StarknetCrypto} `{Hca : !ContractAddressesSpec ca}.
Context `{hasher : HasherT}.
Variable cache : bool.
(** The chain id the runtime answers. *)
Variable cid : Z.

Implicit Types (s : SyncState S F) (h : DHashT) (order : list DHashT).

(** ** The index of a list of recorded blocks *)

(** What [sync_block] and [sync_genesis_block] record for a header: a genesis block
    is recorded without transactions. *)
Definition commitment_at (hdr : DHeaderT Item) h (b : DeoxysBlock) : MappingCommitment :=
  let c := commitment_of h b cid in
  {| mc_block_number := mc_block_number c; mc_block_hash := h;
     mc_starknet_block_hash := mc_starknet_block_hash c;
     mc_starknet_transaction_hashes :=
       if dh_number hdr =? 0 then [] else mc_starknet_transaction_hashes c |}.

Definition header_op (hdr : DHeaderT Item) h : MappingOp :=
  match madara_logs (dh_digest hdr) with
  | [Log_Block b] => OpWriteHashes (commitment_at hdr h b)
  | _ => OpWriteNone h
  end.

Definition op_of h : MappingOp :=
  match client_header h with Ok (Some hdr) => header_op hdr h | _ => OpWriteNone h end.

Definition index_of order : AbsMapping := foldl (abs_step cache) abs_empty (map op_of order).

(** The transaction hashes recorded for a block. *)
Definition recorded_txs h : list Z :=
  match op_of h with OpWriteHashes c => mc_starknet_transaction_hashes c | OpWriteNone _ => [] end.

Lemma index_of_snoc order h : index_of (order ++ [h]) = abs_step cache (index_of order) (op_of h).
Proof. unfold index_of. by rewrite map_app, foldl_app. Qed.

Lemma op_of_hashes h c : op_of h = OpWriteHashes c → mc_block_hash c = h.
Proof.
  unfold op_of, header_op. destruct (client_header h) as [[hdr|]| |]; try discriminate.
  destruct (madara_logs _) as [|[b] [|]]; intros [= <-]. done.
Qed.

Lemma op_of_none h h' : op_of h = OpWriteNone h' → h' = h.
Proof.
  unfold op_of, header_op. destruct (client_header h) as [[hdr|]| |]; try by intros [= <-].
  destruct (madara_logs _) as [|[b] [|]]; by intros [= <-].
Qed.

Lemma foldl_insert_lookup (m : gmap Z DHashT) h txs x :
  foldl (λ m tx, <[tx := h]> m) m txs !! x = if decide (x ∈ txs) then Some h else m !! x.
Proof.
  revert m. induction txs as [|tx txs IH]; intros m; cbn [foldl].
  { rewrite decide_False; [done|]. apply not_elem_of_nil. }
  rewrite IH. destruct (decide (x ∈ txs)); [by rewrite decide_True by set_solver|].
  destruct (decide (x = tx)) as [->|Hne].
  - by rewrite lookup_insert_eq, decide_True by set_solver.
  - by rewrite lookup_insert_ne, decide_False by set_solver.
Qed.

(** The recorded blocks are those marked as synced. *)
Lemma index_synced order h : h ∈ a_synced (index_of order) ↔ h ∈ order.
Proof.
  induction order as [|h' order IH] using rev_ind; [set_solver|].
  rewrite index_of_snoc. destruct (op_of h') as [x|c] eqn:Ho; simpl.
  - apply op_of_none in Ho as ->. set_solver.
  - apply op_of_hashes in Ho as ->. set_solver.
Qed.

(** A transaction hash leads to a recorded block that has it, and every hash of a
    recorded block leads to one. *)
Lemma index_txs_sound order x h :
  a_txs (index_of order) !! x = Some h → h ∈ order ∧ x ∈ recorded_txs h.
Proof.
  revert h. induction order as [|h' order IH] using rev_ind; [done|]. intros h.
  rewrite index_of_snoc. unfold recorded_txs in *. destruct (op_of h') as [y|c] eqn:Ho; simpl.
  - intros Ha. apply IH in Ha. set_solver.
  - rewrite foldl_insert_lookup. destruct (decide _) as [Hx|_]; [|intros Ha; apply IH in Ha; set_solver].
    intros [= <-]. rewrite (op_of_hashes _ _ Ho). rewrite Ho. set_solver.
Qed.

Lemma index_txs_complete order x h :
  h ∈ order → x ∈ recorded_txs h → is_Some (a_txs (index_of order) !! x).
Proof.
  induction order as [|h' order IH] using rev_ind; [set_solver|]. intros Hh Hx.
  rewrite index_of_snoc. destruct (op_of h') as [y|c] eqn:Ho; simpl.
  - apply elem_of_app in Hh as [Hh| ->%list_elem_of_singleton]; [auto|].
    unfold recorded_txs in Hx. rewrite Ho in Hx. set_solver.
  - rewrite foldl_insert_lookup. destruct (decide _) as [_|Hn]; [by eexists|].
    apply elem_of_app in Hh as [Hh| ->%list_elem_of_singleton]; [auto|].
    unfold recorded_txs in Hx. by rewrite Ho in Hx.
Qed.

(** The cached hashes of a Starknet block are those recorded with it. *)
Lemma index_cache_sound order y l :
  a_block_txs (index_of order) !! y = Some l →
  ∃ h c, h ∈ order ∧ op_of h = OpWriteHashes c ∧ mc_starknet_block_hash c = y ∧
    l = mc_starknet_transaction_hashes c.
Proof.
  induction order as [|h' order IH] using rev_ind; [done|].
  assert (a_block_txs (index_of order) !! y = Some l → ∃ h c, h ∈ order ++ [h'] ∧ op_of h = OpWriteHashes c ∧
    mc_starknet_block_hash c = y ∧ l = mc_starknet_transaction_hashes c) as Hold.
  { intros (h & c & Hh & Hrest)%IH. exists h, c. split; [set_solver|done]. }
  rewrite index_of_snoc. destruct (op_of h') as [x|c] eqn:Ho; simpl; [done|]. destruct cache; [|done].
  intros [[<- <-]|[_ Ha]]%lookup_insert_Some; [|by apply Hold].
  exists h', c. split; [set_solver|done].
Qed.

(** The Substrate hashes of a Starknet block hash are those of the recorded blocks
    that have it. *)
Lemma index_blocks order y h :
  (∃ hs, a_blocks (index_of order) !! y = Some hs ∧ h ∈ hs) ↔
  h ∈ order ∧ ∃ c, op_of h = OpWriteHashes c ∧ mc_starknet_block_hash c = y.
Proof.
  induction order as [|h' order IH] using rev_ind; [split; [by intros (? & ? & _)|set_solver]|].
  rewrite index_of_snoc, elem_of_app, list_elem_of_singleton.
  destruct (op_of h') as [x|c] eqn:Ho; simpl; [rewrite IH|].
  - split; [naive_solver|]. intros [[? | ->] (c & Hc & Hy)]; [eauto|congruence].
  - destruct (decide (mc_starknet_block_hash c = y)) as [<-|Hne].
    + rewrite lookup_insert_eq, (op_of_hashes _ _ Ho). split.
      * intros (hs & [= <-] & [Hin| ->%list_elem_of_singleton]%elem_of_app); [|eauto].
        destruct (a_blocks (index_of order) !! _) as [hs|] eqn:Ea; [|set_solver].
        destruct (proj1 IH) as [? ?]; [by exists hs|]. eauto.
      * intros [[Hin| ->] Hc]; (eexists; split; [reflexivity|]; apply elem_of_app); [left|set_solver].
        destruct (proj2 IH) as (hs & -> & ?); [done|]. done.
    + rewrite lookup_insert_ne, IH by done. split; [naive_solver|].
      intros [[? | ->] (c' & Hc & Hy)]; [eauto|congruence].
Qed.

(** ** The worker keeps the index *)

Context {Hkv : KvStoreSpec kv} {Hcodecs : DbCodecsSpec codecs}.

Abbreviation view s synced tips := (sync_view (contents (ss_db s)) synced tips).
Abbreviation poll := (quiet_poll (E1 := E1) (E2 := E2) cache).

(** The blocks of the chain [all]: their hashes are in range, and the runtime
    answers the same chain id at each. *)
Record blocks_ok (all : gset DHashT) : Prop := {
  chain_id_at h : h ∈ all → runtime_chain_id h = Ok cid;
  recorded_wf h : h ∈ all → wf_op (op_of h);
}.

(** The database holds the index of blocks of the chain. *)
Definition indexed (all : gset DHashT) s : Prop :=
  ∃ order, refines (contents (ss_db s)) (index_of order) ∧ Forall (.∈ all) order.

Lemma indexed_step all s s' h :
  env_ok all → blocks_ok all → indexed all s → h ∈ all → step cache (ss_db s) (op_of h) = Ok (ss_db s') →
  indexed all s'.
Proof.
  intros En B (order & R & Ho) Hh Hstep. exists (order ++ [h]). split; [|by apply Forall_app_2; [|apply Forall_singleton]].
  rewrite index_of_snoc. eapply step_refines; [exact R|by apply (recorded_wf _ B)| |exact Hstep].
  destruct (op_of h) as [x|c] eqn:Hop; [done|]. simpl.
  assert (is_felt (mc_starknet_block_hash c)) as Hf by (pose proof (recorded_wf _ B h Hh) as Hw; rewrite Hop in Hw; apply Hw).
  pose proof (block_hash_answers (ss_db s) _ _ R Hf) as Ha. unfold MappingDb.block_hash, MappingDb.read in *.
  destruct (is_ok_inv _ (get_total _ En (ss_db s) BlockMapping (enc_felt (mc_starknet_block_hash c)))) as [o Hg].
  rewrite Hg in *. simpl in *. destruct o as [raw|]; [|by eexists]. by destruct (dec_dhashes raw); [eexists|].
Qed.

Lemma sync_block_indexed all hdr s s' u :
  env_ok all → blocks_ok all → indexed all s → header_hash hdr ∈ all →
  client_header (header_hash hdr) = Ok (Some hdr) → dh_number hdr ≠ 0 →
  sync_block (E1 := E1) cache hdr s = (s', Ok u) → indexed all s'.
Proof.
  intros En B I Hin Hc Hn H. apply Z.eqb_neq in Hn.
  destruct (block_total _ En _ Hin) as (hdr' & cid' & Hc' & _ & _ & Hlen & Hwf).
  rewrite Hc in Hc'. injection Hc' as <-. rewrite sync_block_logs in H by done. unfold record_block in H.
  assert (op_of (header_hash hdr) = header_op hdr (header_hash hdr)) as Hop by (unfold op_of; by rewrite Hc).
  unfold header_op, commitment_at in Hop. rewrite Hn in Hop.
  destruct (madara_logs (dh_digest hdr)) as [|[b] [|? ?]]; [| |discriminate].
  - apply db_write_ok in H as [Hw _]. eapply indexed_step; [done..|]. by rewrite Hop.
  - rewrite (chain_id_at _ B) in H by done. apply db_write_ok in H as [Hw _].
    refine (indexed_step all s s' (header_hash hdr) En B I Hin _). rewrite Hop. exact Hw.
Qed.

Lemma sync_genesis_block_indexed all hdr s s' u :
  env_ok all → blocks_ok all → indexed all s → header_hash hdr ∈ all →
  client_header (header_hash hdr) = Ok (Some hdr) → dh_number hdr = 0 →
  sync_genesis_block (E1 := E1) (E2 := E2) cache hdr s = (s', Ok u) → indexed all s'.
Proof.
  intros En B I Hin Hc Hn H. apply Z.eqb_eq in Hn.
  destruct (block_total _ En _ Hin) as (hdr' & cid' & Hc' & _ & _ & Hlen & Hwf).
  rewrite Hc in Hc'. injection Hc' as <-. unfold sync_genesis_block in H. rewrite find_starknet_block_logs in H.
  assert (op_of (header_hash hdr) = header_op hdr (header_hash hdr)) as Hop by (unfold op_of; by rewrite Hc).
  unfold header_op, commitment_at in Hop. rewrite Hn in Hop.
  destruct (madara_logs (dh_digest hdr)) as [|[b] [|? ?]]; [| |discriminate].
  - apply db_write_ok in H as [Hw _]. eapply indexed_step; [done..|]. by rewrite Hop.
  - destruct (Hwf b ltac:(set_solver)) as [Hh _].
    erewrite bind_run in H; [|unfold lift_pure, lift; by rewrite header_hash_preimage].
    apply db_write_ok in H as [Hw _]. eapply indexed_step; [done..|]. rewrite Hop. exact Hw.
Qed.

(** The tips are in a column of their own. *)
Lemma write_tips_indexed all tips s s' u :
  indexed all s → write_tips (E1 := E1) (E2 := E2) tips s = (s', Ok u) → indexed all s'.
Proof.
  intros (order & R & Ho) H. unfold write_tips in H. apply db_write_ok in H as [Hw _].
  exists order. split; [|done]. unfold MetaDb.write_current_syncing_tips in Hw.
  pose proof (put_cf_ok (ss_db s) Meta static_keys.CURRENT_SYNCING_TIPS (enc_dhashes tips)) as Hp.
  destruct (put_cf _ _ _ _); simplify_eq/=. rewrite Hp.
  split; intros; rewrite ?lookup_insert_ne by done; by eapply R.
Qed.

Lemma sync_one_block_indexed all sync_from s s' b synced tips :
  env_ok all → blocks_ok all → chain_ok → view s synced tips → Forall (.∈ all) tips → indexed all s →
  sync_one_block (E1 := E1) cache sync_from s = (s', Ok b) → indexed all s'.
Proof.
  intros En B C V Ht I H. unfold sync_one_block in H. destruct (leaves_total _ En) as (ls & Hls & Hall).
  rewrite (bind_run _ _ s s tips) in H by (unfold db_read; by rewrite (tips_total _ _ _ _ En V)).
  rewrite (bind_run _ _ s s (if decide (tips = []) then ls else [])) in H
    by (destruct (decide _); [by rewrite Hls|done]).
  destruct (decide (_ ∧ _)); [by injection H as <- _|].
  apply bind_ok in H as (s1 & [o rest] & Hp & H).
  destruct (pop_tips_ok _ _ _ _ _ _ _ _ V Hp) as (-> & sk & _ & Ho). destruct o as [hdr|].
  2: { apply bind_ok in H as (s2 & ? & Hw & [= <- _]). by eapply write_tips_indexed. }
  destruct Ho as (t & Hr & _ & Hhdr & _). pose proof (header_found C _ _ Hhdr) as <-.
  assert (header_hash hdr ∈ all) as Hin.
  { apply (Forall_elem (.∈ all) (tips ++ if decide (tips = []) then ls else [])).
    - apply Forall_app. split; [done|]. by destruct (decide _).
    - apply elem_of_reverse. rewrite Hr. set_solver. }
  destruct (dh_number hdr =? 0) eqn:E0; bool_to_prop;
    apply bind_ok in H as (s2 & ? & Hs & H); apply bind_ok in H as (s3 & ? & Hw & [= <- _]).
  - eapply write_tips_indexed, Hw. by eapply sync_genesis_block_indexed.
  - eapply write_tips_indexed, Hw. by eapply sync_block_indexed.
Qed.

Lemma sync_blocks_indexed all limit sync_from s s' b synced tips :
  env_ok all → blocks_ok all → chain_ok → view s synced tips → frontier sync_from synced tips →
  Forall (.∈ all) tips → indexed all s →
  sync_blocks (E1 := E1) cache limit sync_from s = (s', Ok b) → indexed all s'.
Proof.
  intros En B C. unfold sync_blocks. revert s synced tips.
  induction limit as [|limit IH]; intros s synced tips V Fr Ht I H; simpl in H; [by injection H as <- _|].
  apply bind_ok in H as (s1 & b1 & H1 & H).
  pose proof (sync_one_block_indexed all _ _ _ _ _ _ En B C V Ht I H1) as I1.
  destruct (sync_one_block_ok _ _ _ _ _ _ _ C V Fr H1) as (synced1 & tips1 & V1 & Fr1 & R1 & _).
  destruct b1; [rewrite sync_blocks_loop_true in H; by injection H as <- _|].
  eapply (IH s1); [exact V1|exact Fr1| |exact I1|exact H].
  apply Forall_forall. intros x Hx. by eapply reached_all, R1.
Qed.

(** What holds of a worker between polls. *)
Definition polling (all : gset DHashT) (w : MappingSyncWorker (S := S) (F := F)) : Prop :=
  (2 ≤ w_retry_times w)%nat ∧ indexed all (w_state w) ∧
  (w_have_next w = true → ∃ synced tips, view (w_state w) synced tips ∧
     frontier (w_sync_from w) synced tips ∧ Forall (.∈ all) tips).

Lemma poll_polling all w :
  env_ok all → blocks_ok all → chain_ok → polling all w → polling all (poll w).
Proof.
  intros En B C (Hlim & I & Hw). destruct (w_have_next w) eqn:Hn.
  - destruct (Hw eq_refl) as (synced & tips & V & Fr & Ht).
    destruct (quiet_poll_fires cache all w synced tips En C Hlim Hn V Fr Ht) as (Hr & Hf & Hnext).
    split_and!; [by rewrite Hr| |].
    + unfold quiet_poll, poll_next. simpl. rewrite Hn.
      destruct (sync_blocks_total cache all (w_retry_times w) (w_sync_from w) _ _ _ En C V Fr Ht) as (s' & b & H).
      rewrite H. simpl. by eapply sync_blocks_indexed.
    + intros Hn'. rewrite Hn' in Hnext. destruct Hnext as (h & tips' & _ & _ & V' & Fr' & Ht').
      rewrite Hf. by exists ({[h]} ∪ synced), tips'.
  - unfold quiet_poll, poll_next, polling. simpl. rewrite Hn. simpl. done.
Qed.

Lemma polls_polling all n w :
  env_ok all → blocks_ok all → chain_ok → polling all w → polling all (Nat.iter n poll w).
Proof. intros En B C Hw. induction n as [|n IH]; [done|]. rewrite Nat.iter_succ. by apply poll_polling. Qed.

(** A worker that has been told there is work. *)
Definition worker_ready (all : gset DHashT) (w : MappingSyncWorker (S := S) (F := F)) synced : Prop :=
  (2 ≤ w_retry_times w)%nat ∧ w_have_next w = true ∧ indexed all (w_state w) ∧
  ∃ tips, view (w_state w) synced tips ∧ frontier (w_sync_from w) synced tips ∧ Forall (.∈ all) tips.

(** The index is that of the blocks [order], which include every block of the chain
    from [sync_from] on. *)
Definition complete_index (all : gset DHashT) sync_from order s : Prop :=
  refines (contents (ss_db s)) (index_of order) ∧ Forall (.∈ all) order ∧
  ∀ ls l h hdr, blockchain_leaves = Ok ls → l ∈ ls → ancestor l h →
    client_header h = Ok (Some hdr) → sync_from ≤ dh_number hdr → h ∈ order.

Lemma worker_indexes all w synced :
  env_ok all → blocks_ok all → chain_ok → worker_ready all w synced →
  let w' := Nat.iter (1 + size (all ∖ synced)) poll w in
  w_have_next w' = false ∧ ∃ order, complete_index all (w_sync_from w) order (w_state w').
Proof.
  intros En B C (Hlim & Hn & I & tips & V & Fr & Ht).
  destruct (catches_up cache all w synced tips En C Hlim Hn V Fr Ht) as (Hrest & synced' & V' & Hall).
  split; [done|].
  destruct (polls_polling all (1 + size (all ∖ synced)) w En B C) as (_ & (order & R & Ho) & _).
  { split_and!; [done..|]. intros _. by exists synced, tips. }
  exists order. split_and!; [done..|]. intros ls l h hdr Hls Hl Ha Hhdr Hge.
  pose proof (Hall _ _ _ _ Hls Hl Ha Hhdr Hge) as Hh. rewrite <- index_synced.
  pose proof (sv_synced _ _ _ V' h) as Hs. rewrite (r_synced _ _ R h) in Hs.
  rewrite (bool_decide_true (h ∈ synced')) in Hs by done. by case_bool_decide.
Qed.

(** C11: The worker catches up: without failures, a worker that has been told
    there is work, polled once more than there are unrecorded blocks, rests with
    an index that holds every ancestor of every leaf from [sync_from] on and
    answers nothing but what those blocks say: a Starknet block hash leads to
    exactly the recorded Substrate blocks that wrap a block with that hash, and a
    transaction hash to a recorded block that has the transaction, if there is
    one. *)
Theorem worker_catches_up all w synced :
  env_ok all → blocks_ok all → chain_ok → worker_ready all w synced →
  let w' := Nat.iter (1 + size (all ∖ synced)) poll w in
  w_have_next w' = false ∧
  ∃ order a, refines (contents (ss_db (w_state w'))) a ∧ Forall (.∈ all) order ∧
    (∀ ls l h hdr, blockchain_leaves = Ok ls → l ∈ ls → ancestor l h →
       client_header h = Ok (Some hdr) → w_sync_from w ≤ dh_number hdr → h ∈ order) ∧
    (∀ y h, (∃ hs, a_blocks a !! y = Some hs ∧ h ∈ hs) ↔
       h ∈ order ∧ ∃ c, op_of h = OpWriteHashes c ∧ mc_starknet_block_hash c = y) ∧
    (∀ x h, a_txs a !! x = Some h → h ∈ order ∧ x ∈ recorded_txs h) ∧
    (∀ x h, h ∈ order → x ∈ recorded_txs h → is_Some (a_txs a !! x)).
Proof.
  intros En B C Hw. destruct (worker_indexes all w synced En B C Hw) as (Hrest & order & R & Ho & Hall).
  split; [done|]. exists order, (index_of order).
  split_and!; eauto using index_blocks, index_txs_sound, index_txs_complete.
Qed.

(** ** Lookups in a complete index *)

(** No two blocks of the chain wrap Starknet blocks of the same hash. *)
Definition distinct_blocks (all : gset DHashT) : Prop :=
  ∀ h h' c c', h ∈ all → h' ∈ all → op_of h = OpWriteHashes c → op_of h' = OpWriteHashes c' →
    mc_starknet_block_hash c = mc_starknet_block_hash c' → h = h'.

(** A block of the chain after the genesis that wraps [b]. *)
Definition wraps h (b : DeoxysBlock) : Prop :=
  ∃ hdr, client_header h = Ok (Some hdr) ∧ dh_number hdr ≠ 0 ∧ madara_logs (dh_digest hdr) = [Log_Block b].

Lemma wraps_serves h b : wraps h b → serves h b.
Proof. intros (hdr & Hh & _ & Hl). by exists hdr. Qed.

Lemma wraps_op h b : wraps h b → op_of h = OpWriteHashes (commitment_of h b cid).
Proof.
  intros (hdr & Hh & Hn & Hl). unfold op_of, header_op, commitment_at. rewrite Hh, Hl.
  by rewrite (proj2 (Z.eqb_neq _ _) Hn).
Qed.

Lemma wraps_txs h b : wraps h b → recorded_txs h = tx_hashes_of cid b.
Proof. intros Hw. unfold recorded_txs. by rewrite (wraps_op h b Hw). Qed.

Lemma index_cache_ok all order h b :
  distinct_blocks all → Forall (.∈ all) order → h ∈ all → wraps h b → cache_ok cid (index_of order) b.
Proof.
  intros Hd Ho Hh Hw l Hl. apply index_cache_sound in Hl as (h' & c & Hh' & Hop & Hy & ->).
  assert (h' = h) as ->.
  { eapply Hd; [by eapply (Forall_elem (.∈ all))|exact Hh|exact Hop|by apply wraps_op|done]. }
  rewrite (wraps_op h b Hw) in Hop. injection Hop as <-. done.
Qed.

Lemma indexed_tx_found all order s h b i tx :
  env_ok all → blocks_ok all → distinct_blocks all → refines (contents (ss_db s)) (index_of order) →
  Forall (.∈ all) order → h ∈ order → wraps h b → wf_block b →
  transactions b !! i = Some tx → well_ranged tx → servable tx = true →
  (∀ h', h' ∈ all → tx_hash_of cid b tx ∈ recorded_txs h' → h' = h) →
  (∀ j tx', (j < i)%nat → transactions b !! j = Some tx' → tx_hash_of cid b tx' ≠ tx_hash_of cid b tx) →
  ∃ c, get_transaction_by_hash cache (ss_db s) (Some cid) (tx_hash_of cid b tx) = Ok c ∧
    from_core c = normal tx ∧ core_hash c = tx_hash_of cid b tx.
Proof.
  intros En B Hd R Ho Hh Hw Hwf Hi Hr Hsv Hu Hfirst.
  assert (h ∈ all) as Hall by by eapply (Forall_elem (.∈ all)).
  assert (tx_hash_of cid b tx ∈ recorded_txs h) as Hx.
  { rewrite (wraps_txs h b Hw). apply list_elem_of_fmap. exists tx. split; [done|]. by eapply list_elem_of_lookup_2. }
  pose proof (recorded_wf _ B h Hall) as Hc. rewrite (wraps_op h b Hw) in Hc. destruct Hc as (_ & Hbh & Htxs).
  assert (a_txs (index_of order) !! tx_hash_of cid b tx = Some h) as Ha.
  { destruct (index_txs_complete order _ h Hh Hx) as [h' Ha]. rewrite Ha. f_equal.
    destruct (index_txs_sound _ _ _ Ha) as [Hin Hx']. apply Hu; [by eapply (Forall_elem (.∈ all))|done]. }
  eapply (transaction_found_by_hash cache (ss_db s) cid (index_of order) h b i tx); try done.
  - by apply wraps_serves.
  - rewrite (wraps_txs h b Hw) in Hx. by eapply (Forall_elem is_felt).
  - by eapply index_cache_ok.
  - apply (get_total _ En).
Qed.

(** ** The genesis block

    [sync_genesis_block] records it without its transactions. *)

Lemma index_cache_complete order h c :
  cache = true → h ∈ order → op_of h = OpWriteHashes c →
  is_Some (a_block_txs (index_of order) !! mc_starknet_block_hash c).
Proof.
  intros Hc. induction order as [|h' order IH] using rev_ind; [set_solver|]. intros Hh Hop.
  rewrite index_of_snoc. destruct (op_of h') as [y|c'] eqn:Ho; simpl.
  - apply elem_of_app in Hh as [Hh| ->%list_elem_of_singleton]; [auto|congruence].
  - rewrite Hc. destruct (decide (mc_starknet_block_hash c' = mc_starknet_block_hash c)) as [->|Hne].
    { rewrite lookup_insert_eq. by eexists. }
    rewrite lookup_insert_ne by done.
    apply elem_of_app in Hh as [Hh| ->%list_elem_of_singleton]; [auto|congruence].
Qed.

Context `{chain : ChainBackend E2}.

(** With cached hashes the events of the genesis block cannot be served: its recorded
    list of transaction hashes is empty and the hash of the first event's transaction
    is read out of range. *)
Theorem genesis_events_panic all order s h hdr g oe rest pending net_cid :
  cache = true → env_ok all → blocks_ok all → distinct_blocks all →
  refines (contents (ss_db s)) (index_of order) → Forall (.∈ all) order → h ∈ order →
  client_header h = Ok (Some hdr) → dh_number hdr = 0 → madara_logs (dh_digest hdr) = [Log_Block g] →
  wf_block g → events g = oe :: rest → client_hash 0 = Ok (Some h) →
  block_events cache (ss_db s) pending (Some net_cid) (BlockId_Number 0) = Panic.
Proof.
  intros Hc En B Hd R Ho Hh Hhdr Hn Hl [Hwh _] Hev Hh0.
  assert (op_of h = OpWriteHashes (commitment_at hdr h g)) as Hop.
  { unfold op_of, header_op. by rewrite Hhdr, Hl. }
  assert (h ∈ all) as Hall by by eapply (Forall_elem (.∈ all)).
  pose proof (recorded_wf _ B h Hall) as Hwf. rewrite Hop in Hwf. destruct Hwf as (_ & Hbh & _).
  assert (a_block_txs (index_of order) !! block_hash_of g = Some []) as Ha.
  { destruct (index_cache_complete order h _ Hc Hh Hop) as [l Hl'].
    change (mc_starknet_block_hash (commitment_at hdr h g)) with (block_hash_of g) in Hl'. rewrite Hl'. f_equal.
    apply index_cache_sound in Hl' as (h' & c' & Hh' & Hop' & Hy & ->).
    assert (h' = h) as ->.
    { eapply Hd; [by eapply (Forall_elem (.∈ all))|exact Hall|exact Hop'|exact Hop|exact Hy]. }
    rewrite Hop in Hop'. injection Hop' as <-. cbn [mc_starknet_transaction_hashes commitment_at]. by rewrite Hn. }
  assert (get_cached_transaction_hashes cache (ss_db s) (block_hash_of g) = Ok (Some [])) as Hcached.
  { unfold get_cached_transaction_hashes, MappingDb.cached_transaction_hashes_from_block_hash. rewrite Hc. simpl.
    unfold MappingDb.read.
    destruct (is_ok_inv _ (get_total _ En (ss_db s) StarknetTransactionHashesCache (enc_felt (block_hash_of g)))) as [o Hg].
    pose proof (get_cf_ok (ss_db s) StarknetTransactionHashesCache (enc_felt (block_hash_of g))) as Hcf.
    rewrite Hg in *. simpl in *. rewrite (r_block_txs _ _ R (block_hash_of g) Hbh), Ha in Hcf. subst o. simpl.
    by rewrite felts_codec by constructor. }
  unfold block_events, get_block_by_number, substrate_block_hash_from_starknet_block.
  change (saturated_u32 0) with 0. rewrite Hh0. cbn [map_err mbind Outcome_bind ok_or].
  rewrite (get_block_served h g) by by exists hdr. cbn [map_err mbind Outcome_bind].
  unfold get_block_txs_hashes, no_err. rewrite header_hash_preimage by done.
  cbn [map_err mbind Outcome_bind chain_id ok_or unwrap].
  change (compute_hash_on_wrappers (header_preimage (header g))) with (block_hash_of g). rewrite Hcached.
  cbn [map_err mbind Outcome_bind]. rewrite Hev. done.
Qed.

(** The preimages of the transactions recorded from the blocks [order]. *)
Definition recorded_from order x : Prop :=
  ∃ h b tx, h ∈ order ∧ wraps h b ∧ tx ∈ transactions b ∧
    x = preimage tx cid false (Some (block_number (header b))).

(** The worker hashes transactions with the chain id of the runtime, the RPC with that
    of its configuration.  When they differ, no transaction of the chain (if the hash
    does not collide) is found under the hash it
    has on the network. *)
Lemma other_network_not_found all order s net_cid h b tx :
  env_ok all → blocks_ok all → refines (contents (ss_db s)) (index_of order) → Forall (.∈ all) order →
  h ∈ order → wraps h b → tx ∈ transactions b → net_cid ≠ cid → is_felt (tx_hash_of net_cid b tx) →
  (∀ x, recorded_from order x →
     compute_hash_on_elements x = tx_hash_of net_cid b tx →
     x = preimage tx net_cid false (Some (block_number (header b)))) →
  get_transaction_by_hash cache (ss_db s) (Some net_cid) (tx_hash_of net_cid b tx) = Err (Rpc_Api TxnHashNotFound).
Proof.
  intros En B R Ho Hh Hw Htx Hne Hf Hcf.
  assert (a_txs (index_of order) !! tx_hash_of net_cid b tx = None) as Ha.
  { destruct (a_txs _ !! _) as [h'|] eqn:Ha; [exfalso|done].
    apply index_txs_sound in Ha as [Hh' Hx]. unfold recorded_txs, op_of, header_op in Hx.
    destruct (client_header h') as [[hdr|]| |] eqn:Hhdr; try by apply elem_of_nil in Hx.
    destruct (madara_logs (dh_digest hdr)) as [|[b'] [|]] eqn:Hl; try by apply elem_of_nil in Hx.
    cbn [mc_starknet_transaction_hashes commitment_at] in Hx.
    destruct (Z.eqb_spec (dh_number hdr) 0) as [|Hn]; [by apply elem_of_nil in Hx|].
    assert (wraps h' b') as Hw' by (exists hdr; done).
    apply list_elem_of_fmap in Hx as (tx' & Heq & Htx').
    assert (preimage tx' cid false (Some (block_number (header b'))) =
            preimage tx net_cid false (Some (block_number (header b)))) as Hpre.
    { apply Hcf; [by exists h', b', tx'|by symmetry]. }
    apply Hne. symmetry. by eapply preimage_chain_id. }
  unfold get_transaction_by_hash, MappingDb.block_hash_from_transaction_hash, MappingDb.read.
  destruct (is_ok_inv _ (get_total _ En (ss_db s) TransactionMapping (enc_felt (tx_hash_of net_cid b tx)))) as [o Hg].
  pose proof (get_cf_ok (ss_db s) TransactionMapping (enc_felt (tx_hash_of net_cid b tx))) as Hc.
  rewrite Hg in Hc. simpl in Hc. rewrite (r_txs _ _ R _ Hf), Ha in Hc. rewrite Hg. simpl. by subst o.
Qed.
End Index.

(** ** Witness: the two-block chain *)

Lemma blocks_model : blocks_ok (items := log_items) (client := client_model) (crypto := crypto_small)
  (ca := address_model) (hasher := @PedersenHasher _ crypto_small) 77 all_model.
Proof.
  split; [done|]. intros h [->%elem_of_singleton| ->%elem_of_singleton]%elem_of_union; [done|].
  split; [done|]. split; [by vm_compute|]. apply (bool_decide_unpack _). by vm_compute.
Qed.

Abbreviation indexed_model := (indexed (kv := kv_model) (codecs := codecs_model) (items := log_items)
  (client := client_model) (F := Z) (crypto := crypto_small) (ca := address_model)
  (hasher := @PedersenHasher _ crypto_small) (Hkv := kv_model_spec) false 77 all_model).

Lemma worker_model_indexed : indexed_model (w_state worker_model).
Proof. exists []. split; [apply refines_empty|constructor]. Qed.

Lemma worker_catches_up_witness :
  let w' := Nat.iter (1 + size (all_model ∖ ∅)) poll_model worker_model in
  w_have_next w' = false ∧
  ∃ a, refines (codecs := codecs_model) (ss_db (w_state w')) a ∧ is_Some (a_txs a !! hash_model).
Proof.
  destruct (worker_catches_up (codecs := codecs_model) (items := log_items) (client := client_model)
    (f64 := f64_model) (crypto := crypto_small) (ca := address_model)
    (hasher := @PedersenHasher _ crypto_small) (kv := kv_model) (Hkv := kv_model_spec)
    false 77 all_model worker_model ∅ env_model blocks_model client_model_ok)
    as (Hn & order & a & R & _ & Hall & _ & _ & Htx).
  - split; [simpl; lia|]. split; [done|]. split; [exact worker_model_indexed|].
    exists []. split; [exact view_empty|]. split; [intros h hdr []%elem_of_empty|constructor].
  - split; [exact Hn|]. exists a. split; [exact R|]. apply (Htx _ (DHash 1)).
    + eapply Hall; [reflexivity|apply list_elem_of_singleton; reflexivity|apply ancestor_refl|reflexivity|done].
    + vm_compute. left.
Defined.

(** ** Witness: a block of another network *)

Definition mainnet_id : Z := be_decode (bytes_of_string "SN_MAIN").
Definition sepolia_id : Z := be_decode (bytes_of_string "SN_SEPOLIA").

Definition network_block : DeoxysBlock :=
  {| header := Header_new 0 1 0 0 0 1 0 0 0 0 None L1DA_Calldata None; transactions := [tx_model]; events := [] |}.

(** The runtime of this chain answers the main network's identifier. *)
Definition network_client : SubstrateClient unit DeoxysBlock := {|
  header_hash hdr := DHash (dh_number hdr);
  client_header h := let 'DHash n := h in
    Ok (if n =? 0 then Some {| dh_number := 0; dh_parent_hash := DHash (-1); dh_digest := [] |}
        else if n =? 1 then Some {| dh_number := 1; dh_parent_hash := DHash 0; dh_digest := [network_block] |}
        else None);
  blockchain_leaves := Ok [DHash 1];
  runtime_chain_id _ := Ok mainnet_id;
|}.

Lemma network_block_ok : wf_block network_block.
Proof. split; [by vm_compute | by repeat constructor]. Qed.

Lemma network_wraps h b : wraps (items := log_items) (client := network_client) h b → b = network_block.
Proof.
  intros (hdr & Hh & Hn & Hl). destruct h as [n]. simpl in Hh.
  destruct (n =? 0); [injection Hh as <-; done|]. destruct (n =? 1); [|discriminate].
  injection Hh as <-. by injection Hl.
Qed.

Lemma network_env : env_ok (kv := kv_model) (items := log_items) (client := network_client) all_model.
Proof.
  split; try done.
  - exists [DHash 1]. split; [done|]. apply Forall_singleton. unfold all_model. set_solver.
  - intros h [->%elem_of_singleton| ->%elem_of_singleton]%elem_of_union;
      eexists _, mainnet_id; (split; [reflexivity|]); split_and!; try done; try (simpl; lia).
    + intros b Hb. by apply not_elem_of_nil in Hb.
    + intros b Hb. apply list_elem_of_singleton in Hb. injection Hb as ->. apply network_block_ok.
Qed.

Abbreviation network_blocks_ok := (blocks_ok (items := log_items) (client := network_client) (crypto := crypto_small)
  (ca := address_model) (hasher := @PedersenHasher _ crypto_small) mainnet_id all_model).

Lemma network_blocks : network_blocks_ok.
Proof.
  split; [done|]. intros h [->%elem_of_singleton| ->%elem_of_singleton]%elem_of_union; [done|].
  split; [done|]. split; [by vm_compute|]. apply (bool_decide_unpack _). by vm_compute.
Qed.

Abbreviation network_index := (index_of (items := log_items) (client := network_client) (crypto := crypto_small)
  (ca := address_model) (hasher := @PedersenHasher _ crypto_small) true mainnet_id [DHash 1]).
Definition network_store : Contents :=
  apply_batch ∅ (mapping_batch (codecs := codecs_model) true (commitment_of (crypto := crypto_small)
    (ca := address_model) (hasher := @PedersenHasher _ crypto_small) (DHash 1) network_block mainnet_id) []).

Lemma network_refines : refines (codecs := codecs_model) network_store network_index.
Proof.
  apply (refines_write_hashes (codecs := codecs_model) true ∅ abs_empty (commitment_of (crypto := crypto_small)
    (ca := address_model) (hasher := @PedersenHasher _ crypto_small) (DHash 1) network_block mainnet_id)); [|apply refines_empty].
  split; [done|]. split; [by vm_compute|]. apply (bool_decide_unpack _). by vm_compute.
Qed.
