(* ===== verification/CallInfo.v ===== *)
(** * CallInfo: call trees of executed transactions
    ([emit_events_in_call_info] and [aggregate_messages_in_call_info] of
    [pallets/starknet/src/lib.rs], the extraction functions of
    [client/rpc/src/utils.rs])

    The blockifier returns a tree of calls; each call holds the events it emitted
    and the messages it sent, numbered in the order of execution over the whole
    tree.  The pallet walks the tree to store them in that order; the RPC
    flattens it for receipts. *)

From S2P Require Import Prelude Felt Transactions Broadcast.

(** ** Call trees *)

Inductive CallType := CT_Call | CT_Delegate.

#[global] Instance CallType_eq_dec : EqDecision CallType.
Proof. solve_decision. Defined.

Record CallEntryPoint := {
  ep_class_hash : option Z;
  ep_code_address : option Z;
  ep_entry_point_type : EntryPointType;
  ep_entry_point_selector : Z;
  ep_calldata : list Z;
  ep_storage_address : Z;
  ep_caller_address : Z;
  ep_call_type : CallType;
  ep_initial_gas : Z;
}.

(** Contents of an event and of a message to L1; an Ethereum address is its value. *)
Record EventContent := { ec_keys : list Z; ec_data : list Z }.
Record MessageContent := { mc_to_address : Z; mc_payload : list Z }.
Record MessageToL1 := { m_from_address : Z; m_to_address : Z; m_payload : list Z }.

#[global] Instance MessageToL1_eq_dec : EqDecision MessageToL1.
Proof. solve_decision. Defined.

(** An item with its number in the execution of the transaction (a [usize]). *)
Record Ordered (A : Type) := { o_order : nat; o_item : A }.
Arguments o_order {A}.
Arguments o_item {A}.
Arguments Build_Ordered {A}.

Record CallExecution := {
  ex_retdata : list Z;
  ex_events : list (Ordered EventContent);
  ex_l2_to_l1_messages : list (Ordered MessageContent);
  ex_gas_consumed : Z;
}.

Record VmResources := {
  vm_n_steps : Z;
  vm_n_memory_holes : Z;
  vm_builtin_instance_counter : gmap string Z;
}.

Inductive CallInfo :=
  MkCallInfo (call : CallEntryPoint) (execution : CallExecution) (resources : VmResources)
    (inner_calls : list CallInfo).

Definition ci_call (c : CallInfo) : CallEntryPoint := let '(MkCallInfo call _ _ _) := c in call.
Definition ci_execution (c : CallInfo) : CallExecution := let '(MkCallInfo _ e _ _) := c in e.
Definition ci_resources (c : CallInfo) : VmResources := let '(MkCallInfo _ _ r _) := c in r.
Definition ci_inner_calls (c : CallInfo) : list CallInfo := let '(MkCallInfo _ _ _ l) := c in l.
Definition ci_address (c : CallInfo) : Z := ep_storage_address (ci_call c).

(** Induction over a call tree, with the hypothesis for every inner call. *)
Lemma CallInfo_tree_ind (Q : CallInfo → Prop) :
  (∀ call e r inner, Forall Q inner → Q (MkCallInfo call e r inner)) → ∀ c, Q c.
Proof.
  intros H. fix IH 1. intros [call e r inner]. apply H.
  induction inner as [|c inner IHinner]; constructor; [apply IH|exact IHinner].
Qed.

(** ** Walking a tree in execution order

    [emit_events_in_call_info] and [aggregate_messages_in_call_info] are the same
    loop over two kinds of items: take the items of this call as long as their
    numbers follow, otherwise descend into the next inner call; [put] stores an
    item of the contract at an address. *)

Section Walk.
Context {A St : Type} (items : CallExecution → list (Ordered A)) (put : Z → A → St → St).

Fixpoint take_sequential (address : Z) (own : list (Ordered A)) (next_order : nat) (st : St)
  : list (Ordered A) * nat * St :=
  match own with
  | o :: own' =>
      if (o_order o =? next_order)%nat
      then take_sequential address own' (S next_order) (put address (o_item o) st)
      else (own, next_order, st)
  | [] => ([], next_order, st)
  end.

Fixpoint in_call_info (call_info : CallInfo) (next_order : nat) (st : St) {struct call_info} : nat * St :=
  match call_info with
  | MkCallInfo call execution _ inner_calls =>
      (fix visit (inner : list CallInfo) (own : list (Ordered A)) (next_order : nat) (st : St) {struct inner}
         : nat * St :=
         let '(own, next_order, st) := take_sequential (ep_storage_address call) own next_order st in
         match inner with
         | [] => (next_order, st)
         | c :: inner => let '(next_order, st) := in_call_info c next_order st in visit inner own next_order st
         end) inner_calls (items execution) next_order st
  end.

(** The loop of one call, as a function of what is left to visit. *)
Fixpoint visit (address : Z) (inner : list CallInfo) (own : list (Ordered A)) (next_order : nat) (st : St)
  : nat * St :=
  let '(own, next_order, st) := take_sequential address own next_order st in
  match inner with
  | [] => (next_order, st)
  | c :: inner => let '(next_order, st) := in_call_info c next_order st in visit address inner own next_order st
  end.

Lemma in_call_info_visit c n st :
  in_call_info c n st = visit (ci_address c) (ci_inner_calls c) (items (ci_execution c)) n st.
Proof.
  destruct c as [call e r inner]. cbn -[visit take_sequential]. unfold ci_address; simpl ep_storage_address.
  generalize (items e). revert n st. induction inner as [|c inner IH]; intros n st own; [done|].
  cbn -[in_call_info take_sequential].
  destruct (take_sequential _ own n st) as [[own' n'] st'].
  destruct (in_call_info c n' st') as [n'' st'']. apply IH.
Qed.

(** ** What an execution produces

    [Runs address own inner n out m]: a call of the contract at [address], which
    has still to emit [own] and to make the calls [inner], runs with the counter
    from [n] to [m] and produces [out], each item with its contract.  Items get
    the value of the counter; items and inner calls interleave in any way. *)
Inductive Runs : Z → list (Ordered A) → list CallInfo → nat → list (Z * A) → nat → Prop :=
| Runs_return address n : Runs address [] [] n [] n
| Runs_emit address a own inner n out m :
    Runs address own inner (S n) out m →
    Runs address ({| o_order := n; o_item := a |} :: own) inner n ((address, a) :: out) m
| Runs_call address own c inner n out1 k out2 m :
    Runs (ci_address c) (items (ci_execution c)) (ci_inner_calls c) n out1 k →
    Runs address own inner k out2 m →
    Runs address own (c :: inner) n (out1 ++ out2) m.

Definition Executes (c : CallInfo) (n : nat) (out : list (Z * A)) (m : nat) : Prop :=
  Runs (ci_address c) (items (ci_execution c)) (ci_inner_calls c) n out m.

Definition put_all (out : list (Z * A)) (st : St) : St := foldl (λ st x, put x.1 x.2 st) st out.

Lemma put_all_app l k st : put_all (l ++ k) st = put_all k (put_all l st).
Proof. apply foldl_app. Qed.

Lemma Runs_count address own inner n out m :
  Runs address own inner n out m → m = (n + length out)%nat.
Proof. induction 1; simpl; rewrite ?length_app in *; lia. Qed.

(** The counter never passes the number of an item still to be emitted. *)
Lemma Runs_head address o own inner n out m :
  Runs address (o :: own) inner n out m → (n ≤ o_order o)%nat.
Proof.
  intros H. remember (o :: own) as l eqn:E. revert E.
  induction H as [|address a own' inner n out m _ _|address own' c inner n out1 k out2 m Hc _ Hr IH]; intros E.
  - done.
  - injection E as <- _. simpl. lia.
  - apply Runs_count in Hc. specialize (IH E). lia.
Qed.

(** A run that produces nothing leaves the walk of its tree without effect. *)
Lemma Runs_silent address own inner n m :
  Runs address own inner n [] m → own = [] ∧ ∀ n' st, visit address inner own n' st = (n', st).
Proof.
  intros H. remember [] as out eqn:E. revert E.
  induction H as [|address a own inner n out m _ _|address own c inner n out1 k out2 m Hc IHc Hr IHr]; intros E.
  - done.
  - done.
  - apply app_eq_nil in E as [-> ->].
    destruct (IHc eq_refl) as [_ Hvc]. destruct (IHr eq_refl) as [-> Hvr]. split; [done|].
    intros n' st. simpl. rewrite in_call_info_visit, Hvc. apply Hvr.
Qed.

(** Taking the sequential items first does not change the rest of the loop. *)
Lemma visit_take address inner own n st own' n' st' :
  take_sequential address own n st = (own', n', st') →
  visit address inner own n st = visit address inner own' n' st'.
Proof.
  revert n st. induction own as [|o own IH]; intros n st; simpl.
  - by intros [= <- <- <-].
  - destruct (Nat.eqb_spec (o_order o) n) as [He|He].
    + intros H. rewrite <-(IH _ _ H). destruct inner; simpl; by rewrite (proj2 (Nat.eqb_eq _ _) He).
    + by intros [= <- <- <-].
Qed.

Lemma visit_Runs address own inner n out m st :
  Runs address own inner n out m → visit address inner own n st = (m, put_all out st).
Proof.
  intros H. revert st.
  induction H as [|address a own inner n out m _ IH|address own c inner n out1 k out2 m Hc IHc Hr IHr]; intros st.
  - done.
  - change (put_all ((address, a) :: out) st) with (put_all out (put address a st)). rewrite <-IH.
    destruct inner; simpl; by rewrite Nat.eqb_refl.
  - rewrite put_all_app. destruct own as [|o own].
    { simpl. by rewrite in_call_info_visit, IHc. }
    destruct (decide (o_order o = n)) as [He|He].
    + (* the next item of this call is due: the inner call emits nothing *)
      pose proof (Runs_head _ _ _ _ _ _ _ Hr) as Hle. pose proof (Runs_count _ _ _ _ _ _ Hc) as Hk.
      assert (out1 = []) as -> by (destruct out1; simpl in *; [done|lia]).
      assert (k = n) as -> by (simpl in Hk; lia).
      destruct (Runs_silent _ _ _ _ _ Hc) as [_ Hv].
      rewrite <-IHr. cbn [visit]. destruct (take_sequential address (o :: own) n st) as [[own' n'] st'] eqn:Ht.
      rewrite (visit_take _ _ _ _ _ _ _ _ Ht), in_call_info_visit, Hv. done.
    + cbn [visit take_sequential]. rewrite (proj2 (Nat.eqb_neq _ _) He), in_call_info_visit, IHc. apply IHr.
Qed.

Lemma in_call_info_Executes c n out m st :
  Executes c n out m → in_call_info c n st = (m, put_all out st).
Proof. intros H. rewrite in_call_info_visit. by apply visit_Runs. Qed.

(** ** Flattening a tree: own items first, then those of the inner calls *)

Fixpoint extract (c : CallInfo) : list (Z * A) :=
  match c with
  | MkCallInfo call execution _ inner_calls =>
      map (λ o, (ep_storage_address call, o_item o)) (items execution) ++ concat (map extract inner_calls)
  end.

Lemma extract_perm_Runs address own inner n out m :
  Runs address own inner n out m →
  map (λ o, (address, o_item o)) own ++ concat (map extract inner) ≡ₚ out.
Proof.
  induction 1 as [|address a own inner n out m _ IH|address own c inner n out1 k out2 m _ IHc _ IHr]; simpl.
  - done.
  - by rewrite IH.
  - rewrite <-IHr, <-IHc. destruct c as [call e r inn]. cbn [extract ci_execution ci_inner_calls].
    change (ci_address _) with (ep_storage_address call).
    generalize (map (λ o, (ep_storage_address call, o_item o)) (items e) ++ concat (map extract inn)).
    intros l. rewrite !(assoc_L (++)). apply Permutation_app_tail, Permutation_app_comm.
Qed.

Lemma extract_perm c n out m : Executes c n out m → extract c ≡ₚ out.
Proof. intros H. apply extract_perm_Runs in H. by destruct c. Qed.

End Walk.

Arguments Runs {A} items.
Arguments Executes {A} items.

(** ** client/rpc/src/utils.rs *)

Definition event_of (x : Z * EventContent) : Event :=
  {| from_address := x.1; ev_keys := ec_keys x.2; ev_data := ec_data x.2 |}.
Definition message_of (x : Z * MessageContent) : MessageToL1 :=
  {| m_from_address := x.1; m_to_address := mc_to_address x.2; m_payload := mc_payload x.2 |}.

Fixpoint extract_events_from_call_info (call_info : CallInfo) : list Event :=
  match call_info with
  | MkCallInfo call execution _ inner_calls =>
      let address := ep_storage_address call in
      let events := map (λ o, {| from_address := address; ev_keys := ec_keys (o_item o);
                                 ev_data := ec_data (o_item o) |}) (ex_events execution) in
      let inner_events := concat (map extract_events_from_call_info inner_calls) in
      events ++ inner_events
  end.

Fixpoint extract_messages_from_call_info (call_info : CallInfo) : list MessageToL1 :=
  match call_info with
  | MkCallInfo call execution _ inner_calls =>
      let address := ep_storage_address call in
      let messages := map (λ o, {| m_from_address := address; m_to_address := mc_to_address (o_item o);
                                   m_payload := mc_payload (o_item o) |}) (ex_l2_to_l1_messages execution) in
      let inner_messages := concat (map extract_messages_from_call_info inner_calls) in
      messages ++ inner_messages
  end.

Lemma extract_events_generic c : extract_events_from_call_info c = map event_of (extract ex_events c).
Proof.
  induction c as [call e r inner IH] using CallInfo_tree_ind. simpl.
  rewrite map_app, map_map. f_equal. rewrite concat_map, map_map. f_equal.
  apply map_ext_Forall. exact IH.
Qed.

Lemma extract_messages_generic c :
  extract_messages_from_call_info c = map message_of (extract ex_l2_to_l1_messages c).
Proof.
  induction c as [call e r inner IH] using CallInfo_tree_ind. simpl.
  rewrite map_app, map_map. f_equal. rewrite concat_map, map_map. f_equal.
  apply map_ext_Forall. exact IH.
Qed.

(** [blockifier_call_info_to_starknet_resources] *)
Record ComputationResources := {
  cr_steps : Z;
  cr_memory_holes : option Z;
  cr_range_check_builtin_applications : option Z;
  cr_pedersen_builtin_applications : option Z;
  cr_poseidon_builtin_applications : option Z;
  cr_ec_op_builtin_applications : option Z;
  cr_ecdsa_builtin_applications : option Z;
  cr_bitwise_builtin_applications : option Z;
  cr_keccak_builtin_applications : option Z;
  cr_segment_arena_builtin : option Z;
}.
Record DataAvailabilityResources := { dar_l1_gas : Z; dar_l1_data_gas : Z }.
Record ExecutionResources := {
  er_computation_resources : ComputationResources;
  er_data_availability : DataAvailabilityResources;
}.

Definition blockifier_call_info_to_starknet_resources (callinfo : CallInfo) : ExecutionResources :=
  let vm_resources := ci_resources callinfo in
  let steps := vm_n_steps vm_resources in
  let memory_holes := if vm_n_memory_holes vm_resources =? 0 then None else Some (vm_n_memory_holes vm_resources) in
  let builtin_instance := vm_builtin_instance_counter vm_resources in
  {| er_computation_resources := {|
       cr_steps := steps;
       cr_memory_holes := memory_holes;
       cr_range_check_builtin_applications := builtin_instance !! "range_check_builtin"%string;
       cr_pedersen_builtin_applications := builtin_instance !! "pedersen_builtin"%string;
       cr_poseidon_builtin_applications := builtin_instance !! "poseidon_builtin"%string;
       cr_ec_op_builtin_applications := builtin_instance !! "ec_op_builtin"%string;
       cr_ecdsa_builtin_applications := builtin_instance !! "ecdsa_builtin"%string;
       cr_bitwise_builtin_applications := builtin_instance !! "bitwise_builtin"%string;
       cr_keccak_builtin_applications := builtin_instance !! "keccak_builtin"%string;
       cr_segment_arena_builtin := builtin_instance !! "segment_arena_builtin"%string |};
     er_data_availability := {| dar_l1_gas := 0; dar_l1_data_gas := 0 |} |}.

(** C31: The events and messages of a receipt are exactly those the execution
    produced, each with its contract. *)
Theorem receipt_items_complete c n evs m k msgs l :
  Executes ex_events c n evs m → Executes ex_l2_to_l1_messages c k msgs l →
  extract_events_from_call_info c ≡ₚ map event_of evs ∧
  extract_messages_from_call_info c ≡ₚ map message_of msgs.
Proof.
  intros He Hm. rewrite extract_events_generic, extract_messages_generic.
  split; apply Permutation_map; eapply extract_perm; eassumption.
Qed.

(** ** A call that emits before and after an inner call *)

Definition example_entry (address : Z) : CallEntryPoint :=
  {| ep_class_hash := None; ep_code_address := None; ep_entry_point_type := EP_External;
     ep_entry_point_selector := 1; ep_calldata := []; ep_storage_address := address; ep_caller_address := 0;
     ep_call_type := CT_Call; ep_initial_gas := 0 |}.
Definition example_resources : VmResources :=
  {| vm_n_steps := 1; vm_n_memory_holes := 0; vm_builtin_instance_counter := ∅ |}.
Definition example_content (x : Z) : EventContent := {| ec_keys := [x]; ec_data := [] |}.
Definition example_inner : CallInfo :=
  MkCallInfo (example_entry 20)
    {| ex_retdata := []; ex_events := [{| o_order := 1; o_item := example_content 1 |}]; ex_l2_to_l1_messages := [];
       ex_gas_consumed := 0 |}
    example_resources [].
Definition example_tree : CallInfo :=
  MkCallInfo (example_entry 10)
    {| ex_retdata := [];
       ex_events := [{| o_order := 0; o_item := example_content 0 |}; {| o_order := 2; o_item := example_content 2 |}];
       ex_l2_to_l1_messages := [{| o_order := 0; o_item := {| mc_to_address := 5; mc_payload := [6] |} |}];
       ex_gas_consumed := 0 |}
    example_resources [example_inner].

Lemma example_tree_events :
  Executes ex_events example_tree 0 [(10, example_content 0); (20, example_content 1); (10, example_content 2)] 3.
Proof.
  apply Runs_emit. apply (Runs_call _ _ _ example_inner [] 1 [(20, example_content 1)] 2).
  - apply Runs_emit, Runs_return.
  - apply Runs_emit, Runs_return.
Defined.

Lemma example_tree_messages :
  Executes ex_l2_to_l1_messages example_tree 0 [(10, {| mc_to_address := 5; mc_payload := [6] |})] 1.
Proof.
  apply Runs_emit. apply (Runs_call _ _ _ example_inner [] 1 [] 1); apply Runs_return.
Defined.

(** A receipt does not keep the order of execution: a call that emits an event
    after an inner call has it listed before the events of the inner call. *)
Theorem receipt_order_lost : ∃ c evs m,
  Executes ex_events c 0 evs m ∧ extract_events_from_call_info c ≠ map event_of evs.
Proof. exists example_tree. do 2 eexists. split; [exact example_tree_events|]. by vm_compute. Qed.

Lemma receipt_items_complete_witness :
  extract_events_from_call_info example_tree ≡ₚ
    map event_of [(10, example_content 0); (20, example_content 1); (10, example_content 2)] ∧
  extract_messages_from_call_info example_tree ≡ₚ map message_of [(10, {| mc_to_address := 5; mc_payload := [6] |})].
Proof.
  exact (receipt_items_complete example_tree 0 _ 3 0 _ 1 example_tree_events example_tree_messages).
Defined.
