(* ===== verification/ContractClasses.v ===== *)
(** * ContractClasses: contract classes between the RPC and the runtime
    ([primitives/contract] and [primitives/convert/src/contract.rs])

    A class fetched from the sequencer is stored as the blockifier's class and an
    ABI of the node's own type, and put together again to be served.  Gzip, the
    Cairo program format and the Sierra compiler are third-party: the class
    [ClassLibs] and, for the way back, [ProgramCodec]. *)

From S2P Require Import Prelude Felt Transactions CoreTx Broadcast.

(** ** The ABI of a legacy class, as the RPC has it (starknet_core) *)

Module rpc.
Inductive LegacyFunctionAbiType := Function_ | L1Handler | Constructor_.
Inductive LegacyEventAbiType := Event_.
Inductive LegacyStructAbiType := Struct_.
Inductive FunctionStateMutability := View_.
Record LegacyTypedParameter := { p_name : bytes; p_type : bytes }.
Record LegacyStructMember := { m_name : bytes; m_type : bytes; m_offset : Z }.
Record LegacyFunctionAbiEntry := {
  f_type : LegacyFunctionAbiType; f_name : bytes; f_inputs : list LegacyTypedParameter;
  f_outputs : list LegacyTypedParameter; f_state_mutability : option FunctionStateMutability }.
Record LegacyEventAbiEntry := {
  e_type : LegacyEventAbiType; e_name : bytes; e_keys : list LegacyTypedParameter;
  e_data : list LegacyTypedParameter }.
Record LegacyStructAbiEntry := {
  s_type : LegacyStructAbiType; s_name : bytes; s_size : Z; s_members : list LegacyStructMember }.
Inductive LegacyContractAbiEntry :=
| Function (f : LegacyFunctionAbiEntry) | Event (e : LegacyEventAbiEntry) | Struct (s : LegacyStructAbiEntry).
Inductive ContractClass :=
| Sierra (c : FlattenedSierraClass) | Legacy (c : CompressedLegacyContractClass LegacyContractAbiEntry).
End rpc.

(** ** The stored types (contract/src/lib.rs and class.rs) *)

Inductive AbiFunctionTypeWrapper := AFT_Function | AFT_L1handler | AFT_Constructor.
Inductive AbiEventTypeWrapper := AET_Event.
Inductive AbiStructTypeWrapper := AST_Struct.
Inductive AbiFunctionStateMutabilityWrapper := AFSM_View.
Record AbiTypedParameterWrapper := { atp_name : bytes; atp_type : bytes }.
Record AbiStructMemberWrapper := { asm_name : bytes; asm_type : bytes; asm_offset : Z }.
Record AbiFunctionEntryWrapper := {
  af_type : AbiFunctionTypeWrapper;
  af_name : bytes;
  af_inputs : list AbiTypedParameterWrapper;
  af_outputs : list AbiTypedParameterWrapper;
  af_state_mutability : option AbiFunctionStateMutabilityWrapper;
}.
Record AbiEventEntryWrapper := {
  ae_type : AbiEventTypeWrapper;
  ae_name : bytes;
  ae_keys : list AbiTypedParameterWrapper;
  ae_data : list AbiTypedParameterWrapper;
}.
Record AbiStructEntryWrapper := {
  as_type : AbiStructTypeWrapper;
  as_name : bytes;
  as_size : Z;
  as_members : list AbiStructMemberWrapper;
}.
Inductive AbiEntryWrapper :=
| AbiEntry_Function (f : AbiFunctionEntryWrapper)
| AbiEntry_Event (e : AbiEventEntryWrapper)
| AbiEntry_Struct (s : AbiStructEntryWrapper).
Inductive ContractAbi := ContractAbi_Sierra (abi : bytes) | ContractAbi_Cairo (abi : option (list AbiEntryWrapper)).

Record ContractClassWrapper (Prog V1 : Type) := { ccw_contract : ContractClass Prog V1; ccw_abi : ContractAbi }.
Arguments ccw_contract {Prog V1}. Arguments ccw_abi {Prog V1}.
Record ContractClassData (Prog V1 : Type) := { ccd_hash : Z; ccd_contract_class : ContractClassWrapper Prog V1 }.
Arguments ccd_hash {Prog V1}. Arguments ccd_contract_class {Prog V1}.
Record ClassUpdateWrapper (Prog V1 : Type) := { class_updates : list (ContractClassData Prog V1) }.
Arguments class_updates {Prog V1}.

(** ** ABI conversions (module [convert] of class.rs) *)

Module abi.

Definition typed_parameter_from (p : rpc.LegacyTypedParameter) : AbiTypedParameterWrapper :=
  {| atp_name := rpc.p_name p; atp_type := rpc.p_type p |}.
Definition typed_parameter_into (p : AbiTypedParameterWrapper) : rpc.LegacyTypedParameter :=
  {| rpc.p_name := atp_name p; rpc.p_type := atp_type p |}.

Definition struct_member_from (m : rpc.LegacyStructMember) : AbiStructMemberWrapper :=
  {| asm_name := rpc.m_name m; asm_type := rpc.m_type m; asm_offset := rpc.m_offset m |}.
Definition struct_member_into (m : AbiStructMemberWrapper) : rpc.LegacyStructMember :=
  {| rpc.m_name := asm_name m; rpc.m_type := asm_type m; rpc.m_offset := asm_offset m |}.

Definition struct_type_from (t : rpc.LegacyStructAbiType) : AbiStructTypeWrapper :=
  match t with rpc.Struct_ => AST_Struct end.
Definition struct_type_into (t : AbiStructTypeWrapper) : rpc.LegacyStructAbiType :=
  match t with AST_Struct => rpc.Struct_ end.
Definition event_type_from (t : rpc.LegacyEventAbiType) : AbiEventTypeWrapper :=
  match t with rpc.Event_ => AET_Event end.
Definition event_type_into (t : AbiEventTypeWrapper) : rpc.LegacyEventAbiType :=
  match t with AET_Event => rpc.Event_ end.
Definition state_mutability_from (t : rpc.FunctionStateMutability) : AbiFunctionStateMutabilityWrapper :=
  match t with rpc.View_ => AFSM_View end.
Definition state_mutability_into (t : AbiFunctionStateMutabilityWrapper) : rpc.FunctionStateMutability :=
  match t with AFSM_View => rpc.View_ end.
Definition function_type_from (t : rpc.LegacyFunctionAbiType) : AbiFunctionTypeWrapper :=
  match t with
  | rpc.Function_ => AFT_Function
  | rpc.L1Handler => AFT_L1handler
  | rpc.Constructor_ => AFT_Constructor
  end.
Definition function_type_into (t : AbiFunctionTypeWrapper) : rpc.LegacyFunctionAbiType :=
  match t with
  | AFT_Function => rpc.Function_
  | AFT_L1handler => rpc.L1Handler
  | AFT_Constructor => rpc.Constructor_
  end.

Definition struct_entry_from (s : rpc.LegacyStructAbiEntry) : AbiStructEntryWrapper :=
  {| as_type := struct_type_from (rpc.s_type s); as_name := rpc.s_name s; as_size := rpc.s_size s;
     as_members := map struct_member_from (rpc.s_members s) |}.
Definition struct_entry_into (s : AbiStructEntryWrapper) : rpc.LegacyStructAbiEntry :=
  {| rpc.s_type := struct_type_into (as_type s); rpc.s_name := as_name s; rpc.s_size := as_size s;
     rpc.s_members := map struct_member_into (as_members s) |}.

Definition event_entry_from (e : rpc.LegacyEventAbiEntry) : AbiEventEntryWrapper :=
  {| ae_type := event_type_from (rpc.e_type e); ae_name := rpc.e_name e;
     ae_keys := map typed_parameter_from (rpc.e_keys e); ae_data := map typed_parameter_from (rpc.e_data e) |}.
Definition event_entry_into (e : AbiEventEntryWrapper) : rpc.LegacyEventAbiEntry :=
  {| rpc.e_type := event_type_into (ae_type e); rpc.e_name := ae_name e;
     rpc.e_keys := map typed_parameter_into (ae_keys e); rpc.e_data := map typed_parameter_into (ae_data e) |}.

Definition function_entry_from (f : rpc.LegacyFunctionAbiEntry) : AbiFunctionEntryWrapper :=
  {| af_type := function_type_from (rpc.f_type f); af_name := rpc.f_name f;
     af_inputs := map typed_parameter_from (rpc.f_inputs f);
     af_outputs := map typed_parameter_from (rpc.f_outputs f);
     af_state_mutability := state_mutability_from <$> rpc.f_state_mutability f |}.
Definition function_entry_into (f : AbiFunctionEntryWrapper) : rpc.LegacyFunctionAbiEntry :=
  {| rpc.f_type := function_type_into (af_type f); rpc.f_name := af_name f;
     rpc.f_inputs := map typed_parameter_into (af_inputs f);
     rpc.f_outputs := map typed_parameter_into (af_outputs f);
     rpc.f_state_mutability := state_mutability_into <$> af_state_mutability f |}.

Definition entry_from (a : rpc.LegacyContractAbiEntry) : AbiEntryWrapper :=
  match a with
  | rpc.Function f => AbiEntry_Function (function_entry_from f)
  | rpc.Event e => AbiEntry_Event (event_entry_from e)
  | rpc.Struct s => AbiEntry_Struct (struct_entry_from s)
  end.
Definition entry_into (a : AbiEntryWrapper) : rpc.LegacyContractAbiEntry :=
  match a with
  | AbiEntry_Function f => rpc.Function (function_entry_into f)
  | AbiEntry_Event e => rpc.Event (event_entry_into e)
  | AbiEntry_Struct s => rpc.Struct (struct_entry_into s)
  end.

Definition from_rpc_contract_abi (a : option (list rpc.LegacyContractAbiEntry)) : option (list AbiEntryWrapper) :=
  map entry_from <$> a.
Definition to_rpc_contract_abi (a : option (list AbiEntryWrapper)) : option (list rpc.LegacyContractAbiEntry) :=
  map entry_into <$> a.

End abi.

(** ** Classes (convert/src/contract.rs) *)

Class ProgramCodec (Prog : Type) := {
  gz_finish : bytes → option bytes;              (* [GzEncoder] over the bytes *)
  Program_serialize : Prog → option bytes;
}.

(** An [anyhow::Error] carries a message only. *)
Inductive Anyhow := AnyhowError.

#[global] Instance EntryPointType_countable : Countable EntryPointType.
Proof.
  apply (inj_countable' (λ t, match t with EP_Constructor => 0 | EP_External => 1 | EP_L1Handler => 2 end)
    (λ n, match n with 0 => EP_Constructor | 1 => EP_External | _ => EP_L1Handler end)).
  by intros [].
Defined.

Section Classes.
Context {LProg Prog V1 Info : Type} `{cl : ClassLibs rpc.LegacyContractAbiEntry LProg Prog V1 Info}.
Context `{libs : FeltLibs} `{pc : ProgramCodec Prog}.

Abbreviation M := (Outcome Anyhow).

Definition compress (data : bytes) : M bytes := ok_or AnyhowError (gz_finish data).
Definition decompress (data : bytes) : M bytes := ok_or AnyhowError (gz_read_to_end data).

Definition to_legacy_entry_point (entry_point : EntryPoint) : M LegacyContractEntryPoint :=
  selector ← ok_or AnyhowError (FieldElement_from_bytes_be (ep_selector entry_point));
  Ok {| le_offset := ep_offset entry_point; le_selector := selector |}.

Definition from_legacy_entry_point (entry_point : LegacyContractEntryPoint) : EntryPoint :=
  {| ep_selector := FieldElement_to_bytes_be (le_selector entry_point); ep_offset := le_offset entry_point |}.

Definition collect_entry_points (entries : gmap EntryPointType (list EntryPoint)) (entry_point_type : EntryPointType)
    : M (list LegacyContractEntryPoint) :=
  l ← ok_or AnyhowError (entries !! entry_point_type);
  mapM to_legacy_entry_point l.

(** [Result::unwrap_or_default] of a list *)
Definition unwrap_or_nil {E A} (m : Outcome E (list A)) : Outcome E (list A) :=
  match m with Ok l => Ok l | Err _ => Ok [] | Panic => Panic end.

Definition to_legacy_entry_points_by_type (entries : gmap EntryPointType (list EntryPoint))
    : M (ByType LegacyContractEntryPoint) :=
  constructor ← unwrap_or_nil (collect_entry_points entries EP_Constructor);
  external ← collect_entry_points entries EP_External;
  l1_handler ← unwrap_or_nil (collect_entry_points entries EP_L1Handler);
  Ok {| constructor := constructor; external := external; l1_handler := l1_handler |}.

(** [IndexMap::entry(k).or_default().push(v)]; an index map keeps insertion order. *)
Fixpoint index_map_push {K A} `{EqDecision K} (m : list (K * list A)) (k : K) (v : A) : list (K * list A) :=
  match m with
  | [] => [(k, [v])]
  | (k', l) :: m => if decide (k' = k) then (k', l ++ [v]) :: m else (k', l) :: index_map_push m k v
  end.

Definition from_legacy_entry_points_by_type (entries : ByType LegacyContractEntryPoint)
    : list (EntryPointType * list EntryPoint) :=
  foldl (λ m x, index_map_push m x.1 (from_legacy_entry_point x.2)) []
    (map (λ e, (EP_Constructor, e)) (constructor entries) ++
     map (λ e, (EP_External, e)) (external entries) ++
     map (λ e, (EP_L1Handler, e)) (l1_handler entries)).

(** [collect] of an index map into a hash map *)
Definition to_hash_map {K V} `{Countable K} (m : list (K * V)) : gmap K V :=
  foldl (λ h x, <[x.1 := x.2]> h) ∅ m.

Definition from_contract_class_cairo (contract_class : CompressedLegacyContractClass rpc.LegacyContractAbiEntry)
    : M (ContractClass Prog V1) :=
  bytes ← decompress (cl_program contract_class);
  program ← unwrap_opt (Program_from_bytes bytes);
  let entry_points_by_type := from_legacy_entry_points_by_type (cl_entry_points_by_type contract_class) in
  Ok (ContractClass_V0 program entry_points_by_type).

Definition to_contract_class_cairo (program : Prog) (entry_points : list (EntryPointType * list EntryPoint))
    (abi : option (list rpc.LegacyContractAbiEntry)) : M rpc.ContractClass :=
  let entry_points_by_type := to_hash_map entry_points in
  entry_points_by_type ← to_legacy_entry_points_by_type entry_points_by_type;
  serialized ← ok_or AnyhowError (Program_serialize program);
  compressed_program ← compress serialized;
  Ok (rpc.Legacy {| cl_program := compressed_program; cl_entry_points_by_type := entry_points_by_type; cl_abi := abi |}).

Definition from_contract_class_sierra (contract_class : FlattenedSierraClass) : M (ContractClass Prog V1) :=
  raw_casm_contract ← ok_or AnyhowError (flattened_sierra_to_casm_contract_class contract_class);
  blockifier_contract ← unwrap_opt (ContractClassV1_try_from raw_casm_contract);
  Ok (ContractClass_V1 blockifier_contract).

(** The program and the entry points of a Sierra class are not kept; the version
    is that of the build, [option_env!("COMPILER_VERSION").unwrap_or("0.11.2")]. *)
Definition to_contract_class_sierra (compiler_version : option string) (abi : bytes) : M rpc.ContractClass :=
  Ok (rpc.Sierra {|
    fs_sierra_program := [];
    fs_contract_class_version := default "0.11.2"%string compiler_version;
    fs_entry_points_by_type := {| constructor := []; external := []; l1_handler := [] |};
    fs_abi := abi |}).

Definition from_rpc_contract_class (contract_class : rpc.ContractClass) : M (ContractClass Prog V1) :=
  match contract_class with
  | rpc.Sierra c => from_contract_class_sierra c
  | rpc.Legacy c => from_contract_class_cairo c
  end.

(** [impl TryFrom<ContractClassCore> for ContractClassWrapper] *)
Definition ContractClassWrapper_try_from (contract_class : rpc.ContractClass) : M (ContractClassWrapper Prog V1) :=
  contract ← from_rpc_contract_class contract_class;
  let abi := match contract_class with
             | rpc.Sierra class_sierra => ContractAbi_Sierra (fs_abi class_sierra)
             | rpc.Legacy class_cairo => ContractAbi_Cairo (abi.from_rpc_contract_abi (cl_abi class_cairo))
             end in
  Ok {| ccw_contract := contract; ccw_abi := abi |}.

(** [impl TryInto<ContractClassCore> for ContractClassWrapper]; [unreachable!] panics. *)
Definition ContractClassWrapper_try_into (compiler_version : option string) (self : ContractClassWrapper Prog V1)
    : M rpc.ContractClass :=
  match ccw_abi self with
  | ContractAbi_Sierra abi_sierra =>
      match ccw_contract self with
      | ContractClass_V1 _ => to_contract_class_sierra compiler_version abi_sierra
      | ContractClass_V0 _ _ => Panic
      end
  | ContractAbi_Cairo abi_cairo =>
      match ccw_contract self with
      | ContractClass_V0 program entry_points => to_contract_class_cairo program entry_points (abi.to_rpc_contract_abi abi_cairo)
      | ContractClass_V1 _ => Panic
      end
  end.

End Classes.

(** ** The stored ABI is the one that was fetched *)

Lemma map_id_fold {A B} (f : A → B) (g : B → A) l : (∀ x, g (f x) = x) → map g (map f l) = l.
Proof. intros H. rewrite map_map. induction l; simpl; by rewrite ?H, ?IHl. Qed.

Lemma abi_entry_roundtrip a : abi.entry_into (abi.entry_from a) = a.
Proof.
  destruct a as [[t n i o m]|[t n k d]|[t n z ms]]; simpl; f_equal;
    unfold abi.function_entry_into, abi.event_entry_into, abi.struct_entry_into; simpl;
    rewrite ?map_id_fold by (by intros []); f_equal; by repeat match goal with
      | |- context [match ?x with _ => _ end] => destruct x
      | x : option _ |- _ => destruct x as [[]|]
      | x : rpc.LegacyFunctionAbiType |- _ => destruct x
      | x : rpc.LegacyEventAbiType |- _ => destruct x
      | x : rpc.LegacyStructAbiType |- _ => destruct x
      end.
Qed.

Lemma abi_entry_onto a : abi.entry_from (abi.entry_into a) = a.
Proof.
  destruct a as [[t n i o m]|[t n k d]|[t n z ms]]; simpl; f_equal;
    unfold abi.function_entry_from, abi.event_entry_from, abi.struct_entry_from; simpl;
    rewrite ?map_id_fold by (by intros []); f_equal; by repeat match goal with
      | |- context [match ?x with _ => _ end] => destruct x
      | x : option _ |- _ => destruct x as [[]|]
      | x : AbiFunctionTypeWrapper |- _ => destruct x
      | x : AbiEventTypeWrapper |- _ => destruct x
      | x : AbiStructTypeWrapper |- _ => destruct x
      end.
Qed.

Lemma rpc_abi_roundtrip a : abi.to_rpc_contract_abi (abi.from_rpc_contract_abi a) = a.
Proof.
  destruct a as [l|]; [|done]. unfold abi.to_rpc_contract_abi, abi.from_rpc_contract_abi; simpl.
  by rewrite map_id_fold by apply abi_entry_roundtrip.
Qed.

(** ** Entry points: the index map groups, the hash map reads back *)

Section IndexMap.
Context {K A : Type} `{Countable K}.
Implicit Types (m : list (K * list A)).

Lemma index_map_push_keys m k v x :
  x ∈ (index_map_push m k v).*1 ↔ x ∈ m.*1 ∨ x = k.
Proof.
  induction m as [|[k' l] m IH]; simpl; [set_solver|].
  destruct (decide (k' = k)) as [->|]; simpl; set_solver.
Qed.

Lemma index_map_push_NoDup m k v : NoDup m.*1 → NoDup (index_map_push m k v).*1.
Proof.
  induction m as [|[k' l] m IH]; simpl; intros Hnd; [apply NoDup_singleton|].
  apply NoDup_cons in Hnd as [Hk Hnd].
  destruct (decide (k' = k)) as [->|Hne]; simpl; apply NoDup_cons; [done|].
  rewrite index_map_push_keys. naive_solver.
Qed.

Lemma index_map_push_lookup m k v :
  list_to_map (index_map_push m k v) =
    <[k := default [] ((list_to_map m : gmap K (list A)) !! k) ++ [v]]> (list_to_map m : gmap K (list A)).
Proof.
  induction m as [|[k' l] m IH]; simpl; [by rewrite lookup_empty|].
  destruct (decide (k' = k)) as [->|Hne]; simpl.
  - by rewrite lookup_insert_eq, insert_insert_eq.
  - rewrite IH, insert_insert_ne by done. by rewrite lookup_insert_ne.
Qed.

(** Pushing the entries of one type. *)
Lemma index_map_push_block {B} (f : B → A) m k (l : list B) :
  NoDup m.*1 →
  let m' := foldl (λ m x, index_map_push m x.1 (f x.2)) m (map (λ e, (k, e)) l) in
  NoDup m'.*1 ∧
  (list_to_map m' : gmap K (list A)) =
    match l with
    | [] => list_to_map m
    | _ => <[k := default [] ((list_to_map m : gmap K (list A)) !! k) ++ map f l]> (list_to_map m)
    end.
Proof.
  revert m. induction l as [|x l IH]; intros m Hnd; simpl; [done|].
  destruct (IH (index_map_push m k (f x)) (index_map_push_NoDup _ _ _ Hnd)) as [Hnd' Heq].
  split; [done|]. rewrite Heq, index_map_push_lookup.
  destruct l; [done|]. rewrite lookup_insert_eq, insert_insert_eq. simpl.
  by rewrite <-(assoc_L (++)).
Qed.

Lemma to_hash_map_list m : NoDup m.*1 → to_hash_map m = (list_to_map m : gmap K (list A)).
Proof.
  unfold to_hash_map. intros Hnd.
  assert (∀ h : gmap K (list A), foldl (λ h x, <[x.1 := x.2]> h) h m = list_to_map m ∪ h) as Hgen.
  { induction m as [|[k l] m IH]; intros h; simpl; [by rewrite (left_id_L ∅ (∪))|].
    apply NoDup_cons in Hnd as [Hk Hnd]. rewrite IH by done.
    rewrite <-insert_union_l. apply map_eq. intros x. rewrite lookup_union.
    destruct (decide (x = k)) as [->|Hne].
    - rewrite !lookup_insert_eq. by rewrite not_elem_of_list_to_map_1 by done.
    - rewrite !lookup_insert_ne by done. by rewrite lookup_union. }
  by rewrite Hgen, (right_id_L ∅ (∪)).
Qed.
End IndexMap.

Section ClassProperties.
Context {LProg Prog V1 Info : Type} `{cl : ClassLibs rpc.LegacyContractAbiEntry LProg Prog V1 Info}.
Context `{Hlibs : !FeltLibsSpec libs} `{pc : ProgramCodec Prog}.

Definition wf_entry_point (e : LegacyContractEntryPoint) : Prop := is_felt (le_selector e).
Definition wf_entry_points (e : ByType LegacyContractEntryPoint) : Prop :=
  Forall wf_entry_point (constructor e) ∧ Forall wf_entry_point (external e) ∧ Forall wf_entry_point (l1_handler e).

Lemma to_from_legacy_entry_point e :
  wf_entry_point e → to_legacy_entry_point (from_legacy_entry_point e) = Ok e.
Proof.
  intros Hf. unfold to_legacy_entry_point, from_legacy_entry_point; simpl.
  rewrite to_bytes_be_ok by done.
  rewrite from_bytes_be_ok by auto using be_encode_length with bytes.
  rewrite be_decode_encode_felt by done. destruct e as [o s], Hf as [? Hlt]; simpl in *.
  by rewrite (proj2 (Z.ltb_lt s P)).
Qed.

Lemma to_from_legacy_entry_points l :
  Forall wf_entry_point l → mapM to_legacy_entry_point (map from_legacy_entry_point l) = Ok l.
Proof.
  induction 1 as [|e l He _ IH]; [done|]. simpl map. simpl mapM.
  rewrite (to_from_legacy_entry_point e He). unfold mbind in *. simpl in *. by rewrite IH.
Qed.

(** What the hash map of the stored entry points holds for each type. *)
Lemma stored_entry_points e t :
  to_hash_map (from_legacy_entry_points_by_type e) !! t =
    let l := match t with EP_Constructor => constructor e | EP_External => external e | EP_L1Handler => l1_handler e end in
    match l with [] => None | _ => Some (map from_legacy_entry_point l) end.
Proof.
  unfold from_legacy_entry_points_by_type. rewrite !foldl_app.
  destruct (index_map_push_block from_legacy_entry_point [] EP_Constructor (constructor e)) as [N1 E1];
    [apply NoDup_nil_2|].
  destruct (index_map_push_block from_legacy_entry_point _ EP_External (external e) N1) as [N2 E2].
  destruct (index_map_push_block from_legacy_entry_point _ EP_L1Handler (l1_handler e) N2) as [N3 E3].
  rewrite to_hash_map_list by exact N3. rewrite E3, E2, E1.
  destruct t, (constructor e), (external e), (l1_handler e); by simplify_map_eq.
Qed.

Lemma collect_stored e t :
  wf_entry_points e →
  collect_entry_points (to_hash_map (from_legacy_entry_points_by_type e)) t =
    let l := match t with EP_Constructor => constructor e | EP_External => external e | EP_L1Handler => l1_handler e end in
    match l with [] => Err AnyhowError | _ => Ok l end.
Proof.
  intros (Hc & He & Hh). unfold collect_entry_points. rewrite stored_entry_points. cbv zeta.
  destruct t; [destruct (constructor e) eqn:E|destruct (external e) eqn:E|destruct (l1_handler e) eqn:E];
    try done; rewrite <-E in *; cbn [ok_or mbind Outcome_bind]; by apply to_from_legacy_entry_points.
Qed.

(** C35: A legacy class that the node stored is served with its ABI and its entry
    points, in their order, and with the program it was given up to the program
    format; a class without an external entry point is stored but cannot be
    served. *)
Theorem legacy_class_served ver (c : CompressedLegacyContractClass rpc.LegacyContractAbiEntry) bs p sp z :
  gz_read_to_end (cl_program c) = Some bs →
  Program_from_bytes bs = Some p →
  Program_serialize p = Some sp → gz_finish sp = Some z →
  wf_entry_points (cl_entry_points_by_type c) →
  ∃ w, ContractClassWrapper_try_from (rpc.Legacy c) = Ok w ∧
    ContractClassWrapper_try_into ver w =
      match external (cl_entry_points_by_type c) with
      | [] => Err AnyhowError
      | _ => Ok (rpc.Legacy {| cl_program := z; cl_entry_points_by_type := cl_entry_points_by_type c; cl_abi := cl_abi c |})
      end.
Proof.
  intros Hbs Hp Hsp Hz Hwf. eexists. split.
  { unfold ContractClassWrapper_try_from, from_rpc_contract_class, from_contract_class_cairo, decompress.
    rewrite Hbs. simpl. by rewrite Hp. }
  unfold ContractClassWrapper_try_into; simpl. rewrite rpc_abi_roundtrip.
  unfold to_contract_class_cairo, to_legacy_entry_points_by_type, compress.
  rewrite !collect_stored by done. cbv zeta. rewrite Hsp. simpl. rewrite Hz.
  destruct (cl_entry_points_by_type c) as [co ex l1]; simpl.
  by destruct co, ex, l1.
Qed.
End ClassProperties.

(** ** Witnesses *)

(** Programs are their bytes; compression adds a marker byte. *)
Definition rpc_class_libs : ClassLibs rpc.LegacyContractAbiEntry unit bytes unit unit := {|
  gz_read_to_end bs := match bs with 31 :: bs => Some bs | _ => None end;
  json_from_slice _ := Some tt;
  legacy_class_hash c := Some 7;
  Program_from_bytes := Some;
  casm_from_contract_class c := None;
  compiled_class_hash_of c := None;
  ContractClassV1_try_from _ := Some tt;
  flattened_class_hash c := 8;
  ClassInfo_new _ _ _ := Some tt;
  btx_DeclareTransaction_new tx h i := Some (Acc_Declare tx h i);
  BigUint_to_bytes_be := be_encode 32;
|}.
Definition program_codec_model : ProgramCodec bytes := {|
  gz_finish bs := Some (31 :: bs);
  Program_serialize := Some;
|}.

Definition example_legacy_class : CompressedLegacyContractClass rpc.LegacyContractAbiEntry := {|
  cl_program := [31; 1; 2];
  cl_entry_points_by_type := {|
    constructor := [];
    external := [{| le_offset := 5; le_selector := 77 |}; {| le_offset := 2; le_selector := 78 |}];
    l1_handler := [{| le_offset := 9; le_selector := 79 |}] |};
  cl_abi := Some [rpc.Event {| rpc.e_type := rpc.Event_; rpc.e_name := [101]; rpc.e_keys := []; rpc.e_data := [] |}] |}.

Lemma legacy_class_served_witness :
  ∃ w, ContractClassWrapper_try_from (cl := rpc_class_libs) (rpc.Legacy example_legacy_class) = Ok w ∧
    ContractClassWrapper_try_into (pc := program_codec_model) None w = Ok (rpc.Legacy example_legacy_class).
Proof.
  refine (legacy_class_served (cl := rpc_class_libs) (pc := program_codec_model) None example_legacy_class
    [1; 2] [1; 2] [1; 2] [31; 1; 2] eq_refl eq_refl eq_refl eq_refl _).
  repeat split; repeat (apply Forall_nil_2 || apply Forall_cons_2); vm_compute; by split.
Defined.
