(* ===== verification/UnusedHelpers.v ===== *)
(** * UnusedHelpers: code beside the code in use
    ([client/sync/src/commitments/contracts.rs] and the class conversions of
    [client/rpc/src/utils.rs])

    Earlier versions of computations that the node now does elsewhere: the storage
    trie and the leaf of a contract (now [Commitments] through the handlers of
    [Tries]), the class of an answer and the hash of a compiled class (now
    [ContractClasses] and [Broadcast]).  Nothing calls them; the theorems say where
    they agree with what replaced them and where not. *)

From S2P Require Import Prelude Felt Hashers Transactions TxHash CoreTx Broadcast Blocks Db Tries Commitments.
From S2P Require Import ContractClasses.

(** ** commitments/contracts.rs *)

Module contracts.
Record ContractLeafParams := { class_hash : Z; storage_root : Z; nonce : Z }.

Section Contracts.
Context {B : Type} `{bt : BonsaiTrie B}.

Definition identifier (contract_address : Z) : bytes := be_encode 32 contract_address.

Definition convert_storage (storage_key storage_value : Z) : bits * Z :=
  (drop 5 (as_bits (be_encode 32 storage_key)), storage_value).

(** Every failure of the trie is an [expect]ed one. *)
Definition update_storage_trie (contract_address : Z) (storage_updates : list (Z * Z)) (bonsai_contract_storage : B)
    : Outcome Empty_set B :=
  let identifier := identifier contract_address in
  b ← unwrap (bonsai_init_tree bonsai_contract_storage identifier);
  foldM (λ b '(key, value), let '(key, value) := convert_storage key value in unwrap (bonsai_insert b identifier key value))
    b storage_updates.
End Contracts.

Definition calculate_contract_state_leaf_hash `{hasher : HasherT} (contract_leaf_params : ContractLeafParams) : Z :=
  let contract_state_hash := hash_elements (class_hash contract_leaf_params) (storage_root contract_leaf_params) in
  let contract_state_hash := hash_elements contract_state_hash (nonce contract_leaf_params) in
  let contract_state_hash := hash_elements contract_state_hash Felt252Wrapper.ZERO in
  contract_state_hash.
End contracts.

Section StorageTrie.
Context {BP BC : Type} `{btp : BonsaiTrie BP} `{crypto : StarknetCrypto}.
Implicit Types t : Tries BP BC.

(** The storage trie that a computation leaves; its errors as panics. *)
Definition storage_or_panic (m : Outcome DeoxysStorageError (Tries BP BC)) : Outcome Empty_set BP :=
  t ← unwrap m; Ok (t_storage t).

Lemma insert_loop_agrees a ups t :
  storage_or_panic (foldM (λ t '(key, value), ContractStorageTrieMut_insert t a key value) t ups) =
  foldM (λ b '(key, value), let '(key, value) := contracts.convert_storage key value in
           unwrap (bonsai_insert b (contracts.identifier a) key value)) (t_storage t) ups.
Proof.
  revert t. induction ups as [|[k v] ups IH]; intros t; [done|].
  cbn [foldM]. change (ContractStorageTrieMut_insert t a k v) with
    (with_storage t <$> map_err (λ _ : unit, StorageInsertionError StorageType_ContractStorage)
       (bonsai_insert (t_storage t) (contracts.identifier a) (conv_contract_storage_key k) v)).
  change (contracts.convert_storage k v) with (conv_contract_storage_key k, v). cbn [fst snd].
  destruct (bonsai_insert (t_storage t) (contracts.identifier a) (conv_contract_storage_key k) v) as [b| |]; [|done..].
  apply (IH (with_storage t b)).
Qed.

(** The storage trie of a contract is written as by the loop in use, which
    reports the failures that here are panics. *)
Theorem update_storage_trie_agrees t a ups :
  contracts.update_storage_trie a (map_to_list ups) (t_storage t) = storage_or_panic (insert_updates t a ups).
Proof.
  unfold contracts.update_storage_trie, insert_updates, ContractStorageTrieMut_init, conv_contract_identifier, felt_bytes.
  unfold contracts.identifier at 1. destruct (bonsai_init_tree _ _) as [b| |]; [|done..].
  cbn [map_err mbind Outcome_bind unwrap fmap Outcome_fmap]. symmetry. apply (insert_loop_agrees a _ (with_storage t b)).
Qed.

(** The leaf of a contract is hashed as by the function in use, which takes the class
    and the nonce from the state difference. *)
Theorem leaf_hash_agrees lookup csd a root bh c :
  class_hash lookup csd a bh = Ok c →
  contract_state_leaf_hash lookup csd a root bh =
  Ok (contracts.calculate_contract_state_leaf_hash (hasher := PedersenHasher)
        {| contracts.class_hash := c; contracts.storage_root := root;
           contracts.nonce := default 0 (address_to_nonce csd !! a) |}).
Proof. intros Hc. unfold contract_state_leaf_hash. by rewrite Hc. Qed.
End StorageTrie.

(** ** rpc/src/utils.rs *)

Module rpc_utils.
Section Utils.
Context {LProg Prog V1 Info : Type} `{cl : ClassLibs rpc.LegacyContractAbiEntry LProg Prog V1 Info}.
Context `{libs : FeltLibs} `{pc : ProgramCodec Prog}.
Variable compiler_version : option string.
Abbreviation M := (Outcome Anyhow).

Definition compress (data : bytes) : M bytes := ok_or AnyhowError (gz_finish data).

Definition to_legacy_entry_point (entry_point : EntryPoint) : M LegacyContractEntryPoint :=
  selector ← ok_or AnyhowError (FieldElement_from_bytes_be (ep_selector entry_point));
  Ok {| le_offset := ep_offset entry_point; le_selector := selector |}.

Definition collect_entry_points (entries : gmap EntryPointType (list EntryPoint)) (entry_point_type : EntryPointType)
    : M (list LegacyContractEntryPoint) :=
  l ← ok_or AnyhowError (entries !! entry_point_type);
  mapM to_legacy_entry_point l.

Definition to_legacy_entry_points_by_type (entries : gmap EntryPointType (list EntryPoint))
    : M (ByType LegacyContractEntryPoint) :=
  constructor ← collect_entry_points entries EP_Constructor;
  external ← collect_entry_points entries EP_External;
  l1_handler ← collect_entry_points entries EP_L1Handler;
  Ok {| constructor := constructor; external := external; l1_handler := l1_handler |}.

Definition to_rpc_contract_class (contract_class : ContractClass Prog V1) : M rpc.ContractClass :=
  match contract_class with
  | ContractClass_V0 program entry_points =>
      let entry_points_by_type := to_hash_map entry_points in
      entry_points_by_type ← to_legacy_entry_points_by_type entry_points_by_type;
      serialized ← ok_or AnyhowError (Program_serialize program);
      compressed_program ← compress serialized;
      Ok (rpc.Legacy {| cl_program := compressed_program; cl_entry_points_by_type := entry_points_by_type; cl_abi := None |})
  | ContractClass_V1 _ =>
      Ok (rpc.Sierra {|
        fs_sierra_program := [];
        fs_contract_class_version := default "0.11.2"%string compiler_version;
        fs_entry_points_by_type := {| constructor := []; external := []; l1_handler := [] |};
        fs_abi := bytes_of_string "{}" |})
  end.

(** *** Compiled classes *)

Definition biguint_to_field_element (value : Z) : Outcome Empty_set Z :=
  unwrap (FieldElement_from_byte_slice_be (BigUint_to_bytes_be value)).

Definition casm_entry_point_to_compiled_entry_point (value : CasmContractEntryPoint)
    : Outcome Empty_set CompiledClassEntrypoint :=
  selector ← biguint_to_field_element (ca_selector value);
  Ok {| cc_selector := selector; cc_offset := ca_offset value; cc_builtins := ca_builtins value |}.

Definition casm_entry_points_to_compiled_entry_points (value : ByType CasmContractEntryPoint)
    : Outcome Empty_set (ByType CompiledClassEntrypoint) :=
  external ← mapM casm_entry_point_to_compiled_entry_point (external value);
  l1_handler ← mapM casm_entry_point_to_compiled_entry_point (l1_handler value);
  constructor ← mapM casm_entry_point_to_compiled_entry_point (constructor value);
  Ok {| constructor := constructor; external := external; l1_handler := l1_handler |}.

Definition casm_contract_class_to_compiled_class (casm_contract_class : CasmContractClass)
    : Outcome Empty_set CompiledClass :=
  bytecode ← mapM biguint_to_field_element (casm_bytecode casm_contract_class);
  entry_points_by_type ←
    casm_entry_points_to_compiled_entry_points (casm_entry_points_by_type casm_contract_class);
  Ok {| co_prime := casm_prime casm_contract_class;
        co_compiler_version := casm_compiler_version casm_contract_class;
        co_bytecode := bytecode; co_entry_points_by_type := entry_points_by_type |}.

Definition get_casm_cotract_class_hash (casm_contract_class : CasmContractClass) : Outcome Empty_set Z :=
  compiled_class ← casm_contract_class_to_compiled_class casm_contract_class;
  unwrap_opt (compiled_class_hash_of compiled_class).
End Utils.
End rpc_utils.

Section Classes.
Context {LProg Prog V1 Info : Type} `{cl : ClassLibs rpc.LegacyContractAbiEntry LProg Prog V1 Info}.
Context `{libs : FeltLibs} `{pc : ProgramCodec Prog}.
Variable compiler_version : option string.

Lemma collect_no_panic (entries : gmap EntryPointType (list EntryPoint)) k :
  rpc_utils.collect_entry_points entries k ≠ Panic.
Proof.
  unfold rpc_utils.collect_entry_points. destruct (entries !! k) as [l|]; [|done]. simpl.
  induction l as [|e l IH]; [done|]. simpl. unfold rpc_utils.to_legacy_entry_point.
  destruct (FieldElement_from_bytes_be _); simpl; [|done..]. by destruct (mapM _ l).
Qed.

(** The class it gives is the one that the conversion in use gives without an ABI. *)
Theorem rpc_class_agrees (program : Prog) entry_points c :
  rpc_utils.to_rpc_contract_class (V1 := V1) compiler_version (ContractClass_V0 program entry_points) = Ok c →
  to_contract_class_cairo program entry_points None = Ok c.
Proof.
  unfold rpc_utils.to_rpc_contract_class, to_contract_class_cairo, rpc_utils.to_legacy_entry_points_by_type,
    to_legacy_entry_points_by_type.
  change (rpc_utils.collect_entry_points) with (collect_entry_points).
  set (m := to_hash_map entry_points).
  destruct (collect_entry_points m EP_Constructor); simpl; [|discriminate..].
  destruct (collect_entry_points m EP_External); simpl; [|discriminate..].
  by destruct (collect_entry_points m EP_L1Handler).
Qed.

Lemma missing_kind (m : gmap EntryPointType (list EntryPoint)) k :
  m !! k = None → rpc_utils.to_legacy_entry_points_by_type m = Err AnyhowError.
Proof.
  intros Hk. assert (rpc_utils.collect_entry_points m k = Err AnyhowError) as Hc.
  { unfold rpc_utils.collect_entry_points. by rewrite Hk. }
  pose proof (collect_no_panic m EP_Constructor) as H1. pose proof (collect_no_panic m EP_External) as H2.
  unfold rpc_utils.to_legacy_entry_points_by_type. destruct k; rewrite Hc; [done|..];
    destruct (rpc_utils.collect_entry_points m EP_Constructor) as [?|[]|]; try done.
  by destruct (rpc_utils.collect_entry_points m EP_External) as [?|[]|].
Qed.

(** A class without a constructor, or without handlers of L1 messages, is refused;
    the conversion in use takes them as none. *)
Theorem rpc_class_needs_all_kinds (program : Prog) entry_points k :
  to_hash_map entry_points !! k = None →
  rpc_utils.to_rpc_contract_class (V1 := V1) compiler_version (ContractClass_V0 program entry_points) = Err AnyhowError.
Proof. intros Hk. unfold rpc_utils.to_rpc_contract_class. by rewrite (missing_kind _ k). Qed.

(** *** The hash of a compiled class *)

(** No error of one is an error of the other. *)
Abbreviation widen := (map_err (λ e : Empty_set, match e return BroadcastedTransactionConversionError with end)).

Lemma biguint_agrees v : biguint_to_field_element v = widen (rpc_utils.biguint_to_field_element v).
Proof.
  unfold biguint_to_field_element, rpc_utils.biguint_to_field_element.
  by destruct (FieldElement_from_byte_slice_be (BigUint_to_bytes_be v)).
Qed.

Lemma entry_point_agrees e :
  casm_entry_point_to_compiled_entry_point e = widen (rpc_utils.casm_entry_point_to_compiled_entry_point e).
Proof.
  unfold casm_entry_point_to_compiled_entry_point, rpc_utils.casm_entry_point_to_compiled_entry_point.
  rewrite biguint_agrees. by destruct (rpc_utils.biguint_to_field_element _).
Qed.

Lemma mapM_agrees {A B} (f : A → Outcome BroadcastedTransactionConversionError B) g (l : list A) :
  (∀ x, f x = widen (g x)) → mapM f l = widen (mapM g l).
Proof.
  intros H. induction l as [|x l IH]; [done|]. simpl. rewrite H, IH. destruct (g x); simpl; [|done..].
  by destruct (mapM g l).
Qed.

(** The hash of a compiled class is computed as for a broadcasted declaration. *)
Theorem casm_hash_agrees c : get_casm_contract_class_hash c = widen (rpc_utils.get_casm_cotract_class_hash c).
Proof.
  unfold get_casm_contract_class_hash, rpc_utils.get_casm_cotract_class_hash, casm_contract_class_to_compiled_class,
    rpc_utils.casm_contract_class_to_compiled_class, casm_entry_points_to_compiled_entry_points,
    rpc_utils.casm_entry_points_to_compiled_entry_points.
  rewrite !(mapM_agrees _ _ _ entry_point_agrees), (mapM_agrees _ _ _ biguint_agrees).
  destruct (mapM _ (casm_bytecode c)); [|done..]. simpl. destruct (mapM _ (external _)); [|done..]. simpl.
  destruct (mapM _ (l1_handler _)); [|done..]. simpl. destruct (mapM _ (constructor _)); [|done..]. simpl.
  by destruct (compiled_class_hash_of _).
Qed.
End Classes.
