(* ===== verification/Pallet.v ===== *)
(** * Pallet: the Starknet pallet
    ([pallets/starknet/src/lib.rs], the digest of [node/src/service.rs] and
    [primitives/sequencer-address])

    The pallet keeps the part of the Starknet state that is not in the tries.  A
    Substrate block carries the Starknet block, the state update and the new
    classes in pre-runtime items of its digest; the pallet applies the updates
    when the block starts and files the Starknet block as a consensus item, where
    the mapping worker finds it, when it ends.  FRAME is modelled by what the
    pallet uses of it: storage items, the digest and the event log of
    [frame_system], and the order of the hooks. *)

From S2P Require Import Prelude Felt Hashers Transactions CoreTx Broadcast Blocks CallInfo ContractClasses.

(** ** The digest of a Substrate block (sp_runtime) *)

Inductive DigestItem :=
| PreRuntime (engine_id : bytes) (data : bytes)
| Consensus (engine_id : bytes) (data : bytes)
| Seal (engine_id : bytes) (data : bytes)
| Other (data : bytes)
| RuntimeEnvironmentUpdated.

(** SCALE codecs of the three payloads and of the log, derived from the types. *)
Class DigestCodecs (Prog V1 : Type) := {
  enc_block : DeoxysBlock → bytes;
  dec_block : bytes → option DeoxysBlock;
  enc_state_update : StateUpdateWrapper → bytes;
  dec_state_update : bytes → option StateUpdateWrapper;
  enc_class_update : ClassUpdateWrapper Prog V1 → bytes;
  dec_class_update : bytes → option (ClassUpdateWrapper Prog V1);
  enc_log : Log → bytes;
  dec_log : bytes → option Log;
}.
Class DigestCodecsSpec {Prog V1} (dc : DigestCodecs Prog V1) : Prop := {
  dec_enc_block b : dec_block (enc_block b) = Some b;
  dec_enc_state_update u : dec_state_update (enc_state_update u) = Some u;
  dec_enc_class_update u : dec_class_update (enc_class_update u) = Some u;
  dec_enc_log l : dec_log (enc_log l) = Some l;
}.

(** [DigestItem::try_to] for a consensus item. *)
#[global] Instance digest_items {Prog V1} `{dc : DigestCodecs Prog V1} : DigestItems DigestItem := λ item engine_id,
  match item with
  | Consensus v s => if decide (v = engine_id) then dec_log s else None
  | _ => None
  end.

(** ** Storage *)

Inductive StarknetStorageSchemaVersion := Schema_Undefined | Schema_V1.
#[global] Instance StarknetStorageSchemaVersion_eq_dec : EqDecision StarknetStorageSchemaVersion.
Proof. solve_decision. Defined.

(** The pallet's event. *)
Inductive PalletEvent :=
| KeepStarknetStrange
| StarknetEvent (e : Event)
| FeeTokenAddressChanged (old_fee_token_address new_fee_token_address : Z).

Inductive PalletError :=
| AccountNotDeployed | TransactionExecutionFailed | ClassHashAlreadyDeclared | ContractClassHashUnknown
| ContractClassAlreadyAssociated | ContractClassMustBeSpecified | AccountAlreadyDeployed
| ContractAddressAlreadyAssociated | InvalidContractClassError | TooManyEmittedStarknetEvents | StateReaderError
| EmitEventError | StateDiffError | PalletContractNotFound | TransactionConversionError | SequencerAddressNotValid
| InvalidContractClassForThisDeclareVersion | Unimplemented | MissingRevertReason | MissingCallInfo
| FailedToCreateATransactionalStorageExecution | L1MessageAlreadyExecuted | MissingL1GasUsage
| BadOrigin.

(** Storage items.  A [ValueQuery] value that is not stored reads as the default.
    [ContractsStateRoots], [PendingStorageChanges] and [L1Messages] are declared
    but neither read nor written, and are left out. *)
Record PalletState (Prog V1 : Type) := {
  Pending_ : list Transaction;
  PendingHashes : list Z;
  TxEvents : gmap Z (list Event);
  TxMessages : gmap Z (list MessageToL1);
  TxRevertError : gmap Z bytes;
  BlockHash : gmap Z Z;
  ContractClassHashes : gmap Z Z;
  ContractClasses : gmap Z (ContractClass Prog V1);
  ContractAbis : gmap Z ContractAbi;
  CompiledClassHashes : gmap Z Z;
  Nonces : gmap Z Z;
  LastKnownEthBlock : option Z;
  FeeTokens : option FeeTokenAddresses;
  SequencerAddress : option Z;
  SeqAddrUpdate : option bool;
  StorageSchema : option StarknetStorageSchemaVersion;
  (* frame_system *)
  sys_block_number : Z;
  sys_digest : list DigestItem;
  sys_events : list PalletEvent;
}.
Arguments Pending_ {Prog V1}. Arguments PendingHashes {Prog V1}. Arguments TxEvents {Prog V1}.
Arguments TxMessages {Prog V1}. Arguments TxRevertError {Prog V1}. Arguments BlockHash {Prog V1}.
Arguments ContractClassHashes {Prog V1}. Arguments ContractClasses {Prog V1}. Arguments ContractAbis {Prog V1}.
Arguments CompiledClassHashes {Prog V1}. Arguments Nonces {Prog V1}. Arguments LastKnownEthBlock {Prog V1}.
Arguments FeeTokens {Prog V1}. Arguments SequencerAddress {Prog V1}. Arguments SeqAddrUpdate {Prog V1}.
Arguments StorageSchema {Prog V1}. Arguments sys_block_number {Prog V1}. Arguments sys_digest {Prog V1}.
Arguments sys_events {Prog V1}.

(** The runtime's configuration of the pallet. *)
Class PalletConfig := {
  cfg_L1GasPrices : GasPrices;
  cfg_ChainId : Z;
  cfg_ProgramHash : Z;
  cfg_DisableTransactionFee : bool;
  cfg_now : Z;                      (* [TimestampProvider::now], milliseconds *)
}.

(** Writes a list of entries in order; the last one of a key wins. *)
Definition insert_all {V} (l : list (Z * V)) (m : gmap Z V) : gmap Z V := foldl (λ m x, <[x.1 := x.2]> m) m l.
Arguments insert_all : simpl never.

Section Setters.
Context {Prog V1 : Type}.
Abbreviation St := (PalletState Prog V1).

(** One setter for the items the hooks write together, one for the block's
    bookkeeping and one for the execution records. *)
Definition set_chain (st : St) (hashes : gmap Z Z) (nonces : gmap Z Z) (compiled : gmap Z Z)
    (classes : gmap Z (ContractClass Prog V1)) (abis : gmap Z ContractAbi) : St := {|
  Pending_ := Pending_ st; PendingHashes := PendingHashes st; TxEvents := TxEvents st; TxMessages := TxMessages st;
  TxRevertError := TxRevertError st; BlockHash := BlockHash st; ContractClassHashes := hashes;
  ContractClasses := classes; ContractAbis := abis; CompiledClassHashes := compiled; Nonces := nonces;
  LastKnownEthBlock := LastKnownEthBlock st; FeeTokens := FeeTokens st; SequencerAddress := SequencerAddress st;
  SeqAddrUpdate := SeqAddrUpdate st; StorageSchema := StorageSchema st; sys_block_number := sys_block_number st;
  sys_digest := sys_digest st; sys_events := sys_events st |}.

Definition set_records (st : St) (txe : gmap Z (list Event)) (txm : gmap Z (list MessageToL1))
    (evs : list PalletEvent) : St := {|
  Pending_ := Pending_ st; PendingHashes := PendingHashes st; TxEvents := txe; TxMessages := txm;
  TxRevertError := TxRevertError st; BlockHash := BlockHash st; ContractClassHashes := ContractClassHashes st;
  ContractClasses := ContractClasses st; ContractAbis := ContractAbis st;
  CompiledClassHashes := CompiledClassHashes st; Nonces := Nonces st;
  LastKnownEthBlock := LastKnownEthBlock st; FeeTokens := FeeTokens st; SequencerAddress := SequencerAddress st;
  SeqAddrUpdate := SeqAddrUpdate st; StorageSchema := StorageSchema st; sys_block_number := sys_block_number st;
  sys_digest := sys_digest st; sys_events := evs |}.

Definition set_block (st : St) (pending : list Transaction) (bh : gmap Z Z) (seq : option Z) (upd : option bool)
    (number : Z) (digest : list DigestItem) (evs : list PalletEvent) : St := {|
  Pending_ := pending; PendingHashes := PendingHashes st; TxEvents := TxEvents st; TxMessages := TxMessages st;
  TxRevertError := TxRevertError st; BlockHash := bh; ContractClassHashes := ContractClassHashes st;
  ContractClasses := ContractClasses st; ContractAbis := ContractAbis st;
  CompiledClassHashes := CompiledClassHashes st; Nonces := Nonces st;
  LastKnownEthBlock := LastKnownEthBlock st; FeeTokens := FeeTokens st; SequencerAddress := seq;
  SeqAddrUpdate := upd; StorageSchema := StorageSchema st; sys_block_number := number;
  sys_digest := digest; sys_events := evs |}.
End Setters.

Module pallet.
Section Pallet.
Context {Prog V1 : Type} `{dc : DigestCodecs Prog V1} `{cfg : PalletConfig} `{libs : FeltLibs}.
Abbreviation St := (PalletState Prog V1).
Abbreviation M := (Outcome PalletError).

(** ** Getters *)

Definition nonce (st : St) (address : Z) : Z := default 0 (Nonces st !! address).
Definition contract_class_hash_by_address (st : St) (address : Z) : Z := default 0 (ContractClassHashes st !! address).
Definition contract_class_by_class_hash (st : St) (class_hash : Z) : option (ContractClass Prog V1) :=
  ContractClasses st !! class_hash.
Definition contract_abi_by_class_hash (st : St) (class_hash : Z) : option ContractAbi := ContractAbis st !! class_hash.
Definition compiled_class_hash_by_class_hash (st : St) (class_hash : Z) : option Z :=
  CompiledClassHashes st !! class_hash.
Definition block_hash (st : St) (number : Z) : Z := default 0 (BlockHash st !! number).
Definition fee_token_addresses (st : St) : FeeTokenAddresses :=
  default {| eth_fee_token_address := 0; strk_fee_token_address := 0 |} (FeeTokens st).
Definition sequencer_address (st : St) : Z := default 0 (SequencerAddress st).
Definition tx_events (st : St) (tx_hash : Z) : list Event := default [] (TxEvents st !! tx_hash).
Definition tx_messages (st : St) (tx_hash : Z) : list MessageToL1 := default [] (TxMessages st !! tx_hash).

(** ** Hooks *)

(** Class hashes are written for deployed contracts, then for replaced ones. *)
Definition store_state_update (st : St) (encoded_data : bytes) : St :=
  match dec_state_update encoded_data with
  | Some state_update =>
      let diff := su_state_diff state_update in
      let nonces := insert_all (Blocks.nonces diff) (Nonces st) in
      let hashes := insert_all (map (λ contract, (dc_address contract, dc_class_hash contract))
                      (deployed_contracts diff ++ replaced_classes diff)) (ContractClassHashes st) in
      let compiled := insert_all (map (λ class, (decl_class_hash class, decl_compiled_class_hash class))
                        (declared_classes diff)) (CompiledClassHashes st) in
      set_chain st hashes nonces compiled (ContractClasses st) (ContractAbis st)
  | None => st
  end.

Definition store_class_update (st : St) (encoded_data : bytes) : St :=
  match dec_class_update encoded_data with
  | Some class_update =>
      let '(classes, abis) := foldl (λ '(classes, abis) (c : ContractClassData Prog V1),
          (<[ccd_hash c := ccw_contract (ccd_contract_class c)]> classes,
           <[ccd_hash c := ccw_abi (ccd_contract_class c)]> abis))
        (ContractClasses st, ContractAbis st) (class_updates class_update) in
      set_chain st (ContractClassHashes st) (Nonces st) (CompiledClassHashes st) classes abis
  | None => st
  end.

Definition on_initialize (st : St) : St :=
  foldl (λ st log_entry,
    match log_entry with
    | PreRuntime engine_id encoded_data =>
        if decide (engine_id = STATE_ENGINE_ID) then store_state_update st encoded_data
        else if decide (engine_id = CLASS_ENGINE_ID) then store_class_update st encoded_data
        else st
    | _ => st
    end) st (sys_digest st).

Definition deposit_log (st : St) (item : DigestItem) : St :=
  set_block st (Pending_ st) (BlockHash st) (SequencerAddress st) (SeqAddrUpdate st) (sys_block_number st)
    (sys_digest st ++ [item]) (sys_events st).

Definition store_block (st : St) (block_number : Z) : M St :=
  item ← unwrap_opt (sys_digest st !! 0%nat);
  match item with
  | PreRuntime engine_id encoded_data =>
      if decide (engine_id = MADARA_ENGINE_ID) then
        match dec_block encoded_data with
        | None => Ok st
        | Some block =>
            extra ← unwrap_opt (extra_data (header block));
            blockhash ← unwrap (Felt252Wrapper.try_from_u256 extra);
            let st := set_block st [] (<[block_number := blockhash]> (BlockHash st)) (SequencerAddress st)
                        (SeqAddrUpdate st) (sys_block_number st) (sys_digest st) (sys_events st) in
            Ok (deposit_log st (Consensus MADARA_ENGINE_ID (enc_log (Log_Block block))))
        end
      else Ok st
  | _ => Ok st
  end.

(** [assert!(SeqAddrUpdate::take())], then [store_block]. *)
Definition on_finalize (st : St) : M St :=
  let upd := default false (SeqAddrUpdate st) in
  let st := set_block st (Pending_ st) (BlockHash st) (SequencerAddress st) None (sys_block_number st)
              (sys_digest st) (sys_events st) in
  _ ← assert_true upd;
  store_block st (sys_block_number st).

(** ** The call and the inherent *)

Inductive Origin := Origin_None | Origin_Root | Origin_Signed.

Definition ensure_none (origin : Origin) : M unit :=
  match origin with Origin_None => Ok tt | _ => Err BadOrigin end.

(** [PatriciaKey::try_from]: contract addresses are below 2^251. *)
Definition set_sequencer_address (st : St) (origin : Origin) (addr : bytes) : M St :=
  _ ← ensure_none origin;
  _ ← (if 1 <? sys_block_number st then assert_true (bool_decide (SeqAddrUpdate st = None)) else Ok tt);
  felt ← ok_or SequencerAddressNotValid (StarkFelt_new addr);
  let addr := be_decode felt in
  if addr <? 2 ^ 251
  then Ok (set_block st (Pending_ st) (BlockHash st) (Some addr) (Some true) (sys_block_number st)
             (sys_digest st) (sys_events st))
  else Err SequencerAddressNotValid.

Definition DEFAULT_SEQUENCER_ADDRESS : bytes := replicate 30 0 ++ [222; 173].

(** Inherent data under the identifier [seqaddr0]: absent, not decodable, or 32 bytes. *)
Definition create_inherent (get_data : Outcome unit (option bytes)) : Outcome Empty_set (option bytes) :=
  inherent_data ← unwrap get_data;
  Ok (Some (default DEFAULT_SEQUENCER_ADDRESS inherent_data)).

(** ** Genesis *)

Record GenesisConfig := {
  g_contracts : list (Z * Z);
  g_sierra_to_casm_class_hash : list (Z * Z);
  g_storage : list (Z * list (Z * Z));
  g_strk_fee_token_address : Z;
  g_eth_fee_token_address : Z;
}.
Definition GenesisConfig_default : GenesisConfig :=
  {| g_contracts := []; g_sierra_to_casm_class_hash := []; g_storage := []; g_strk_fee_token_address := 0;
     g_eth_fee_token_address := 0 |}.

Definition empty_state : St := {|
  Pending_ := []; PendingHashes := []; TxEvents := ∅; TxMessages := ∅; TxRevertError := ∅; BlockHash := ∅;
  ContractClassHashes := ∅; ContractClasses := ∅; ContractAbis := ∅; CompiledClassHashes := ∅; Nonces := ∅;
  LastKnownEthBlock := None; FeeTokens := None; SequencerAddress := None; SeqAddrUpdate := None;
  StorageSchema := None; sys_block_number := 0; sys_digest := []; sys_events := [] |}.

Definition genesis_build (st : St) (self : GenesisConfig) : St := {|
  Pending_ := Pending_ st; PendingHashes := PendingHashes st; TxEvents := TxEvents st; TxMessages := TxMessages st;
  TxRevertError := TxRevertError st; BlockHash := BlockHash st;
  ContractClassHashes := insert_all (g_contracts self) (ContractClassHashes st);
  ContractClasses := ContractClasses st; ContractAbis := ContractAbis st;
  CompiledClassHashes := insert_all (g_sierra_to_casm_class_hash self) (CompiledClassHashes st);
  Nonces := Nonces st; LastKnownEthBlock := None;
  FeeTokens := Some {| strk_fee_token_address := g_strk_fee_token_address self;
                       eth_fee_token_address := g_eth_fee_token_address self |};
  SequencerAddress := SequencerAddress st; SeqAddrUpdate := Some true; StorageSchema := Some Schema_V1;
  sys_block_number := sys_block_number st; sys_digest := sys_digest st; sys_events := sys_events st |}.

(** ** Internal functions *)

(** [from_utf8_unchecked] of the 32 bytes of the chain id. *)
Definition chain_id_str : bytes := FieldElement_to_bytes_be cfg_ChainId.
Definition block_timestamp : Z := cfg_now / 1000.

Definition get_block_context {C} (latest_constants : C) (st : St) : BlockContext C :=
  {| bc_block_info := {|
       bi_block_number := sys_block_number st;
       bi_block_timestamp := block_timestamp;
       bi_sequencer_address := sequencer_address st;
       bi_gas_prices := cfg_L1GasPrices;
       bi_use_kzg_da := false |};
     bc_chain_info := {| ci_chain_id := chain_id_str; ci_fee_token_addresses := fee_token_addresses st |};
     bc_versioned_constants := latest_constants |}.

Definition parent_block_hash (st : St) (current_block_number : Z) : Z :=
  if current_block_number =? 0 then Felt252Wrapper.ZERO else block_hash st (current_block_number - 1).

Definition transaction_count (st : St) : Z := Z.of_nat (length (Pending_ st)).
Definition event_count (st : St) : Z :=
  foldl Z.add 0 (map (λ v, Z.of_nat (length v)) (map_to_list (TxEvents st)).*2).

Definition SN_OS_CONFIG_HASH_VERSION : bytes := bytes_of_string "StarknetOsConfig1".
Definition config_hash `{hasher : HasherT} (st : St) : Outcome Empty_set Z :=
  version ← unwrap (FieldElement_from_byte_slice_be SN_OS_CONFIG_HASH_VERSION);
  Ok (compute_hash_on_elements [version; cfg_ChainId; eth_fee_token_address (fee_token_addresses st)]).

(** [frame_system] does not record events of the genesis block. *)
Definition deposit_event (st : St) (e : PalletEvent) : St :=
  if sys_block_number st =? 0 then st
  else set_records st (TxEvents st) (TxMessages st) (sys_events st ++ [e]).

(** [StorageMap::append] *)
Definition append {A} (k : Z) (x : A) (m : gmap Z (list A)) : gmap Z (list A) :=
  <[k := default [] (m !! k) ++ [x]]> m.

Definition aggregate_messages_in_call_info (tx_hash : Z) (call_info : CallInfo) (next_order : nat) (st : St)
    : nat * St :=
  in_call_info ex_l2_to_l1_messages (λ address content st,
    let message := {| m_from_address := address; m_to_address := mc_to_address content;
                      m_payload := mc_payload content |} in
    set_records st (TxEvents st) (append tx_hash message (TxMessages st)) (sys_events st)) call_info next_order st.

Definition emit_events_in_call_info (tx_hash : Z) (call_info : CallInfo) (next_order : nat) (st : St) : nat * St :=
  in_call_info ex_events (λ address content st,
    let event := {| from_address := address; ev_keys := ec_keys content; ev_data := ec_data content |} in
    let st := deposit_event st (StarknetEvent event) in
    set_records st (append tx_hash event (TxEvents st)) (TxMessages st) (sys_events st)) call_info next_order st.

Definition emit_and_store_tx_and_fees_events (tx_hash : Z) (execute_call_info fee_transfer_call_info : option CallInfo)
    (st : St) : St :=
  let visit st o :=
    match o with
    | Some call_info =>
        let st := (emit_events_in_call_info tx_hash call_info 0 st).2 in
        (aggregate_messages_in_call_info tx_hash call_info 0 st).2
    | None => st
    end in
  visit (visit st execute_call_info) fee_transfer_call_info.

(** ** Executing a block

    FRAME's executive sets the block number and the pre-runtime digest, clears
    the events, runs [on_initialize], applies the inherents, which must not fail,
    and runs [on_finalize]. *)

Definition system_initialize (st : St) (number : Z) (digest : list DigestItem) : St :=
  set_block st (Pending_ st) (BlockHash st) (SequencerAddress st) (SeqAddrUpdate st) number digest [].

Definition execute_block (st : St) (number : Z) (digest : list DigestItem) (inherents : list bytes) : M St :=
  let st := on_initialize (system_initialize st number digest) in
  st ← foldM (λ st addr, set_sequencer_address st Origin_None addr) st inherents;
  on_finalize st.

(** ** The digest of a new block (service.rs)

    The consensus data provider takes one value of each channel; [None] is an
    empty channel, an error. *)
Definition create_digest (blocks : list DeoxysBlock) (updates : list StateUpdateWrapper)
    (classes : list (ClassUpdateWrapper Prog V1))
    : option (list DigestItem) * (list DeoxysBlock * list StateUpdateWrapper * list (ClassUpdateWrapper Prog V1)) :=
  match blocks with
  | [] => (None, (blocks, updates, classes))
  | block :: blocks =>
      match updates with
      | [] => (None, (blocks, updates, classes))
      | state_update :: updates =>
          match classes with
          | [] => (None, (blocks, updates, classes))
          | class :: classes =>
              (Some [PreRuntime MADARA_ENGINE_ID (enc_block block);
                     PreRuntime STATE_ENGINE_ID (enc_state_update state_update);
                     PreRuntime CLASS_ENGINE_ID (enc_class_update class)],
               (blocks, updates, classes))
          end
      end
  end.

(** What the provider appends to the header of a block on its import. *)
Definition append_block_import (post_digests : list DigestItem) : list DigestItem := post_digests ++ [Other [1]].

End Pallet.
End pallet.

(** ** Properties of the storage updates *)

Lemma insert_all_cons {V} (x : Z * V) l m : insert_all (x :: l) m = insert_all l (<[x.1 := x.2]> m).
Proof. done. Qed.

Lemma insert_all_lookup {V} (l : list (Z * V)) m k :
  insert_all l m !! k = match (list_to_map (reverse l) : gmap Z V) !! k with Some v => Some v | None => m !! k end.
Proof.
  revert m. induction l as [|[k' v] l IH]; intros m; [done|].
  rewrite insert_all_cons, IH, reverse_cons, list_to_map_app, lookup_union. simpl.
  destruct (list_to_map (reverse l) !! k); simpl; [by rewrite union_Some_l|].
  rewrite (left_id_L None _). destruct (decide (k' = k)) as [->|Hne].
  - by rewrite !lookup_insert_eq.
  - by rewrite !lookup_insert_ne, lookup_empty.
Qed.

(** Writing in order is overriding by the map of the entries, the last first. *)
Lemma insert_all_override {V} (l : list (Z * V)) m : insert_all l m = list_to_map (reverse l) ∪ m.
Proof.
  apply map_eq. intros k. rewrite insert_all_lookup, lookup_union.
  destruct (_ !! k) as [v|]; destruct (m !! k); done.
Qed.

Lemma insert_all_dom {V} (l : list (Z * V)) m : dom (insert_all l m) = list_to_set l.*1 ∪ dom m.
Proof.
  revert m. induction l as [|x l IH]; intros m; [set_solver|].
  rewrite insert_all_cons, IH, dom_insert_L. set_solver.
Qed.

Section PalletProperties.
Import pallet.
Context {Prog V1 : Type} `{dc : DigestCodecs Prog V1} {Hdc : DigestCodecsSpec dc} `{cfg : PalletConfig}.
Context `{Hlibs : !FeltLibsSpec libs}.
Abbreviation St := (PalletState Prog V1).
Implicit Types (st : St).

Definition class_contracts (u : ClassUpdateWrapper Prog V1) : list (Z * ContractClass Prog V1) :=
  map (λ c, (ccd_hash c, ccw_contract (ccd_contract_class c))) (class_updates u).
Definition class_abis (u : ClassUpdateWrapper Prog V1) : list (Z * ContractAbi) :=
  map (λ c, (ccd_hash c, ccw_abi (ccd_contract_class c))) (class_updates u).

Lemma store_class_update_insert st bs u :
  dec_class_update bs = Some u →
  store_class_update st bs =
    set_chain st (ContractClassHashes st) (Nonces st) (CompiledClassHashes st)
      (insert_all (class_contracts u) (ContractClasses st)) (insert_all (class_abis u) (ContractAbis st)).
Proof.
  intros Hd. unfold store_class_update. rewrite Hd. unfold class_contracts, class_abis.
  assert (∀ l (a : gmap Z (ContractClass Prog V1)) (b : gmap Z ContractAbi),
    foldl (λ '(classes, abis) (c : ContractClassData Prog V1),
          (<[ccd_hash c := ccw_contract (ccd_contract_class c)]> classes,
           <[ccd_hash c := ccw_abi (ccd_contract_class c)]> abis)) (a, b) l =
    (insert_all (map (λ c, (ccd_hash c, ccw_contract (ccd_contract_class c))) l) a,
     insert_all (map (λ c, (ccd_hash c, ccw_abi (ccd_contract_class c))) l) b)) as Hgen.
  { induction l as [|c l IH]; intros a b; [done|]. simpl. rewrite IH. by rewrite !insert_all_cons. }
  by rewrite Hgen.
Qed.

(** A state that differs from [st] in the Starknet state only, with a class for
    every ABI and conversely if [st] has. *)
Definition same_but_chain st st' : Prop :=
  ∃ h n c cl ab, st' = set_chain st h n c cl ab ∧
    (dom (ContractClasses st) = dom (ContractAbis st) → dom cl = dom ab).

Lemma same_but_chain_refl st : same_but_chain st st.
Proof. destruct st. do 5 eexists. split; [reflexivity|by simpl]. Qed.

Lemma same_but_chain_trans st1 st2 st3 :
  same_but_chain st1 st2 → same_but_chain st2 st3 → same_but_chain st1 st3.
Proof.
  intros (h & n & c & cl & ab & -> & H1) (h' & n' & c' & cl' & ab' & -> & H2).
  exists h', n', c', cl', ab'. split; [done|]. intros. by apply H2, H1.
Qed.

#[local] Instance same_but_chain_preorder : PreOrder same_but_chain.
Proof. split; [exact same_but_chain_refl|exact same_but_chain_trans]. Qed.

Lemma store_state_update_chain st bs : same_but_chain st (store_state_update st bs).
Proof.
  unfold store_state_update. destruct (dec_state_update bs); [|done].
  do 5 eexists. split; [reflexivity|by simpl].
Qed.

Lemma store_class_update_chain st bs : same_but_chain st (store_class_update st bs).
Proof.
  destruct (dec_class_update bs) as [u|] eqn:Hd.
  - rewrite (store_class_update_insert _ _ _ Hd). do 5 eexists. split; [reflexivity|].
    intros Heq. rewrite !insert_all_dom, Heq. f_equal. unfold class_contracts, class_abis.
    f_equal. induction (class_updates u) as [|c l IH]; [done|]. simpl. by f_equal.
  - unfold store_class_update. by rewrite Hd.
Qed.

Lemma on_initialize_chain st : same_but_chain st (on_initialize st).
Proof.
  unfold on_initialize. generalize (sys_digest st) at 1. intros l. revert st.
  induction l as [|item l IH]; intros st; simpl; [done|].
  etransitivity; [|apply IH].
  destruct item as [e d| | | |]; try done.
  repeat case_decide; [apply store_state_update_chain|apply store_class_update_chain|done].
Qed.

(** ** One block *)

(** The inherents succeed from [st] and leave it with the last address. *)
Lemma set_sequencer_address_ok st addr :
  (sys_block_number st ≤ 1 ∨ SeqAddrUpdate st = None) →
  length addr = 32%nat → all_bytes addr → be_decode addr < 2 ^ 251 →
  set_sequencer_address st Origin_None addr =
    Ok (set_block st (Pending_ st) (BlockHash st) (Some (be_decode addr)) (Some true) (sys_block_number st)
          (sys_digest st) (sys_events st)).
Proof.
  intros Hn Hlen Hb Hlt. unfold set_sequencer_address; simpl.
  assert ((if 1 <? sys_block_number st then assert_true (bool_decide (SeqAddrUpdate st = None)) else Ok tt)
          = (Ok tt : Outcome PalletError unit)) as ->.
  { destruct (Z.ltb_spec 1 (sys_block_number st)); [|done].
    destruct Hn as [Hn|Hn]; [lia|]. by rewrite bool_decide_true. }
  simpl. rewrite starkfelt_new_ok by done.
  assert (be_decode addr < P) by (unfold P; lia).
  rewrite (proj2 (Z.ltb_lt _ _)) by done. simpl. by rewrite (proj2 (Z.ltb_lt _ _)).
Qed.

Lemma store_block_item st n b bs h rest :
  sys_digest st = PreRuntime MADARA_ENGINE_ID bs :: rest → dec_block bs = Some b →
  extra_data (header b) = Some h → is_felt h →
  store_block st n =
    Ok (set_block st [] (<[n := h]> (BlockHash st)) (SequencerAddress st) (SeqAddrUpdate st) (sys_block_number st)
          (sys_digest st ++ [Consensus MADARA_ENGINE_ID (enc_log (Log_Block b))]) (sys_events st)).
Proof.
  intros Hdig Hb Hx Hh. unfold store_block. rewrite Hdig.
  cbn [unwrap_opt mbind Outcome_bind lookup list_lookup].
  rewrite (decide_True (P := MADARA_ENGINE_ID = MADARA_ENGINE_ID)) by done. rewrite Hb, Hx.
  cbn [unwrap_opt mbind Outcome_bind].
  unfold Felt252Wrapper.try_from_u256. rewrite u256_to_be_ok.
  - rewrite try_from_array_felt by done. reflexivity.
  - apply is_felt_256 in Hh. simpl in Hh. done.
Qed.

(** The three items that [create_digest] writes, applied by [on_initialize]. *)
Lemma on_initialize_created st b su cu :
  sys_digest st = [PreRuntime MADARA_ENGINE_ID (enc_block b); PreRuntime STATE_ENGINE_ID (enc_state_update su);
                   PreRuntime CLASS_ENGINE_ID (enc_class_update cu)] →
  on_initialize st =
    set_chain st
      (insert_all (map (λ c, (dc_address c, dc_class_hash c))
         (deployed_contracts (su_state_diff su) ++ replaced_classes (su_state_diff su))) (ContractClassHashes st))
      (insert_all (Blocks.nonces (su_state_diff su)) (Nonces st))
      (insert_all (map (λ c, (decl_class_hash c, decl_compiled_class_hash c)) (declared_classes (su_state_diff su)))
         (CompiledClassHashes st))
      (insert_all (class_contracts cu) (ContractClasses st)) (insert_all (class_abis cu) (ContractAbis st)).
Proof.
  intros Hdig. unfold on_initialize. rewrite Hdig. cbn [foldl].
  rewrite (decide_False (P := MADARA_ENGINE_ID = STATE_ENGINE_ID)) by done.
  rewrite (decide_False (P := MADARA_ENGINE_ID = CLASS_ENGINE_ID)) by done.
  rewrite (decide_True (P := STATE_ENGINE_ID = STATE_ENGINE_ID)) by done.
  rewrite (decide_False (P := CLASS_ENGINE_ID = STATE_ENGINE_ID)) by done.
  rewrite (decide_True (P := CLASS_ENGINE_ID = CLASS_ENGINE_ID)) by done.
  rewrite (store_class_update_insert _ _ cu (dec_enc_class_update cu)).
  unfold store_state_update. by rewrite dec_enc_state_update.
Qed.

Definition created_digest (b : DeoxysBlock) (su : StateUpdateWrapper) (cu : ClassUpdateWrapper Prog V1)
    : list DigestItem :=
  [PreRuntime MADARA_ENGINE_ID (enc_block b); PreRuntime STATE_ENGINE_ID (enc_state_update su);
   PreRuntime CLASS_ENGINE_ID (enc_class_update cu)].

(** The state after executing a block made from such a digest. *)
Definition imported st (n a : Z) (b : DeoxysBlock) (h : Z) (su : StateUpdateWrapper) (cu : ClassUpdateWrapper Prog V1)
    : St :=
  set_block
    (set_chain st
      (insert_all (map (λ c, (dc_address c, dc_class_hash c))
         (deployed_contracts (su_state_diff su) ++ replaced_classes (su_state_diff su))) (ContractClassHashes st))
      (insert_all (Blocks.nonces (su_state_diff su)) (Nonces st))
      (insert_all (map (λ c, (decl_class_hash c, decl_compiled_class_hash c)) (declared_classes (su_state_diff su)))
         (CompiledClassHashes st))
      (insert_all (class_contracts cu) (ContractClasses st)) (insert_all (class_abis cu) (ContractAbis st)))
    [] (<[n := h]> (BlockHash st)) (Some a) None n
    (created_digest b su cu ++ [Consensus MADARA_ENGINE_ID (enc_log (Log_Block b))]) [].

Lemma execute_created st n addr b su cu h :
  (n ≤ 1 ∨ SeqAddrUpdate st = None) →
  length addr = 32%nat → all_bytes addr → be_decode addr < 2 ^ 251 →
  extra_data (header b) = Some h → is_felt h →
  execute_block st n (created_digest b su cu) [addr] = Ok (imported st n (be_decode addr) b h su cu).
Proof.
  intros Hn Hlen Hb Hlt Hx Hh.
  unfold execute_block. cbn [foldM]. rewrite (on_initialize_created _ b su cu) by done.
  rewrite set_sequencer_address_ok by done. simpl. unfold on_finalize; simpl.
  erewrite store_block_item by (reflexivity || apply dec_enc_block || eassumption). done.
Qed.

Lemma imported_block st n a b h su cu : find_starknet_block (sys_digest (imported st n a b h su cu)) = Ok b.
Proof.
  rewrite find_starknet_block_logs. unfold madara_logs, imported. cbn [set_block sys_digest]. unfold created_digest.
  cbn [omap list_omap app try_to digest_items].
  rewrite (decide_True (P := MADARA_ENGINE_ID = MADARA_ENGINE_ID)) by done. by rewrite dec_enc_log.
Qed.

(** C10: A Starknet block, its state update and its classes, taken from the channels
    of the synchronisation and executed as Substrate block [n], leave the block
    where the mapping worker looks for it, its hash under [n], and the pallet's
    state overridden by exactly the entries of the update, later entries and
    replaced classes winning. *)
Theorem block_import st n addr b su cu h bs sus cus :
  (n ≤ 1 ∨ SeqAddrUpdate st = None) →
  length addr = 32%nat → all_bytes addr → be_decode addr < 2 ^ 251 →
  extra_data (header b) = Some h → is_felt h →
  ∃ digest st',
    create_digest (b :: bs) (su :: sus) (cu :: cus) = (Some digest, (bs, sus, cus)) ∧
    execute_block st n digest [addr] = Ok st' ∧
    find_starknet_block (sys_digest st') = Ok b ∧
    BlockHash st' = <[n := h]> (BlockHash st) ∧
    Nonces st' = list_to_map (reverse (Blocks.nonces (su_state_diff su))) ∪ Nonces st ∧
    ContractClassHashes st' =
      list_to_map (reverse (map (λ c, (dc_address c, dc_class_hash c))
        (deployed_contracts (su_state_diff su) ++ replaced_classes (su_state_diff su)))) ∪ ContractClassHashes st ∧
    CompiledClassHashes st' =
      list_to_map (reverse (map (λ c, (decl_class_hash c, decl_compiled_class_hash c))
        (declared_classes (su_state_diff su)))) ∪ CompiledClassHashes st ∧
    ContractClasses st' = list_to_map (reverse (class_contracts cu)) ∪ ContractClasses st ∧
    ContractAbis st' = list_to_map (reverse (class_abis cu)) ∪ ContractAbis st ∧
    sequencer_address st' = be_decode addr ∧ SeqAddrUpdate st' = None ∧ Pending_ st' = [].
Proof.
  intros Hn Hlen Hb Hlt Hx Hh. do 2 eexists. split; [reflexivity|].
  split; [by apply (execute_created st n addr b su cu h)|]. split; [apply imported_block|].
  simpl. by rewrite !insert_all_override.
Qed.

(** ** A chain of blocks *)

(** [Chain n st]: the state after block [n] of a chain built from a genesis. *)
Inductive Chain : Z → St → Prop :=
| Chain_genesis g : Chain 0 (genesis_build empty_state g)
| Chain_block n st digest inherents st' :
    Chain n st → execute_block st (n + 1) digest inherents = Ok st' → Chain (n + 1) st'.

Lemma Chain_nonneg n st : Chain n st → 0 ≤ n.
Proof. induction 1; lia. Qed.

(** What executing a block does to the items the invariant is about. *)
Lemma set_sequencer_address_frame st addr st' :
  set_sequencer_address st Origin_None addr = Ok st' →
  ∃ a, st' = set_block st (Pending_ st) (BlockHash st) (Some a) (Some true) (sys_block_number st)
               (sys_digest st) (sys_events st).
Proof.
  unfold set_sequencer_address. intros H. ok_inv.
  destruct (_ <? _) in H; ok_inv; eauto; discriminate.
Qed.

Lemma on_finalize_frame st st' :
  on_finalize st = Ok st' →
  SeqAddrUpdate st = Some true ∧ SeqAddrUpdate st' = None ∧ sys_block_number st' = sys_block_number st ∧
  ContractClasses st' = ContractClasses st ∧ ContractAbis st' = ContractAbis st ∧
  StorageSchema st' = StorageSchema st ∧ SequencerAddress st' = SequencerAddress st ∧
  dom (BlockHash st') ⊆ {[sys_block_number st]} ∪ dom (BlockHash st).
Proof.
  unfold on_finalize, store_block. destruct (SeqAddrUpdate st) as [[]|]; simpl; try discriminate.
  intros H. ok_inv. repeat (case_match; ok_inv; try discriminate); simpl; rewrite ?dom_insert_L;
    repeat split; set_solver.
Qed.

Lemma inherents_frame st inherents st' :
  foldM (λ st addr, set_sequencer_address st Origin_None addr) st inherents = Ok st' →
  sys_block_number st' = sys_block_number st ∧ ContractClasses st' = ContractClasses st ∧
  ContractAbis st' = ContractAbis st ∧ StorageSchema st' = StorageSchema st ∧ BlockHash st' = BlockHash st.
Proof.
  revert st. induction inherents as [|addr l IH]; intros st; simpl; [by intros [= <-]|].
  destruct (set_sequencer_address st Origin_None addr) as [st1| |] eqn:E; simpl; [|done..].
  apply set_sequencer_address_frame in E as [a ->]. intros H. by apply IH in H.
Qed.

Lemma Chain_invariant n st :
  Chain n st →
  dom (ContractClasses st) = dom (ContractAbis st) ∧
  StorageSchema st = Some Schema_V1 ∧
  sys_block_number st = n ∧
  (∀ k, k ∈ dom (BlockHash st) → 1 ≤ k ≤ n) ∧
  SeqAddrUpdate st = (if n =? 0 then Some true else None).
Proof.
  induction 1 as [g|n st digest inherents st' Hc (Hdom & Hs & Hn & Hh & Hu) Hex].
  { simpl. split; [done|]. split; [done|]. split; [done|]. split; [|done]. set_solver. }
  apply Chain_nonneg in Hc. unfold execute_block in Hex.
  destruct (on_initialize_chain (system_initialize st (n + 1) digest)) as (h & no & c & cl & ab & Hi & Hd).
  rewrite Hi in Hex. destruct (foldM _ _ inherents) as [st1| |] eqn:Hf; simpl in Hex; [|discriminate..].
  apply inherents_frame in Hf as (E1 & E2 & E3 & E4 & E5).
  apply on_finalize_frame in Hex as (_ & F1 & F2 & F3 & F4 & F5 & _ & F6).
  rewrite F1, F2, F3, F4, F5, E1, E2, E3, E4. rewrite E5, E1 in F6. simpl in *.
  split; [by apply Hd|]. split; [done|]. split; [done|]. split.
  - intros k Hk. apply F6 in Hk. apply elem_of_union in Hk as [->%elem_of_singleton|Hk]; [lia|].
    apply Hh in Hk. lia.
  - by rewrite (proj2 (Z.eqb_neq _ _)) by lia.
Qed.

(** C14: Between blocks every stored class has its ABI and every ABI its class, the
    storage schema is the one the overrides expect, block hashes are recorded
    for executed blocks only, and the sequencer address of the next block is
    still to be set. *)
Theorem pallet_invariant n st :
  Chain n st →
  dom (ContractClasses st) = dom (ContractAbis st) ∧
  StorageSchema st = Some Schema_V1 ∧
  sys_block_number st = n ∧
  (∀ k, k ∈ dom (BlockHash st) → 1 ≤ k ≤ n) ∧
  SeqAddrUpdate st = (if n =? 0 then Some true else None).
Proof. apply Chain_invariant. Qed.

Definition wf_address (addr : bytes) : Prop := length addr = 32%nat ∧ all_bytes addr.

Lemma set_sequencer_address_invalid st addr :
  (sys_block_number st ≤ 1 ∨ SeqAddrUpdate st = None) → wf_address addr → 2 ^ 251 ≤ be_decode addr →
  set_sequencer_address st Origin_None addr = Err SequencerAddressNotValid.
Proof.
  intros Hn [Hlen Hb] Hle. unfold set_sequencer_address; simpl.
  assert ((if 1 <? sys_block_number st then assert_true (bool_decide (SeqAddrUpdate st = None)) else Ok tt)
          = (Ok tt : Outcome PalletError unit)) as ->.
  { destruct (Z.ltb_spec 1 (sys_block_number st)); [|done].
    destruct Hn as [Hn|Hn]; [lia|]. by rewrite bool_decide_true. }
  simpl. rewrite starkfelt_new_ok by done. destruct (_ <? P); simpl; [|done].
  by rewrite (proj2 (Z.ltb_ge _ _)).
Qed.

Lemma set_sequencer_address_twice st addr :
  1 < sys_block_number st → SeqAddrUpdate st ≠ None → set_sequencer_address st Origin_None addr = Panic.
Proof.
  intros Hn Hu. unfold set_sequencer_address; simpl.
  by rewrite (proj2 (Z.ltb_lt _ _)), bool_decide_false by done.
Qed.

(** From the second block on the sequencer address is set exactly once, to the
    address of the inherent: without the inherent or with a second one the
    runtime panics, with an address out of range the block is refused. *)
Theorem sequencer_set_once n st digest inherents :
  Chain n st → 1 ≤ n → Forall wf_address inherents →
  match inherents with
  | [] => execute_block st (n + 1) digest inherents = Panic
  | addr :: rest =>
      if be_decode addr <? 2 ^ 251 then
        match rest with
        | [] => ∀ st', execute_block st (n + 1) digest inherents = Ok st' → sequencer_address st' = be_decode addr
        | _ => execute_block st (n + 1) digest inherents = Panic
        end
      else execute_block st (n + 1) digest inherents = Err SequencerAddressNotValid
  end.
Proof.
  intros Hc Hn Hwf. apply Chain_invariant in Hc as (_ & _ & _ & _ & Hu).
  rewrite (proj2 (Z.eqb_neq _ _)) in Hu by lia. unfold execute_block.
  destruct (on_initialize_chain (system_initialize st (n + 1) digest)) as (h & no & c & cl & ab & -> & _).
  destruct inherents as [|addr rest]; cbn [foldM].
  { unfold on_finalize; simpl. by rewrite Hu. }
  apply Forall_cons in Hwf as [[Hlen Hb] _]. destruct (Z.ltb_spec (be_decode addr) (2 ^ 251)) as [Hlt|Hge].
  - rewrite set_sequencer_address_ok by auto. destruct rest as [|addr2 rest]; cbn [foldM mbind Outcome_bind].
    + intros st' H. apply on_finalize_frame in H as (_ & _ & _ & _ & _ & _ & Hs & _).
      unfold sequencer_address. by rewrite Hs.
    + rewrite set_sequencer_address_twice; [done|simpl; lia|done].
  - by rewrite set_sequencer_address_invalid by (simpl; auto; by split).
Qed.

Lemma Chain_0 st : Chain 0 st → ∃ g, st = genesis_build empty_state g.
Proof.
  intros H. remember 0 as n eqn:Hn. destruct H as [g|n st digest inherents st' Hc _]; [by exists g|].
  apply Chain_nonneg in Hc. lia.
Qed.

(** Finalising a block does not look at the sequencer address. *)
Lemma on_finalize_address st a :
  is_ok (on_finalize (set_block st (Pending_ st) (BlockHash st) a (SeqAddrUpdate st) (sys_block_number st)
    (sys_digest st) (sys_events st))) = is_ok (on_finalize st).
Proof.
  unfold on_finalize, store_block; simpl. destruct (default false (SeqAddrUpdate st)); [|done]. simpl.
  destruct (sys_digest st !! 0%nat) as [[]|]; simpl; try done. case_decide; [|done].
  destruct (dec_block _) as [b|]; [|done]. destruct (extra_data (header b)); [|done]. simpl.
  by destruct (Felt252Wrapper.try_from_u256 _).
Qed.

(** The first block may be built without the inherent, which genesis has made up for:
    it is built under the same conditions, and no address is recorded. *)
Lemma first_block_address st digest addr :
  Chain 0 st → wf_address addr →
  (if be_decode addr <? 2 ^ 251
   then is_ok (execute_block st 1 digest [addr]) = is_ok (execute_block st 1 digest []) ∧
     ∀ st', execute_block st 1 digest [addr] = Ok st' → sequencer_address st' = be_decode addr
   else execute_block st 1 digest [addr] = Err SequencerAddressNotValid) ∧
  ∀ st', execute_block st 1 digest [] = Ok st' → sequencer_address st' = 0.
Proof.
  intros [g ->]%Chain_0 [Hlen Hb]. unfold execute_block.
  destruct (on_initialize_chain (system_initialize (genesis_build empty_state g) 1 digest))
    as (h & no & c & cl & ab & -> & _).
  split; [|intros st' H; apply on_finalize_frame in H as (_ & _ & _ & _ & _ & _ & Hs & _);
    unfold sequencer_address; by rewrite Hs].
  cbn [foldM]. destruct (Z.ltb_spec (be_decode addr) (2 ^ 251)) as [Hlt|Hge].
  - rewrite set_sequencer_address_ok by (simpl; auto; lia). cbn [mbind Outcome_bind]. split.
    + apply (on_finalize_address (set_chain (system_initialize (genesis_build empty_state g) 1 digest) h no c cl ab)).
    + intros st' H. apply on_finalize_frame in H as (_ & _ & _ & _ & _ & _ & Hs & _).
      unfold sequencer_address. by rewrite Hs.
  - by rewrite set_sequencer_address_invalid by (simpl; auto; first [lia|by split]).
Qed.
End PalletProperties.

(** ** Events and messages of a transaction *)

Section RecordProperties.
Import pallet.
Context {Prog V1 : Type}.
Abbreviation St := (PalletState Prog V1).
Implicit Types (st : St).

(** [st'] is [st] with the given events and messages added to the records of the
    transaction, and the events reported to Substrate after genesis. *)
Definition recorded (tx_hash : Z) (evs : list Event) (msgs : list MessageToL1) st st' : Prop :=
  tx_events st' tx_hash = tx_events st tx_hash ++ evs ∧
  tx_messages st' tx_hash = tx_messages st tx_hash ++ msgs ∧
  (∀ h, h ≠ tx_hash → tx_events st' h = tx_events st h ∧ tx_messages st' h = tx_messages st h) ∧
  st' = set_records st (TxEvents st') (TxMessages st')
          (if sys_block_number st =? 0 then sys_events st else sys_events st ++ map StarknetEvent evs).

Lemma recorded_nil tx_hash st : recorded tx_hash [] [] st st.
Proof.
  unfold recorded. rewrite !app_nil_r. repeat split.
  destruct st; cbn. rewrite ?app_nil_r. by destruct (_ =? 0).
Qed.

Lemma recorded_trans tx_hash e1 m1 e2 m2 st1 st2 st3 :
  recorded tx_hash e1 m1 st1 st2 → recorded tx_hash e2 m2 st2 st3 →
  recorded tx_hash (e1 ++ e2) (m1 ++ m2) st1 st3.
Proof.
  intros (Ee1 & Em1 & Eo1 & Es1) (Ee2 & Em2 & Eo2 & Es2). repeat split.
  - by rewrite Ee2, Ee1, (assoc_L (++)).
  - by rewrite Em2, Em1, (assoc_L (++)).
  - rewrite (proj1 (Eo2 _ H)). by apply Eo1.
  - rewrite (proj2 (Eo2 _ H)). by apply Eo1.
  - rewrite Es2. rewrite Es1. cbn. rewrite map_app. destruct (_ =? 0); [done|]. by rewrite (assoc_L (++)).
Qed.

Lemma lookup_append {A} k (x : A) m h :
  default [] (append k x m !! h) = if decide (h = k) then default [] (m !! k) ++ [x] else default [] (m !! h).
Proof.
  unfold append. case_decide as Hh; [subst; by rewrite lookup_insert_eq|by rewrite lookup_insert_ne].
Qed.

Lemma emit_events_recorded tx_hash c out m st :
  Executes ex_events c 0 out m →
  ∃ st', emit_events_in_call_info tx_hash c 0 st = (m, st') ∧ recorded tx_hash (map event_of out) [] st st'.
Proof.
  intros H. unfold emit_events_in_call_info. erewrite in_call_info_Executes by done.
  eexists. split; [reflexivity|]. clear H. revert st.
  induction out as [|x out IH]; intros st; [apply recorded_nil|].
  change (map event_of (x :: out)) with ([event_of x] ++ map event_of out).
  eapply (recorded_trans _ _ [] _ []); [|apply IH]. clear IH.
  unfold recorded, tx_events, tx_messages, deposit_event. cbn.
  destruct (sys_block_number st =? 0) eqn:Hb; cbn; rewrite ?Hb, ?app_nil_r.
  all: split; [by rewrite lookup_append, decide_True by done|]; split; [done|]; split; [|done].
  all: intros h Hh; split; [|done]; by rewrite lookup_append, decide_False by done.
Qed.

Lemma aggregate_messages_recorded tx_hash c out m st :
  Executes ex_l2_to_l1_messages c 0 out m →
  ∃ st', aggregate_messages_in_call_info tx_hash c 0 st = (m, st') ∧ recorded tx_hash [] (map message_of out) st st'.
Proof.
  intros H. unfold aggregate_messages_in_call_info. erewrite in_call_info_Executes by done.
  eexists. split; [reflexivity|]. clear H. revert st.
  induction out as [|x out IH]; intros st; [apply recorded_nil|].
  change (map message_of (x :: out)) with ([message_of x] ++ map message_of out).
  eapply (recorded_trans _ [] _ [] _); [|apply IH]. clear IH.
  unfold recorded, tx_events, tx_messages. cbn. rewrite ?app_nil_r.
  split; [done|]. split; [by rewrite lookup_append, decide_True by done|]. split; [|by destruct (_ =? 0)].
  intros h Hh. split; [done|]. by rewrite lookup_append, decide_False by done.
Qed.

(** What a call tree produced: its events and its messages. *)
Definition produced (o : option CallInfo) (evs : list (Z * EventContent)) (msgs : list (Z * MessageContent)) : Prop :=
  match o with
  | Some c => (∃ m, Executes ex_events c 0 evs m) ∧ (∃ m, Executes ex_l2_to_l1_messages c 0 msgs m)
  | None => evs = [] ∧ msgs = []
  end.

(** The events and messages of an executed transaction are stored under its hash
    completely and in the order of execution, those of the fee transfer after
    those of the execution; each event is also reported to Substrate; nothing
    else changes. *)
Theorem emitted_in_order tx_hash exec fee evs msgs fee_evs fee_msgs st :
  produced exec evs msgs → produced fee fee_evs fee_msgs →
  recorded tx_hash (map event_of (evs ++ fee_evs)) (map message_of (msgs ++ fee_msgs)) st
    (emit_and_store_tx_and_fees_events tx_hash exec fee st).
Proof.
  intros He Hf. rewrite !map_app. unfold emit_and_store_tx_and_fees_events.
  assert (∀ o e m st, produced o e m →
    recorded tx_hash (map event_of e) (map message_of m) st
      match o with
      | Some call_info =>
          let st := (emit_events_in_call_info tx_hash call_info 0 st).2 in
          (aggregate_messages_in_call_info tx_hash call_info 0 st).2
      | None => st
      end) as Hstep.
  { intros o e m st0 Ho. destruct o as [c|]; [|destruct Ho as [-> ->]; apply recorded_nil].
    destruct Ho as [[k1 H1] [k2 H2]].
    destruct (emit_events_recorded tx_hash c e k1 st0 H1) as (st1 & -> & R1). cbn.
    destruct (aggregate_messages_recorded tx_hash c m k2 st1 H2) as (st2 & -> & R2). cbn.
    rewrite <-(app_nil_r (map event_of e)). exact (recorded_trans _ _ [] [] _ _ _ _ R1 R2). }
  eapply recorded_trans; by apply Hstep.
Qed.
End RecordProperties.

Lemma emitted_in_order_witness :
  recorded (Prog := unit) (V1 := unit) 42
    (map event_of ([(10, example_content 0); (20, example_content 1); (10, example_content 2)] ++ []))
    (map message_of ([(10, {| mc_to_address := 5; mc_payload := [6] |})] ++ []))
    pallet.empty_state (pallet.emit_and_store_tx_and_fees_events 42 (Some example_tree) None pallet.empty_state).
Proof.
  apply emitted_in_order.
  - split; [exists 3%nat; exact example_tree_events|exists 1%nat; exact example_tree_messages].
  - split; reflexivity.
Defined.
