(* ===== verification/Codecs.v ===== *)
(** * Codecs: every value that travels in a digest can be encoded

    [Countable] instances of the transaction, block, state update and class
    types, and from them a concrete instance of the codecs of the digest, with
    which the theorems about the pallet are instantiated. *)

From S2P Require Import Prelude Felt Transactions Broadcast Blocks Db ContractClasses Pallet.

#[global] Instance DataAvailabilityMode_countable : Countable DataAvailabilityMode.
Proof.
  refine (inj_countable' (λ t, match t with DA_L1 => 0 | DA_L2 => 1 end)
    (λ n : Z, match n with 0 => DA_L1 | _ => DA_L2 end) _).
  by intros [].
Defined.
#[global] Instance L1DataAvailabilityMode_countable : Countable L1DataAvailabilityMode.
Proof.
  refine (inj_countable' (λ t, match t with L1DA_Calldata => 0 | L1DA_Blob => 1 end)
    (λ n : Z, match n with 0 => L1DA_Calldata | _ => L1DA_Blob end) _).
  by intros [].
Defined.
#[global] Instance ResourceBounds_countable : Countable ResourceBounds.
Proof.
  refine (inj_countable' (λ r, (max_amount r, max_price_per_unit r))
    (λ '(x0, x1), Build_ResourceBounds x0 x1) _).
  by intros [].
Defined.
#[global] Instance DeclareTransactionV0V1_countable : Countable DeclareTransactionV0V1.
Proof.
  refine (inj_countable' (λ r, (d1_max_fee r, d1_signature r, d1_nonce r, d1_class_hash r, d1_sender_address r))
    (λ '(x0, x1, x2, x3, x4), Build_DeclareTransactionV0V1 x0 x1 x2 x3 x4) _).
  by intros [].
Defined.
#[global] Instance DeclareTransactionV2_countable : Countable DeclareTransactionV2.
Proof.
  refine (inj_countable' (λ r, (d2_max_fee r, d2_signature r, d2_nonce r, d2_class_hash r, d2_compiled_class_hash r, d2_sender_address r))
    (λ '(x0, x1, x2, x3, x4, x5), Build_DeclareTransactionV2 x0 x1 x2 x3 x4 x5) _).
  by intros [].
Defined.
#[global] Instance DeclareTransactionV3_countable : Countable DeclareTransactionV3.
Proof.
  refine (inj_countable' (λ r, (d3_resource_bounds r, d3_tip r, d3_signature r, d3_nonce r, d3_class_hash r, d3_compiled_class_hash r, d3_sender_address r, d3_nonce_data_availability_mode r, d3_fee_data_availability_mode r, d3_paymaster_data r, d3_account_deployment_data r))
    (λ '(x0, x1, x2, x3, x4, x5, x6, x7, x8, x9, x10), Build_DeclareTransactionV3 x0 x1 x2 x3 x4 x5 x6 x7 x8 x9 x10) _).
  by intros [].
Defined.
#[global] Instance DeclareTransaction_countable : Countable DeclareTransaction.
Proof.
  refine (inj_countable' (λ t, match t with Declare_V0 x => inl x | Declare_V1 x => inr (inl x) | Declare_V2 x => inr (inr (inl x)) | Declare_V3 x => inr (inr (inr x)) end)
    (λ s, match s with inl x => Declare_V0 x | inr (inl x) => Declare_V1 x | inr (inr (inl x)) => Declare_V2 x | inr (inr (inr x)) => Declare_V3 x end) _).
  by intros [].
Defined.
#[global] Instance DeployAccountTransactionV1_countable : Countable DeployAccountTransactionV1.
Proof.
  refine (inj_countable' (λ r, (da1_max_fee r, da1_signature r, da1_nonce r, da1_class_hash r, da1_contract_address_salt r, da1_constructor_calldata r))
    (λ '(x0, x1, x2, x3, x4, x5), Build_DeployAccountTransactionV1 x0 x1 x2 x3 x4 x5) _).
  by intros [].
Defined.
#[global] Instance DeployAccountTransactionV3_countable : Countable DeployAccountTransactionV3.
Proof.
  refine (inj_countable' (λ r, (da3_resource_bounds r, da3_tip r, da3_signature r, da3_nonce r, da3_class_hash r, da3_contract_address_salt r, da3_constructor_calldata r, da3_nonce_data_availability_mode r, da3_fee_data_availability_mode r, da3_paymaster_data r))
    (λ '(x0, x1, x2, x3, x4, x5, x6, x7, x8, x9), Build_DeployAccountTransactionV3 x0 x1 x2 x3 x4 x5 x6 x7 x8 x9) _).
  by intros [].
Defined.
#[global] Instance DeployAccountTransaction_countable : Countable DeployAccountTransaction.
Proof.
  refine (inj_countable' (λ t, match t with DeployAccount_V1 x => inl x | DeployAccount_V3 x => inr x end)
    (λ s, match s with inl x => DeployAccount_V1 x | inr x => DeployAccount_V3 x end) _).
  by intros [].
Defined.
#[global] Instance DeployTransaction_countable : Countable DeployTransaction.
Proof.
  refine (inj_countable' (λ r, (dp_version r, dp_class_hash r, dp_contract_address_salt r, dp_constructor_calldata r))
    (λ '(x0, x1, x2, x3), Build_DeployTransaction x0 x1 x2 x3) _).
  by intros [].
Defined.
#[global] Instance InvokeTransactionV0_countable : Countable InvokeTransactionV0.
Proof.
  refine (inj_countable' (λ r, (i0_max_fee r, i0_signature r, i0_contract_address r, i0_entry_point_selector r, i0_calldata r))
    (λ '(x0, x1, x2, x3, x4), Build_InvokeTransactionV0 x0 x1 x2 x3 x4) _).
  by intros [].
Defined.
#[global] Instance InvokeTransactionV1_countable : Countable InvokeTransactionV1.
Proof.
  refine (inj_countable' (λ r, (i1_max_fee r, i1_signature r, i1_nonce r, i1_sender_address r, i1_calldata r))
    (λ '(x0, x1, x2, x3, x4), Build_InvokeTransactionV1 x0 x1 x2 x3 x4) _).
  by intros [].
Defined.
#[global] Instance InvokeTransactionV3_countable : Countable InvokeTransactionV3.
Proof.
  refine (inj_countable' (λ r, (i3_resource_bounds r, i3_tip r, i3_signature r, i3_nonce r, i3_sender_address r, i3_calldata r, i3_nonce_data_availability_mode r, i3_fee_data_availability_mode r, i3_paymaster_data r, i3_account_deployment_data r))
    (λ '(x0, x1, x2, x3, x4, x5, x6, x7, x8, x9), Build_InvokeTransactionV3 x0 x1 x2 x3 x4 x5 x6 x7 x8 x9) _).
  by intros [].
Defined.
#[global] Instance InvokeTransaction_countable : Countable InvokeTransaction.
Proof.
  refine (inj_countable' (λ t, match t with Invoke_V0 x => inl x | Invoke_V1 x => inr (inl x) | Invoke_V3 x => inr (inr x) end)
    (λ s, match s with inl x => Invoke_V0 x | inr (inl x) => Invoke_V1 x | inr (inr x) => Invoke_V3 x end) _).
  by intros [].
Defined.
#[global] Instance L1HandlerTransaction_countable : Countable L1HandlerTransaction.
Proof.
  refine (inj_countable' (λ r, (lh_version r, lh_nonce r, lh_contract_address r, lh_entry_point_selector r, lh_calldata r))
    (λ '(x0, x1, x2, x3, x4), Build_L1HandlerTransaction x0 x1 x2 x3 x4) _).
  by intros [].
Defined.
#[global] Instance Transaction_countable : Countable Transaction.
Proof.
  refine (inj_countable' (λ t, match t with Tx_Declare x => inl x | Tx_Deploy x => inr (inl x) | Tx_DeployAccount x => inr (inr (inl x)) | Tx_Invoke x => inr (inr (inr (inl x))) | Tx_L1Handler x => inr (inr (inr (inr x))) end)
    (λ s, match s with inl x => Tx_Declare x | inr (inl x) => Tx_Deploy x | inr (inr (inl x)) => Tx_DeployAccount x | inr (inr (inr (inl x))) => Tx_Invoke x | inr (inr (inr (inr x))) => Tx_L1Handler x end) _).
  by intros [].
Defined.
#[global] Instance Event_countable : Countable Event.
Proof.
  refine (inj_countable' (λ r, (from_address r, ev_keys r, ev_data r))
    (λ '(x0, x1, x2), Build_Event x0 x1 x2) _).
  by intros [].
Defined.
#[global] Instance GasPrices_countable : Countable GasPrices.
Proof.
  refine (inj_countable' (λ r, (eth_l1_gas_price r, strk_l1_gas_price r, eth_l1_data_gas_price r, strk_l1_data_gas_price r))
    (λ '(x0, x1, x2, x3), Build_GasPrices x0 x1 x2 x3) _).
  by intros [].
Defined.
#[global] Instance Header_countable : Countable Header.
Proof.
  refine (inj_countable' (λ r, (parent_block_hash r, block_number r, global_state_root r, sequencer_address r, block_timestamp r, transaction_count r, transaction_commitment r, event_count r, event_commitment r, protocol_version r, l1_gas_price r, l1_da_mode r, extra_data r))
    (λ '(x0, x1, x2, x3, x4, x5, x6, x7, x8, x9, x10, x11, x12), Build_Header x0 x1 x2 x3 x4 x5 x6 x7 x8 x9 x10 x11 x12) _).
  by intros [].
Defined.
#[global] Instance OrderedEvents_eq_dec : EqDecision OrderedEvents.
Proof. solve_decision. Defined.
#[global] Instance OrderedEvents_countable : Countable OrderedEvents.
Proof.
  refine (inj_countable' (λ r, (oe_index r, oe_events r))
    (λ '(x0, x1), Build_OrderedEvents x0 x1) _).
  by intros [].
Defined.
#[global] Instance DeoxysBlock_eq_dec : EqDecision DeoxysBlock.
Proof. solve_decision. Defined.
#[global] Instance DeoxysBlock_countable : Countable DeoxysBlock.
Proof.
  refine (inj_countable' (λ r, (header r, transactions r, events r))
    (λ '(x0, x1, x2), Build_DeoxysBlock x0 x1 x2) _).
  by intros [].
Defined.
#[global] Instance StorageDiffWrapper_eq_dec : EqDecision StorageDiffWrapper.
Proof. solve_decision. Defined.
#[global] Instance StorageDiffWrapper_countable : Countable StorageDiffWrapper.
Proof.
  refine (inj_countable' (λ r, (sd_key r, sd_value r))
    (λ '(x0, x1), Build_StorageDiffWrapper x0 x1) _).
  by intros [].
Defined.
#[global] Instance DeployedContractWrapper_eq_dec : EqDecision DeployedContractWrapper.
Proof. solve_decision. Defined.
#[global] Instance DeployedContractWrapper_countable : Countable DeployedContractWrapper.
Proof.
  refine (inj_countable' (λ r, (dc_address r, dc_class_hash r))
    (λ '(x0, x1), Build_DeployedContractWrapper x0 x1) _).
  by intros [].
Defined.
#[global] Instance DeclaredContractWrapper_eq_dec : EqDecision DeclaredContractWrapper.
Proof. solve_decision. Defined.
#[global] Instance DeclaredContractWrapper_countable : Countable DeclaredContractWrapper.
Proof.
  refine (inj_countable' (λ r, (decl_class_hash r, decl_compiled_class_hash r))
    (λ '(x0, x1), Build_DeclaredContractWrapper x0 x1) _).
  by intros [].
Defined.
#[global] Instance StateDiffWrapper_eq_dec : EqDecision StateDiffWrapper.
Proof. solve_decision. Defined.
#[global] Instance StateDiffWrapper_countable : Countable StateDiffWrapper.
Proof.
  refine (inj_countable' (λ r, (storage_diffs r, deployed_contracts r, old_declared_contracts r, declared_classes r, nonces r, replaced_classes r))
    (λ '(x0, x1, x2, x3, x4, x5), Build_StateDiffWrapper x0 x1 x2 x3 x4 x5) _).
  by intros [].
Defined.
#[global] Instance StateUpdateWrapper_eq_dec : EqDecision StateUpdateWrapper.
Proof. solve_decision. Defined.
#[global] Instance StateUpdateWrapper_countable : Countable StateUpdateWrapper.
Proof.
  refine (inj_countable' (λ r, (su_block_hash r, su_new_root r, su_old_root r, su_state_diff r))
    (λ '(x0, x1, x2, x3), Build_StateUpdateWrapper x0 x1 x2 x3) _).
  by intros [].
Defined.
#[global] Instance AbiFunctionTypeWrapper_eq_dec : EqDecision AbiFunctionTypeWrapper.
Proof. solve_decision. Defined.
#[global] Instance AbiFunctionTypeWrapper_countable : Countable AbiFunctionTypeWrapper.
Proof.
  refine (inj_countable' (λ t, match t with AFT_Function => 0 | AFT_L1handler => 1 | AFT_Constructor => 2 end)
    (λ n : Z, match n with 0 => AFT_Function | 1 => AFT_L1handler | _ => AFT_Constructor end) _).
  by intros [].
Defined.
#[global] Instance AbiEventTypeWrapper_eq_dec : EqDecision AbiEventTypeWrapper.
Proof. solve_decision. Defined.
#[global] Instance AbiEventTypeWrapper_countable : Countable AbiEventTypeWrapper.
Proof.
  refine (inj_countable' (λ t, match t with AET_Event => 0 end)
    (λ n : Z, match n with _ => AET_Event end) _).
  by intros [].
Defined.
#[global] Instance AbiStructTypeWrapper_eq_dec : EqDecision AbiStructTypeWrapper.
Proof. solve_decision. Defined.
#[global] Instance AbiStructTypeWrapper_countable : Countable AbiStructTypeWrapper.
Proof.
  refine (inj_countable' (λ t, match t with AST_Struct => 0 end)
    (λ n : Z, match n with _ => AST_Struct end) _).
  by intros [].
Defined.
#[global] Instance AbiFunctionStateMutabilityWrapper_eq_dec : EqDecision AbiFunctionStateMutabilityWrapper.
Proof. solve_decision. Defined.
#[global] Instance AbiFunctionStateMutabilityWrapper_countable : Countable AbiFunctionStateMutabilityWrapper.
Proof.
  refine (inj_countable' (λ t, match t with AFSM_View => 0 end)
    (λ n : Z, match n with _ => AFSM_View end) _).
  by intros [].
Defined.
#[global] Instance AbiTypedParameterWrapper_eq_dec : EqDecision AbiTypedParameterWrapper.
Proof. solve_decision. Defined.
#[global] Instance AbiTypedParameterWrapper_countable : Countable AbiTypedParameterWrapper.
Proof.
  refine (inj_countable' (λ r, (atp_name r, atp_type r))
    (λ '(x0, x1), Build_AbiTypedParameterWrapper x0 x1) _).
  by intros [].
Defined.
#[global] Instance AbiStructMemberWrapper_eq_dec : EqDecision AbiStructMemberWrapper.
Proof. solve_decision. Defined.
#[global] Instance AbiStructMemberWrapper_countable : Countable AbiStructMemberWrapper.
Proof.
  refine (inj_countable' (λ r, (asm_name r, asm_type r, asm_offset r))
    (λ '(x0, x1, x2), Build_AbiStructMemberWrapper x0 x1 x2) _).
  by intros [].
Defined.
#[global] Instance AbiFunctionEntryWrapper_eq_dec : EqDecision AbiFunctionEntryWrapper.
Proof. solve_decision. Defined.
#[global] Instance AbiFunctionEntryWrapper_countable : Countable AbiFunctionEntryWrapper.
Proof.
  refine (inj_countable' (λ r, (af_type r, af_name r, af_inputs r, af_outputs r, af_state_mutability r))
    (λ '(x0, x1, x2, x3, x4), Build_AbiFunctionEntryWrapper x0 x1 x2 x3 x4) _).
  by intros [].
Defined.
#[global] Instance AbiEventEntryWrapper_eq_dec : EqDecision AbiEventEntryWrapper.
Proof. solve_decision. Defined.
#[global] Instance AbiEventEntryWrapper_countable : Countable AbiEventEntryWrapper.
Proof.
  refine (inj_countable' (λ r, (ae_type r, ae_name r, ae_keys r, ae_data r))
    (λ '(x0, x1, x2, x3), Build_AbiEventEntryWrapper x0 x1 x2 x3) _).
  by intros [].
Defined.
#[global] Instance AbiStructEntryWrapper_eq_dec : EqDecision AbiStructEntryWrapper.
Proof. solve_decision. Defined.
#[global] Instance AbiStructEntryWrapper_countable : Countable AbiStructEntryWrapper.
Proof.
  refine (inj_countable' (λ r, (as_type r, as_name r, as_size r, as_members r))
    (λ '(x0, x1, x2, x3), Build_AbiStructEntryWrapper x0 x1 x2 x3) _).
  by intros [].
Defined.
#[global] Instance AbiEntryWrapper_eq_dec : EqDecision AbiEntryWrapper.
Proof. solve_decision. Defined.
#[global] Instance AbiEntryWrapper_countable : Countable AbiEntryWrapper.
Proof.
  refine (inj_countable' (λ t, match t with AbiEntry_Function x => inl x | AbiEntry_Event x => inr (inl x) | AbiEntry_Struct x => inr (inr x) end)
    (λ s, match s with inl x => AbiEntry_Function x | inr (inl x) => AbiEntry_Event x | inr (inr x) => AbiEntry_Struct x end) _).
  by intros [].
Defined.
#[global] Instance ContractAbi_eq_dec : EqDecision ContractAbi.
Proof. solve_decision. Defined.
#[global] Instance ContractAbi_countable : Countable ContractAbi.
Proof.
  refine (inj_countable' (λ t, match t with ContractAbi_Sierra x => inl x | ContractAbi_Cairo x => inr x end)
    (λ s, match s with inl x => ContractAbi_Sierra x | inr x => ContractAbi_Cairo x end) _).
  by intros [].
Defined.

(** Classes with no program: what the witnesses store. *)
#[global] Instance EntryPoint_eq_dec : EqDecision EntryPoint.
Proof. solve_decision. Defined.
#[global] Instance EntryPoint_countable : Countable EntryPoint.
Proof.
  refine (inj_countable' (λ r, (ep_selector r, ep_offset r)) (λ '(x, y), Build_EntryPoint x y) _).
  by intros [].
Defined.

Section Classes.
Context {Prog V1 : Type} `{Countable Prog, Countable V1}.
#[global] Instance ContractClass_eq_dec : EqDecision (ContractClass Prog V1).
Proof. solve_decision. Defined.
#[global] Instance ContractClass_countable : Countable (ContractClass Prog V1).
Proof.
  refine (inj_countable'
    (λ c, match c with ContractClass_V0 p e => inl (p, e) | ContractClass_V1 v => inr v end)
    (λ s, match s with inl (p, e) => ContractClass_V0 p e | inr v => ContractClass_V1 v end) _).
  by intros [].
Defined.
#[global] Instance ContractClassWrapper_eq_dec : EqDecision (ContractClassWrapper Prog V1).
Proof. solve_decision. Defined.
#[global] Instance ContractClassWrapper_countable : Countable (ContractClassWrapper Prog V1).
Proof.
  refine (inj_countable' (λ c, (ccw_contract c, ccw_abi c)) (λ '(x, y), Build_ContractClassWrapper _ _ x y) _).
  by intros [].
Defined.
#[global] Instance ContractClassData_eq_dec : EqDecision (ContractClassData Prog V1).
Proof. solve_decision. Defined.
#[global] Instance ContractClassData_countable : Countable (ContractClassData Prog V1).
Proof.
  refine (inj_countable' (λ c, (ccd_hash c, ccd_contract_class c)) (λ '(x, y), Build_ContractClassData _ _ x y) _).
  by intros [].
Defined.
#[global] Instance ClassUpdateWrapper_eq_dec : EqDecision (ClassUpdateWrapper Prog V1).
Proof. solve_decision. Defined.
#[global] Instance ClassUpdateWrapper_countable : Countable (ClassUpdateWrapper Prog V1).
Proof.
  refine (inj_countable' class_updates (Build_ClassUpdateWrapper _ _) _).
  by intros [].
Defined.

Definition digest_codecs_model : DigestCodecs Prog V1 := {|
  enc_block := enc1; dec_block := dec1;
  enc_state_update := enc1; dec_state_update := dec1;
  enc_class_update := enc1; dec_class_update := dec1;
  enc_log l := match l with Log_Block b => enc1 b end;
  dec_log bs := Log_Block <$> dec1 bs;
|}.

#[global] Instance digest_codecs_model_spec : DigestCodecsSpec digest_codecs_model.
Proof.
  split; intros; simpl; try apply dec1_enc1.
  destruct l as [b]. by rewrite dec1_enc1.
Qed.
End Classes.

(** ** Witnesses for the pallet *)

Definition unit_codecs : DigestCodecs unit unit := digest_codecs_model.
Definition unit_codecs_spec : DigestCodecsSpec unit_codecs := digest_codecs_model_spec.

Definition example_address : bytes := replicate 31 0 ++ [77].
Definition example_new_block : DeoxysBlock :=
  {| header := {| parent_block_hash := 1; block_number := 2; global_state_root := 3; sequencer_address := 77;
       block_timestamp := 5; transaction_count := 0; transaction_commitment := 0; event_count := 0;
       event_commitment := 0; protocol_version := 0; l1_gas_price := None; l1_da_mode := L1DA_Calldata;
       extra_data := Some 99 |};
     transactions := []; events := [] |}.
Definition example_state_update : StateUpdateWrapper :=
  {| su_block_hash := Some 99; su_new_root := Some 3; su_old_root := 2;
     su_state_diff := {| storage_diffs := []; deployed_contracts := [{| dc_address := 10; dc_class_hash := 20 |}];
       old_declared_contracts := []; declared_classes := [{| decl_class_hash := 20; decl_compiled_class_hash := 30 |}];
       nonces := [(10, 1)]; replaced_classes := [{| dc_address := 10; dc_class_hash := 21 |}] |} |}.
Definition example_class_update : ClassUpdateWrapper unit unit :=
  {| class_updates := [{| ccd_hash := 20;
       ccd_contract_class := {| ccw_contract := ContractClass_V1 tt; ccw_abi := ContractAbi_Sierra [91; 93] |} |}] |}.

(** The state after the genesis and a first block without Starknet data. *)
Definition example_genesis : PalletState unit unit :=
  pallet.genesis_build pallet.empty_state
    {| pallet.g_contracts := [(1, 2)]; pallet.g_sierra_to_casm_class_hash := []; pallet.g_storage := [];
       pallet.g_strk_fee_token_address := 4; pallet.g_eth_fee_token_address := 5 |}.
Definition example_block1 : Outcome PalletError (PalletState unit unit) :=
  pallet.execute_block (dc := unit_codecs) example_genesis 1 [Other [1]] [example_address].

Lemma example_chain : ∃ st, example_block1 = Ok st ∧ Chain (dc := unit_codecs) 1 st.
Proof.
  assert (is_ok example_block1 = true) as Hok by (vm_compute; reflexivity).
  destruct example_block1 as [st| |] eqn:E; [|discriminate Hok..].
  exists st. split; [done|].
  eapply (Chain_block 0); [apply Chain_genesis|exact E].
Defined.

Lemma block_import_witness : ∃ digest st',
  pallet.execute_block (dc := unit_codecs) example_genesis 1 digest [example_address] = Ok st' ∧
  find_starknet_block (items := digest_items (dc := unit_codecs)) (sys_digest st') = Ok example_new_block ∧
  pallet.sequencer_address st' = be_decode example_address.
Proof.
  destruct (block_import (dc := unit_codecs) (Hdc := unit_codecs_spec) example_genesis 1
    example_address example_new_block example_state_update example_class_update 99 [] [] [])
    as (d & st' & _ & He & Hf & _ & _ & _ & _ & _ & _ & Hs & _).
  - left. lia.
  - reflexivity.
  - repeat constructor; lia.
  - vm_compute. reflexivity.
  - reflexivity.
  - vm_compute. split; congruence.
  - exists d, st'. split; [exact He|]. split; [exact Hf|exact Hs].
Defined.

Lemma pallet_invariant_witness : ∃ st, example_block1 = Ok st ∧
  dom (ContractClasses st) = dom (ContractAbis st) ∧ SeqAddrUpdate st = None.
Proof.
  destruct example_chain as (st & He & Hc). exists st. split; [exact He|].
  destruct (pallet_invariant (dc := unit_codecs) 1 st Hc) as (Hd & _ & _ & _ & Hu). split; [exact Hd|exact Hu].
Defined.

Lemma sequencer_set_once_witness : ∃ st, example_block1 = Ok st ∧
  pallet.execute_block (dc := unit_codecs) st 2 [Other [1]] [example_address; example_address] = Panic.
Proof.
  destruct example_chain as (st & He & Hc). exists st. split; [exact He|].
  refine (sequencer_set_once (dc := unit_codecs) 1 st [Other [1]] [example_address; example_address] Hc _ _).
  - lia.
  - repeat constructor; lia.
Defined.
