(* ===== verification/StateAdapter.v ===== *)
(** * StateAdapter: the state the blockifier executes on
    ([pallets/starknet/src/blockifier_state_adapter.rs])

    The adapter reads the pallet's storage and the storage trie, and keeps every
    write in maps of its own that are dropped after the execution. *)

From S2P Require Import Prelude Felt Transactions Broadcast Blocks Tries Commitments ContractClasses Pallet.

(** [Nonce::try_increment] of starknet_api. *)
Class NonceLibs := Nonce_try_increment : Z → option Z.
Class NonceLibsSpec (nl : NonceLibs) : Prop :=
  try_increment_ok x : is_felt x → Nonce_try_increment x = if x + 1 <? P then Some (x + 1) else None.

Inductive StateError := StateReadError | UndeclaredClassHash (class_hash : Z) | StarknetApiError.

Record BlockifierStateAdapter (Prog V1 : Type) := {
  storage_update : gmap (Z * Z) Z;
  nonce_update : gmap Z Z;
  class_hash_update : gmap Z Z;
  compiled_class_hash_update : gmap Z Z;
  contract_class_update : gmap Z (ContractClass Prog V1);
  visited_pcs : gmap Z (gset Z);
}.
Arguments storage_update {Prog V1}. Arguments nonce_update {Prog V1}. Arguments class_hash_update {Prog V1}.
Arguments compiled_class_hash_update {Prog V1}. Arguments contract_class_update {Prog V1}.
Arguments visited_pcs {Prog V1}.

Module adapter.
Section Adapter.
Context {Prog V1 BP BC : Type} `{btp : BonsaiTrie BP} `{btc : BonsaiTrie BC} `{nl : NonceLibs}.
(** The chain's state during the execution. *)
Variable st : PalletState Prog V1.
Variable tries : Tries BP BC.

Abbreviation A := (BlockifierStateAdapter Prog V1).
Abbreviation M := (Outcome StateError).

Definition default_ : A := {|
  storage_update := ∅; nonce_update := ∅; class_hash_update := ∅; compiled_class_hash_update := ∅;
  contract_class_update := ∅; visited_pcs := ∅ |}.

(** [StateReader] *)

(** [StorageHandler::contract_storage_mut(..).unwrap().get(..)] *)
Definition read_trie (contract_address key : Z) : M Z :=
  _ ← unwrap (contract_storage_mut tries (BlockId_Number (sys_block_number st)));
  match ContractStorageTrie_get tries contract_address key with
  | Ok (Some value) => Ok value
  | Ok None => Ok 0
  | Err _ => Err StateReadError
  | Panic => Panic
  end.

Definition get_storage_at (self : A) (contract_address key : Z) : M Z :=
  match storage_update self !! (contract_address, key) with
  | Some value => Ok value
  | None => read_trie contract_address key
  end.

Definition get_nonce_at (self : A) (contract_address : Z) : M Z :=
  Ok (match nonce_update self !! contract_address with
      | Some nonce => nonce
      | None => pallet.nonce st contract_address
      end).

Definition get_class_hash_at (self : A) (contract_address : Z) : M Z :=
  Ok (match class_hash_update self !! contract_address with
      | Some class_hash => class_hash
      | None => pallet.contract_class_hash_by_address st contract_address
      end).

Definition get_compiled_contract_class (self : A) (class_hash : Z) : M (ContractClass Prog V1) :=
  match contract_class_update self !! class_hash with
  | Some contract_class => Ok contract_class
  | None => ok_or (UndeclaredClassHash class_hash) (pallet.contract_class_by_class_hash st class_hash)
  end.

Definition get_compiled_class_hash (self : A) (class_hash : Z) : M Z :=
  match compiled_class_hash_update self !! class_hash with
  | Some compiled_class_hash => Ok compiled_class_hash
  | None => ok_or (UndeclaredClassHash class_hash) (pallet.compiled_class_hash_by_class_hash st class_hash)
  end.

(** [State] *)

Definition set_storage_at (self : A) (contract_address key value : Z) : M A :=
  Ok {| storage_update := <[(contract_address, key) := value]> (storage_update self);
        nonce_update := nonce_update self; class_hash_update := class_hash_update self;
        compiled_class_hash_update := compiled_class_hash_update self;
        contract_class_update := contract_class_update self; visited_pcs := visited_pcs self |}.

Definition increment_nonce (self : A) (contract_address : Z) : M A :=
  current ← get_nonce_at self contract_address;
  nonce ← ok_or StarknetApiError (Nonce_try_increment current);
  Ok {| storage_update := storage_update self;
        nonce_update := <[contract_address := nonce]> (nonce_update self);
        class_hash_update := class_hash_update self;
        compiled_class_hash_update := compiled_class_hash_update self;
        contract_class_update := contract_class_update self; visited_pcs := visited_pcs self |}.

Definition set_class_hash_at (self : A) (contract_address class_hash : Z) : M A :=
  Ok {| storage_update := storage_update self; nonce_update := nonce_update self;
        class_hash_update := <[contract_address := class_hash]> (class_hash_update self);
        compiled_class_hash_update := compiled_class_hash_update self;
        contract_class_update := contract_class_update self; visited_pcs := visited_pcs self |}.

Definition set_contract_class (self : A) (class_hash : Z) (contract_class : ContractClass Prog V1) : M A :=
  Ok {| storage_update := storage_update self; nonce_update := nonce_update self;
        class_hash_update := class_hash_update self;
        compiled_class_hash_update := compiled_class_hash_update self;
        contract_class_update := <[class_hash := contract_class]> (contract_class_update self);
        visited_pcs := visited_pcs self |}.

Definition set_compiled_class_hash (self : A) (class_hash compiled_class_hash : Z) : M A :=
  Ok {| storage_update := storage_update self; nonce_update := nonce_update self;
        class_hash_update := class_hash_update self;
        compiled_class_hash_update := <[class_hash := compiled_class_hash]> (compiled_class_hash_update self);
        contract_class_update := contract_class_update self; visited_pcs := visited_pcs self |}.

Definition add_visited_pcs (self : A) (class_hash : Z) (pcs : gset Z) : A :=
  {| storage_update := storage_update self; nonce_update := nonce_update self;
     class_hash_update := class_hash_update self;
     compiled_class_hash_update := compiled_class_hash_update self;
     contract_class_update := contract_class_update self;
     visited_pcs := <[class_hash := default ∅ (visited_pcs self !! class_hash) ∪ pcs]> (visited_pcs self) |}.

End Adapter.
End adapter.

(** ** A sequence of writes, and what can be read after it *)

Inductive StateOp (Prog V1 : Type) :=
| OpStorage (contract_address key value : Z)
| OpNonce (contract_address : Z)
| OpClassHash (contract_address class_hash : Z)
| OpClass (class_hash : Z) (contract_class : ContractClass Prog V1)
| OpCompiled (class_hash compiled_class_hash : Z)
| OpVisited (class_hash : Z) (pcs : gset Z).
Arguments OpStorage {Prog V1}. Arguments OpNonce {Prog V1}. Arguments OpClassHash {Prog V1}.
Arguments OpClass {Prog V1}. Arguments OpCompiled {Prog V1}. Arguments OpVisited {Prog V1}.

Section AdapterSpec.
Context {Prog V1 BP BC : Type} `{btp : BonsaiTrie BP} `{btc : BonsaiTrie BC} `{nl : NonceLibs}.
Context {Hnl : NonceLibsSpec nl}.
Variable st : PalletState Prog V1.
Variable tries : Tries BP BC.
Abbreviation A := (BlockifierStateAdapter Prog V1).
Abbreviation Op := (StateOp Prog V1).

Definition apply_op (a : A) (op : Op) : Outcome StateError A :=
  match op with
  | OpStorage c k v => adapter.set_storage_at a c k v
  | OpNonce c => adapter.increment_nonce st a c
  | OpClassHash c h => adapter.set_class_hash_at a c h
  | OpClass h c => adapter.set_contract_class a h c
  | OpCompiled h k => adapter.set_compiled_class_hash a h k
  | OpVisited h p => Ok (adapter.add_visited_pcs a h p)
  end.
Definition apply_ops (ops : list Op) : Outcome StateError A := foldM apply_op adapter.default_ ops.

(** The last write of each kind to a key, and the increments of a nonce. *)
Definition last_storage (ops : list Op) (c k : Z) : option Z :=
  last (omap (λ op, match op with
                    | OpStorage c' k' v => if decide ((c', k') = (c, k)) then Some v else None
                    | _ => None end) ops).
Definition last_class_hash (ops : list Op) (c : Z) : option Z :=
  last (omap (λ op, match op with
                    | OpClassHash c' h => if decide (c' = c) then Some h else None | _ => None end) ops).
Definition last_class (ops : list Op) (h : Z) : option (ContractClass Prog V1) :=
  last (omap (λ op, match op with OpClass h' c => if decide (h' = h) then Some c else None | _ => None end) ops).
Definition last_compiled (ops : list Op) (h : Z) : option Z :=
  last (omap (λ op, match op with OpCompiled h' k => if decide (h' = h) then Some k else None | _ => None end) ops).
Definition increments (ops : list Op) (c : Z) : Z :=
  Z.of_nat (length (omap (λ op, match op with
    | OpNonce c' => if decide (c' = c) then Some tt else None | _ => None end) ops)).

Lemma omap_snoc {X Y} (f : X → option Y) l x :
  omap f (l ++ [x]) = omap f l ++ match f x with Some y => [y] | None => [] end.
Proof. rewrite omap_app. f_equal. Qed.

Lemma last_omap_snoc {X Y} (f : X → option Y) l x :
  last (omap f (l ++ [x])) = match f x with Some y => Some y | None => last (omap f l) end.
Proof. rewrite omap_snoc. destruct (f x); [apply last_snoc|by rewrite app_nil_r]. Qed.

Definition wf_nonces : Prop := ∀ c, is_felt (pallet.nonce st c).

(** The maps of the adapter hold the last writes. *)
Record tracks (ops : list Op) (a : A) : Prop := {
  t_storage c k : storage_update a !! (c, k) = last_storage ops c k;
  t_class_hash c : class_hash_update a !! c = last_class_hash ops c;
  t_classes h : contract_class_update a !! h = last_class ops h;
  t_compiled h : compiled_class_hash_update a !! h = last_compiled ops h;
  t_nonce c : match nonce_update a !! c with
              | Some n => n = pallet.nonce st c + increments ops c ∧ is_felt n
              | None => increments ops c = 0
              end;
}.

Lemma tracks_nonce ops a c : wf_nonces → tracks ops a →
  adapter.get_nonce_at st a c = Ok (pallet.nonce st c + increments ops c)
  ∧ is_felt (pallet.nonce st c + increments ops c).
Proof.
  intros Hwf H. pose proof (t_nonce _ _ H c) as Hc. unfold adapter.get_nonce_at.
  destruct (nonce_update a !! c); [destruct Hc as [-> ?]; done|].
  rewrite Hc, Z.add_0_r. split; [done|apply Hwf].
Qed.

Lemma increments_snoc ops op c :
  increments (ops ++ [op]) c = increments ops c + match op with OpNonce c' => if decide (c' = c) then 1 else 0 | _ => 0 end.
Proof.
  unfold increments. rewrite omap_snoc, length_app, Nat2Z.inj_add. f_equal.
  destruct op; try done. by case_decide.
Qed.

Ltac last_write :=
  unfold last_storage, last_class_hash, last_class, last_compiled in *; rewrite last_omap_snoc; simpl.

Lemma tracks_step ops a op a' :
  wf_nonces → tracks ops a → apply_op a op = Ok a' → tracks (ops ++ [op]) a'.
Proof.
  intros Hwf H Hop.
  assert (∀ c, increments (ops ++ [op]) c = increments ops c →
    match nonce_update a !! c with
    | Some n => n = pallet.nonce st c + increments (ops ++ [op]) c ∧ is_felt n
    | None => increments (ops ++ [op]) c = 0 end) as Hsame
    by (intros c ->; apply (t_nonce _ _ H)).
  destruct op as [c k v|c|c h|h c|h k|h p]; simpl in Hop.
  2: { destruct (tracks_nonce ops a c Hwf H) as [Hn Hf]. unfold adapter.increment_nonce in Hop.
       rewrite Hn in Hop. simpl in Hop. rewrite try_increment_ok in Hop by done.
       destruct (Z.ltb_spec (pallet.nonce st c + increments ops c + 1) P) as [Hlt|]; simpl in Hop; [|discriminate].
       injection Hop as <-. split; simpl; intros; try (last_write; apply H).
       rewrite increments_snoc. destruct (decide (c = c0)) as [<-|Hne].
       - rewrite lookup_insert_eq. unfold is_felt in *. split; lia.
       - rewrite lookup_insert_ne, Z.add_0_r by done. apply (t_nonce _ _ H). }
  all: injection Hop as <-; split; simpl; intros;
    try (last_write; apply H); try (apply Hsame; rewrite increments_snoc; lia).
  all: last_write; case_decide as Heq; simplify_eq; [by rewrite lookup_insert_eq|].
  all: rewrite lookup_insert_ne by congruence; apply H.
Qed.

Lemma tracks_default : tracks [] adapter.default_.
Proof. split; intros; simpl; by rewrite ?lookup_empty. Qed.

Lemma apply_ops_tracks ops a : wf_nonces → apply_ops ops = Ok a → tracks ops a.
Proof.
  intros Hwf. revert a. induction ops as [|op ops IH] using rev_ind; intros a.
  - intros [= <-]. apply tracks_default.
  - unfold apply_ops. rewrite foldM_app. intros H.
    destruct (foldM apply_op adapter.default_ ops) as [a0| |] eqn:E; simpl in H; try discriminate H.
    destruct (apply_op a0 op) as [a1| |] eqn:E1; simpl in H; try discriminate H. injection H as <-.
    eapply tracks_step; [done|by apply IH|done].
Qed.

(** C13: After any sequence of writes the blockifier reads what was written last and,
    where nothing was written, what the chain holds; a nonce has grown by the
    number of its increments; an undeclared class is an error.  Writes fail only
    when a nonce reaches the end of the field. *)
Theorem adapter_reads_last_write ops :
  wf_nonces →
  (∀ a, apply_ops ops = Ok a →
    (∀ c k, adapter.get_storage_at st tries a c k =
       match last_storage ops c k with Some v => Ok v | None => adapter.read_trie st tries c k end) ∧
    (∀ c, adapter.get_nonce_at st a c = Ok (pallet.nonce st c + increments ops c)) ∧
    (∀ c, adapter.get_class_hash_at st a c =
       Ok (match last_class_hash ops c with Some h => h | None => pallet.contract_class_hash_by_address st c end)) ∧
    (∀ h, adapter.get_compiled_contract_class st a h =
       match last_class ops h with
       | Some c => Ok c
       | None => ok_or (UndeclaredClassHash h) (ContractClasses st !! h) end) ∧
    (∀ h, adapter.get_compiled_class_hash st a h =
       match last_compiled ops h with
       | Some k => Ok k
       | None => ok_or (UndeclaredClassHash h) (CompiledClassHashes st !! h) end)) ∧
  ((∀ c, pallet.nonce st c + increments ops c < P) → ∃ a, apply_ops ops = Ok a).
Proof.
  intros Hwf. split.
  - intros a Ha. apply apply_ops_tracks in Ha as H; [|done].
    split; [intros; unfold adapter.get_storage_at; by rewrite (t_storage _ _ H)|].
    split; [intros; by apply tracks_nonce|].
    split; [intros; unfold adapter.get_class_hash_at; by rewrite (t_class_hash _ _ H)|].
    split; intros.
    + unfold adapter.get_compiled_contract_class. by rewrite (t_classes _ _ H).
    + unfold adapter.get_compiled_class_hash. by rewrite (t_compiled _ _ H).
  - induction ops as [|op ops IH] using rev_ind; intros Hlt; [by eexists|].
    destruct IH as [a Ha].
    { intros c. specialize (Hlt c). rewrite increments_snoc in Hlt. destruct op; try lia. case_decide; lia. }
    apply apply_ops_tracks in Ha as H; [|done].
    unfold apply_ops in *. rewrite foldM_app, Ha. simpl.
    destruct op as [c k v|c|c h|h c|h k|h p]; simpl; try by eexists.
    destruct (tracks_nonce ops a c Hwf H) as [Hn Hf].
    unfold adapter.increment_nonce. rewrite Hn. simpl. rewrite try_increment_ok by done.
    specialize (Hlt c). rewrite increments_snoc, decide_True in Hlt by done.
    rewrite (proj2 (Z.ltb_lt _ _)) by lia. by eexists.
Qed.
End AdapterSpec.

(** ** Witness *)

Definition nonce_model : NonceLibs := λ x, if x + 1 <? P then Some (x + 1) else None.
Definition nonce_model_spec : NonceLibsSpec nonce_model.
Proof. by intros x Hx. Defined.

Definition example_ops : list (StateOp unit unit) :=
  [OpStorage 1 2 3; OpNonce 7; OpStorage 1 2 4; OpClass 5 (ContractClass_V1 tt); OpNonce 7].

Lemma adapter_reads_last_write_witness :
  ∃ a, apply_ops (nl := nonce_model) (pallet.empty_state : PalletState unit unit) example_ops = Ok a ∧
    adapter.get_storage_at (btp := trie_model) (BC := TrieModel) pallet.empty_state tries_empty a 1 2 = Ok 4 ∧
    adapter.get_nonce_at pallet.empty_state a 7 = Ok 2.
Proof.
  destruct (adapter_reads_last_write (nl := nonce_model) (Hnl := nonce_model_spec) (btp := trie_model)
    (pallet.empty_state : PalletState unit unit) tries_empty example_ops) as [Hr Hok].
  { intros c. vm_compute. split; congruence. }
  destruct Hok as [a Ha].
  { intros c. unfold example_ops, increments. cbn. case_decide; vm_compute; reflexivity. }
  destruct (Hr a Ha) as (Hs & Hn & _). exists a. split; [exact Ha|].
  split; [exact (Hs 1 2)|exact (Hn 7)].
Defined.
