(* ===== verification/Simulations.v ===== *)
(** * Simulations: fee estimation, simulation and re-execution
    ([pallets/starknet/src/simulations.rs], [call_contract] of its [lib.rs], and
    [primitives/simulations])

    The blockifier executes transactions; the pallet chooses the state, the
    flags and the order, and turns the results into estimates.  The blockifier is
    the class [Blockifier]: its cached state, its executor and its fee functions. *)

From S2P Require Import Prelude Felt Hashers Transactions Broadcast Blocks Tries CallInfo.
From S2P Require Import ContractClasses Pallet StateAdapter.

(** ** Flags (primitives/simulations) *)

Inductive SimulationFlag := SkipValidate | SkipFeeCharge.
Inductive EstimateFeeFlag := EstimateSkipValidate.
Record SimulationFlags := { validate : bool; charge_fee : bool }.
Record SimulationFlagForEstimateFee := { skip_validate : bool }.

#[global] Instance SimulationFlag_eq_dec : EqDecision SimulationFlag.
Proof. solve_decision. Defined.
#[global] Instance SimulationFlags_eq_dec : EqDecision SimulationFlags.
Proof. solve_decision. Defined.

Definition SimulationFlags_default : SimulationFlags := {| validate := true; charge_fee := true |}.
Definition SimulationFlagForEstimateFee_default : SimulationFlagForEstimateFee := {| skip_validate := true |}.

Fixpoint flags_loop (flags : list SimulationFlag) (flags_out : SimulationFlags) : SimulationFlags :=
  match flags with
  | [] => flags_out
  | flag :: flags =>
      let flags_out := match flag with
                       | SkipValidate => {| validate := false; charge_fee := charge_fee flags_out |}
                       | SkipFeeCharge => {| validate := validate flags_out; charge_fee := false |}
                       end in
      if negb (validate flags_out) && negb (charge_fee flags_out) then flags_out else flags_loop flags flags_out
  end.
Definition SimulationFlags_from (flags : list SimulationFlag) : SimulationFlags :=
  flags_loop flags SimulationFlags_default.

Definition convert_flags (flags : list EstimateFeeFlag) : list SimulationFlagForEstimateFee :=
  map (λ flag, match flag with EstimateSkipValidate => {| skip_validate := false |} end) flags.

(** The loop that stops early computes which flags are absent. *)
Lemma SimulationFlags_from_spec flags :
  SimulationFlags_from flags =
    {| validate := bool_decide (SkipValidate ∉ flags); charge_fee := bool_decide (SkipFeeCharge ∉ flags) |}.
Proof.
  unfold SimulationFlags_from.
  assert (∀ f, flags_loop flags f =
    {| validate := validate f && bool_decide (SkipValidate ∉ flags);
       charge_fee := charge_fee f && bool_decide (SkipFeeCharge ∉ flags) |}) as ->; [|done].
  assert (∀ (x y : SimulationFlag) l, bool_decide (x ∉ y :: l) = bool_decide (x ≠ y) && bool_decide (x ∉ l)) as Hcons.
  { intros x y l. rewrite <-bool_decide_and. apply bool_decide_ext, not_elem_of_cons. }
  induction flags as [|x flags IH]; intros [v c]; cbn [flags_loop].
  - rewrite (bool_decide_true (SkipValidate ∉ [])), (bool_decide_true (SkipFeeCharge ∉ [])) by apply not_elem_of_nil.
    by destruct v, c.
  - rewrite !Hcons, IH. by destruct x, v, c.
Qed.

(** ** Execution results *)

Record GasVector := { gv_l1_gas : Z; gv_l1_data_gas : Z }.
Record TransactionExecutionInfo := {
  ti_validate_call_info : option CallInfo;
  ti_execute_call_info : option CallInfo;
  ti_fee_transfer_call_info : option CallInfo;
  ti_actual_fee : Z;
  ti_da_gas : GasVector;
  ti_actual_resources : gmap string Z;
  ti_revert_error : option bytes;
}.
Inductive FeeType := Fee_Strk | Fee_Eth.
Inductive PriceUnit := Wei | Fri.
Record FeeEstimate := {
  fe_gas_consumed : Z;
  fe_gas_price : Z;
  fe_data_gas_consumed : Z;
  fe_data_gas_price : Z;
  fe_overall_fee : Z;
  fe_unit : PriceUnit;
}.
Inductive PlaceHolderErrorTypeForFailedStarknetExecution := PlaceHolderError.

Class Blockifier (CS Info C X Prog V1 BP BC : Type) := {
  CachedState_new : PalletState Prog V1 → Tries BP BC → BlockifierStateAdapter Prog V1 → CS;
  tx_execute : ExecTransaction Info → CS → BlockContext C → (* charge_fee *) bool → (* validate *) bool →
    Outcome X (TransactionExecutionInfo * CS);
  calculate_tx_fee : gmap string Z → BlockContext C → FeeType → Outcome X Z;
  estimate_minimal_gas_vector : BlockContext C → AccountTransaction Info → Outcome X GasVector;
  tx_fee_type : ExecTransaction Info → FeeType;
  latest_constants : C;
  tx_initial_gas : C → Z;
  (* [EntryPointExecutionContext::new_invoke] and [CallEntryPoint::execute] *)
  new_invoke_context : BlockContext C → bool;
  entry_point_execute : CallEntryPoint → PalletState Prog V1 → Tries BP BC → BlockContext C → Outcome X CallInfo;
}.

(** Errors of [execute_fee_transaction]. *)
Inductive FeeError := TransactionReverted | ExecutionError.

Section Simulations.
Context {CS Info C X Prog V1 BP BC : Type} `{bf : Blockifier CS Info C X Prog V1 BP BC}.
Context `{cfg : PalletConfig} `{libs : FeltLibs}.
Variable st : PalletState Prog V1.
Variable tries : Tries BP BC.
(** Whether a nested storage transaction can be opened. *)
Variable transactional : bool.

Abbreviation M := (Outcome PalletError).

Definition no_error {E A} (m : Outcome Empty_set A) : Outcome E A := map_err (Empty_set_rect (λ _, E)) m.

Definition init_cached_state : CS := CachedState_new st tries adapter.default_.
Definition block_context : BlockContext C := pallet.get_block_context latest_constants st.

(** [with_transaction(|| Rollback(Ok(inner)))]: the storage is restored, the
    result kept. *)
Definition with_rollback {A} (inner : M A) : M A :=
  if transactional then inner else Err FailedToCreateATransactionalStorageExecution.

Definition unit_of (fee_type : FeeType) : PriceUnit := match fee_type with Fee_Strk => Fri | Fee_Eth => Wei end.
Definition get_gas_price_by_fee_type (p : GasPrices) (fee_type : FeeType) : Z :=
  match fee_type with Fee_Strk => strk_l1_gas_price p | Fee_Eth => eth_l1_gas_price p end.
Definition get_data_gas_price_by_fee_type (p : GasPrices) (fee_type : FeeType) : Z :=
  match fee_type with Fee_Strk => strk_l1_data_gas_price p | Fee_Eth => eth_l1_data_gas_price p end.

Definition from_tx_info_and_gas_price (tx_info : TransactionExecutionInfo) (gas_price data_gas_price : Z)
    (unit : PriceUnit) (minimal_l1_gas_amount_vector : GasVector) : Outcome Empty_set FeeEstimate :=
  let data_gas_consumed := gv_l1_data_gas (ti_da_gas tx_info) in
  let data_gas_fee := sat_mul128 data_gas_consumed data_gas_price in
  let gas_consumed := sat_sub128 (ti_actual_fee tx_info) data_gas_fee / Z.max gas_price 1 in
  let minimal_gas_consumed := gv_l1_gas minimal_l1_gas_amount_vector in
  let minimal_data_gas_consumed := gv_l1_data_gas minimal_l1_gas_amount_vector in
  let gas_consumed := Z.max gas_consumed minimal_gas_consumed in
  let data_gas_consumed := Z.max data_gas_consumed minimal_data_gas_consumed in
  let overall_fee := sat_add128 (sat_mul128 gas_consumed gas_price) (sat_mul128 data_gas_consumed data_gas_price) in
  gc ← Felt252Wrapper.from_u128 gas_consumed;
  gp ← Felt252Wrapper.from_u128 gas_price;
  dc ← Felt252Wrapper.from_u128 data_gas_consumed;
  dp ← Felt252Wrapper.from_u128 data_gas_price;
  ov ← Felt252Wrapper.from_u128 overall_fee;
  Ok {| fe_gas_consumed := gc; fe_gas_price := gp; fe_data_gas_consumed := dc; fe_data_gas_price := dp;
        fe_overall_fee := ov; fe_unit := unit |}.

Definition with_actual_fee (tx_info : TransactionExecutionInfo) (fee : Z) : TransactionExecutionInfo :=
  {| ti_validate_call_info := ti_validate_call_info tx_info; ti_execute_call_info := ti_execute_call_info tx_info;
     ti_fee_transfer_call_info := ti_fee_transfer_call_info tx_info; ti_actual_fee := fee;
     ti_da_gas := ti_da_gas tx_info; ti_actual_resources := ti_actual_resources tx_info;
     ti_revert_error := ti_revert_error tx_info |}.

(** A transaction that was not charged gets the fee computed from its resources. *)
Definition executed_for_fee (transaction : AccountTransaction Info) (block_context : BlockContext C)
    (simulation_flags : SimulationFlagForEstimateFee) : Outcome X TransactionExecutionInfo :=
  let fee_type := tx_fee_type (Exec_Account transaction) in
  '(tx_info, _) ← tx_execute (Exec_Account transaction) init_cached_state block_context false
                    (skip_validate simulation_flags);
  if ti_actual_fee tx_info =? 0
  then with_actual_fee tx_info <$> calculate_tx_fee (ti_actual_resources tx_info) block_context fee_type
  else Ok tx_info.

Definition execute_fee_transaction (transaction : AccountTransaction Info) (block_context : BlockContext C)
    (simulation_flags : SimulationFlagForEstimateFee) : Outcome FeeError FeeEstimate :=
  let fee_type := tx_fee_type (Exec_Account transaction) in
  let prices := bi_gas_prices (bc_block_info block_context) in
  let gas_price := get_gas_price_by_fee_type prices fee_type in
  let data_gas_price := get_data_gas_price_by_fee_type prices fee_type in
  let unit := unit_of fee_type in
  let minimal_l1_gas_amount_vector := estimate_minimal_gas_vector block_context transaction in
  match executed_for_fee transaction block_context simulation_flags with
  | Ok tx_info =>
      match ti_revert_error tx_info with
      | Some _ => Err TransactionReverted
      | None =>
          minimal ← unwrap minimal_l1_gas_amount_vector;
          no_error (from_tx_info_and_gas_price tx_info gas_price data_gas_price unit minimal)
      end
  | Err _ => Err ExecutionError
  | Panic => Panic
  end.

Definition estimate_fee_inner (transactions : list (AccountTransaction Info))
    (simulation_flags : list SimulationFlagForEstimateFee) : M (list FeeEstimate) :=
  foldM (λ fees tx,
    foldM (λ fees flag,
      match execute_fee_transaction tx block_context flag with
      | Ok execution_info => Ok (fees ++ [execution_info])
      | Err _ => Err TransactionExecutionFailed
      | Panic => Panic
      end) fees simulation_flags) [] transactions.

Definition estimate_fee (transactions : list (AccountTransaction Info))
    (simulation_flags : list SimulationFlagForEstimateFee) : M (list FeeEstimate) :=
  with_rollback (estimate_fee_inner transactions simulation_flags).

(** The result of each transaction is kept, failed or not; each starts from the
    chain's state. *)
Definition simulate_transactions_inner (transactions : list (AccountTransaction Info)) (simulation_flags : SimulationFlags)
    : M (list (TransactionExecutionInfo + PlaceHolderErrorTypeForFailedStarknetExecution)) :=
  mapM (λ tx, match tx_execute (Exec_Account tx) init_cached_state block_context (charge_fee simulation_flags)
                       (validate simulation_flags) with
              | Ok (info, _) => Ok (inl info)
              | Err _ => Ok (inr PlaceHolderError)
              | Panic => Panic
              end) transactions.
Definition simulate_transactions (transactions : list (AccountTransaction Info)) (simulation_flags : SimulationFlags)
    : M (list (TransactionExecutionInfo + PlaceHolderErrorTypeForFailedStarknetExecution)) :=
  with_rollback (simulate_transactions_inner transactions simulation_flags).

Definition execute_message (transaction : ExecTransaction Info) (block_context : BlockContext C)
    (simulation_flags : SimulationFlags) : Outcome X TransactionExecutionInfo :=
  fst <$> tx_execute transaction init_cached_state block_context (charge_fee simulation_flags)
            (validate simulation_flags).

Definition simulate_message_inner (message : ExecTransaction Info) (simulation_flags : SimulationFlags)
    : M (TransactionExecutionInfo + PlaceHolderErrorTypeForFailedStarknetExecution) :=
  match execute_message message block_context simulation_flags with
  | Ok info => Ok (inl info)
  | Err _ => Ok (inr PlaceHolderError)
  | Panic => Panic
  end.
Definition simulate_message (message : ExecTransaction Info) (simulation_flags : SimulationFlags)
    : M (TransactionExecutionInfo + PlaceHolderErrorTypeForFailedStarknetExecution) :=
  with_rollback (simulate_message_inner message simulation_flags).

Definition is_reverted (info : TransactionExecutionInfo) : bool := bool_decide (ti_revert_error info ≠ None).

Definition estimate_message_fee_inner (message : ExecTransaction Info) : M FeeEstimate :=
  tx_execution_infos ←
    (match tx_execute message init_cached_state block_context true true with
     | Ok (execution_info, _) =>
         if is_reverted execution_info then Err TransactionExecutionFailed else Ok execution_info
     | Err _ => Err TransactionExecutionFailed
     | Panic => Panic
     end);
  let unit := unit_of (tx_fee_type message) in
  gas_usage ← unwrap_opt (ti_actual_resources tx_execution_infos !! "l1_gas_usage"%string);
  gas_price ← no_error (Felt252Wrapper.from_u128 (eth_l1_gas_price cfg_L1GasPrices));
  data_gas_consumed ← no_error (Felt252Wrapper.from_u128 (gv_l1_data_gas (ti_da_gas tx_execution_infos)));
  data_gas_price ← no_error (Felt252Wrapper.from_u128 (eth_l1_data_gas_price cfg_L1GasPrices));
  overall_fee ← no_error (Felt252Wrapper.from_u128 (ti_actual_fee tx_execution_infos));
  Ok {| fe_gas_consumed := Felt252Wrapper.from_u64 gas_usage; fe_gas_price := gas_price;
        fe_data_gas_consumed := data_gas_consumed; fe_data_gas_price := data_gas_price;
        fe_overall_fee := overall_fee; fe_unit := unit |}.
Definition estimate_message_fee (message : ExecTransaction Info) : M FeeEstimate :=
  with_rollback (estimate_message_fee_inner message).

(** [iter().map(execute).collect::<Result<Vec<_>, _>>()] on one cached state. *)
Fixpoint execute_all (transactions : list (ExecTransaction Info)) (state : CS) (block_context : BlockContext C)
    (charge : bool) : Outcome X (list TransactionExecutionInfo * CS) :=
  match transactions with
  | [] => Ok ([], state)
  | tx :: transactions =>
      '(info, state) ← tx_execute tx state block_context charge false;
      '(infos, state) ← execute_all transactions state block_context charge;
      Ok (info :: infos, state)
  end.

Definition re_execute_transactions (transactions_before transactions_to_trace : list (ExecTransaction Info))
    (block_context : BlockContext C)
    : Outcome PlaceHolderErrorTypeForFailedStarknetExecution (list TransactionExecutionInfo) :=
  let charge_fee := negb (eth_l1_gas_price (bi_gas_prices (bc_block_info block_context)) =? 1) in
  '(_, cached_state) ← map_err (λ _, PlaceHolderError)
    (execute_all transactions_before init_cached_state block_context charge_fee);
  '(transactions_exec_infos, _) ← map_err (λ _, PlaceHolderError)
    (execute_all transactions_to_trace cached_state block_context charge_fee);
  Ok transactions_exec_infos.

(** ** [call_contract] and [get_storage_from] of lib.rs *)

Definition call_contract (address function_selector : Z) (calldata : list Z) : M (list Z) :=
  class_hash ← ok_or PalletContractNotFound (ContractClassHashes st !! address);
  let entrypoint := {|
    ep_class_hash := Some class_hash; ep_code_address := None; ep_entry_point_type := EP_External;
    ep_entry_point_selector := function_selector; ep_calldata := calldata; ep_storage_address := address;
    ep_caller_address := 0; ep_call_type := CT_Call; ep_initial_gas := tx_initial_gas latest_constants |} in
  if new_invoke_context block_context then
    match entry_point_execute entrypoint st tries block_context with
    | Ok v => Ok (ex_retdata (ci_execution v))
    | Err _ => Err TransactionExecutionFailed
    | Panic => Panic
    end
  else Err TransactionExecutionFailed.

Definition get_storage_from `{btp : BonsaiTrie BP} (from_bytes_be_slice : bytes → Z) (contract_address : Z)
    : M (list (Z * Z)) :=
  map_err (λ _, PalletContractNotFound) (ContractStorageTrie_get_storage from_bytes_be_slice tries contract_address).

End Simulations.

(** ** Loops that collect results *)

Lemma foldM_push {E A B} (f : A → Outcome E B) acc l :
  foldM (λ acc x, y ← f x; Ok (acc ++ [y])) acc l = (app acc) <$> mapM f l.
Proof.
  revert acc. induction l as [|x l IH]; intros acc; simpl; [by rewrite app_nil_r|].
  destruct (f x) as [y| |]; simpl; [|done..]. rewrite IH. simpl.
  unfold mbind. destruct (mapM f l); simpl; [|done..]. by rewrite <-(assoc_L (++)).
Qed.

Lemma mapM_app_Outcome {E A B} (f : A → Outcome E B) l k :
  mapM f (l ++ k) = (x ← mapM f l; y ← mapM f k; Ok (x ++ y)).
Proof.
  induction l as [|x l IH]; simpl.
  - unfold mbind; simpl. by destruct (mapM f k).
  - unfold mbind in *. destruct (f x); simpl; [|done..]. rewrite IH.
    destruct (mapM f l); simpl; [|done..]. by destruct (mapM f k).
Qed.

(** A nested loop that pushes is a map over the pairs, in order. *)
Lemma foldM_push_nested {E A B C} (f : A → B → Outcome E C) acc l k :
  foldM (λ acc x, foldM (λ acc y, z ← f x y; Ok (acc ++ [z])) acc k) acc l =
  (app acc) <$> mapM (λ p : A * B, f p.1 p.2) (concat (map (λ x, map (pair x) k) l)).
Proof.
  revert acc. induction l as [|x l IH]; intros acc; simpl; [by rewrite app_nil_r|].
  rewrite foldM_push, mapM_app_Outcome.
  assert (mapM (λ p : A * B, f p.1 p.2) (map (pair x) k) = mapM (f x) k) as ->.
  { clear IH acc. induction k as [|y k IHk]; simpl; [done|]. by rewrite IHk. }
  unfold mbind. destruct (mapM (f x) k) as [ys| |]; simpl; [|done..]. rewrite IH.
  destruct (mapM _ (concat _)); simpl; [|done..]. by rewrite <-(assoc_L (++)).
Qed.

Section SimulationProperties.
Context {CS Info C X Prog V1 BP BC : Type} `{bf : Blockifier CS Info C X Prog V1 BP BC}.
Context `{cfg : PalletConfig} `{Hlibs : !FeltLibsSpec libs}.
Variable st : PalletState Prog V1.
Variable tries : Tries BP BC.

Definition pairs {A B} (l : list A) (k : list B) : list (A * B) := concat (map (λ x, map (pair x) k) l).

Lemma estimate_fee_mapM transactions flags :
  estimate_fee st tries true transactions flags =
    mapM (λ p, map_err (λ _, TransactionExecutionFailed)
                 (execute_fee_transaction st tries p.1 (block_context st) p.2)) (pairs transactions flags).
Proof.
  unfold estimate_fee, with_rollback, estimate_fee_inner.
  transitivity (foldM (λ fees tx, foldM (λ fees flag,
    e ← map_err (λ _, TransactionExecutionFailed) (execute_fee_transaction st tries tx (block_context st) flag);
    Ok (fees ++ [e])) fees flags) [] transactions).
  - apply foldM_ext. intros acc tx. apply foldM_ext. intros acc' flag.
    by destruct (execute_fee_transaction _ _ _ _ flag).
  - rewrite (foldM_push_nested (λ tx flag, map_err (λ _, TransactionExecutionFailed)
      (execute_fee_transaction st tries tx (block_context st) flag))).
    unfold pairs. by destruct (mapM _ _).
Qed.

(** Fees are estimated for every transaction under every flag, in that order and
    each on the chain's own state: no transaction sees the effects of another. *)
Theorem estimate_fee_pointwise transactions flags fees :
  estimate_fee st tries true transactions flags = Ok fees ↔
  Forall2 (λ p e, execute_fee_transaction st tries p.1 (block_context st) p.2 = Ok e)
    (pairs transactions flags) fees.
Proof.
  rewrite estimate_fee_mapM, mapM_Ok_Forall2.
  split; intros HF; eapply Forall2_impl; try exact HF; simpl; intros p e H.
  - destruct (execute_fee_transaction _ _ _ _ _); simpl in H; congruence.
  - by rewrite H.
Qed.

(** Without flags, the request for an estimate that validates, no transaction is
    executed and the list of estimates is empty. *)
Theorem estimate_without_flags_is_empty transactions :
  estimate_fee st tries true transactions (convert_flags []) = Ok [].
Proof. rewrite estimate_fee_mapM. unfold pairs. by induction transactions. Qed.

(** ** Fee estimates *)

Definition wf_gas (v : GasVector) : Prop := is_u128 (gv_l1_gas v) ∧ is_u128 (gv_l1_data_gas v).

Lemma from_u128_value x : is_u128 x → Felt252Wrapper.from_u128 x = Ok x.
Proof. intros Hx. exact (proj1 (from_u128_total x Hx)). Qed.

Lemma is_u128_sat_add x y : 0 ≤ x → 0 ≤ y → is_u128 (sat_add128 x y).
Proof. unfold is_u128, sat_add128, u128_max. lia. Qed.
Lemma is_u128_sat_mul x y : 0 ≤ x → 0 ≤ y → is_u128 (sat_mul128 x y).
Proof. unfold is_u128, sat_mul128, u128_max. intros. pose proof (Z.mul_nonneg_nonneg x y). lia. Qed.

(** C30: An estimate is computed without panicking and within 128 bits, reports at
    least the minimal gas, and unless the product saturates its fee is gas times
    price; it falls short of the charged fee by less than the price of one unit
    of gas, and is the charged fee when that is a number of gas units. *)
Theorem fee_estimate_spec info gp dp u min :
  is_u128 (ti_actual_fee info) → wf_gas (ti_da_gas info) → is_u128 gp → 1 ≤ gp → is_u128 dp → wf_gas min →
  ∃ e, from_tx_info_and_gas_price info gp dp u min = Ok e ∧
    is_u128 (fe_gas_consumed e) ∧ is_u128 (fe_data_gas_consumed e) ∧ is_u128 (fe_overall_fee e) ∧
    gv_l1_gas min ≤ fe_gas_consumed e ∧ gv_l1_data_gas min ≤ fe_data_gas_consumed e ∧
    (fe_gas_consumed e * gp + fe_data_gas_consumed e * dp ≤ u128_max →
      fe_overall_fee e = fe_gas_consumed e * gp + fe_data_gas_consumed e * dp ∧
      ti_actual_fee info - gp < fe_overall_fee e) ∧
    (∀ g, ti_actual_fee info = g * gp + gv_l1_data_gas (ti_da_gas info) * dp →
       gv_l1_gas min ≤ g → gv_l1_data_gas min ≤ gv_l1_data_gas (ti_da_gas info) →
       fe_gas_consumed e = g ∧ fe_overall_fee e = ti_actual_fee info).
Proof.
  intros [Hf0 Hf1] [[Hg0 _] [Hd0 Hd1]] [Hgp0 Hgp1] Hgp [Hdp0 Hdp1] [[Hm0 Hm1] [Hn0 Hn1]].
  unfold from_tx_info_and_gas_price.
  set (fee := ti_actual_fee info) in *. set (d := gv_l1_data_gas (ti_da_gas info)) in *.
  set (mg := gv_l1_gas min) in *. set (md := gv_l1_data_gas min) in *.
  rewrite (Z.max_l gp 1) by lia. cbv zeta.
  set (q := sat_sub128 fee (sat_mul128 d dp) / gp).
  assert (0 ≤ d * dp) as Hdd by nia.
  assert (0 ≤ sat_mul128 d dp ≤ d * dp) as Hs by (unfold sat_mul128, u128_max; lia).
  assert (0 ≤ sat_sub128 fee (sat_mul128 d dp) ≤ fee) as Hsub by (unfold sat_sub128; lia).
  assert (sat_sub128 fee (sat_mul128 d dp) - gp < q * gp ≤ sat_sub128 fee (sat_mul128 d dp)) as Hq.
  { unfold q. pose proof (Z.div_mod (sat_sub128 fee (sat_mul128 d dp)) gp ltac:(lia)).
    pose proof (Z.mod_pos_bound (sat_sub128 fee (sat_mul128 d dp)) gp ltac:(lia)). lia. }
  assert (0 ≤ q ≤ fee) as Hqb.
  { split; [apply Z.div_pos; lia|]. unfold q. etransitivity; [apply Z.div_le_mono with (b := fee); lia|].
    apply Z.div_le_upper_bound; nia. }
  assert (is_u128 (Z.max q mg)) as Hg by (unfold is_u128; lia).
  assert (is_u128 (Z.max d md)) as Hd by (unfold is_u128; lia).
  assert (0 ≤ Z.max q mg * gp) by nia. assert (0 ≤ Z.max d md * dp) by nia.
  assert (is_u128 (sat_add128 (sat_mul128 (Z.max q mg) gp) (sat_mul128 (Z.max d md) dp))) as Ho.
  { apply is_u128_sat_add; unfold sat_mul128, u128_max; lia. }
  rewrite !from_u128_value by (done || by split). simpl.
  eexists. split; [reflexivity|]. simpl. split; [done|]. split; [done|]. split; [done|].
  split; [lia|]. split; [lia|]. split.
  - intros Hle.
    assert (sat_add128 (sat_mul128 (Z.max q mg) gp) (sat_mul128 (Z.max d md) dp)
            = Z.max q mg * gp + Z.max d md * dp) as Heq by (unfold sat_add128, sat_mul128; lia).
    split; [done|]. rewrite Heq. unfold sat_sub128 in *. nia.
  - intros g Hfee Hmg Hmd.
    assert (sat_mul128 d dp = d * dp) as Hmul by (unfold sat_mul128; nia).
    assert (sat_sub128 fee (d * dp) = g * gp) as Hsg by (unfold sat_sub128; nia).
    assert (q = g) as -> by (unfold q; rewrite Hmul, Hsg; apply Z.div_mul; lia).
    rewrite !Z.max_l by lia. split; [done|].
    unfold sat_add128, sat_mul128. nia.
Qed.

(** ** Re-execution *)

Lemma execute_all_app l k state ctx charge :
  execute_all (l ++ k) state ctx charge =
  ('(infos, state) ← execute_all l state ctx charge;
   '(infos', state) ← execute_all k state ctx charge;
   Ok (infos ++ infos', state)).
Proof.
  revert state. induction l as [|tx l IH]; intros state; simpl.
  - unfold mbind; simpl. by destruct (execute_all k state ctx charge) as [[]| |].
  - unfold mbind in *. destruct (tx_execute tx state ctx charge false) as [[info s]| |]; simpl; [|done..].
    rewrite IH. destruct (execute_all l s ctx charge) as [[xs s1]| |]; simpl; [|done..].
    by destruct (execute_all k s1 ctx charge) as [[]| |].
Qed.

Lemma execute_all_length l state ctx charge infos state' :
  execute_all l state ctx charge = Ok (infos, state') → length infos = length l.
Proof.
  revert state infos. induction l as [|tx l IH]; intros state infos; simpl; [by intros [= <- _]|].
  unfold mbind. destruct (tx_execute tx state ctx charge false) as [[info s]| |]; simpl; [|done..].
  destruct (execute_all l s ctx charge) as [[xs s1]| |] eqn:E; simpl; [|done..].
  intros [= <- <-]. simpl. f_equal. eapply IH, E.
Qed.

(** Tracing transactions after others gives the results they have in one
    execution of the whole sequence from the chain's state; an error anywhere in
    the sequence is an error of the trace. *)
Theorem re_execute_is_sequential before trace ctx :
  re_execute_transactions st tries before trace ctx =
    (λ r, drop (length before) r.1) <$>
      map_err (λ _, PlaceHolderError)
        (execute_all (before ++ trace) (init_cached_state st tries) ctx
           (negb (eth_l1_gas_price (bi_gas_prices (bc_block_info ctx)) =? 1))).
Proof.
  unfold re_execute_transactions. rewrite execute_all_app. unfold mbind.
  destruct (execute_all before _ ctx _) as [[xs s]| |] eqn:E; simpl; [|done..].
  apply execute_all_length in E.
  destruct (execute_all trace s ctx _) as [[xs' s']| |]; simpl; [|done..].
  by rewrite drop_app_length'.
Qed.
End SimulationProperties.

(** ** Witness *)

Definition example_info : TransactionExecutionInfo :=
  {| ti_validate_call_info := None; ti_execute_call_info := None; ti_fee_transfer_call_info := None;
     ti_actual_fee := 1030; ti_da_gas := {| gv_l1_gas := 0; gv_l1_data_gas := 3 |}; ti_actual_resources := ∅;
     ti_revert_error := None |}.

Lemma fee_estimate_spec_witness : ∃ e,
  from_tx_info_and_gas_price example_info 100 10 Wei {| gv_l1_gas := 4; gv_l1_data_gas := 0 |} = Ok e ∧
  fe_gas_consumed e = 10 ∧ fe_overall_fee e = 1030.
Proof.
  destruct (fee_estimate_spec example_info 100 10 Wei {| gv_l1_gas := 4; gv_l1_data_gas := 0 |})
    as (e & He & _ & _ & _ & _ & _ & _ & Hx);
    try (vm_compute; intuition congruence).
  exists e. split; [exact He|]. apply Hx; vm_compute; congruence.
Defined.
