(* ===== verification/Runtime.v ===== *)
(** * Runtime: the assembled runtime ([runtime/src], [primitives/program-hash])

    The constants of [config.rs] and [pallets.rs], the sealing mode that the chain
    specification leaves in the runtime's storage and that switches Aura's check of
    the timestamp off, the configuration of the Starknet pallet, and the runtime
    API, which hands every call to the pallet. *)

From S2P Require Import Prelude Felt Hashers Transactions TxHash CoreTx Broadcast Blocks Db Tries Commitments.
From S2P Require Import Convert MappingSync RpcEvents RpcClient CallInfo ContractClasses Pallet StateAdapter.
From S2P Require Import Simulations.

(** ** config.rs *)

Definition MILLISECS_PER_BLOCK : Z := 6000.
Definition SLOT_DURATION : Z := MILLISECS_PER_BLOCK.
(** Time is measured by number of blocks. *)
Definition MINUTES : Z := 60000 / MILLISECS_PER_BLOCK.
Definition HOURS : Z := MINUTES * 60.
Definition DAYS : Z := HOURS * 24.
Definition EXISTENTIAL_DEPOSIT : Z := 500.
Definition BlockHashCount : Z := 2400.
Definition SS58Prefix : Z := 42.

Record RuntimeVersion := {
  rv_spec_name : string; rv_impl_name : string; rv_authoring_version : Z; rv_spec_version : Z;
  rv_impl_version : Z; rv_transaction_version : Z; rv_state_version : Z;
}.
Definition VERSION : RuntimeVersion := {|
  rv_spec_name := "madara"; rv_impl_name := "madara"; rv_authoring_version := 1; rv_spec_version := 100;
  rv_impl_version := 1; rv_transaction_version := 1; rv_state_version := 1 |}.

(** [NativeVersion]: no other version may author. *)
Record NativeVersion := { nv_runtime_version : RuntimeVersion; nv_can_author_with : list Z }.
Definition native_version : NativeVersion := {| nv_runtime_version := VERSION; nv_can_author_with := [] |}.

Inductive SealingMode := Sealing_Default | Sealing_Manual | Sealing_Instant (finalize : bool).
#[global] Instance SealingMode_eq_dec : EqDecision SealingMode.
Proof. solve_decision. Defined.

Definition SealingMode_default : SealingMode := Sealing_Default.
Definition is_default (self : SealingMode) : bool :=
  match self with Sealing_Default => true | _ => false end.
Definition SealingMode_fmt (self : SealingMode) : string :=
  match self with
  | Sealing_Default => "Default"
  | Sealing_Manual => "Manual"
  | Sealing_Instant finalize =>
      "Instant (finalize: " +:+ (if finalize then "true" else "false") +:+ ")"
  end%string.

(** [derive(Encode, Decode)]: the index of the variant, then its field. *)
Definition SealingMode_encode (self : SealingMode) : bytes :=
  match self with
  | Sealing_Default => [0]
  | Sealing_Manual => [1]
  | Sealing_Instant finalize => [2; if finalize then 1 else 0]
  end.
Definition SealingMode_decode (bs : bytes) : option SealingMode :=
  match bs with
  | 0 :: _ => Some Sealing_Default
  | 1 :: _ => Some Sealing_Manual
  | 2 :: 0 :: _ => Some (Sealing_Instant false)
  | 2 :: 1 :: _ => Some (Sealing_Instant true)
  | _ => None
  end.

(** [parameter_types! { pub storage Sealing }]: a raw storage value with a default. *)
Definition Sealing_get (raw : option bytes) : SealingMode :=
  default SealingMode_default (bs ← raw; SealingMode_decode bs).
Definition Sealing_set (value : SealingMode) : option bytes := Some (SealingMode_encode value).

(** ** pallets.rs *)

(** primitives/program-hash *)
Definition SN_OS_PROGRAM_HASH `{libs : FeltLibs} : Z :=
  FieldElement_from_mont 6431315658044554931 6518314672963632076 7993178465604693533 95212460539797968.

Definition UnsignedPriority : Z := Z.shiftl 1 20.
Definition TransactionLongevity : Z := u64_max.
Definition InvokeTxMaxNSteps : Z := 1000000.
Definition ValidateMaxNSteps : Z := 1000000.
Definition ProtocolVersion : Z := 0.
Definition MaxRecursionDepth : Z := 50.
Definition ChainId `{libs : FeltLibs} : Z := SN_MAIN_CHAIN_ID.
Definition ProgramHash `{libs : FeltLibs} : Z := SN_OS_PROGRAM_HASH.
Definition L1GasPrices : GasPrices :=
  {| eth_l1_gas_price := 10; strk_l1_gas_price := 10; eth_l1_data_gas_price := 10; strk_l1_data_gas_price := 10 |}.
(** [pallet_timestamp::Config::MinimumPeriod] *)
Definition MinimumPeriod : Z := SLOT_DURATION / 2.

(** [impl pallet_starknet::Config for Runtime]; [disable_fee] is the feature
    [disable-transaction-fee], [now] the clock of the timestamp pallet. *)
Definition Runtime_Config `{libs : FeltLibs} (disable_fee : bool) (now : Z) : PalletConfig := {|
  cfg_L1GasPrices := L1GasPrices;
  cfg_ChainId := ChainId;
  cfg_ProgramHash := ProgramHash;
  cfg_DisableTransactionFee := disable_fee;
  cfg_now := now;
|}.

(** [ConsensusOnTimestampSet]: [aura] is Aura's own check of the timestamp on its
    state [A]. *)
Definition on_timestamp_set {A} (aura : Z → A → Outcome Empty_set A) (sealing : option bytes) (moment : Z) (a : A)
    : Outcome Empty_set A :=
  if decide (Sealing_get sealing ≠ Sealing_Default) then Ok a else aura moment a.

(** ** The runtime API (lib.rs) *)

Module api.
Section api.
Context {CS Info C X Prog V1 BP BC : Type} `{bf : Blockifier CS Info C X Prog V1 BP BC}.
Context `{cfg : PalletConfig} `{libs : FeltLibs} `{crypto : StarknetCrypto} `{hasher : HasherT}.
Variable st : PalletState Prog V1.
Variable tries : Tries BP BC.
Variable transactional : bool.

Definition call (address function_selector : Z) (calldata : list Z) : Outcome PalletError (list Z) :=
  call_contract st tries address function_selector calldata.
Definition chain_id : Z := cfg_ChainId.
Definition program_hash : Z := cfg_ProgramHash.
Definition config_hash : Outcome Empty_set Z := pallet.config_hash st.
Definition fee_token_addresses : FeeTokenAddresses := pallet.fee_token_addresses st.
Definition is_transaction_fee_disabled : bool := cfg_DisableTransactionFee.
Definition estimate_fee (transactions : list (AccountTransaction Info))
    (simulation_flags : list SimulationFlagForEstimateFee) : Outcome PalletError (list FeeEstimate) :=
  Simulations.estimate_fee st tries transactional transactions simulation_flags.
Definition estimate_message_fee (message : ExecTransaction Info) : Outcome PalletError FeeEstimate :=
  Simulations.estimate_message_fee st tries transactional message.
Definition simulate_transactions (transactions : list (AccountTransaction Info)) (simulation_flags : SimulationFlags) :=
  Simulations.simulate_transactions st tries transactional transactions simulation_flags.
Definition simulate_message (message : ExecTransaction Info) (simulation_flags : SimulationFlags) :=
  Simulations.simulate_message st tries transactional message simulation_flags.
Definition re_execute_transactions (transactions_before transactions_to_trace : list (ExecTransaction Info))
    (block_context : BlockContext C) :=
  Simulations.re_execute_transactions st tries transactions_before transactions_to_trace block_context.
Definition get_tx_messages_to_l1 (tx_hash : Z) : list MessageToL1 := pallet.tx_messages st tx_hash.
Definition get_events_for_tx_by_hash (tx_hash : Z) : list Event := pallet.tx_events st tx_hash.
Definition get_tx_execution_outcome (tx_hash : Z) : option bytes := TxRevertError st !! tx_hash.
Definition get_block_context : BlockContext C := pallet.get_block_context latest_constants st.

(** Grandpa's equivocation reports and key ownership proofs are not supported. *)
Definition submit_report_equivocation_unsigned_extrinsic : option unit := None.
Definition generate_key_ownership_proof : option bytes := None.
End api.
End api.

(** ** Properties *)

Lemma sealing_roundtrip s : Sealing_get (Sealing_set s) = s.
Proof. by destruct s as [| |[]]. Qed.

(** Aura is consulted exactly for the default sealing mode, the one an empty storage
    stands for. *)
Lemma on_timestamp_set_manual {A} (aura : Z → A → Outcome Empty_set A) s moment a :
  on_timestamp_set aura (Sealing_set s) moment a = if is_default s then aura moment a else Ok a.
Proof. unfold on_timestamp_set. rewrite sealing_roundtrip. by destruct s. Qed.

Lemma time_units : MINUTES = 10 ∧ DAYS * MILLISECS_PER_BLOCK = 24 * 3600 * 1000.
Proof. done. Qed.

Section Properties.
Context `{Hlibs : !FeltLibsSpec libs}.

(** The program hash, given as Montgomery limbs, is the value its comment says. *)
Lemma program_hash_documented :
  SN_OS_PROGRAM_HASH = 0x41fc2a467ef8649580631912517edcab7674173f1dbfa2e9b64fbcd82bc4d79.
Proof. apply from_mont_value; by vm_compute. Qed.

(** The chain id the runtime answers is that of the main network, whatever network the
    node follows. *)
Lemma runtime_chain_id_main disable_fee now :
  api.chain_id (cfg := Runtime_Config disable_fee now) = be_decode (bytes_of_string "SN_MAIN").
Proof. apply from_mont_value; by vm_compute. Qed.
End Properties.
