(* ===== verification/Inherents.v ===== *)
(** * Inherents: the data a new block is given from outside
    ([primitives/sequencer-address], the providers of inherent data in
    [node/src/service.rs])

    A provider writes values under 8-byte identifiers into the inherent data of a
    block; the pallet reads its own and turns it into the call that sets the
    sequencer address ([Pallet.pallet.create_inherent]).  An authoring node takes
    the address from its off-chain storage; a node that seals on command provides a
    counted timestamp and no address. *)

From S2P Require Import Prelude Felt Hashers Transactions TxHash CoreTx Broadcast Blocks Db Tries Commitments.
From S2P Require Import Convert MappingSync RpcEvents RpcClient CallInfo ContractClasses Pallet StateAdapter.
From S2P Require Import Simulations Runtime Codecs.

(** ** Inherent data of Substrate ([sp_inherents::InherentData]) *)

Inductive InherentError := WrongAddressFormat.

Inductive InherentsError :=
| InherentDataExists (id : bytes)
| DecodingFailed (id : bytes)
| Application (e : InherentError).

Class InherentData (D : Type) := {
  inherent_new : D;
  put_data : bytes → bytes → D → Outcome InherentsError D;
  get_data : bytes → D → option bytes;
}.
(** An identifier is written once; reading gives what was written. *)
Class InherentDataSpec {D} (inh : InherentData D) : Prop := {
  get_new id : get_data id inherent_new = None;
  put_fresh id v d : get_data id d = None → ∃ d', put_data id v d = Ok d' ∧
    ∀ id', get_data id' d' = if decide (id' = id) then Some v else get_data id' d;
}.

(** ** The crate mp-sequencer-address *)

Definition INHERENT_IDENTIFIER : bytes := bytes_of_string "seqaddr0".
Definition SEQ_ADDR_STORAGE_KEY : bytes := bytes_of_string "starknet::seq_addr".
Definition TIMESTAMP_IDENTIFIER : bytes := bytes_of_string "timstap0".

Definition is_fatal_error (self : InherentError) : bool := match self with WrongAddressFormat => true end.

(** SCALE of the error: the index of its only variant. *)
Definition InherentError_decode (data : bytes) : option InherentError :=
  match data with 0 :: _ => Some WrongAddressFormat | _ => None end.

Section Data.
Context {D : Type} `{inh : InherentData D}.

(** [get_data] of a [[u8; 32]], whose SCALE encoding is its bytes. *)
Definition sequencer_address_inherent_data (self : D) : Outcome InherentsError (option bytes) :=
  match get_data INHERENT_IDENTIFIER self with
  | None => Ok None
  | Some bs => if (32 <=? length bs)%nat then Ok (Some (take 32 bs)) else Err (DecodingFailed INHERENT_IDENTIFIER)
  end.

Definition slice_to_arr (slice : bytes) : Outcome unit bytes := if (length slice =? 32)%nat then Ok slice else Err tt.

Definition InherentError_try_from (id : bytes) (data : bytes) : option InherentError :=
  if decide (id = INHERENT_IDENTIFIER) then InherentError_decode data else None.

Record InherentDataProvider := { idp_sequencer_address : bytes }.
Definition InherentDataProvider_new (addr : bytes) : InherentDataProvider := {| idp_sequencer_address := addr |}.
Definition InherentDataProvider_sequencer_address (self : InherentDataProvider) : bytes := idp_sequencer_address self.
Definition InherentDataProvider_default : InherentDataProvider :=
  {| idp_sequencer_address := pallet.DEFAULT_SEQUENCER_ADDRESS |}.
Definition InherentDataProvider_try_from (storage_val : bytes) : Outcome InherentError InherentDataProvider :=
  match slice_to_arr storage_val with
  | Ok addr => Ok {| idp_sequencer_address := addr |}
  | Err _ => Err WrongAddressFormat
  | Panic => Panic
  end.

Definition provide_inherent_data (self : InherentDataProvider) (inherent_data : D) : Outcome InherentsError D :=
  put_data INHERENT_IDENTIFIER (idp_sequencer_address self) inherent_data.

Definition try_handle_error (identifier : bytes) (error : bytes)
    : option (Outcome InherentsError unit) :=
  e ← InherentError_try_from identifier error; Some (Err (Application e)).

(** ** The providers of the node (service.rs) *)

(** The address an authoring node provides: [offchain_storage] answers for a prefix
    and a key. *)
Definition STORAGE_PREFIX : bytes := bytes_of_string "storage".
Definition aura_sequencer_address (offchain_storage : option (bytes → bytes → option bytes)) : InherentDataProvider :=
  match offchain_storage with
  | Some storage =>
      match InherentDataProvider_try_from
              (default pallet.DEFAULT_SEQUENCER_ADDRESS (storage STORAGE_PREFIX SEQ_ADDR_STORAGE_KEY)) with
      | Ok provider => provider
      | _ => InherentDataProvider_default
      end
  | None => InherentDataProvider_default
  end.

(** [MockTimestampInherentDataProvider]: the thread-local counter goes up by a slot at
    each call and is provided as an encoded [u64]. *)
Definition mock_timestamp_provide (timestamp : Z) (inherent_data : D) : Outcome InherentsError (Z * D) :=
  if timestamp + SLOT_DURATION <=? u64_max then
    let timestamp := timestamp + SLOT_DURATION in
    d ← put_data TIMESTAMP_IDENTIFIER (le_encode 8 timestamp) inherent_data; Ok (timestamp, d)
  else Panic.
Definition mock_timestamp_try_handle_error (identifier : bytes) (error : bytes)
    : option (Outcome InherentsError unit) := None.

(** The address call of a block with the given inherent data: [create_extrinsics] asks
    the pallet. *)
Definition sequencer_inherent (data : D) : Outcome Empty_set (option bytes) :=
  pallet.create_inherent (map_err (λ _, tt) (sequencer_address_inherent_data data)).

(** What the two kinds of nodes provide for a block. *)
Definition authoring_data (offchain_storage : option (bytes → bytes → option bytes)) (timestamp : Z)
    : Outcome InherentsError D :=
  d ← put_data TIMESTAMP_IDENTIFIER (le_encode 8 timestamp) inherent_new;
  provide_inherent_data (aura_sequencer_address offchain_storage) d.
Definition manual_data (timestamp : Z) : Outcome InherentsError (Z * D) :=
  mock_timestamp_provide timestamp inherent_new.
End Data.

(** ** Properties *)

(** The address that is configured, if it has 32 bytes. *)
Definition configured_address (offchain_storage : option (bytes → bytes → option bytes)) : bytes :=
  match (storage ← offchain_storage; storage STORAGE_PREFIX SEQ_ADDR_STORAGE_KEY) with
  | Some bs => if (length bs =? 32)%nat then bs else pallet.DEFAULT_SEQUENCER_ADDRESS
  | None => pallet.DEFAULT_SEQUENCER_ADDRESS
  end.

Lemma aura_sequencer_address_spec offchain_storage :
  idp_sequencer_address (aura_sequencer_address offchain_storage) = configured_address offchain_storage ∧
  length (configured_address offchain_storage) = 32%nat.
Proof.
  unfold aura_sequencer_address, configured_address, InherentDataProvider_try_from, slice_to_arr.
  destruct offchain_storage as [storage|]; [|done]. cbn [mbind option_bind].
  destruct (storage _ _) as [bs|]; [|done]. unfold default, from_option, id.
  by destruct (Nat.eqb_spec (length bs) 32).
Qed.

Section Properties.
Context `{Hlibs : !FeltLibsSpec libs}.
Context {D : Type} `{inh : InherentData D} {Hinh : InherentDataSpec inh}.
Context {Prog V1 : Type} `{dc : DigestCodecs Prog V1} {Hdc : DigestCodecsSpec dc}.

Lemma identifiers_differ : TIMESTAMP_IDENTIFIER ≠ INHERENT_IDENTIFIER.
Proof. by vm_compute. Qed.

(** A provider's error, decoded and handled, is always fatal. *)
Lemma handled_error_fatal id data r :
  try_handle_error id data = Some r → ∃ e, r = Err (Application e) ∧ is_fatal_error e = true.
Proof.
  unfold try_handle_error. destruct (InherentError_try_from id data) as [[]|]; [|done].
  intros [= <-]. by exists WrongAddressFormat.
Qed.

Lemma authoring_inherent offchain_storage timestamp :
  ∃ d, authoring_data offchain_storage timestamp = Ok d ∧
    sequencer_inherent d = Ok (Some (configured_address offchain_storage)).
Proof.
  unfold authoring_data. destruct (put_fresh TIMESTAMP_IDENTIFIER (le_encode 8 timestamp) inherent_new) as (d1 & -> & H1);
    [apply get_new|]. cbn [mbind Outcome_bind]. unfold provide_inherent_data.
  destruct (put_fresh INHERENT_IDENTIFIER (idp_sequencer_address (aura_sequencer_address offchain_storage)) d1)
    as (d2 & -> & H2).
  { rewrite H1, decide_False by apply not_eq_sym, identifiers_differ. apply get_new. }
  exists d2. split; [done|]. unfold sequencer_inherent, sequencer_address_inherent_data.
  rewrite H2, decide_True by done. destruct (aura_sequencer_address_spec offchain_storage) as [-> Hlen].
  rewrite Hlen. simpl. unfold pallet.create_inherent. simpl.
  by rewrite firstn_all2 by lia.
Qed.

Lemma manual_inherent timestamp :
  timestamp + SLOT_DURATION ≤ u64_max →
  ∃ d, manual_data timestamp = Ok (timestamp + SLOT_DURATION, d) ∧
    sequencer_inherent d = Ok (Some pallet.DEFAULT_SEQUENCER_ADDRESS).
Proof.
  intros Hle. unfold manual_data, mock_timestamp_provide. rewrite (proj2 (Z.leb_le _ _) Hle).
  destruct (put_fresh TIMESTAMP_IDENTIFIER (le_encode 8 (timestamp + SLOT_DURATION)) inherent_new)
    as (d & -> & H); [apply get_new|]. exists d. split; [done|].
  unfold sequencer_inherent, sequencer_address_inherent_data.
  by rewrite H, decide_False, get_new by apply not_eq_sym, identifiers_differ.
Qed.

(** The sequencer address of the next block, from the address of its inherent. *)
Lemma inherent_address n (st : PalletState Prog V1) digest addr :
  Chain n st → wf_address addr →
  if be_decode addr <? 2 ^ 251
  then ∀ st', pallet.execute_block st (n + 1) digest [addr] = Ok st' → pallet.sequencer_address st' = be_decode addr
  else pallet.execute_block st (n + 1) digest [addr] = Err SequencerAddressNotValid.
Proof.
  intros Hc Hw. destruct (decide (1 ≤ n)) as [Hn|Hn].
  - exact (sequencer_set_once n st digest [addr] Hc Hn (proj2 (Forall_singleton _ _) Hw)).
  - pose proof (Chain_nonneg _ _ Hc). assert (n = 0) as -> by lia.
    destruct (first_block_address st digest addr Hc Hw) as [H1 _]. destruct (_ <? _); [apply H1|exact H1].
Qed.

(** C15: The sequencer address of a block: an authoring node records the address of
    its off-chain storage if that has 32 bytes and the default one otherwise, and
    refuses to build a block with one that is no contract address; a node that
    seals on command records the default address 0xdead in every block.  Without the
    inherent a block after the first cannot be built at all, although the comment
    of the call says that a default is set at the end of the block; block 1 is built
    without it exactly when it is built with it, and records no address. *)
Theorem sequencer_address_flow offchain_storage timestamp n (st : PalletState Prog V1) digest :
  Chain n st → all_bytes (configured_address offchain_storage) → timestamp + SLOT_DURATION ≤ u64_max →
  (∃ d addr, authoring_data offchain_storage timestamp = Ok d ∧ sequencer_inherent d = Ok (Some addr) ∧
     addr = configured_address offchain_storage ∧
     if be_decode addr <? 2 ^ 251
     then ∀ st', pallet.execute_block st (n + 1) digest [addr] = Ok st' → pallet.sequencer_address st' = be_decode addr
     else pallet.execute_block st (n + 1) digest [addr] = Err SequencerAddressNotValid) ∧
  (∃ d addr, manual_data timestamp = Ok (timestamp + SLOT_DURATION, d) ∧ sequencer_inherent d = Ok (Some addr) ∧
     ∀ st', pallet.execute_block st (n + 1) digest [addr] = Ok st' → pallet.sequencer_address st' = 0xdead) ∧
  (1 ≤ n → pallet.execute_block st (n + 1) digest [] = Panic) ∧
  (n = 0 →
     is_ok (pallet.execute_block st 1 digest []) =
       is_ok (pallet.execute_block st 1 digest [pallet.DEFAULT_SEQUENCER_ADDRESS]) ∧
     ∀ st', pallet.execute_block st 1 digest [] = Ok st' → pallet.sequencer_address st' = 0).
Proof.
  intros Hc Hb Hle. assert (wf_address pallet.DEFAULT_SEQUENCER_ADDRESS) as Hd
    by (split; [done|]; by apply (bool_decide_unpack _)). split_and!.
  - destruct (authoring_inherent offchain_storage timestamp) as (d & Hd' & Hi).
    exists d, (configured_address offchain_storage). split_and!; [done..|].
    apply (inherent_address n st digest (configured_address offchain_storage) Hc).
    split; [by apply aura_sequencer_address_spec|done].
  - destruct (manual_inherent timestamp Hle) as (d & Hd' & Hi).
    exists d, pallet.DEFAULT_SEQUENCER_ADDRESS. split_and!; [done..|].
    apply (inherent_address n st digest pallet.DEFAULT_SEQUENCER_ADDRESS Hc Hd).
  - intros Hn. exact (sequencer_set_once n st digest [] Hc Hn (Forall_nil_2 _)).
  - intros ->. destruct (first_block_address st digest pallet.DEFAULT_SEQUENCER_ADDRESS Hc Hd) as [[H1 _] H2].
    by split.
Qed.
End Properties.

(** ** Witness: inherent data as an association list *)

Definition inherent_model : InherentData (list (bytes * bytes)) := {|
  inherent_new := [];
  put_data id v d := match list_find (λ e, e.1 = id) d with Some _ => Err (InherentDataExists id) | None => Ok ((id, v) :: d) end;
  get_data id d := '(_, e) ← list_find (λ e, e.1 = id) d; Some e.2;
|}.

Lemma inherent_model_spec : InherentDataSpec inherent_model.
Proof.
  split; [done|]. intros id v d Hd. simpl in *.
  destruct (list_find (λ e : bytes * bytes, e.1 = id) d) as [[k e]|] eqn:Hf; [discriminate|].
  eexists. split; [done|]. intros id'. simpl. destruct (decide (id = id')) as [<-|Hne].
  - by rewrite decide_True by done.
  - rewrite (decide_False (P := id' = id)) by done. destruct (list_find (λ e : bytes * bytes, e.1 = id') d) as [[]|]; done.
Qed.

Lemma sequencer_address_flow_witness : ∃ st,
  example_block1 = Ok st ∧
  pallet.execute_block (dc := unit_codecs) st 2 [Other [1]] [] = Panic ∧
  (∃ d addr, manual_data (inh := inherent_model) 0 = Ok (6000, d) ∧
     sequencer_inherent (inh := inherent_model) d = Ok (Some addr) ∧ be_decode addr = 0xdead).
Proof.
  destruct example_chain as (st & He & Hc). exists st. split; [exact He|].
  destruct (sequencer_address_flow (Hinh := inherent_model_spec) (dc := unit_codecs) (Hdc := unit_codecs_spec)
    (Some (λ _ _, Some example_address)) 0 1 st [Other [1]] Hc) as (_ & (d & addr & Hd & Ha & _) & Hp & _).
  - apply (bool_decide_unpack _). vm_compute. reflexivity.
  - vm_compute. discriminate.
  - split; [apply Hp; lia|]. exists d, addr. split; [exact Hd|]. split; [exact Ha|].
    vm_compute in Hd. injection Hd as <-. vm_compute in Ha. injection Ha as <-. reflexivity.
Defined.
