(* ===== verification/Overrides.v ===== *)
(** * Overrides: reading the pallet's storage from outside the runtime
    ([client/storage], [primitives/storage] and the getters of the runtime API of
    [runtime/src/lib.rs])

    A client reads the pallet either through the runtime API or, when it knows
    the layout of the storage, through raw storage keys.  The layout that FRAME
    gives to the pallet's items is the hypothesis [Layout]. *)

From S2P Require Import Prelude Felt Transactions Broadcast Blocks Db ContractClasses Pallet Codecs.

(** ** primitives/storage *)

Definition PALLET_STARKNET_SCHEMA : bytes := bytes_of_string ":starknet_schema".
Definition PALLET_STARKNET : bytes := bytes_of_string "Starknet".
Definition STARKNET_CONTRACT_CLASS_HASH : bytes := bytes_of_string "ContractClassHashes".
Definition STARKNET_CONTRACT_CLASS : bytes := bytes_of_string "ContractClasses".
Definition STARKNET_CONTRACT_ABI : bytes := bytes_of_string "ContractAbis".
Definition STARKNET_NONCE : bytes := bytes_of_string "Nonces".

(** The derived SCALE codec of the enum: its variant's index. *)
Definition enc_schema (v : StarknetStorageSchemaVersion) : bytes :=
  match v with Schema_Undefined => [0] | Schema_V1 => [1] end.
Definition dec_schema (bs : bytes) : option StarknetStorageSchemaVersion :=
  match bs with
  | 0 :: _ => Some Schema_Undefined
  | 1 :: _ => Some Schema_V1
  | _ => None
  end.

(** The hash of storage prefixes and the SCALE codecs of the stored types. *)
Class StorageCodecs (Prog V1 : Type) := {
  twox_128 : bytes → bytes;
  enc_hash : Z → bytes;
  dec_hash : bytes → option Z;
  enc_class : ContractClass Prog V1 → bytes;
  dec_class : bytes → option (ContractClass Prog V1);
  enc_abi : ContractAbi → bytes;
  dec_abi : bytes → option ContractAbi;
}.
Class StorageCodecsSpec {Prog V1} (sc : StorageCodecs Prog V1) : Prop := {
  dec_enc_hash x : dec_hash (enc_hash x) = Some x;
  dec_enc_class c : dec_class (enc_class c) = Some c;
  dec_enc_abi a : dec_abi (enc_abi a) = Some a;
}.

(** The client: raw storage of a block, and the state its runtime runs on. *)
Class StorageProvider (E Prog V1 : Type) := {
  client_storage : DHashT → bytes → Outcome E (option bytes);
  runtime_state : DHashT → Outcome E (PalletState Prog V1);
}.

(** [Result::ok] *)
Definition ok {E A} (m : Outcome E A) : option A := match m with Ok a => Some a | _ => None end.

Record StorageOverride (Prog V1 : Type) := {
  contract_class_hash_by_address : DHashT → Z → option Z;
  contract_class_by_address : DHashT → Z → option (ContractClass Prog V1);
  contract_class_by_class_hash : DHashT → Z → option (ContractClass Prog V1);
  contract_abi_by_address : DHashT → Z → option ContractAbi;
  contract_abi_by_class_hash : DHashT → Z → option ContractAbi;
  nonce : DHashT → Z → option Z;
}.
Arguments contract_class_hash_by_address {Prog V1}. Arguments contract_class_by_address {Prog V1}.
Arguments contract_class_by_class_hash {Prog V1}. Arguments contract_abi_by_address {Prog V1}.
Arguments contract_abi_by_class_hash {Prog V1}. Arguments nonce {Prog V1}.

Record OverrideHandle (Prog V1 : Type) := {
  schemas : list (StarknetStorageSchemaVersion * StorageOverride Prog V1);
  fallback : StorageOverride Prog V1;
}.
Arguments schemas {Prog V1}. Arguments fallback {Prog V1}.

Section Overrides.
Context {E Prog V1 : Type} `{sc : StorageCodecs Prog V1} `{sp : StorageProvider E Prog V1}.

(** ** Keys *)

Definition storage_prefix_build (module storage : bytes) : bytes := twox_128 module ++ twox_128 storage.
(** [Identity::hash] is the identity. *)
Definition storage_key_build (prefix key : bytes) : bytes := prefix ++ key.

(** ** Schema V1: raw keys *)

Definition query_storage {T} (decode : bytes → option T) (block_hash : DHashT) (key : bytes) : option T :=
  match client_storage block_hash key with
  | Ok (Some data) => decode data
  | _ => None
  end.

Definition v1_class_hash (block_hash : DHashT) (address : Z) : option Z :=
  query_storage dec_hash block_hash
    (storage_key_build (storage_prefix_build PALLET_STARKNET STARKNET_CONTRACT_CLASS_HASH) (enc_hash address)).
Definition v1_class (block_hash : DHashT) (class_hash : Z) : option (ContractClass Prog V1) :=
  query_storage dec_class block_hash
    (storage_key_build (storage_prefix_build PALLET_STARKNET STARKNET_CONTRACT_CLASS) (enc_hash class_hash)).
Definition v1_abi (block_hash : DHashT) (class_hash : Z) : option ContractAbi :=
  query_storage dec_abi block_hash
    (storage_key_build (storage_prefix_build PALLET_STARKNET STARKNET_CONTRACT_ABI) (enc_hash class_hash)).
(** The nonce of an undeployed contract is not looked up; a deployed contract
    without a nonce has nonce 0. *)
Definition v1_nonce (block_hash : DHashT) (address : Z) : option Z :=
  _ ← v1_class_hash block_hash address;
  match query_storage dec_hash block_hash
          (storage_key_build (storage_prefix_build PALLET_STARKNET STARKNET_NONCE) (enc_hash address)) with
  | Some nonce => Some nonce
  | None => Some 0
  end.

Definition SchemaV1Override : StorageOverride Prog V1 := {|
  contract_class_hash_by_address := v1_class_hash;
  contract_class_by_address bh address := class_hash ← v1_class_hash bh address; v1_class bh class_hash;
  contract_class_by_class_hash := v1_class;
  contract_abi_by_address bh address := class_hash ← v1_class_hash bh address; v1_abi bh class_hash;
  contract_abi_by_class_hash := v1_abi;
  nonce := v1_nonce;
|}.

(** ** Runtime API: the getters of the pallet on the block's state *)

Definition api_class_hash (bh : DHashT) (address : Z) : Outcome E Z :=
  st ← runtime_state bh; Ok (pallet.contract_class_hash_by_address st address).
Definition api_class (bh : DHashT) (class_hash : Z) : Outcome E (option (ContractClass Prog V1)) :=
  st ← runtime_state bh; Ok (pallet.contract_class_by_class_hash st class_hash).
Definition api_abi (bh : DHashT) (class_hash : Z) : Outcome E (option ContractAbi) :=
  st ← runtime_state bh; Ok (pallet.contract_abi_by_class_hash st class_hash).
Definition api_nonce (bh : DHashT) (address : Z) : Outcome E Z :=
  st ← runtime_state bh; Ok (pallet.nonce st address).

Definition RuntimeApiStorageOverride : StorageOverride Prog V1 := {|
  contract_class_hash_by_address bh address := ok (api_class_hash bh address);
  contract_class_by_address bh address :=
    contract_class_hash ← ok (api_class_hash bh address); mjoin (ok (api_class bh contract_class_hash));
  contract_class_by_class_hash bh class_hash := mjoin (ok (api_class bh class_hash));
  contract_abi_by_address bh address :=
    contract_class_hash ← ok (api_class_hash bh address); mjoin (ok (api_abi bh contract_class_hash));
  contract_abi_by_class_hash bh class_hash := mjoin (ok (api_abi bh class_hash));
  nonce bh address := ok (api_nonce bh address);
|}.

(** ** The handle *)

Definition overrides_handle : OverrideHandle Prog V1 :=
  {| schemas := [(Schema_V1, SchemaV1Override)]; fallback := RuntimeApiStorageOverride |}.

Fixpoint schemas_get (l : list (StarknetStorageSchemaVersion * StorageOverride Prog V1))
    (v : StarknetStorageSchemaVersion) : option (StorageOverride Prog V1) :=
  match l with
  | [] => None
  | (v', o) :: l => if decide (v' = v) then Some o else schemas_get l v
  end.

Definition for_schema_version (self : OverrideHandle Prog V1) (schema_version : StarknetStorageSchemaVersion)
    : StorageOverride Prog V1 :=
  match schemas_get (schemas self) schema_version with
  | Some storage_override => storage_override
  | None => fallback self
  end.

Definition onchain_storage_schema (hash : DHashT) : StarknetStorageSchemaVersion :=
  match client_storage hash PALLET_STARKNET_SCHEMA with
  | Ok (Some bs) => default Schema_Undefined (dec_schema bs)
  | _ => Schema_Undefined
  end.

Definition for_block_hash (self : OverrideHandle Prog V1) (block_hash : DHashT) : StorageOverride Prog V1 :=
  for_schema_version self (onchain_storage_schema block_hash).

(** ** FRAME's storage layout of block [h]

    A storage map of the runtime's pallet [Starknet] with the [Identity] hasher
    has its entries under twox128 of the pallet's name, twox128 of the item's name
    and the encoded key; the schema version is under its well-known key. *)
Definition frame_map_key (item : string) (key : bytes) : bytes :=
  twox_128 (bytes_of_string "Starknet") ++ twox_128 (bytes_of_string item) ++ key.

Record Layout (h : DHashT) (st : PalletState Prog V1) : Prop := {
  layout_runtime : runtime_state h = Ok st;
  layout_schema : client_storage h (bytes_of_string ":starknet_schema") = Ok (enc_schema <$> StorageSchema st);
  layout_class_hashes a :
    client_storage h (frame_map_key "ContractClassHashes" (enc_hash a)) = Ok (enc_hash <$> ContractClassHashes st !! a);
  layout_classes c :
    client_storage h (frame_map_key "ContractClasses" (enc_hash c)) = Ok (enc_class <$> ContractClasses st !! c);
  layout_abis c :
    client_storage h (frame_map_key "ContractAbis" (enc_hash c)) = Ok (enc_abi <$> ContractAbis st !! c);
  layout_nonces a :
    client_storage h (frame_map_key "Nonces" (enc_hash a)) = Ok (enc_hash <$> Nonces st !! a);
}.
End Overrides.

(** ** Properties *)

Section Properties.
Context {E Prog V1 : Type} `{sc : StorageCodecs Prog V1} {Hsc : StorageCodecsSpec sc} `{sp : StorageProvider E Prog V1}.
Variable h : DHashT.
Variable st : PalletState Prog V1.
Hypothesis HL : Layout h st.

Lemma query_storage_item {T} (enc : T → bytes) (dec : bytes → option T) key (o : option T) :
  (∀ x, dec (enc x) = Some x) → client_storage h key = Ok (enc <$> o) → query_storage dec h key = o.
Proof. intros Hd Hk. unfold query_storage. rewrite Hk. destruct o; simpl; [apply Hd|done]. Qed.

Lemma v1_class_hash_spec a : v1_class_hash h a = ContractClassHashes st !! a.
Proof.
  apply (query_storage_item enc_hash); [apply dec_enc_hash|].
  unfold storage_key_build, storage_prefix_build. rewrite <- (assoc_L (++)). apply (layout_class_hashes _ _ HL).
Qed.

Lemma v1_class_spec c : v1_class h c = ContractClasses st !! c.
Proof.
  apply (query_storage_item enc_class); [apply dec_enc_class|].
  unfold storage_key_build, storage_prefix_build. rewrite <- (assoc_L (++)). apply (layout_classes _ _ HL).
Qed.

Lemma v1_abi_spec c : v1_abi h c = ContractAbis st !! c.
Proof.
  apply (query_storage_item enc_abi); [apply dec_enc_abi|].
  unfold storage_key_build, storage_prefix_build. rewrite <- (assoc_L (++)). apply (layout_abis _ _ HL).
Qed.

Lemma v1_nonce_spec a :
  v1_nonce h a = match ContractClassHashes st !! a with Some _ => Some (pallet.nonce st a) | None => None end.
Proof.
  unfold v1_nonce. rewrite v1_class_hash_spec. destruct (ContractClassHashes st !! a); [|done]. simpl.
  rewrite (query_storage_item enc_hash dec_hash _ (Nonces st !! a)).
  - unfold pallet.nonce. by destruct (Nonces st !! a).
  - apply dec_enc_hash.
  - unfold storage_key_build, storage_prefix_build. rewrite <- (assoc_L (++)). apply (layout_nonces _ _ HL).
Qed.

Lemma for_block_hash_v1 :
  StorageSchema st = Some Schema_V1 → for_block_hash overrides_handle h = SchemaV1Override.
Proof.
  intros Hs. unfold for_block_hash, onchain_storage_schema, PALLET_STARKNET_SCHEMA.
  rewrite (layout_schema _ _ HL), Hs. done.
Qed.
End Properties.

(** Rewrites the raw readings of a block with layout [HL] to its state. *)
Ltac read_v1 HL :=
  rewrite ?(v1_class_hash_spec _ _ HL), ?(v1_class_spec _ _ HL), ?(v1_abi_spec _ _ HL), ?(v1_nonce_spec _ _ HL).

Section Agreement.
Context `{Hlibs : !FeltLibsSpec libs}.
Context {E Prog V1 : Type} `{sc : StorageCodecs Prog V1} {Hsc : StorageCodecsSpec sc} `{sp : StorageProvider E Prog V1}.
Context `{dc : DigestCodecs Prog V1} {Hdc : DigestCodecsSpec dc}.

(** After any block of a chain, the override chosen for the block is the one of
    schema V1, and for a deployed contract both ways of reading the storage give
    the same answers, those of the pallet's state. *)
Theorem overrides_agree n (st : PalletState Prog V1) h a c :
  Chain n st → Layout h st → ContractClassHashes st !! a = Some c →
  for_block_hash overrides_handle h = SchemaV1Override ∧
  Forall (λ o : StorageOverride Prog V1,
    contract_class_hash_by_address o h a = Some c ∧
    contract_class_by_address o h a = ContractClasses st !! c ∧
    contract_abi_by_address o h a = ContractAbis st !! c ∧
    nonce o h a = Some (default 0 (Nonces st !! a)) ∧
    (∀ c', contract_class_by_class_hash o h c' = ContractClasses st !! c' ∧
           contract_abi_by_class_hash o h c' = ContractAbis st !! c')) [SchemaV1Override; RuntimeApiStorageOverride].
Proof.
  intros Hc HL Ha. split.
  { apply (for_block_hash_v1 h st HL). by apply Chain_invariant in Hc as (_ & ? & _). }
  pose proof (layout_runtime _ _ HL) as Hr.
  apply Forall_cons; split; [|apply Forall_singleton]; simpl.
  - read_v1 HL. rewrite Ha. simpl. read_v1 HL. repeat split; by read_v1 HL.
  - unfold api_class_hash, api_class, api_abi, api_nonce. rewrite Hr. simpl.
    unfold pallet.contract_class_hash_by_address. rewrite Ha. by simpl.
Qed.

(** For a contract that is not deployed they differ: the raw reading finds
    nothing, the runtime API answers with class hash 0 and the stored or default
    nonce. *)
Theorem overrides_differ_undeployed n (st : PalletState Prog V1) h a :
  Chain n st → Layout h st → ContractClassHashes st !! a = None →
  contract_class_hash_by_address (for_block_hash overrides_handle h) h a = None ∧
  nonce (for_block_hash overrides_handle h) h a = None ∧
  contract_class_hash_by_address (for_schema_version overrides_handle Schema_Undefined) h a = Some 0 ∧
  nonce (for_schema_version overrides_handle Schema_Undefined) h a = Some (default 0 (Nonces st !! a)).
Proof.
  intros Hc HL Ha.
  rewrite (for_block_hash_v1 h st HL) by (by apply Chain_invariant in Hc as (_ & ? & _)).
  simpl. read_v1 HL. rewrite Ha.
  unfold api_class_hash, api_nonce. rewrite (layout_runtime _ _ HL). simpl.
  unfold pallet.contract_class_hash_by_address. by rewrite Ha.
Qed.
End Agreement.

(** ** Witnesses: a storage with the genesis state, its keys hashed by length *)

Definition storage_codecs_model {Prog V1} `{Countable Prog, Countable V1} : StorageCodecs Prog V1 := {|
  twox_128 s := [Z.of_nat (length s)];
  enc_hash := enc1; dec_hash := dec1; enc_class := enc1; dec_class := dec1; enc_abi := enc1; dec_abi := dec1;
|}.
Lemma storage_codecs_model_spec {Prog V1} `{Countable Prog, Countable V1} :
  StorageCodecsSpec (storage_codecs_model (Prog := Prog) (V1 := V1)).
Proof. split; intros; apply dec1_enc1. Qed.

Definition provider_model {Prog V1} `{Countable Prog, Countable V1} (st : PalletState Prog V1)
    : StorageProvider unit Prog V1 := {|
  client_storage _ key := Ok
    match key with
    | 58 :: _ => enc_schema <$> StorageSchema st
    | 8 :: 19 :: k => a ← dec1 k; enc1 <$> ContractClassHashes st !! a
    | 8 :: 15 :: k => c ← dec1 k; enc1 <$> ContractClasses st !! c
    | 8 :: 12 :: k => c ← dec1 k; enc1 <$> ContractAbis st !! c
    | 8 :: 6 :: k => a ← dec1 k; enc1 <$> Nonces st !! a
    | _ => None
    end;
  runtime_state _ := Ok st;
|}.

Lemma provider_model_layout {Prog V1} `{Countable Prog, Countable V1} (st : PalletState Prog V1) h : Layout (sc := storage_codecs_model) (sp := provider_model st) h st.
Proof.
  split; try done; intros x; unfold frame_map_key;
    cbn -[enc1 dec1]; by rewrite dec1_enc1.
Qed.

Lemma example_genesis_chain : Chain (dc := unit_codecs) 0 example_genesis.
Proof. apply Chain_genesis. Qed.

Lemma overrides_agree_witness :
  let o := for_block_hash (sp := provider_model example_genesis)
    (overrides_handle (sc := storage_codecs_model) (sp := provider_model example_genesis)) (DHash 5) in
  contract_class_hash_by_address o (DHash 5) 1 = Some 2 ∧ nonce o (DHash 5) 1 = Some 0.
Proof.
  destruct (overrides_agree (sc := storage_codecs_model) (Hsc := storage_codecs_model_spec)
    (sp := provider_model example_genesis) (Hdc := unit_codecs_spec) 0 example_genesis (DHash 5) 1 2 example_genesis_chain
    (provider_model_layout example_genesis (DHash 5))) as (-> & Ho).
  - vm_compute. reflexivity.
  - apply Forall_cons in Ho as ((H1 & _ & _ & H2 & _) & _). split; [exact H1|].
    rewrite H2. vm_compute. reflexivity.
Defined.

Lemma overrides_differ_undeployed_witness :
  contract_class_hash_by_address
    (for_schema_version (overrides_handle (sc := storage_codecs_model) (sp := provider_model example_genesis))
       Schema_Undefined) (DHash 5) 3 = Some 0.
Proof.
  refine (proj1 (proj2 (proj2 (overrides_differ_undeployed (sc := storage_codecs_model)
    (Hsc := storage_codecs_model_spec) (sp := provider_model example_genesis) (Hdc := unit_codecs_spec)
    0 example_genesis (DHash 5) 3 example_genesis_chain (provider_model_layout example_genesis (DHash 5)) _)))).
  vm_compute. reflexivity.
Defined.
