(* ===== verification/Fetch.v ===== *)
(** * Fetch: downloading a block with its state update and classes
    ([client/sync/src/fetch/fetchers.rs])

    The sequencer gateway is the class [Gateway]; its answers may change from one
    attempt to the next, so a request carries the number of the attempt. *)

From S2P Require Import Prelude Felt Transactions CoreTx Broadcast Blocks Db Tries Commitments Convert.
From S2P Require Import MappingSync RpcEvents RpcClient ContractClasses Pallet Codecs Overrides.

(** The errors of the sequencer's specification, without their messages. *)
Inductive StarknetError :=
| SE_FailedToReceiveTransaction | SE_ContractNotFound | SE_BlockNotFound | SE_InvalidTransactionIndex
| SE_ClassHashNotFound | SE_TransactionHashNotFound | SE_PageSizeTooBig | SE_NoBlocks | SE_InvalidContinuationToken
| SE_TooManyKeysInFilter | SE_ContractError | SE_ClassAlreadyDeclared | SE_InvalidTransactionNonce
| SE_InsufficientMaxFee | SE_InsufficientAccountBalance | SE_ValidationFailure | SE_CompilationFailed
| SE_ContractClassSizeIsTooLarge | SE_NonAccount | SE_DuplicateTx | SE_CompiledClassHashMismatch
| SE_UnsupportedTxVersion | SE_UnsupportedContractClassVersion | SE_UnexpectedError | SE_NoTraceAvailable
| SE_TransactionExecutionError.
Inductive ProviderError := PE_StarknetError (e : StarknetError) | PE_RateLimited | PE_ArrayLengthMismatch | PE_Other.
Inductive L2SyncError := L2_Provider (e : ProviderError) | L2_FetchRetryLimit.

Inductive SequencerBlockId := Seq_Number (n : Z) | Seq_Pending.

(** The sequencer's answers at the [attempt]-th request. *)
Class Gateway := {
  get_block : nat → SequencerBlockId → Outcome ProviderError p.Block;
  get_state_update : nat → SequencerBlockId → Outcome ProviderError Provider.StateUpdate;
  get_class : nat → (* block hash *) Z → (* class hash *) Z → Outcome ProviderError rpc.ContractClass;
  get_block_id_by_hash : nat → Z → Outcome ProviderError Z;
}.

(** [JoinSet]: the tasks' results arrive in any order. *)
Class JoinSet := join_order : ∀ {A}, list A → list A.
Class JoinSetSpec (js : JoinSet) : Prop := join_order_perm A (l : list A) : join_order l ≡ₚ l.

(** [Itertools::unique]: the first occurrences. *)
Fixpoint unique_from (seen : list Z) (l : list Z) : list Z :=
  match l with
  | [] => []
  | x :: l => if bool_decide (x ∈ seen) then unique_from seen l else x :: unique_from (x :: seen) l
  end.
Definition unique : list Z → list Z := unique_from [].

Section Fetch.
Context {E1 E2 LProg Prog V1 Info : Type} `{gw : Gateway} `{js : JoinSet} `{chain : ChainBackend E1}.
Context `{cl : ClassLibs rpc.LegacyContractAbiEntry LProg Prog V1 Info} `{libs : FeltLibs}.
Context `{sc : StorageCodecs Prog V1} `{sp : StorageProvider E2 Prog V1}.
Abbreviation M := (Outcome L2SyncError).

Definition block_hash_deoxys (state_update : Provider.StateUpdate) : M Z :=
  unwrap_opt (Provider.block_hash state_update).

(** The conversion of the hash through its bits is the identity. *)
Definition block_hash_substrate (block_number : Z) : M (option DHashT) :=
  unwrap (client_hash (saturated_u32 block_number)).

Definition fetch_block (attempt : nat) (block_number : Z) : M p.Block :=
  map_err L2_Provider (get_block attempt (Seq_Number block_number)).

Definition fetch_state_update (attempt : nat) (block_number : Z) : M Provider.StateUpdate :=
  map_err L2_Provider (get_state_update attempt (Seq_Number block_number)).

Definition fetch_class (attempt : nat) (class_hash block_hash : Z) : M (ContractClassData Prog V1) :=
  core_class ← map_err L2_Provider (get_class attempt block_hash class_hash);
  contract_class ← unwrap (ContractClassWrapper_try_from core_class);
  Ok {| ccd_hash := class_hash; ccd_contract_class := contract_class |}.

Definition is_missing_class (block_hash_substrate : DHashT) (class_hash : Z) : bool :=
  match contract_class_by_class_hash (for_schema_version overrides_handle Schema_Undefined)
          block_hash_substrate class_hash with
  | None => true
  | Some _ => false
  end.

Definition aggregate_classes (state_update : Provider.StateUpdate) : list Z :=
  let diff := Provider.state_diff state_update in
  unique (map Provider.class_hash (Provider.deployed_contracts diff) ++
          map Provider.decl_class_hash (Provider.declared_classes diff)).

Definition fetch_missing_classes (state_update : Provider.StateUpdate) (block_hash_substrate : DHashT) : list Z :=
  filter (λ class_hash, is_missing_class block_hash_substrate class_hash = true) (aggregate_classes state_update).

(** A task that panics makes the join panic; the first error that arrives is
    returned. *)
Definition fetch_class_update (attempt : nat) (state_update : Provider.StateUpdate) (block_number : Z)
    : M (list (ContractClassData Prog V1)) :=
  hash ← block_hash_substrate block_number;
  let missing_classes := match hash with
                         | Some block_hash_substrate => fetch_missing_classes state_update block_hash_substrate
                         | None => aggregate_classes state_update
                         end in
  mapM (λ class_hash, block_hash ← block_hash_deoxys state_update; fetch_class attempt class_hash block_hash)
    (join_order missing_classes).

Definition fetch_state_and_class_update (attempt : nat) (block_number : Z)
    : M (Provider.StateUpdate * list (ContractClassData Prog V1)) :=
  state_update ← fetch_state_update attempt block_number;
  class_update ← fetch_class_update attempt state_update block_number;
  Ok (state_update, class_update).

Abbreviation Fetched := (p.Block * Provider.StateUpdate * list (ContractClassData Prog V1))%type.

(** One turn of the loop: the two requests, joined. *)
Definition fetch_round (block_n : Z) (attempt : nat)
    : M p.Block * M (Provider.StateUpdate * list (ContractClassData Prog V1)) :=
  (fetch_block attempt block_n, fetch_state_and_class_update attempt block_n).

(** [block.err().or(state_update.err())] *)
Definition first_err {A B} (a : M A) (b : M B) : option L2SyncError :=
  match a with
  | Err e => Some e
  | _ => match b with Err e => Some e | _ => None end
  end.

Definition panics {E A} (m : Outcome E A) : bool := match m with Panic => true | _ => false end.

Definition MAX_RETRY : nat := 15.

(** Seconds slept after the [attempt]-th rate limit, [attempt >= 1]; the power
    does not overflow for the attempts that are made. *)
Definition delay (attempt : nat) : Z := 1 * Z.min (2 ^ (Z.of_nat attempt - 1)) 6.

(** The loop, with fuel; it returns the delays slept as well.  The fuel runs out
    ([None]) only if the loop makes more turns than [fuel]. *)
Fixpoint fetch_loop (fuel : nat) (block_n : Z) (attempt : nat) (slept : list Z) : option (M Fetched * list Z) :=
  match fuel with
  | O => None
  | S fuel =>
      let '(block, state_update) := fetch_round block_n attempt in
      if panics block || panics state_update then Some (Panic, slept)
      else match first_err block state_update with
      | Some (L2_Provider PE_RateLimited) =>
          let attempt := S attempt in
          if (MAX_RETRY <=? attempt)%nat then Some (Err L2_FetchRetryLimit, slept)
          else fetch_loop fuel block_n attempt (slept ++ [delay attempt])
      | _ =>
          Some (block ← block; '(state_update, class_update) ← state_update;
                Ok (block, state_update, class_update), slept)
      end
  end.

Definition fetch_block_and_updates (block_n : Z) : option (M Fetched * list Z) :=
  fetch_loop MAX_RETRY block_n 0 [].

(** [fetch_apply_genesis_block]: errors are strings. *)
Definition fetch_apply_genesis_block (convert : p.Block → Outcome Empty_set DeoxysBlock) : Outcome string DeoxysBlock :=
  block ← map_err (λ _, "failed to get block"%string) (get_block 0 (Seq_Number 0));
  unwrap (convert block).

(** ** Specification of the loop *)

Definition rate_limited (block_n : Z) (attempt : nat) : Prop :=
  let '(block, state_update) := fetch_round block_n attempt in
  panics block || panics state_update = false ∧
  first_err block state_update = Some (L2_Provider PE_RateLimited).

Definition round_result (block_n : Z) (attempt : nat) : M Fetched :=
  let '(block, state_update) := fetch_round block_n attempt in
  if panics block || panics state_update then Panic
  else block ← block; '(state_update, class_update) ← state_update; Ok (block, state_update, class_update).
End Fetch.

(** ** Properties *)

Lemma unique_from_spec l seen x : x ∈ unique_from seen l ↔ x ∈ l ∧ x ∉ seen.
Proof.
  revert seen. induction l as [|y l IH]; intros seen; simpl; [set_solver|].
  case_bool_decide as Hy; [|set_unfold]; rewrite IH; [set_solver|].
  destruct (decide (x = y)); set_solver.
Qed.

Lemma unique_from_NoDup l seen : NoDup (unique_from seen l).
Proof.
  revert seen. induction l as [|y l IH]; intros seen; simpl; [constructor|].
  case_bool_decide; [apply IH|]. constructor; [|apply IH].
  rewrite unique_from_spec. set_solver.
Qed.

Section Properties.
Context {E1 E2 LProg Prog V1 Info : Type} `{gw : Gateway} `{js : JoinSet} {Hjs : JoinSetSpec js}.
Context `{chain : ChainBackend E1} `{cl : ClassLibs rpc.LegacyContractAbiEntry LProg Prog V1 Info}.
Context `{libs : FeltLibs} `{sc : StorageCodecs Prog V1} `{sp : StorageProvider E2 Prog V1}.

Lemma fetch_loop_spec block_n fuel attempt slept :
  (attempt + fuel = MAX_RETRY)%nat → (0 < fuel)%nat →
  ∃ r k,
    fetch_loop fuel block_n attempt slept = Some (r, slept ++ map delay (seq (S attempt) k)) ∧
    (k < fuel)%nat ∧
    (∀ j, (attempt ≤ j < attempt + k)%nat → rate_limited block_n j) ∧
    (rate_limited block_n (attempt + k) ∧ (S k = fuel)%nat ∧ r = Err L2_FetchRetryLimit ∨
     ¬ rate_limited block_n (attempt + k) ∧ r = round_result block_n (attempt + k)).
Proof.
  revert attempt slept. induction fuel as [|fuel IH]; intros attempt slept Hf Hpos; [lia|].
  assert ((∃ r, fetch_loop (S fuel) block_n attempt slept = Some (r, slept) ∧
             (rate_limited block_n attempt ∧ (S attempt = MAX_RETRY)%nat ∧ r = Err L2_FetchRetryLimit ∨
              ¬ rate_limited block_n attempt ∧ r = round_result block_n attempt)) ∨
          (rate_limited block_n attempt ∧ (S attempt < MAX_RETRY)%nat ∧
           fetch_loop (S fuel) block_n attempt slept
             = fetch_loop fuel block_n (S attempt) (slept ++ [delay (S attempt)])))
    as [(r & Hr & Hcase)|(Hl & Hlt & Heq)].
  { cbn [fetch_loop]. unfold rate_limited, round_result.
    destruct (fetch_round block_n attempt) as [b su]. destruct (panics b || panics su) eqn:Hp.
    { left. eexists. split; [done|]. right. split; [|done]. by intros []. }
    destruct (first_err b su) as [[[]|]|] eqn:He;
      try (left; eexists; split; [done|]; right; split; [by intros []|done]).
    destruct (Nat.leb_spec MAX_RETRY (S attempt)).
    - left. eexists. split; [done|]. left. split_and!; try done; lia.
    - right. done. }
  - exists r, 0%nat. simpl. rewrite app_nil_r, Nat.add_0_r. split; [done|]. split; [lia|].
    split; [intros; lia|]. destruct Hcase as [(? & ? & ?)|?]; [left|by right]. split_and!; [done|lia|done].
  - rewrite Heq. destruct (IH (S attempt) (slept ++ [delay (S attempt)])) as (r & k & Hr & Hk & Hbefore & Hlast);
      [lia..|].
    exists r, (S k). rewrite Hr, <- (assoc_L (++)). split; [done|]. split; [lia|].
    replace (attempt + S k)%nat with (S attempt + k)%nat by lia. split.
    + intros j Hj. destruct (decide (j = attempt)) as [->|]; [done|]. apply Hbefore. lia.
    + destruct Hlast as [(? & ? & ?)|?]; [left|by right]. split_and!; [done|lia|done].
Qed.

Lemma delays_bounded k : (k < MAX_RETRY)%nat → foldr Z.add 0 (map delay (seq 1 k)) ≤ 73.
Proof. unfold MAX_RETRY. intros Hk. do 15 (destruct k as [|k]; [vm_compute; congruence|]). lia. Qed.

(** C28: Fetching a block always comes to an end: after at most 15 turns and 73
    seconds of sleep.  It gives the result of the first turn that is not rate
    limited, or the retry limit error when all 15 are. *)
Theorem fetch_terminates block_n :
  ∃ r slept,
    fetch_block_and_updates block_n = Some (r, slept) ∧
    foldr Z.add 0 slept ≤ 73 ∧
    ((∀ j, (j < MAX_RETRY)%nat → rate_limited block_n j) ∧ r = Err L2_FetchRetryLimit ∨
     ∃ k, (k < MAX_RETRY)%nat ∧ length slept = k ∧ (∀ j, (j < k)%nat → rate_limited block_n j) ∧
       ¬ rate_limited block_n k ∧ r = round_result block_n k).
Proof.
  destruct (fetch_loop_spec block_n MAX_RETRY 0 []) as (r & k & Hr & Hk & Hbefore & Hlast); [done|unfold MAX_RETRY; lia|].
  exists r, (map delay (seq 1 k)). split; [done|]. split; [by apply delays_bounded|].
  destruct Hlast as [(Hl & Hfuel & Herr)|(Hl & Hres)].
  - left. split; [|done]. intros j Hj. destruct (decide (j = k)) as [->|]; [done|]. apply Hbefore. lia.
  - right. exists k. rewrite length_map, length_seq. split; [done|]. split; [done|].
    split; [|done]. intros j Hj. apply Hbefore. lia.
Qed.

Lemma fetch_class_hash attempt c bh d : fetch_class attempt c bh = Ok d → ccd_hash d = c.
Proof. unfold fetch_class. intros H. by ok_inv. Qed.

(** The class hashes to download, given the local hash of the block. *)
Definition missing_in (su : Provider.StateUpdate) (hash : option DHashT) : list Z :=
  match hash with Some h => fetch_missing_classes su h | None => aggregate_classes su end.

Lemma missing_in_NoDup su hash : NoDup (missing_in su hash).
Proof. destruct hash; [apply NoDup_filter|]; apply unique_from_NoDup. Qed.

Lemma is_missing_class_spec h c :
  is_missing_class h c = true ↔ ∀ st, runtime_state h = Ok st → ContractClasses st !! c = None.
Proof.
  unfold is_missing_class; simpl. unfold api_class.
  destruct (runtime_state h) as [st| |]; simpl; [|by split..].
  unfold pallet.contract_class_by_class_hash. destruct (ContractClasses st !! c) eqn:Hc; split; try done.
  - intros H. specialize (H st eq_refl). congruence.
  - by intros _ ? [= <-].
Qed.

Lemma missing_in_spec su hash c :
  c ∈ missing_in su hash ↔
  (c ∈ map Provider.class_hash (Provider.deployed_contracts (Provider.state_diff su)) ∨
   c ∈ map Provider.decl_class_hash (Provider.declared_classes (Provider.state_diff su))) ∧
  ∀ h st, hash = Some h → runtime_state h = Ok st → ContractClasses st !! c = None.
Proof.
  rewrite <- elem_of_app. destruct hash as [h|]; simpl;
    [unfold fetch_missing_classes; rewrite list_elem_of_filter, is_missing_class_spec|];
    unfold aggregate_classes, unique; rewrite unique_from_spec; set_unfold; naive_solver.
Qed.

Lemma Forall2_fmap_hashes attempt su l classes :
  Forall2 (λ c d, (bh ← block_hash_deoxys su; fetch_class attempt c bh) = Ok d) l classes →
  map ccd_hash classes = l.
Proof.
  induction 1 as [|c d l k Hd _ IH]; [done|]. simpl. ok_inv. f_equal; [|done]. by eapply fetch_class_hash.
Qed.

(** The class hashes that an update brings: those of the contracts it deploys and those
    it declares with a compiled class.  The classes of [old_declared_contracts] are not
    among them. *)
Definition class_hashes (su : Provider.StateUpdate) : list Z :=
  map Provider.class_hash (Provider.deployed_contracts (Provider.state_diff su)) ++
  map Provider.decl_class_hash (Provider.declared_classes (Provider.state_diff su)).

Definition with_old_declared (old : list Z) (su : Provider.StateUpdate) : Provider.StateUpdate :=
  let d := Provider.state_diff su in {|
    Provider.block_hash := Provider.block_hash su; Provider.new_root := Provider.new_root su;
    Provider.old_root := Provider.old_root su;
    Provider.state_diff := {| Provider.storage_diffs := Provider.storage_diffs d;
      Provider.deployed_contracts := Provider.deployed_contracts d; Provider.old_declared_contracts := old;
      Provider.declared_classes := Provider.declared_classes d; Provider.nonces := Provider.nonces d;
      Provider.replaced_classes := Provider.replaced_classes d |} |}.

Lemma classes_fetched attempt su n classes :
  fetch_class_update attempt su n = Ok classes →
  NoDup (map ccd_hash classes) ∧
  (∀ c, c ∈ map ccd_hash classes ↔ c ∈ class_hashes su ∧
     ∀ h st, client_hash (saturated_u32 n) = Ok (Some h) → runtime_state h = Ok st → ContractClasses st !! c = None) ∧
  Forall (λ d, ∃ bh core, Provider.block_hash su = Some bh ∧ get_class attempt bh (ccd_hash d) = Ok core ∧
     ContractClassWrapper_try_from core = Ok (ccd_contract_class d)) classes.
Proof.
  unfold fetch_class_update, block_hash_substrate. intros H. ok_inv.
  destruct (client_hash (saturated_u32 n)) as [o| |] eqn:Hc; simpl in *; try discriminate. simplify_eq.
  apply mapM_Ok_Forall2 in H.
  assert (map ccd_hash classes = join_order (missing_in su a)) as Hmap.
  { apply Forall2_fmap_hashes in H. exact H. }
  split_and!.
  - rewrite Hmap, join_order_perm. apply missing_in_NoDup.
  - intros c. rewrite Hmap, join_order_perm, missing_in_spec. unfold class_hashes. rewrite elem_of_app. split.
    + intros [? Hm]. split; [done|]. intros h st [= ->]. by apply Hm.
    + intros [? Hm]. split; [done|]. intros h st ->. by apply Hm.
  - apply Forall_forall. intros d Hd. apply list_elem_of_lookup in Hd as [i Hi].
    destruct (Forall2_lookup_r _ _ _ _ _ H Hi) as (c & _ & Hf). ok_inv.
    unfold block_hash_deoxys in *. destruct (Provider.block_hash su) as [bh|]; [|discriminate]. simplify_eq/=.
    pose proof (fetch_class_hash _ _ _ _ Hf) as ->. unfold fetch_class in Hf.
    destruct (get_class attempt a0 c) as [core| |] eqn:Hg; simpl in Hf; try discriminate.
    destruct (ContractClassWrapper_try_from core) eqn:Hw; simpl in Hf; try discriminate. simplify_eq/=.
    eauto.
Qed.
(** C29: The classes that come with a state update: on success exactly one for every
    class hash of the contracts it deploys and of the classes it declares with a
    compiled class and, if the block is already in the local chain, that its state does
    not hold; each is the conversion of the class that the sequencer gives for that hash.
    The Cairo classes that the update declares as [old_declared_contracts] play no part:
    whatever they are, the classes fetched are the same (the comment of the code
    counts them in). *)
Theorem class_update_complete attempt su n classes :
  fetch_class_update attempt su n = Ok classes →
  NoDup (map ccd_hash classes) ∧
  (∀ c, c ∈ map ccd_hash classes ↔
     (c ∈ map Provider.class_hash (Provider.deployed_contracts (Provider.state_diff su)) ∨
      c ∈ map Provider.decl_class_hash (Provider.declared_classes (Provider.state_diff su))) ∧
     ∀ h st, client_hash (saturated_u32 n) = Ok (Some h) → runtime_state h = Ok st → ContractClasses st !! c = None) ∧
  Forall (λ d, ∃ bh core, Provider.block_hash su = Some bh ∧ get_class attempt bh (ccd_hash d) = Ok core ∧
     ContractClassWrapper_try_from core = Ok (ccd_contract_class d)) classes ∧
  ∀ old, fetch_class_update attempt (with_old_declared old su) n = Ok classes.
Proof.
  intros H. destruct (classes_fetched attempt su n classes H) as (Hnd & Hc & Hall).
  split; [done|]. split; [|by split]. intros c. rewrite Hc. unfold class_hashes. by rewrite elem_of_app.
Qed.
End Properties.

(** ** Witness: a gateway that is rate limited once, and a block not yet in the
    local chain *)

Definition example_su : Provider.StateUpdate := {|
  Provider.block_hash := Some 50; Provider.new_root := Some 60; Provider.old_root := 0;
  Provider.state_diff := {| Provider.storage_diffs := ∅;
    Provider.deployed_contracts := [{| Provider.address := 10; Provider.class_hash := 20 |};
                                    {| Provider.address := 11; Provider.class_hash := 20 |}];
    Provider.old_declared_contracts := [];
    Provider.declared_classes := [{| Provider.decl_class_hash := 21; Provider.compiled_class_hash := 31 |}];
    Provider.nonces := ∅; Provider.replaced_classes := [] |} |}.

Definition gateway_model : Gateway := {|
  get_block attempt _ := if (attempt =? 0)%nat then Err PE_RateLimited else Ok example_p_block;
  get_state_update _ _ := Ok example_su;
  get_class _ _ _ := Ok (rpc.Legacy example_legacy_class);
  get_block_id_by_hash _ _ := Ok 0;
|}.
Definition join_model : JoinSet := λ A l, reverse l.
Lemma join_model_spec : JoinSetSpec join_model.
Proof. intros A l. apply reverse_Permutation. Qed.

Definition fetch_example : option (Outcome L2SyncError _ * list Z) :=
  fetch_block_and_updates (gw := gateway_model) (js := join_model) (chain := backend_model) (cl := rpc_class_libs)
    (sc := storage_codecs_model) (sp := provider_model pallet.empty_state) 7.

Example fetch_example_hashes :
  match fetch_example with
  | Some (Ok (_, _, classes), slept) => map ccd_hash classes = [21; 20] ∧ slept = [1]
  | _ => False
  end.
Proof. vm_compute. done. Qed.

Lemma class_update_complete_witness :
  ∃ classes,
    fetch_class_update (gw := gateway_model) (js := join_model) (chain := backend_model) (cl := rpc_class_libs)
      (sc := storage_codecs_model) (sp := provider_model pallet.empty_state) 0 example_su 7 = Ok classes ∧
    NoDup (map ccd_hash classes) ∧ 21 ∈ map ccd_hash classes.
Proof.
  destruct (fetch_class_update (gw := gateway_model) (js := join_model) (chain := backend_model) (cl := rpc_class_libs)
      (sc := storage_codecs_model) (sp := provider_model pallet.empty_state) 0 example_su 7) as [classes| |] eqn:E.
  - exists classes. split; [reflexivity|].
    destruct (class_update_complete (gw := gateway_model) (js := join_model) (Hjs := join_model_spec)
      (chain := backend_model) (cl := rpc_class_libs) (sc := storage_codecs_model)
      (sp := provider_model pallet.empty_state) 0 example_su 7 classes E) as (Hnd & Hc & _).
    split; [exact Hnd|]. apply Hc. split; [right; apply list_elem_of_here|].
    intros h st _ Hst. injection Hst as <-. reflexivity.
  - vm_compute in E. discriminate E.
  - vm_compute in E. discriminate E.
Defined.
