(* ===== verification/L1Sync.v ===== *)
(** * L1Sync: the shared synchronisation state and the state verified on L1
    ([client/sync/src/l1.rs], [utils/utility.rs], [reorgs/lib.rs] and the statics of
    [l2.rs])

    The statics behind locks are the fields of [SyncState]; a task that takes a
    lock, reads or writes and releases it is one operation on the record. *)

From Stdlib Require Import Ascii.
From S2P Require Import Prelude Felt Transactions Blocks Convert.
#[local] Open Scope Z_scope.

(** ** The shared state *)

Record L1StateUpdate := { l1_block_number : Z; l1_global_root : Z; l1_block_hash : Z }.
Record L2StateUpdate := { l2_block_number : Z; l2_global_root : Z; l2_block_hash : Z }.

Inductive SyncStatus := SyncVerifiedState | SyncUnverifiedState | SyncPendingState.

Record SyncState := {
  ETHEREUM_STATE_UPDATE : L1StateUpdate;
  STARKNET_STATE_UPDATE : L2StateUpdate;
  SYNC_STATUS : SyncStatus;
  STARKNET_HIGHEST_BLOCK_HASH_AND_NUMBER : Z * Z;
  STARKNET_PENDING_BLOCK : option DeoxysBlock;
  STARKNET_PENDING_STATE_UPDATE : option convert.PendingStateUpdate;
}.

Definition SyncState_init : SyncState := {|
  ETHEREUM_STATE_UPDATE := {| l1_block_number := 0; l1_global_root := 0; l1_block_hash := 0 |};
  STARKNET_STATE_UPDATE := {| l2_block_number := 0; l2_global_root := 0; l2_block_hash := 0 |};
  SYNC_STATUS := SyncVerifiedState;
  STARKNET_HIGHEST_BLOCK_HASH_AND_NUMBER := (0, 0);
  STARKNET_PENDING_BLOCK := None;
  STARKNET_PENDING_STATE_UPDATE := None;
|}.

Definition get_highest_block_hash_and_number (s : SyncState) : Z * Z := STARKNET_HIGHEST_BLOCK_HASH_AND_NUMBER s.
Definition get_pending_block (s : SyncState) : option DeoxysBlock := STARKNET_PENDING_BLOCK s.
Definition get_pending_state_update (s : SyncState) : option convert.PendingStateUpdate :=
  STARKNET_PENDING_STATE_UPDATE s.

Definition update_l1 (state_update : L1StateUpdate) (s : SyncState) : SyncState := {|
  ETHEREUM_STATE_UPDATE := state_update;
  STARKNET_STATE_UPDATE := STARKNET_STATE_UPDATE s;
  SYNC_STATUS := SYNC_STATUS s;
  STARKNET_HIGHEST_BLOCK_HASH_AND_NUMBER := STARKNET_HIGHEST_BLOCK_HASH_AND_NUMBER s;
  STARKNET_PENDING_BLOCK := STARKNET_PENDING_BLOCK s;
  STARKNET_PENDING_STATE_UPDATE := STARKNET_PENDING_STATE_UPDATE s;
|}.

Definition update_l2 (state_update : L2StateUpdate) (s : SyncState) : SyncState := {|
  ETHEREUM_STATE_UPDATE := ETHEREUM_STATE_UPDATE s;
  STARKNET_STATE_UPDATE := state_update;
  SYNC_STATUS := if l1_block_number (ETHEREUM_STATE_UPDATE s) <=? l2_block_number state_update
                 then SyncUnverifiedState else SYNC_STATUS s;
  STARKNET_HIGHEST_BLOCK_HASH_AND_NUMBER := STARKNET_HIGHEST_BLOCK_HASH_AND_NUMBER s;
  STARKNET_PENDING_BLOCK := STARKNET_PENDING_BLOCK s;
  STARKNET_PENDING_STATE_UPDATE := STARKNET_PENDING_STATE_UPDATE s;
|}.

(** ** Reading the core contract *)

(** The answers of the Ethereum node: a call of the core contract with the given
    data, the latest block number, and the block numbers of the logs from a
    block on. *)
Class Ethereum := {
  eth_call : bytes → Outcome unit bytes;
  eth_block_number : Outcome unit Z;
  eth_get_logs : Z → Outcome unit (list (option Z));
}.

Definition hex_char (d : Z) : Ascii.ascii := Ascii.ascii_of_N (Z.to_N (if d <? 10 then 48 + d else 87 + d)).
(** [Display] of a byte string: [0x] and two lower-case digits a byte. *)
Fixpoint hex_encode (bs : bytes) : string :=
  match bs with
  | [] => ""
  | b :: bs => String (hex_char (b / 16)) (String (hex_char (b mod 16)) (hex_encode bs))
  end.
Definition Bytes_to_string (bs : bytes) : string := String "0"%char (String "x"%char (hex_encode bs)).

(** [u64::from_str_radix] with radix 16. *)
Fixpoint radix16_loop (acc : Z) (s : string) : option Z :=
  match s with
  | EmptyString => Some acc
  | String c s =>
      d ← hex_digit c;
      let acc := acc * 16 + d in
      if acc <=? u64_max then radix16_loop acc s else None
  end.
Definition from_str_radix16 (s : string) : option Z :=
  match s with EmptyString => None | _ => radix16_loop 0 s end.

Inductive L1Error := L1_Failed | L1_NoEvents | L1_NoBlockNumber.

Section L1.
Context `{libs : FeltLibs} `{eth : Ethereum}.
Abbreviation M := (Outcome L1Error).

(** The other prefixes and the suffix that the source trims do not occur. *)
Definition get_last_block_number : M Z :=
  result ← unwrap (eth_call [53; 190; 250; 93]);
  let hex_str := strip_0x (Bytes_to_string result) in
  unwrap_opt (from_str_radix16 hex_str).

Definition get_last_state_root : M Z :=
  result ← unwrap (eth_call [149; 136; 236; 162]);
  unwrap (Felt252Wrapper.from_hex_be (Bytes_to_string result)).

Definition get_last_block_hash : M Z :=
  result ← unwrap (eth_call [56; 45; 131; 227]);
  unwrap (Felt252Wrapper.from_hex_be (Bytes_to_string result)).

Definition get_initial_state : M L1StateUpdate :=
  block_number ← get_last_block_number;
  block_hash ← get_last_block_hash;
  global_root ← get_last_state_root;
  Ok {| l1_global_root := global_root; l1_block_number := block_number; l1_block_hash := block_hash |}.

(** [U64] subtraction panics when it underflows. *)
Definition get_last_event_block_number : M Z :=
  latest_block ← unwrap eth_block_number;
  from_block ← (if latest_block <? 6000 then Panic else Ok (latest_block - 6000));
  logs ← map_err (λ _, L1_Failed) (eth_get_logs from_block);
  match last logs with
  | Some last_log => ok_or L1_NoBlockNumber last_log
  | None => Err L1_NoEvents
  end.

(** ** Events of the core contract *)

(** [global_root] and [block_hash] are [U256], [block_number] is an [I256]. *)
Record LogStateUpdate := { log_global_root : Z; log_block_number : Z; log_block_hash : Z }.

Definition u256_to_starkfelt (u256 : Z) : Outcome string Z :=
  match StarkFelt_new (U256_to_big_endian u256) with
  | Some felt => Ok (be_decode felt)
  | None => Err "Failed to convert U256 to StarkFelt"%string
  end.

(** [low_u64]: the 64 low bits. *)
Definition convert_log_state_update (log : LogStateUpdate) : Outcome string L1StateUpdate :=
  block_number ← (if 0 <=? log_block_number log then Ok (Z.land (log_block_number log) u64_max)
                  else Err "Block number is negative"%string);
  global_root ← u256_to_starkfelt (log_global_root log);
  block_hash ← u256_to_starkfelt (log_block_hash log);
  Ok {| l1_block_number := block_number; l1_global_root := global_root; l1_block_hash := block_hash |}.

(** The stream's items in order; an item that is an error is logged. *)
Definition listen_and_update_state (events : list (Outcome unit LogStateUpdate)) (s : SyncState) : M SyncState :=
  foldM (λ s event_result,
    match event_result with
    | Ok log => format_event ← unwrap (convert_log_state_update log); Ok (update_l1 format_event s)
    | _ => Ok s
    end) s events.

(** [l1::sync]: returns without listening when the initial state cannot be read. *)
Definition l1_sync (events : Z → list (Outcome unit LogStateUpdate)) (s : SyncState) : M SyncState :=
  match get_initial_state with
  | Ok initial_state =>
      let s := update_l1 initial_state s in
      start_block ← unwrap get_last_event_block_number;
      listen_and_update_state (events start_block) s
  | Err _ => Ok s
  | Panic => Panic
  end.

(** ** Verifying the L2 state against the L1 *)

(** An answer of the node's own RPC: an error, or a result, decoded or not. *)
Inductive RpcAnswer := Ans_RequestFailed | Ans_NotJson | Ans_NoResult | Ans_Result (r : option L2StateUpdate).

Fixpoint state_update_attempts (attempts_left : nat) (answers : nat → RpcAnswer) (attempt : nat)
    : Outcome string L2StateUpdate :=
  match attempts_left with
  | O => Err "Maximum retries exceeded"%string
  | S remaining =>
      match answers attempt with
      | Ans_Result r => ok_or "deserialization failed"%string r
      | _ => state_update_attempts remaining answers (S attempt)
      end
  end.
Definition get_state_update_at (answers : nat → RpcAnswer) : Outcome string L2StateUpdate :=
  state_update_attempts 3 answers 0.

Definition verify_l1 (s : SyncState) (state_update : L1StateUpdate) (answers : nat → RpcAnswer) : Outcome string unit :=
  let starknet_state_block_number := l2_block_number (STARKNET_STATE_UPDATE s) in
  if starknet_state_block_number <? l1_block_number state_update then Err "Node still syncing"%string
  else
    current ← get_state_update_at answers;
    if (l2_block_number current =? l1_block_number state_update) &&
       (l2_global_root current =? l1_global_root state_update) &&
       (l2_block_hash current =? l1_block_hash state_update)
    then Ok tt else Err "Verification mismatch"%string.
End L1.

(** ** Reorganisations

    [reads k] is the highest known block hash when it is read for the [k]-th time;
    other tasks may change it between two reads.  [None]: out of fuel. *)
Fixpoint reorg_loop (fuel : nat) (parent_block_hash : Z) (reads : nat → Z) (k : nat) (new_lsbh : Z) : option bool :=
  match fuel with
  | O => None
  | S fuel =>
      if parent_block_hash =? new_lsbh then Some true
      else reorg_loop fuel parent_block_hash reads (S k) (reads k)
  end.

Definition reorg (fuel : nat) (block : p.Block) (reads : nat → Z) : option bool :=
  let last_synced_block_hash := reads 0%nat in
  if p.parent_block_hash block =? last_synced_block_hash then Some false
  else reorg_loop fuel (p.parent_block_hash block) reads 1 last_synced_block_hash.

(** ** Properties *)

Section Properties.
Context `{Hlibs : !FeltLibsSpec libs}.

Lemma u256_to_starkfelt_spec x :
  0 ≤ x < 2 ^ 256 →
  u256_to_starkfelt x = if x <? P then Ok x else Err "Failed to convert U256 to StarkFelt"%string.
Proof.
  intros Hx. unfold u256_to_starkfelt. rewrite u256_to_be_ok by done.
  rewrite starkfelt_new_ok by auto using be_encode_length with bytes.
  rewrite be_decode_encode by done. destruct (x <? P); [|done]. by rewrite be_decode_encode.
Qed.

(** A [LogStateUpdate] event becomes a state update exactly when its block number
    is not negative and its root and hash are field elements; the block number is
    then truncated to 64 bits. *)
Theorem log_state_update_spec log :
  0 ≤ log_global_root log < 2 ^ 256 → 0 ≤ log_block_hash log < 2 ^ 256 →
  if (0 <=? log_block_number log) && (log_global_root log <? P) && (log_block_hash log <? P)
  then convert_log_state_update log =
         Ok {| l1_block_number := log_block_number log mod 2 ^ 64;
               l1_global_root := log_global_root log; l1_block_hash := log_block_hash log |}
  else ∃ e, convert_log_state_update log = Err e.
Proof.
  intros Hr Hh. unfold convert_log_state_update. rewrite !u256_to_starkfelt_spec by done.
  destruct (0 <=? log_block_number log); simpl; [|by eauto].
  destruct (log_global_root log <? P); simpl; [|by eauto].
  destruct (log_block_hash log <? P); simpl; [|by eauto].
  replace u64_max with (Z.ones 64) by done. by rewrite Z.land_ones.
Qed.

(** The updates that a stream of events carries. *)
Definition event_updates (events : list (Outcome unit LogStateUpdate)) : list L1StateUpdate :=
  omap (λ e, match e with Ok log => match convert_log_state_update log with Ok u => Some u | _ => None end | _ => None end)
    events.

(** Listening leaves the last update of the stream as the verified state, and
    nothing else changed; it panics at the first event that cannot be converted,
    and skips the items that are errors. *)
Theorem l1_head_is_last_event events s :
  listen_and_update_state events s =
    if forallb (λ e, match e with Ok log => is_ok (convert_log_state_update log) | _ => true end) events
    then Ok (update_l1 (default (ETHEREUM_STATE_UPDATE s) (last (event_updates events))) s)
    else Panic.
Proof.
  unfold listen_and_update_state. revert s. induction events as [|e events IH]; intros s; simpl.
  { by destruct s. }
  destruct e as [log| |]; simpl; [|by rewrite IH..].
  destruct (convert_log_state_update log) as [u| |]; simpl; [|done..].
  rewrite IH. destruct (forallb _ events); [|done]. f_equal.
  unfold update_l1. rewrite last_cons. by destruct (last (event_updates events)).
Qed.
End Properties.

Lemma hex_digit_char d : 0 ≤ d < 16 → hex_digit (hex_char d) = Some d.
Proof.
  intros Hd. assert (d ∈ seqZ 0 16) as Hin by (apply elem_of_seqZ; lia). revert d Hin Hd.
  assert (Forall (λ d, hex_digit (hex_char d) = Some d) (seqZ 0 16)) as HF by (repeat constructor).
  rewrite Forall_forall in HF. intros d Hin _. by apply HF.
Qed.

Lemma foldl_be_ge bs acc : all_bytes bs → 0 ≤ acc → acc ≤ foldl (λ acc b, acc * 256 + b) acc bs.
Proof.
  intros Hb. revert acc. induction Hb as [|b bs Hb _ IH]; intros acc Hacc; simpl; [lia|].
  unfold is_byte in Hb. specialize (IH (acc * 256 + b)). lia.
Qed.

Lemma radix16_encode bs acc :
  all_bytes bs → 0 ≤ acc ≤ u64_max →
  radix16_loop acc (hex_encode bs) =
    let v := foldl (λ acc b, acc * 256 + b) acc bs in if v <=? u64_max then Some v else None.
Proof.
  intros Hb. revert acc. induction Hb as [|b bs Hb Hbs IH]; intros acc Hacc; simpl.
  { by rewrite (proj2 (Z.leb_le _ _)) by lia. }
  unfold is_byte in Hb. pose proof (Z.div_mod b 16). pose proof (Z.mod_pos_bound b 16).
  rewrite (hex_digit_char (b / 16)) by (split; [apply Z.div_pos|apply Z.div_lt_upper_bound]; lia). simpl.
  rewrite (hex_digit_char (b mod 16)) by lia. simpl.
  replace ((acc * 16 + b / 16) * 16 + b mod 16) with (acc * 256 + b) by lia.
  pose proof (foldl_be_ge bs (acc * 256 + b) Hbs).
  destruct (Z.leb_spec (acc * 16 + b / 16) u64_max);
    [destruct (Z.leb_spec (acc * 256 + b) u64_max)|]; [by apply IH; lia|..];
    by rewrite (proj2 (Z.leb_gt _ _)) by lia.
Qed.

Lemma strip_0x_bytes bs : strip_0x (Bytes_to_string bs) = hex_encode bs.
Proof. done. Qed.

Lemma from_str_radix16_encode bs :
  all_bytes bs → bs ≠ [] →
  from_str_radix16 (hex_encode bs) = if be_decode bs <=? u64_max then Some (be_decode bs) else None.
Proof.
  intros Hb Hne. transitivity (radix16_loop 0 (hex_encode bs)); [by destruct bs|].
  by apply radix16_encode.
Qed.

(** The block number of the core contract, read from the 32 bytes of the call's
    result through its hexadecimal text: the number itself, when it fits. *)
Theorem last_block_number_read `{libs : FeltLibs} `{eth : Ethereum} bs :
  eth_call [53; 190; 250; 93] = Ok bs → all_bytes bs → bs ≠ [] →
  get_last_block_number = if be_decode bs <=? u64_max then Ok (be_decode bs) else Panic.
Proof.
  intros He Hb Hne. unfold get_last_block_number. rewrite He. cbn [mbind Outcome_bind unwrap].
  cbv zeta. rewrite strip_0x_bytes, from_str_radix16_encode by done.
  by destruct (be_decode bs <=? u64_max).
Qed.

Lemma reorg_loop_spec parent reads fuel k lsbh :
  (∀ j, (k ≤ j < k + fuel)%nat → reads j ≠ parent) → parent ≠ lsbh → reorg_loop fuel parent reads k lsbh = None.
Proof.
  revert k lsbh. induction fuel as [|fuel IH]; intros k lsbh Hr Hne; simpl; [done|].
  rewrite (proj2 (Z.eqb_neq _ _)) by done. apply IH; [|apply not_eq_sym, Hr; lia].
  intros j Hj. apply Hr. lia.
Qed.

(** A reorganisation is looked for by reading the same variable again: without
    one the call answers [false], with one it answers [true] as soon as a read
    gives the hash of the parent, and it never returns if no read does. *)
Theorem reorg_spins block reads :
  (reads 0%nat = p.parent_block_hash block → ∀ fuel, reorg fuel block reads = Some false) ∧
  (∀ k, reads (S k) = p.parent_block_hash block → (∀ j, (j ≤ k)%nat → reads j ≠ p.parent_block_hash block) →
     reorg (S (S k)) block reads = Some true) ∧
  ((∀ k, reads k ≠ p.parent_block_hash block) → ∀ fuel, reorg fuel block reads = None).
Proof.
  unfold reorg. split_and!.
  - intros -> fuel. by rewrite Z.eqb_refl.
  - intros k Hk Hbefore. rewrite (proj2 (Z.eqb_neq _ _)) by (apply not_eq_sym, Hbefore; lia).
    assert (∀ m j lsbh, (j + m = S k)%nat → (0 < j)%nat → lsbh ≠ p.parent_block_hash block →
      reorg_loop (S (S m)) (p.parent_block_hash block) reads j lsbh = Some true) as Hgen.
    { induction m as [|m IH]; intros j lsbh Hj Hpos Hne; cbn [reorg_loop];
        rewrite (proj2 (Z.eqb_neq _ _)) by done.
      - replace j with (S k) by lia. by rewrite Hk, Z.eqb_refl.
      - apply (IH (S j)); [lia..|]. apply Hbefore. lia. }
    apply Hgen; [lia..|]. apply Hbefore. lia.
  - intros Hne fuel. rewrite (proj2 (Z.eqb_neq _ _)) by apply not_eq_sym, Hne.
    apply reorg_loop_spec; [intros; apply Hne|apply not_eq_sym, Hne].
Qed.

(** ** Witnesses *)

Lemma log_state_update_spec_witness :
  convert_log_state_update {| log_global_root := 7; log_block_number := 2 ^ 64 + 5; log_block_hash := 9 |} =
    Ok {| l1_block_number := 5; l1_global_root := 7; l1_block_hash := 9 |}.
Proof.
  refine (log_state_update_spec {| log_global_root := 7; log_block_number := 2 ^ 64 + 5; log_block_hash := 9 |} _ _);
    simpl; lia.
Defined.

Definition ethereum_model : Ethereum :=
  {| eth_call _ := Ok (be_encode 32 640000); eth_block_number := Ok 20000000; eth_get_logs _ := Ok [Some 19999990] |}.

Lemma last_block_number_read_witness : get_last_block_number (eth := ethereum_model) = Ok 640000.
Proof.
  refine (last_block_number_read (eth := ethereum_model) (be_encode 32 640000) eq_refl _ _).
  - apply be_encode_bytes.
  - discriminate.
Defined.
