(* ===== verification/L2Sync.v ===== *)
(** * L2Sync: importing the blocks of the sequencer
    ([client/sync/src/l2.rs] and [lib.rs])

    A fetched block is verified, converted and sent with its state update and
    classes over three channels; the consensus engine is then told to seal a block,
    takes one value of each channel and has the pallet execute it.  The tasks that
    follow the L1 and the head of the chain run in between: the relation [run]
    interleaves them with the imports. *)

From S2P Require Import Prelude Felt Hashers Transactions TxHash CoreTx Broadcast Blocks Db Tries.
From S2P Require Import Commitments Convert MappingSync RpcEvents RpcClient CallInfo ContractClasses.
From S2P Require Import Pallet Codecs Overrides Fetch L1Sync.

(** ** Decimal text of a field element, and hashes from text *)

(** The decimal digits of a number, the most significant first. *)
Fixpoint dec_digits (fuel : nat) (n : Z) : list Z :=
  match fuel with
  | O => []
  | S fuel => if n <? 10 then [n] else dec_digits fuel (n / 10) ++ [n mod 10]
  end.
(** [FieldElement::to_string]: a field element has at most 76 digits. *)
Definition FieldElement_to_string (x : Z) : list Z := dec_digits 80 x.
(** [H256::from_str] of a text of decimal digits: 64 hexadecimal digits. *)
Definition H256_from_str (digits : list Z) : option DHashT :=
  if (length digits =? 64)%nat then Some (DHash (foldl (λ acc d, acc * 16 + d) 0 digits)) else None.

Definition H256_default : DHashT := DHash 0.

(** [starting_block + 1] on a [u32]. *)
Definition u32_succ (n : Z) : Outcome Empty_set Z := if n =? u32_max then Panic else Ok (n + 1).

Record World (BP BC Prog V1 : Type) := {
  w_sync : SyncState;
  w_tries : Tries BP BC;
  (* the channels: what has been sent and not yet taken *)
  w_blocks : list DeoxysBlock;
  w_updates : list StateUpdateWrapper;
  w_classes : list (ClassUpdateWrapper Prog V1);
  (* the Substrate chain: hash and state of every block, by number *)
  w_chain : list (DHashT * PalletState Prog V1);
}.
Arguments w_sync {BP BC Prog V1}. Arguments w_tries {BP BC Prog V1}. Arguments w_blocks {BP BC Prog V1}.
Arguments w_updates {BP BC Prog V1}. Arguments w_classes {BP BC Prog V1}. Arguments w_chain {BP BC Prog V1}.
Arguments Build_World {BP BC Prog V1}.

Section L2.
Context {BP BC Prog V1 : Type} `{btp : BonsaiTrie BP} `{btc : BonsaiTrie BC}.
Context `{libs : FeltLibs} `{crypto : StarknetCrypto} `{pb : ParBridge}.
Context `{bv : BoundsFromVec} `{ca : ContractAddresses} `{acc : TxAccessors}.
Context {B : Type} `{bt : BonsaiTrie B}.
Context `{gw : Gateway} `{dc : DigestCodecs Prog V1} `{cfg : PalletConfig}.
Variable bonsai_new : Outcome unit B.
Variable config_chain_id : option Z.
(** The hash of a sealed block, and the data of the sequencer-address inherent. *)
Variable seal_hash : Z → PalletState Prog V1 → DHashT.
Variable inherent_data : option bytes.
Abbreviation W := (World BP BC Prog V1).
Abbreviation M := (Outcome Empty_set).
Abbreviation Fetched := (p.Block * Provider.StateUpdate * list (ContractClassData Prog V1))%type.

Definition with_sync (w : W) (s : SyncState) : W :=
  Build_World s (w_tries w) (w_blocks w) (w_updates w) (w_classes w) (w_chain w).

(** [HeaderBackend::hash] and the state of a block, on the chain. *)
Definition chain_hash (chain : list (DHashT * PalletState Prog V1)) (number : Z) : option DHashT :=
  fst <$> chain !! Z.to_nat (saturated_u32 number).
Fixpoint chain_state (chain : list (DHashT * PalletState Prog V1)) (h : DHashT) : option (PalletState Prog V1) :=
  match chain with
  | [] => None
  | (h', st) :: chain => if decide (h' = h) then Some st else chain_state chain h
  end.

(** The fallback override: the runtime API on the block's state. *)
Definition class_hash_at (chain : list (DHashT * PalletState Prog V1)) (h a : Z) : option Z :=
  (λ st, pallet.contract_class_hash_by_address st a) <$> chain_state chain (DHash h).

(** ** Verification *)

Definition verify_l2 (w : W) (block_number : Z) (state_update : Provider.StateUpdate)
    (substrate_block_hash : option DHashT) : M W :=
  let csd := build_commitment_state_diff (StateUpdateWrapper_from state_update) in
  '(tries, state_root) ← update_state_root (class_hash_at (w_chain w)) (w_tries w) csd block_number
                           ((λ '(DHash h), h) <$> substrate_block_hash);
  block_hash ← unwrap_opt (Provider.block_hash state_update);
  let s := update_l2 {| l2_block_number := block_number; l2_global_root := state_root; l2_block_hash := block_hash |}
             (w_sync w) in
  Ok (Build_World s tries (w_blocks w) (w_updates w) (w_classes w) (w_chain w)).

(** ** Sealing *)

(** The engine's answer to [SealNewBlock]: the digest of the consensus data
    provider, the inherents, and the execution on top of the best block. *)
Definition seal_new_block (w : W) : Outcome unit W :=
  let '(digest, (blocks, updates, classes)) := pallet.create_digest (w_blocks w) (w_updates w) (w_classes w) in
  digest ← ok_or tt digest;
  '(_, st) ← ok_or tt (last (w_chain w));
  inherent ← unwrap (pallet.create_inherent (Ok inherent_data));
  let number := Z.of_nat (length (w_chain w)) in
  st ← map_err (λ _, tt) (pallet.execute_block st number digest (option_list inherent));
  Ok (Build_World (w_sync w) (w_tries w) blocks updates classes (w_chain w ++ [(seal_hash number st, st)])).

Definition create_block (w : W) : Outcome string W := map_err (λ _, "failed to seal block"%string) (seal_new_block w).

(** ** Importing *)

Definition send (w : W) (block : DeoxysBlock) (state_update : StateUpdateWrapper)
    (class_update : ClassUpdateWrapper Prog V1) : W :=
  Build_World (w_sync w) (w_tries w) (w_blocks w ++ [block]) (w_updates w ++ [state_update])
    (w_classes w ++ [class_update]) (w_chain w).

(** One value of the stream of fetched blocks: [None] stops the loop.  A state
    root that differs from the block's is logged and not an error. *)
Definition apply_value (verify : bool) (block_n : Z) (val : Outcome L2SyncError Fetched) (w : W) : M (option W) :=
  match val with
  | Err (L2_Provider (PE_StarknetError SE_BlockNotFound)) => Ok None
  | Err _ | Panic => Panic
  | Ok (block, state_update, class_update) =>
      previous ← (if block_n =? 0 then Panic else Ok (block_n - 1));
      let block_hash := chain_hash (w_chain w) previous in
      w ← (if verify then verify_l2 w block_n state_update block_hash else Ok w);
      block_conv ← convert.convert_block_sync bonsai_new config_chain_id block;
      let w := send w block_conv (StateUpdateWrapper_from state_update) {| class_updates := class_update |} in
      w ← unwrap (create_block w);
      Ok (Some w)
  end.

Fixpoint apply_loop (verify : bool) (block_n : Z) (vals : list (Outcome L2SyncError Fetched)) (w : W) : M W :=
  match vals with
  | [] => Ok w
  | val :: vals =>
      r ← apply_value verify block_n val w;
      match r with
      | None => Ok w
      | Some w => apply_loop verify (block_n + 1) vals w
      end
  end.

(** The importing part of [l2::sync]: [vals] are the fetched values in the order of
    the blocks, [None] for [n_blocks] leaving the stream unbounded. *)
Definition l2_sync (verify : bool) (first_block : Z) (n_blocks : option nat)
    (vals : list (Outcome L2SyncError Fetched)) (w : W) : M W :=
  w ← (if first_block =? 1 then
         state_update ← unwrap (get_state_update 0 (Seq_Number 0));
         verify_l2 w 0 state_update None
       else Ok w);
  apply_loop verify first_block (match n_blocks with Some n => take n vals | None => vals end) w.

(** [starknet_sync_worker::sync]: the node resumes after the best block. *)
Definition sync_worker (verify : bool) (starting_block : Z) (vals : list (Outcome L2SyncError Fetched)) (w : W) : M W :=
  starting_block ← u32_succ starting_block;
  l2_sync verify starting_block None vals w.

(** ** Following the head of the chain *)

Definition update_starknet_data (attempt : nat) (best_hash : DHashT) (s : SyncState) : Outcome string SyncState :=
  block ← map_err (λ _, "Failed to get pending block"%string) (get_block attempt Seq_Pending);
  let hash_current := p.parent_block_hash block in
  number ← map_err (λ _, "Failed to get block id by hash"%string) (get_block_id_by_hash attempt hash_current);
  let tmp := default H256_default (H256_from_str (FieldElement_to_string hash_current)) in
  '(pending_block, pending_state_update) ←
    (if decide (best_hash = tmp) then
       state_update ← map_err (λ _, "Failed to get pending state update"%string) (get_state_update attempt Seq_Pending);
       block ← unwrap (convert.convert_block_sync bonsai_new config_chain_id block);
       Ok (Some block, Some (convert.state_update state_update))
     else Ok (STARKNET_PENDING_BLOCK s, STARKNET_PENDING_STATE_UPDATE s));
  Ok {| ETHEREUM_STATE_UPDATE := ETHEREUM_STATE_UPDATE s; STARKNET_STATE_UPDATE := STARKNET_STATE_UPDATE s;
        SYNC_STATUS := SYNC_STATUS s; STARKNET_HIGHEST_BLOCK_HASH_AND_NUMBER := (hash_current, number);
        STARKNET_PENDING_BLOCK := pending_block; STARKNET_PENDING_STATE_UPDATE := pending_state_update |}.

Definition best_hash_of (w : W) : DHashT := default H256_default (fst <$> last (w_chain w)).

(** ** The interleaving of the tasks

    [run_fetched verify (n, w) fs (n', w')]: from block number [n] the fetched values
    [fs] are imported one after the other, with updates of the L1 state and of the
    head in any places; [run] keeps only their blocks. *)
Inductive run_fetched (verify : bool) : Z * W → list Fetched → Z * W → Prop :=
| run_nil n w : run_fetched verify (n, w) [] (n, w)
| run_l1 n w u fs y : run_fetched verify (n, with_sync w (update_l1 u (w_sync w))) fs y → run_fetched verify (n, w) fs y
| run_head n w attempt s fs y :
    update_starknet_data attempt (best_hash_of w) (w_sync w) = Ok s →
    run_fetched verify (n, with_sync w s) fs y → run_fetched verify (n, w) fs y
| run_import n w f w' fs y :
    apply_value verify n (Ok f) w = Ok (Some w') →
    run_fetched verify (n + 1, w') fs y → run_fetched verify (n, w) (f :: fs) y.

Definition fetched_block (f : Fetched) : p.Block := f.1.1.
Definition run (verify : bool) (x : Z * W) (bs : list p.Block) (y : Z * W) : Prop :=
  ∃ fs, map fetched_block fs = bs ∧ run_fetched verify x fs y.

(** The state between two imports: nothing in the channels, and the chain reaches
    up to block [n - 1]. *)
Record Synced (n : Z) (w : W) : Prop := {
  synced_channels : w_blocks w = [] ∧ w_updates w = [] ∧ w_classes w = [];
  synced_height : Z.of_nat (length (w_chain w)) = n;
  synced_chain : ∀ k h st, w_chain w !! k = Some (h, st) → Chain (Z.of_nat k) st;
  synced_status : SYNC_STATUS (w_sync w) ≠ SyncPendingState;
}.
End L2.

(** ** Properties *)

Lemma dec_digits_length fuel n :
  0 ≤ n < 10 ^ Z.of_nat fuel → (0 < fuel)%nat →
  let k := Z.of_nat (length (dec_digits fuel n)) in n < 10 ^ k ∧ (k = 1 ∨ 1 < k ∧ 10 ^ (k - 1) ≤ n).
Proof.
  revert n. induction fuel as [|fuel IH]; intros n Hn Hpos; [lia|]. cbn [dec_digits].
  destruct (Z.ltb_spec n 10) as [Hlt|Hge]; simpl; [lia|].
  rewrite length_app. cbn [length].
  rewrite Nat2Z.inj_succ, Z.pow_succ_r in Hn by lia.
  assert (0 < fuel)%nat as Hf. { destruct fuel; [simpl in Hn; lia|lia]. }
  assert (0 ≤ n / 10 < 10 ^ Z.of_nat fuel) as Hd.
  { split; [apply Z.div_pos; lia|apply Z.div_lt_upper_bound; lia]. }
  destruct (IH _ Hd Hf) as [Hlt Hcase]. set (k := Z.of_nat (length (dec_digits fuel (n / 10)))) in *.
  rewrite Nat2Z.inj_add. fold k. change (Z.of_nat 1) with 1.
  pose proof (Z.div_mod n 10). pose proof (Z.mod_pos_bound n 10).
  assert (1 ≤ k) by lia. rewrite Z.pow_add_r by lia. split; [lia|]. right. split; [lia|].
  replace (k + 1 - 1) with (Z.succ (k - 1)) by lia. rewrite Z.pow_succ_r by lia.
  destruct Hcase as [->|[_ Hk]]; [simpl; lia|lia].
Qed.

(** Only the decimal text of a number with exactly 64 digits reads as a hash. *)
Lemma hash_of_decimal x :
  is_felt x → H256_from_str (FieldElement_to_string x) ≠ None → 10 ^ 63 ≤ x < 10 ^ 64.
Proof.
  intros Hx. unfold H256_from_str, FieldElement_to_string.
  destruct (Nat.eqb_spec (length (dec_digits 80 x)) 64) as [Hl|]; [|done]. intros _.
  destruct (dec_digits_length 80 x) as [Hlt Hge]; [|lia|].
  { unfold is_felt, P in Hx. lia. }
  rewrite Hl in Hlt, Hge. lia.
Qed.

Section Properties.
Context {BP BC Prog V1 : Type} `{btp : BonsaiTrie BP} `{btc : BonsaiTrie BC}.
Context `{Hlibs : !FeltLibsSpec libs} `{crypto : StarknetCrypto} `{pb : ParBridge}.
Context `{bv : BoundsFromVec} `{ca : ContractAddresses} `{acc : TxAccessors}.
Context {B : Type} `{bt : BonsaiTrie B}.
Context `{gw : Gateway} `{dc : DigestCodecs Prog V1} {Hdc : DigestCodecsSpec dc} `{cfg : PalletConfig}.
Variable bonsai_new : Outcome unit B.
Variable config_chain_id : option Z.
Variable seal_hash : Z → PalletState Prog V1 → DHashT.
Variable inherent_data : option bytes.
Abbreviation W := (World BP BC Prog V1).
Implicit Types (w : W).

Abbreviation convert_block := (convert.convert_block_sync bonsai_new config_chain_id).
Abbreviation apply_val := (apply_value (BP := BP) (BC := BC) bonsai_new config_chain_id seal_hash inherent_data).
Abbreviation runs := (run (BP := BP) (BC := BC) bonsai_new config_chain_id seal_hash inherent_data).

Lemma class_hash_at_fallback {E} `{sc : StorageCodecs Prog V1} `{sp : StorageProvider E Prog V1} chain h a :
  ok (runtime_state (DHash h)) = chain_state chain (DHash h) →
  contract_class_hash_by_address (for_schema_version overrides_handle Schema_Undefined) (DHash h) a
    = class_hash_at chain h a.
Proof.
  intros Hrt. unfold class_hash_at. rewrite <- Hrt. simpl. unfold api_class_hash.
  by destruct (runtime_state (DHash h)).
Qed.

(** The inherent is a valid address. *)
Definition inherent_ok : Prop :=
  let addr := default pallet.DEFAULT_SEQUENCER_ADDRESS inherent_data in
  length addr = 32%nat ∧ all_bytes addr ∧ be_decode addr < 2 ^ 251.

(** A confirmed block has its hash. *)
Definition has_hash (b : p.Block) : Prop := ∃ h, p.block_hash b = Some h ∧ is_felt h.

Lemma verify_l2_frame w n su bh w' :
  verify_l2 w n su bh = Ok w' →
  ∃ s t, w' = Build_World s t (w_blocks w) (w_updates w) (w_classes w) (w_chain w) ∧
    (SYNC_STATUS (w_sync w) ≠ SyncPendingState → SYNC_STATUS s ≠ SyncPendingState) ∧
    l2_block_number (STARKNET_STATE_UPDATE s) = n.
Proof.
  unfold verify_l2. intros H. ok_inv. destruct a as [t root]. ok_inv.
  do 2 eexists. split; [done|]. split; [|done]. simpl. by case_match.
Qed.

Lemma convert_block_hash b d h :
  convert_block b = Ok d → p.block_hash b = Some h → is_felt h → extra_data (header d) = Some h.
Proof.
  unfold convert.convert_block_sync. intros H Hb Hh. ok_inv. case_match. ok_inv. simpl. rewrite Hb.
  apply (extra_data_id (Some h)). by intros ? [= <-].
Qed.

Lemma Synced_last n w : 1 ≤ n → Synced n w → ∃ h st, last (w_chain w) = Some (h, st) ∧ Chain (n - 1) st.
Proof.
  intros Hn [_ Hh Hc _]. rewrite last_lookup.
  destruct (w_chain w !! pred (length (w_chain w))) as [[h st]|] eqn:E.
  - exists h, st. split; [done|]. apply Hc in E. by replace (n - 1) with (Z.of_nat (pred (length (w_chain w)))) by lia.
  - apply lookup_ge_None in E. lia.
Qed.

Abbreviation inherent := (default pallet.DEFAULT_SEQUENCER_ADDRESS inherent_data).

(** What is sent is taken and executed: the channels are empty again and the
    chain is one block longer. *)
Lemma create_block_ok n w conv su cu hb :
  inherent_ok → 1 ≤ n → Synced n w → extra_data (header conv) = Some hb → is_felt hb →
  ∃ h0 st0, last (w_chain w) = Some (h0, st0) ∧ Chain (n - 1) st0 ∧
    let st := imported st0 n (be_decode inherent) conv hb su cu in
    Chain n st ∧
    create_block seal_hash inherent_data (send w conv su cu) =
      Ok (Build_World (w_sync w) (w_tries w) [] [] [] (w_chain w ++ [(seal_hash n st, st)])).
Proof.
  intros (Hlen & Hb & Hlt) Hn HS Hx Hh. destruct (Synced_last n w Hn HS) as (h0 & st0 & Hlast & HC).
  destruct HS as [(Hq1 & Hq2 & Hq3) Hheight _ _]. exists h0, st0. split; [done|]. split; [done|]. intros st.
  assert (pallet.execute_block st0 n (created_digest conv su cu) [inherent] = Ok st) as Hex.
  { apply execute_created; try done.
    apply Chain_invariant in HC as (_ & _ & _ & _ & ->). destruct (Z.eqb_spec (n - 1) 0); [left; lia|by right]. }
  split.
  { replace n with (n - 1 + 1) by lia. eapply Chain_block; [exact HC|]. rewrite Z.sub_add. exact Hex. }
  unfold create_block, seal_new_block, send. cbn [w_blocks w_updates w_classes w_chain w_sync w_tries].
  rewrite Hq1, Hq2, Hq3, Hlast. cbn [app pallet.create_digest ok_or mbind Outcome_bind].
  fold (created_digest conv su cu). cbn [pallet.create_inherent mbind Outcome_bind unwrap]. simpl option_list.
  rewrite Hheight, Hex. done.
Qed.

(** One import: the chain grows by the block's state. *)
Lemma apply_value_import verify n b su classes w w' :
  inherent_ok → Synced n w → has_hash b →
  apply_val verify n (Ok (b, su, classes)) w = Ok (Some w') →
  Synced (n + 1) w' ∧
  ∃ h0 st0 h st conv, last (w_chain w) = Some (h0, st0) ∧ w_chain w' = w_chain w ++ [(h, st)] ∧
    convert_block b = Ok conv ∧ find_starknet_block (sys_digest st) = Ok conv ∧
    BlockHash st !! n = p.block_hash b ∧ (∀ m, m ≠ n → BlockHash st !! m = BlockHash st0 !! m) ∧
    ∃ hb, st = imported st0 n (be_decode inherent) conv hb (StateUpdateWrapper_from su) {| class_updates := classes |}.
Proof.
  intros Hinh HS (hb & Hhb & Hfelt) H. unfold apply_value in H.
  destruct (Z.eqb_spec n 0) as [|Hn0]; [discriminate|]. cbn [mbind Outcome_bind] in H.
  destruct (if verify then _ else _) as [w1| |] eqn:Hv; cbn [mbind Outcome_bind] in H; try discriminate.
  destruct (convert_block b) as [conv| |] eqn:Hc; cbn [mbind Outcome_bind] in H; try discriminate.
  assert (Synced n w1 ∧ w_chain w1 = w_chain w) as [HS1 <-].
  { destruct verify; [|by injection Hv as <-]. apply verify_l2_frame in Hv as (s & t & -> & Hs' & _).
    destruct HS. split; [|done]. split; simpl; auto. }
  assert (1 ≤ n) as Hn by (destruct HS1; lia).
  destruct (create_block_ok n w1 conv (StateUpdateWrapper_from su) {| class_updates := classes |} hb)
    as (h0 & st0 & Hlast & HC & HC' & Hcb); [done..|by eapply convert_block_hash|done|].
  rewrite Hcb in H. cbn [mbind Outcome_bind unwrap] in H. injection H as <-.
  destruct HS1 as [_ Hheight Hchain Hstatus]. split.
  - split; simpl; [done| | |done].
    + rewrite length_app. simpl. lia.
    + intros k h st. rewrite lookup_app. destruct (w_chain w1 !! k) eqn:Hk.
      { intros [= ->]. by eapply Hchain. }
      intros Hs. apply list_lookup_singleton_Some in Hs as [Hk' [= <- <-]].
      apply lookup_ge_None in Hk. by replace (Z.of_nat k) with n by lia.
  - do 5 eexists. split; [exact Hlast|]. split; [reflexivity|]. split; [reflexivity|].
    split; [apply imported_block|]. simpl. split; [by rewrite lookup_insert_eq|].
    split; [intros m Hm; by rewrite lookup_insert_ne|by eexists].
Qed.

Lemma run_frame verify x bs y :
  runs verify x bs y → inherent_ok → Synced x.1 x.2 → Forall has_hash bs →
  Synced y.1 y.2 ∧ y.1 = x.1 + Z.of_nat (length bs) ∧ w_chain x.2 `prefix_of` w_chain y.2 ∧
  ∀ k h st h0 st0 m, w_chain y.2 !! k = Some (h, st) → (length (w_chain x.2) ≤ S k)%nat →
    last (w_chain x.2) = Some (h0, st0) → m < x.1 → BlockHash st !! m = BlockHash st0 !! m.
Proof.
  intros (fs & <- & H) Hinh.
  induction H as [n w|n w u fs y _ IH|n w att s fs y Hs _ IH|n w [[b su] cs] w' fs y Ha _ IH];
    cbn [fst snd map] in *; intros HS Hbs.
  - split_and!; [done|simpl; lia|done|]. intros k h st h0 st0 m Hk Hlen Hlast _.
    rewrite last_lookup in Hlast. pose proof (lookup_lt_Some _ _ _ Hk).
    replace (pred (length (w_chain w))) with k in Hlast by lia. congruence.
  - apply IH; [|done]. destruct HS. by split.
  - apply IH; [|done]. destruct HS. split; try done. simpl. unfold update_starknet_data in Hs. ok_inv.
    case_match. by ok_inv.
  - apply Forall_cons in Hbs as [Hb Hbs].
    destruct (apply_value_import _ _ _ _ _ _ _ Hinh HS Hb Ha) as (HS' & h0 & st0 & h & st & conv & Hlast & Hch & _ & _ & _ & Hm & _).
    destruct (IH HS' Hbs) as (HSy & Hn & Hpre & Hk).
    split_and!; [done|rewrite Hn; simpl; lia| |].
    + etransitivity; [|exact Hpre]. rewrite Hch. by eexists.
    + intros k h1 st1 h2 st2 m Hl Hle Hlast2 Hlt. rewrite Hlast in Hlast2. injection Hlast2 as <- <-.
      destruct (decide (S k = length (w_chain w))) as [Heq|Hne].
      * rewrite last_lookup, <- Heq in Hlast. simpl in Hlast.
        assert (w_chain y.2 !! k = Some (h0, st0)); [|congruence].
        eapply prefix_lookup_Some; [|exact Hpre]. rewrite Hch. by apply lookup_app_l_Some.
      * rewrite <- Hm by lia.
        eapply Hk; [exact Hl| |by rewrite Hch, last_snoc|lia]. rewrite Hch, length_app. simpl. lia.
Qed.
Lemma runs_imports verify x bs y :
  runs verify x bs y → inherent_ok → Synced x.1 x.2 → Forall has_hash bs →
  ∀ i b, bs !! i = Some b →
    ∃ h st conv, w_chain y.2 !! (Z.to_nat x.1 + i)%nat = Some (h, st) ∧
      convert_block b = Ok conv ∧ find_starknet_block (sys_digest st) = Ok conv ∧
      ∀ k h' st', w_chain y.2 !! k = Some (h', st') → (Z.to_nat x.1 + i ≤ k)%nat →
        BlockHash st' !! (x.1 + Z.of_nat i) = p.block_hash b.
Proof.
  intros (fs & <- & H) Hinh.
  induction H as [n w|n w u fs y _ IH|n w att s fs y Hs _ IH|n w [[b su] cs] w' fs y Ha Hr IH];
    cbn [fst snd map] in *; intros HS Hbs i b' Hi.
  - done.
  - apply IH; [|done..]. destruct HS. by split.
  - apply IH; [|done..]. destruct HS. split; try done. simpl. unfold update_starknet_data in Hs. ok_inv.
    case_match. by ok_inv.
  - apply Forall_cons in Hbs as [Hb Hbs].
    destruct (apply_value_import _ _ _ _ _ _ _ Hinh HS Hb Ha)
      as (HS' & h0 & st0 & h & st & conv & Hlast & Hch & Hconv & Hfind & Hn & _).
    pose proof (synced_height _ _ HS) as Hheight. pose proof (synced_height _ _ HS') as Hheight'.
    destruct i as [|i].
    + injection Hi as <-. destruct (run_frame _ _ _ _ (ex_intro _ fs (conj eq_refl Hr)) Hinh HS' Hbs) as (_ & _ & Hpre & Hkeep).
      exists h, st, conv. rewrite Nat.add_0_r, Z.add_0_r.
      assert (w_chain w' !! Z.to_nat n = Some (h, st)) as Hat.
      { rewrite Hch, lookup_app_r by lia. by replace (Z.to_nat n - length (w_chain w))%nat with 0%nat by lia. }
      split; [by eapply prefix_lookup_Some|]. split_and!; [done..|].
      intros k h' st' Hk Hle. rewrite <- Hn.
      eapply Hkeep; [exact Hk| |by cbn [snd]; rewrite Hch, last_snoc|cbn [fst]; lia].
      cbn [snd]. rewrite Hch, length_app. simpl. lia.
    + destruct (IH HS' Hbs i b' Hi) as (h' & st' & conv' & Hat & Hrest).
      exists h', st', conv'. replace (Z.to_nat n + S i)%nat with (Z.to_nat (n + 1) + i)%nat by lia.
      by replace (n + Z.of_nat (S i)) with (n + 1 + Z.of_nat i) by lia.
Qed.

(** C4: However the tasks that follow the L1 and the head are interleaved with the
    imports: the blocks of the sequencer become consecutive Substrate blocks, each
    in the digest of its own number, its Starknet hash under that number in this
    and in every later state; the chain before is kept, the channels are empty
    between two imports and every state is one of a chain of the pallet. *)
Theorem sync_imports_in_order verify n w bs n' w' :
  inherent_ok → Synced n w → Forall has_hash bs → runs verify (n, w) bs (n', w') →
  n' = n + Z.of_nat (length bs) ∧ Synced n' w' ∧ w_chain w `prefix_of` w_chain w' ∧
  ∀ i b, bs !! i = Some b →
    ∃ h st conv, w_chain w' !! (Z.to_nat n + i)%nat = Some (h, st) ∧
      convert_block b = Ok conv ∧ find_starknet_block (sys_digest st) = Ok conv ∧
      ∀ k h' st', w_chain w' !! k = Some (h', st') → (Z.to_nat n + i ≤ k)%nat →
        BlockHash st' !! (n + Z.of_nat i) = p.block_hash b.
Proof.
  intros Hinh HS Hbs Hr. destruct (run_frame _ _ _ _ Hr Hinh HS Hbs) as (HSy & Hn & Hpre & _).
  split_and!; [done..|]. exact (runs_imports _ _ _ _ Hr Hinh HS Hbs).
Qed.

(** The values that the loop imports: those before the first one that is not a
    fetched block. *)
Abbreviation Fetched := (p.Block * Provider.StateUpdate * list (ContractClassData Prog V1))%type.
Fixpoint fetched_values (vals : list (Outcome L2SyncError Fetched)) : list Fetched :=
  match vals with
  | Ok f :: vals => f :: fetched_values vals
  | _ => []
  end.

Lemma apply_loop_fetched verify n vals w w' :
  apply_loop bonsai_new config_chain_id seal_hash inherent_data verify n vals w = Ok w' →
  run_fetched bonsai_new config_chain_id seal_hash inherent_data verify (n, w) (fetched_values vals)
    (n + Z.of_nat (length (fetched_values vals)), w').
Proof.
  revert n w. induction vals as [|val vals IH]; intros n w; cbn [apply_loop].
  { intros [= ->]. rewrite Z.add_0_r. constructor. }
  destruct (apply_val verify n val w) as [[w1|]| |] eqn:Ha; cbn [mbind Outcome_bind]; try discriminate.
  - destruct val as [[[b su] cs]|[[[]| | |]|]|]; try discriminate. intros H.
    cbn [fetched_values length]. eapply run_import; [exact Ha|].
    replace (n + Z.of_nat (S (length (fetched_values vals)))) with (n + 1 + Z.of_nat (length (fetched_values vals))) by lia.
    by apply IH.
  - intros [= ->]. destruct val as [[[b su] cs]|e|].
    + exfalso. unfold apply_value in Ha. ok_inv.
    + rewrite Z.add_0_r. constructor.
    + discriminate.
Qed.

Lemma apply_loop_runs verify n vals w w' :
  apply_loop bonsai_new config_chain_id seal_hash inherent_data verify n vals w = Ok w' →
  runs verify (n, w) (map fetched_block (fetched_values vals)) (n + Z.of_nat (length (fetched_values vals)), w').
Proof. intros H. eexists. split; [reflexivity|by apply apply_loop_fetched]. Qed.

(** The imports up to the first missing block, and their run. *)
Lemma imports_all n w blocks rest :
  inherent_ok → 1 ≤ n → Synced n w →
  Forall (λ '(b, _, _), has_hash b ∧ is_ok (convert_block b) = true) blocks →
  ∃ w', apply_loop bonsai_new config_chain_id seal_hash inherent_data false n
          (map Ok blocks ++ Err (L2_Provider (PE_StarknetError SE_BlockNotFound)) :: rest) w = Ok w' ∧
    Synced (n + Z.of_nat (length blocks)) w' ∧
    run_fetched bonsai_new config_chain_id seal_hash inherent_data false (n, w) blocks (n + Z.of_nat (length blocks), w').
Proof.
  intros Hinh Hn HS Hbs. revert n w Hn HS. induction Hbs as [|[[b su] cs] blocks [Hb Hc] _ IH]; intros n w Hn HS.
  { exists w. rewrite Z.add_0_r. split_and!; [done..|constructor]. }
  destruct (convert_block b) as [conv| |] eqn:Hconv; try discriminate.
  assert (∃ w1, apply_val false n (Ok (b, su, cs)) w = Ok (Some w1)) as [w1 Ha].
  { destruct Hb as (hb & Hhb & Hfelt).
    destruct (create_block_ok n w conv (StateUpdateWrapper_from su) {| class_updates := cs |} hb)
      as (h0 & st0 & _ & _ & _ & Hcb); [done..|by eapply convert_block_hash|done|].
    unfold apply_value. rewrite (proj2 (Z.eqb_neq _ _)) by lia. cbn [mbind Outcome_bind].
    rewrite Hconv. cbn [mbind Outcome_bind]. rewrite Hcb. eauto. }
  destruct (apply_value_import _ _ _ _ _ _ _ Hinh HS Hb Ha) as (HS1 & _).
  destruct (IH (n + 1) w1) as (w' & Hl & HS' & Hr); [lia|done|].
  exists w'. cbn [map app apply_loop]. rewrite Ha. cbn [mbind Outcome_bind]. split; [exact Hl|].
  cbn [length]. replace (n + Z.of_nat (S (length blocks))) with (n + 1 + Z.of_nat (length blocks)) by lia.
  split; [done|]. by eapply run_import.
Qed.

(** Without verification the loop never gets stuck on good values: if the blocks
    before the first [BlockNotFound] have hashes and convert, all are imported. *)
Theorem import_progress n w blocks rest :
  inherent_ok → 1 ≤ n → Synced n w →
  Forall (λ '(b, _, _), has_hash b ∧ is_ok (convert_block b) = true) blocks →
  ∃ w', apply_loop bonsai_new config_chain_id seal_hash inherent_data false n
          (map Ok blocks ++ Err (L2_Provider (PE_StarknetError SE_BlockNotFound)) :: rest) w = Ok w' ∧
    Synced (n + Z.of_nat (length blocks)) w'.
Proof.
  intros Hinh Hn HS Hbs. destruct (imports_all n w blocks rest Hinh Hn HS Hbs) as (w' & Hl & HS' & _). by exists w'.
Qed.
(** The pending block is compared with the best block through its decimal text,
    which is a Substrate hash for almost no Starknet hash: a tick sets the highest
    block and leaves the pending block and its state update as they are. *)
Theorem pending_block_not_stored attempt best_hash s s' block :
  get_block attempt Seq_Pending = Ok block → is_felt (p.parent_block_hash block) →
  ~ (10 ^ 63 ≤ p.parent_block_hash block < 10 ^ 64) → best_hash ≠ DHash 0 →
  update_starknet_data bonsai_new config_chain_id attempt best_hash s = Ok s' →
  get_pending_block s' = get_pending_block s ∧ get_pending_state_update s' = get_pending_state_update s ∧
  (get_highest_block_hash_and_number s').1 = p.parent_block_hash block.
Proof.
  intros Hb Hf Hn Hbest. unfold update_starknet_data. rewrite Hb. cbn [map_err mbind Outcome_bind]. intros H.
  destruct (H256_from_str _) eqn:Hstr.
  { exfalso. apply Hn, hash_of_decimal; [done|by rewrite Hstr]. }
  simpl default in H. unfold H256_default in H. rewrite decide_False in H by done.
  destruct (get_block_id_by_hash _ _) as [number| |]; simpl in H; try discriminate. by injection H as <-.
Qed.
End Properties.

(** ** Witnesses: a node that has only the genesis and imports one block *)

Definition world0 : World TrieModel TrieModel unit unit :=
  Build_World SyncState_init tries_empty [] [] [] [(DHash 1, example_genesis)].

Lemma world0_synced : Synced (dc := unit_codecs) 1 world0.
Proof.
  split; [done|done| |done]. intros [|k] h st; [|done]. intros [= <- <-]. apply example_genesis_chain.
Qed.

Lemma default_inherent_ok : inherent_ok None.
Proof. split; [done|]. split; [|by vm_compute]. repeat constructor; lia. Qed.

Abbreviation loop_model := (apply_loop (btp := trie_model) (btc := trie_model) (crypto := crypto_small)
  (pb := par_model) (bv := bounds_model) (ca := address_model) (acc := accessors_model) (bt := trie_model)
  (dc := unit_codecs) (Ok trie_empty) (Some 77) (λ n _, DHash n) None).

Definition example_values : list (Outcome L2SyncError (p.Block * Provider.StateUpdate * list (ContractClassData unit unit))) :=
  [Ok (example_p_block, example_su, [])].

Lemma example_p_block_hash : Forall has_hash [example_p_block].
Proof. apply Forall_singleton. exists 12. by split. Qed.

Lemma sync_imports_in_order_witness : ∃ w',
  loop_model false 1 example_values world0 = Ok w' ∧ Synced (dc := unit_codecs) 2 w' ∧
  ∀ k h' st', w_chain w' !! k = Some (h', st') → (1 ≤ k)%nat → BlockHash st' !! 1 = Some 12.
Proof.
  assert (is_ok (loop_model false 1 example_values world0) = true) as Hok by (vm_compute; reflexivity).
  destruct (loop_model false 1 example_values world0) as [w'| |] eqn:E; [|discriminate Hok..].
  exists w'. split; [reflexivity|].
  destruct (sync_imports_in_order (btp := trie_model) (btc := trie_model) (crypto := crypto_small)
    (pb := par_model) (bv := bounds_model) (ca := address_model) (acc := accessors_model) (bt := trie_model)
    (gw := gateway_model) (dc := unit_codecs) (Hdc := unit_codecs_spec) (Ok trie_empty) (Some 77) (λ n _, DHash n) None
    false 1 world0 [example_p_block] 2 w' default_inherent_ok world0_synced example_p_block_hash
    (apply_loop_runs (gw := gateway_model) _ _ _ _ false 1 example_values world0 w' E)) as (_ & HS & _ & Hall).
  split; [exact HS|]. destruct (Hall 0%nat example_p_block eq_refl) as (h & st & conv & _ & _ & _ & Hk).
  intros k h' st' H1 H2. exact (Hk k h' st' H1 H2).
Defined.

Lemma import_progress_witness : ∃ w',
  loop_model false 1 (map Ok [(example_p_block, example_su, [])] ++
    [Err (L2_Provider (PE_StarknetError SE_BlockNotFound)); Panic]) world0 = Ok w' ∧
  Synced (dc := unit_codecs) 2 w'.
Proof.
  refine (import_progress (btp := trie_model) (btc := trie_model) (crypto := crypto_small)
    (pb := par_model) (bv := bounds_model) (ca := address_model) (acc := accessors_model) (bt := trie_model)
    (gw := gateway_model) (dc := unit_codecs) (Hdc := unit_codecs_spec) (Ok trie_empty) (Some 77) (λ n _, DHash n) None
    1 world0 [(example_p_block, example_su, [])] [Panic] default_inherent_ok _ world0_synced _).
  - lia.
  - apply Forall_singleton. split; [exists 12; by split|]. vm_compute. reflexivity.
Defined.

Lemma pending_block_not_stored_witness : ∃ s',
  update_starknet_data (bv := bounds_model) (crypto := crypto_small) (ca := address_model) (acc := accessors_model)
    (bt := trie_model) (gw := gateway_model) (Ok trie_empty) (Some 77) 1 (DHash 5) SyncState_init = Ok s' ∧
  get_pending_block s' = None.
Proof.
  eexists. split; [reflexivity|].
  refine (proj1 (pending_block_not_stored (bv := bounds_model) (crypto := crypto_small) (ca := address_model)
    (acc := accessors_model) (bt := trie_model) (gw := gateway_model) (Ok trie_empty) (Some 77) 1 (DHash 5)
    SyncState_init _ example_p_block eq_refl _ _ _ eq_refl)).
  - by split.
  - simpl. lia.
  - discriminate.
Defined.
