(* ===== verification/Traces.v ===== *)
(** * Traces: from call trees to transaction traces
    ([client/rpc/src/methods/trace/utils.rs] and [simulate_transactions.rs])

    A trace is the call tree with the class hash of every call filled in.  Class
    hashes that the blockifier left out are looked up in the storage, through a
    cache shared by the calls of the transaction. *)

From S2P Require Import Prelude Felt Transactions Broadcast Blocks Db CallInfo ContractClasses Pallet.
From S2P Require Import StateAdapter Simulations Overrides.

(** ** Traces (starknet_core) *)

Record OrderedMessage := { om_order : nat; om_message : MessageToL1 }.

(** What a call adds to the trace, besides its inner calls. *)
Record InvocationCall := {
  fi_contract_address : Z;
  fi_entry_point_selector : Z;
  fi_calldata : list Z;
  fi_caller_address : Z;
  fi_class_hash : Z;
  fi_entry_point_type : EntryPointType;
  fi_call_type : CallType;
  fi_result : list Z;
  fi_events : list (Ordered EventContent);
  fi_messages : list OrderedMessage;
  fi_execution_resources : ComputationResources;
}.
Inductive FunctionInvocation := MkInvocation (call : InvocationCall) (calls : list FunctionInvocation).

Inductive ExecuteInvocation := Success (i : FunctionInvocation) | Reverted (revert_reason : bytes).
(** The state diff of a trace is always absent. *)
Inductive TransactionTrace :=
| Trace_Invoke (validate_invocation : option FunctionInvocation) (execute_invocation : ExecuteInvocation)
    (fee_transfer_invocation : option FunctionInvocation) (execution_resources : ExecutionResources)
| Trace_Declare (validate_invocation fee_transfer_invocation : option FunctionInvocation)
    (execution_resources : ExecutionResources)
| Trace_DeployAccount (validate_invocation : option FunctionInvocation) (constructor_invocation : FunctionInvocation)
    (fee_transfer_invocation : option FunctionInvocation) (execution_resources : ExecutionResources)
| Trace_L1Handler (function_invocation : FunctionInvocation) (execution_resources : ExecutionResources).

Inductive TryFuntionInvocationFromCallInfoError := CallContractNotFound.
Inductive ConvertCallInfoToExecuteInvocationError :=
| SimulatedTransactionFailed
| GetFunctionInvocation (e : TryFuntionInvocationFromCallInfoError).

Definition empty_resources : ComputationResources := {|
  cr_steps := 0; cr_memory_holes := None; cr_range_check_builtin_applications := None;
  cr_pedersen_builtin_applications := None; cr_poseidon_builtin_applications := None;
  cr_ec_op_builtin_applications := None; cr_ecdsa_builtin_applications := None;
  cr_bitwise_builtin_applications := None; cr_keccak_builtin_applications := None; cr_segment_arena_builtin := None |}.

(** [order] is the position in the list of the call. *)
Definition collect_call_info_ordered_messages (call : CallEntryPoint) (execution : CallExecution)
    : list OrderedMessage :=
  imap (λ index message,
    {| om_order := index;
       om_message := {| m_from_address := ep_storage_address call; m_to_address := mc_to_address (o_item message);
                        m_payload := mc_payload (o_item message) |} |}) (ex_l2_to_l1_messages execution).

Definition blockifier_to_starknet_rs_ordered_events (ordered_events : list (Ordered EventContent))
    : list (Ordered EventContent) :=
  map (λ event, {| o_order := o_order event;
                   o_item := {| ec_keys := ec_keys (o_item event); ec_data := ec_data (o_item event) |} |}) ordered_events.

Definition invocation_call (call : CallEntryPoint) (execution : CallExecution) (class_hash : Z) : InvocationCall := {|
  fi_contract_address := ep_storage_address call;
  fi_entry_point_selector := ep_entry_point_selector call;
  fi_calldata := ep_calldata call;
  fi_caller_address := ep_caller_address call;
  fi_class_hash := class_hash;
  fi_entry_point_type := ep_entry_point_type call;
  fi_call_type := ep_call_type call;
  fi_result := ex_retdata execution;
  fi_events := blockifier_to_starknet_rs_ordered_events (ex_events execution);
  fi_messages := collect_call_info_ordered_messages call execution;
  fi_execution_resources := empty_resources;
|}.

Section Traces.
Context {Prog V1 : Type}.
Variable storage_override : StorageOverride Prog V1.
Variable substrate_block_hash : DHashT.
Abbreviation Cache := (gmap Z Z).

(** The class hash of a call: its own, the cached one, or the one in the storage,
    which is then cached. *)
Definition call_class_hash (call : CallEntryPoint) (class_hash_cache : Cache)
    : Outcome TryFuntionInvocationFromCallInfoError (Z * Cache) :=
  match ep_class_hash call with
  | Some class_hash => Ok (class_hash, class_hash_cache)
  | None =>
      match class_hash_cache !! ep_storage_address call with
      | Some cached_hash => Ok (cached_hash, class_hash_cache)
      | None =>
          computed_hash ← ok_or CallContractNotFound
            (contract_class_hash_by_address storage_override substrate_block_hash (ep_storage_address call));
          Ok (computed_hash, <[ep_storage_address call := computed_hash]> class_hash_cache)
      end
  end.

(** The inner calls come first; they share the cache with their caller. *)
Fixpoint try_get_funtion_invocation_from_call_info (call_info : CallInfo) (class_hash_cache : Cache)
    {struct call_info} : Outcome TryFuntionInvocationFromCallInfoError (FunctionInvocation * Cache) :=
  match call_info with
  | MkCallInfo call execution _ inner_calls =>
      '(calls, class_hash_cache) ←
        (fix collect (inner : list CallInfo) (class_hash_cache : Cache) {struct inner}
           : Outcome TryFuntionInvocationFromCallInfoError (list FunctionInvocation * Cache) :=
           match inner with
           | [] => Ok ([], class_hash_cache)
           | c :: inner =>
               '(i, class_hash_cache) ← try_get_funtion_invocation_from_call_info c class_hash_cache;
               '(l, class_hash_cache) ← collect inner class_hash_cache;
               Ok (i :: l, class_hash_cache)
           end) inner_calls class_hash_cache;
      '(class_hash, class_hash_cache) ← call_class_hash call class_hash_cache;
      Ok (MkInvocation (invocation_call call execution class_hash) calls, class_hash_cache)
  end.

(** [Option::map(..).transpose()?] with the cache. *)
Definition optional_invocation (o : option CallInfo) (class_hash_cache : Cache)
    : Outcome ConvertCallInfoToExecuteInvocationError (option FunctionInvocation * Cache) :=
  match o with
  | Some call_info =>
      '(i, class_hash_cache) ← map_err GetFunctionInvocation
                                 (try_get_funtion_invocation_from_call_info call_info class_hash_cache);
      Ok (Some i, class_hash_cache)
  | None => Ok (None, class_hash_cache)
  end.

(** [.as_ref().unwrap()] of the execution's call info. *)
Definition execute_invocation_of (tx_exec_info : TransactionExecutionInfo) (class_hash_cache : Cache)
    : Outcome ConvertCallInfoToExecuteInvocationError FunctionInvocation :=
  call_info ← unwrap_opt (ti_execute_call_info tx_exec_info);
  fst <$> map_err GetFunctionInvocation (try_get_funtion_invocation_from_call_info call_info class_hash_cache).

Definition tx_execution_infos_to_tx_trace (tx_type : TxType) (tx_exec_info : TransactionExecutionInfo)
    : Outcome ConvertCallInfoToExecuteInvocationError TransactionTrace :=
  let execution_resources := {| er_computation_resources := empty_resources;
                                er_data_availability := {| dar_l1_gas := 0; dar_l1_data_gas := 0 |} |} in
  '(validate_invocation, class_hash_cache) ← optional_invocation (ti_validate_call_info tx_exec_info) ∅;
  '(fee_transfer_invocation, class_hash_cache) ←
    optional_invocation (ti_fee_transfer_call_info tx_exec_info) class_hash_cache;
  match tx_type with
  | TxType_Invoke =>
      execute_invocation ← (match ti_revert_error tx_exec_info with
                            | Some e => Ok (Reverted e)
                            | None => Success <$> execute_invocation_of tx_exec_info class_hash_cache
                            end);
      Ok (Trace_Invoke validate_invocation execute_invocation fee_transfer_invocation execution_resources)
  | TxType_Declare => Ok (Trace_Declare validate_invocation fee_transfer_invocation execution_resources)
  | TxType_DeployAccount =>
      constructor_invocation ← execute_invocation_of tx_exec_info class_hash_cache;
      Ok (Trace_DeployAccount validate_invocation constructor_invocation fee_transfer_invocation execution_resources)
  | TxType_L1Handler =>
      function_invocation ← execute_invocation_of tx_exec_info class_hash_cache;
      Ok (Trace_L1Handler function_invocation execution_resources)
  end.

(** ** Simulated transactions (simulate_transactions.rs) *)

Record SimulatedTransaction := { sim_transaction_trace : TransactionTrace; sim_fee_estimation : FeeEstimate }.

(** [gas_consumed] is an [u64], the fee an [u128]; the data gas price is filled
    from the L1 gas of the vector. *)
Definition simulated_fee (tx_exec_info : TransactionExecutionInfo) : FeeEstimate :=
  let gas := match ti_execute_call_info tx_exec_info with
             | Some x => ex_gas_consumed (ci_execution x)
             | None => 0
             end in
  let fee := ti_actual_fee tx_exec_info in
  let price := if 0 <? gas then fee / gas else 0 in
  {| fe_gas_consumed := gas; fe_data_gas_consumed := gv_l1_data_gas (ti_da_gas tx_exec_info);
     fe_data_gas_price := gv_l1_gas (ti_da_gas tx_exec_info); fe_gas_price := price; fe_overall_fee := fee;
     fe_unit := Wei |}.

Definition tx_execution_infos_to_simulated_transactions (tx_types : list TxType)
    (results : list (TransactionExecutionInfo + PlaceHolderErrorTypeForFailedStarknetExecution))
    : Outcome ConvertCallInfoToExecuteInvocationError (list SimulatedTransaction) :=
  mapM (λ '(tx_type, res),
    match res with
    | inl tx_exec_info =>
        transaction_trace ← tx_execution_infos_to_tx_trace tx_type tx_exec_info;
        Ok {| sim_transaction_trace := transaction_trace; sim_fee_estimation := simulated_fee tx_exec_info |}
    | inr _ => Err SimulatedTransactionFailed
    end) (zip tx_types results).

(** ** Reference: the trace without a cache *)

Definition class_hash_of (call : CallEntryPoint) : option Z :=
  match ep_class_hash call with
  | Some c => Some c
  | None => contract_class_hash_by_address storage_override substrate_block_hash (ep_storage_address call)
  end.

Fixpoint invocation_of (c : CallInfo) : option FunctionInvocation :=
  match c with
  | MkCallInfo call execution _ inner =>
      calls ← (fix collect (l : list CallInfo) : option (list FunctionInvocation) :=
                 match l with
                 | [] => Some []
                 | c :: l => i ← invocation_of c; k ← collect l; Some (i :: k)
                 end) inner;
      h ← class_hash_of call;
      Some (MkInvocation (invocation_call call execution h) calls)
  end.

Definition opt_invocation_of (o : option CallInfo) : option (option FunctionInvocation) :=
  match o with Some c => Some <$> invocation_of c | None => Some None end.

Definition trace_of (tx_type : TxType) (info : TransactionExecutionInfo)
    : Outcome ConvertCallInfoToExecuteInvocationError TransactionTrace :=
  let resources := {| er_computation_resources := empty_resources;
                      er_data_availability := {| dar_l1_gas := 0; dar_l1_data_gas := 0 |} |} in
  let not_found {A} : option A → Outcome _ A := ok_or (GetFunctionInvocation CallContractNotFound) in
  v ← not_found (opt_invocation_of (ti_validate_call_info info));
  f ← not_found (opt_invocation_of (ti_fee_transfer_call_info info));
  let executed := c ← unwrap_opt (ti_execute_call_info info); not_found (invocation_of c) in
  match tx_type with
  | TxType_Invoke =>
      match ti_revert_error info with
      | Some e => Ok (Trace_Invoke v (Reverted e) f resources)
      | None => i ← executed; Ok (Trace_Invoke v (Success i) f resources)
      end
  | TxType_Declare => Ok (Trace_Declare v f resources)
  | TxType_DeployAccount => i ← executed; Ok (Trace_DeployAccount v i f resources)
  | TxType_L1Handler => i ← executed; Ok (Trace_L1Handler i resources)
  end.

(** ** The cache is transparent *)

Definition cache_sound (cache : Cache) : Prop :=
  ∀ a c, cache !! a = Some c → contract_class_hash_by_address storage_override substrate_block_hash a = Some c.

Lemma cache_sound_empty : cache_sound ∅.
Proof. intros a c. by rewrite lookup_empty. Qed.

Lemma call_class_hash_spec call cache :
  cache_sound cache →
  match class_hash_of call with
  | Some h => ∃ cache', call_class_hash call cache = Ok (h, cache') ∧ cache_sound cache'
  | None => call_class_hash call cache = Err CallContractNotFound
  end.
Proof.
  intros Hs. unfold class_hash_of, call_class_hash. destruct (ep_class_hash call); [by eauto|].
  destruct (cache !! ep_storage_address call) as [h|] eqn:Hc.
  { rewrite (Hs _ _ Hc). eauto. }
  destruct (contract_class_hash_by_address _ _ _) as [h|] eqn:Hh; [|done]. simpl.
  eexists. split; [done|]. intros a c. destruct (decide (a = ep_storage_address call)) as [->|].
  - rewrite lookup_insert_eq. by intros [= <-].
  - rewrite lookup_insert_ne by done. apply Hs.
Qed.

Lemma invocation_cached c cache :
  cache_sound cache →
  match invocation_of c with
  | Some i => ∃ cache', try_get_funtion_invocation_from_call_info c cache = Ok (i, cache') ∧ cache_sound cache'
  | None => try_get_funtion_invocation_from_call_info c cache = Err CallContractNotFound
  end.
Proof.
  revert cache. induction c as [call e r inner IH] using CallInfo_tree_ind. intros cache Hs.
  cbn [invocation_of try_get_funtion_invocation_from_call_info].
  match goal with |- context [?f inner ≫= _] => set (coll := f) end.
  match goal with |- context [?f inner cache ≫= _] => set (coll' := f) end.
  assert (match coll inner with
          | Some l => ∃ cache', coll' inner cache = Ok (l, cache') ∧ cache_sound cache'
          | None => coll' inner cache = Err CallContractNotFound
          end) as Hc.
  { clear call e r. revert cache Hs. induction IH as [|c inner Hc _ IHl]; intros cache Hs; [by simpl; eauto|].
    specialize (Hc cache Hs). simpl. fold coll coll'. destruct (invocation_of c) as [i|]; simpl.
    - destruct Hc as (cache1 & -> & Hs1). simpl. specialize (IHl cache1 Hs1). fold coll coll'.
      destruct (coll inner) as [l|]; simpl.
      + destruct IHl as (cache2 & -> & Hs2). simpl. eauto.
      + by rewrite IHl.
    - by rewrite Hc. }
  destruct (coll inner) as [l|]; simpl; [|by rewrite Hc].
  destruct Hc as (cache1 & -> & Hs1). simpl. pose proof (call_class_hash_spec call cache1 Hs1) as Hh.
  destruct (class_hash_of call) as [h|]; simpl; [|by rewrite Hh].
  destruct Hh as (cache2 & -> & Hs2). simpl. eauto.
Qed.

Lemma optional_invocation_spec o cache :
  cache_sound cache →
  match opt_invocation_of o with
  | Some i => ∃ cache', optional_invocation o cache = Ok (i, cache') ∧ cache_sound cache'
  | None => optional_invocation o cache = Err (GetFunctionInvocation CallContractNotFound)
  end.
Proof.
  intros Hs. destruct o as [c|]; simpl; [|by eauto].
  pose proof (invocation_cached c cache Hs) as H. destruct (invocation_of c); simpl.
  - destruct H as (cache' & -> & ?). simpl. eauto.
  - by rewrite H.
Qed.

Lemma execute_invocation_spec info cache :
  cache_sound cache →
  execute_invocation_of info cache =
    (c ← unwrap_opt (ti_execute_call_info info);
     ok_or (GetFunctionInvocation CallContractNotFound) (invocation_of c)).
Proof.
  intros Hs. unfold execute_invocation_of. destruct (ti_execute_call_info info) as [c|]; simpl; [|done].
  pose proof (invocation_cached c cache Hs) as H. destruct (invocation_of c); simpl.
  - destruct H as (cache' & -> & ?). done.
  - by rewrite H.
Qed.

(** C18: The cache of class hashes does not change a trace: it is the trace in which
    the class hash of every call is looked up on its own. *)
Theorem trace_cache_transparent tx_type info :
  tx_execution_infos_to_tx_trace tx_type info = trace_of tx_type info.
Proof.
  unfold tx_execution_infos_to_tx_trace, trace_of.
  pose proof (optional_invocation_spec (ti_validate_call_info info) ∅ cache_sound_empty) as Hv.
  destruct (opt_invocation_of (ti_validate_call_info info)) as [v|]; simpl; [|by rewrite Hv].
  destruct Hv as (cache1 & -> & Hs1). simpl.
  pose proof (optional_invocation_spec (ti_fee_transfer_call_info info) cache1 Hs1) as Hf.
  destruct (opt_invocation_of (ti_fee_transfer_call_info info)) as [f|]; simpl; [|by rewrite Hf].
  destruct Hf as (cache2 & -> & Hs2). simpl. rewrite !(execute_invocation_spec info cache2 Hs2).
  destruct tx_type; try done. destruct (ti_revert_error info); [done|].
  destruct (ti_execute_call_info info) as [c|]; simpl; [|done]. by destruct (invocation_of c).
Qed.
End Traces.

(** ** The order of events and messages in a trace *)

Fixpoint invocation_events (i : FunctionInvocation) : list (nat * (Z * EventContent)) :=
  match i with
  | MkInvocation call calls =>
      map (λ o, (o_order o, (fi_contract_address call, o_item o))) (fi_events call) ++
      concat (map invocation_events calls)
  end.

Fixpoint invocation_message_orders (i : FunctionInvocation) : list nat :=
  match i with
  | MkInvocation call calls => map om_order (fi_messages call) ++ concat (map invocation_message_orders calls)
  end.

(** The events of a call tree with their numbers. *)
Fixpoint numbered_events (c : CallInfo) : list (nat * (Z * EventContent)) :=
  match c with
  | MkCallInfo call execution _ inner =>
      map (λ o, (o_order o, (ep_storage_address call, o_item o))) (ex_events execution) ++
      concat (map numbered_events inner)
  end.

Lemma numbered_events_Runs address own inner n out m :
  Runs ex_events address own inner n out m →
  map (λ o, (o_order o, (address, o_item o))) own ++ concat (map numbered_events inner)
    ≡ₚ zip (seq n (length out)) out.
Proof.
  induction 1 as [|address a own inner n out m _ IH|address own c inner n out1 k out2 m Hc IHc _ IHr]; simpl.
  - done.
  - by rewrite IH.
  - rewrite length_app, seq_app, zip_with_app by (by rewrite length_seq).
    apply Runs_count in Hc. rewrite <- Hc, <- IHr, <- IHc.
    destruct c as [call e r inn]. cbn [numbered_events ci_execution ci_inner_calls].
    change (ci_address _) with (ep_storage_address call).
    generalize (map (λ o, (o_order o, (ep_storage_address call, o_item o))) (ex_events e)
                ++ concat (map numbered_events inn)).
    intros l. rewrite !(assoc_L (++)). apply Permutation_app_tail, Permutation_app_comm.
Qed.

Section Order.
Context {Prog V1 : Type}.
Variable storage_override : StorageOverride Prog V1.
Variable h : DHashT.

Lemma invocation_events_numbered c i :
  invocation_of storage_override h c = Some i → invocation_events i = numbered_events c.
Proof.
  revert i. induction c as [call e r inner IH] using CallInfo_tree_ind. intros i.
  cbn [invocation_of]. match goal with |- context [?f inner ≫= _] => set (coll := f) end.
  destruct (coll inner) as [l|] eqn:Hl; simpl; [|done].
  destruct (class_hash_of _ _ call); simpl; [|done]. intros [= <-].
  cbn [invocation_events invocation_call fi_events fi_contract_address numbered_events].
  unfold blockifier_to_starknet_rs_ordered_events. rewrite map_map. simpl. f_equal.
  - apply map_ext. intros [? []]. done.
  - f_equal. clear call e r. revert l Hl. induction IH as [|c inner Hc _ IHl]; intros l; simpl.
    + by intros [= <-].
    + fold coll. destruct (invocation_of _ _ c) as [i|] eqn:Hi; simpl; [|done].
      destruct (coll inner) as [k|]; simpl; [|done]. intros [= <-]. simpl. f_equal; [by apply Hc|by apply IHl].
Qed.

(** A trace keeps the order of the events: reading the events of all its calls
    by their numbers gives the events in the order of the execution, each with the
    contract that emitted it. *)
Theorem trace_events_ordered c n out m i :
  Executes ex_events c n out m → invocation_of storage_override h c = Some i →
  invocation_events i ≡ₚ zip (seq n (length out)) out.
Proof.
  intros Hx Hi. rewrite (invocation_events_numbered c i Hi).
  apply numbered_events_Runs in Hx. by destruct c.
Qed.
End Order.

(** ** Messages are numbered within their call *)

Definition example_message (x : Z) : MessageContent := {| mc_to_address := x; mc_payload := [] |}.
Definition example_sender (address : Z) (order : nat) (inner : list CallInfo) : CallInfo :=
  MkCallInfo {| ep_class_hash := Some 7; ep_code_address := None; ep_entry_point_type := EP_External;
                ep_entry_point_selector := 1; ep_calldata := []; ep_storage_address := address;
                ep_caller_address := 0; ep_call_type := CT_Call; ep_initial_gas := 0 |}
    {| ex_retdata := []; ex_events := [];
       ex_l2_to_l1_messages := [{| o_order := order; o_item := example_message address |}]; ex_gas_consumed := 0 |}
    example_resources inner.

(** There is an execution that sends two messages, one in a call and one in its
    inner call, whose trace gives both the number 0: the numbers of the execution,
    0 and 1, are not used. *)
Theorem trace_message_orders_clash {Prog V1} (o : StorageOverride Prog V1) h :
  ∃ c out i, Executes ex_l2_to_l1_messages c 0 out 2 ∧ length out = 2%nat ∧
    invocation_of o h c = Some i ∧ invocation_message_orders i = [0%nat; 0%nat].
Proof.
  exists (example_sender 10 0 [example_sender 20 1 []]), [(10, example_message 10); (20, example_message 20)].
  eexists. split; [|by repeat split].
  apply Runs_emit. apply (Runs_call _ _ _ (example_sender 20 1 []) [] 1 [(20, example_message 20)] 2 [] 2).
  - apply Runs_emit, Runs_return.
  - apply Runs_return.
Qed.

(** ** Witness *)

Definition const_override (c : Z) : StorageOverride unit unit := {|
  contract_class_hash_by_address _ _ := Some c; contract_class_by_address _ _ := None;
  contract_class_by_class_hash _ _ := None; contract_abi_by_address _ _ := None;
  contract_abi_by_class_hash _ _ := None; nonce _ _ := None |}.

Lemma trace_events_ordered_witness : ∃ i,
  invocation_of (const_override 3) (DHash 1) example_tree = Some i ∧
  invocation_events i ≡ₚ [(0%nat, (10, example_content 0)); (1%nat, (20, example_content 1)); (2%nat, (10, example_content 2))].
Proof.
  eexists. split; [reflexivity|].
  exact (trace_events_ordered (const_override 3) (DHash 1) example_tree 0 _ 3 _ example_tree_events eq_refl).
Defined.
