(* ===== verification/RpcTrace.v ===== *)
(** * RpcTrace: the trace methods of the RPC
    ([client/rpc/src/methods/trace]: [trace_block_transactions.rs],
    [trace_transaction.rs], [simulate_transactions.rs] and the rest of [utils.rs])

    To trace, the node turns the transactions of a block back into executable
    ones and re-executes them on the state of the previous block. *)

From S2P Require Import Prelude Felt Hashers Transactions TxHash CoreTx Broadcast Blocks Db Tries.
From S2P Require Import Commitments MappingSync RpcEvents RpcClient CallInfo ContractClasses Pallet.
From S2P Require Import StateAdapter Simulations Codecs Overrides Traces.

(** ** Compiling a Sierra class (primitives/transactions/src/utils.rs) *)

(** starknet_api's class: a HashMap of entry points by type, absent ones empty. *)
Record StarknetApiClass := { sac_sierra_program : list Z; sac_entry_points_by_type : ByType ContractEntryPoint }.
Definition StarknetApiClass_default : StarknetApiClass :=
  {| sac_sierra_program := []; sac_entry_points_by_type := {| constructor := []; external := []; l1_handler := [] |} |}.

Record TransactionTraceWithHash := { tth_transaction_hash : Z; tth_trace_root : TransactionTrace }.

(** blockifier's [DeclareTransaction::new] keeps the hash it is given. *)
Class DeclareNewSpec {Abi LProg Prog V1 Info} (cl : ClassLibs Abi LProg Prog V1 Info) : Prop :=
  declare_new_hash tx h info t : btx_DeclareTransaction_new tx h info = Some t → Getters.account_tx_hash t = Some h.

Section Trace.
Context {E1 E2 E3 S Item : Type} `{kv : KvStore E1 S} `{codecs : DbCodecs}.
Context `{items : DigestItems Item} `{client : SubstrateClient E2 Item} `{chain : ChainBackend E2}.
Context `{libs : FeltLibs} `{crypto : StarknetCrypto} `{ca : ContractAddresses} `{hasher : HasherT}.
Context {Abi LProg Prog V1 Info CS C X BP BC : Type} `{cl : ClassLibs Abi LProg Prog V1 Info}.
Context `{sc : StorageCodecs Prog V1} `{sp : StorageProvider E3 Prog V1}.
Context `{bf : Blockifier CS Info C X Prog V1 BP BC} `{cfg : PalletConfig}.
Variable db : S.
Variable tries : Tries BP BC.
Variable config_chain_id : option Z.
Variable transactional : bool.
Abbreviation M := (Outcome StarknetRpcApiError).
Abbreviation R := (Outcome RpcError).

Definition sierra_to_casm_contract_class (contract_class : StarknetApiClass) : option CasmContractClass :=
  casm_from_contract_class {|
    sc_sierra_program := sac_sierra_program contract_class;
    sc_contract_class_version := "0.1.0"%string;
    sc_entry_points_by_type := sac_entry_points_by_type contract_class |}.

(** The executable transaction of a declaration: the class information has fixed
    lengths. *)
Definition declare_of (declare_tx : DeclareTransaction) (contract_class : ContractClass Prog V1)
    (chain_id block_number : Z) : M (ExecTransaction Info) :=
  class_info ← unwrap_opt (ClassInfo_new contract_class 10 10);
  tx_hash ← no_err (compute_hash declare_tx chain_id false (Some block_number));
  tx ← unwrap_opt (btx_DeclareTransaction_new declare_tx tx_hash class_info);
  Ok (Exec_Account tx).

(** [todo!()] panics. *)
Definition convert_transaction (tx : Transaction) (substrate_block_hash : DHashT) (chain_id block_number : Z)
    : M (ExecTransaction Info) :=
  match tx with
  | Tx_Invoke invoke_tx =>
      tx_hash ← no_err (compute_hash invoke_tx chain_id false (Some block_number));
      Ok (Exec_Account (Acc_Invoke invoke_tx tx_hash))
  | Tx_DeployAccount deploy_account_tx =>
      tx_hash ← no_err (compute_hash deploy_account_tx chain_id false (Some block_number));
      Ok (Exec_Account (Acc_DeployAccount deploy_account_tx tx_hash 0))
  | Tx_Declare declare_tx =>
      match declare_tx with
      | Declare_V0 {| d1_class_hash := class_hash |} | Declare_V1 {| d1_class_hash := class_hash |} =>
          contract_class ← ok_or InternalServerError
            (contract_class_by_class_hash (for_block_hash overrides_handle substrate_block_hash)
               substrate_block_hash class_hash);
          declare_of declare_tx contract_class chain_id block_number
      | Declare_V2 _ =>
          contract_class ← ok_or InternalServerError (sierra_to_casm_contract_class StarknetApiClass_default);
          contract_class ← ok_or InternalServerError (ContractClassV1_try_from contract_class);
          declare_of declare_tx (ContractClass_V1 contract_class) chain_id block_number
      | Declare_V3 _ => Panic
      end
  | Tx_L1Handler handle_l1_message_tx =>
      tx_hash ← no_err (compute_hash handle_l1_message_tx chain_id false (Some block_number));
      paid_fee_on_l1 ← map_err (λ _, InternalServerError) (L1HandlerTxFeeDb.get_fee_paid_for_l1_handler_tx db tx_hash);
      Ok (Exec_L1Handler handle_l1_message_tx tx_hash paid_fee_on_l1)
  | Tx_Deploy _ => Panic
  end.

(** The loop: transactions before the target, and the target. *)
Fixpoint split_transactions (txs : list Transaction) (substrate_block_hash : DHashT) (chain_id block_number : Z)
    (target_transaction_hash : option Z) (transactions : list (ExecTransaction Info))
    : M (list (ExecTransaction Info) * list (ExecTransaction Info)) :=
  match txs with
  | [] => Ok (transactions, [])
  | tx :: txs =>
      current_tx_hash ← no_err (compute_hash tx chain_id false (Some block_number));
      converted_tx ← convert_transaction tx substrate_block_hash chain_id block_number;
      if decide (Some current_tx_hash = target_transaction_hash) then Ok (transactions, [converted_tx])
      else split_transactions txs substrate_block_hash chain_id block_number target_transaction_hash
             (transactions ++ [converted_tx])
  end.

Definition map_transaction_to_user_transaction (starknet_block : DeoxysBlock) (substrate_block_hash : DHashT)
    (chain_id : Z) (target_transaction_hash : option Z)
    : M (list (ExecTransaction Info) * list (ExecTransaction Info)) :=
  split_transactions (transactions starknet_block) substrate_block_hash chain_id
    (block_number (header starknet_block)) target_transaction_hash [].

(** [block_number - 1] on an [u64]. *)
Definition get_previous_block_substrate_hash (substrate_block_hash : DHashT) : M DHashT :=
  starknet_block ← map_err (λ _, InternalServerError) (get_block_by_block_hash substrate_block_hash);
  let block_number := block_number (header starknet_block) in
  previous_block_number ← (if block_number =? 0 then Panic else Ok (block_number - 1));
  map_err (λ _, InternalServerError)
    (substrate_block_hash_from_starknet_block db (BlockId_Number previous_block_number)).

(** [runtime_api().re_execute_transactions] at a block. *)
Definition api_re_execute (at_block : DHashT) (before to_trace : list (ExecTransaction Info))
    (block_context : BlockContext C) : R (list TransactionExecutionInfo) :=
  st ← map_err (λ _, Rpc_Api InternalServerError) (runtime_state at_block);
  map_err (λ _, Rpc_Api InternalServerError) (re_execute_transactions st tries before to_trace block_context).

Definition error_from_conversion (err : ConvertCallInfoToExecuteInvocationError) : StarknetRpcApiError :=
  match err with
  | SimulatedTransactionFailed => ContractError
  | GetFunctionInvocation _ => InternalServerError
  end.

Definition trace_block_transactions (block_id : BlockId) : R (list TransactionTraceWithHash) :=
  substrate_block_hash ← api (map_err (λ _, BlockNotFound) (substrate_block_hash_from_starknet_block db block_id));
  starknet_block ← map_err (λ _, Rpc_Api InternalServerError) (get_block_by_block_hash substrate_block_hash);
  chain_id ← api (RpcClient.chain_id config_chain_id);
  '(block_transactions, empty_transactions) ←
    api (map_transaction_to_user_transaction starknet_block substrate_block_hash chain_id None);
  previous_block_substrate_hash ← api (get_previous_block_substrate_hash substrate_block_hash);
  st ← map_err (λ _, Rpc_Api InternalServerError) (runtime_state substrate_block_hash);
  let fee_token_address := pallet.fee_token_addresses st in
  block ← get_block substrate_block_hash;
  block_context ← no_err (into_block_context latest_constants (header block) fee_token_address
                            (bytes_of_string "SN_MAIN"));
  execution_infos ← api_re_execute previous_block_substrate_hash empty_transactions block_transactions block_context;
  let storage_override := for_block_hash overrides_handle substrate_block_hash in
  map_err (λ e, Rpc_Api (error_from_conversion e))
    (mapM (λ '(tx_idx, tx_exec_info),
       tx ← unwrap_opt (block_transactions !! tx_idx);
       trace_root ← tx_execution_infos_to_tx_trace storage_override substrate_block_hash
                      (TxType_from_Transaction tx) tx_exec_info;
       hash ← unwrap_opt (Getters.tx_hash tx);
       Ok {| tth_transaction_hash := hash; tth_trace_root := trace_root |}) (imap pair execution_infos)).

Definition trace_transaction (transaction_hash : Z) : R TransactionTraceWithHash :=
  found ← map_err (λ _, Rpc_Api TxnHashNotFound) (MappingDb.block_hash_from_transaction_hash db transaction_hash);
  substrate_block_hash ← ok_or (Rpc_Api TxnHashNotFound) found;
  starknet_block ← get_block substrate_block_hash;
  chain_id ← api (RpcClient.chain_id config_chain_id);
  '(txs_to_execute_before, tx_to_trace) ←
    api (map_transaction_to_user_transaction starknet_block substrate_block_hash chain_id (Some transaction_hash));
  previous_block_substrate_hash ← api (get_previous_block_substrate_hash substrate_block_hash);
  st ← map_err (λ _, Rpc_Api InternalServerError) (runtime_state substrate_block_hash);
  let fee_token_address := pallet.fee_token_addresses st in
  block_context ← no_err (into_block_context latest_constants (header starknet_block) fee_token_address
                            (bytes_of_string "SN_MAIN"));
  execution_infos ← api_re_execute previous_block_substrate_hash txs_to_execute_before tx_to_trace block_context;
  let storage_override := for_block_hash overrides_handle substrate_block_hash in
  _ ← api (RpcClient.chain_id config_chain_id);
  tx ← unwrap_opt (tx_to_trace !! 0%nat);
  info ← unwrap_opt (execution_infos !! 0%nat);
  trace ← unwrap (tx_execution_infos_to_tx_trace storage_override substrate_block_hash (TxType_from_Transaction tx) info);
  Ok {| tth_transaction_hash := transaction_hash; tth_trace_root := trace |}.

(** The type of a broadcasted transaction. *)
Definition broadcasted_type (tx : b.BroadcastedTransaction Abi) : TxType :=
  match tx with
  | b.Invoke_V1 _ | b.Invoke_V3 _ => TxType_Invoke
  | b.Declare_V1 _ | b.Declare_V2 _ | b.Declare_V3 _ => TxType_Declare
  | b.DeployAccount_V1 _ | b.DeployAccount_V3 _ => TxType_DeployAccount
  end.

Definition rpc_simulate_transactions (block_id : BlockId) (transactions : list (b.BroadcastedTransaction Abi))
    (simulation_flags : list SimulationFlag) : R (list SimulatedTransaction) :=
  substrate_block_hash ← api (map_err (λ _, BlockNotFound) (substrate_block_hash_from_starknet_block db block_id));
  tx_types_and_txs ← map_err (λ _, Rpc_Api InternalServerError)
    (mapM (λ tx, t ← to_account_transaction tx; Ok (broadcasted_type tx, t)) transactions);
  let simulation_flags := SimulationFlags_from simulation_flags in
  st ← map_err (λ _, Rpc_Api InternalServerError) (runtime_state substrate_block_hash);
  res ← map_err (λ _, Rpc_Api ContractError)
    (simulate_transactions st tries transactional tx_types_and_txs.*2 simulation_flags);
  let storage_override := for_block_hash overrides_handle substrate_block_hash in
  map_err (λ e, Rpc_Api (error_from_conversion e))
    (tx_execution_infos_to_simulated_transactions storage_override substrate_block_hash tx_types_and_txs.*1 res).
End Trace.

(** ** Properties *)

Section Properties.
Context {E1 E2 E3 S Item : Type} `{kv : KvStore E1 S} `{codecs : DbCodecs}.
Context `{items : DigestItems Item} `{client : SubstrateClient E2 Item} `{chain : ChainBackend E2}.
Context `{libs : FeltLibs} `{crypto : StarknetCrypto} `{ca : ContractAddresses} `{hasher : HasherT}.
Context {Abi LProg Prog V1 Info CS C X BP BC : Type} `{cl : ClassLibs Abi LProg Prog V1 Info} {Hcl : DeclareNewSpec cl}.
Context `{sc : StorageCodecs Prog V1} `{sp : StorageProvider E3 Prog V1}.
Context `{bf : Blockifier CS Info C X Prog V1 BP BC}.
Variable db : S.
Variable tries : Tries BP BC.
Variable config_chain_id : option Z.

Abbreviation hash_at cid n tx := (compute_hash tx cid false (Some n)).

Lemma no_err_Ok {E A} (m : Outcome Empty_set A) a : no_err (E := E) m = Ok a → m = Ok a.
Proof. destruct m as [x|[]|]; simpl; congruence. Qed.

Lemma api_Ok {A} (m : Outcome StarknetRpcApiError A) a : api m = Ok a → m = Ok a.
Proof. destruct m; simpl; congruence. Qed.

Lemma map_err_Ok {E F A} (f : E → F) (m : Outcome E A) a : map_err f m = Ok a → m = Ok a.
Proof. destruct m; simpl; congruence. Qed.

(** Removes the conversions of errors around results. *)
Ltac unwrap_layers :=
  repeat match goal with
  | H : api _ = Ok _ |- _ => apply api_Ok in H
  | H : get_block _ = Ok _ |- _ => apply map_err_Ok in H
  | H : map_err _ _ = Ok _ |- _ => apply map_err_Ok in H
  end.

Lemma convert_hash tx bh cid n e :
  convert_transaction db tx bh cid n = Ok e → ∃ h, hash_at cid n tx = Ok h ∧ Getters.tx_hash e = Some h.
Proof.
  destruct tx as [dtx|dep|datx|itx|ltx]; cbn [convert_transaction]; intros H; try discriminate.
  2-4: ok_inv; eexists; split; [eapply no_err_Ok; eassumption|reflexivity].
  assert (∀ class, declare_of dtx class cid n = Ok e →
    ∃ h, hash_at cid n (Tx_Declare dtx) = Ok h ∧ Getters.tx_hash e = Some h) as Hd.
  { intros class Hd. unfold declare_of in Hd. ok_inv. exists a0. split; [eapply no_err_Ok; eassumption|]. simpl.
    destruct (btx_DeclareTransaction_new dtx a0 a) as [t|] eqn:Ht; [|discriminate]. simplify_eq/=.
    eapply declare_new_hash, Ht. }
  destruct dtx as [[]|[]| |]; ok_inv; try discriminate; eauto.
Qed.

(** The loop cuts the block at the first transaction with the target's hash. *)
Lemma split_transactions_spec txs bh cid n target acc before traced :
  split_transactions db txs bh cid n target acc = Ok (before, traced) →
  ∃ txs1 txs2 convs, txs = txs1 ++ txs2 ∧ mapM (λ tx, convert_transaction db tx bh cid n) txs1 = Ok convs ∧
    before = acc ++ convs ∧ Forall (λ tx, ∃ h, hash_at cid n tx = Ok h ∧ Some h ≠ target) txs1 ∧
    (txs2 = [] ∧ traced = [] ∨
     ∃ tx rest e h, txs2 = tx :: rest ∧ hash_at cid n tx = Ok h ∧ Some h = target ∧
       convert_transaction db tx bh cid n = Ok e ∧ traced = [e]).
Proof.
  revert acc. induction txs as [|tx txs IH]; intros acc; cbn [split_transactions].
  { intros [= <- <-]. exists [], [], []. rewrite (app_nil_r acc). split_and!; [done..|constructor|by left]. }
  destruct (no_err (hash_at cid n tx)) as [h| |] eqn:Hh; cbn [mbind Outcome_bind]; try discriminate.
  destruct (convert_transaction db tx bh cid n) as [e| |] eqn:He; cbn [mbind Outcome_bind]; try discriminate.
  apply no_err_Ok in Hh. case_decide as Ht.
  - intros [= <- <-]. exists [], (tx :: txs), []. rewrite (app_nil_r acc). split_and!; [done..|constructor|right; naive_solver].
  - intros H. apply IH in H as (txs1 & txs2 & convs & -> & Hm & -> & HF & Hcase).
    exists (tx :: txs1), txs2, (e :: convs). split_and!; try done.
    + simpl. rewrite He. unfold mbind in *. simpl. by rewrite Hm.
    + by rewrite <- (assoc_L (++)).
    + constructor; [by eauto|done].
Qed.

Lemma mapM_convert_hashes txs bh cid n es :
  mapM (λ tx, convert_transaction db tx bh cid n) txs = Ok es →
  ∃ hs, mapM (λ tx, hash_at cid n tx) txs = Ok hs ∧ map Getters.tx_hash es = map Some hs.
Proof.
  rewrite mapM_Ok_Forall2. induction 1 as [|tx e txs es He _ (hs & Hm & Heq)]; [by exists []|].
  apply convert_hash in He as (h & Hh & Hx). exists (h :: hs). simpl. rewrite Hh. unfold mbind in *. simpl.
  rewrite Hm. split; [done|]. by rewrite Hx, Heq.
Qed.

Lemma re_execute_length st before to_trace ctx infos :
  re_execute_transactions st tries before to_trace ctx = Ok infos → length infos = length to_trace.
Proof.
  unfold re_execute_transactions. intros H. ok_inv. destruct a as [x1 s1]. ok_inv. destruct a as [x2 s2]. ok_inv.
  eapply execute_all_length, map_err_Ok. eassumption.
Qed.

(** The traces of executed transactions, in their order. *)
Lemma traces_of_infos {A} (f : ExecTransaction Info → TransactionExecutionInfo → Outcome A TransactionTrace)
    txs infos traces :
  length infos = length txs →
  mapM (λ '(tx_idx, info),
    tx ← unwrap_opt (txs !! tx_idx); root ← f tx info; hash ← unwrap_opt (Getters.tx_hash tx);
    Ok {| tth_transaction_hash := hash; tth_trace_root := root |}) (imap pair infos) = Ok traces →
  map Getters.tx_hash txs = map Some (map tth_transaction_hash traces).
Proof.
  intros Hlen. rewrite mapM_Ok_Forall2. intros HF.
  assert (Forall2 (λ tx t, Getters.tx_hash tx = Some (tth_transaction_hash t)) txs traces) as H2.
  { apply Forall2_same_length_lookup_2.
    - rewrite <- Hlen, <- (Forall2_length _ _ _ HF). by rewrite length_imap.
    - intros i tx t Htx Ht. destruct (Forall2_lookup_r _ _ _ _ _ HF Ht) as ([j info] & Hi & Hf).
      rewrite list_lookup_imap in Hi. destruct (infos !! i); [|discriminate]. simplify_eq/=.
      rewrite Htx in Hf. simpl in Hf. ok_inv. by destruct (Getters.tx_hash tx); simplify_eq/=. }
  clear HF Hlen. induction H2; [done|]. simpl. by f_equal.
Qed.

(** Tracing a block gives one trace for each of its transactions, in their order
    and with their hashes. *)
Theorem trace_block_covers block_id traces :
  trace_block_transactions db tries config_chain_id block_id = Ok traces →
  ∃ h b cid, substrate_block_hash_from_starknet_block db block_id = Ok h ∧ get_block_by_block_hash h = Ok b ∧
    config_chain_id = Some cid ∧
    transactions_hashes b cid (Some (block_number (header b))) = Ok (map tth_transaction_hash traces).
Proof.
  unfold trace_block_transactions. intros H. ok_inv. destruct a2 as [txs empty]. ok_inv.
  unwrap_layers.
  exists a, a0, a1. split_and!; try done.
  - unfold RpcClient.chain_id in *. by destruct config_chain_id; simplify_eq/=.
  - match goal with Hs : map_transaction_to_user_transaction _ _ _ _ _ = Ok _ |- _ =>
      unfold map_transaction_to_user_transaction in Hs; apply split_transactions_spec in Hs as
        (txs1 & txs2 & convs & Htxs & Hm & -> & _ & [[-> ->]|(? & ? & ? & ? & _ & _ & [=] & _)]) end.
    rewrite app_nil_r in Htxs. simpl in *. subst txs1. unfold transactions_hashes.
    apply mapM_convert_hashes in Hm as (hs & Hhs & Heq). rewrite Hhs. f_equal.
    apply traces_of_infos in H.
    + rewrite H in Heq. by apply (inj (fmap Some)) in Heq.
    + unfold api_re_execute in *. ok_inv. eapply re_execute_length, map_err_Ok. eassumption.
Qed.

(** *** What a traced transaction is executed as, and after what *)

(** The executable form of a transaction of hash [x] of the Substrate block [bh].  The
    class of a declare is the one stored for its hash, except that version 2 gets the
    class compiled from an empty one; deploys and declares of version 3 have no form. *)
Inductive executable (bh : DHashT) (x : Z) : Transaction → ExecTransaction Info → Prop :=
| exec_invoke i : executable bh x (Tx_Invoke i) (Exec_Account (Acc_Invoke i x))
| exec_deploy_account d : executable bh x (Tx_DeployAccount d) (Exec_Account (Acc_DeployAccount d x 0))
| exec_l1_handler l fee :
    L1HandlerTxFeeDb.get_fee_paid_for_l1_handler_tx db x = Ok fee →
    executable bh x (Tx_L1Handler l) (Exec_L1Handler l x fee)
| exec_declare d class info e :
    match d with
    | Declare_V0 t | Declare_V1 t =>
        contract_class_by_class_hash (for_block_hash overrides_handle bh) bh (d1_class_hash t) = Some class
    | Declare_V2 _ => ∃ casm v1, sierra_to_casm_contract_class StarknetApiClass_default = Some casm ∧
        ContractClassV1_try_from casm = Some v1 ∧ class = ContractClass_V1 v1
    | Declare_V3 _ => False
    end →
    ClassInfo_new class 10 10 = Some info → btx_DeclareTransaction_new d x info = Some e →
    executable bh x (Tx_Declare d) (Exec_Account e).

(** A sequence of executions without validation. *)
Inductive runs (ctx : BlockContext C) (charge : bool) : CS → list (ExecTransaction Info) → CS → Prop :=
| runs_nil s : runs ctx charge s [] s
| runs_cons s tx info s1 txs s2 :
    tx_execute tx s ctx charge false = Ok (info, s1) → runs ctx charge s1 txs s2 → runs ctx charge s (tx :: txs) s2.

(** The context of a block: its own header's, with prices of 1 when it has none. *)
Definition context_of (b : DeoxysBlock) (fees : FeeTokenAddresses) : BlockContext C := {|
  bc_block_info := {|
    bi_block_number := block_number (header b); bi_block_timestamp := block_timestamp (header b);
    bi_sequencer_address := sequencer_address (header b);
    bi_gas_prices := default {| eth_l1_gas_price := 1; strk_l1_gas_price := 1; eth_l1_data_gas_price := 1;
                                strk_l1_data_gas_price := 1 |} (l1_gas_price (header b));
    bi_use_kzg_da := false |};
  bc_chain_info := {| ci_chain_id := bytes_of_string "SN_MAIN"; ci_fee_token_addresses := fees |};
  bc_versioned_constants := latest_constants |}.

Lemma convert_executable tx bh cid n e :
  convert_transaction db tx bh cid n = Ok e → ∃ x, hash_at cid n tx = Ok x ∧ executable bh x tx e.
Proof.
  destruct tx as [dtx|dep|datx|itx|ltx]; cbn [convert_transaction]; intros H; try discriminate.
  2-4: ok_inv; unwrap_layers; eexists; (split; [eapply no_err_Ok; eassumption|by constructor]).
  assert (∀ class, declare_of dtx class cid n = Ok e → ∃ x info t, hash_at cid n (Tx_Declare dtx) = Ok x ∧
    ClassInfo_new class 10 10 = Some info ∧ btx_DeclareTransaction_new dtx x info = Some t ∧ e = Exec_Account t) as Hd.
  { intros class Hd. unfold declare_of in Hd. ok_inv.
    destruct (ClassInfo_new class 10 10) as [info|] eqn:Hi; [|discriminate]. simplify_eq/=.
    match goal with Hx : no_err _ = Ok ?x |- _ => apply no_err_Ok in Hx; exists x end.
    destruct (btx_DeclareTransaction_new _ _ _) as [t|] eqn:Ht; [|discriminate]. simplify_eq/=. by eexists _, _. }
  destruct dtx as [[]|[]| |]; ok_inv; try discriminate;
    apply Hd in H as (x & info & t & Hx & Hi & Ht & ->); exists x; (split; [done|]);
    eapply exec_declare; try eassumption; unfold ok_or in *.
  1-2: by destruct (contract_class_by_class_hash _ _ _); simplify_eq/=.
  destruct (sierra_to_casm_contract_class _) as [casm|]; [|discriminate]. simplify_eq/=.
  match goal with |- ∃ casm v1, Some ?c = _ ∧ _ => exists c; destruct (ContractClassV1_try_from c) end; simplify_eq/=.
  by eexists.
Qed.

Lemma executable_before txs bh cid n x es :
  mapM (λ tx, convert_transaction db tx bh cid n) txs = Ok es →
  Forall (λ tx, ∃ h, hash_at cid n tx = Ok h ∧ Some h ≠ Some x) txs →
  Forall2 (λ tx e, ∃ x', hash_at cid n tx = Ok x' ∧ x' ≠ x ∧ executable bh x' tx e) txs es.
Proof.
  rewrite mapM_Ok_Forall2. induction 1 as [|tx e txs es He _ IH]; [constructor|].
  intros [(h & Hh & Hne) HF]%Forall_cons. constructor; [|by apply IH].
  destruct (convert_executable _ _ _ _ _ He) as (x' & Hx' & Hex). exists x'. split_and!; [done|congruence|done].
Qed.

Lemma price_or_one o :
  eth_l1_gas_price (default {| eth_l1_gas_price := 1; strk_l1_gas_price := 1; eth_l1_data_gas_price := 1;
    strk_l1_data_gas_price := 1 |} o) = from_option eth_l1_gas_price 1 o.
Proof. by destruct o. Qed.

Lemma execute_all_runs txs s ctx charge infos s' :
  execute_all txs s ctx charge = Ok (infos, s') → runs ctx charge s txs s'.
Proof.
  revert s infos. induction txs as [|tx txs IH]; intros s infos; cbn [execute_all]; [intros [= _ <-]; constructor|].
  intros H. ok_inv. destruct a as [info s1]. ok_inv. destruct a as [infos' s2]. simplify_eq/=.
  econstructor; [eassumption|by eapply IH].
Qed.

Lemma re_execute_runs st before e ctx infos :
  re_execute_transactions st tries before [e] ctx = Ok infos →
  ∃ s1 s2 info, infos = [info] ∧
    let charge := negb (eth_l1_gas_price (bi_gas_prices (bc_block_info ctx)) =? 1) in
    runs ctx charge (init_cached_state st tries) before s1 ∧ tx_execute e s1 ctx charge false = Ok (info, s2).
Proof.
  unfold re_execute_transactions. intros H. ok_inv. destruct a as [x1 s1]. ok_inv. destruct a as [x2 s2]. simplify_eq/=.
  unwrap_layers. match goal with Hr : execute_all before _ _ _ = _ |- _ => apply execute_all_runs in Hr end.
  match goal with Hr : (_ ≫= _) = Ok _ |- _ => unfold mbind in Hr; simpl in Hr end.
  destruct (tx_execute e s1 ctx _ false) as [[info s3]| |] eqn:He; simplify_eq/=. by eexists _, _, _.
Qed.

(** The canonical Substrate block one below. *)
Lemma previous_block_hash h b prev :
  get_block_by_block_hash h = Ok b → get_previous_block_substrate_hash db h = Ok prev →
  block_number (header b) ≠ 0 ∧ client_hash (Z.min (block_number (header b) - 1) u32_max) = Ok (Some prev).
Proof.
  intros Hb. unfold get_previous_block_substrate_hash. rewrite Hb. cbn [map_err mbind Outcome_bind].
  destruct (Z.eqb_spec (block_number (header b)) 0); [discriminate|]. cbn [mbind Outcome_bind].
  intros H%map_err_Ok. split; [done|]. unfold substrate_block_hash_from_starknet_block in H. ok_inv. unwrap_layers.
  destruct a; simplify_eq/=. done.
Qed.

(** C26: The trace that [traceTransaction] answers with is that of the first transaction
    with the hash asked for of the block that the index gives for it, in its executable
    form.  It is made of the last of these executions: the transactions before it in the
    block, each in its executable form, then itself, without validation, with fees unless
    the price of the gas in wei is 1, in the context of the block's own header.  They start
    from the runtime state of the canonical Substrate block whose height is one less than the
    block's number (so never for block 0), and from the tries as they are when the method is
    called: contract storage is the current one, not that of the previous block.  No
    transaction up to the one traced is a deploy or a declare of version 3. *)
Theorem trace_transaction_target x t :
  trace_transaction db tries config_chain_id x = Ok t →
  tth_transaction_hash t = x ∧
  ∃ h b cid txs1 tx txs2 before e prev st st_h s1 info s2,
    MappingDb.block_hash_from_transaction_hash db x = Ok (Some h) ∧ get_block_by_block_hash h = Ok b ∧
    config_chain_id = Some cid ∧ transactions b = txs1 ++ tx :: txs2 ∧
    Forall2 (λ tx' e', ∃ x', hash_at cid (block_number (header b)) tx' = Ok x' ∧ x' ≠ x ∧ executable h x' tx' e') txs1 before ∧
    hash_at cid (block_number (header b)) tx = Ok x ∧ executable h x tx e ∧
    block_number (header b) ≠ 0 ∧ client_hash (Z.min (block_number (header b) - 1) u32_max) = Ok (Some prev) ∧
    runtime_state prev = Ok st ∧ runtime_state h = Ok st_h ∧
    let ctx := context_of b (pallet.fee_token_addresses st_h) in
    let charge := negb (from_option eth_l1_gas_price 1 (l1_gas_price (header b)) =? 1) in
    runs ctx charge (CachedState_new st tries adapter.default_) before s1 ∧
    tx_execute e s1 ctx charge false = Ok (info, s2) ∧
    tx_execution_infos_to_tx_trace (for_block_hash overrides_handle h) h (TxType_from_Transaction e) info
      = Ok (tth_trace_root t).
Proof.
  unfold trace_transaction. intros H. ok_inv. destruct a3 as [before traced]. ok_inv. unwrap_layers.
  destruct a as [h|]; [|discriminate]. simplify_eq/=. rename a0 into h. split; [done|].
  assert (config_chain_id = Some a2) as Hcid
    by (unfold RpcClient.chain_id in *; by destruct config_chain_id; simplify_eq/=).
  match goal with Hs : map_transaction_to_user_transaction _ _ _ _ _ = Ok _ |- _ =>
    unfold map_transaction_to_user_transaction in Hs; apply split_transactions_spec in Hs as
      (txs1 & txs2 & convs & Htxs & Hm & -> & HF & Hcase) end.
  destruct Hcase as [[-> ->]|(tx & rest & e & hx & -> & Hhash & [= ->] & He & ->)]; [discriminate|].
  unfold api_re_execute in *. ok_inv. unwrap_layers.
  match goal with Hr : re_execute_transactions _ _ _ _ _ = Ok _ |- _ =>
    apply re_execute_runs in Hr as (s1 & s2 & info & -> & Hruns & Hexec) end.
  match goal with Hb : get_block_by_block_hash _ = Ok _, Hp : get_previous_block_substrate_hash _ _ = Ok _ |- _ =>
    destruct (previous_block_hash _ _ _ Hb Hp) as [Hn Hprev] end.
  simplify_eq/=. rewrite price_or_one in Hruns, Hexec.
  apply convert_executable in He as (x' & Hx' & He). rewrite Hhash in Hx'. injection Hx' as <-.
  do 14 eexists. split_and!; try eassumption; try done; [by eapply executable_before|].
  by destruct (tx_execution_infos_to_tx_trace _ _ _ _); simplify_eq/=.
Qed.
End Properties.

(** ** Witnesses: a chain whose block 1 has one transaction *)

Definition traced_block : DeoxysBlock :=
  {| header := {| parent_block_hash := 1; block_number := 1; global_state_root := 3; sequencer_address := 77;
       block_timestamp := 5; transaction_count := 1; transaction_commitment := 0; event_count := 0;
       event_commitment := 0; protocol_version := 0; l1_gas_price := None; l1_da_mode := L1DA_Calldata;
       extra_data := Some 99 |};
     transactions := [tx_model]; events := [] |}.

Definition trace_client : SubstrateClient unit DeoxysBlock := {|
  header_hash hdr := DHash (dh_number hdr);
  client_header h := Ok (Some {| dh_number := 1; dh_parent_hash := DHash 0; dh_digest := [traced_block] |});
  blockchain_leaves := Ok [DHash 1];
  runtime_chain_id _ := Ok 77;
|}.

Definition trace_info : TransactionExecutionInfo := {|
  ti_validate_call_info := None; ti_execute_call_info := Some (example_sender 10 0 []);
  ti_fee_transfer_call_info := None; ti_actual_fee := 0; ti_da_gas := {| gv_l1_gas := 0; gv_l1_data_gas := 0 |};
  ti_actual_resources := ∅; ti_revert_error := None |}.

Definition blockifier_model : Blockifier unit unit unit unit bytes unit TrieModel TrieModel := {|
  CachedState_new _ _ _ := tt;
  tx_execute _ _ _ _ _ := Ok (trace_info, tt);
  calculate_tx_fee _ _ _ := Ok 0;
  estimate_minimal_gas_vector _ _ := Ok {| gv_l1_gas := 0; gv_l1_data_gas := 0 |};
  tx_fee_type _ := Fee_Eth;
  latest_constants := tt;
  tx_initial_gas _ := 0;
  new_invoke_context _ := true;
  entry_point_execute _ _ _ _ := Err tt;
|}.

Lemma rpc_class_libs_new : DeclareNewSpec rpc_class_libs.
Proof. by intros tx h info t [= <-]. Qed.

Definition trace_store : Contents :=
  apply_batch ∅ (mapping_batch (codecs := codecs_model) true
    (commitment_of (crypto := crypto_small) (ca := address_model) (hasher := @PedersenHasher _ crypto_small)
       (DHash 1) traced_block 77) []).
Definition traced_hash : Z :=
  tx_hash_of (crypto := crypto_small) (ca := address_model) (hasher := @PedersenHasher _ crypto_small)
    77 traced_block tx_model.

Lemma trace_block_covers_witness : ∃ traces b,
  trace_block_transactions (kv := kv_model) (codecs := codecs_model) (items := log_items) (client := trace_client)
    (chain := backend_model) (crypto := crypto_small) (ca := address_model) (hasher := @PedersenHasher _ crypto_small)
    (cl := rpc_class_libs) (sc := storage_codecs_model) (sp := provider_model pallet.empty_state)
    (bf := blockifier_model) trace_store tries_empty (Some 77) (BlockId_Number 1) = Ok traces ∧
  @transactions_hashes _ crypto_small address_model (@PedersenHasher _ crypto_small)
    b 77 (Some (block_number (header b))) = Ok (map tth_transaction_hash traces) ∧ length traces = 1%nat.
Proof.
  destruct (trace_block_transactions (kv := kv_model) (codecs := codecs_model) (items := log_items)
    (client := trace_client) (chain := backend_model) (crypto := crypto_small) (ca := address_model)
    (hasher := @PedersenHasher _ crypto_small) (cl := rpc_class_libs) (sc := storage_codecs_model)
    (sp := provider_model pallet.empty_state) (bf := blockifier_model) trace_store tries_empty (Some 77)
    (BlockId_Number 1)) as [traces| |] eqn:E; [|vm_compute in E; discriminate E..].
  destruct (trace_block_covers (kv := kv_model) (codecs := codecs_model) (items := log_items) (client := trace_client)
    (chain := backend_model) (crypto := crypto_small) (ca := address_model) (hasher := @PedersenHasher _ crypto_small)
    (cl := rpc_class_libs) (Hcl := rpc_class_libs_new) (sc := storage_codecs_model)
    (sp := provider_model pallet.empty_state) (bf := blockifier_model) trace_store tries_empty (Some 77)
    (BlockId_Number 1) traces E) as (h & b & cid & _ & _ & [= <-] & Hh).
  exists traces, b. split; [reflexivity|]. split; [exact Hh|]. vm_compute in E. by injection E as <-.
Defined.

Lemma trace_transaction_target_witness : ∃ t h tx e fees s1 info s2,
  trace_transaction (kv := kv_model) (codecs := codecs_model) (items := log_items) (client := trace_client)
    (chain := backend_model) (crypto := crypto_small) (ca := address_model) (hasher := @PedersenHasher _ crypto_small)
    (cl := rpc_class_libs) (sc := storage_codecs_model) (sp := provider_model pallet.empty_state)
    (bf := blockifier_model) trace_store tries_empty (Some 77) traced_hash = Ok t ∧
  tth_transaction_hash t = traced_hash ∧
  executable (kv := kv_model) (codecs := codecs_model) (cl := rpc_class_libs) (sc := storage_codecs_model)
    (sp := provider_model pallet.empty_state) trace_store h traced_hash tx e ∧
  tx_execute (Blockifier := blockifier_model) e s1
    (context_of (bf := blockifier_model) traced_block fees) false false = Ok (info, s2).
Proof.
  destruct (trace_transaction (kv := kv_model) (codecs := codecs_model) (items := log_items)
    (client := trace_client) (chain := backend_model) (crypto := crypto_small) (ca := address_model)
    (hasher := @PedersenHasher _ crypto_small) (cl := rpc_class_libs) (sc := storage_codecs_model)
    (sp := provider_model pallet.empty_state) (bf := blockifier_model) trace_store tries_empty (Some 77)
    traced_hash) as [t| |] eqn:E; [|vm_compute in E; discriminate E..].
  destruct (trace_transaction_target (kv := kv_model) (codecs := codecs_model) (items := log_items)
    (client := trace_client) (chain := backend_model) (crypto := crypto_small) (ca := address_model)
    (hasher := @PedersenHasher _ crypto_small) (cl := rpc_class_libs) (sc := storage_codecs_model)
    (sp := provider_model pallet.empty_state) (bf := blockifier_model) trace_store tries_empty (Some 77)
    traced_hash t E) as (Ht & h & b & cid & txs1 & tx & txs2 & before & e & prev & st & st_h & s1 & info & s2 &
      Hh & Hb & _ & _ & _ & _ & He & _ & _ & _ & _ & _ & Hx & _).
  clear E. exists t, h, tx, e, (pallet.fee_token_addresses st_h), s1, info, s2. split; [reflexivity|]. split; [exact Ht|]. split; [exact He|].
  assert (h = DHash 1) as -> by (vm_compute in Hh; congruence).
  assert (b = traced_block) as -> by (clear -Hb; vm_compute in Hb; injection Hb as <-; reflexivity). exact Hx.
Defined.
