(* ===== verification/RpcBlocks.v ===== *)
(** * RpcBlocks: blocks, receipts and their helpers in the RPC
    ([client/rpc/src/methods/get_block.rs], [utils.rs], and the read methods for
    blocks, receipts, transaction status, state updates and synchronisation)

    A block is served with its header, its transactions or their hashes, and the
    status that follows from the last block verified on L1. *)

From S2P Require Import Prelude Felt Hashers Transactions TxHash CoreTx Broadcast Blocks Db Tries.
From S2P Require Import Commitments Convert MappingSync RpcEvents RpcClient CallInfo ContractClasses.
From S2P Require Import Pallet StateAdapter Simulations Codecs Overrides L1Sync Traces RpcTrace.

(** ** Served blocks (starknet_core) *)

Record ServedHeader := {
  sh_parent_hash : Z;
  sh_timestamp : Z;
  sh_sequencer_address : Z;
  sh_l1_gas_price : p.ResourcePrice;
  sh_l1_data_gas_price : p.ResourcePrice;
  sh_starknet_version : bytes;
  sh_l1_da_mode : L1DataAvailabilityMode;
}.
Inductive ServedStatus := AcceptedOnL1 | AcceptedOnL2.
Record ServedBlock (T : Type) := {
  sb_header : ServedHeader;
  sb_status : ServedStatus;
  sb_block_hash : Z;
  sb_block_number : Z;
  sb_new_root : Z;
  sb_transactions : list T;
}.
Arguments sb_header {T}. Arguments sb_status {T}. Arguments sb_block_hash {T}. Arguments sb_block_number {T}.
Arguments sb_new_root {T}. Arguments sb_transactions {T}.
Record ServedPending (T : Type) := { sp_header : ServedHeader; sp_transactions : list T }.
Arguments sp_header {T}. Arguments sp_transactions {T}.
Inductive MaybePending (T : Type) := Served_Block (b : ServedBlock T) | Served_Pending (b : ServedPending T).
Arguments Served_Block {T}. Arguments Served_Pending {T}.

(** Receipts. *)
Inductive ExecutionResult := Succeeded | ExecReverted (reason : bytes).
Record ReceiptContent := {
  rc_transaction_hash : Z;
  rc_actual_fee : Z;                (* in wei *)
  rc_finality_status : ServedStatus;
  rc_messages_sent : list MessageToL1;
  rc_events : list Event;
  rc_execution_resources : ExecutionResources;
  rc_execution_result : ExecutionResult;
}.
Inductive TransactionReceipt :=
| Receipt_Declare (r : ReceiptContent)
| Receipt_DeployAccount (r : ReceiptContent) (contract_address : Z)
| Receipt_Invoke (r : ReceiptContent)
| Receipt_L1Handler (r : ReceiptContent) (message_hash : Z).
Record TransactionReceiptWithBlockInfo := { ri_receipt : TransactionReceipt; ri_block_hash : Z; ri_block_number : Z }.
Inductive TransactionStatus := Status_AcceptedOnL2 (succeeded : bool).

(** ** Header fields (utils.rs) *)

(** The gas price 1 stands for 0. *)
Definition non_zeo_u128_to_field_element (value : Z) : Z := if value =? 1 then 0 else value.

Definition l1_gas_price (block : DeoxysBlock) : p.ResourcePrice :=
  match Blocks.l1_gas_price (header block) with
  | Some resource_price =>
      {| p.price_in_fri := non_zeo_u128_to_field_element (strk_l1_gas_price resource_price);
         p.price_in_wei := non_zeo_u128_to_field_element (eth_l1_gas_price resource_price) |}
  | None => {| p.price_in_fri := 0; p.price_in_wei := 0 |}
  end.

Definition l1_data_gas_price (block : DeoxysBlock) : p.ResourcePrice :=
  match Blocks.l1_gas_price (header block) with
  | Some resource_price =>
      {| p.price_in_fri := strk_l1_data_gas_price resource_price;
         p.price_in_wei := eth_l1_data_gas_price resource_price |}
  | None => {| p.price_in_fri := 1; p.price_in_wei := 1 |}
  end.

Definition parent_hash (block : DeoxysBlock) : Z := parent_block_hash (header block).
Definition new_root (block : DeoxysBlock) : Z := global_state_root (header block).
Definition timestamp (block : DeoxysBlock) : Z := block_timestamp (header block).
Definition sequencer_address (block : DeoxysBlock) : Z := Blocks.sequencer_address (header block).
Definition l1_da_mode (block : DeoxysBlock) : L1DataAvailabilityMode := Blocks.l1_da_mode (header block).

(** [status], with the shared L1 state. *)
Definition status (s : L1Sync.SyncState) (block_number : Z) : ServedStatus :=
  if block_number <=? l1_block_number (ETHEREUM_STATE_UPDATE s) then AcceptedOnL1 else AcceptedOnL2.

Section RpcBlocks.
Context {E1 E2 E3 S Item : Type} `{kv : KvStore E1 S} `{codecs : DbCodecs}.
Context `{items : DigestItems Item} `{client : SubstrateClient E2 Item} `{chain : ChainBackend E2}.
Context `{libs : FeltLibs} `{crypto : StarknetCrypto} `{ca : ContractAddresses} `{hasher : HasherT}.
Variable cache_more_things : bool.
Variable db : S.
Variable sync_state : L1Sync.SyncState.
Variable config_chain_id : option Z.
Abbreviation R := (Outcome RpcError).

Definition starknet_version (block : DeoxysBlock) : R bytes :=
  unwrap (Felt252Wrapper.from_utf8 (protocol_version (header block))).

Definition tx_hash_retrieve (tx_hashes : list Z) : list Z := tx_hashes.

Definition tx_hash_compute (block : DeoxysBlock) (chain_id : Z) : R (list Z) :=
  no_err (transactions_hashes block chain_id (Some (block_number (header block)))).

Definition tx_conv (txs : list Transaction) (tx_hashes : list Z) : R (list core.Transaction) :=
  mapM (λ '(tx, hash), no_err (to_starknet_core_tx tx hash)) (zip txs tx_hashes).

Definition served_header (block : DeoxysBlock) : R ServedHeader :=
  version ← starknet_version block;
  Ok {| sh_parent_hash := parent_hash block; sh_timestamp := timestamp block;
        sh_sequencer_address := sequencer_address block; sh_l1_gas_price := l1_gas_price block;
        sh_l1_data_gas_price := l1_data_gas_price block; sh_starknet_version := version;
        sh_l1_da_mode := l1_da_mode block |}.

(** The hashes of the block's transactions, cached or computed. *)
Definition block_tx_hashes (block : DeoxysBlock) (chain_id : Z) : R (Z * list Z) :=
  block_hash ← no_err (Header_hash (header block));
  cached ← api (get_cached_transaction_hashes cache_more_things db block_hash);
  hashes ← (match cached with
            | Some tx_hashes => Ok (tx_hash_retrieve tx_hashes)
            | None => tx_hash_compute block chain_id
            end);
  Ok (block_hash, hashes).

Definition finalized_block {T} (block : DeoxysBlock) (block_hash : Z) (transactions : list T) : R (ServedBlock T) :=
  hdr ← served_header block;
  Ok {| sb_header := hdr; sb_status := status sync_state (block_number (header block)); sb_block_hash := block_hash;
        sb_block_number := block_number (header block); sb_new_root := new_root block;
        sb_transactions := transactions |}.

Definition pending_served {T} (block : DeoxysBlock) (transactions : list T) : R (ServedPending T) :=
  hdr ← served_header block;
  Ok {| sp_header := hdr; sp_transactions := transactions |}.

(** ** get_block.rs *)

Definition get_block_with_tx_hashes_finalized (chain_id : Z) (substrate_block_hash : DHashT) : R (MaybePending Z) :=
  starknet_block ← get_block substrate_block_hash;
  '(block_hash, transactions) ← block_tx_hashes starknet_block chain_id;
  Served_Block <$> finalized_block starknet_block block_hash transactions.

Definition get_block_with_tx_hashes_pending (chain_id : Z) : R (MaybePending Z) :=
  starknet_block ← ok_or Rpc_Failed (get_pending_block sync_state);
  transactions ← tx_hash_compute starknet_block chain_id;
  Served_Pending <$> pending_served starknet_block transactions.

Definition get_block_with_txs_finalized (chain_id : Z) (substrate_block_hash : DHashT)
    : R (MaybePending core.Transaction) :=
  starknet_block ← get_block substrate_block_hash;
  '(block_hash, tx_hashes) ← block_tx_hashes starknet_block chain_id;
  transactions ← tx_conv (transactions starknet_block) tx_hashes;
  Served_Block <$> finalized_block starknet_block block_hash transactions.

Definition get_block_with_txs_pending (chain_id : Z) : R (MaybePending core.Transaction) :=
  starknet_block ← ok_or Rpc_Failed (get_pending_block sync_state);
  tx_hashes ← tx_hash_compute starknet_block chain_id;
  transactions ← tx_conv (transactions starknet_block) tx_hashes;
  Served_Pending <$> pending_served starknet_block transactions.

Definition is_pending_id (block_id : BlockId) : bool := match block_id with BlockId_Tag Pending => true | _ => false end.

Definition get_block_with_tx_hashes (block_id : BlockId) : R (MaybePending Z) :=
  chain_id ← api (RpcClient.chain_id config_chain_id);
  substrate_block_hash ← api (map_err (λ _, BlockNotFound) (substrate_block_hash_from_starknet_block db block_id));
  if is_pending_id block_id then get_block_with_tx_hashes_pending chain_id
  else get_block_with_tx_hashes_finalized chain_id substrate_block_hash.

Definition get_block_with_txs (block_id : BlockId) : R (MaybePending core.Transaction) :=
  chain_id ← api (RpcClient.chain_id config_chain_id);
  substrate_block_hash ← api (map_err (λ _, BlockNotFound) (substrate_block_hash_from_starknet_block db block_id));
  if is_pending_id block_id then get_block_with_txs_pending chain_id
  else get_block_with_txs_finalized chain_id substrate_block_hash.
End RpcBlocks.

(** ** Receipts (get_transaction_receipt.rs)

    The functions that rebuild declarations call themselves: they have fuel, and
    [None] is a call that has not returned yet. *)

Section Receipts.
Context {E1 E2 E3 S Item : Type} `{kv : KvStore E1 S} `{codecs : DbCodecs}.
Context `{items : DigestItems Item} `{client : SubstrateClient E2 Item} `{chain : ChainBackend E2}.
Context `{libs : FeltLibs} `{crypto : StarknetCrypto} `{ca : ContractAddresses} `{hasher : HasherT}.
Context {Abi LProg Prog V1 Info CS C X BP BC : Type} `{cl : ClassLibs Abi LProg Prog V1 Info}.
Context `{sc : StorageCodecs Prog V1} `{sp : StorageProvider E3 Prog V1}.
Context `{bf : Blockifier CS Info C X Prog V1 BP BC}.
Variable cache_more_things : bool.
Variable db : S.
Variable tries : Tries BP BC.
Variable sync_state : L1Sync.SyncState.
Variable config_chain_id : option Z.
Abbreviation R := (Outcome RpcError).
Abbreviation Exec := (ExecTransaction Info).

Fixpoint tx_declare_v2 (fuel : nat) (declare_tx : DeclareTransaction) : option (R Exec) :=
  match fuel with
  | O => None
  | Datatypes.S fuel =>
      match sierra_to_casm_contract_class StarknetApiClass_default with
      | None => Some (Err (Rpc_Api InternalServerError))
      | Some contract_class =>
          match ContractClassV1_try_from contract_class with
          | None => Some (Err (Rpc_Api InternalServerError))
          | Some _ =>
              match declare_tx with
              | Declare_V2 _ => tx_declare_v2 fuel declare_tx
              | Declare_V0 _ | Declare_V1 _ | Declare_V3 _ => Some Panic
              end
          end
      end
  end.

Fixpoint tx_declare_v0v1 (fuel : nat) (substrate_block_hash : DHashT) (declare_tx : DeclareTransaction)
    (class_hash : Z) : option (R Exec) :=
  match fuel with
  | O => None
  | Datatypes.S fuel =>
      match contract_class_by_class_hash (for_block_hash overrides_handle substrate_block_hash)
              substrate_block_hash class_hash with
      | None => Some (Err (Rpc_Api InternalServerError))
      | Some _contract_class =>
          match declare_tx with
          | Declare_V0 _ | Declare_V1 _ => tx_declare_v0v1 fuel substrate_block_hash declare_tx class_hash
          | Declare_V2 _ => tx_declare_v2 fuel declare_tx
          | Declare_V3 _ => Some Panic
          end
      end
  end.

Definition tx_declare (fuel : nat) (substrate_block_hash : DHashT) (declare_tx : DeclareTransaction) : option (R Exec) :=
  match declare_tx with
  | Declare_V0 tx | Declare_V1 tx => tx_declare_v0v1 fuel substrate_block_hash declare_tx (d1_class_hash tx)
  | Declare_V2 _ => tx_declare_v2 fuel declare_tx
  | Declare_V3 _ => Some Panic
  end.

Definition tx_invoke_transaction (tx : InvokeTransaction) (hash : Z) : R Exec :=
  Ok (Exec_Account (Acc_Invoke tx hash)).
Definition tx_deploy_account (tx : DeployAccountTransaction) (hash contract_address : Z) : R Exec :=
  Ok (Exec_Account (Acc_DeployAccount tx hash contract_address)).
Definition tx_l1_handler (chain_id block_number : Z) (l1_handler : L1HandlerTransaction) : R Exec :=
  tx_hash ← no_err (compute_hash l1_handler chain_id false (Some block_number));
  paid_fee ← map_err (λ _, Rpc_Api InternalServerError) (L1HandlerTxFeeDb.get_fee_paid_for_l1_handler_tx db tx_hash);
  Ok (Exec_L1Handler l1_handler tx_hash paid_fee).

Definition receipt_transaction (fuel : nat) (substrate_block_hash : DHashT) (chain_id block_number : Z)
    (tx : Transaction) : option (R Exec) :=
  match tx with
  | Tx_Invoke invoke_tx =>
      Some (h ← no_err (compute_hash invoke_tx chain_id false (Some block_number)); tx_invoke_transaction invoke_tx h)
  | Tx_DeployAccount deploy_account_tx =>
      Some (h ← no_err (compute_hash deploy_account_tx chain_id false (Some block_number));
            tx_deploy_account deploy_account_tx h 0)
  | Tx_Declare declare_tx => tx_declare fuel substrate_block_hash declare_tx
  | Tx_L1Handler l1_handler => Some (tx_l1_handler chain_id block_number l1_handler)
  | Tx_Deploy _ => Some Panic
  end.

(** [collect::<Result<Vec<_>, _>>()]: stops at the first error. *)
Fixpoint collect_transactions (fuel : nat) (substrate_block_hash : DHashT) (chain_id block_number : Z)
    (txs : list Transaction) : option (R (list Exec)) :=
  match txs with
  | [] => Some (Ok [])
  | tx :: txs =>
      r ← receipt_transaction fuel substrate_block_hash chain_id block_number tx;
      match r with
      | Ok e =>
          rest ← collect_transactions fuel substrate_block_hash chain_id block_number txs;
          Some (l ← (rest : R (list Exec)); Ok (e :: l))
      | Err e => Some (Err e)
      | Panic => Some Panic
      end
  end.

Definition is_deploy (tx : Transaction) : bool := match tx with Tx_Deploy _ => true | _ => false end.

Definition receipt_transactions (fuel : nat) (substrate_block_hash : DHashT) (chain_id : Z) (block : DeoxysBlock)
    (block_number : Z) (tx_index : nat) : option (R (list Exec)) :=
  collect_transactions fuel substrate_block_hash chain_id block_number
    (filter (λ tx, is_deploy tx = false) (take (tx_index + 1) (transactions block))).

Definition previous_block_hash (block_number : Z) : R DHashT :=
  previous ← (if block_number =? 0 then Panic else Ok (block_number - 1));
  map_err (λ _, Rpc_Api InternalServerError) (substrate_block_hash_from_starknet_block db (BlockId_Number previous)).

(** [split_last], re-execution, [pop]. *)
Definition execution_infos (previous_block_hash : DHashT) (transactions : list Exec) (block_context : BlockContext C)
    : R TransactionExecutionInfo :=
  let '(prev, last_) := match last transactions with
                        | Some l => (removelast transactions, [l])
                        | None => ([], transactions)
                        end in
  infos ← api_re_execute tries previous_block_hash prev last_ block_context;
  ok_or (Rpc_Api InternalServerError) (last infos).

Definition find_index (x : Z) (hashes : list Z) : option nat := fst <$> list_find (λ h, h = x) hashes.

Definition receipt_content (transaction_hash block_number : Z) (infos : TransactionExecutionInfo) : ReceiptContent := {|
  rc_transaction_hash := transaction_hash;
  rc_actual_fee := ti_actual_fee infos;
  rc_finality_status := status sync_state block_number;
  rc_messages_sent := match ti_execute_call_info infos with
                      | Some call_info => extract_messages_from_call_info call_info
                      | None => []
                      end;
  rc_events := match ti_execute_call_info infos with
               | Some call_info => extract_events_from_call_info call_info
               | None => []
               end;
  rc_execution_resources := match ti_execute_call_info infos with
                            | Some call_info => blockifier_call_info_to_starknet_resources call_info
                            | None => {| er_computation_resources := empty_resources;
                                         er_data_availability := {| dar_l1_gas := 0; dar_l1_data_gas := 0 |} |}
                            end;
  rc_execution_result := match ti_revert_error infos with Some err => ExecReverted err | None => Succeeded end;
|}.

(** The receipt by the kind of transaction; the address of a deployed account and
    the hash of a message are left zero. *)
Definition receipt_of (transaction : Transaction) (r : ReceiptContent) : R TransactionReceipt :=
  match transaction with
  | Tx_Declare _ => Ok (Receipt_Declare r)
  | Tx_DeployAccount _ => Ok (Receipt_DeployAccount r 0)
  | Tx_Invoke _ => Ok (Receipt_Invoke r)
  | Tx_L1Handler _ => Ok (Receipt_L1Handler r 0)
  | Tx_Deploy _ => Panic
  end.

(** Everything before the transactions are rebuilt. *)
Definition receipt_lookup (chain_id : Z) (substrate_block_hash : DHashT) (transaction_hash : Z)
    : R (DeoxysBlock * Z * DHashT * nat * Transaction) :=
  block ← get_block substrate_block_hash;
  let block_number := block_number (header block) in
  block_hash ← no_err (Header_hash (header block));
  previous ← previous_block_hash block_number;
  '(_, block_txs_hashes) ← block_tx_hashes cache_more_things db block chain_id;
  tx_index ← unwrap_opt (find_index transaction_hash block_txs_hashes);
  transaction ← ok_or (Rpc_Api InternalServerError) (transactions block !! tx_index);
  if is_deploy transaction then Err (Rpc_Api UnimplementedMethod)
  else Ok (block, block_hash, previous, tx_index, transaction).

(** And everything after. *)
Definition receipt_finish (substrate_block_hash : DHashT) (transaction_hash : Z)
    (found : DeoxysBlock * Z * DHashT * nat * Transaction) (txs : R (list Exec)) : R TransactionReceiptWithBlockInfo :=
  let '(block, block_hash, previous, tx_index, transaction) := found in
  let block_number := block_number (header block) in
  txs ← txs;
  st ← map_err (λ _, Rpc_Api InternalServerError) (runtime_state substrate_block_hash);
  block_context ← no_err (into_block_context latest_constants (header block) (pallet.fee_token_addresses st)
                            (bytes_of_string "SN_MAIN"));
  infos ← execution_infos previous txs block_context;
  receipt ← receipt_of transaction (receipt_content transaction_hash block_number infos);
  Ok {| ri_receipt := receipt; ri_block_hash := block_hash; ri_block_number := block_number |}.

Definition get_transaction_receipt_finalized (fuel : nat) (chain_id : Z) (substrate_block_hash : DHashT)
    (transaction_hash : Z) : option (R TransactionReceiptWithBlockInfo) :=
  match receipt_lookup chain_id substrate_block_hash transaction_hash with
  | Ok (block, block_hash, previous, tx_index, transaction) =>
      txs ← receipt_transactions fuel substrate_block_hash chain_id block (block_number (header block)) tx_index;
      Some (receipt_finish substrate_block_hash transaction_hash (block, block_hash, previous, tx_index, transaction) txs)
  | Err e => Some (Err e)
  | Panic => Some Panic
  end.

(** An unknown transaction hash panics. *)
Definition get_transaction_receipt (fuel : nat) (transaction_hash : Z) : option (R TransactionReceiptWithBlockInfo) :=
  let start :=
    found ← map_err (λ _, Rpc_Api InternalServerError) (MappingDb.block_hash_from_transaction_hash db transaction_hash);
    chain_id ← api (RpcClient.chain_id config_chain_id);
    h ← unwrap_opt found;
    Ok (chain_id, h) in
  match start with
  | Ok (chain_id, h) => get_transaction_receipt_finalized fuel chain_id h transaction_hash
  | Err e => Some (Err e)
  | Panic => Some Panic
  end.

(** ** Status (get_transaction_status.rs) *)

(** [Starknet::tx_revert_error] of the runtime API at the block. *)
Definition get_transaction_status (transaction_hash : Z) : R TransactionStatus :=
  found ← map_err (λ _, Rpc_Api TxnHashNotFound) (MappingDb.block_hash_from_transaction_hash db transaction_hash);
  substrate_block_hash ← ok_or (Rpc_Api TxnHashNotFound) found;
  starknet_block ← get_block substrate_block_hash;
  chain_id ← api (RpcClient.chain_id config_chain_id);
  block_hash ← no_err (Header_hash (header starknet_block));
  cached ← api (get_cached_transaction_hashes cache_more_things db block_hash);
  _ ← (match cached with
       | Some tx_hashes =>
           match head (filter (λ p, p.1 = transaction_hash) (zip tx_hashes (transactions starknet_block))) with
           | Some (_, tx) => Some <$> no_err (to_starknet_core_tx tx transaction_hash)
           | None => Ok None
           end
       | None =>
           found ← no_err (find_tx (λ tx,
             h ← compute_hash tx chain_id false (Some (block_number (header starknet_block)));
             Ok (h =? transaction_hash)) (transactions starknet_block));
           match found with
           | Some tx => Some <$> no_err (to_starknet_core_tx tx transaction_hash)
           | None => Ok None
           end
       end);
  st ← map_err (λ _, Rpc_Api InternalServerError) (runtime_state substrate_block_hash);
  let revert_error := TxRevertError st !! transaction_hash in
  Ok (Status_AcceptedOnL2 (bool_decide (revert_error = None))).

(** ** Blocks with receipts (get_block_with_receipts.rs) *)

Fixpoint collect_receipts (fuel : nat) (chain_id block_number : Z) (h : DHashT) (txs : list Transaction)
    : option (R (list (core.Transaction * TransactionReceipt))) :=
  match txs with
  | [] => Some (Ok [])
  | tx :: txs =>
      let hashed :=
        hash ← no_err (compute_hash tx chain_id false (Some block_number));
        c ← no_err (to_starknet_core_tx tx hash);
        Ok (hash, c) in
      match hashed with
      | Ok (hash, c) =>
          r ← get_transaction_receipt_finalized fuel chain_id h hash;
          match r with
          | Ok info =>
              rest ← collect_receipts fuel chain_id block_number h txs;
              Some (l ← (rest : R (list (core.Transaction * TransactionReceipt))); Ok ((c, ri_receipt info) :: l))
          | _ => Some Panic
          end
      | Err e => Some (Err e)
      | Panic => Some Panic
      end
  end.

Definition get_block_with_receipts (fuel : nat) (block_id : BlockId)
    : option (R (MaybePending (core.Transaction * TransactionReceipt))) :=
  let start :=
    h ← api (map_err (λ _, BlockNotFound) (substrate_block_hash_from_starknet_block db block_id));
    starknet_block ← map_err (λ _, Rpc_Api InternalServerError) (get_block_by_block_hash h);
    chain_id ← api (RpcClient.chain_id config_chain_id);
    Ok (h, starknet_block, chain_id) in
  match start with
  | Ok (h, starknet_block, chain_id) =>
      txs ← collect_receipts fuel chain_id (block_number (header starknet_block)) h (transactions starknet_block);
      Some (txs ← (txs : R (list (core.Transaction * TransactionReceipt)));
            if is_pending_id block_id then Served_Pending <$> pending_served starknet_block txs
            else block_hash ← no_err (Header_hash (header starknet_block));
                 Served_Block <$> finalized_block sync_state starknet_block block_hash txs)
  | Err e => Some (Err e)
  | Panic => Some Panic
  end.
End Receipts.

(** ** Properties *)

(** The gas prices of a converted block as they are served: a price of 1 is served
    as 0, a data gas price of 0 as 1, and without a gas price in wei none of the
    prices is kept. *)
Theorem gas_prices_served `{Hlibs : !FeltLibsSpec libs} l1 data block :
  wf_p_price l1 → wf_p_price data → convert.resource_price l1 data = Ok (Blocks.l1_gas_price (header block)) →
  l1_gas_price block =
    (let unit x := if (p.price_in_wei l1 =? 0) || (x <=? 1) then 0 else x in
     {| p.price_in_fri := unit (p.price_in_fri l1); p.price_in_wei := unit (p.price_in_wei l1) |}) ∧
  l1_data_gas_price block =
    (let unit x := if p.price_in_wei l1 =? 0 then 1 else Z.max 1 x in
     {| p.price_in_fri := unit (p.price_in_fri data); p.price_in_wei := unit (p.price_in_wei data) |}).
Proof.
  intros Hl Hd. rewrite resource_price_spec by done. destruct (prices_fit l1 data); [|discriminate].
  intros [= Hp]. unfold l1_gas_price, l1_data_gas_price. rewrite <- Hp. unfold gas_prices.
  destruct Hl as [[Hw0 _] [Hf0 _]]. destruct (Z.eqb_spec (p.price_in_wei l1) 0); [done|]. simpl.
  split; [|done]. unfold non_zeo_u128_to_field_element.
  f_equal; [destruct (Z.leb_spec (p.price_in_fri l1) 1)|destruct (Z.leb_spec (p.price_in_wei l1) 1)];
    repeat match goal with |- context [?x =? 1] => destruct (Z.eqb_spec x 1) end; lia.
Qed.

Section Served.
Context {E1 E2 S Item : Type} `{kv : KvStore E1 S} `{codecs : DbCodecs}.
Context `{items : DigestItems Item} `{client : SubstrateClient E2 Item} `{chain : ChainBackend E2}.
Context `{Hlibs : !FeltLibsSpec libs} `{crypto : StarknetCrypto} `{Hca : !ContractAddressesSpec ca}.
Context `{hasher : HasherT} {Hkv : KvStoreSpec kv} {Hcodecs : DbCodecsSpec codecs}.
Variable cache : bool.
Variable db : S.
Variable sync_state : L1Sync.SyncState.
Variable cid : Z.

Lemma block_tx_hashes_ok a b :
  wf_block b → refines (contents db) a → is_felt (block_hash_of b) → cache_ok cid a b →
  block_tx_hashes cache db b cid = Ok (block_hash_of b, tx_hashes_of cid b).
Proof.
  intros [Hh Htx] R Hbh Hc. unfold block_tx_hashes, no_err. rewrite header_hash_preimage by done.
  cbn [map_err mbind Outcome_bind].
  change (compute_hash_on_wrappers (header_preimage (header b))) with (block_hash_of b).
  destruct (cached_hashes_cases cache db cid a b R Hbh Hc) as [-> | ->]; cbn [api map_err mbind Outcome_bind]; [|done].
  unfold tx_hash_compute, transactions_hashes. by rewrite block_hashes_ok.
Qed.

Lemma tx_conv_ok txs hashes :
  length txs = length hashes → Forall (λ tx, well_ranged tx ∧ servable tx = true) txs →
  ∃ cs, tx_conv txs hashes = Ok cs ∧ map from_core cs = map normal txs ∧ map core_hash cs = hashes.
Proof.
  unfold tx_conv. intros Hlen HF. revert hashes Hlen. induction HF as [|tx txs [Hr Hs] _ IH]; intros [|h hashes] Hlen;
    try discriminate Hlen; [by exists []|].
  injection Hlen as Hlen. destruct (IH hashes Hlen) as (cs & Hcs & Hf & Hh).
  pose proof (core_tx_served tx h Hr) as Hc. rewrite Hs in Hc. destruct Hc as (c & Hc1 & Hc2 & Hc3).
  exists (c :: cs). simpl. rewrite Hc1. unfold mbind in *. simpl. rewrite Hcs. split; [done|].
  split; simpl; congruence.
Qed.

(** The answers to the two block queries, with the served header [hdr] and
    transactions [cs]. *)
Lemma served_block a h b id version :
  substrate_block_hash_from_starknet_block db id = Ok h → is_pending_id id = false →
  serves h b → wf_block b → refines (contents db) a → is_felt (block_hash_of b) → cache_ok cid a b →
  Forall (λ tx, well_ranged tx ∧ servable tx = true) (transactions b) →
  Felt252Wrapper.from_utf8 (protocol_version (header b)) = Ok version →
  ∃ cs, let served {T} (l : list T) := Ok (Served_Block {|
      sb_header := {| sh_parent_hash := parent_hash b; sh_timestamp := timestamp b;
        sh_sequencer_address := sequencer_address b; sh_l1_gas_price := l1_gas_price b;
        sh_l1_data_gas_price := l1_data_gas_price b; sh_starknet_version := version; sh_l1_da_mode := l1_da_mode b |};
      sb_status := status sync_state (block_number (header b)); sb_block_hash := block_hash_of b;
      sb_block_number := block_number (header b); sb_new_root := new_root b; sb_transactions := l |}) in
    get_block_with_txs cache db sync_state (Some cid) id = served cs ∧
    get_block_with_tx_hashes cache db sync_state (Some cid) id = served (tx_hashes_of cid b) ∧
    map from_core cs = map normal (transactions b) ∧ map core_hash cs = tx_hashes_of cid b ∧
    tx_conv (transactions b) (tx_hashes_of cid b) = Ok cs.
Proof.
  intros Hid Hp Hs Hwf R Hbh Hc Hsv Hver.
  destruct (tx_conv_ok (transactions b) (tx_hashes_of cid b)) as (cs & Hcs & Hf & Hh).
  { unfold tx_hashes_of. by rewrite length_map. }
  { done. }
  exists cs. unfold get_block_with_txs, get_block_with_tx_hashes, chain_id. cbn [ok_or api map_err mbind Outcome_bind].
  rewrite Hid, Hp. unfold api. cbn [map_err mbind Outcome_bind].
  unfold get_block_with_txs_finalized, get_block_with_tx_hashes_finalized, get_block.
  rewrite (get_block_served h b Hs). cbn [map_err mbind Outcome_bind].
  rewrite (block_tx_hashes_ok a b Hwf R Hbh Hc). cbn [mbind Outcome_bind]. rewrite Hcs. cbn [mbind Outcome_bind].
  unfold finalized_block, served_header, starknet_version. rewrite Hver. done.
Qed.

(** A price of 1 is served as 0, which the header cannot hold. *)
Definition unit_price (x : Z) : Z := if x =? 1 then 0 else x.

(** C22: A block that is asked for by its number, its hash or as the latest one is served
    as it was imported: every transaction in order, with the fields of its stored form
    (but for the versions of deploy and L1 handler transactions and the nonce of declares
    of version 0, which are not served) and its hash, whether the hashes are cached or not;
    the block's hash, number, state root, parent, timestamp, sequencer, version and data
    availability mode; the prices of the gas and of the data gas, where a gas price of 1 is
    served as 0 and missing prices as 0 and 1; and accepted on L1 exactly up to the last
    block verified there.  The cached hashes are assumed right, the transactions servable
    (both resource bounds, L1 nonces of 64 bits), the version in UTF-8. *)
Theorem block_served a h b id version :
  substrate_block_hash_from_starknet_block db id = Ok h → is_pending_id id = false →
  serves h b → wf_block b → refines (contents db) a → is_felt (block_hash_of b) → cache_ok cid a b →
  Forall (λ tx, well_ranged tx ∧ servable tx = true) (transactions b) →
  Felt252Wrapper.from_utf8 (protocol_version (header b)) = Ok version →
  ∃ sb, get_block_with_txs cache db sync_state (Some cid) id = Ok (Served_Block sb) ∧
    get_block_with_tx_hashes cache db sync_state (Some cid) id =
      Ok (Served_Block {| sb_header := sb_header sb; sb_status := sb_status sb; sb_block_hash := sb_block_hash sb;
                          sb_block_number := sb_block_number sb; sb_new_root := sb_new_root sb;
                          sb_transactions := tx_hashes_of cid b |}) ∧
    map from_core (sb_transactions sb) = map normal (transactions b) ∧
    map core_hash (sb_transactions sb) = tx_hashes_of cid b ∧
    sb_block_hash sb = block_hash_of b ∧ sb_block_number sb = block_number (header b) ∧
    sb_new_root sb = global_state_root (header b) ∧
    sb_header sb = {|
      sh_parent_hash := parent_block_hash (header b); sh_timestamp := block_timestamp (header b);
      sh_sequencer_address := Blocks.sequencer_address (header b);
      sh_l1_gas_price := from_option
        (λ g, {| p.price_in_fri := unit_price (strk_l1_gas_price g); p.price_in_wei := unit_price (eth_l1_gas_price g) |})
        {| p.price_in_fri := 0; p.price_in_wei := 0 |} (Blocks.l1_gas_price (header b));
      sh_l1_data_gas_price := from_option
        (λ g, {| p.price_in_fri := strk_l1_data_gas_price g; p.price_in_wei := eth_l1_data_gas_price g |})
        {| p.price_in_fri := 1; p.price_in_wei := 1 |} (Blocks.l1_gas_price (header b));
      sh_starknet_version := version; sh_l1_da_mode := Blocks.l1_da_mode (header b) |} ∧
    sb_status sb = (if block_number (header b) <=? l1_block_number (ETHEREUM_STATE_UPDATE sync_state)
                    then AcceptedOnL1 else AcceptedOnL2).
Proof.
  intros Hid Hp Hs Hwf R Hbh Hc Hsv Hver.
  destruct (served_block a h b id version) as (cs & H1 & H2 & Hf & Hh & _); try done.
  eexists. split; [exact H1|]. split; [exact H2|]. by split_and!.
Qed.

(** The pending block is that of the synchronisation. *)
Lemma served_pending h pb id version :
  substrate_block_hash_from_starknet_block db id = Ok h → is_pending_id id = true →
  get_pending_block sync_state = Some pb → wf_block pb →
  Forall (λ tx, well_ranged tx ∧ servable tx = true) (transactions pb) →
  Felt252Wrapper.from_utf8 (protocol_version (header pb)) = Ok version →
  ∃ txs hashes, get_block_with_txs cache db sync_state (Some cid) id = Ok (Served_Pending txs) ∧
    get_block_with_tx_hashes cache db sync_state (Some cid) id = Ok (Served_Pending hashes) ∧
    map from_core (sp_transactions txs) = map normal (transactions pb) ∧
    sp_transactions hashes = tx_hashes_of cid pb ∧ map core_hash (sp_transactions txs) = tx_hashes_of cid pb.
Proof.
  intros Hid Hp Hpb [_ Htx] Hsv Hver.
  destruct (tx_conv_ok (transactions pb) (tx_hashes_of cid pb)) as (cs & Hcs & Hf & Hh).
  { unfold tx_hashes_of. by rewrite length_map. }
  { done. }
  unfold get_block_with_txs, get_block_with_tx_hashes, chain_id. cbn [ok_or api map_err mbind Outcome_bind].
  rewrite Hid, Hp. unfold api. cbn [map_err mbind Outcome_bind].
  unfold get_block_with_txs_pending, get_block_with_tx_hashes_pending. rewrite Hpb. cbn [ok_or mbind Outcome_bind].
  unfold tx_hash_compute, transactions_hashes, no_err. rewrite block_hashes_ok by done. cbn [map_err mbind Outcome_bind].
  match goal with |- context [tx_conv _ ?l] => change l with (tx_hashes_of cid pb) end.
  rewrite Hcs. cbn [mbind Outcome_bind]. unfold pending_served, served_header, starknet_version. rewrite Hver.
  by eexists _, _.
Qed.
End Served.

Section Divergence.
Context {E1 E2 E3 S Item : Type} `{kv : KvStore E1 S} `{codecs : DbCodecs}.
Context `{libs : FeltLibs} `{crypto : StarknetCrypto} `{ca : ContractAddresses} `{hasher : HasherT}.
Context {Abi LProg Prog V1 Info : Type} `{cl : ClassLibs Abi LProg Prog V1 Info}.
Context `{sc : StorageCodecs Prog V1} `{sp : StorageProvider E3 Prog V1}.
Variable db : S.

Lemma tx_declare_v0v1_diverges fuel h d c class :
  contract_class_by_class_hash (for_block_hash overrides_handle h) h c = Some class →
  match d with Declare_V0 _ | Declare_V1 _ => True | _ => False end → tx_declare_v0v1 fuel h d c = None.
Proof.
  intros Hc Hd. induction fuel as [|fuel IH]; [done|]. cbn [tx_declare_v0v1]. rewrite Hc. by destruct d.
Qed.

(** The receipt of a transaction needs the executable form of every transaction
    up to it; that of a declaration of version 0 or 1 whose class is stored is
    never obtained, whatever the fuel: the function calls itself with the same
    arguments. *)
Theorem declare_receipt_diverges fuel h cid n txs1 d txs2 class :
  Forall (λ tx, ∃ i, tx = Tx_Invoke i ∧ is_ok (compute_hash i cid false (Some n)) = true) txs1 →
  contract_class_by_class_hash (for_block_hash overrides_handle h) h (d1_class_hash d) = Some class →
  collect_transactions db fuel h cid n (txs1 ++ Tx_Declare (Declare_V1 d) :: txs2) = None.
Proof.
  intros HF Hc. induction HF as [|tx txs1 (i & -> & Hi) _ IH]; simpl.
  - by rewrite (tx_declare_v0v1_diverges _ _ (Declare_V1 d) _ class).
  - destruct (compute_hash i cid false (Some n)) as [x| |]; try discriminate. simpl. by rewrite IH.
Qed.
End Divergence.

(** ** Witnesses *)

Lemma gas_prices_served_witness :
  let l1 := {| p.price_in_fri := 1; p.price_in_wei := 7 |} in
  let data := {| p.price_in_fri := 0; p.price_in_wei := 9 |} in
  ∃ block, l1_gas_price block = {| p.price_in_fri := 0; p.price_in_wei := 7 |} ∧
    l1_data_gas_price block = {| p.price_in_fri := 1; p.price_in_wei := 9 |}.
Proof.
  exists {| header := {| parent_block_hash := 0; block_number := 0; global_state_root := 0;
       Blocks.sequencer_address := 0; block_timestamp := 0; transaction_count := 0; transaction_commitment := 0;
       event_count := 0; event_commitment := 0; protocol_version := 0;
       Blocks.l1_gas_price := Some {| eth_l1_gas_price := 7; strk_l1_gas_price := 1; eth_l1_data_gas_price := 9;
         strk_l1_data_gas_price := 1 |};
       Blocks.l1_da_mode := L1DA_Calldata; extra_data := None |}; transactions := []; events := [] |}.
  eapply (gas_prices_served (Hlibs := felt_libs_model_spec) {| p.price_in_fri := 1; p.price_in_wei := 7 |}
    {| p.price_in_fri := 0; p.price_in_wei := 9 |}); [by vm_compute..|reflexivity].
Defined.

Lemma block_served_witness : ∃ sb,
  get_block_with_txs (kv := kv_model) (codecs := codecs_model) (items := log_items) (client := client_model)
    (chain := backend_model) (crypto := crypto_small) (ca := address_model) (hasher := @PedersenHasher _ crypto_small)
    true store_model SyncState_init (Some 77) (BlockId_Number 1) = Ok (Served_Block sb) ∧
  map from_core (sb_transactions sb) = [tx_model] ∧ sb_status sb = AcceptedOnL1 ∧
  sh_parent_hash (sb_header sb) = parent_block_hash (header example_block) ∧
  sh_l1_gas_price (sb_header sb) = {| p.price_in_fri := 0; p.price_in_wei := 0 |}.
Proof.
  destruct (block_served (kv := kv_model) (codecs := codecs_model) (items := log_items) (client := client_model)
    (chain := backend_model) (crypto := crypto_small) (Hca := address_model_spec)
    (hasher := @PedersenHasher _ crypto_small) (Hkv := kv_model_spec) true store_model SyncState_init 77
    index_model (DHash 1) example_block (BlockId_Number 1) []
    eq_refl eq_refl serves_model block_model_ok store_model_refines)
    as (sb & H & _ & Htx & _ & _ & _ & _ & Hhd & Hst).
  - by vm_compute.
  - exact cache_model.
  - apply Forall_singleton. split; [split; [by vm_compute | by repeat constructor]|reflexivity].
  - by vm_compute.
  - exists sb. rewrite Hhd. split_and!; [exact H|exact Htx|exact Hst|reflexivity|reflexivity].
Defined.

Definition declared_class_state : PalletState bytes unit :=
  set_chain pallet.empty_state ∅ ∅ ∅ {[ 9 := ContractClass_V1 tt ]} ∅.

Lemma declare_receipt_diverges_witness :
  let d := {| d1_max_fee := 0; d1_signature := []; d1_nonce := 0; d1_class_hash := 9; d1_sender_address := 4 |} in
  collect_transactions (kv := kv_model) (codecs := codecs_model) (crypto := crypto_small) (ca := address_model)
    (hasher := @PedersenHasher _ crypto_small) (cl := rpc_class_libs) (sc := storage_codecs_model)
    (sp := provider_model declared_class_state) store_model 100 (DHash 1) 77 5
    [tx_model; Tx_Declare (Declare_V1 d)] = None.
Proof.
  intros d. refine (declare_receipt_diverges (kv := kv_model) (codecs := codecs_model) (crypto := crypto_small)
    (ca := address_model) (hasher := @PedersenHasher _ crypto_small) (cl := rpc_class_libs)
    (sc := storage_codecs_model) (sp := provider_model declared_class_state) store_model 100 (DHash 1) 77 5
    [tx_model] d [] (ContractClass_V1 tt) _ _).
  - repeat constructor. eexists. split; [reflexivity|]. by vm_compute.
  - by vm_compute.
Defined.
