(* ===== verification/RpcState.v ===== *)
(** * RpcState: the state, calls, fee estimates and submissions in the RPC
    ([client/rpc/src/methods/read/] for classes, nonces, storage, calls, fee
    estimates, state updates and synchronisation, [methods/write/], [errors.rs],
    [convert_error] and [to_rpc_state_diff] of [utils.rs])

    The contract state of a block is read through the storage override of the
    block; contract storage comes from the tries. *)

From S2P Require Import Prelude Felt Hashers Transactions TxHash CoreTx Broadcast Blocks Db Tries.
From S2P Require Import Commitments Convert MappingSync Fetch RpcEvents RpcClient CallInfo.
From S2P Require Import ContractClasses Pallet StateAdapter Simulations Codecs Overrides L1Sync RpcTrace.
From S2P Require Import RpcBlocks.

(** ** Errors (errors.rs, runtime_api/src/lib.rs, convert_error of runtime/src/lib.rs) *)

Inductive StarknetTransactionExecutionError :=
| STE_ContractNotFound | STE_ClassAlreadyDeclared | STE_ClassHashNotFound | STE_InvalidContractClass | STE_ContractError.

Definition runtime_convert_error (error : PalletError) : StarknetTransactionExecutionError :=
  match error with
  | PalletContractNotFound => STE_ContractNotFound
  | ClassHashAlreadyDeclared => STE_ClassAlreadyDeclared
  | ContractClassHashUnknown => STE_ClassHashNotFound
  | InvalidContractClassError => STE_InvalidContractClass
  | _ => STE_ContractError
  end.

Definition error_from_execution (err : StarknetTransactionExecutionError) : StarknetRpcApiError :=
  match err with
  | STE_ContractNotFound => ContractNotFound
  | STE_ClassAlreadyDeclared => ClassAlreadyDeclared
  | STE_ClassHashNotFound => ClassHashNotFound
  | STE_InvalidContractClass => InvalidContractClass
  | STE_ContractError => ContractError
  end.

Definition error_from_starknet (err : StarknetError) : StarknetRpcApiError :=
  match err with
  | SE_FailedToReceiveTransaction => FailedToReceiveTxn
  | SE_ContractNotFound => ContractNotFound
  | SE_BlockNotFound => BlockNotFound
  | SE_InvalidTransactionIndex => InvalidTxnIndex
  | SE_ClassHashNotFound => ClassHashNotFound
  | SE_TransactionHashNotFound => TxnHashNotFound
  | SE_PageSizeTooBig => PageSizeTooBig
  | SE_NoBlocks => NoBlocks
  | SE_InvalidContinuationToken => InvalidContinuationToken
  | SE_TooManyKeysInFilter => TooManyKeysInFilter
  | SE_ContractError => ContractError
  | SE_ClassAlreadyDeclared => ClassAlreadyDeclared
  | SE_InvalidTransactionNonce => InvalidTxnNonce
  | SE_InsufficientMaxFee => InsufficientMaxFee
  | SE_InsufficientAccountBalance => InsufficientAccountBalance
  | SE_ValidationFailure => ValidationFailure
  | SE_CompilationFailed => CompilationFailed
  | SE_ContractClassSizeIsTooLarge => ContractClassSizeTooLarge
  | SE_NonAccount => NonAccount
  | SE_DuplicateTx => DuplicateTxn
  | SE_CompiledClassHashMismatch => CompiledClassHashMismatch
  | SE_UnsupportedTxVersion => UnsupportedTxnVersion
  | SE_UnsupportedContractClassVersion => UnsupportedContractClassVersion
  | SE_UnexpectedError => ErrUnexpectedError
  | SE_NoTraceAvailable => InternalServerError
  | SE_TransactionExecutionError => TxnExecutionError
  end.

(** [err as i32], the code of the JSON-RPC error. *)
Definition error_code (err : StarknetRpcApiError) : Z :=
  match err with
  | FailedToReceiveTxn => 1 | ContractNotFound => 20 | BlockNotFound => 24 | InvalidTxnHash => 25
  | InvalidBlockHash => 26 | InvalidTxnIndex => 27 | ClassHashNotFound => 28 | TxnHashNotFound => 29
  | PageSizeTooBig => 31 | NoBlocks => 32 | InvalidContinuationToken => 33 | TooManyKeysInFilter => 34
  | FailedToFetchPendingTransactions => 38 | ContractError => 40 | TxnExecutionError => 41
  | InvalidContractClass => 50 | ClassAlreadyDeclared => 51 | InvalidTxnNonce => 52 | InsufficientMaxFee => 53
  | InsufficientAccountBalance => 54 | ValidationFailure => 55 | CompilationFailed => 56
  | ContractClassSizeTooLarge => 57 | NonAccount => 58 | DuplicateTxn => 59 | CompiledClassHashMismatch => 60
  | UnsupportedTxnVersion => 61 | UnsupportedContractClassVersion => 62 | ErrUnexpectedError => 63
  | InternalServerError => 500 | UnimplementedMethod => 501 | ProofLimitExceeded => 10000
  end.

(** ** Submitting transactions (methods/write/)

    The transaction is passed to the sequencer's gateway, and its answer back. *)
Definition submit {T R} (configured : bool) (gateway : T → Outcome ProviderError R) (transaction : T)
    : Outcome RpcError R :=
  if configured then
    match gateway transaction with
    | Ok response => Ok response
    | Err (PE_StarknetError e) => Err (Rpc_Api (error_from_starknet e))
    | Err _ => Err (Rpc_Api InternalServerError)
    | Panic => Panic
    end
  else Err (Rpc_Api InternalServerError).

Section Write.
Context {TD TA TI RD RA RI : Type}.
Variable configured : bool.
Variable gateway_declare : TD → Outcome ProviderError RD.
Variable gateway_deploy_account : TA → Outcome ProviderError RA.
Variable gateway_invoke : TI → Outcome ProviderError RI.
Definition add_declare_transaction (declare_transaction : TD) : Outcome RpcError RD :=
  submit configured gateway_declare declare_transaction.
Definition add_deploy_account_transaction (deploy_account_transaction : TA) : Outcome RpcError RA :=
  submit configured gateway_deploy_account deploy_account_transaction.
Definition add_invoke_transaction (invoke_transaction : TI) : Outcome RpcError RI :=
  submit configured gateway_invoke invoke_transaction.
End Write.

(** ** State differences ([ThinStateDiff] of starknet_api; its maps keep the order
    of insertion) *)

Record ThinStateDiff := {
  tsd_deployed_contracts : list (Z * Z);
  tsd_storage_diffs : list (Z * list (Z * Z));
  tsd_declared_classes : list (Z * Z);
  tsd_deprecated_declared_classes : list Z;
  tsd_nonces : list (Z * Z);
  tsd_replaced_classes : list (Z * Z);
}.

Definition to_rpc_state_diff (thin : ThinStateDiff) : convert.StateDiffCore := {|
  convert.core_nonces :=
    map (λ x, {| convert.nu_contract_address := x.1; convert.nu_nonce := x.2 |}) (tsd_nonces thin);
  convert.core_storage_diffs :=
    map (λ x, {| convert.csd_address := x.1;
                 convert.csd_storage_entries := map (λ y, {| convert.se_key := y.1; convert.se_value := y.2 |}) x.2 |})
      (tsd_storage_diffs thin);
  convert.core_deprecated_declared_classes := tsd_deprecated_declared_classes thin;
  convert.core_declared_classes :=
    map (λ x, {| convert.dci_class_hash := x.1; convert.dci_compiled_class_hash := x.2 |}) (tsd_declared_classes thin);
  convert.core_deployed_contracts :=
    map (λ x, {| convert.dpi_address := x.1; convert.dpi_class_hash := x.2 |}) (tsd_deployed_contracts thin);
  convert.core_replaced_classes :=
    map (λ x, {| convert.rci_contract_address := x.1; convert.rci_class_hash := x.2 |}) (tsd_replaced_classes thin);
|}.

Record ServedStateUpdate := { ssu_block_hash : Z; ssu_old_root : Z; ssu_new_root : Z; ssu_state_diff : convert.StateDiffCore }.
Inductive MaybePendingStateUpdate :=
| Update (u : ServedStateUpdate) | PendingUpdate (u : convert.PendingStateUpdate).

Record ServedSyncStatus := {
  sst_starting_block_num : Z; sst_starting_block_hash : Z;
  sst_current_block_num : Z; sst_current_block_hash : Z;
  sst_highest_block_num : Z; sst_highest_block_hash : Z;
}.
Inductive SyncStatusType := NotSyncing | Syncing (s : ServedSyncStatus).

Record FunctionCall := { fc_contract_address : Z; fc_entry_point_selector : Z; fc_calldata : list Z }.
Record MsgFromL1 := { ml_from_address : Z; ml_to_address : Z; ml_entry_point_selector : Z; ml_payload : list Z }.

(** ** Reading (methods/read/) *)

Section RpcState.
Context {E1 E2 E3 S Item : Type} `{kv : KvStore E1 S} `{codecs : DbCodecs}.
Context `{items : DigestItems Item} `{client : SubstrateClient E2 Item} `{chain : ChainBackend E2}.
Context `{libs : FeltLibs} `{crypto : StarknetCrypto} `{ca : ContractAddresses} `{hasher : HasherT}.
Context {Abi LProg Prog V1 Info CS C X BP BC U : Type} `{cl : ClassLibs Abi LProg Prog V1 Info}.
Context `{pc : ProgramCodec Prog}.
Context `{sc : StorageCodecs Prog V1} `{sp : StorageProvider E3 Prog V1}.
Context `{bf : Blockifier CS Info C X Prog V1 BP BC} `{cfg : PalletConfig} `{btp : BonsaiTrie BP}.
Context `{dac : DaCodecs ThinStateDiff U}.
Variable db : S.
Variable tries : Tries BP BC.
Variable transactional : bool.
Variable sync_state : L1Sync.SyncState.
Variable config_chain_id : option Z.
Variable compiler_version : option string.
Abbreviation R := (Outcome RpcError).

(** The substrate block of a method's block identifier. *)
Definition block_of (block_id : BlockId) : R DHashT :=
  api (map_err (λ _, BlockNotFound) (substrate_block_hash_from_starknet_block db block_id)).

Definition get_class_hash_at (block_id : BlockId) (contract_address : Z) : R Z :=
  substrate_block_hash ← block_of block_id;
  ok_or (Rpc_Api ContractNotFound)
    (contract_class_hash_by_address (for_block_hash overrides_handle substrate_block_hash)
       substrate_block_hash contract_address).

Definition get_nonce (block_id : BlockId) (contract_address : Z) : R Z :=
  substrate_block_hash ← block_of block_id;
  ok_or (Rpc_Api ContractNotFound)
    (Overrides.nonce (for_block_hash overrides_handle substrate_block_hash) substrate_block_hash contract_address).

(** The class of the specification, from the stored class and its ABI. *)
Definition rpc_class (contract : ContractClass Prog V1) (abi : ContractAbi) : R rpc.ContractClass :=
  map_err (λ _, Rpc_Api InternalServerError)
    (ContractClassWrapper_try_into compiler_version {| ccw_contract := contract; ccw_abi := abi |}).

Definition get_class (block_id : BlockId) (class_hash : Z) : R rpc.ContractClass :=
  substrate_block_hash ← block_of block_id;
  contract_class ← ok_or (Rpc_Api ClassHashNotFound)
    (contract_class_by_class_hash (for_block_hash overrides_handle substrate_block_hash)
       substrate_block_hash class_hash);
  contract_abi ← ok_or (Rpc_Api ClassHashNotFound)
    (contract_abi_by_class_hash (for_block_hash overrides_handle substrate_block_hash)
       substrate_block_hash class_hash);
  rpc_class contract_class contract_abi.

Definition get_class_at (block_id : BlockId) (contract_address : Z) : R rpc.ContractClass :=
  substrate_block_hash ← block_of block_id;
  contract_class ← ok_or (Rpc_Api ContractNotFound)
    (contract_class_by_address (for_block_hash overrides_handle substrate_block_hash)
       substrate_block_hash contract_address);
  contract_abi ← ok_or (Rpc_Api ContractNotFound)
    (contract_abi_by_address (for_block_hash overrides_handle substrate_block_hash)
       substrate_block_hash contract_address);
  rpc_class contract_class contract_abi.

(** A failed reading of the trie counts as an absent value. *)
Definition get_storage_at (contract_address key : Z) (block_id : BlockId) : R Z :=
  block_number ← api (map_err (λ _, BlockNotFound) (block_number_from_starknet_block db block_id));
  _ ← map_err (λ _, Rpc_Api ContractNotFound) (contract_storage_mut tries (BlockId_Number block_number));
  value ← (match ContractStorageTrie_get tries contract_address key with
           | Ok v => Ok v
           | Err _ => Ok None
           | Panic => Panic
           end);
  ok_or (Rpc_Api ContractNotFound) value.

(** [convert_error] of utils.rs, with [convert_error] of the runtime API. *)
Definition convert_error {T} (best_block_hash : DHashT) (call_result : Outcome PalletError T) : R T :=
  match call_result with
  | Ok val => Ok val
  | Err e =>
      match runtime_state best_block_hash with
      | Ok _ => Err (Rpc_Api (error_from_execution (runtime_convert_error e)))
      | Err _ => Err (Rpc_Api InternalServerError)
      | Panic => Panic
      end
  | Panic => Panic
  end.

(** [lower_hex] is the formatting [{:#x}] of a field element. *)
Definition call (lower_hex : Z → string) (request : FunctionCall) (block_id : BlockId) : R (list string) :=
  substrate_block_hash ← block_of block_id;
  st ← map_err (λ _, Rpc_Api InternalServerError) (runtime_state substrate_block_hash);
  result ← convert_error substrate_block_hash
    (call_contract st tries (fc_contract_address request) (fc_entry_point_selector request) (fc_calldata request));
  Ok (map lower_hex result).

Definition rpc_estimate_fee (request : list (b.BroadcastedTransaction Abi)) (simulation_flags : list EstimateFeeFlag)
    (block_id : BlockId) : R (list FeeEstimate) :=
  substrate_block_hash ← block_of block_id;
  transactions ← map_err (λ _, Rpc_Api InternalServerError) (mapM to_account_transaction request);
  let simulation_flags := convert_flags simulation_flags in
  st ← map_err (λ _, Rpc_Api InternalServerError) (runtime_state substrate_block_hash);
  map_err (λ _, Rpc_Api ContractError) (estimate_fee st tries transactional transactions simulation_flags).

Definition convert_message_into_tx (message : MsgFromL1) (chain_id : Z) (block_number : option Z)
    : R (ExecTransaction Info) :=
  let tx := {| lh_version := 0; lh_nonce := 0; lh_contract_address := ml_to_address message;
               lh_entry_point_selector := ml_entry_point_selector message;
               lh_calldata := ml_from_address message :: ml_payload message |} in
  tx_hash ← no_err (compute_hash tx chain_id true block_number);
  Ok (Exec_L1Handler tx tx_hash 10).

Definition rpc_estimate_message_fee (message : MsgFromL1) (block_id : BlockId) : R FeeEstimate :=
  substrate_block_hash ← block_of block_id;
  let block_number := best_number in
  chain_id ← api (RpcClient.chain_id config_chain_id);
  transaction ← convert_message_into_tx message chain_id (Some block_number);
  st ← map_err (λ _, Rpc_Api InternalServerError) (runtime_state substrate_block_hash);
  map_err (λ _, Rpc_Api ContractError) (estimate_message_fee st tries transactional transaction).

(** [get_state_diff] of lib.rs *)
Definition get_state_diff (starknet_block_hash : Z) : Outcome StarknetRpcApiError convert.StateDiffCore :=
  state_diff ← map_err (λ _, InternalServerError) (DaDb.state_diff db starknet_block_hash);
  Ok (to_rpc_state_diff state_diff).

(** [temporary_global_state_root_getter] of client/db/src/lib.rs *)
Definition temporary_global_state_root_getter : Z := 0.

Definition block_state_diff (block : DeoxysBlock) : R convert.StateDiffCore :=
  starknet_block_hash ← no_err (Header_hash (header block));
  map_err (λ _, Rpc_Api InternalServerError) (get_state_diff starknet_block_hash).

Definition get_state_update_finalized (substrate_block_hash : DHashT) : R MaybePendingStateUpdate :=
  starknet_block ← RpcClient.get_block substrate_block_hash;
  block_hash ← no_err (Header_hash (header starknet_block));
  let new_root := global_state_root (header starknet_block) in
  let old_root := if 0 <? block_number (header starknet_block) then temporary_global_state_root_getter else 0 in
  state_diff ← block_state_diff starknet_block;
  Ok (Update {| ssu_block_hash := block_hash; ssu_old_root := old_root; ssu_new_root := new_root;
                ssu_state_diff := state_diff |}).

Definition get_state_update_pending : R MaybePendingStateUpdate :=
  match get_pending_state_update sync_state with
  | Some state_update => Ok (PendingUpdate state_update)
  | None => Err Rpc_Failed
  end.

Definition rpc_get_state_update (block_id : BlockId) : R MaybePendingStateUpdate :=
  substrate_block_hash ← block_of block_id;
  if is_pending_id block_id then get_state_update_pending else get_state_update_finalized substrate_block_hash.

(** [madara_backend_client.rs]: a block without a Starknet block panics. *)
Definition starknet_block_from_substrate_hash (target_number : Z) : Outcome StarknetRpcApiError DeoxysBlock :=
  match client_hash target_number with
  | Ok (Some block_hash) => unwrap (get_block_by_block_hash block_hash)
  | Panic => Panic
  | _ => Err BlockNotFound
  end.

(** A result that is kept as a value. *)
Definition attempt {E A} (m : Outcome E A) : Outcome RpcError (option A) :=
  match m with Ok a => Ok (Some a) | Err _ => Ok None | Panic => Panic end.

(** [syncing]: [best_seen] is the answer of the synchronisation service. *)
Definition syncing (best_seen : Outcome unit (option Z)) (starting_block : Z) : R SyncStatusType :=
  match best_seen with
  | Ok best_seen_block =>
      let highest_number := default best_number best_seen_block in
      starting ← attempt (starknet_block_from_substrate_hash starting_block);
      current ← attempt (starknet_block_from_substrate_hash best_number);
      highest ← attempt (starknet_block_from_substrate_hash highest_number);
      match starting, current, highest with
      | Some starting, Some current, Some _ =>
          starting_block_hash ← no_err (Header_hash (header starting));
          current_block_hash ← no_err (Header_hash (header current));
          let '(highest_block_hash, highest_block_num) := get_highest_block_hash_and_number sync_state in
          Ok (Syncing {| sst_starting_block_num := starting_block; sst_starting_block_hash := starting_block_hash;
                         sst_current_block_num := best_number; sst_current_block_hash := current_block_hash;
                         sst_highest_block_num := highest_block_num; sst_highest_block_hash := highest_block_hash |})
      | _, _, _ => Ok NotSyncing
      end
  | Err _ => Ok NotSyncing
  | Panic => Panic
  end.
End RpcState.

(** ** Properties *)

(** The errors of the sequencer are served with the codes of the specification:
    no two of them share a code, but for the trace error. *)
Lemma error_code_inj e e' : error_code e = error_code e' → e = e'.
Proof. destruct e, e'; simpl; congruence || discriminate. Qed.

Section StateReads.
Context `{Hlibs : !FeltLibsSpec libs}.
Context {E1 E2 E3 S Item : Type} `{kv : KvStore E1 S} `{codecs : DbCodecs}.
Context `{items : DigestItems Item} `{client : SubstrateClient E2 Item} `{chain : ChainBackend E2}.
Context {Abi LProg Prog V1 Info : Type} `{cl : ClassLibs Abi LProg Prog V1 Info} `{pc : ProgramCodec Prog}.
Context `{sc : StorageCodecs Prog V1} {Hsc : StorageCodecsSpec sc} `{sp : StorageProvider E3 Prog V1}.
Context `{dc : DigestCodecs Prog V1} {Hdc : DigestCodecsSpec dc}.
Variable db : S.
Variable compiler_version : option string.

Lemma block_of_ok id h : substrate_block_hash_from_starknet_block db id = Ok h → block_of db id = Ok h.
Proof. unfold block_of. by intros ->. Qed.

(** The readings of a block with the layout of FRAME. *)
Lemma state_reads n (st : PalletState Prog V1) h id a c :
  Chain n st → Layout h st → substrate_block_hash_from_starknet_block db id = Ok h →
  let served (e : StarknetRpcApiError) (c : Z) : Outcome RpcError rpc.ContractClass :=
    match ContractClasses st !! c, ContractAbis st !! c with
    | Some contract, Some abi => rpc_class compiler_version contract abi
    | _, _ => Err (Rpc_Api e)
    end in
  get_class db compiler_version id c = served ClassHashNotFound c ∧
  match ContractClassHashes st !! a with
  | Some hash =>
      get_class_hash_at db id a = Ok hash ∧ get_nonce db id a = Ok (default 0 (Nonces st !! a)) ∧
      get_class_at db compiler_version id a = served ContractNotFound hash
  | None =>
      get_class_hash_at db id a = Err (Rpc_Api ContractNotFound) ∧ get_nonce db id a = Err (Rpc_Api ContractNotFound) ∧
      get_class_at db compiler_version id a = Err (Rpc_Api ContractNotFound)
  end.
Proof.
  intros Hc HL Hid served. unfold get_class, get_class_hash_at, get_nonce, get_class_at.
  rewrite (block_of_ok id h Hid). cbn [mbind Outcome_bind].
  rewrite (for_block_hash_v1 h st HL) by (by apply Chain_invariant in Hc as (_ & ? & _)).
  cbn [SchemaV1Override contract_class_by_class_hash contract_abi_by_class_hash contract_class_hash_by_address
       contract_class_by_address contract_abi_by_address Overrides.nonce].
  read_v1 HL. split.
  { unfold served. destruct (ContractClasses st !! c), (ContractAbis st !! c); done. }
  destruct (ContractClassHashes st !! a) as [hash|]; [|done]. cbn [mbind option_bind].
  read_v1 HL. split_and!; [done..|]. unfold served.
  destruct (ContractClasses st !! hash), (ContractAbis st !! hash); done.
Qed.

(** On a block of the chain the state is served as the pallet has it: the class
    hash, nonce and class of a deployed contract, the class of a class hash; a
    contract that is not deployed is not found, nor is a class without a stored
    definition or ABI.  A deployed contract whose class is not stored is reported
    as a missing contract by [get_class_at]. *)
Theorem state_reads_spec n (st : PalletState Prog V1) h id a c :
  Chain n st → Layout h st → substrate_block_hash_from_starknet_block db id = Ok h →
  let served (e : StarknetRpcApiError) (c : Z) : Outcome RpcError rpc.ContractClass :=
    match ContractClasses st !! c, ContractAbis st !! c with
    | Some contract, Some abi => rpc_class compiler_version contract abi
    | _, _ => Err (Rpc_Api e)
    end in
  get_class db compiler_version id c = served ClassHashNotFound c ∧
  match ContractClassHashes st !! a with
  | Some hash =>
      get_class_hash_at db id a = Ok hash ∧ get_nonce db id a = Ok (default 0 (Nonces st !! a)) ∧
      get_class_at db compiler_version id a = served ContractNotFound hash
  | None =>
      get_class_hash_at db id a = Err (Rpc_Api ContractNotFound) ∧ get_nonce db id a = Err (Rpc_Api ContractNotFound) ∧
      get_class_at db compiler_version id a = Err (Rpc_Api ContractNotFound)
  end.
Proof. apply state_reads. Qed.
End StateReads.

Section StorageReads.
Context {E1 E2 S Item BP BC : Type} `{kv : KvStore E1 S} `{codecs : DbCodecs}.
Context `{items : DigestItems Item} `{client : SubstrateClient E2 Item} `{chain : ChainBackend E2}.
Context `{btp : BonsaiTrie BP} {Hp : BonsaiTrieSpec btp}.
Variable db : S.

Lemma storage_at_current (t : Tries BP BC) a k id v :
  get_storage_at db t a k id = Ok v →
  tree (Tries.t_storage t) (conv_contract_identifier a) !! conv_contract_storage_key k = Some v.
Proof.
  unfold get_storage_at. intros H. ok_inv. unfold ContractStorageTrie_get in *.
  destruct (bonsai_get _ _ _) as [o| |] eqn:Hg; simplify_eq/=.
  apply trie_get_ok in Hg. rewrite <- Hg. by destruct a2; simplify_eq/=.
Qed.

(** Contract storage is served from the current tries: once a value is written
    and committed for some block, it is what every block answers, earlier ones
    included; and a value of zero is served as a missing contract, not as 0. *)
Theorem storage_at_ignores_block (t t1 t2 : Tries BP BC) a k w m id :
  ContractStorageTrieMut_insert t a k w = Ok t1 → ContractStorageTrieMut_commit t1 m = Ok t2 →
  match get_storage_at db t2 a k id with
  | Ok v => v = w ∧ w ≠ 0
  | Err e => e ∈ [Rpc_Api BlockNotFound; Rpc_Api ContractNotFound]
  | Panic => True
  end.
Proof.
  intros Hi Hm.
  unfold ContractStorageTrieMut_insert in Hi. destruct (bonsai_insert _ _ _ _) as [b1| |] eqn:Hb1; simplify_eq/=.
  unfold ContractStorageTrieMut_commit in Hm. destruct (bonsai_commit _ _) as [b2| |] eqn:Hb2; simplify_eq/=.
  destruct (get_storage_at _ _ _ _ _) as [v|e|] eqn:Hv; [| |done].
  - apply storage_at_current in Hv. simpl in Hv.
    rewrite (proj1 (commit_ok _ _ _ Hb2 _)), (proj1 (insert_ok _ _ _ _ _ Hb1)), decide_True in Hv by done.
    rewrite trie_set_lookup in Hv. unfold trie_val, conv_contract_value in Hv.
    destruct (Z.eqb_spec w 0); simplify_eq. done.
  - unfold get_storage_at in Hv.
    destruct (block_number_from_starknet_block _ _); simplify_eq/=; [|set_solver].
    destruct (contract_storage_mut _ _); simplify_eq/=; [|set_solver].
    destruct (ContractStorageTrie_get _ _ _) as [[]| |]; simplify_eq/=; set_solver.
Qed.
End StorageReads.

Section OtherReads.
Context {E1 E2 E3 S Item : Type} `{kv : KvStore E1 S} `{codecs : DbCodecs}.
Context `{items : DigestItems Item} `{client : SubstrateClient E2 Item} `{chain : ChainBackend E2}.
Context `{libs : FeltLibs} `{crypto : StarknetCrypto} `{ca : ContractAddresses} `{hasher : HasherT}.
Context {Prog V1 Info CS C X BP BC U : Type} `{sp : StorageProvider E3 Prog V1}.
Context `{bf : Blockifier CS Info C X Prog V1 BP BC} `{cfg : PalletConfig}.
Variable db : S.

(** A call that fails reports one of four errors, the contract's absence only for
    a contract that is not deployed on the block asked for. *)
Theorem call_errors tries lower_hex request id e :
  call db tries lower_hex request id = Err e →
  e ∈ Rpc_Api <$> [BlockNotFound; InternalServerError; ContractNotFound; ContractError] ∧
  (e = Rpc_Api ContractNotFound → ∃ h (st : PalletState Prog V1),
     substrate_block_hash_from_starknet_block db id = Ok h ∧ runtime_state h = Ok st ∧
     ContractClassHashes st !! fc_contract_address request = None).
Proof.
  unfold call, block_of. intros H.
  destruct (substrate_block_hash_from_starknet_block db id) as [h| |] eqn:Hid; simplify_eq/=; [|split; [set_solver|done]].
  destruct (runtime_state h) as [st| |] eqn:Hst; simplify_eq/=; [|split; [set_solver|done]].
  unfold convert_error in H. rewrite Hst in H. unfold call_contract in H.
  destruct (ContractClassHashes st !! fc_contract_address request) as [c|] eqn:Hc; simplify_eq/=.
  - repeat case_match; simplify_eq/=; (split; [set_solver|done]).
  - split; [set_solver|]. intros _. by exists h, st.
Qed.

Context `{dac : DaCodecs ThinStateDiff U} {Hkv : KvStoreSpec kv} {Hda : DaCodecsSpec dac}.

(** A block without a stored state difference has no state update; with one, it
    is served field by field, with the root before the block always 0. *)
Theorem state_update_needs_diff sync_state id h b bh :
  substrate_block_hash_from_starknet_block db id = Ok h → is_pending_id id = false →
  RpcClient.get_block (E2 := E2) h = Ok b → Header_hash (header b) = Ok bh →
  let stored := contents db !! (Da, DaDb.hash_bytes bh) in
  (stored = None → rpc_get_state_update db sync_state id = Err (Rpc_Api InternalServerError)) ∧
  (∀ diff, stored = Some (enc_diff diff) →
     rpc_get_state_update db sync_state id = Err (Rpc_Api InternalServerError) ∨
     rpc_get_state_update db sync_state id =
       Ok (Update {| ssu_block_hash := bh; ssu_old_root := 0; ssu_new_root := global_state_root (header b);
                     ssu_state_diff := to_rpc_state_diff diff |})).
Proof.
  intros Hid Hp Hb Hbh stored.
  assert (rpc_get_state_update db sync_state id =
    (d ← map_err (λ _, Rpc_Api InternalServerError) (DaDb.state_diff db bh);
     Ok (Update {| ssu_block_hash := bh; ssu_old_root := 0; ssu_new_root := global_state_root (header b);
                   ssu_state_diff := to_rpc_state_diff d |}))) as ->.
  { unfold rpc_get_state_update, block_of. rewrite Hid, Hp. cbn [api map_err mbind Outcome_bind].
    unfold get_state_update_finalized. rewrite Hb. cbn [mbind Outcome_bind].
    unfold block_state_diff, get_state_diff, no_err. rewrite Hbh. cbn [map_err mbind Outcome_bind].
    unfold temporary_global_state_root_getter. destruct (DaDb.state_diff db bh); simpl; [|done..].
    by destruct (0 <? _). }
  unfold DaDb.state_diff, MappingDb.read, stored. pose proof (get_cf_ok db Da (DaDb.hash_bytes bh)) as Hg.
  destruct (get_cf db Da (DaDb.hash_bytes bh)) as [v| |]; simpl; [subst v|by eauto|done].
  split; [by intros ->|]. intros diff ->. simpl. rewrite diff_codec. simpl. by right.
Qed.
End OtherReads.

(** ** Witnesses *)

Definition served_genesis : PalletState bytes unit :=
  pallet.genesis_build pallet.empty_state
    {| pallet.g_contracts := [(1, 2)]; pallet.g_sierra_to_casm_class_hash := []; pallet.g_storage := [];
       pallet.g_strk_fee_token_address := 4; pallet.g_eth_fee_token_address := 5 |}.
Definition served_codecs : DigestCodecs bytes unit := digest_codecs_model.

Lemma state_reads_spec_witness :
  get_class_hash_at (kv := kv_model) (codecs := codecs_model) (chain := backend_model) (sc := storage_codecs_model)
    (sp := provider_model served_genesis) store_model (BlockId_Number 1) 1 = Ok 2 ∧
  get_nonce (kv := kv_model) (codecs := codecs_model) (chain := backend_model) (sc := storage_codecs_model)
    (sp := provider_model served_genesis) store_model (BlockId_Number 1) 1 = Ok 0.
Proof.
  destruct (state_reads_spec (kv := kv_model) (codecs := codecs_model) (chain := backend_model)
    (pc := program_codec_model) (sc := storage_codecs_model) (Hsc := storage_codecs_model_spec)
    (sp := provider_model served_genesis) (dc := served_codecs) (Hdc := digest_codecs_model_spec)
    store_model None 0 served_genesis (DHash 1) (BlockId_Number 1) 1 2
    (Chain_genesis _) (provider_model_layout served_genesis (DHash 1)) eq_refl) as (_ & H).
  assert (ContractClassHashes served_genesis !! 1 = Some 2) as E by (vm_compute; reflexivity).
  rewrite E in H. destruct H as (H1 & H2 & _). split; [exact H1|]. etransitivity; [exact H2|].
  vm_compute. reflexivity.
Defined.

(** A value written for block 9 is served for block 1. *)
Lemma storage_at_ignores_block_witness : ∃ t1 t2,
  ContractStorageTrieMut_insert (BC := TrieModel) (btp := trie_model) tries_empty 7 3 5 = Ok t1 ∧
  ContractStorageTrieMut_commit (btp := trie_model) t1 9 = Ok t2 ∧
  get_storage_at (kv := kv_model) (codecs := codecs_model) (items := log_items) (client := client_model)
    (chain := backend_model) (btp := trie_model) store_model t2 7 3 (BlockId_Number 1) = Ok 5.
Proof.
  do 2 eexists. split; [reflexivity|]. split; [reflexivity|].
  pose proof (storage_at_ignores_block (kv := kv_model) (codecs := codecs_model) (items := log_items)
    (client := client_model) (chain := backend_model) (btp := trie_model) (Hp := trie_model_spec)
    store_model tries_empty _ _ 7 3 5 9 (BlockId_Number 1) eq_refl eq_refl) as H.
  destruct (get_storage_at _ _ _ _ _) as [v|e|] eqn:Hv; [by destruct H as [-> _]|vm_compute in Hv; discriminate Hv..].
Defined.

Definition pallet_config_model : PalletConfig := {|
  cfg_L1GasPrices := {| eth_l1_gas_price := 10; strk_l1_gas_price := 10; eth_l1_data_gas_price := 10;
    strk_l1_data_gas_price := 10 |};
  cfg_ChainId := 77; cfg_ProgramHash := 0; cfg_DisableTransactionFee := false; cfg_now := 1000;
|}.

Lemma call_errors_witness : ∃ e,
  call (kv := kv_model) (codecs := codecs_model) (chain := backend_model) (sp := provider_model served_genesis)
    (bf := blockifier_model) (cfg := pallet_config_model) store_model tries_empty (λ _, EmptyString)
    {| fc_contract_address := 8; fc_entry_point_selector := 1; fc_calldata := [] |} (BlockId_Number 1) = Err e ∧
  ∃ st : PalletState bytes unit, ContractClassHashes st !! 8 = None.
Proof.
  eexists. split; [vm_compute; reflexivity|].
  destruct (call_errors (kv := kv_model) (codecs := codecs_model) (chain := backend_model)
    (sp := provider_model served_genesis) (bf := blockifier_model) (cfg := pallet_config_model) store_model tries_empty
    (λ _, EmptyString) {| fc_contract_address := 8; fc_entry_point_selector := 1; fc_calldata := [] |}
    (BlockId_Number 1) (Rpc_Api ContractNotFound)) as (_ & H).
  - vm_compute. reflexivity.
  - destruct (H eq_refl) as (h & st & _ & _ & Hst). exists st. exact Hst.
Defined.

Definition diff_codecs_model : DaCodecs ThinStateDiff Z := {|
  enc_diff d := enc1 (tsd_deployed_contracts d, tsd_storage_diffs d, tsd_declared_classes d,
                      tsd_deprecated_declared_classes d, tsd_nonces d, tsd_replaced_classes d);
  dec_diff bs := '(dc, sd, cc, od, n, rc) ← dec1 bs;
    Some {| tsd_deployed_contracts := dc; tsd_storage_diffs := sd; tsd_declared_classes := cc;
            tsd_deprecated_declared_classes := od; tsd_nonces := n; tsd_replaced_classes := rc |};
  uuid_into_bytes := enc1; uuid_from_slice := dec1;
|}.
Lemma diff_codecs_model_spec : DaCodecsSpec diff_codecs_model.
Proof.
  split; [|intros; apply dec1_enc1]. intros []. unfold dec_diff, enc_diff, diff_codecs_model. by rewrite dec1_enc1.
Qed.

(** The index of the mapping worker has no state differences. *)
Lemma state_update_needs_diff_witness :
  rpc_get_state_update (kv := kv_model) (codecs := codecs_model) (items := log_items) (client := client_model)
    (chain := backend_model) (hasher := @PedersenHasher _ crypto_small) (dac := diff_codecs_model)
    store_model SyncState_init (BlockId_Number 1) = Err (Rpc_Api InternalServerError).
Proof.
  refine (proj1 (state_update_needs_diff (kv := kv_model) (codecs := codecs_model) (items := log_items)
    (client := client_model) (chain := backend_model) (hasher := @PedersenHasher _ crypto_small)
    (dac := diff_codecs_model) (Hkv := kv_model_spec) (Hda := diff_codecs_model_spec) store_model SyncState_init
    (BlockId_Number 1) (DHash 1) example_block _ eq_refl eq_refl eq_refl _) _).
  - reflexivity.
  - vm_compute. reflexivity.
Defined.
