(* ===== verification/Genesis.v ===== *)
(** * Genesis: the genesis state and block
    ([primitives/genesis-config], [pallets/starknet/src/genesis_loader.rs],
    [client/genesis-data-provider], [load_genesis] of
    [node/src/chain_spec.rs], [construct_genesis_block] of
    [node/src/genesis_block.rs])

    The state update of Starknet's block 0 becomes genesis data, the genesis data
    the configuration of the pallet, and the configuration its first state; the
    Starknet block 0 goes into the digest of the Substrate block 0. *)

From S2P Require Import Prelude Felt Hashers Transactions TxHash CoreTx Broadcast Blocks Db Tries Commitments.
From S2P Require Import Convert MappingSync Fetch RpcEvents RpcClient CallInfo ContractClasses Pallet Codecs.
From S2P Require Import Overrides RpcState.

(** ** Genesis data (genesis-config/src/lib.rs); a [HexFelt] is a field element *)

Record GenesisData := {
  gd_contracts : list (Z * Z);
  gd_sierra_class_hash_to_casm_class_hash : list (Z * Z);
  gd_storage : list (Z * list (Z * Z));
  gd_strk_fee_token_address : Z;
  gd_eth_fee_token_address : Z;
}.
Record GenesisLoader := { gl_base_path : string; gl_data : GenesisData }.
Definition GenesisLoader_data (self : GenesisLoader) : GenesisData := gl_data self.
Definition GenesisLoader_base_path (self : GenesisLoader) : string := gl_base_path self.

Definition ETH_TOKEN_ADDR : Z := 0x49d36570d4e46f48e99674bd3fcc84644ddd6b96f7c741b1562b82f9e004dc7.
Definition STRK_TOKEN_ADDR : Z := 0x04718f5a0fc34cc1af16a1cdee98ffb20c31f5cd61d6ab07201858f4287c938d.

Definition convert_contract (genesis_diff : Provider.StateDiff) : list (Z * Z) :=
  map (λ contract, (Provider.address contract, Provider.class_hash contract))
    (Provider.deployed_contracts genesis_diff).
Definition convert_sierra_class_hash (genesis_diff : Provider.StateDiff) : list (Z * Z) :=
  map (λ contract, (Provider.decl_class_hash contract, Provider.compiled_class_hash contract))
    (Provider.declared_classes genesis_diff).
(** In the order of the hash map. *)
Definition convert_storage (genesis_diff : Provider.StateDiff) : list (Z * list (Z * Z)) :=
  map (λ '(contract_address, storage), (contract_address, map (λ d, (Provider.key d, Provider.value d)) storage))
    (map_to_list (Provider.storage_diffs genesis_diff)).

Definition GenesisData_from (genesis_diff : Provider.StateDiff) : GenesisData := {|
  gd_contracts := convert_contract genesis_diff;
  gd_sierra_class_hash_to_casm_class_hash := convert_sierra_class_hash genesis_diff;
  gd_storage := convert_storage genesis_diff;
  gd_strk_fee_token_address := STRK_TOKEN_ADDR;
  gd_eth_fee_token_address := ETH_TOKEN_ADDR;
|}.

(** ** The pallet's configuration (genesis_loader.rs) *)

Definition GenesisConfig_from_loader (loader : GenesisLoader) : pallet.GenesisConfig :=
  let data := GenesisLoader_data loader in {|
  pallet.g_contracts := gd_contracts data;
  pallet.g_sierra_to_casm_class_hash := gd_sierra_class_hash_to_casm_class_hash data;
  pallet.g_storage := gd_storage data;
  pallet.g_strk_fee_token_address := gd_strk_fee_token_address data;
  pallet.g_eth_fee_token_address := gd_eth_fee_token_address data;
|}.

(** The addresses of the fee tokens are those of [..Default::default()]. *)
Definition GenesisConfig_from_data (data : GenesisData) : pallet.GenesisConfig := {|
  pallet.g_contracts := gd_contracts data;
  pallet.g_sierra_to_casm_class_hash := gd_sierra_class_hash_to_casm_class_hash data;
  pallet.g_storage := gd_storage data;
  pallet.g_strk_fee_token_address := pallet.g_strk_fee_token_address pallet.GenesisConfig_default;
  pallet.g_eth_fee_token_address := pallet.g_eth_fee_token_address pallet.GenesisConfig_default;
|}.

(** [read_contract_class_from_json]: [json_v0] and [json_casm] deserialize, [casm_into]
    converts. *)
Definition read_contract_class_from_json {Prog V1 Casm} (json_v0 : string → option (ContractClass Prog V1))
    (json_casm : string → option Casm) (casm_into : Casm → option V1) (json_str : string) (version : Z)
    : Outcome Empty_set (ContractClass Prog V1) :=
  if version =? 0 then unwrap_opt (json_v0 json_str)
  else if version =? 1 then
    casm_contract_class ← unwrap_opt (json_casm json_str);
    ContractClass_V1 <$> unwrap_opt (casm_into casm_contract_class)
  else Panic.

(** ** Where the data comes from *)

Inductive LoadGenesisDataError := InvalidJson | InvalidPath.

(** [OnDiskGenesisConfig]: [read_to_string] is the file system. *)
Definition load_genesis_data (read_to_string : string → option string) (json : string → option GenesisData)
    (genesis_path : string) : Outcome LoadGenesisDataError GenesisData :=
  match read_to_string genesis_path with
  | None => Err InvalidPath
  | Some s => ok_or InvalidJson (json s)
  end.

Section Node.
Context `{gw : Gateway}.

Definition load_genesis : Outcome string GenesisData :=
  diff ← map_err (λ _, "Failed to get state update"%string)
    (Provider.state_diff <$> get_state_update 0 (Seq_Number 0));
  Ok (GenesisData_from diff).
End Node.

Section Blocks.
Context {Prog V1 : Type} `{dc : DigestCodecs Prog V1}.

(** The state of the pallet after [testnet_genesis]'s configuration of it is built. *)
Definition genesis_state (genesis_loader : GenesisData) : PalletState Prog V1 :=
  pallet.genesis_build pallet.empty_state (GenesisConfig_from_data genesis_loader).

Definition construct_genesis_block (genesis_block : DeoxysBlock) : DHeaderT DigestItem :=
  {| dh_number := 0; dh_parent_hash := DHash 0;
     dh_digest := [Consensus MADARA_ENGINE_ID (enc_log (Log_Block genesis_block))] |}.
End Blocks.

(** ** Properties *)

Section Properties.
Context {Prog V1 : Type} `{dc : DigestCodecs Prog V1} {Hdc : DigestCodecsSpec dc} `{libs : FeltLibs}.
Abbreviation St := (PalletState Prog V1).

(** The block in the genesis digest is the one every reader of digests finds. *)
Lemma genesis_block_found b : find_starknet_block (dh_digest (construct_genesis_block b)) = Ok b.
Proof.
  rewrite find_starknet_block_logs. unfold madara_logs, construct_genesis_block.
  cbn [dh_digest omap list_omap try_to digest_items].
  rewrite (decide_True (P := MADARA_ENGINE_ID = MADARA_ENGINE_ID)) by done. by rewrite dec_enc_log.
Qed.

(** No block changes the addresses of the fee tokens. *)
Lemma inherents_fee_tokens (st : St) inherents st' :
  foldM (λ st addr, pallet.set_sequencer_address st pallet.Origin_None addr) st inherents = Ok st' →
  FeeTokens st' = FeeTokens st.
Proof.
  revert st. induction inherents as [|addr l IH]; intros st; simpl; [by intros [= <-]|].
  destruct (pallet.set_sequencer_address st pallet.Origin_None addr) as [st1| |] eqn:E; simpl; [|done..].
  apply set_sequencer_address_frame in E as [a ->]. intros H. by apply IH in H.
Qed.

Lemma on_finalize_fee_tokens (st st' : St) : pallet.on_finalize st = Ok st' → FeeTokens st' = FeeTokens st.
Proof.
  unfold pallet.on_finalize, pallet.store_block. destruct (SeqAddrUpdate st) as [[]|]; simpl; try discriminate.
  intros H. ok_inv. by repeat (case_match; ok_inv; try discriminate).
Qed.

Lemma execute_block_fee_tokens (st : St) n digest inherents st' :
  pallet.execute_block st n digest inherents = Ok st' → FeeTokens st' = FeeTokens st.
Proof.
  unfold pallet.execute_block. intros H.
  destruct (on_initialize_chain (pallet.system_initialize st n digest)) as (h & no & c & cl & ab & Hi & _).
  rewrite Hi in H. destruct (foldM _ _ inherents) as [st1| |] eqn:Hf; simpl in H; [|discriminate..].
  apply inherents_fee_tokens in Hf. apply on_finalize_fee_tokens in H. by rewrite H, Hf.
Qed.

(** The states of the chain that starts at the genesis data [data]. *)
Inductive ChainFrom (data : GenesisData) : Z → St → Prop :=
| ChainFrom_genesis : ChainFrom data 0 (genesis_state data)
| ChainFrom_block n st digest inherents st' :
    ChainFrom data n st → pallet.execute_block st (n + 1) digest inherents = Ok st' → ChainFrom data (n + 1) st'.

Lemma ChainFrom_Chain data n st : ChainFrom data n st → Chain n st.
Proof. induction 1; [apply Chain_genesis|by eapply Chain_block]. Qed.

(** C32: The node's genesis from the state difference [diff] of Starknet's block 0: the
    deployed contracts and declared classes of the difference and nothing else.
    The class definitions of the deployed contracts are not stored, and the fee
    tokens the data names are lost: their addresses are 0 in the genesis state
    and, since no block writes them, in every later one. *)
Theorem genesis_state_spec (diff : Provider.StateDiff) n (st : St) :
  let data := GenesisData_from diff in
  let genesis := genesis_state data : St in
  ContractClassHashes genesis =
    list_to_map (reverse (map (λ c, (Provider.address c, Provider.class_hash c)) (Provider.deployed_contracts diff))) ∧
  CompiledClassHashes genesis =
    list_to_map (reverse (map (λ c, (Provider.decl_class_hash c, Provider.compiled_class_hash c))
                           (Provider.declared_classes diff))) ∧
  ContractClasses genesis = ∅ ∧ ContractAbis genesis = ∅ ∧ Nonces genesis = ∅ ∧
  (gd_eth_fee_token_address data, gd_strk_fee_token_address data) = (ETH_TOKEN_ADDR, STRK_TOKEN_ADDR) ∧
  (ChainFrom data n st →
   pallet.fee_token_addresses st = {| eth_fee_token_address := 0; strk_fee_token_address := 0 |}).
Proof.
  intros data genesis. split_and!; try done.
  - simpl. unfold convert_contract. rewrite insert_all_override. apply map_union_empty.
  - simpl. unfold convert_sierra_class_hash. rewrite insert_all_override. apply map_union_empty.
  - intros Hc. assert (FeeTokens st = FeeTokens genesis) as Hf.
    { induction Hc as [|m st1 digest inherents st2 _ IH Hex]; [done|].
      by rewrite (execute_block_fee_tokens _ _ _ _ _ Hex), IH. }
    unfold pallet.fee_token_addresses. by rewrite Hf.
Qed.
End Properties.

(** ** Witness: a block 0 with one contract, and the block after it *)

Definition example_diff : Provider.StateDiff := {|
  Provider.storage_diffs := ∅; Provider.deployed_contracts := [{| Provider.address := 1; Provider.class_hash := 2 |}];
  Provider.old_declared_contracts := []; Provider.declared_classes := []; Provider.nonces := ∅;
  Provider.replaced_classes := [] |}.

Definition genesis_block1 : Outcome PalletError (PalletState unit unit) :=
  pallet.execute_block (dc := unit_codecs) (genesis_state (GenesisData_from example_diff)) (0 + 1) [Other [1]]
    [example_address].

Lemma genesis_state_spec_witness : ∃ st : PalletState unit unit,
  ChainFrom (dc := unit_codecs) (GenesisData_from example_diff) (0 + 1) st ∧
  eth_fee_token_address (pallet.fee_token_addresses st) = 0.
Proof.
  assert (is_ok genesis_block1 = true) as Hok by (vm_compute; reflexivity).
  destruct genesis_block1 as [st| |] eqn:E; [|discriminate Hok..].
  assert (ChainFrom (dc := unit_codecs) (GenesisData_from example_diff) (0 + 1) st) as Hc
    by (eapply ChainFrom_block; [apply ChainFrom_genesis|exact E]).
  exists st. split; [exact Hc|].
  destruct (genesis_state_spec (dc := unit_codecs) example_diff (0 + 1) st) as (_ & _ & _ & _ & _ & _ & H).
  rewrite (H Hc). reflexivity.
Defined.

(** ** Private keys of predeployed accounts (genesis-config) *)

Record PredeployedAccount := {
  pa_contract_address : Z; pa_class_hash : Z; pa_name : string; pa_private_key : option bytes; pa_public_key : Z;
}.

Section Hex.
(** The crate [hex]: lower-case digits, and nothing but digits is read. *)
Variables (hex_encode : bytes → bytes) (hex_decode : bytes → option bytes).

(** The text written, [None] for a null. *)
Definition buffer_to_hex (buffer : option bytes) : option bytes :=
  (λ inner_buffer, bytes_of_string "0x" ++ hex_encode inner_buffer) <$> buffer.

Definition hex_to_buffer (hex_string : bytes) : Outcome unit (option bytes) :=
  if decide (hex_string = []) then Ok None
  else match hex_decode hex_string with Some b => Ok (Some b) | None => Err tt end.

Hypothesis hex_digits : ∀ s b, hex_decode s = Some b → Forall (λ c, 48 ≤ c ≤ 57 ∨ 65 ≤ c ≤ 70 ∨ 97 ≤ c ≤ 102) s.

(** No key that is written is read back: the prefix is not a digit. *)
Lemma private_key_not_read buffer s : buffer_to_hex buffer = Some s → hex_to_buffer s = Err tt.
Proof.
  destruct buffer as [b|]; [|done]. intros [= <-]. unfold hex_to_buffer. cbn [bytes_of_string]. rewrite decide_False by done.
  destruct (hex_decode _) as [r|] eqn:H; [|done]. apply hex_digits in H.
  apply Forall_cons in H as [_ [H _]%Forall_cons]. cbn in H. lia.
Qed.
End Hex.
