(* ===== verification/RpcServer.v ===== *)
(** * RpcServer: the JSON-RPC server ([client/rpc/src/lib.rs], [methods/*/lib.rs],
    [node/src/rpc/mod.rs])

    The three traits of the RPC are the types [WriteRequest], [ReadRequest] and
    [TraceRequest], indexed by the type of the answer; [handle] is their implementation by [Starknet], one method each, and
    [create_full] the registration of the methods.  The theorems say that every method
    is served, and that the methods which answer with transactions agree. *)

From S2P Require Import Prelude Felt Hashers Transactions TxHash CoreTx Broadcast Blocks Db BonsaiDb Tries Commitments.
From S2P Require Import Backend Convert MappingSync RpcEvents RpcClient CallInfo ContractClasses Pallet Codecs StateAdapter.
From S2P Require Import Simulations Overrides Fetch L1Sync L2Sync Traces RpcTrace RpcBlocks RpcState.

(** ** The interface *)

(** The three traits; an index is the type of the answer.  [TD], [TA], [TI] and [RD],
    [RA], [RI] are the broadcasted transactions sent to the gateway and its answers. *)
Inductive WriteRequest {TD TA TI RD RA RI : Type} : Type → Type :=
| AddInvokeTransaction (invoke_transaction : TI) : WriteRequest RI
| AddDeployAccountTransaction (deploy_account_transaction : TA) : WriteRequest RA
| AddDeclareTransaction (declare_transaction : TD) : WriteRequest RD.
Arguments WriteRequest : clear implicits.

Inductive ReadRequest {Abi : Type} : Type → Type :=
| SpecVersion : ReadRequest string
| BlockNumber : ReadRequest Z
| BlockHashAndNumber : ReadRequest (Z * Z)
| Call (request : FunctionCall) (block_id : BlockId) : ReadRequest (list string)
| ChainIdRequest : ReadRequest Z
| GetBlockTransactionCount (block_id : BlockId) : ReadRequest Z
| EstimateFee (request : list (b.BroadcastedTransaction Abi)) (simulation_flags : list EstimateFeeFlag)
    (block_id : BlockId) : ReadRequest (list FeeEstimate)
| EstimateMessageFee (message : MsgFromL1) (block_id : BlockId) : ReadRequest FeeEstimate
| GetBlockWithReceipts (block_id : BlockId) : ReadRequest (MaybePending (core.Transaction * TransactionReceipt))
| GetBlockWithTxHashes (block_id : BlockId) : ReadRequest (MaybePending Z)
| GetBlockWithTxs (block_id : BlockId) : ReadRequest (MaybePending core.Transaction)
| GetClassAt (block_id : BlockId) (contract_address : Z) : ReadRequest rpc.ContractClass
| GetClassHashAt (block_id : BlockId) (contract_address : Z) : ReadRequest Z
| GetClass (block_id : BlockId) (class_hash : Z) : ReadRequest rpc.ContractClass
| GetEvents (filter : EventFilterWithPage) : ReadRequest EventsPage
| GetNonce (block_id : BlockId) (contract_address : Z) : ReadRequest Z
| GetStorageAt (contract_address key : Z) (block_id : BlockId) : ReadRequest Z
| GetTransactionByBlockIdAndIndex (block_id : BlockId) (index : Z) : ReadRequest core.Transaction
| GetTransactionByHash (transaction_hash : Z) : ReadRequest core.Transaction
| GetTransactionReceipt (transaction_hash : Z) : ReadRequest TransactionReceiptWithBlockInfo
| GetTransactionStatus (transaction_hash : Z) : ReadRequest TransactionStatus
| SyncingRequest : ReadRequest SyncStatusType
| GetStateUpdate (block_id : BlockId) : ReadRequest MaybePendingStateUpdate.
Arguments ReadRequest : clear implicits.

Inductive TraceRequest {Abi : Type} : Type → Type :=
| SimulateTransactions (block_id : BlockId) (transactions : list (b.BroadcastedTransaction Abi))
    (simulation_flags : list SimulationFlag) : TraceRequest (list SimulatedTransaction)
| TraceBlockTransactions (block_id : BlockId) : TraceRequest (list TransactionTraceWithHash)
| TraceTransaction (transaction_hash : Z) : TraceRequest TransactionTraceWithHash.
Arguments TraceRequest : clear implicits.

Inductive Request (Abi TD TA TI RD RA RI A : Type) :=
| Req_Write (r : WriteRequest TD TA TI RD RA RI A)
| Req_Read (r : ReadRequest Abi A)
| Req_Trace (r : TraceRequest Abi A).
Arguments Req_Write {Abi TD TA TI RD RA RI A}. Arguments Req_Read {Abi TD TA TI RD RA RI A}.
Arguments Req_Trace {Abi TD TA TI RD RA RI A}.

(** [namespace = "starknet"] and the names of the methods. *)
Definition method (name : string) : string := "starknet_" +:+ name.

Definition write_method_name {TD TA TI RD RA RI A} (r : WriteRequest TD TA TI RD RA RI A) : string :=
  match r with
  | AddInvokeTransaction _ => "addInvokeTransaction"
  | AddDeployAccountTransaction _ => "addDeployAccountTransaction"
  | AddDeclareTransaction _ => "addDeclareTransaction"
  end%string.

Definition read_method_name {Abi A} (r : ReadRequest Abi A) : string :=
  match r with
  | SpecVersion => "specVersion"
  | BlockNumber => "blockNumber"
  | BlockHashAndNumber => "blockHashAndNumber"
  | Call _ _ => "call"
  | ChainIdRequest => "chainId"
  | GetBlockTransactionCount _ => "getBlockTransactionCount"
  | EstimateFee _ _ _ => "estimateFee"
  | EstimateMessageFee _ _ => "estimateMessageFee"
  | GetBlockWithReceipts _ => "getBlockWithReceipts"
  | GetBlockWithTxHashes _ => "getBlockWithTxHashes"
  | GetBlockWithTxs _ => "getBlockWithTxs"
  | GetClassAt _ _ => "getClassAt"
  | GetClassHashAt _ _ => "getClassHashAt"
  | GetClass _ _ => "getClass"
  | GetEvents _ => "getEvents"
  | GetNonce _ _ => "getNonce"
  | GetStorageAt _ _ _ => "getStorageAt"
  | GetTransactionByBlockIdAndIndex _ _ => "getTransactionByBlockIdAndIndex"
  | GetTransactionByHash _ => "getTransactionByHash"
  | GetTransactionReceipt _ => "getTransactionReceipt"
  | GetTransactionStatus _ => "getTransactionStatus"
  | SyncingRequest => "syncing"
  | GetStateUpdate _ => "getStateUpdate"
  end%string.

Definition trace_method_name {Abi A} (r : TraceRequest Abi A) : string :=
  match r with
  | SimulateTransactions _ _ _ => "simulateTransactions"
  | TraceBlockTransactions _ => "traceBlockTransactions"
  | TraceTransaction _ => "traceTransaction"
  end%string.

Definition method_name {Abi TD TA TI RD RA RI A} (r : Request Abi TD TA TI RD RA RI A) : string :=
  method (match r with
  | Req_Write r => write_method_name r
  | Req_Read r => read_method_name r
  | Req_Trace r => trace_method_name r
  end).

(** What [into_rpc] of each trait registers. *)
Definition write_methods : list string :=
  map method ["addInvokeTransaction"; "addDeployAccountTransaction"; "addDeclareTransaction"]%string.
Definition read_methods : list string :=
  map method ["specVersion"; "blockNumber"; "blockHashAndNumber"; "call"; "chainId"; "getBlockTransactionCount";
    "estimateFee"; "estimateMessageFee"; "getBlockWithReceipts"; "getBlockWithTxHashes"; "getBlockWithTxs"; "getClassAt";
    "getClassHashAt"; "getClass"; "getEvents"; "getNonce"; "getStorageAt"; "getTransactionByBlockIdAndIndex";
    "getTransactionByHash"; "getTransactionReceipt"; "getTransactionStatus"; "syncing"; "getStateUpdate"]%string.
Definition trace_methods : list string :=
  map method ["simulateTransactions"; "traceBlockTransactions"; "traceTransaction"]%string.

(** [RpcModule::merge]: refuses a method that is already registered. *)
Definition merge (module methods : list string) : Outcome string (list string) :=
  if decide (Forall (.∉ module) methods) then Ok (module ++ methods) else Err "Method already registered"%string.

(** [create_full]: the methods of Substrate's [System] and [ManualSeal] are parameters. *)
Definition create_full (system_methods manual_seal_methods : list string) (command_sink : bool)
    : Outcome string (list string) :=
  module ← merge [] system_methods;
  module ← merge module read_methods;
  module ← merge module write_methods;
  module ← merge module trace_methods;
  if command_sink then merge module manual_seal_methods else Ok module.

(** ** The implementation *)

(** What [Starknet] holds besides the client: the block the synchronisation started at. *)
Record Starknet := { sn_starting_block : Z }.
Definition Starknet_new (starting_block : Z) : Starknet := {| sn_starting_block := starting_block |}.

Inductive ServerError := Server_MethodNotFound | Server_Rpc (e : RpcError).

Section Server.
Context {E1 E2 E3 S Item : Type} `{kv : KvStore E1 S} `{codecs : DbCodecs}.
Context `{items : DigestItems Item} `{client : SubstrateClient E2 Item} `{chain : ChainBackend E2}.
Context `{libs : FeltLibs} `{crypto : StarknetCrypto} `{ca : ContractAddresses} `{hasher : HasherT}.
Context {Abi LProg Prog V1 Info CS C X BP BC U : Type} `{cl : ClassLibs Abi LProg Prog V1 Info}.
Context `{pc : ProgramCodec Prog} `{sc : StorageCodecs Prog V1} `{sp : StorageProvider E3 Prog V1}.
Context `{bf : Blockifier CS Info C X Prog V1 BP BC} `{cfg : PalletConfig} `{btp : BonsaiTrie BP}.
Context `{dac : DaCodecs ThinStateDiff U} {TD TA TI RD RA RI : Type}.
Variable cache_more_things : bool.
Variable db : S.
Variable tries : Tries BP BC.
Variable transactional : bool.
Variable sync_state : L1Sync.SyncState.
(** The chain id of the global configuration, when it is set. *)
Variable config_chain_id : option Z.
Variable compiler_version : option string.
Variable lower_hex : Z → string.
Variable best_seen : Outcome unit (option Z).
Variable gateway_declare : TD → Outcome ProviderError RD.
Variable gateway_deploy_account : TA → Outcome ProviderError RA.
Variable gateway_invoke : TI → Outcome ProviderError RI.
Abbreviation Req := (Request Abi TD TA TI RD RA RI).
Abbreviation R := (Outcome RpcError).

Definition current_block_number : R Z := Ok best_number.
Definition current_spec_version : R string := Ok "0.7.0"%string.
Definition configured : bool := bool_decide (is_Some config_chain_id).

(** methods/write/lib.rs *)
Definition handle_write {A} (r : WriteRequest TD TA TI RD RA RI A) : R A :=
  match r in WriteRequest _ _ _ _ _ _ A return R A with
  | AddInvokeTransaction t => add_invoke_transaction configured gateway_invoke t
  | AddDeployAccountTransaction t => add_deploy_account_transaction configured gateway_deploy_account t
  | AddDeclareTransaction t => add_declare_transaction configured gateway_declare t
  end.

(** methods/read/lib.rs: [None] is a call that has not returned after [fuel] iterations of
    the receipts' conversion loop. *)
Definition handle_read (fuel : nat) (self : Starknet) {A} (r : ReadRequest Abi A) : option (R A) :=
  match r in ReadRequest _ A return option (R A) with
  | SpecVersion => Some current_spec_version
  | BlockNumber => Some current_block_number
  | BlockHashAndNumber => Some block_hash_and_number
  | Call request block_id => Some (call db tries lower_hex request block_id)
  | ChainIdRequest => Some (api (RpcClient.chain_id config_chain_id))
  | GetBlockTransactionCount block_id => Some (get_block_transaction_count db block_id)
  | EstimateFee request flags block_id => Some (rpc_estimate_fee db tries transactional request flags block_id)
  | EstimateMessageFee message block_id =>
      Some (rpc_estimate_message_fee db tries transactional config_chain_id message block_id)
  | GetBlockWithReceipts block_id => get_block_with_receipts cache_more_things db tries sync_state config_chain_id fuel block_id
  | GetBlockWithTxHashes block_id =>
      Some (get_block_with_tx_hashes cache_more_things db sync_state config_chain_id block_id)
  | GetBlockWithTxs block_id => Some (get_block_with_txs cache_more_things db sync_state config_chain_id block_id)
  | GetClassAt block_id address => Some (get_class_at db compiler_version block_id address)
  | GetClassHashAt block_id address => Some (get_class_hash_at db block_id address)
  | GetClass block_id class_hash => Some (get_class db compiler_version block_id class_hash)
  | GetEvents filter =>
      Some (api (get_events (src := node_block_source cache_more_things db (get_pending_block sync_state) config_chain_id) filter))
  | GetNonce block_id address => Some (get_nonce db block_id address)
  | GetStorageAt address key block_id => Some (get_storage_at db tries address key block_id)
  | GetTransactionByBlockIdAndIndex block_id index =>
      Some (get_transaction_by_block_id_and_index cache_more_things db config_chain_id block_id index)
  | GetTransactionByHash hash => Some (get_transaction_by_hash cache_more_things db config_chain_id hash)
  | GetTransactionReceipt hash => get_transaction_receipt cache_more_things db tries sync_state config_chain_id fuel hash
  | GetTransactionStatus hash => Some (get_transaction_status cache_more_things db config_chain_id hash)
  | SyncingRequest => Some (syncing sync_state best_seen (sn_starting_block self))
  | GetStateUpdate block_id => Some (rpc_get_state_update db sync_state block_id)
  end.

(** methods/trace/lib.rs *)
Definition handle_trace {A} (r : TraceRequest Abi A) : R A :=
  match r in TraceRequest _ A return R A with
  | SimulateTransactions block_id transactions flags =>
      rpc_simulate_transactions db tries transactional block_id transactions flags
  | TraceBlockTransactions block_id => trace_block_transactions db tries config_chain_id block_id
  | TraceTransaction hash => trace_transaction db tries config_chain_id hash
  end.

Definition handle (fuel : nat) (self : Starknet) {A} (r : Req A) : option (R A) :=
  match r with
  | Req_Write r => Some (handle_write r)
  | Req_Read r => handle_read fuel self r
  | Req_Trace r => Some (handle_trace r)
  end.

(** The server: a method is called when it is registered. *)
Definition serve (module : list string) (fuel : nat) (self : Starknet) {A} (r : Req A)
    : option (Outcome ServerError A) :=
  if decide (method_name r ∈ module) then map_err Server_Rpc <$> handle fuel self r
  else Some (Err Server_MethodNotFound).
End Server.

(** ** Properties: registration *)

Lemma merge_ok module methods : Forall (.∉ module) methods → merge module methods = Ok (module ++ methods).
Proof. intros H. unfold merge. by rewrite decide_True. Qed.

Lemma starknet_methods_distinct : NoDup (read_methods ++ write_methods ++ trace_methods).
Proof. apply (bool_decide_unpack _). by vm_compute. Qed.

Lemma method_name_registered {Abi TD TA TI RD RA RI A} (r : Request Abi TD TA TI RD RA RI A) :
  method_name r ∈ read_methods ++ write_methods ++ trace_methods.
Proof. destruct r as [r|r|r]; destruct r; apply (bool_decide_unpack _); by vm_compute. Qed.

(** The methods of Substrate's servers are outside the namespace. *)
Definition foreign (methods : list string) : Prop := ∀ name, method name ∉ methods.

(** The methods of the three traits are inside it. *)
Definition local (methods : list string) : Prop := ∀ n, n ∈ methods → ∃ name, n = method name.

Lemma starknet_methods_local : local (read_methods ++ write_methods ++ trace_methods).
Proof.
  intros n. unfold read_methods, write_methods, trace_methods. rewrite <- !map_app.
  intros (name & -> & _)%list_elem_of_fmap. by exists name.
Qed.

Lemma local_merge module ext methods : foreign module → local methods → NoDup (ext ++ methods) →
  merge (module ++ ext) methods = Ok (module ++ ext ++ methods).
Proof.
  intros Hf Hl (_ & Hd & _)%NoDup_app. rewrite (app_assoc module). apply merge_ok, Forall_forall.
  intros n Hn. apply not_elem_of_app. split; [|intros He; by apply (Hd n He)].
  destruct (Hl n Hn) as (name & ->). apply Hf.
Qed.

Lemma create_full_ok sys man (sink : bool) :
  foreign sys → foreign man → (∀ n, n ∈ man → n ∉ sys) →
  create_full sys man sink =
    Ok (sys ++ read_methods ++ write_methods ++ trace_methods ++ if sink then man else []).
Proof.
  intros Hs Hm Hd. unfold create_full.
  pose proof starknet_methods_distinct as Hnd. pose proof starknet_methods_local as Hl.
  assert (local read_methods ∧ local write_methods ∧ local trace_methods) as (Lr & Lw & Lt).
  { split_and!; intros n Hn; apply Hl; rewrite !elem_of_app; tauto. }
  rewrite (merge_ok []) by (apply Forall_true; intros; apply not_elem_of_nil). cbn [mbind Outcome_bind app].
  pose proof (local_merge sys [] read_methods) as H1. rewrite app_nil_r in H1.
  rewrite H1; [|done|done|exact (proj1 (proj1 (NoDup_app _ _) Hnd))]. cbn [mbind Outcome_bind app].
  rewrite local_merge; [|done|done|rewrite app_assoc in Hnd; exact (proj1 (proj1 (NoDup_app _ _) Hnd))].
  cbn [mbind Outcome_bind].
  rewrite local_merge; [|done|done|rewrite <- app_assoc; exact Hnd]. cbn [mbind Outcome_bind].
  destruct sink; [|by rewrite app_nil_r, <- ?app_assoc].
  rewrite merge_ok; [by rewrite <- ?app_assoc|]. apply Forall_forall. intros n Hn.
  rewrite <- (app_assoc read_methods), not_elem_of_app. split; [by apply Hd|].
  intros (name & ->)%Hl. by apply (Hm name).
Qed.

Section Registration.
Context {E1 E2 E3 S Item : Type} `{kv : KvStore E1 S} `{codecs : DbCodecs}.
Context `{items : DigestItems Item} `{client : SubstrateClient E2 Item} `{chain : ChainBackend E2}.
Context `{libs : FeltLibs} `{crypto : StarknetCrypto} `{ca : ContractAddresses} `{hasher : HasherT}.
Context {Abi LProg Prog V1 Info CS C X BP BC U : Type} `{cl : ClassLibs Abi LProg Prog V1 Info}.
Context `{pc : ProgramCodec Prog} `{sc : StorageCodecs Prog V1} `{sp : StorageProvider E3 Prog V1}.
Context `{bf : Blockifier CS Info C X Prog V1 BP BC} `{cfg : PalletConfig} `{btp : BonsaiTrie BP}.
Context `{dac : DaCodecs ThinStateDiff U} {TD TA TI RD RA RI : Type}.

(** The registration of the methods never fails, and the server answers every request of
    the three traits with its handler; the methods that create blocks exist exactly when
    sealing is manual. *)
Theorem every_method_served cache db tries transactional sync_state config_chain_id compiler_version lower_hex
    best_seen (gd : TD → Outcome ProviderError RD) (ga : TA → Outcome ProviderError RA)
    (gi : TI → Outcome ProviderError RI) sys man (sink : bool) fuel self :
  foreign sys → foreign man → (∀ n, n ∈ man → n ∉ sys) →
  ∃ module, create_full sys man sink = Ok module ∧
    (∀ A (r : Request Abi TD TA TI RD RA RI A),
       serve cache db tries transactional sync_state config_chain_id compiler_version lower_hex best_seen gd ga gi
         module fuel self r =
       map_err Server_Rpc <$> handle cache db tries transactional sync_state config_chain_id compiler_version lower_hex
         best_seen gd ga gi fuel self r) ∧
    ∀ n, n ∈ man → n ∈ module ↔ sink = true.
Proof.
  intros Hs Hm Hd. rewrite create_full_ok by done. eexists. split; [done|]. split.
  - intros A r. unfold serve. rewrite decide_True; [done|].
    pose proof (method_name_registered r) as Hr. rewrite !elem_of_app in *. tauto.
  - intros n Hn. rewrite !elem_of_app. split; [|intros ->; tauto].
    intros Hor. assert (n ∉ read_methods ++ write_methods ++ trace_methods) as Hno.
    { intros (name & ->)%starknet_methods_local. by apply (Hm name). }
    rewrite !not_elem_of_app in Hno. destruct sink; [done|]. pose proof (Hd n Hn).
    pose proof (not_elem_of_nil n). tauto.
Qed.
End Registration.

(** ** Properties: the methods that answer with transactions *)

Section Agreement.
Context {E1 E2 S Item : Type} `{kv : KvStore E1 S} `{codecs : DbCodecs}.
Context `{items : DigestItems Item} `{client : SubstrateClient E2 Item} `{chain : ChainBackend E2}.
Context `{Hlibs : !FeltLibsSpec libs} `{crypto : StarknetCrypto} `{Hca : !ContractAddressesSpec ca}.
Context `{hasher : HasherT} {Hkv : KvStoreSpec kv} {Hcodecs : DbCodecsSpec codecs}.
Variable cache : bool.
Variable db : S.
Variable sync_state : L1Sync.SyncState.
Variable cid : Z.

(** A transaction by its position in the block: the one the block is served with. *)
Lemma transaction_by_index a h b id (i : Z) :
  substrate_block_hash_from_starknet_block db id = Ok h →
  serves h b → wf_block b → refines (contents db) a → is_felt (block_hash_of b) → cache_ok cid a b →
  get_transaction_by_block_id_and_index cache db (Some cid) id i =
    match transactions b !! Z.to_nat i with
    | Some tx => no_err (to_starknet_core_tx tx (tx_hash_of cid b tx))
    | None => Err (Rpc_Api InvalidTxnIndex)
    end.
Proof.
  intros Hid Hs [Hh Htx] R Hbh Hc. unfold get_transaction_by_block_id_and_index. rewrite Hid.
  unfold RpcClient.api, RpcClient.get_block. cbn [map_err mbind Outcome_bind]. rewrite (get_block_served h b Hs).
  cbn [map_err mbind Outcome_bind]. destruct (transactions b !! Z.to_nat i) as [tx|] eqn:Hi; [|done].
  cbn [ok_or mbind Outcome_bind]. unfold RpcClient.chain_id. cbn [ok_or map_err mbind Outcome_bind].
  rewrite header_hash_preimage by done. cbn [no_err map_err mbind Outcome_bind].
  change (compute_hash_on_wrappers (header_preimage (header b))) with (block_hash_of b).
  destruct (cached_hashes_cases cache db cid a b R Hbh Hc) as [-> | ->]; cbn [map_err mbind Outcome_bind].
  - rewrite compute_hash_preimage by (by eapply Forall_lookup_1). done.
  - unfold tx_hashes_of. rewrite list_lookup_fmap, Hi. done.
Qed.

(** The transactions a block is served with, by position. *)
Lemma tx_conv_lookup b cs k :
  tx_conv (transactions b) (tx_hashes_of cid b) = Ok cs → map core_hash cs = tx_hashes_of cid b →
  match cs !! k with
  | Some c => ∃ tx, transactions b !! k = Some tx ∧ no_err (to_starknet_core_tx tx (tx_hash_of cid b tx)) = Ok c :> Outcome RpcError _ ∧
      core_hash c = tx_hash_of cid b tx
  | None => transactions b !! k = None
  end.
Proof.
  unfold tx_conv, tx_hashes_of. intros Hconv Hh. apply mapM_Ok_Forall2 in Hconv.
  pose proof (f_equal (lookup k) Hh) as Hl. change (map core_hash cs) with (core_hash <$> cs) in Hl.
  change (map (tx_hash_of cid b) (transactions b)) with (tx_hash_of cid b <$> transactions b) in Hl, Hconv.
  rewrite !list_lookup_fmap in Hl. destruct (cs !! k) as [c|] eqn:Hc, (transactions b !! k) as [tx|] eqn:Ht; try done.
  injection Hl as Hl. exists tx. split; [done|]. split; [|done].
  destruct (Forall2_lookup_r _ _ _ _ _ Hconv Hc) as ([tx' h'] & Hz & Ho).
  rewrite lookup_zip_with, list_lookup_fmap, Ht in Hz. by injection Hz as <- <-.
Qed.

(** C21: The methods that answer with transactions agree.  For a block asked for by its
    number, its hash or as the latest one, the hashes of [getBlockWithTxHashes] are those of
    the transactions of [getBlockWithTxs], [getTransactionByBlockIdAndIndex] answers with
    the transaction at that position, and with an invalid index exactly past the last one,
    and [getTransactionByHash] answers for the hash of the first transaction that has it
    with that same transaction.  For the pending tag the two block methods agree with each
    other on the pending block of the synchronisation, while
    [getTransactionByBlockIdAndIndex] answers with the transactions of the best block.
    The cached hashes are assumed right, the transactions servable and the versions
    in UTF-8. *)
Theorem transaction_methods_agree a h b id version :
  substrate_block_hash_from_starknet_block db id = Ok h →
  serves h b → wf_block b → refines (contents db) a → is_felt (block_hash_of b) → cache_ok cid a b →
  Forall (λ tx, well_ranged tx ∧ servable tx = true) (transactions b) →
  Felt252Wrapper.from_utf8 (protocol_version (header b)) = Ok version →
  ∃ cs, map from_core cs = map normal (transactions b) ∧ map core_hash cs = tx_hashes_of cid b ∧
    (∀ i, 0 ≤ i →
      get_transaction_by_block_id_and_index cache db (Some cid) id i =
        ok_or (Rpc_Api InvalidTxnIndex) (cs !! Z.to_nat i) ∧
      ∀ c, cs !! Z.to_nat i = Some c → a_txs a !! core_hash c = Some h → is_felt (core_hash c) →
        is_ok (get_cf db TransactionMapping (enc_felt (core_hash c))) = true →
        (∀ j c', (j < Z.to_nat i)%nat → cs !! j = Some c' → core_hash c' ≠ core_hash c) →
        get_transaction_by_hash cache db (Some cid) (core_hash c) = Ok c) ∧
    (is_pending_id id = false → ∃ txs hashes,
      get_block_with_txs cache db sync_state (Some cid) id = Ok (Served_Block txs) ∧
      get_block_with_tx_hashes cache db sync_state (Some cid) id = Ok (Served_Block hashes) ∧
      sb_block_hash hashes = sb_block_hash txs ∧ sb_transactions txs = cs ∧
      sb_transactions hashes = map core_hash cs) ∧
    (is_pending_id id = true → ∀ pb version, get_pending_block sync_state = Some pb → wf_block pb →
      Forall (λ tx, well_ranged tx ∧ servable tx = true) (transactions pb) →
      Felt252Wrapper.from_utf8 (protocol_version (header pb)) = Ok version → ∃ txs hashes,
      get_block_with_txs cache db sync_state (Some cid) id = Ok (Served_Pending txs) ∧
      get_block_with_tx_hashes cache db sync_state (Some cid) id = Ok (Served_Pending hashes) ∧
      map from_core (sp_transactions txs) = map normal (transactions pb) ∧
      sp_transactions hashes = map core_hash (sp_transactions txs)).
Proof.
  intros Hid Hs Hwf R Hbh Hc Hsv Hver.
  destruct (tx_conv_ok (transactions b) (tx_hashes_of cid b)) as (cs & Hconv & Hf & Hh);
    [unfold tx_hashes_of; by rewrite length_map|done|].
  exists cs. split; [done|]. split; [done|]. split; [|split].
  - intros i Hi. rewrite (transaction_by_index a h b id i) by done.
    pose proof (tx_conv_lookup b cs (Z.to_nat i) Hconv Hh) as Hk. split.
    + destruct (cs !! Z.to_nat i) as [c|]; [|by rewrite Hk]. by destruct Hk as (tx & -> & Ht & _).
    + intros c Hci Ha Hfe Hg Hfirst. rewrite Hci in Hk. destruct Hk as (tx & Hti & Ht & Heq).
      rewrite (transaction_lookup cache db cid a h b (Z.to_nat i) tx (core_hash c)); try done; [by rewrite Heq|].
      intros j tx' Hj Htx' He. pose proof (tx_conv_lookup b cs j Hconv Hh) as Hkj.
      destruct (cs !! j) as [c'|] eqn:Hcj; [|congruence]. destruct Hkj as (tx'' & Htx'' & _ & Ht').
      apply (Hfirst j c' Hj Hcj). congruence.
  - intros Hp. destruct (served_block cache db sync_state cid a h b id version) as (cs' & H1 & H2 & _ & _ & Hc'); try done.
    rewrite Hconv in Hc'. injection Hc' as <-. by eexists _, _.
  - intros Hp pb v Hpb Hwp Hsp Hv.
    destruct (served_pending cache db sync_state cid h pb id v) as (txs & hashes & H1 & H2 & H3 & H4 & H5); try done.
    exists txs, hashes. split_and!; congruence.
Qed.
End Agreement.

(** ** Witnesses *)

Definition system_model : list string := ["system_accountNextIndex"; "system_dryRun"]%string.
Definition manual_seal_model : list string := ["engine_createBlock"; "engine_finalizeBlock"]%string.

Lemma foreign_models : foreign system_model ∧ foreign manual_seal_model.
Proof. split; intros name [H|[H|[]%elem_of_nil]%elem_of_cons]%elem_of_cons; discriminate H. Qed.

Abbreviation serve_model := (serve (kv := kv_model) (codecs := codecs_model) (items := log_items) (client := client_model)
  (chain := backend_model) (crypto := crypto_small) (ca := address_model) (hasher := @PedersenHasher _ crypto_small)
  (cl := rpc_class_libs) (pc := program_codec_model) (sc := storage_codecs_model)
  (sp := provider_model pallet.empty_state) (bf := blockifier_model) (cfg := pallet_config_model) (btp := trie_model)
  (dac := diff_codecs_model) true store_model tries_empty true SyncState_init (Some 77) None (λ _, ""%string) (Ok None)
  (λ t : unit, Ok t) (λ t : unit, Ok t) (λ t : unit, Ok t)).

Lemma every_method_served_witness : ∃ module,
  create_full system_model manual_seal_model true = Ok module ∧
  serve_model module 0 (Starknet_new 0) (Req_Read SpecVersion) = Some (Ok "0.7.0"%string) ∧
  "engine_createBlock"%string ∈ module.
Proof.
  destruct (every_method_served (kv := kv_model) (codecs := codecs_model) (items := log_items) (client := client_model)
    (chain := backend_model) (crypto := crypto_small) (ca := address_model) (hasher := @PedersenHasher _ crypto_small)
    (cl := rpc_class_libs) (pc := program_codec_model) (sc := storage_codecs_model)
    (sp := provider_model pallet.empty_state) (bf := blockifier_model) (cfg := pallet_config_model) (btp := trie_model)
    (dac := diff_codecs_model) true store_model tries_empty true SyncState_init (Some 77) None (λ _, ""%string) (Ok None)
    (λ t : unit, Ok t) (λ t : unit, Ok t) (λ t : unit, Ok t) system_model manual_seal_model true 0 (Starknet_new 0)
    (proj1 foreign_models) (proj2 foreign_models)) as (module & Hm & Hserve & Hman).
  - intros n [->|[->|[]%elem_of_nil]%elem_of_cons]%elem_of_cons; apply (bool_decide_unpack _); by vm_compute.
  - exists module. split; [exact Hm|]. split; [exact (Hserve _ (Req_Read SpecVersion))|].
    apply Hman; [apply list_elem_of_here|reflexivity].
Defined.

Lemma transaction_methods_agree_witness : ∃ txs c,
  get_block_with_txs (kv := kv_model) (codecs := codecs_model) (items := log_items) (client := client_model)
    (chain := backend_model) (crypto := crypto_small) (ca := address_model) (hasher := @PedersenHasher _ crypto_small)
    true store_model SyncState_init (Some 77) (BlockId_Number 1) = Ok (Served_Block txs) ∧
  sb_transactions txs = [c] ∧ from_core c = tx_model ∧
  (∀ i, get_transaction_by_block_id_and_index (kv := kv_model) (codecs := codecs_model) (items := log_items)
    (client := client_model) (chain := backend_model) (crypto := crypto_small) (ca := address_model)
    (hasher := @PedersenHasher _ crypto_small) true store_model (Some 77) (BlockId_Number 1) (Z.of_nat i)
    = if decide (i = 0%nat) then Ok c else Err (Rpc_Api InvalidTxnIndex)).
Proof.
  destruct (transaction_methods_agree (kv := kv_model) (codecs := codecs_model) (items := log_items) (client := client_model)
    (chain := backend_model) (crypto := crypto_small) (Hca := address_model_spec)
    (hasher := @PedersenHasher _ crypto_small) (Hkv := kv_model_spec) true store_model SyncState_init 77
    index_model (DHash 1) example_block (BlockId_Number 1) []
    eq_refl serves_model block_model_ok store_model_refines)
    as (cs & Hf & _ & Hi & Hb & _).
  - by vm_compute.
  - exact cache_model.
  - apply Forall_singleton. split; [split; [by vm_compute | by repeat constructor]|reflexivity].
  - by vm_compute.
  - destruct (Hb eq_refl) as (txs & hashes & H & _ & _ & Hcs & _).
    destruct cs as [|c [|c' cs]]; [discriminate Hf| |discriminate Hf]. injection Hf as Hf.
    exists txs, c. split; [exact H|]. split; [exact Hcs|]. split; [exact Hf|]. intros i.
    rewrite (proj1 (Hi (Z.of_nat i) (Nat2Z.is_nonneg i))), Nat2Z.id. destruct i as [|i]; reflexivity.
Defined.
