(* ===== verification/EndToEnd.v ===== *)
(** * EndToEnd: from the sequencer to a client of the RPC

    The components together: the blocks that the synchronisation imports
    ([L2Sync]) are wrapped in Substrate blocks by the pallet ([Pallet]), found in
    their digests ([RpcClient]) and served ([RpcBlocks]).  The Substrate client
    that the RPC asks is the one of the node whose chain the synchronisation
    extends. *)

From S2P Require Import Prelude Felt Hashers Transactions TxHash CoreTx Broadcast Blocks Db Tries Commitments.
From S2P Require Import Convert MappingSync Fetch RpcEvents RpcClient Index CallInfo ContractClasses Pallet.
From S2P Require Import StateAdapter Simulations Codecs Overrides L1Sync L2Sync Traces RpcTrace RpcBlocks.
From S2P Require Import RpcState Genesis.

(** ** The Substrate client of a node *)

Section Client.
Context {BP BC Prog V1 : Type} `{dc : DigestCodecs Prog V1}.
Variable w : World BP BC Prog V1.
(** The Starknet block of the genesis. *)
Variable g : DeoxysBlock.

(** The header of block [k]: that of [construct_genesis_block] for the first; the
    digest of an executed block is part of its state, and the import appends what the
    consensus data provider adds. *)
Definition world_header (k : nat) (st : PalletState Prog V1) : DHeaderT DigestItem :=
  match k with
  | O => construct_genesis_block g
  | S j => {| dh_number := Z.of_nat k;
              dh_parent_hash := default H256_default (fst <$> w_chain w !! j);
              dh_digest := sys_digest st ++ pallet.append_block_import [] |}
  end.

Lemma imported_logs digest : madara_logs (digest ++ pallet.append_block_import []) = madara_logs digest.
Proof. unfold madara_logs. rewrite omap_app. apply app_nil_r. Qed.

Lemma world_header_number k st : dh_number (world_header k st) = Z.of_nat k.
Proof. by destruct k. Qed.

Definition world_find (h : DHashT) : option (nat * PalletState Prog V1) :=
  '(k, e) ← list_find (λ e, e.1 = h) (w_chain w); Some (k, e.2).

Definition world_client (header_hash : DHeaderT DigestItem → DHashT) (chain_id : Z) : SubstrateClient unit DigestItem := {|
  MappingSync.header_hash := header_hash;
  client_header h := Ok ('(k, st) ← world_find h; Some (world_header k st));
  blockchain_leaves := Ok [best_hash_of w];
  runtime_chain_id _ := Ok chain_id;
|}.

Definition world_backend : ChainBackend unit := {|
  client_number h := Ok ((Z.of_nat ∘ fst) <$> world_find h);
  client_hash n := Ok (fst <$> w_chain w !! Z.to_nat n);
  best_hash := best_hash_of w;
  best_number := Z.of_nat (pred (length (w_chain w)));
|}.

(** With distinct hashes every block is found under its own. *)
Lemma world_find_at k h st :
  NoDup (w_chain w).*1 → w_chain w !! k = Some (h, st) → world_find h = Some (k, st).
Proof.
  intros Hnd Hk. unfold world_find. rewrite (proj2 (list_find_Some _ _ k (h, st))); [done|].
  split_and!; [done..|]. intros j [h' st'] Hj Hlt Heq. simpl in Heq. subst h'.
  assert (j = k); [|lia]. eapply (NoDup_lookup (w_chain w).*1 _ _ h); [done|..].
  - by rewrite list_lookup_fmap, Hj.
  - by rewrite list_lookup_fmap, Hk.
Qed.

Lemma world_serves header_hash chain_id k h st b :
  NoDup (w_chain w).*1 → w_chain w !! S k = Some (h, st) → find_starknet_block (sys_digest st) = Ok b →
  serves (client := world_client header_hash chain_id) h b.
Proof.
  intros Hnd Hk Hb. exists (world_header (S k) st). split.
  { cbn [client_header world_client]. by rewrite (world_find_at (S k) h st Hnd Hk). }
  rewrite find_starknet_block_logs in Hb. cbn [dh_digest world_header]. rewrite imported_logs.
  destruct (madara_logs (sys_digest st)) as [|[b'] [|]]; try discriminate. by injection Hb as ->.
Qed.

Lemma world_lookup {E D : Type} `{kv : KvStore E D} `{codecs : DbCodecs} (db : D) k h st :
  w_chain w !! k = Some (h, st) → Z.of_nat k ≤ u32_max →
  substrate_block_hash_from_starknet_block (chain := world_backend) db (BlockId_Number (Z.of_nat k)) = Ok h.
Proof.
  intros Hk Hle. unfold substrate_block_hash_from_starknet_block, saturated_u32.
  cbn [client_hash world_backend]. rewrite Z.min_l, Nat2Z.id, Hk by done. done.
Qed.
End Client.

(** ** The mapping worker on the node's chain *)

Section WorldIndex.
Context {BP BC Prog V1 : Type} `{dc : DigestCodecs Prog V1} {Hdc : DigestCodecsSpec dc}.
Context {E S F : Type} `{kv : KvStore E S} `{codecs : DbCodecs} `{f64 : F64 F}.
Context `{Hlibs : !FeltLibsSpec libs} `{crypto : StarknetCrypto} `{Hca : !ContractAddressesSpec ca}.
Context `{hasher : HasherT}.
Context {Hkv : KvStoreSpec kv} {Hcodecs : DbCodecsSpec codecs}.
Variable header_hash : DHeaderT DigestItem → DHashT.
Variable cid : Z.
Variable w : World BP BC Prog V1.
(** The Starknet blocks the chain wraps: that of the genesis and those after it. *)
Variable g : DeoxysBlock.
Variable convs : list DeoxysBlock.
Abbreviation blocks := (g :: convs).

#[local] Instance the_client : SubstrateClient unit DigestItem := world_client w g header_hash cid.

(** A store that does not fail. *)
Record store_ok : Prop := {
  so_get (db : S) c k : is_ok (get_cf db c k) = true;
  so_put (db : S) c k v : is_ok (put_cf db c k v) = true;
  so_write (db : S) ops : is_ok (write db ops) = true;
}.

(** The blocks have distinct hashes, and hashes are field elements. *)
Definition hashes_ok : Prop :=
  NoDup (map block_hash_of blocks) ∧
  Forall (λ b, is_felt (block_hash_of b) ∧ Forall is_felt (tx_hashes_of cid b)) blocks.

(** The node's chain: each block is found under the hash of its header and wraps one
    well-formed Starknet block. *)
Record node_ok : Prop := {
  no_nodup : NoDup (w_chain w).*1;
  no_hash k h st : w_chain w !! k = Some (h, st) → header_hash (world_header w g k st) = h;
  no_genesis : w_chain w ≠ [];
  no_wraps : Forall2 (λ e b, madara_logs (sys_digest e.2) = [Log_Block b]) (tail (w_chain w)) convs;
  no_wf : Forall wf_block blocks;
}.

Definition world_all : gset DHashT := list_to_set (w_chain w).*1.

Lemma world_all_at h : h ∈ world_all ↔ ∃ k st, w_chain w !! k = Some (h, st).
Proof.
  unfold world_all. rewrite elem_of_list_to_set, list_elem_of_fmap. split.
  - intros ([h' st] & -> & [k Hk]%list_elem_of_lookup). by exists k, st.
  - intros (k & st & Hk). exists (h, st). split; [done|]. by eapply list_elem_of_lookup_2.
Qed.

Lemma world_header_at k h st :
  node_ok → w_chain w !! k = Some (h, st) → client_header h = Ok (Some (world_header w g k st)).
Proof. intros N Hk. simpl. by rewrite (world_find_at w k h st (no_nodup N) Hk). Qed.

Lemma world_header_inv h hdr :
  client_header h = Ok (Some hdr) → ∃ k st, w_chain w !! k = Some (h, st) ∧ hdr = world_header w g k st.
Proof.
  simpl. unfold world_find. destruct (list_find _ (w_chain w)) as [[k [h' st]]|] eqn:Hf; [|done].
  apply list_find_Some in Hf as (Hk & <- & _). intros [= <-]. by exists k, st.
Qed.

Lemma world_length : node_ok → length (w_chain w) = length blocks.
Proof.
  intros N. pose proof (Forall2_length _ _ _ (no_wraps N)) as Hlen. pose proof (no_genesis N).
  destruct (w_chain w); [done|]. simpl in *. lia.
Qed.

(** Every block of the chain wraps its Starknet block. *)
Lemma world_block_at k h st :
  node_ok → w_chain w !! k = Some (h, st) → ∃ b, blocks !! k = Some b ∧
    madara_logs (dh_digest (world_header w g k st)) = [Log_Block b] ∧ wf_block b.
Proof.
  intros N Hk. pose proof (lookup_lt_Some _ _ _ Hk) as Hlt. rewrite (world_length N) in Hlt.
  destruct (lookup_lt_is_Some_2 blocks k Hlt) as [b Hb]. exists b.
  split; [done|]. split; [|by eapply Forall_lookup_1; [apply (no_wf N)|]].
  destruct k as [|k]; simpl in Hb.
  - injection Hb as <-. pose proof (genesis_block_found g) as Hg. rewrite find_starknet_block_logs in Hg.
    cbn [world_header]. by destruct (madara_logs _) as [|[b'] [|]]; simplify_eq.
  - cbn [world_header dh_digest]. rewrite imported_logs, <- lookup_tail in *.
    exact (Forall2_lookup_lr _ _ _ _ _ _ (no_wraps N) Hk Hb).
Qed.

Lemma world_chain_nonempty : node_ok → ∃ h st, last (w_chain w) = Some (h, st).
Proof.
  intros N. destruct (last (w_chain w)) as [[h st]|] eqn:Hl; [by exists h, st|].
  apply last_None in Hl. by destruct (no_genesis N).
Qed.

Lemma world_parent k h st :
  node_ok → w_chain w !! k = Some (h, st) → dh_number (world_header w g k st) ≠ 0 →
  ∃ h' st', k = Datatypes.S (pred k) ∧ w_chain w !! pred k = Some (h', st') ∧ dh_parent_hash (world_header w g k st) = h'.
Proof.
  intros N Hk Hn. rewrite world_header_number in Hn. destruct k as [|k]; [done|].
  apply lookup_lt_Some in Hk. destruct (lookup_lt_is_Some_2 (w_chain w) k) as [[h' st'] Hk']; [lia|].
  exists h', st'. cbn [dh_parent_hash world_header pred]. by rewrite Hk'.
Qed.

Lemma world_chain_ok : node_ok → chain_ok.
Proof.
  intros N. split; intros h hdr (k & st & Hk & ->)%world_header_inv.
  - by apply (no_hash N).
  - rewrite world_header_number. lia.
  - intros Hn. destruct (world_parent k h st N Hk Hn) as (h' & st' & Hpk & Hk' & ->).
    exists (world_header w g (pred k) st'). split; [by apply world_header_at|].
    rewrite !world_header_number. lia.
Qed.

Lemma world_env : node_ok → store_ok → env_ok world_all.
Proof.
  intros N St. split; [apply St..| |].
  - exists [best_hash_of w]. split; [done|]. apply Forall_singleton, world_all_at.
    destruct (world_chain_nonempty N) as (h & st & Hl). unfold best_hash_of. rewrite Hl. simpl.
    rewrite last_lookup in Hl. by exists (pred (length (w_chain w))), st.
  - intros h (k & st & Hk)%world_all_at. destruct (world_block_at k h st N Hk) as (b & _ & Hl & Hb).
    exists (world_header w g k st), cid. split; [by apply world_header_at|].
    rewrite Hl. split_and!; [|done|simpl; lia|].
    + intros Hn. destruct (world_parent k h st N Hk Hn) as (h' & st' & _ & Hk' & ->).
      apply world_all_at. by exists (pred k), st'.
    + intros b' [= ->]%list_elem_of_singleton. done.
Qed.

Lemma world_op k h st b :
  node_ok → w_chain w !! k = Some (h, st) → blocks !! k = Some b →
  op_of cid h = OpWriteHashes (commitment_at cid (world_header w g k st) h b).
Proof.
  intros N Hk Hb. destruct (world_block_at k h st N Hk) as (b' & Hb' & Hl & _).
  rewrite Hb in Hb'. injection Hb' as <-. unfold op_of. rewrite (world_header_at k h st N Hk).
  unfold header_op. by rewrite Hl.
Qed.

Lemma world_blocks_ok : node_ok → hashes_ok → blocks_ok cid world_all.
Proof.
  intros N [_ Hf]. split; [done|]. intros h (k & st & Hk)%world_all_at.
  destruct (world_block_at k h st N Hk) as (b & Hb & _ & [Hh _]). rewrite (world_op k h st b N Hk Hb).
  destruct (Forall_lookup_1 _ _ _ _ Hf Hb) as [Hbh Htx]. split; [apply Hh|]. split; [done|].
  cbn [mc_starknet_transaction_hashes commitment_at]. by destruct (_ =? _).
Qed.

Lemma world_distinct : node_ok → hashes_ok → distinct_blocks cid world_all.
Proof.
  intros N [Hd _] h h' c c' (k & st & Hk)%world_all_at (k' & st' & Hk')%world_all_at Hc Hc' Heq.
  destruct (world_block_at k h st N Hk) as (b & Hb & _). destruct (world_block_at k' h' st' N Hk') as (b' & Hb' & _).
  rewrite (world_op k h st b N Hk Hb) in Hc. rewrite (world_op k' h' st' b' N Hk' Hb') in Hc'.
  injection Hc as <-. injection Hc' as <-. cbn [mc_starknet_block_hash commitment_at commitment_of] in Heq.
  assert (k = k') as ->; [|congruence].
  eapply (NoDup_lookup (map block_hash_of blocks)); [done|..]; rewrite list_lookup_fmap.
  - by rewrite Hb.
  - rewrite Hb'. simpl. f_equal. exact (eq_sym Heq).
Qed.

Lemma world_wraps k h st b :
  node_ok → w_chain w !! Datatypes.S k = Some (h, st) → blocks !! Datatypes.S k = Some b → wraps h b.
Proof.
  intros N Hk Hb. exists (world_header w g (Datatypes.S k) st). split; [by apply world_header_at|].
  split; [done|]. destruct (world_block_at _ h st N Hk) as (b' & Hb' & Hl & _).
  rewrite Hb in Hb'. injection Hb' as <-. exact Hl.
Qed.

(** Every block of the chain is an ancestor of the best one. *)
Lemma world_ancestor d k h st :
  node_ok → w_chain w !! k = Some (h, st) → (k + d = pred (length (w_chain w)))%nat → ancestor (best_hash_of w) h.
Proof.
  intros N. revert k h st. induction d as [|d IH]; intros k h st Hk Hd.
  - replace h with (best_hash_of w); [apply ancestor_refl|]. unfold best_hash_of.
    rewrite last_lookup. replace (pred _) with k by lia. by rewrite Hk.
  - pose proof (lookup_lt_Some _ _ _ Hk) as Hlt.
    destruct (lookup_lt_is_Some_2 (w_chain w) (Datatypes.S k)) as [[h' st'] Hk']; [lia|].
    specialize (IH _ _ _ Hk' ltac:(lia)).
    replace h with (dh_parent_hash (world_header w g (Datatypes.S k) st')); [|simpl; by rewrite Hk].
    eapply ancestor_parent; [exact IH|by apply world_header_at|done].
Qed.

(** The worker of the node ([MappingSyncWorker::new] with the limits of [new_full]),
    started on an empty database, has indexed the whole chain after one poll more than
    there are blocks. *)
Variable cache : bool.
Definition mapping_worker (n : nat) (s0 : MappingSync.SyncState S F) : MappingSyncWorker :=
  Nat.iter n (quiet_poll (E1 := E) (E2 := unit) cache) (MappingSyncWorker_new 3 0 s0).

Lemma world_indexed (s0 : MappingSync.SyncState S F) :
  node_ok → hashes_ok → store_ok → contents (ss_db s0) = ∅ →
  ∃ order, refines (contents (ss_db (w_state (mapping_worker (1 + length (w_chain w)) s0)))) (index_of cache cid order) ∧
    Forall (.∈ world_all) order ∧ ∀ k h st, w_chain w !! k = Some (h, st) → h ∈ order.
Proof.
  intros N Hh St Hs. pose proof (world_chain_nonempty N) as (hb & stb & Hl).
  destruct (worker_indexes cache cid world_all (MappingSyncWorker_new 3 0 s0) ∅ (world_env N St)
    (world_blocks_ok N Hh) (world_chain_ok N)) as (_ & order & R & Ho & Hall).
  - split; [simpl; lia|]. split; [done|]. split.
    { exists []. split; [|constructor]. simpl. rewrite Hs. apply refines_empty. }
    exists []. simpl. rewrite Hs. split_and!; [|by intros h hdr ?%elem_of_empty|constructor].
    split; [|by right]. intros h. by rewrite bool_decide_false by set_solver.
  - exists order. replace (size (world_all ∖ ∅)) with (length (w_chain w)) in R; cycle 1.
    { rewrite difference_empty_L. unfold world_all. rewrite size_list_to_set by apply (no_nodup N).
      by rewrite length_fmap. }
    split; [exact R|]. split; [done|]. intros k h st Hk. pose proof (lookup_lt_Some _ _ _ Hk).
    eapply Hall; [reflexivity|by apply list_elem_of_singleton| |by apply world_header_at|rewrite world_header_number; simpl; lia].
    apply (world_ancestor (pred (length (w_chain w)) - k) k h st); [done..|lia].
Qed.

(** A transaction of a block after the genesis whose hash no other block has. *)
Lemma world_tx_found s0 k b i tx :
  node_ok → hashes_ok → store_ok → contents (ss_db s0) = ∅ →
  blocks !! Datatypes.S k = Some b → transactions b !! i = Some tx → well_ranged tx → servable tx = true →
  (∀ k' b', blocks !! k' = Some b' → tx_hash_of cid b tx ∈ tx_hashes_of cid b' → k' = Datatypes.S k) →
  (∀ j tx', (j < i)%nat → transactions b !! j = Some tx' → tx_hash_of cid b tx' ≠ tx_hash_of cid b tx) →
  ∃ c, get_transaction_by_hash cache (ss_db (w_state (mapping_worker (1 + length (w_chain w)) s0))) (Some cid)
         (tx_hash_of cid b tx) = Ok c ∧ from_core c = normal tx ∧ core_hash c = tx_hash_of cid b tx.
Proof.
  intros N Hh St Hs Hb Hi Hr Hsv Hu Hf. destruct (world_indexed s0 N Hh St Hs) as (order & R & Ho & Hall).
  pose proof (Forall2_lookup_r _ _ _ _ _ (no_wraps N) Hb) as ([h st] & Hk & _). rewrite lookup_tail in Hk.
  eapply (indexed_tx_found cache cid world_all order _ h b i tx); eauto using world_env, world_blocks_ok, world_distinct.
  - by eapply world_wraps.
  - by eapply Forall_lookup_1; [apply (no_wf N)|].
  - intros h' (k' & st' & Hk')%world_all_at Hx. destruct (world_block_at k' h' st' N Hk') as (b' & Hb' & _).
    unfold recorded_txs in Hx. rewrite (world_op k' h' st' b' N Hk' Hb') in Hx.
    assert (k' = Datatypes.S k) as ->; [|congruence]. apply (Hu k' b' Hb').
    cbn [mc_starknet_transaction_hashes commitment_at] in Hx. destruct (_ =? _); [by apply elem_of_nil in Hx|done].
Qed.
End WorldIndex.

(** ** The theorem *)

(** A version string that a field element can hold and give back. *)
Definition version_served (b : p.Block) (v : bytes) : Prop :=
  p.starknet_version b = Some v ∧ (length v ≤ 31)%nat ∧ utf8_valid v = true ∧ hd_error v ≠ Some 0.

Section EndToEnd.
Context {BP BC Prog V1 : Type} `{btp : BonsaiTrie BP} `{btc : BonsaiTrie BC}.
Context `{Hlibs : !FeltLibsSpec libs} `{crypto : StarknetCrypto} `{pb : ParBridge}.
Context `{Hbv : !BoundsFromVecSpec bv} `{Hca : !ContractAddressesSpec ca} `{acc : TxAccessors}.
Context {B : Type} `{bt : BonsaiTrie B}.
Context `{gw : Gateway} `{dc : DigestCodecs Prog V1} {Hdc : DigestCodecsSpec dc} `{cfg : PalletConfig}.
Context {E S : Type} `{kv : KvStore E S} `{codecs : DbCodecs} `{hasher : HasherT}.
Context {Hkv : KvStoreSpec kv} {Hcodecs : DbCodecsSpec codecs}.
Variable bonsai_new : Outcome unit B.
Variable config_chain_id : option Z.
Variable seal_hash : Z → PalletState Prog V1 → DHashT.
Variable inherent_data : option bytes.
Variable header_hash : DHeaderT DigestItem → DHashT.
Variable cache : bool.
Variable db : S.
Variable cid : Z.
(** The Starknet block of the genesis. *)
Variable g : DeoxysBlock.

Abbreviation W := (World BP BC Prog V1).
Abbreviation convert_block := (convert.convert_block_sync bonsai_new config_chain_id).
Abbreviation runs := (run (BP := BP) (BC := BC) bonsai_new config_chain_id seal_hash inherent_data).

(** What the transactions of a converted block are served as. *)
Lemma served_forall ptxs txs cs :
  Forall2 stored_as ptxs txs → map from_core cs = map normal txs →
  Forall2 (λ tx c, served_as (core_hash c) tx c) ptxs cs.
Proof.
  intros H. revert cs. induction H as [|tx t ptxs txs Hst _ IH]; intros [|c cs] Hc; try discriminate Hc; [constructor|].
  injection Hc as Hc Hcs. constructor; [by eapply stored_served|by apply IH].
Qed.

Lemma servable_forall ptxs txs :
  Forall2 stored_as ptxs txs → Forall nonce_served ptxs → Forall (λ tx, servable tx = true) txs.
Proof.
  induction 1 as [|tx t ptxs txs Hst _ IH]; [constructor|]. intros [Hn Hns]%Forall_cons.
  constructor; [by eapply stored_servable|by apply IH].
Qed.

(** C1: A confirmed block of the sequencer, once the node has imported it (with any
    number of blocks before and after, and whatever the interleaving with the
    other tasks), is served under its Substrate number with the fields the
    sequencer gave it: number, parent, state root, timestamp, sequencer, version,
    data availability mode, and every transaction in order, field by field as
    [served_as] says: declare transactions of version 0 come back as version 1, and
    deploy and L1 handler transactions with version 0.  The hashes of Substrate blocks
    are distinct, the version is UTF-8 text of at most 31 bytes that does not start with a
    zero byte, the nonces of L1 handlers fit 64 bits, and the hashes cached for the block,
    if any, are right. *)
Theorem synced_block_served verify n (w : W) bs n' w' i b a v :
  inherent_ok inherent_data → 1 ≤ n → Synced n w → Forall has_hash bs → runs verify (n, w) bs (n', w') →
  NoDup (w_chain w').*1 → bs !! i = Some b → wf_p_block b → version_served b v →
  Forall nonce_served (p.transactions b) → n + Z.of_nat i ≤ u32_max → refines (contents db) a →
  ∃ conv, convert_block b = Ok conv ∧ Forall2 stored_as (p.transactions b) (transactions conv) ∧
    (is_felt (block_hash_of conv) → cache_ok cid a conv →
     ∃ sb, get_block_with_txs (client := world_client w' g header_hash cid) (chain := world_backend w')
             cache db (w_sync w') (Some cid) (BlockId_Number (n + Z.of_nat i)) = Ok (Served_Block sb) ∧
       Forall2 (λ tx c, served_as (core_hash c) tx c) (p.transactions b) (sb_transactions sb) ∧
       map core_hash (sb_transactions sb) = tx_hashes_of cid conv ∧ sb_block_hash sb = block_hash_of conv ∧
       Some (sb_block_number sb) = p.block_number b ∧ Some (sb_new_root sb) = p.state_root b ∧
       sh_parent_hash (sb_header sb) = p.parent_block_hash b ∧ sh_timestamp (sb_header sb) = p.timestamp b ∧
       sh_sequencer_address (sb_header sb) = default 0 (p.sequencer_address b) ∧
       sh_starknet_version (sb_header sb) = v ∧
       sh_l1_da_mode (sb_header sb) = match p.l1_da_mode b with p.Calldata => L1DA_Calldata | p.Blob => L1DA_Blob end).
Proof.
  intros Hinh Hn1 HS Hbs Hr Hnd Hi Wb (Hv & Hvl & Hvu & Hvh) Hns Hle R.
  destruct (runs_imports _ _ _ _ _ _ _ _ Hr Hinh HS Hbs i b Hi) as (h & st & conv & Hat & Hconv & Hfind & _).
  cbn [fst snd] in Hat. pose proof (convert_block_stored _ _ _ _ Wb Hconv) as Hst.
  destruct (convert_block_Ok _ _ _ _ Wb Hconv) as (txs & oes & num & root & ctx & cev & -> & _ & Hwr & Hn & Hroot & _).
  eexists. split; [exact Hconv|]. split; [exact Hst|]. intros Hbh Hc. cbn [transactions DeoxysBlock_new] in Hst.
  replace (n + Z.of_nat i) with (Z.of_nat (Z.to_nat n + i)) in * by lia.
  replace (Z.to_nat n + i)%nat with (Datatypes.S (pred (Z.to_nat n) + i)) in * by lia.
  destruct (utf8_roundtrip v) as (x & Hx & _ & Hx'); [by apply (wfb_version _ Wb)|done..|].
  rewrite try_from_slice_ok in Hx by by apply (wfb_version _ Wb).
  destruct (served_block (client := world_client w' g header_hash cid) (chain := world_backend w') cache db (w_sync w')
    cid a h _ (BlockId_Number (Z.of_nat (Datatypes.S (pred (Z.to_nat n) + i)))) v (world_lookup _ db _ _ _ Hat Hle) eq_refl
    (world_serves _ g header_hash cid _ _ _ _ Hnd Hat Hfind)) as (cs & Hget & _ & Hf & Hh & _); try done.
  - split; [by apply converted_header_wf|]. simpl. eapply Forall_impl; [exact Hwr|by intros ? []].
  - simpl. apply Forall_and. split; [done|]. by eapply servable_forall.
  - simpl. rewrite Hv. by repeat case_match; simplify_eq/=.
  - eexists. split; [exact Hget|]. simpl. rewrite Hn, Hroot. split; [by eapply served_forall|]. by split_and!.
Qed.

(** After its genesis the chain wraps the converted blocks. *)
Lemma runs_wraps verify (w : W) bs n' w' :
  inherent_ok inherent_data → Synced 1 w → Forall has_hash bs → Forall wf_p_block bs →
  runs verify (1, w) bs (n', w') →
  ∃ convs, mapM convert_block bs = Ok convs ∧ Forall wf_block convs ∧ w_chain w' ≠ [] ∧
    Forall2 (λ e b, madara_logs (sys_digest e.2) = [Log_Block b]) (tail (w_chain w')) convs.
Proof.
  intros Hinh HS Hbs Hwf Hr.
  destruct (run_frame _ _ _ _ _ _ _ _ Hr Hinh HS Hbs) as (HS' & Hn' & _). cbn [fst snd] in *.
  pose proof (runs_imports _ _ _ _ _ _ _ _ Hr Hinh HS Hbs) as Himp. cbn [fst snd] in Himp.
  pose proof (synced_height _ _ HS') as Hlen. rewrite Hn' in Hlen.
  destruct (mapM_is_ok convert_block bs) as [convs Hconvs].
  { apply Forall_lookup. intros i b Hi. destruct (Himp i b Hi) as (h & st & conv & _ & -> & _). done. }
  pose proof (proj1 (mapM_Ok_Forall2 _ _ _) Hconvs) as HF. pose proof (Forall2_length _ _ _ HF) as Hlen2.
  exists convs. split; [done|]. split_and!.
  - apply Forall_lookup. intros i conv Hi.
    destruct (Forall2_lookup_r _ _ _ _ _ HF Hi) as (b & Hb & Hconv).
    destruct (convert_block_Ok _ _ _ _ (Forall_lookup_1 _ _ _ _ Hwf Hb) Hconv)
      as (txs & oes & num & root & ctx & cev & -> & _ & Hwr & Hn & _).
    split; [apply converted_header_wf; [by eapply Forall_lookup_1|done]|].
    simpl. eapply Forall_impl; [exact Hwr|by intros ? []].
  - intros Hnil. rewrite Hnil in Hlen. simpl in Hlen. lia.
  - apply Forall2_same_length_lookup_2; [rewrite (length_tl (w_chain w')); lia|]. intros i [h st] b Hk Hi.
    rewrite lookup_tail in Hk. destruct (Forall2_lookup_r _ _ _ _ _ HF Hi) as (pb0 & Hb & Hconv).
    destruct (Himp i pb0 Hb) as (h' & st' & conv & Hat & Hconv' & Hfind & _).
    change (Z.to_nat 1 + i)%nat with (Datatypes.S i) in Hat. rewrite Hk in Hat. injection Hat as <- <-.
    rewrite Hconv in Hconv'. injection Hconv' as <-. rewrite find_starknet_block_logs in Hfind.
    cbn [snd]. by destruct (madara_logs (sys_digest st)) as [|[b'] [|]]; simplify_eq.
Qed.

Context {F : Type} `{f64 : F64 F}.

(** C19: From the sequencer to a query by hash: a node that starts at its genesis and
    imports blocks of the sequencer, whatever the interleaving with its other
    tasks, and whose mapping worker, started on an empty database that does not fail, is
    polled once more than there are blocks, answers for the hash of every imported
    transaction with that transaction, field by field as [served_as] says (declare
    transactions of version 0 come back as version 1, deploy and L1 handler transactions
    with version 0), cached hashes or not, provided the blocks have distinct hashes, the
    worker and the RPC use the same chain id, no other transaction of the chain has the
    hash, and the nonce of an L1 handler fits 64 bits. *)
Theorem synced_transaction_found verify (w : W) bs n' w' (s0 : MappingSync.SyncState S F) :
  inherent_ok inherent_data → Synced 1 w → wf_block g → Forall has_hash bs → Forall wf_p_block bs →
  runs verify (1, w) bs (n', w') → NoDup (w_chain w').*1 →
  (∀ k h st, w_chain w' !! k = Some (h, st) → header_hash (world_header w' g k st) = h) →
  store_ok (S := S) → contents (ss_db s0) = ∅ →
  ∃ convs, mapM convert_block bs = Ok convs ∧
    let worker := mapping_worker (f64 := f64) header_hash cid w' g cache (1 + length (w_chain w')) s0 in
    (hashes_ok cid g convs → ∀ i b conv j ptx,
     bs !! i = Some b → convs !! i = Some conv → p.transactions b !! j = Some ptx → nonce_served ptx →
     ∃ tx, transactions conv !! j = Some tx ∧ stored_as ptx tx ∧
     ((∀ i' j' conv' tx', (g :: convs) !! i' = Some conv' → transactions conv' !! j' = Some tx' →
        tx_hash_of cid conv' tx' = tx_hash_of cid conv tx → i' = Datatypes.S i ∧ j' = j) →
      ∃ c, get_transaction_by_hash (client := world_client w' g header_hash cid) cache (ss_db (w_state worker))
             (Some cid) (tx_hash_of cid conv tx) = Ok c ∧ served_as (tx_hash_of cid conv tx) ptx c)).
Proof.
  intros Hinh HS Hg Hbs Hwf Hr Hnd Hhash St Hs.
  destruct (runs_wraps _ _ _ _ _ Hinh HS Hbs Hwf Hr) as (convs & Hconvs & Hwfb & Hne & Hwr).
  exists convs. split; [done|]. intros worker Hh i b conv j ptx Hi Hc Hj Hns.
  assert (node_ok header_hash w' g convs) as N by (split; [done..|by constructor]).
  apply mapM_Ok_Forall2 in Hconvs. pose proof (Forall2_lookup_lr _ _ _ _ _ _ Hconvs Hi Hc) as Hconv.
  pose proof (Forall_lookup_1 _ _ _ _ Hwf Hi) as Wb.
  destruct (Forall2_lookup_l _ _ _ _ _ (convert_block_stored _ _ _ _ Wb Hconv) Hj) as (tx & Htx & Hst).
  exists tx. split; [done|]. split; [done|]. intros Hu.
  destruct (convert_block_Ok _ _ _ _ Wb Hconv) as (txs & oes & num & root & ctx & cev & -> & _ & Hwrg & _).
  destruct (world_tx_found header_hash cid w' g convs cache s0 i _ j tx N Hh St Hs Hc Htx) as (c & Hget & Hf & Hch).
  - by eapply Forall_lookup_1.
  - by eapply stored_servable.
  - intros k' b' Hb' Hin. apply list_elem_of_fmap in Hin as (tx' & Heq & [j' Hj']%list_elem_of_lookup).
    by destruct (Hu k' j' b' tx' Hb' Hj' (eq_sym Heq)).
  - intros j' tx' Hlt Hj' Heq. destruct (Hu (Datatypes.S i) j' _ tx' Hc Hj' Heq). lia.
  - exists c. split; [done|]. rewrite <- Hch. by eapply stored_served.
Qed.
End EndToEnd.

(** ** Witness: the genesis node imports one block and serves it *)

Abbreviation sync_model := (apply_loop (btp := trie_model) (btc := trie_model) (crypto := crypto_small)
  (pb := par_model) (bv := bounds_model) (ca := address_model) (acc := accessors_model) (bt := trie_model)
  (dc := unit_codecs) (Ok trie_empty) (Some 77) (λ n _, DHash (10 + n)) None false 1 example_values world0).

(** An empty block 0. *)
Definition genesis_model : DeoxysBlock := {| header := Header_default; transactions := []; events := [] |}.

Lemma sync_model_hashes : (λ w, (w_chain w).*1) <$> sync_model = Ok [DHash 1; DHash 11].
Proof. vm_compute. reflexivity. Qed.

Lemma synced_block_served_witness : ∃ w' sb,
  sync_model = Ok w' ∧
  get_block_with_txs (kv := kv_model) (codecs := codecs_model) (items := digest_items (dc := unit_codecs))
    (client := world_client (dc := unit_codecs) w' genesis_model (λ _, DHash 0) 77) (chain := world_backend w') (crypto := crypto_small)
    (ca := address_model) (hasher := @PedersenHasher _ crypto_small) true ∅ (w_sync w') (Some 77) (BlockId_Number 1)
    = Ok (Served_Block sb) ∧
  Forall2 (λ tx c, served_as (core_hash c) tx c) (p.transactions example_p_block) (sb_transactions sb) ∧
  sb_block_number sb = 1000 ∧ sh_starknet_version (sb_header sb) = bytes_of_string "0.13.1".
Proof.
  pose proof sync_model_hashes as Hh. destruct sync_model as [w'| |] eqn:E; try discriminate Hh.
  injection Hh as Hh. exists w'.
  destruct (synced_block_served (btp := trie_model) (btc := trie_model) (crypto := crypto_small)
    (pb := par_model) (Hbv := bounds_model_spec) (Hca := address_model_spec) (acc := accessors_model) (bt := trie_model)
    (gw := gateway_model) (dc := unit_codecs) (Hdc := unit_codecs_spec) (kv := kv_model) (codecs := codecs_model)
    (hasher := @PedersenHasher _ crypto_small) (Hkv := kv_model_spec) (Ok trie_empty) (Some 77)
    (λ n _, DHash (10 + n)) None (λ _, DHash 0) true ∅ 77 genesis_model false 1 world0 [example_p_block] 2 w' 0%nat example_p_block
    abs_empty (bytes_of_string "0.13.1") default_inherent_ok (Z.le_refl 1) world0_synced example_p_block_hash
    (apply_loop_runs (gw := gateway_model) _ _ _ _ false 1 example_values world0 w' E))
    as (conv & Hconv & _ & H).
  - rewrite Hh. apply NoDup_cons_2; [by intros [=]%list_elem_of_singleton|apply NoDup_singleton].
  - reflexivity.
  - exact example_p_block_wf.
  - split; [reflexivity|]. split; [vm_compute; lia|]. split; [reflexivity|discriminate].
  - apply Forall_singleton. exact I.
  - vm_compute. discriminate.
  - apply refines_empty.
  - destruct H as (sb & Hget & Hf & _ & _ & Hn & _ & _ & _ & _ & Hv & _).
    + vm_compute in Hconv. injection Hconv as <-. vm_compute. split; [discriminate|reflexivity].
    + intros l Hl. vm_compute in Hl. discriminate Hl.
    + exists sb. split; [reflexivity|]. split; [exact Hget|]. split; [exact Hf|]. injection Hn as Hn.
      split; [exact Hn|exact Hv].
Defined.

Definition header_hash_model (hdr : DHeaderT DigestItem) : DHashT :=
  if dh_number hdr =? 0 then DHash 1 else DHash (10 + dh_number hdr).

Lemma header_hash_model_ok (w' : World TrieModel TrieModel unit unit) : (w_chain w').*1 = [DHash 1; DHash 11] →
  ∀ k h st, w_chain w' !! k = Some (h, st) →
    header_hash_model (world_header (dc := unit_codecs) w' genesis_model k st) = h.
Proof.
  intros Hh k h st Hk. apply (f_equal (λ o, fst <$> o)) in Hk. rewrite <- list_lookup_fmap, Hh in Hk.
  destruct k as [|[|k]]; simpl in Hk; by simplify_eq.
Qed.

Lemma store_model_ok : store_ok (kv := kv_model).
Proof. by split. Qed.

Lemma genesis_model_ok : wf_block genesis_model.
Proof. split; [by vm_compute|constructor]. Qed.

Abbreviation convert_model := (convert.convert_block_sync (bv := bounds_model) (crypto := crypto_small)
  (ca := address_model) (acc := accessors_model) (bt := trie_model) (Ok trie_empty) (Some 77)).

Lemma conv_model_ok : ∃ conv, mapM convert_model [example_p_block] = Ok [conv] ∧ transactions conv = [tx_model] ∧
  hashes_ok (crypto := crypto_small) (ca := address_model) (hasher := @PedersenHasher _ crypto_small) 77 genesis_model [conv].
Proof.
  eexists. split; [vm_compute; reflexivity|]. split; [reflexivity|].
  split; apply (bool_decide_unpack _); vm_compute; reflexivity.
Qed.

Lemma synced_transaction_found_witness : ∃ w' c,
  sync_model = Ok w' ∧
  get_transaction_by_hash (E2 := unit) (kv := kv_model) (codecs := codecs_model) (items := digest_items (dc := unit_codecs))
    (client := world_client (dc := unit_codecs) w' genesis_model header_hash_model 77) (crypto := crypto_small)
    (ca := address_model) (hasher := @PedersenHasher _ crypto_small) true
    (ss_db (w_state (mapping_worker (kv := kv_model) (codecs := codecs_model) (f64 := f64_model) (crypto := crypto_small)
      (ca := address_model) (hasher := @PedersenHasher _ crypto_small) (dc := unit_codecs) header_hash_model 77 w'
      genesis_model true 3 (state_of ∅)))) (Some 77) (core_hash c) = Ok c ∧
  served_as (core_hash c) (present tx_model) c.
Proof.
  pose proof sync_model_hashes as Hh. destruct sync_model as [w'| |] eqn:E; try discriminate Hh.
  injection Hh as Hh. exists w'.
  destruct (synced_transaction_found (btp := trie_model) (btc := trie_model) (crypto := crypto_small)
    (pb := par_model) (Hbv := bounds_model_spec) (Hca := address_model_spec) (acc := accessors_model) (bt := trie_model)
    (gw := gateway_model) (dc := unit_codecs) (Hdc := unit_codecs_spec) (kv := kv_model) (codecs := codecs_model)
    (hasher := @PedersenHasher _ crypto_small) (Hkv := kv_model_spec) (f64 := f64_model) (Ok trie_empty) (Some 77)
    (λ n _, DHash (10 + n)) None header_hash_model true 77 genesis_model false world0 [example_p_block] 2 w' (state_of ∅)
    default_inherent_ok world0_synced) as (convs & Hconvs & H).
  - exact genesis_model_ok.
  - exact example_p_block_hash.
  - apply Forall_singleton. exact example_p_block_wf.
  - exact (apply_loop_runs (gw := gateway_model) _ _ _ _ false 1 example_values world0 w' E).
  - rewrite Hh. apply NoDup_cons_2; [by intros [=]%list_elem_of_singleton|apply NoDup_singleton].
  - exact (header_hash_model_ok w' Hh).
  - exact store_model_ok.
  - reflexivity.
  - assert (length (w_chain w') = 2%nat) as Hlen by (rewrite <- (length_fmap fst), Hh; reflexivity).
    rewrite Hlen in H. clear E Hh Hlen. destruct conv_model_ok as (conv & Hconv & Htx & Hok).
    rewrite Hconv in Hconvs. injection Hconvs as <-.
    destruct (H Hok 0%nat example_p_block conv 0%nat (present tx_model) eq_refl eq_refl eq_refl I)
      as (tx & Htx' & _ & Hserved).
    rewrite Htx in Htx'. injection Htx' as <-. destruct Hserved as (c & Hget & Hf).
    + intros [|[|i']] j' conv' tx' Hi' Hj'; simpl in Hi'; try discriminate Hi'; injection Hi' as <-; [discriminate Hj'|].
      rewrite Htx in Hj'. destruct j' as [|j']; [|discriminate Hj']. split; reflexivity.
    + exists c. split; [reflexivity|]. pose proof (served_as_hash _ _ _ Hf) as Hc. rewrite <- Hc in Hget, Hf. split; [exact Hget|exact Hf].
Defined.
