(* ===== verification/EndToEndQueries.v ===== *)
(** * EndToEndQueries: events and contract state, from the sequencer to a client

    What a client of the RPC reads from a node that synchronised: the events of the
    imported blocks, page by page, and the contract state after every imported
    block.  The node's chain is the one of [L2Sync], the client asks through
    [RpcEvents] and [RpcState], and the answers are stated from what the sequencer
    sent: its receipts and its state differences. *)

From S2P Require Import Prelude Felt Hashers Transactions TxHash CoreTx Broadcast Blocks Db Tries Commitments.
From S2P Require Import Convert MappingSync Fetch RpcEvents RpcClient Index CallInfo ContractClasses Pallet.
From S2P Require Import StateAdapter Simulations Codecs Overrides L1Sync L2Sync Traces RpcTrace RpcBlocks.
From S2P Require Import RpcState Genesis EndToEnd.

(** ** Walking a slice of a list by number *)

Lemma bind_slice {A B} (l : list A) (F : A → list B) n from (len : nat) :
  n ≤ from → from - n + Z.of_nat len ≤ Z.of_nat (length l) →
  seqZ from (Z.of_nat len) ≫= (λ k, default [] (F <$> l !! Z.to_nat (k - n))) =
  take len (drop (Z.to_nat (from - n)) l) ≫= F.
Proof.
  revert from. induction len as [|len IH]; intros from Hn Hlen; [done|].
  rewrite seqZ_cons, bind_cons by lia.
  destruct (lookup_lt_is_Some_2 l (Z.to_nat (from - n))) as [x Hx]; [lia|].
  rewrite (drop_S _ _ _ Hx), Hx. cbn [take]. rewrite bind_cons. simpl default. f_equal.
  replace (Z.pred (Z.of_nat (S len))) with (Z.of_nat len) by lia. rewrite IH by lia.
  by replace (Z.to_nat (Z.succ from - n)) with (S (Z.to_nat (from - n))) by lia.
Qed.

Lemma filter_bind {A B} (P : B → Prop) `{∀ x, Decision (P x)} (F : A → list B) l :
  l ≫= (λ x, filter P (F x)) = filter P (l ≫= F).
Proof. induction l as [|x l IH]; [done|]. by rewrite !bind_cons, IH, filter_app. Qed.

Lemma length_concat_imap {A B C} (f : nat → A → B → C) (G : A → list B) l :
  length (concat (imap (λ i x, map (f i x) (G x)) l)) = length (l ≫= G).
Proof.
  revert f. induction l as [|x l IH]; intros f; [done|].
  rewrite imap_cons, bind_cons, length_app. simpl concat. rewrite length_app, length_map. f_equal.
  apply (IH (λ i, f (S i))).
Qed.

(** ** Events *)

Section Events.
Context {BP BC Prog V1 : Type} `{btp : BonsaiTrie BP} `{btc : BonsaiTrie BC}.
Context `{Hlibs : !FeltLibsSpec libs} `{crypto : StarknetCrypto} `{pb : ParBridge}.
Context `{Hbv : !BoundsFromVecSpec bv} `{Hca : !ContractAddressesSpec ca} `{acc : TxAccessors}.
Context {B : Type} `{bt : BonsaiTrie B}.
Context `{gw : Gateway} `{dc : DigestCodecs Prog V1} {Hdc : DigestCodecsSpec dc} `{cfg : PalletConfig}.
Context {E S : Type} `{kv : KvStore E S} `{codecs : DbCodecs} `{hasher : HasherT}.
Context {Hkv : KvStoreSpec kv} {Hcodecs : DbCodecsSpec codecs}.
Variable bonsai_new : Outcome unit B.
Variable config_chain_id : option Z.
Variable seal_hash : Z → PalletState Prog V1 → DHashT.
Variable inherent_data : option bytes.
Variable header_hash : DHeaderT DigestItem → DHashT.
Variable cache : bool.
Variable db : S.
Variable cid : Z.
(** The Starknet block of the genesis. *)
Variable g : DeoxysBlock.

Abbreviation W := (World BP BC Prog V1).
Abbreviation convert_block := (convert.convert_block_sync bonsai_new config_chain_id).
Abbreviation runs := (run (BP := BP) (BC := BC) bonsai_new config_chain_id seal_hash inherent_data).

(** The receipts of a confirmed block: one for each transaction. *)
Definition receipts_match (b : p.Block) : Prop :=
  length (p.transaction_receipts b) = length (p.transactions b) ∧
  Z.of_nat (length (p.transaction_receipts b ≫= p.events)) ≤ 2 ^ 63.

(** The events of the sequencer's block: those of each receipt in order, with the
    hash of the receipt's transaction, and the hash and number of the block. *)
Definition sequencer_events (cb : DeoxysBlock * p.Block) : list EmittedEvent :=
  concat (imap (λ i r,
    map (λ e, emit (Some (block_hash_of cb.1)) (p.block_number cb.2)
                (tx_hashes_of cid cb.1 !!! i, plain_event e)) (p.events r))
    (p.transaction_receipts cb.2)).

Lemma sequencer_events_length conv b :
  length (sequencer_events (conv, b)) = length (p.transaction_receipts b ≫= p.events).
Proof. apply (length_concat_imap (λ i _ e, emit _ _ (tx_hashes_of cid conv !!! i, plain_event e))). Qed.

Lemma converted_events b conv :
  wf_p_block b → receipts_match b → convert_block b = Ok conv →
  Forall (λ oe, 0 ≤ oe_index oe < Z.of_nat (length (transactions conv))) (events conv) ∧
  concat (map (λ oe, map (λ e, emit (Some (block_hash_of conv)) (Some (block_number (header conv)))
                                 (tx_hashes_of cid conv !!! Z.to_nat (oe_index oe), e)) (oe_events oe)) (events conv))
  = sequencer_events (conv, b).
Proof.
  intros Wb [Hlen _] Hconv.
  destruct (convert_block_Ok _ _ _ _ Wb Hconv)
    as (txs & oes & num & root & ctx & cev & Heq & Htxs & _ & Hnum & _ & _ & Hoes).
  rewrite ordered_events_numbered in Hoes.
  destruct (ordered_events_map (λ i e, emit (Some (block_hash_of conv)) (Some num) (tx_hashes_of cid conv !!! i, e))
    0 _ _ _ (events_convert _ (wfb_events _ Wb)) Hoes) as (Hb & gs & Hgs & Hc).
  rewrite (mapM_Ok_map _ (λ r, map plain_event (p.events r))) in Hgs; cycle 1.
  { eapply Forall_impl; [exact (wfb_events _ Wb)|]. intros r Hr. apply mapM_Ok_map.
    eapply Forall_impl; [exact Hr|]. apply event_id. }
  injection Hgs as <-. split.
  - rewrite Heq. simpl. eapply Forall_impl; [exact Hb|]. simpl. intros oe.
    apply mapM_Ok_Forall2, Forall2_length in Htxs. lia.
  - unfold sequencer_events. cbn [fst snd]. rewrite Hnum.
    assert (block_number (header conv) = num ∧ events conv = oes) as [-> ->] by by rewrite Heq.
    rewrite Hc. f_equal. rewrite imap_fmap. apply imap_ext. intros i r _. simpl. by rewrite map_map.
Qed.

(** The events of an imported block, asked for by its number. *)
Lemma synced_block_events verify n (w : W) bs n' w' i b conv a pending :
  inherent_ok inherent_data → 1 ≤ n → Synced n w → Forall has_hash bs → runs verify (n, w) bs (n', w') →
  NoDup (w_chain w').*1 → bs !! i = Some b → wf_p_block b → receipts_match b → n + Z.of_nat i ≤ u32_max →
  refines (contents db) a → convert_block b = Ok conv → is_felt (block_hash_of conv) → cache_ok cid a conv →
  block_events (client := world_client w' g header_hash cid) (chain := world_backend w')
    cache db pending (Some cid) (BlockId_Number (n + Z.of_nat i)) = Ok (sequencer_events (conv, b)).
Proof.
  intros Hinh Hn1 HS Hbs Hr Hnd Hi Wb Hm Hle R Hconv Hf Hc.
  destruct (runs_imports _ _ _ _ _ _ _ _ Hr Hinh HS Hbs i b Hi) as (h & st & conv' & Hat & Hconv' & Hfind & _).
  rewrite Hconv in Hconv'. injection Hconv' as <-. cbn [fst snd] in Hat.
  destruct (converted_events b conv Wb Hm Hconv) as [Hidx <-].
  replace (n + Z.of_nat i) with (Z.of_nat (Datatypes.S (pred (Z.to_nat n) + i))) in * by lia.
  replace (Z.to_nat n + i)%nat with (Datatypes.S (pred (Z.to_nat n) + i)) in Hat by lia.
  apply (block_events_faithful (client := world_client w' g header_hash cid) (chain := world_backend w')
    cache db pending cid a h conv); try done.
  - cbn [client_hash world_backend]. unfold saturated_u32. by rewrite Z.min_l, Nat2Z.id, Hat.
  - by eapply world_serves.
  - destruct (convert_block_Ok _ _ _ _ Wb Hconv) as (txs & oes & num & root & ctx & cev & -> & _ & Hwr & Hnum & _).
    split; [by apply converted_header_wf|]. simpl. eapply Forall_impl; [exact Hwr|by intros ? []].
Qed.

(** The number of the best block. *)
Lemma synced_latest verify n (w : W) bs n' w' b latest :
  inherent_ok inherent_data → 1 ≤ n → Synced n w → Forall has_hash bs → runs verify (n, w) bs (n', w') →
  NoDup (w_chain w').*1 → last bs = Some b → wf_p_block b → p.block_number b = Some latest →
  block_number_from_starknet_block (client := world_client w' g header_hash cid) (chain := world_backend w')
    db (BlockId_Tag Latest) = Ok latest.
Proof.
  intros Hinh Hn1 HS Hbs Hr Hnd Hl Wb Hnum. rewrite last_lookup in Hl.
  destruct (run_frame _ _ _ _ _ _ _ _ Hr Hinh HS Hbs) as (HS' & Hn' & _). cbn [fst snd] in *.
  pose proof (synced_height _ _ HS') as Hlen. pose proof (lookup_lt_Some _ _ _ Hl).
  destruct (runs_imports _ _ _ _ _ _ _ _ Hr Hinh HS Hbs _ b Hl) as (h & st & conv & Hat & Hconv & Hfind & _).
  cbn [fst snd] in Hat. replace (Z.to_nat n + pred (length bs))%nat with (pred (length (w_chain w'))) in Hat by lia.
  assert (best_hash_of w' = h) as Hbest by (unfold best_hash_of; by rewrite last_lookup, Hat).
  unfold block_number_from_starknet_block, substrate_block_hash_from_starknet_block.
  cbn [best_hash world_backend ok_or mbind Outcome_bind]. rewrite Hbest, (get_block_served h conv); cycle 1.
  { replace (pred (length (w_chain w'))) with (Datatypes.S (pred (pred (length (w_chain w'))))) in Hat by lia.
    by eapply world_serves. }
  destruct (convert_block_Ok _ _ _ _ Wb Hconv) as (txs & oes & num & root & ctx & cev & -> & _ & _ & Hnum' & _).
  simpl. congruence.
Qed.

(** The identifiers of the last block of a query. *)
Definition names (latest to : Z) (id : BlockId) : Prop :=
  id = BlockId_Number to ∨ id = BlockId_Tag Latest ∧ to = latest.

(** C5: From the receipts of the sequencer to the pages of a client: once a node has
    imported blocks, whatever the interleaving with its other tasks, a client that
    follows the continuation tokens of a query over imported blocks receives
    exactly the matching events of the sequencer's receipts, each once, in the order of
    blocks, transactions and events, with the hash of its transaction and the hash and
    number of its block, provided the blocks have a receipt for each transaction
    and the hashes cached for them, if any, are right. *)
Theorem synced_events_served verify n (w : W) bs n' w' a pending f from to to_id b latest :
  inherent_ok inherent_data → 1 ≤ n → Synced n w → Forall has_hash bs → Forall wf_p_block bs →
  Forall receipts_match bs → runs verify (n, w) bs (n', w') → NoDup (w_chain w').*1 → refines (contents db) a →
  last bs = Some b → p.block_number b = Some latest →
  f_from_block f = Some (BlockId_Number from) → f_to_block f = Some to_id → names latest to to_id →
  n ≤ from ≤ to → to < n' → to ≤ latest → to ≤ u32_max →
  1 ≤ f_chunk_size f ≤ MAX_EVENTS_CHUNK_SIZE → (length (default [] (f_keys f)) ≤ MAX_EVENTS_KEYS)%nat →
  ∃ convs, mapM convert_block bs = Ok convs ∧
    let asked := take (Z.to_nat (to + 1 - from)) (drop (Z.to_nat (from - n)) (zip convs bs)) in
    let all := filter (λ e, event_match_filter e (f_address f) (default [] (f_keys f)) = true)
                 (asked ≫= sequencer_events) in
    (Forall (λ conv, is_felt (block_hash_of conv) ∧ cache_ok cid a conv) convs →
     collect (src := node_block_source (client := world_client w' g header_hash cid) (chain := world_backend w')
                       cache db pending (Some cid))
       (1 + length all / Z.to_nat (f_chunk_size f)) f None = Ok all).
Proof.
  intros Hinh Hn1 HS Hbs Hwf Hrm Hr Hnd R Hl Hnum Hfrom Hto Hid Hft Htn Htl Htu Hchunk Hkeys.
  destruct (run_frame _ _ _ _ _ _ _ _ Hr Hinh HS Hbs) as (HS' & Hn' & _). cbn [fst snd] in HS', Hn'.
  destruct (mapM_is_ok convert_block bs) as [convs Hconvs].
  { apply Forall_lookup. intros i b' Hi.
    by destruct (runs_imports _ _ _ _ _ _ _ _ Hr Hinh HS Hbs i b' Hi) as (? & ? & ? & _ & -> & _). }
  exists convs. split; [done|]. intros asked all Hc. apply mapM_Ok_Forall2 in Hconvs.
  pose proof (Forall2_length _ _ _ Hconvs) as Hlen.
  set (events_at k := default [] (sequencer_events <$> zip convs bs !! Z.to_nat (k - n))).
  assert (all = seqZ from (to + 1 - from) ≫= matching (f_address f) (default [] (f_keys f)) events_at) as ->.
  { unfold all, asked. rewrite <- filter_bind, <- (bind_slice _ _ n) by (rewrite ?length_zip; lia).
    rewrite Z2Nat.id by lia. apply list_bind_ext; [|done]. intros k. unfold matching, events_at.
    by destruct (zip convs bs !! _). }
  apply (pages_complete (src := node_block_source _ _ _ _) f from to latest); try done; [|unfold u32_max in Htu; unfold u64_max; lia| |].
  - unfold block_range, block_number_of.
    cbn [substrate_block_number_from_starknet_block node_block_source].
    assert (wf_p_block b) as Wb by (rewrite last_lookup in Hl; by eapply Forall_lookup_1).
    pose proof (synced_latest verify n w bs n' w' b latest Hinh Hn1 HS Hbs Hr Hnd Hl Wb Hnum) as Hlatest.
    rewrite Hfrom, Hto. destruct Hid as [-> |[-> ->]]; cbn [is_pending default id map_err mbind Outcome_bind];
      by rewrite !Hlatest.
  - intros k Hk. rewrite (proj2 (Z.leb_le _ _)) by lia. cbn [get_block_events node_block_source].
    destruct (lookup_lt_is_Some_2 bs (Z.to_nat (k - n))) as [b' Hb]; [lia|].
    destruct (Forall2_lookup_l _ _ _ _ _ Hconvs Hb) as (conv & Hconv & Hcb).
    destruct (Forall_lookup_1 _ _ _ _ Hc Hconv) as [Hf Hca'].
    unfold events_at. rewrite (proj2 (lookup_zip_Some _ _ _ conv b') (conj Hconv Hb)). simpl default.
    replace k with (n + Z.of_nat (Z.to_nat (k - n))) at 1 by lia.
    eapply synced_block_events; try done; [by eapply Forall_lookup_1..|lia].
  - intros k. unfold events_at. destruct (zip convs bs !! _) as [[conv b']|] eqn:Hz; [|simpl; lia].
    apply lookup_zip_Some in Hz as [_ Hb]. simpl default. rewrite sequencer_events_length.
    by destruct (Forall_lookup_1 _ _ _ _ Hrm Hb).
Qed.

End Events.

(** ** Contract state

    The abstract contract state of Starknet, and what an update of the sequencer
    does to it: deployments, then replacements of classes, the nonces, the compiled
    classes, and the classes fetched with the update. *)

Record ContractState (Prog V1 : Type) := {
  cs_class_hashes : gmap Z Z;
  cs_nonces : gmap Z Z;
  cs_compiled_class_hashes : gmap Z Z;
  cs_classes : gmap Z (ContractClass Prog V1);
  cs_abis : gmap Z ContractAbi;
}.
Arguments cs_class_hashes {Prog V1}. Arguments cs_nonces {Prog V1}. Arguments cs_compiled_class_hashes {Prog V1}.
Arguments cs_classes {Prog V1}. Arguments cs_abis {Prog V1}.

Section State.
Context {BP BC Prog V1 : Type} `{btp : BonsaiTrie BP} `{btc : BonsaiTrie BC}.
Context `{Hlibs : !FeltLibsSpec libs} `{crypto : StarknetCrypto} `{pb : ParBridge}.
Context `{bv : BoundsFromVec} `{ca : ContractAddresses} `{acc : TxAccessors}.
Context {B : Type} `{bt : BonsaiTrie B}.
Context `{gw : Gateway} `{dc : DigestCodecs Prog V1} {Hdc : DigestCodecsSpec dc} `{cfg : PalletConfig}.
Context {E E3 S : Type} `{kv : KvStore E S} `{codecs : DbCodecs}.
Context {Abi LProg Info : Type} `{cl : ClassLibs Abi LProg Prog V1 Info} `{pc : ProgramCodec Prog}.
Context `{sc : StorageCodecs Prog V1} {Hsc : StorageCodecsSpec sc} `{sp : StorageProvider E3 Prog V1}.
Variable bonsai_new : Outcome unit B.
Variable config_chain_id : option Z.
Variable seal_hash : Z → PalletState Prog V1 → DHashT.
Variable inherent_data : option bytes.
Variable compiler_version : option string.
Variable db : S.

Abbreviation W := (World BP BC Prog V1).
Abbreviation Fetched := (p.Block * Provider.StateUpdate * list (ContractClassData Prog V1))%type.
Abbreviation runs := (run_fetched (BP := BP) (BC := BC) bonsai_new config_chain_id seal_hash inherent_data).

Definition contract_state (st : PalletState Prog V1) : ContractState Prog V1 := {|
  cs_class_hashes := ContractClassHashes st;
  cs_nonces := Nonces st;
  cs_compiled_class_hashes := CompiledClassHashes st;
  cs_classes := ContractClasses st;
  cs_abis := ContractAbis st;
|}.

(** Later entries win over earlier ones, all over the state before. *)
Definition apply_update (cs : ContractState Prog V1) (f : Fetched) : ContractState Prog V1 :=
  let '(_, update, classes) := f in
  let diff := Provider.state_diff update in
  let written {V} (entries : list (Z * V)) (m : gmap Z V) := list_to_map (reverse entries) ∪ m in
  {| cs_class_hashes :=
       written (map (λ c, (Provider.address c, Provider.class_hash c))
                  (Provider.deployed_contracts diff ++ Provider.replaced_classes diff)) (cs_class_hashes cs);
     cs_nonces := Provider.nonces diff ∪ cs_nonces cs;
     cs_compiled_class_hashes :=
       written (map (λ c, (Provider.decl_class_hash c, Provider.compiled_class_hash c)) (Provider.declared_classes diff))
         (cs_compiled_class_hashes cs);
     cs_classes := written (map (λ c, (ccd_hash c, ccw_contract (ccd_contract_class c))) classes) (cs_classes cs);
     cs_abis := written (map (λ c, (ccd_hash c, ccw_abi (ccd_contract_class c))) classes) (cs_abis cs) |}.

(** One import simulates one step of the abstract state. *)
Lemma imported_state st n a conv h b su classes :
  contract_state (imported st n a conv h (StateUpdateWrapper_from su) {| class_updates := classes |}) =
  apply_update (contract_state st) (b, su, classes).
Proof.
  unfold contract_state, imported, apply_update. simpl. f_equal; rewrite insert_all_override.
  - by rewrite <- map_app, map_map.
  - f_equal. rewrite (list_to_map_proper _ (map_to_list (Provider.nonces (Provider.state_diff su)))).
    + apply list_to_map_to_list.
    + rewrite (reverse_Permutation (map_to_list _)). apply NoDup_fst_map_to_list.
    + apply reverse_Permutation.
  - by rewrite map_map.
  - done.
  - done.
Qed.

(** The state of every imported block is the fold of the updates so far. *)
Lemma runs_state verify x fs y h0 st0 :
  runs verify x fs y → inherent_ok inherent_data → Synced x.1 x.2 → Forall has_hash (map fetched_block fs) →
  last (w_chain x.2) = Some (h0, st0) →
  ∀ i, (i < length fs)%nat → ∃ h st, w_chain y.2 !! (Z.to_nat x.1 + i)%nat = Some (h, st) ∧
    contract_state st = foldl apply_update (contract_state st0) (take (Datatypes.S i) fs).
Proof.
  intros H Hinh. revert h0 st0.
  induction H as [n w|n w u fs y _ IH|n w att s fs y Hs _ IH|n w [[b su] cs] w' fs y Ha Hr IH];
    cbn [fst snd map] in *; intros h0 st0 HS Hbs Hl i Hi.
  - simpl in Hi. lia.
  - apply (IH h0 st0); try done. destruct HS. by split.
  - apply (IH h0 st0); try done. destruct HS. split; try done. simpl. unfold update_starknet_data in Hs. ok_inv.
    case_match. by ok_inv.
  - apply Forall_cons in Hbs as [Hb Hbs].
    destruct (apply_value_import _ _ _ _ _ _ _ _ _ _ _ Hinh HS Hb Ha)
      as (HS' & h1 & st1 & h & st & conv & Hlast & Hch & _ & _ & _ & _ & hb & Hst).
    rewrite Hl in Hlast. injection Hlast as <- <-.
    pose proof (synced_height _ _ HS) as Hheight. pose proof (imported_state st0 n (be_decode
      (default pallet.DEFAULT_SEQUENCER_ADDRESS inherent_data)) conv hb b su cs) as Hsim. rewrite <- Hst in Hsim.
    destruct i as [|i].
    + exists h, st. rewrite Nat.add_0_r. split; [|exact Hsim].
      destruct (run_frame _ _ _ _ _ _ _ _ (ex_intro _ fs (conj eq_refl Hr)) Hinh HS' Hbs) as (_ & _ & Hpre & _).
      eapply prefix_lookup_Some; [|exact Hpre]. cbn [snd]. rewrite Hch, lookup_app_r by lia.
      by replace (Z.to_nat n - length (w_chain w))%nat with 0%nat by lia.
    + destruct (IH h st HS' Hbs) with (i := i) as (h' & st' & Hat & Hst'); [by rewrite Hch, last_snoc|simpl in Hi; lia|].
      exists h', st'. replace (Z.to_nat n + Datatypes.S i)%nat with (Z.to_nat (n + 1) + i)%nat by lia.
      split; [done|]. rewrite Hst'. cbn [take foldl]. by rewrite Hsim.
Qed.

(** The readings of an imported block. *)
Lemma synced_reads verify n (w : W) fs n' w' h0 st0 i a c :
  inherent_ok inherent_data → 1 ≤ n → Synced n w → Forall has_hash (map fetched_block fs) →
  runs verify (n, w) fs (n', w') → last (w_chain w) = Some (h0, st0) →
  (∀ k h st, w_chain w' !! k = Some (h, st) → Layout h st) →
  (i < length fs)%nat → n + Z.of_nat i ≤ u32_max →
  let cs := foldl apply_update (contract_state st0) (take (Datatypes.S i) fs) in
  let id := BlockId_Number (n + Z.of_nat i) in
  let served (e : StarknetRpcApiError) (c : Z) : Outcome RpcError rpc.ContractClass :=
    match cs_classes cs !! c, cs_abis cs !! c with
    | Some contract, Some abi => rpc_class compiler_version contract abi
    | _, _ => Err (Rpc_Api e)
    end in
  get_class (chain := world_backend w') db compiler_version id c = served ClassHashNotFound c ∧
  match cs_class_hashes cs !! a with
  | Some hash =>
      get_class_hash_at (chain := world_backend w') db id a = Ok hash ∧
      get_nonce (chain := world_backend w') db id a = Ok (default 0 (cs_nonces cs !! a)) ∧
      get_class_at (chain := world_backend w') db compiler_version id a = served ContractNotFound hash
  | None =>
      get_class_hash_at (chain := world_backend w') db id a = Err (Rpc_Api ContractNotFound) ∧
      get_nonce (chain := world_backend w') db id a = Err (Rpc_Api ContractNotFound) ∧
      get_class_at (chain := world_backend w') db compiler_version id a = Err (Rpc_Api ContractNotFound)
  end.
Proof.
  intros Hinh Hn1 HS Hbs Hr Hl HL Hi Hle cs id served.
  destruct (runs_state _ _ _ _ _ _ Hr Hinh HS Hbs Hl i Hi) as (h & st & Hat & Hst). cbn [fst snd] in Hat.
  destruct (run_frame _ _ _ _ _ _ _ _ (ex_intro _ fs (conj eq_refl Hr)) Hinh HS Hbs) as (HS' & _).
  pose proof (synced_chain _ _ HS' _ _ _ Hat) as HC.
  assert (substrate_block_hash_from_starknet_block (chain := world_backend w') db id = Ok h) as Hid.
  { unfold id. replace (n + Z.of_nat i) with (Z.of_nat (Z.to_nat n + i)) in * by lia. by eapply world_lookup. }
  pose proof (state_reads (chain := world_backend w') db compiler_version _ st h id a c HC (HL _ _ _ Hat) Hid) as Hreads.
  fold cs in Hst. unfold served. clearbody cs. subst cs. exact Hreads.
Qed.

(** C2: From the state differences of the sequencer to the readings of a client: the class
    hash, nonce and class of a contract and the class of a class hash, asked for at
    any imported block, are those of the contract state before the imports with the
    updates of the sequencer up to that block applied in order; blocks imported later
    change nothing for earlier ones. *)
Theorem synced_state_served verify n (w : W) fs n' w' h0 st0 i a c :
  inherent_ok inherent_data → 1 ≤ n → Synced n w → Forall has_hash (map fetched_block fs) →
  runs verify (n, w) fs (n', w') → last (w_chain w) = Some (h0, st0) →
  (∀ k h st, w_chain w' !! k = Some (h, st) → Layout h st) →
  (i < length fs)%nat → n + Z.of_nat i ≤ u32_max →
  let cs := foldl apply_update (contract_state st0) (take (Datatypes.S i) fs) in
  let id := BlockId_Number (n + Z.of_nat i) in
  let served (e : StarknetRpcApiError) (c : Z) : Outcome RpcError rpc.ContractClass :=
    match cs_classes cs !! c, cs_abis cs !! c with
    | Some contract, Some abi => rpc_class compiler_version contract abi
    | _, _ => Err (Rpc_Api e)
    end in
  get_class (chain := world_backend w') db compiler_version id c = served ClassHashNotFound c ∧
  match cs_class_hashes cs !! a with
  | Some hash =>
      get_class_hash_at (chain := world_backend w') db id a = Ok hash ∧
      get_nonce (chain := world_backend w') db id a = Ok (default 0 (cs_nonces cs !! a)) ∧
      get_class_at (chain := world_backend w') db compiler_version id a = served ContractNotFound hash
  | None =>
      get_class_hash_at (chain := world_backend w') db id a = Err (Rpc_Api ContractNotFound) ∧
      get_nonce (chain := world_backend w') db id a = Err (Rpc_Api ContractNotFound) ∧
      get_class_at (chain := world_backend w') db compiler_version id a = Err (Rpc_Api ContractNotFound)
  end.
Proof. apply synced_reads. Qed.
End State.

(** ** Witness: two imported blocks, their events asked for one at a time *)

Definition event_block (n h k : Z) : p.Block := {|
  p.transactions := [present (Tx_Invoke (Invoke_V1 example_invoke))];
  p.transaction_receipts := [{| p.events := [{| p.from_address := 7; p.keys := [k]; p.data := [n] |};
                                             {| p.from_address := 8; p.keys := [k]; p.data := [] |}] |}];
  p.parent_block_hash := 1; p.block_number := Some n; p.timestamp := 5; p.state_root := Some 6;
  p.sequencer_address := None; p.starknet_version := Some (bytes_of_string "0.13.1");
  p.l1_gas_price := {| p.price_in_fri := 0; p.price_in_wei := 8 |};
  p.l1_data_gas_price := {| p.price_in_fri := 0; p.price_in_wei := 0 |};
  p.l1_da_mode := p.Blob; p.block_hash := Some h |}.
Definition event_blocks : list p.Block := [event_block 1 12 3; event_block 2 13 4].
Definition event_values : list (Outcome L2SyncError (p.Block * Provider.StateUpdate * list (ContractClassData unit unit))) :=
  map (λ b, Ok (b, example_su, [])) event_blocks.

Lemma event_block_wf n h k : is_u64 n → is_felt h → is_felt k → is_felt n → wf_p_block (event_block n h k).
Proof.
  intros Hn Hh Hk Hf. split; unfold opt_ok; simpl; try (by intros ? [= <-]); try done.
  - apply Forall_singleton. simpl. unfold opt_ok.
    split_and!; try done; try (by repeat constructor); by intros ? [= <-].
  - repeat (constructor; simpl; try done).
  - intros ? [= <-]. by repeat constructor.
Qed.

Lemma event_blocks_ok : Forall has_hash event_blocks ∧ Forall wf_p_block event_blocks ∧ Forall receipts_match event_blocks.
Proof.
  split_and!; (apply Forall_cons; split; [|apply Forall_singleton]).
  - by exists 12.
  - by exists 13.
  - by apply event_block_wf.
  - by apply event_block_wf.
  - split; [reflexivity|]. by vm_compute.
  - split; [reflexivity|]. by vm_compute.
Qed.

Abbreviation events_model := (apply_loop (btp := trie_model) (btc := trie_model) (crypto := crypto_small)
  (pb := par_model) (bv := bounds_model) (ca := address_model) (acc := accessors_model) (bt := trie_model)
  (dc := unit_codecs) (Ok trie_empty) (Some 77) (λ n _, DHash (10 + n)) None false 1 event_values world0).

Lemma events_model_hashes : (λ w, (w_chain w).*1) <$> events_model = Ok [DHash 1; DHash 11; DHash 12].
Proof. vm_compute. reflexivity. Qed.

Definition events_filter : EventFilterWithPage :=
  {| f_from_block := Some (BlockId_Number 1); f_to_block := Some (BlockId_Tag Latest); f_address := Some 7;
     f_keys := None; f_continuation_token := None; f_chunk_size := 1 |}.

Lemma events_model_converted : ∃ c1 c2, mapM convert_model event_blocks = Ok [c1; c2] ∧
  Forall (λ c, is_felt (block_hash_of (hasher := @PedersenHasher _ crypto_small) c)) [c1; c2].
Proof. do 2 eexists. split; [vm_compute; reflexivity|]. apply (bool_decide_unpack _). vm_compute. reflexivity. Qed.

Lemma synced_events_served_witness : ∃ w' e1 e2,
  events_model = Ok w' ∧
  collect (src := node_block_source (kv := kv_model) (codecs := codecs_model) (items := digest_items (dc := unit_codecs))
    (client := world_client (dc := unit_codecs) w' genesis_model (λ _, DHash 0) 77) (chain := world_backend w')
    (crypto := crypto_small) (ca := address_model) (hasher := @PedersenHasher _ crypto_small) true ∅ None (Some 77))
    3 events_filter None = Ok [e1; e2] ∧
  ee_keys e1 = [3] ∧ ee_block_number e1 = Some 1 ∧ ee_keys e2 = [4] ∧ ee_block_number e2 = Some 2.
Proof.
  pose proof events_model_hashes as Hh. destruct events_model as [w'| |] eqn:E; try discriminate Hh.
  injection Hh as Hh. exists w'. destruct event_blocks_ok as (H1 & H2 & H3).
  destruct (synced_events_served (btp := trie_model) (btc := trie_model) (crypto := crypto_small)
    (pb := par_model) (Hbv := bounds_model_spec) (Hca := address_model_spec) (acc := accessors_model) (bt := trie_model)
    (gw := gateway_model) (dc := unit_codecs) (Hdc := unit_codecs_spec) (kv := kv_model) (codecs := codecs_model)
    (hasher := @PedersenHasher _ crypto_small) (Hkv := kv_model_spec) (Ok trie_empty) (Some 77)
    (λ n _, DHash (10 + n)) None (λ _, DHash 0) true ∅ 77 genesis_model false 1 world0 event_blocks 3 w'
    abs_empty None events_filter 1 2 (BlockId_Tag Latest) (event_block 2 13 4) 2 default_inherent_ok (Z.le_refl 1)
    world0_synced H1 H2 H3 (apply_loop_runs (gw := gateway_model) _ _ _ _ false 1 event_values world0 w' E))
    as (convs & Hconvs & H).
  - rewrite Hh. apply (bool_decide_unpack _). vm_compute. reflexivity.
  - apply refines_empty.
  - reflexivity.
  - reflexivity.
  - reflexivity.
  - reflexivity.
  - right. split; reflexivity.
  - lia.
  - lia.
  - lia.
  - vm_compute. discriminate.
  - vm_compute. split; discriminate.
  - simpl. unfold MAX_EVENTS_KEYS. lia.
  - clear E Hh. destruct events_model_converted as (c1 & c2 & Hc & Hf). rewrite Hc in Hconvs. injection Hconvs as <-.
    do 2 eexists. split; [reflexivity|]. split; [apply H|].
    + eapply Forall_impl; [exact Hf|]. intros c Hfc. split; [exact Hfc|]. intros l Hl. vm_compute in Hl. discriminate Hl.
    + split_and!; reflexivity.
Defined.

(** ** Witness: the contract state of two imported blocks *)

(** The first block deploys contract 10 of class 20, the second replaces its class
    and sets its nonce. *)
Definition second_su : Provider.StateUpdate := {|
  Provider.block_hash := Some 51; Provider.new_root := Some 61; Provider.old_root := 60;
  Provider.state_diff := {| Provider.storage_diffs := ∅; Provider.deployed_contracts := [];
    Provider.old_declared_contracts := []; Provider.declared_classes := [];
    Provider.nonces := {[10 := 4]};
    Provider.replaced_classes := [{| Provider.address := 10; Provider.class_hash := 21 |}] |} |}.
Definition state_fetched : list (p.Block * Provider.StateUpdate * list (ContractClassData unit unit)) :=
  [(event_block 1 12 3, example_su, []); (event_block 2 13 4, second_su, [])].

(** Programs are of no account here. *)
Definition unit_program : ProgramCodec unit := {| gz_finish b := Some b; Program_serialize _ := Some [] |}.

Abbreviation state_model := (apply_loop (btp := trie_model) (btc := trie_model) (crypto := crypto_small)
  (pb := par_model) (bv := bounds_model) (ca := address_model) (acc := accessors_model) (bt := trie_model)
  (dc := unit_codecs) (Ok trie_empty) (Some 77) (λ n _, DHash (10 + n)) None false 1 (map Ok state_fetched) world0).

(** The storage of the node: that of the block asked for. *)
Definition world_provider (w : World TrieModel TrieModel unit unit) : StorageProvider unit unit unit := {|
  client_storage h key :=
    st ← ok_or tt (chain_state (w_chain w) h); client_storage (StorageProvider := provider_model st) h key;
  runtime_state h := ok_or tt (chain_state (w_chain w) h);
|}.

Lemma chain_state_at {Prog V1} (l : list (DHashT * PalletState Prog V1)) k h st :
  NoDup l.*1 → l !! k = Some (h, st) → chain_state l h = Some st.
Proof.
  revert k. induction l as [|[h' st'] l IH]; intros k Hnd Hk; [done|].
  apply NoDup_cons in Hnd as [Hni Hnd]. cbn [chain_state]. destruct k as [|k].
  - injection Hk as -> ->. by rewrite decide_True.
  - rewrite decide_False by (intros ->; apply Hni, (list_elem_of_fmap_2 fst l (h, st)), (list_elem_of_lookup_2 _ k), Hk).
    by apply (IH k).
Qed.

Lemma world_provider_layout w k h st :
  NoDup (w_chain w).*1 → w_chain w !! k = Some (h, st) →
  Layout (sc := storage_codecs_model) (sp := world_provider w) h st.
Proof.
  intros Hnd Hk. pose proof (chain_state_at _ _ _ _ Hnd Hk) as Hc. destruct (provider_model_layout st h) as [].
  split; intros; cbn [client_storage runtime_state world_provider]; rewrite Hc; cbn [ok_or mbind Outcome_bind]; auto.
Qed.

Lemma state_model_hashes : (λ w, (w_chain w).*1) <$> state_model = Ok [DHash 1; DHash 11; DHash 12].
Proof. vm_compute. reflexivity. Qed.

Lemma state_after_model :
  let cs k := foldl apply_update (contract_state example_genesis) (take k state_fetched) in
  cs_class_hashes (cs 1%nat) !! 10 = Some 20 ∧ cs_class_hashes (cs 2%nat) !! 10 = Some 21 ∧
  cs_nonces (cs 2%nat) !! 10 = Some 4.
Proof. vm_compute. done. Qed.

Lemma synced_state_served_witness : ∃ w',
  state_model = Ok w' ∧
  (let read {A} (f : ∀ (chain : ChainBackend unit) (sp : StorageProvider unit unit unit), BlockId → Z → A) k :=
     f (world_backend w') (world_provider w') (BlockId_Number k) 10 in
   let class_hash chain sp := get_class_hash_at (kv := kv_model) (codecs := codecs_model) (chain := chain)
                                (sc := storage_codecs_model) (sp := sp) ∅ in
   let nonce chain sp := get_nonce (kv := kv_model) (codecs := codecs_model) (chain := chain)
                                (sc := storage_codecs_model) (sp := sp) ∅ in
   read class_hash 1 = Ok 20 ∧ read nonce 1 = Ok 0 ∧ read class_hash 2 = Ok 21 ∧ read nonce 2 = Ok 4).
Proof.
  pose proof state_model_hashes as Hh. destruct state_model as [w'| |] eqn:E; try discriminate Hh.
  injection Hh as Hh. exists w'. split; [reflexivity|].
  assert (NoDup (w_chain w').*1) as Hnd by (rewrite Hh; apply (bool_decide_unpack _); vm_compute; reflexivity).
  pose proof (λ i,
    synced_state_served (btp := trie_model) (btc := trie_model) (crypto := crypto_small)
    (pb := par_model) (bv := bounds_model) (ca := address_model) (acc := accessors_model) (bt := trie_model)
    (gw := gateway_model) (dc := unit_codecs) (Hdc := unit_codecs_spec) (kv := kv_model) (codecs := codecs_model)
    (pc := unit_program) (sc := storage_codecs_model) (Hsc := storage_codecs_model_spec) (sp := world_provider w')
    (Ok trie_empty) (Some 77) (λ n _, DHash (10 + n)) None None ∅ false 1 world0 state_fetched 3 w'
    (DHash 1) example_genesis i 10 20 default_inherent_ok (Z.le_refl 1) world0_synced (proj1 event_blocks_ok)
    (apply_loop_fetched (gw := gateway_model) _ _ _ _ false 1 (map Ok state_fetched) world0 w' E) eq_refl
    (λ k h st, world_provider_layout w' k h st Hnd)) as H.
  destruct (H 0%nat) as [_ H0]; [simpl; lia|vm_compute; discriminate|].
  destruct (H 1%nat) as [_ H1]; [simpl; lia|vm_compute; discriminate|]. clear H E.
  destruct state_after_model as (HS1 & HS2 & _). rewrite HS1 in H0. rewrite HS2 in H1.
  destruct H0 as (H01 & H02 & _), H1 as (H11 & H12 & _). split; [exact H01|]. split; [exact H02|].
  split; [exact H11|exact H12].
Defined.
