(* ===== verification/EndToEndStorage.v ===== *)
(** * EndToEndStorage: contract storage and the tries of a verifying node

    A node that verifies the blocks it imports writes the state differences of the
    sequencer to the tries ([verify_l2] of [client/sync/src/l2.rs] through
    [Commitments]), and contract storage is served from them ([get_storage_at] of
    [RpcState]).  The abstract storage is a function of contract and key. *)

From S2P Require Import Prelude Felt Hashers Transactions TxHash CoreTx Broadcast Blocks Db Tries Commitments.
From S2P Require Import Convert MappingSync Fetch RpcEvents RpcClient CallInfo ContractClasses Pallet.
From S2P Require Import StateAdapter Simulations Codecs Overrides L1Sync L2Sync Traces RpcTrace RpcBlocks.
From S2P Require Import RpcState Genesis EndToEnd EndToEndQueries.

Lemma foldl_insert_all {A V} (f : A → Z) (h : A → V) (l : list A) (m : gmap Z V) :
  foldl (λ m x, <[f x := h x]> m) m l = insert_all (map (λ x, (f x, h x)) l) m.
Proof. revert m. induction l as [|x l IH]; intros m; [done|]. simpl. by rewrite IH, insert_all_cons. Qed.

(** ** The abstract storage *)

(** The entries of a contract in an update, later ones winning. *)
Definition diff_entries (l : list Provider.StorageDiff) : gmap Z Z :=
  list_to_map (reverse (map (λ d, (Provider.key d, Provider.value d)) l)).
Definition storage_entries (su : Provider.StateUpdate) (a : Z) : option (gmap Z Z) :=
  diff_entries <$> Provider.storage_diffs (Provider.state_diff su) !! a.

Definition apply_storage (s : Z → Z → Z) (su : Provider.StateUpdate) : Z → Z → Z :=
  λ a k, default (s a k) (m ← storage_entries su a; m !! k).

(** Addresses, storage keys and class hashes of an update are Patricia keys. *)
Definition patricia_update (su : Provider.StateUpdate) : Prop :=
  let diff := Provider.state_diff su in
  map_Forall (λ a l, patricia a ∧ Forall (λ d, patricia (Provider.key d)) l) (Provider.storage_diffs diff) ∧
  Forall (λ c, patricia (Provider.decl_class_hash c)) (Provider.declared_classes diff).

(** What the commitment's difference has of the storage of a contract. *)
Lemma csd_storage su a :
  storage_updates (build_commitment_state_diff (StateUpdateWrapper_from su)) !! a = storage_entries su a.
Proof.
  unfold storage_entries. simpl. set (m := Provider.storage_diffs _).
  rewrite (foldl_ext_list _ (λ m x, <[x.1 := foldl (λ sm d, <[sd_key d := sd_value d]> sm) ∅ x.2]> m)) by by intros ? [].
  rewrite foldl_insert_all, map_map, insert_all_override, map_union_empty.
  rewrite (list_to_map_proper _ (prod_map id diff_entries <$> map_to_list m)).
  - by rewrite list_to_map_fmap, list_to_map_to_list, lookup_fmap.
  - rewrite reverse_Permutation, map_map.
    replace (map _ (map_to_list m)) with (map_to_list m).*1; [apply NoDup_fst_map_to_list|].
    apply map_ext. by intros [].
  - rewrite reverse_Permutation. erewrite map_ext; [reflexivity|]. intros [a' l]. simpl. f_equal.
    rewrite foldl_insert_all, map_map, insert_all_override, map_union_empty. done.
Qed.

Lemma csd_wf su : patricia_update su → wf_csd (build_commitment_state_diff (StateUpdateWrapper_from su)).
Proof.
  intros [Hs Hc]. split.
  - intros a ups Ha. rewrite csd_storage in Ha. unfold storage_entries in Ha.
    destruct (Provider.storage_diffs _ !! a) as [l|] eqn:Hl; [|done]. injection Ha as <-.
    destruct (Hs a l Hl) as [Ha Hk]. split; [done|]. intros k v Hkv.
    apply elem_of_list_to_map_2, elem_of_reverse, list_elem_of_fmap in Hkv as (d & [= -> _] & Hd).
    exact (Forall_elem _ _ _ Hk Hd).
  - intros c v Hcv. simpl in Hcv. rewrite foldl_insert_all, map_map, insert_all_override, map_union_empty in Hcv.
    apply elem_of_list_to_map_2, elem_of_reverse, list_elem_of_fmap in Hcv as (d & [= -> _] & Hd).
    exact (Forall_elem _ _ _ Hc Hd).
Qed.

(** One write of distinct entries, seen as a function of Patricia keys. *)
Lemma written_step conv (entries : gmap Z Z) m m' (f : Z → Z) :
  (∀ x y, patricia x → patricia y → conv x = conv y → x = y) →
  (∀ k v, entries !! k = Some v → patricia k) → written conv (map_to_list entries) m m' →
  (∀ k, patricia k → m !! conv k = trie_val (f k)) →
  ∀ k, patricia k → m' !! conv k = trie_val (default (f k) (entries !! k)).
Proof.
  intros Hinj Hp [H1 H2] Hm k Hk. destruct (entries !! k) as [v|] eqn:He; simpl.
  - apply H1. by apply elem_of_map_to_list.
  - rewrite H2; [by apply Hm|]. intros k' v' Hin%elem_of_map_to_list Heq.
    apply Hinj in Heq; [|by eapply Hp|done]. congruence.
Qed.

Section Storage.
Context {BP BC Prog V1 : Type} `{btp : BonsaiTrie BP} `{btc : BonsaiTrie BC}.
Context {Hp : BonsaiTrieSpec btp} {Hc : BonsaiTrieSpec btc}.
Context `{Hlibs : !FeltLibsSpec libs} `{crypto : StarknetCrypto} `{Hpb : !ParBridgeSpec pb}.
Context `{bv : BoundsFromVec} `{ca : ContractAddresses} `{acc : TxAccessors}.
Context {B : Type} `{bt : BonsaiTrie B}.
Context `{gw : Gateway} `{dc : DigestCodecs Prog V1} `{cfg : PalletConfig}.
Variable bonsai_new : Outcome unit B.
Variable config_chain_id : option Z.
Variable seal_hash : Z → PalletState Prog V1 → DHashT.
Variable inherent_data : option bytes.

Abbreviation W := (World BP BC Prog V1).
Abbreviation Fetched := (p.Block * Provider.StateUpdate * list (ContractClassData Prog V1))%type.
Abbreviation runs := (run_fetched (BP := BP) (BC := BC) bonsai_new config_chain_id seal_hash inherent_data).

(** The leaves of the classes: the last compiled class hash declared, hashed with the
    version of the leaf. *)
Definition class_leaf (compiled : Z) : Z :=
  poseidon_hash (be_decode (bytes_of_string "CONTRACT_CLASS_LEAF_V0")) compiled.
Definition declared (su : Provider.StateUpdate) : gmap Z Z :=
  list_to_map (reverse (map (λ c, (Provider.decl_class_hash c, Provider.compiled_class_hash c))
                          (Provider.declared_classes (Provider.state_diff su)))).
Definition apply_classes (cls : Z → Z) (su : Provider.StateUpdate) : Z → Z :=
  λ c, default (cls c) (class_leaf <$> declared su !! c).

(** The tries hold the abstract storage and the leaves of the classes; 0 is an absent
    entry. *)
Record TriesHold (t : Tries BP BC) (s : Z → Z → Z) (cls : Z → Z) : Prop := {
  hold_storage a k : patricia a → patricia k →
    tree (Tries.t_storage t) (conv_contract_identifier a) !! conv_contract_storage_key k = trie_val (s a k);
  hold_classes c : patricia c → tree (t_class t) bonsai_identifier.CLASS !! conv_class_key c = trie_val (cls c);
}.

(** The state root of the contents of the tries. *)
Definition state_root_of (t : Tries BP BC) : Z :=
  let contracts := tree_root (t_contract t) bonsai_identifier.CONTRACT in
  let classes := tree_root (t_class t) bonsai_identifier.CLASS in
  if classes =? 0 then contracts
  else poseidon_hash_many [be_decode (bytes_of_string "STARKNET_STATE_V0"); contracts; classes].

Lemma class_leaves_declared su :
  class_leaves (build_commitment_state_diff (StateUpdateWrapper_from su)) ≡ₚ map_to_list (class_leaf <$> declared su).
Proof.
  unfold class_leaves, declared. simpl. rewrite foldl_insert_all, map_map, insert_all_override, map_union_empty.
  rewrite map_to_list_fmap. erewrite map_ext; [reflexivity|]. by intros [].
Qed.

Lemma storage_step csd bh su lookup (t t' : Tries BP BC) s :
  csd = build_commitment_state_diff (StateUpdateWrapper_from su) → patricia_update su →
  contracts_updated lookup csd bh t t' →
  (∀ a k, patricia a → patricia k →
    tree (Tries.t_storage t) (conv_contract_identifier a) !! conv_contract_storage_key k = trie_val (s a k)) →
  ∀ a k, patricia a → patricia k →
    tree (Tries.t_storage t') (conv_contract_identifier a) !! conv_contract_storage_key k = trie_val (apply_storage s su a k).
Proof.
  intros -> Hsu (U1 & U2 & _) Hs a k Ha Hk. destruct (csd_wf su Hsu) as [Hwf _]. unfold apply_storage.
  destruct (storage_entries su a) as [m|] eqn:Hm; rewrite <- csd_storage in Hm; simpl.
  - apply (written_step _ m (tree (Tries.t_storage t) (conv_contract_identifier a)) _ (s a)); auto.
    + intros x y Hx Hy. by apply (trie_keys_injective x y Hx Hy).
    + by apply (Hwf a m).
  - rewrite U2; [by apply Hs|]. intros a' [m' Hm'] Heq. destruct (Hwf a' m' Hm') as [Ha' _].
    apply identifier_inj in Heq; [congruence|done..].
Qed.

(** Verifying a block writes its update to the tries and records the root of what
    they hold. *)
Lemma verify_l2_holds (w w' : W) n su bh s cls :
  patricia_update su → verify_l2 w n su bh = Ok w' → TriesHold (w_tries w) s cls →
  TriesHold (w_tries w') (apply_storage s su) (apply_classes cls su) ∧
  l2_global_root (STARKNET_STATE_UPDATE (w_sync w')) = state_root_of (w_tries w').
Proof.
  intros Hsu Hv [Hs Hcls]. unfold verify_l2 in Hv.
  destruct (update_state_root _ _ _ _ _) as [[t root]| |] eqn:Hu; cbn [mbind Outcome_bind] in Hv; try discriminate.
  destruct (Provider.block_hash su); cbn [unwrap_opt mbind Outcome_bind] in Hv; try discriminate.
  injection Hv as <-. cbn [w_tries w_sync].
  destruct (state_root_updated _ _ _ _ _ _ _ (csd_wf su Hsu) Hu) as (U & Wc & Hroot). split; [|exact Hroot].
  rewrite class_leaves_declared in Wc. split.
  - by eapply storage_step.
  - intros c Hpc. unfold apply_classes. rewrite <- lookup_fmap.
    eapply written_step; [|..|exact Wc|exact Hcls|done].
    + intros x y Hx Hy. by apply (trie_keys_injective x y Hx Hy).
    + intros k v. rewrite lookup_fmap_Some. intros (h & _ & Hd).
      apply elem_of_list_to_map_2, elem_of_reverse, list_elem_of_fmap in Hd as (d & [= -> _] & Hd).
      destruct Hsu as [_ Hdecl]. exact (Forall_elem _ _ _ Hdecl Hd).
Qed.
Lemma apply_value_verified n f (w w' : W) :
  apply_value bonsai_new config_chain_id seal_hash inherent_data true n (Ok f) w = Ok (Some w') →
  ∃ w1 bh, verify_l2 w n f.1.2 bh = Ok w1 ∧ w_tries w' = w_tries w1 ∧ w_sync w' = w_sync w1.
Proof.
  destruct f as [[b su] cs]. unfold apply_value. destruct (n =? 0); [discriminate|]. cbn [mbind Outcome_bind fst snd].
  destruct (verify_l2 _ _ _ _) as [w1| |] eqn:Hv; cbn [mbind Outcome_bind]; try discriminate.
  destruct (convert.convert_block_sync _ _ b) as [conv| |]; cbn [mbind Outcome_bind]; try discriminate.
  unfold create_block, seal_new_block. destruct (pallet.create_digest _ _ _) as [[d|] [[bs us] cls]]; [|discriminate].
  cbn [ok_or mbind Outcome_bind]. destruct (last _) as [[h st]|]; [|discriminate]. cbn [ok_or mbind Outcome_bind].
  intros H. ok_inv. destruct (map_err _ _) as [w2| |] eqn:Hs; simplify_eq/=. exists w1, (chain_hash (w_chain w) (n - 1)).
  split; [done|]. by destruct (pallet.execute_block _ _ _ _); simplify_eq/=.
Qed.

(** The run, seen on the tries and the recorded root. *)
Lemma runs_hold x fs y s cls :
  runs true x fs y → Forall (λ f, patricia_update f.1.2) fs → TriesHold (w_tries x.2) s cls →
  TriesHold (w_tries y.2) (foldl apply_storage s (map (λ f, f.1.2) fs)) (foldl apply_classes cls (map (λ f, f.1.2) fs)) ∧
  (fs ≠ [] ∨ l2_global_root (STARKNET_STATE_UPDATE (w_sync x.2)) = state_root_of (w_tries x.2) →
   l2_global_root (STARKNET_STATE_UPDATE (w_sync y.2)) = state_root_of (w_tries y.2)).
Proof.
  intros H. revert s cls.
  induction H as [n w|n w u fs y _ IH|n w att st fs y Hs _ IH|n w f w' fs y Ha _ IH];
    cbn [fst snd map foldl] in *; intros s cls Hfs HT.
  - split; [done|]. by intros [|?].
  - apply (IH s cls Hfs HT).
  - destruct (IH s cls Hfs HT) as [HT' Hroot]. split; [done|]. intros [Hne|Hr]; apply Hroot; [by left|right].
    etransitivity; [|exact Hr]. cbn [w_sync with_sync]. unfold update_starknet_data in Hs. ok_inv. case_match. by ok_inv.
  - apply Forall_cons in Hfs as [Hf Hfs].
    destruct (apply_value_verified _ _ _ _ Ha) as (w1 & bh & Hv & Ht & Hsy).
    destruct (verify_l2_holds _ _ _ _ _ _ _ Hf Hv HT) as [HT1 Hr1]. rewrite <- Ht in HT1, Hr1. rewrite <- Hsy in Hr1.
    destruct (IH _ _ Hfs HT1) as [HT' Hroot]. split; [exact HT'|]. intros _. apply Hroot. by right.
Qed.

Context {E E2 S Item : Type} `{kv : KvStore E S} `{codecs : DbCodecs}.
Context `{items : DigestItems Item} `{client : SubstrateClient E2 Item} `{chain : ChainBackend E2}.
Variable db : S.

(** C6: A node that verifies what it imports holds in its tries exactly the storage that
    the state differences of the sequencer write, in order, over the storage before,
    and the leaves of the declared classes; the root it records is the state root of
    these tries.  Contract storage is served from them, whatever block is asked for:
    the value after the last import, and a value of 0 as a missing contract. *)
Theorem verified_storage_served n (w : W) fs n' w' s cls :
  runs true (n, w) fs (n', w') → Forall (λ f, patricia_update f.1.2) fs → TriesHold (w_tries w) s cls →
  let s' := foldl apply_storage s (map (λ f, f.1.2) fs) in
  TriesHold (w_tries w') s' (foldl apply_classes cls (map (λ f, f.1.2) fs)) ∧
  (fs ≠ [] → l2_global_root (STARKNET_STATE_UPDATE (w_sync w')) = state_root_of (w_tries w')) ∧
  ∀ a k id m, patricia a → patricia k →
    block_number_from_starknet_block db id = Ok m → contract_storage_mut (w_tries w') (BlockId_Number m) = Ok tt →
    is_ok (ContractStorageTrie_get (w_tries w') a k) = true →
    get_storage_at db (w_tries w') a k id = if s' a k =? 0 then Err (Rpc_Api ContractNotFound) else Ok (s' a k).
Proof.
  intros Hr Hfs HT s'. destruct (runs_hold _ _ _ _ _ Hr Hfs HT) as [HT' Hroot]. cbn [snd] in HT', Hroot.
  split; [exact HT'|]. split; [intros Hne; apply Hroot; by left|]. intros a k id m Ha Hk Hid Hm Hg.
  unfold get_storage_at. rewrite Hid. cbn [api map_err mbind Outcome_bind]. rewrite Hm. cbn [map_err mbind Outcome_bind].
  unfold ContractStorageTrie_get in *. destruct (bonsai_get _ _ _) as [v| |] eqn:Hv; try discriminate Hg.
  apply trie_get_ok in Hv. rewrite (hold_storage _ _ _ HT' a k Ha Hk) in Hv. subst v. unfold trie_val, s'.
  by destruct (_ =? 0).
Qed.
End Storage.

(** ** Witness: a verifying node imports two blocks that write the same slot *)

Definition storage_su (deployed : list Provider.DeployedContract) (v : Z) : Provider.StateUpdate := {|
  Provider.block_hash := Some 51; Provider.new_root := Some 61; Provider.old_root := 60;
  Provider.state_diff := {| Provider.storage_diffs := {[10 := [{| Provider.key := 3; Provider.value := v |}]]};
    Provider.deployed_contracts := deployed; Provider.old_declared_contracts := []; Provider.declared_classes := [];
    Provider.nonces := ∅; Provider.replaced_classes := [] |} |}.
Definition storage_fetched : list (p.Block * Provider.StateUpdate * list (ContractClassData unit unit)) :=
  [(event_block 1 12 3, storage_su [{| Provider.address := 10; Provider.class_hash := 20 |}] 5, []);
   (event_block 2 13 4, storage_su [] 6, [])].

Abbreviation verified_model := (apply_loop (btp := trie_model) (btc := trie_model) (crypto := crypto_small)
  (pb := par_model) (bv := bounds_model) (ca := address_model) (acc := accessors_model) (bt := trie_model)
  (dc := unit_codecs) (Ok trie_empty) (Some 77) (λ n _, DHash (10 + n)) None true 1 (map Ok storage_fetched) world0).

Lemma verified_model_reads : ∃ w', verified_model = Ok w' ∧
  contract_storage_mut (btp := trie_model) (w_tries w') (BlockId_Number 1) = Ok tt ∧
  is_ok (ContractStorageTrie_get (btp := trie_model) (w_tries w') 10 3) = true.
Proof.
  assert (is_ok verified_model = true) as H by (vm_compute; reflexivity).
  destruct verified_model as [w'| |]; try discriminate H. exists w'. split; [reflexivity|]. split; reflexivity.
Qed.

Lemma tries_empty_hold : TriesHold (Hp := trie_model_spec) (Hc := trie_model_spec) tries_empty (λ _ _, 0) (λ _, 0).
Proof. by split. Qed.

Lemma storage_fetched_ok : Forall (λ f : p.Block * Provider.StateUpdate * list (ContractClassData unit unit),
  patricia_update f.1.2) storage_fetched.
Proof.
  repeat apply Forall_cons_2; [| |constructor]; (split; [|constructor]);
    apply map_Forall_singleton; (split; [done|]); apply Forall_singleton; done.
Qed.

(** Block 1 answers with the value of block 2. *)
Lemma verified_storage_served_witness : ∃ w',
  verified_model = Ok w' ∧
  get_storage_at (kv := kv_model) (codecs := codecs_model) (items := log_items) (client := client_model)
    (chain := backend_model) (btp := trie_model) store_model (w_tries w') 10 3 (BlockId_Number 1) = Ok 6.
Proof.
  destruct verified_model_reads as (w' & E & Hm & Hg). exists w'. split; [exact E|].
  destruct (verified_storage_served (btp := trie_model) (btc := trie_model) (Hp := trie_model_spec) (Hc := trie_model_spec)
    (crypto := crypto_small) (pb := par_model) (bv := bounds_model) (ca := address_model) (acc := accessors_model)
    (bt := trie_model) (gw := gateway_model) (dc := unit_codecs) (kv := kv_model) (codecs := codecs_model)
    (items := log_items) (client := client_model) (chain := backend_model)
    (Ok trie_empty) (Some 77) (λ n _, DHash (10 + n)) None store_model 1 world0 storage_fetched 3 w' (λ _ _, 0) (λ _, 0)
    (apply_loop_fetched (gw := gateway_model) _ _ _ _ true 1 (map Ok storage_fetched) world0 w' E)
    storage_fetched_ok tries_empty_hold) as (_ & _ & H).
  etransitivity; [apply (H 10 3 (BlockId_Number 1) 1)|].
  - by split.
  - by split.
  - reflexivity.
  - exact Hm.
  - exact Hg.
  - vm_compute. reflexivity.
Defined.
