(* ===== verification/EndToEndGateway.v ===== *)
(** * EndToEndGateway: from the gateway to the end of the chain

    The fetching of [Fetch] feeds the imports of [L2Sync]: a node whose gateway answers
    imports every block the gateway has, and the classes that come with the updates
    are those that the contract state of [EndToEndQueries] needs. *)

From S2P Require Import Prelude Felt Hashers Transactions TxHash CoreTx Broadcast Blocks Db Tries Commitments.
From S2P Require Import Convert MappingSync Fetch RpcEvents RpcClient CallInfo ContractClasses Pallet.
From S2P Require Import StateAdapter Simulations Codecs Overrides L1Sync L2Sync Traces RpcTrace RpcBlocks.
From S2P Require Import RpcState Genesis EndToEnd EndToEndQueries.

(** ** What the gateway answers *)

Section Gateway.
Context {E1 E2 LProg Prog V1 Info : Type} `{gw : Gateway} `{js : JoinSet} {Hjs : JoinSetSpec js}.
Context `{cl : ClassLibs rpc.LegacyContractAbiEntry LProg Prog V1 Info} `{libs : FeltLibs}.
Context `{sc : StorageCodecs Prog V1}.
(** The node's chain and storage when block [k] is fetched. *)
Variable local_chain : Z → ChainBackend E1.
Variable local_storage : Z → StorageProvider E2 Prog V1.

(** Block [k] is answered within the retries: before, both requests are rate limited. *)
Definition answered (k : Z) (b : p.Block) (su : Provider.StateUpdate) : Prop :=
  ∃ j, (j < MAX_RETRY)%nat ∧
    (∀ i, (i < j)%nat → Fetch.get_block i (Seq_Number k) = Err PE_RateLimited ∧
                        Fetch.get_state_update i (Seq_Number k) = Err PE_RateLimited) ∧
    Fetch.get_block j (Seq_Number k) = Ok b ∧ Fetch.get_state_update j (Seq_Number k) = Ok su ∧
    ∃ bh, Provider.block_hash su = Some bh ∧
      ∀ c, c ∈ class_hashes su → ∃ core w, Fetch.get_class j bh c = Ok core ∧ ContractClassWrapper_try_from core = Ok w.

(** Block [k] does not exist yet. *)
Definition not_yet (k : Z) : Prop :=
  Fetch.get_block 0 (Seq_Number k) = Err (PE_StarknetError SE_BlockNotFound) ∧
  ∃ e, Fetch.get_state_update 0 (Seq_Number k) = Err e.

(** A value of the stream: block [k], fetched while the node has it not. *)
Definition fetch_value (k : Z) : Outcome L2SyncError (p.Block * Provider.StateUpdate * list (ContractClassData Prog V1)) :=
  match fetch_block_and_updates (chain := local_chain k) (sp := local_storage k) k with
  | Some (r, _) => r
  | None => Panic
  end.

Hypothesis not_local : ∀ k, client_hash (ChainBackend := local_chain k) (saturated_u32 k) = Ok None.

Lemma fetch_stops k j :
  (j < MAX_RETRY)%nat →
  (∀ i, (i < j)%nat → rate_limited (chain := local_chain k) (sp := local_storage k) k i) →
  ¬ rate_limited (chain := local_chain k) (sp := local_storage k) k j →
  fetch_value k = round_result (chain := local_chain k) (sp := local_storage k) k j.
Proof.
  intros Hj Hbefore Hnot. unfold fetch_value, fetch_block_and_updates.
  destruct (fetch_loop_spec (chain := local_chain k) (sp := local_storage k) k MAX_RETRY 0 [])
    as (r & m & Hr & Hm & Hl & Hlast); [done|unfold MAX_RETRY; lia|]. rewrite Hr.
  assert (m = j ∨ (m < j)%nat ∨ (j < m)%nat) as [->|[Hlt|Hlt]] by lia.
  - by destruct Hlast as [(? & _)|(_ & ->)].
  - specialize (Hbefore m Hlt). destruct Hlast as [(_ & Hf & _)|(? & _)]; [|done]. lia.
  - destruct Hnot. apply Hl. lia.
Qed.

(** The classes that come with an update: one for the class hash of every contract it
    deploys and of every class it declares with a compiled class, and no other. *)
Definition complete (su : Provider.StateUpdate) (classes : list (ContractClassData Prog V1)) : Prop :=
  NoDup (map ccd_hash classes) ∧ ∀ c, c ∈ map ccd_hash classes ↔
    (c ∈ map Provider.class_hash (Provider.deployed_contracts (Provider.state_diff su)) ∨
     c ∈ map Provider.decl_class_hash (Provider.declared_classes (Provider.state_diff su))).

(** Each is the conversion of a class that the gateway gives for its hash. *)
Definition genuine (su : Provider.StateUpdate) (classes : list (ContractClassData Prog V1)) : Prop :=
  Forall (λ d, ∃ attempt bh core, Provider.block_hash su = Some bh ∧ Fetch.get_class attempt bh (ccd_hash d) = Ok core ∧
    ContractClassWrapper_try_from core = Ok (ccd_contract_class d)) classes.

Lemma fetch_answered k b su :
  answered k b su → ∃ classes, fetch_value k = Ok (b, su, classes) ∧ complete su classes ∧ genuine su classes.
Proof.
  intros (j & Hj & Hlim & Hb & Hsu & bh & Hbh & Hcl).
  assert (∃ classes, fetch_class_update (chain := local_chain k) (sp := local_storage k) j su k = Ok classes)
    as [classes Hcu].
  { unfold fetch_class_update, block_hash_substrate, block_hash_deoxys. rewrite not_local, Hbh.
    cbn [unwrap unwrap_opt mbind Outcome_bind]. apply mapM_is_ok. apply Forall_forall. intros c. rewrite join_order_perm.
    unfold aggregate_classes, unique. intros [(core & w & Hc & Hw)%Hcl _]%unique_from_spec.
    unfold fetch_class. rewrite Hc. cbn [map_err mbind Outcome_bind]. by rewrite Hw. }
  exists classes. split; [|].
  - rewrite (fetch_stops k j Hj).
    + unfold round_result, fetch_round, fetch_state_and_class_update, fetch_block, fetch_state_update.
      rewrite Hb, Hsu. cbn [map_err mbind Outcome_bind]. by rewrite Hcu.
    + intros i Hi. destruct (Hlim i Hi) as [H1 H2].
      unfold rate_limited, fetch_round, fetch_state_and_class_update, fetch_block, fetch_state_update. by rewrite H1, H2.
    + unfold rate_limited, fetch_round, fetch_state_and_class_update, fetch_block, fetch_state_update.
      rewrite Hb, Hsu. cbn [map_err mbind Outcome_bind]. rewrite Hcu. by intros [_ ?].
  - destruct (classes_fetched (chain := local_chain k) (sp := local_storage k) _ _ _ _ Hcu) as (Hnd & Hc & Hall). split.
    + split; [done|]. intros c. rewrite Hc, not_local. unfold class_hashes. rewrite elem_of_app. naive_solver.
    + eapply Forall_impl; [exact Hall|]. intros d (bh' & core & ?). by exists j, bh', core.
Qed.

Lemma fetch_not_yet k : not_yet k → fetch_value k = Err (L2_Provider (PE_StarknetError SE_BlockNotFound)).
Proof.
  intros (Hb & e & Hsu). rewrite (fetch_stops k 0).
  - unfold round_result, fetch_round, fetch_state_and_class_update, fetch_block, fetch_state_update. by rewrite Hb, Hsu.
  - unfold MAX_RETRY. lia.
  - intros i Hi. lia.
  - unfold rate_limited, fetch_round, fetch_state_and_class_update, fetch_block, fetch_state_update.
    rewrite Hb, Hsu. simpl. by intros [_ ?].
Qed.
End Gateway.

(** ** Reaching the end of the gateway's chain *)

Section Sync.
Context {BP BC Prog V1 : Type} `{btp : BonsaiTrie BP} `{btc : BonsaiTrie BC}.
Context `{Hlibs : !FeltLibsSpec libs} `{crypto : StarknetCrypto} `{pb : ParBridge}.
Context `{bv : BoundsFromVec} `{ca : ContractAddresses} `{acc : TxAccessors}.
Context {B : Type} `{bt : BonsaiTrie B}.
Context `{gw : Gateway} `{dc : DigestCodecs Prog V1} {Hdc : DigestCodecsSpec dc} `{cfg : PalletConfig}.
Context {E1 E2 LProg Info : Type} `{js : JoinSet} {Hjs : JoinSetSpec js}.
Context `{cl : ClassLibs rpc.LegacyContractAbiEntry LProg Prog V1 Info} `{sc : StorageCodecs Prog V1}.
Variable bonsai_new : Outcome unit B.
Variable config_chain_id : option Z.
Variable seal_hash : Z → PalletState Prog V1 → DHashT.
Variable inherent_data : option bytes.
Variable local_chain : Z → ChainBackend E1.
Variable local_storage : Z → StorageProvider E2 Prog V1.

Abbreviation W := (World BP BC Prog V1).
Abbreviation convert_block := (convert.convert_block_sync bonsai_new config_chain_id).
Abbreviation runs := (run_fetched (BP := BP) (BC := BC) bonsai_new config_chain_id seal_hash inherent_data).
Abbreviation loop := (apply_loop (BP := BP) (BC := BC) bonsai_new config_chain_id seal_hash inherent_data).

Lemma fetched_values_of (blocks : Z → p.Block) (updates : Z → Provider.StateUpdate) ks :
  (∀ k, client_hash (ChainBackend := local_chain k) (saturated_u32 k) = Ok None) →
  Forall (λ k, answered k (blocks k) (updates k)) ks →
  ∃ fs : list (p.Block * Provider.StateUpdate * list (ContractClassData Prog V1)),
    map (fetch_value local_chain local_storage) ks = map Ok fs ∧
    map fetched_block fs = map blocks ks ∧ map (λ f, f.1.2) fs = map updates ks ∧
    Forall (λ f, complete f.1.2 f.2 ∧ genuine f.1.2 f.2) fs.
Proof.
  intros Hloc. induction 1 as [|k ks Hk _ (fs & H1 & H2 & H3 & H4)]; [by exists []|].
  destruct (fetch_answered local_chain local_storage Hloc k _ _ Hk) as (classes & Hf & Hc).
  exists ((blocks k, updates k, classes) :: fs). cbn [map]. rewrite Hf, H1, H2, H3. split_and!; try done. by constructor.
Qed.

(** Nothing after a missing block is looked at. *)
Lemma loop_stops verify n fs rest (w : W) :
  loop verify n (map Ok fs ++ Err (L2_Provider (PE_StarknetError SE_BlockNotFound)) :: rest) w =
  loop verify n (map Ok fs ++ [Err (L2_Provider (PE_StarknetError SE_BlockNotFound))]) w.
Proof.
  revert n w. induction fs as [|f fs IH]; intros n w; cbn [map app apply_loop].
  - unfold apply_value. by destruct (n =? 0).
  - destruct (apply_value _ _ _ _ verify n (Ok f) w) as [[w'|]| |]; cbn [mbind Outcome_bind]; [|done..]. apply IH.
Qed.

(** C3: A node that does not verify reaches the end of the gateway's chain: if the gateway
    answers for every block up to [top] within the retries, with blocks that have
    hashes and convert, and has no block after it, the node imports exactly these blocks
    with their state updates in order, each with exactly one class, as the gateway gives
    it, for the class hash of every contract its update deploys and of every class it
    declares with a compiled class (the Cairo classes of [old_declared_contracts] are not
    fetched); it then stops, whatever the values that come after the missing block. *)
Theorem gateway_chain_imported first top (w : W) (blocks : Z → p.Block) (updates : Z → Provider.StateUpdate) :
  inherent_ok inherent_data → 1 ≤ first ≤ top + 1 → Synced first w →
  (∀ k, client_hash (ChainBackend := local_chain k) (saturated_u32 k) = Ok None) →
  (∀ k, first ≤ k ≤ top → answered k (blocks k) (updates k) ∧ has_hash (blocks k) ∧
                          is_ok (convert_block (blocks k)) = true) →
  not_yet (top + 1) →
  ∃ w' fs,
    (∀ rest, loop false first (map (fetch_value local_chain local_storage) (seqZ first (top + 2 - first)) ++ rest) w = Ok w') ∧
    Synced (top + 1) w' ∧ runs false (first, w) fs (top + 1, w') ∧
    map fetched_block fs = map blocks (seqZ first (top + 1 - first)) ∧
    map (λ f, f.1.2) fs = map updates (seqZ first (top + 1 - first)) ∧
    Forall (λ f, complete f.1.2 f.2 ∧ genuine f.1.2 f.2) fs.
Proof.
  intros Hinh Hft HS Hloc Hk Hend.
  destruct (fetched_values_of blocks updates (seqZ first (top + 1 - first)) Hloc) as (fs & H1 & H2 & H3 & H4).
  { apply Forall_seqZ. intros k ?. apply Hk. lia. }
  pose proof (f_equal length H2) as Hlen. rewrite !length_map, length_seqZ in Hlen.
  destruct (imports_all bonsai_new config_chain_id seal_hash inherent_data first w fs [] Hinh ltac:(lia) HS)
    as (w' & Hl & HS' & Hr).
  { apply Forall_forall. intros [[b su] cs] Hin. apply (list_elem_of_fmap_2 fetched_block) in Hin.
    change (fetched_block <$> fs) with (map fetched_block fs) in Hin. rewrite H2 in Hin.
    apply list_elem_of_fmap in Hin as (k & Hb & ?%elem_of_seqZ). cbn in Hb. rewrite Hb. apply Hk. lia. }
  replace (first + Z.of_nat (length fs)) with (top + 1) in HS', Hr by lia.
  exists w', fs. split_and!; try done. intros rest.
  replace (top + 2 - first) with (top + 1 - first + 1) by lia. rewrite seqZ_app by lia.
  rewrite map_app, H1. replace (first + (top + 1 - first)) with (top + 1) by lia.
  change (seqZ (top + 1) 1) with [top + 1]. cbn [map]. rewrite (fetch_not_yet local_chain local_storage) by done.
  rewrite <- app_assoc. cbn [app]. by rewrite loop_stops.
Qed.
End Sync.

(** ** The classes of the contracts *)

Section Classes.
Context {Prog V1 : Type}.
Abbreviation Fetched := (p.Block * Provider.StateUpdate * list (ContractClassData Prog V1))%type.

(** A class that replaces another was deployed or declared by an update before, or by
    the same one. *)
Definition replacements_known (fs : list Fetched) : Prop :=
  ∀ j f r, fs !! j = Some f → r ∈ Provider.replaced_classes (Provider.state_diff f.1.2) →
    ∃ j' f', (j' ≤ j)%nat ∧ fs !! j' = Some f' ∧ Provider.class_hash r ∈ class_hashes f'.1.2.

(** [d] is the class for the hash [c] in the last of the updates that brought one. *)
Definition last_fetched (fs : list Fetched) (c : Z) (d : ContractClassData Prog V1) : Prop :=
  ∃ fs1 f fs2, fs = fs1 ++ f :: fs2 ∧ d ∈ f.2 ∧ ccd_hash d = c ∧ Forall (λ f', c ∉ map ccd_hash f'.2) fs2.

Lemma written_key {V} (g : ContractClassData Prog V1 → V) classes (m : gmap Z V) c :
  NoDup (map ccd_hash classes) →
  (list_to_map (reverse (map (λ d, (ccd_hash d, g d)) classes)) ∪ m) !! c =
  match list_find (λ d, ccd_hash d = c) classes with Some (_, d) => Some (g d) | None => m !! c end.
Proof.
  intros Hnd. destruct (list_find _ classes) as [[k d]|] eqn:Hf.
  - apply list_find_Some in Hf as (Hk & <- & _). apply lookup_union_Some_l, elem_of_list_to_map_1.
    + rewrite reverse_Permutation, <- list_fmap_compose. exact Hnd.
    + rewrite reverse_Permutation. apply (list_elem_of_fmap_2 (λ d, (ccd_hash d, g d))). by eapply list_elem_of_lookup_2.
  - rewrite list_find_None in Hf. apply lookup_union_r, not_elem_of_list_to_map_1.
    rewrite reverse_Permutation, <- list_fmap_compose. intros (d & -> & Hd)%list_elem_of_fmap.
    exact (Forall_elem _ _ _ Hf Hd eq_refl).
Qed.

(** The class stored for a hash is the one fetched last, with its ABI. *)
Lemma stored_last cs (fs : list Fetched) c :
  Forall (λ f, NoDup (map ccd_hash f.2)) fs → (∃ f, f ∈ fs ∧ c ∈ map ccd_hash f.2) →
  ∃ d, last_fetched fs c d ∧
    cs_classes (foldl apply_update cs fs) !! c = Some (ccw_contract (ccd_contract_class d)) ∧
    cs_abis (foldl apply_update cs fs) !! c = Some (ccw_abi (ccd_contract_class d)).
Proof.
  induction fs as [|[[b su] classes] fs IH] using rev_ind; intros Hnd (f & Hf & Hc); [by apply elem_of_nil in Hf|].
  apply Forall_app in Hnd as [Hnd [Hn _]%Forall_cons]. cbn [snd] in Hn. rewrite foldl_app.
  cbn [foldl apply_update cs_classes cs_abis]. rewrite !written_key by done.
  destruct (list_find (λ d, ccd_hash d = c) classes) as [[k d]|] eqn:Hfind.
  - apply list_find_Some in Hfind as (Hk & Hd & _). exists d. split; [|done].
    exists fs, (b, su, classes), []. split; [done|]. split; [by eapply list_elem_of_lookup_2|]. by split.
  - assert (c ∉ map ccd_hash classes) as Hni.
    { intros (d & -> & Hd)%list_elem_of_fmap. rewrite list_find_None in Hfind. exact (Forall_elem _ _ _ Hfind Hd eq_refl). }
    destruct IH as (d & (fs1 & f' & fs2 & -> & Hd & Hdc & Hl) & H1 & H2); [done| |].
    { exists f. split; [|done]. apply elem_of_app in Hf as [?| ->%list_elem_of_singleton]; done. }
    exists d. split; [|by split]. exists fs1, f', (fs2 ++ [(b, su, classes)]). rewrite <- app_assoc. split; [done|].
    split; [done|]. split; [done|]. apply Forall_app. split; [done|]. by apply Forall_singleton.
Qed.

Lemma apply_update_class cs (f : Fetched) a c :
  cs_class_hashes (apply_update cs f) !! a = Some c →
  (∃ d, (d ∈ Provider.deployed_contracts (Provider.state_diff f.1.2) ∨
         d ∈ Provider.replaced_classes (Provider.state_diff f.1.2)) ∧ Provider.class_hash d = c) ∨
  cs_class_hashes cs !! a = Some c.
Proof.
  destruct f as [[b su] classes]. cbn [apply_update cs_class_hashes fst snd]. intros [Hw|[_ ?]]%lookup_union_Some_raw; [left|by right].
  apply elem_of_list_to_map_2, elem_of_reverse, list_elem_of_fmap in Hw as (d & [= -> ->] & Hd).
  exists d. split; [by apply elem_of_app in Hd|done].
Qed.

(** The class of a contract whose class hash an update has written was fetched. *)
Lemma classes_known cs0 (fs : list Fetched) a c :
  replacements_known fs → cs_class_hashes (foldl apply_update cs0 fs) !! a = Some c →
  cs_class_hashes cs0 !! a = Some c ∨ ∃ f, f ∈ fs ∧ c ∈ class_hashes f.1.2.
Proof.
  induction fs as [|f fs IH] using rev_ind; intros Hrep; [by left|]. rewrite foldl_app. cbn [foldl].
  intros [(d & [Hd|Hd] & <-)|Hold]%apply_update_class.
  - right. exists f. split; [apply elem_of_app; right; by apply list_elem_of_singleton|].
    apply elem_of_app. left. by apply (list_elem_of_fmap_2 Provider.class_hash).
  - right. destruct (Hrep (length fs) f d) as (j' & f' & _ & Hf' & Hd'); [by rewrite lookup_app_r, Nat.sub_diag|done|].
    exists f'. split; [by eapply list_elem_of_lookup_2|done].
  - destruct IH as [?|(f' & Hf' & Hc)]; [|done|by left|right; exists f'; split; [apply elem_of_app; by left|done]].
    intros j f' r Hj Hr. destruct (Hrep j f' r) as (j' & f'' & Hle & Hf' & Hc); [by apply lookup_app_l_Some|done|].
    exists j', f''. split_and!; try done. rewrite lookup_app_l in Hf'; [done|]. apply lookup_lt_Some in Hj. lia.
Qed.
End Classes.

Section Served.
Context {BP BC Prog V1 : Type} `{btp : BonsaiTrie BP} `{btc : BonsaiTrie BC}.
Context `{Hlibs : !FeltLibsSpec libs} `{crypto : StarknetCrypto} `{pb : ParBridge}.
Context `{bv : BoundsFromVec} `{ca : ContractAddresses} `{acc : TxAccessors}.
Context {B : Type} `{bt : BonsaiTrie B}.
Context `{gw : Gateway} `{dc : DigestCodecs Prog V1} {Hdc : DigestCodecsSpec dc} `{cfg : PalletConfig}.
Context {E E3 S : Type} `{kv : KvStore E S} `{codecs : DbCodecs}.
Context {Abi LProg Info : Type} `{cl : ClassLibs Abi LProg Prog V1 Info} `{pc : ProgramCodec Prog}.
Context `{sc : StorageCodecs Prog V1} {Hsc : StorageCodecsSpec sc} `{sp : StorageProvider E3 Prog V1}.
Variable bonsai_new : Outcome unit B.
Variable config_chain_id : option Z.
Variable seal_hash : Z → PalletState Prog V1 → DHashT.
Variable inherent_data : option bytes.
Variable compiler_version : option string.
Variable db : S.
Abbreviation W := (World BP BC Prog V1).
Abbreviation runs := (run_fetched (BP := BP) (BC := BC) bonsai_new config_chain_id seal_hash inherent_data).

(** C7: No contract is without its class: when every update came with the classes it deploys
    or declares (with a compiled class), as the fetched ones do, and replaces classes only
    by such ones, then for a contract whose class hash at an imported block was written
    since the run began, [getClassAt] and [getClass] at that block answer with the
    conversion of the class that the last update up to that block with one brought for
    the hash, contract and ABI together.  (The conversion itself fails for a legacy class
    without external entry points, see [legacy_class_served].) *)
Theorem deployed_classes_served verify n (w : W) fs n' w' h0 st0 i a c :
  inherent_ok inherent_data → 1 ≤ n → Synced n w → Forall has_hash (map fetched_block fs) →
  runs verify (n, w) fs (n', w') → last (w_chain w) = Some (h0, st0) →
  (∀ k h st, w_chain w' !! k = Some (h, st) → Layout h st) →
  Forall (λ f, complete f.1.2 f.2) fs → replacements_known fs →
  (i < length fs)%nat → n + Z.of_nat i ≤ u32_max →
  get_class_hash_at (chain := world_backend w') db (BlockId_Number (n + Z.of_nat i)) a = Ok c →
  ContractClassHashes st0 !! a ≠ Some c →
  ∃ d, last_fetched (take (Datatypes.S i) fs) c d ∧
    let answer := rpc_class compiler_version (ccw_contract (ccd_contract_class d)) (ccw_abi (ccd_contract_class d)) in
    get_class_at (chain := world_backend w') db compiler_version (BlockId_Number (n + Z.of_nat i)) a = answer ∧
    get_class (chain := world_backend w') db compiler_version (BlockId_Number (n + Z.of_nat i)) c = answer.
Proof.
  intros Hinh Hn1 HS Hbs Hr Hl HL Hcomp Hrep Hi Hle Hc Hnew.
  destruct (synced_reads _ _ _ _ compiler_version db _ _ _ _ _ _ _ _ i a c Hinh Hn1 HS Hbs Hr Hl HL Hi Hle)
    as [Hclass Hat].
  set (cs := foldl apply_update (contract_state st0) (take (Datatypes.S i) fs)) in *.
  destruct (cs_class_hashes cs !! a) as [c'|] eqn:Ha; [|by destruct Hat as [Hx _]; rewrite Hx in Hc].
  destruct Hat as (Hx & _ & Hget). rewrite Hx in Hc. injection Hc as ->.
  pose proof (Forall_take _ (Datatypes.S i) _ Hcomp) as Hcomp'.
  destruct (classes_known (contract_state st0) (take (Datatypes.S i) fs) a c) as [Hold|(f & Hf & Hcf)].
  - intros j f r Hj Hin. apply lookup_take_Some in Hj as [Hj Hlt]. destruct (Hrep j f r Hj Hin) as (j' & f' & Hjj & Hf' & Hd).
    exists j', f'. split_and!; try done. apply lookup_take_Some. split; [done|lia].
  - exact Ha.
  - by destruct Hnew.
  - destruct (stored_last (contract_state st0) (take (Datatypes.S i) fs) c) as (d & Hd & Hcc & Habi).
    + eapply Forall_impl; [exact Hcomp'|by intros ? []].
    + exists f. split; [done|]. apply elem_of_app in Hcf. by apply (Forall_elem _ _ _ Hcomp' Hf).
    + fold cs in Hcc, Habi. exists d. split; [done|]. cbv zeta. rewrite Hget, Hclass, Hcc, Habi. done.
Qed.
End Served.

(** ** Witness: a gateway with two blocks, rate limited once *)

(** Programs are of no account. *)
Definition unit_class_libs : ClassLibs rpc.LegacyContractAbiEntry unit unit unit unit := {|
  gz_read_to_end := Some;
  json_from_slice _ := Some tt;
  legacy_class_hash _ := Some 7;
  Program_from_bytes _ := Some tt;
  casm_from_contract_class _ := None;
  compiled_class_hash_of _ := None;
  ContractClassV1_try_from _ := Some tt;
  flattened_class_hash _ := 8;
  ClassInfo_new _ _ _ := Some tt;
  btx_DeclareTransaction_new tx h i := Some (Acc_Declare tx h i);
  BigUint_to_bytes_be := be_encode 32;
|}.

Definition chain_blocks (k : Z) : p.Block := if k =? 1 then event_block 1 12 3 else event_block 2 13 4.
Definition chain_updates (k : Z) : Provider.StateUpdate := if k =? 1 then example_su else second_su.
Definition chain_answer {A} (f : Z → A) (attempt : nat) (id : SequencerBlockId) : Outcome ProviderError A :=
  match id with
  | Seq_Number k => if 2 <? k then Err (PE_StarknetError SE_BlockNotFound)
                    else if bool_decide (k = 1 ∧ attempt = 0%nat) then Err PE_RateLimited else Ok (f k)
  | _ => Err (PE_StarknetError SE_BlockNotFound)
  end.
Definition chain_gateway : Gateway := {|
  Fetch.get_block := chain_answer chain_blocks;
  Fetch.get_state_update := chain_answer chain_updates;
  Fetch.get_class _ _ _ := Ok (rpc.Legacy example_legacy_class);
  get_block_id_by_hash _ _ := Err (PE_StarknetError SE_BlockNotFound);
|}.
Definition nothing_local : ChainBackend unit := {|
  client_number _ := Ok None; client_hash _ := Ok None; best_hash := DHash 1; best_number := 0;
|}.

Abbreviation chain_values := (fetch_value (gw := chain_gateway) (js := join_model) (cl := unit_class_libs)
  (sc := storage_codecs_model) (λ _, nothing_local) (λ _, provider_model pallet.empty_state)).

Lemma chain_answered k : 1 ≤ k ≤ 2 →
  answered (gw := chain_gateway) (cl := unit_class_libs) k (chain_blocks k) (chain_updates k) ∧
  has_hash (chain_blocks k) ∧ is_ok (convert_model (chain_blocks k)) = true.
Proof.
  intros Hk. assert (k = 1 ∨ k = 2) as [-> | ->] by lia; (split; [|split]).
  - exists 1%nat. split; [unfold MAX_RETRY; lia|]. split; [intros i Hi; by replace i with 0%nat by lia|].
    split; [reflexivity|]. split; [reflexivity|]. exists 50. split; [reflexivity|]. intros c _. by do 2 eexists.
  - by exists 12.
  - vm_compute. reflexivity.
  - exists 0%nat. split; [unfold MAX_RETRY; lia|]. split; [intros i Hi; lia|].
    split; [reflexivity|]. split; [reflexivity|]. exists 51. split; [reflexivity|]. intros c _. by do 2 eexists.
  - by exists 13.
  - vm_compute. reflexivity.
Qed.

Lemma gateway_chain_imported_witness : ∃ w',
  apply_loop (btp := trie_model) (btc := trie_model) (crypto := crypto_small)
    (pb := par_model) (bv := bounds_model) (ca := address_model) (acc := accessors_model) (bt := trie_model)
    (dc := unit_codecs) (Ok trie_empty) (Some 77) (λ n _, DHash (10 + n)) None false 1
    (map chain_values [1; 2; 3] ++ [chain_values 1; Panic]) world0 = Ok w' ∧ Synced (dc := unit_codecs) 3 w'.
Proof.
  destruct (gateway_chain_imported (btp := trie_model) (btc := trie_model) (crypto := crypto_small)
    (pb := par_model) (bv := bounds_model) (ca := address_model) (acc := accessors_model) (bt := trie_model)
    (gw := chain_gateway) (dc := unit_codecs) (Hdc := unit_codecs_spec) (js := join_model) (Hjs := join_model_spec)
    (cl := unit_class_libs) (sc := storage_codecs_model) (Ok trie_empty) (Some 77) (λ n _, DHash (10 + n)) None
    (λ _, nothing_local) (λ _, provider_model pallet.empty_state) 1 2 world0 chain_blocks chain_updates
    default_inherent_ok ltac:(lia) world0_synced (λ _, eq_refl) chain_answered) as (w' & fs & Hl & HS & _).
  - split; [reflexivity|]. by eexists.
  - exists w'. split; [exact (Hl [chain_values 1; Panic])|exact HS].
Defined.

(** ** Witness: the class of the contract of these blocks *)

Definition unit_wrapper : ContractClassWrapper unit unit :=
  match ContractClassWrapper_try_from (cl := unit_class_libs) (rpc.Legacy example_legacy_class) with
  | Ok w => w
  | _ => {| ccw_contract := ContractClass_V1 tt; ccw_abi := ContractAbi_Cairo None |}
  end.
Definition unit_class (c : Z) : ContractClassData unit unit := {| ccd_hash := c; ccd_contract_class := unit_wrapper |}.
(** Class 21, declared by the first update, replaces class 20 in the second. *)
Definition class_fetched : list (p.Block * Provider.StateUpdate * list (ContractClassData unit unit)) :=
  [(event_block 1 12 3, example_su, [unit_class 21; unit_class 20]); (event_block 2 13 4, second_su, [])].

Abbreviation class_model := (apply_loop (btp := trie_model) (btc := trie_model) (crypto := crypto_small)
  (pb := par_model) (bv := bounds_model) (ca := address_model) (acc := accessors_model) (bt := trie_model)
  (dc := unit_codecs) (Ok trie_empty) (Some 77) (λ n _, DHash (10 + n)) None false 1 (map Ok class_fetched) world0).

Lemma class_model_hashes : (λ w, (w_chain w).*1) <$> class_model = Ok [DHash 1; DHash 11; DHash 12].
Proof. vm_compute. reflexivity. Qed.

Lemma class_fetched_complete : Forall (λ f, complete f.1.2 f.2) class_fetched.
Proof.
  repeat apply Forall_cons_2; [| |constructor]; (split; [apply (bool_decide_unpack _); vm_compute; reflexivity|]);
    intros c; cbn; rewrite ?elem_of_cons, ?elem_of_nil; tauto.
Qed.

Lemma class_fetched_known : replacements_known class_fetched.
Proof.
  intros [|[|j]] f r Hf Hr; [injection Hf as <-|injection Hf as <-|discriminate Hf].
  - by apply elem_of_nil in Hr.
  - apply list_elem_of_singleton in Hr as ->. exists 0%nat. eexists. split; [lia|]. split; [reflexivity|].
    change (class_hashes _) with [20; 20; 21]. apply (bool_decide_unpack _). vm_compute. reflexivity.
Qed.

Lemma class_fetched_wrapper c d : last_fetched class_fetched c d → ccd_contract_class d = unit_wrapper.
Proof.
  intros (fs1 & f & fs2 & Hfs & Hd & _). assert (f ∈ class_fetched) as Hf by (rewrite Hfs; set_solver).
  apply elem_of_cons in Hf as [-> | ->%list_elem_of_singleton]; cbn [snd] in Hd; [|by apply elem_of_nil in Hd].
  by apply elem_of_cons in Hd as [-> | ->%list_elem_of_singleton].
Qed.

Abbreviation class_hash_model w := (get_class_hash_at (kv := kv_model) (codecs := codecs_model) (chain := world_backend w)
  (sc := storage_codecs_model) (sp := world_provider w) ∅ (BlockId_Number 2) 10).

Lemma class_model_hash w' : class_model = Ok w' → class_hash_model w' = Ok 21.
Proof.
  intros E. assert ((λ w, class_hash_model w) <$> class_model = Ok (Ok 21)) as H by (vm_compute; reflexivity).
  rewrite E in H. injection H as H. exact H.
Qed.

Lemma deployed_classes_served_witness : ∃ w', class_model = Ok w' ∧
  is_ok (get_class_at (kv := kv_model) (codecs := codecs_model) (chain := world_backend w') (pc := unit_program)
    (sc := storage_codecs_model) (sp := world_provider w') ∅ None (BlockId_Number 2) 10) = true.
Proof.
  pose proof class_model_hashes as Hh. destruct class_model as [w'| |] eqn:E; try discriminate Hh.
  injection Hh as Hh. exists w'. split; [reflexivity|].
  assert (NoDup (w_chain w').*1) as Hnd by (rewrite Hh; apply (bool_decide_unpack _); vm_compute; reflexivity).
  destruct (deployed_classes_served (btp := trie_model) (btc := trie_model) (crypto := crypto_small)
    (pb := par_model) (bv := bounds_model) (ca := address_model) (acc := accessors_model) (bt := trie_model)
    (gw := gateway_model) (dc := unit_codecs) (Hdc := unit_codecs_spec) (kv := kv_model) (codecs := codecs_model)
    (pc := unit_program) (sc := storage_codecs_model) (Hsc := storage_codecs_model_spec) (sp := world_provider w')
    (Ok trie_empty) (Some 77) (λ n _, DHash (10 + n)) None None ∅ false 1 world0 class_fetched 3 w'
    (DHash 1) example_genesis 1 10 21 default_inherent_ok (Z.le_refl 1) world0_synced (proj1 event_blocks_ok)
    (apply_loop_fetched (gw := gateway_model) _ _ _ _ false 1 (map Ok class_fetched) world0 w' E) eq_refl
    (λ k h st, world_provider_layout w' k h st Hnd) class_fetched_complete class_fetched_known)
    as (d & Hd & H & _).
  - simpl. lia.
  - vm_compute. discriminate.
  - exact (class_model_hash w' E).
  - vm_compute. discriminate.
  - pose proof (class_fetched_wrapper 21 d Hd) as Hw. etransitivity; [exact (f_equal is_ok H)|].
    rewrite Hw. vm_compute. reflexivity.
Defined.
