(* ===== verification/Node.v ===== *)
(** * Node: starting a node ([node/src/service.rs], [commands/run.rs], [chain_spec.rs],
    [genesis_block.rs], [command.rs])

    The command line is turned into a configuration, the chain specification into the
    storage of the genesis block, and [new_full] spawns the tasks of the node.  What
    Substrate does behind each call is a field of the class [Services]; the state of
    the start is the list of spawned tasks, whether the network was started, and the
    global fetch configuration, all of which outlive a later failure. *)

From S2P Require Import Prelude Felt Hashers Transactions TxHash CoreTx Broadcast Blocks Db Tries Commitments Backend.
From S2P Require Import Convert MappingSync Fetch RpcEvents RpcClient Index CallInfo ContractClasses Pallet Codecs.
From S2P Require Import StateAdapter Simulations Runtime Overrides RpcState Genesis.

(** ** The network (run.rs, utils/constant.rs) *)

Inductive NetworkType := Main | Test | Integration.

Definition uri (self : NetworkType) : string :=
  match self with
  | Main => "https://alpha-mainnet.starknet.io"
  | Test => "https://alpha-sepolia.starknet.io"
  | Integration => "https://external.integration.starknet.io"
  end.

Module starknet_core_address.
Definition MAINNET : string := "0xc662c410C0ECf747543f5bA90660f6ABeBD9C8c4".
Definition GOERLI_TESTNET : string := "0xde29d060D45901Fb19ED6C6e959EB22d8626708e".
Definition GOERLI_INTEGRATION : string := "0xd5c325D183C592C94998000C5e0EED9e6655c020".
Definition SEPOLIA_TESTNET : string := "0xE2Bb56ee936fd6433DC0F6e7e3b8365C906AA057".
Definition SEPOLIA_INTEGRATION : string := "0x4737c0c1B4D5b1A687B42610DdabEE781152359c".
End starknet_core_address.

(** [FetchConfig] of fetch/fetchers.rs; an URL is its text. *)
Record FetchConfig := {
  fc_gateway : string; fc_feeder_gateway : string; fc_chain_id : Z; fc_workers : Z; fc_sound : bool;
  fc_l1_core_address : Z; fc_verify : bool; fc_api_key : option string;
}.

Section Network.
Context `{libs : FeltLibs}.
(** [url] and [primitive_types]: parsing of URLs and of 20-byte addresses. *)
Variable parse_url : string → option string.
Variable parse_h160 : string → option Z.

Definition NetworkType_chain_id (self : NetworkType) : Outcome Empty_set Z :=
  match self with
  | Main => unwrap (FieldElement_from_byte_slice_be (bytes_of_string "SN_MAIN"))
  | Test => unwrap (FieldElement_from_byte_slice_be (bytes_of_string "SN_SEPOLIA"))
  | Integration => unwrap (FieldElement_from_byte_slice_be (bytes_of_string "SN_INTE"))
  end.

Definition NetworkType_l1_core_address (self : NetworkType) : Outcome Empty_set Z :=
  match self with
  | Main => unwrap_opt (parse_h160 starknet_core_address.MAINNET)
  | Test => unwrap_opt (parse_h160 starknet_core_address.SEPOLIA_TESTNET)
  | Integration => unwrap_opt (parse_h160 starknet_core_address.SEPOLIA_INTEGRATION)
  end.

Definition block_fetch_config (self : NetworkType) : Outcome Empty_set FetchConfig :=
  let uri := uri self in
  chain_id ← NetworkType_chain_id self;
  gateway ← unwrap_opt (parse_url (uri +:+ "/gateway"));
  feeder_gateway ← unwrap_opt (parse_url (uri +:+ "/feeder_gateway"));
  l1_core_address ← NetworkType_l1_core_address self;
  Ok {| fc_gateway := gateway; fc_feeder_gateway := feeder_gateway; fc_chain_id := chain_id; fc_workers := 5;
        fc_sound := false; fc_l1_core_address := l1_core_address; fc_verify := true; fc_api_key := None |}.
End Network.

(** ** The command line (run.rs) *)

(** The command line's own sealing modes; [#[default]] is manual. *)
Inductive Sealing := Seal_Manual | Seal_Instant | Seal_InstantFinality.
Definition Sealing_default : Sealing := Seal_Manual.
Definition SealingMode_from (value : Sealing) : SealingMode :=
  match value with
  | Seal_Manual => Sealing_Manual
  | Seal_Instant => Sealing_Instant false
  | Seal_InstantFinality => Sealing_Instant true
  end.

Inductive RpcMethods := Rpc_Auto | Rpc_Safe | Rpc_Unsafe.

(** [ExtendedRunCmd] with the fields of Substrate's [RunCmd] that are set or read. *)
Record ExtendedRunCmd := {
  rc_dev : bool; rc_chain : option string; rc_base_path : option string; rc_name : option string;
  rc_force_authoring : bool; rc_alice : bool; rc_tmp : bool; rc_rpc_external : bool; rc_rpc_methods : RpcMethods;
  rc_telemetry_endpoints : list (string * Z); rc_no_grandpa : bool;
  rc_sealing : option Sealing; rc_l1_endpoint : option string; rc_network : NetworkType; rc_cache : bool;
  rc_sound : bool; rc_deoxys : bool; rc_disable_root : bool; rc_gateway_key : option string;
}.

Definition override_dev_environment (cmd : ExtendedRunCmd) : ExtendedRunCmd := {|
  rc_dev := false; rc_chain := Some "dev"%string; rc_base_path := rc_base_path cmd; rc_name := rc_name cmd;
  rc_force_authoring := true; rc_alice := true; rc_tmp := true; rc_rpc_external := true; rc_rpc_methods := Rpc_Unsafe;
  rc_telemetry_endpoints := rc_telemetry_endpoints cmd; rc_no_grandpa := rc_no_grandpa cmd;
  rc_sealing := rc_sealing cmd; rc_l1_endpoint := rc_l1_endpoint cmd; rc_network := rc_network cmd;
  rc_cache := rc_cache cmd; rc_sound := rc_sound cmd; rc_deoxys := rc_deoxys cmd;
  rc_disable_root := rc_disable_root cmd; rc_gateway_key := rc_gateway_key cmd |}.

(** [serde_json::Value] *)
Inductive Value :=
| V_Null | V_Bool (b : bool) | V_Number (n : Z) | V_String (s : string) | V_Array (l : list Value)
| V_Object (l : list (string * Value)).

(** Indexing by a key: null when there is none. *)
Fixpoint find_key (key : string) (l : list (string * Value)) : Value :=
  match l with
  | [] => V_Null
  | (k, v) :: l => if decide (k = key) then v else find_key key l
  end.
Definition index (key : string) (v : Value) : Value :=
  match v with V_Object l => find_key key l | _ => V_Null end.
Definition as_array (v : Value) : option (list Value) := match v with V_Array l => Some l | _ => None end.
Definition as_str (v : Value) : option string := match v with V_String s => Some s | _ => None end.

(** sync/src/utils/utility.rs: [response] is the text of the answer, [choose] the
    random choice, which fails only on an empty list. *)
Definition get_random_pokemon_name (response : Outcome string string) (from_str : string → Outcome string Value)
    (choose : list Value → option Value) : Outcome string string :=
  body ← response;
  json ← from_str body;
  pokemon_array ← unwrap_opt (as_array (index "results" json));
  random_pokemon ← unwrap_opt (choose pokemon_array);
  unwrap_opt (as_str (index "name" random_pokemon)).

(** [pokemon] is the answer of [get_random_pokemon_name], asked only for a node
    without a name. *)
Definition deoxys_environment (pokemon : Outcome string string) (cmd : ExtendedRunCmd)
    : Outcome Empty_set ExtendedRunCmd :=
  name ← (match rc_name cmd with
          | Some name => Ok name
          | None => match pokemon with Ok name => Ok name | Err _ => Ok "deoxys"%string | Panic => Panic end
          end);
  Ok {|
    rc_dev := rc_dev cmd; rc_chain := Some "starknet"%string;
    rc_base_path := Some (default "/tmp/deoxys"%string (rc_base_path cmd)); rc_name := Some name;
    rc_force_authoring := rc_force_authoring cmd; rc_alice := rc_alice cmd; rc_tmp := rc_tmp cmd;
    rc_rpc_external := rc_rpc_external cmd; rc_rpc_methods := rc_rpc_methods cmd;
    rc_telemetry_endpoints := [("wss://starknodes.com/submit/"%string, 0)]; rc_no_grandpa := true;
    rc_sealing := Some Seal_Manual; rc_l1_endpoint := rc_l1_endpoint cmd; rc_network := rc_network cmd;
    rc_cache := rc_cache cmd; rc_sound := rc_sound cmd; rc_deoxys := rc_deoxys cmd;
    rc_disable_root := rc_disable_root cmd; rc_gateway_key := rc_gateway_key cmd |}.

(** The sealing mode in force: the one of the runtime, [SealingMode::default()], when
    the flag is absent. *)
Definition cmd_sealing (cmd : ExtendedRunCmd) : SealingMode :=
  default SealingMode_default (SealingMode_from <$> rc_sealing cmd).

(** ** The global fetch configuration (sync/src/utils/utility.rs) *)

Definition update_config (config : FetchConfig) (CONFIG : option FetchConfig) : option FetchConfig := Some config.
Definition get_config (CONFIG : option FetchConfig) : Outcome string FetchConfig :=
  match CONFIG with
  | Some config => Ok config
  | None => Err "Configuration not set yet"%string
  end.

(** ** The chain specification (chain_spec.rs, command.rs) *)

Definition DEV_CHAIN_ID : string := "dev".

Record RuntimeGenesisConfig (AuraId GrandpaId : Type) := {
  gc_system_code : bytes;
  gc_aura_authorities : list AuraId;
  gc_grandpa_authorities : list (GrandpaId * Z);
  gc_starknet : pallet.GenesisConfig;
}.
Arguments gc_system_code {AuraId GrandpaId}. Arguments gc_aura_authorities {AuraId GrandpaId}.
Arguments gc_grandpa_authorities {AuraId GrandpaId}. Arguments gc_starknet {AuraId GrandpaId}.

Record DevGenesisExt (AuraId GrandpaId : Type) := {
  ge_genesis_config : RuntimeGenesisConfig AuraId GrandpaId; ge_sealing : SealingMode;
}.
Arguments ge_genesis_config {AuraId GrandpaId}. Arguments ge_sealing {AuraId GrandpaId}.

(** The storage of the genesis block: the raw value [Sealing], the items of the
    pallet, and what Substrate's pallets write. *)
Record GenesisStorage (FS Prog V1 : Type) := {
  gs_sealing : option bytes; gs_frame : FS; gs_starknet : PalletState Prog V1;
}.
Arguments gs_sealing {FS Prog V1}. Arguments gs_frame {FS Prog V1}. Arguments gs_starknet {FS Prog V1}.

(** A specification: its name, its identifier, and how it builds the storage. *)
Record ChainSpec (FS Prog V1 : Type) := {
  cs_name : string; cs_id : string; cs_build_storage : Outcome string (GenesisStorage FS Prog V1);
}.
Arguments cs_name {FS Prog V1}. Arguments cs_id {FS Prog V1}. Arguments cs_build_storage {FS Prog V1}.

(** Substrate's part: the compiled runtime, keys from a secret URI, the genesis of its
    own pallets, and specifications read from a file. *)
Class SpecLibs (AuraId GrandpaId FS Prog V1 : Type) := {
  WASM_BINARY : option bytes;
  aura_from_string : string → option AuraId;
  grandpa_from_string : string → option GrandpaId;
  frame_empty : FS;
  frame_assimilate_storage : bytes → list AuraId → list (GrandpaId * Z) → FS → Outcome string FS;
  from_json_file : string → Outcome string (ChainSpec FS Prog V1);
}.

Section ChainSpecs.
Context {AuraId GrandpaId FS Prog V1 : Type} `{sl : SpecLibs AuraId GrandpaId FS Prog V1}.
Context `{gw : Gateway}.
Abbreviation St := (GenesisStorage FS Prog V1).

Definition RuntimeGenesisConfig_assimilate_storage (self : RuntimeGenesisConfig AuraId GrandpaId) (storage : St)
    : Outcome string St :=
  frame ← frame_assimilate_storage (gc_system_code self) (gc_aura_authorities self) (gc_grandpa_authorities self)
            (gs_frame storage);
  Ok {| gs_sealing := gs_sealing storage; gs_frame := frame;
        gs_starknet := pallet.genesis_build (gs_starknet storage) (gc_starknet self) |}.

Definition assimilate_storage (self : DevGenesisExt AuraId GrandpaId) (storage : St) : Outcome string St :=
  let storage := {| gs_sealing := Sealing_set (ge_sealing self); gs_frame := gs_frame storage;
                    gs_starknet := gs_starknet storage |} in
  RuntimeGenesisConfig_assimilate_storage (ge_genesis_config self) storage.

(** [BuildStorage::build_storage]: over an empty storage. *)
Definition build_storage (self : DevGenesisExt AuraId GrandpaId) : Outcome string St :=
  assimilate_storage self {| gs_sealing := None; gs_frame := frame_empty; gs_starknet := pallet.empty_state |}.

Definition get_from_seed {T} (from_string : string → option T) (seed : string) : Outcome Empty_set T :=
  unwrap_opt (from_string ("//" +:+ seed)).

Definition authority_keys_from_seed (s : string) : Outcome Empty_set (AuraId * GrandpaId) :=
  a ← get_from_seed aura_from_string s;
  g ← get_from_seed grandpa_from_string s;
  Ok (a, g).

Definition testnet_genesis (genesis_loader : GenesisData) (wasm_binary : bytes)
    (initial_authorities : list (AuraId * GrandpaId)) : RuntimeGenesisConfig AuraId GrandpaId := {|
  gc_system_code := wasm_binary;
  gc_aura_authorities := fst <$> initial_authorities;
  gc_grandpa_authorities := (λ x, (x.2, 1)) <$> initial_authorities;
  gc_starknet := GenesisConfig_from_data genesis_loader;
|}.

(** [from_genesis] with the constructor both specifications pass: the keys are derived
    when the storage is built. *)
Definition spec_from_genesis (name id : string) (genesis_loader : GenesisData) (wasm_binary : bytes)
    (sealing : SealingMode) : ChainSpec FS Prog V1 := {|
  cs_name := name;
  cs_id := id;
  cs_build_storage :=
    alice ← unwrap (authority_keys_from_seed "Alice");
    build_storage {| ge_genesis_config := testnet_genesis genesis_loader wasm_binary [alice]; ge_sealing := sealing |};
|}.

Definition development_config (sealing : SealingMode) : Outcome string (ChainSpec FS Prog V1) :=
  wasm_binary ← ok_or "Development wasm not available"%string WASM_BINARY;
  let chain_id := DEV_CHAIN_ID in
  genesis_loader ← load_genesis;
  Ok (spec_from_genesis "Development" chain_id genesis_loader wasm_binary sealing).

Definition deoxys_config (sealing : SealingMode) (chain_id : string) : Outcome string (ChainSpec FS Prog V1) :=
  wasm_binary ← ok_or "Development wasm not available"%string WASM_BINARY;
  genesis_loader ← load_genesis;
  Ok (spec_from_genesis "Starknet" chain_id genesis_loader wasm_binary sealing).

Definition load_spec (cmd : ExtendedRunCmd) (id : string) : Outcome string (ChainSpec FS Prog V1) :=
  if decide (id = DEV_CHAIN_ID) then development_config (cmd_sealing cmd)
  else if decide (id = "starknet"%string) then deoxys_config (cmd_sealing cmd) id
  else from_json_file id.
End ChainSpecs.

(** ** The genesis block (genesis_block.rs) *)

Inductive BlockchainError := Blockchain_Storage (what : string) | Blockchain_Other (what : string).
Inductive ServiceError := Service_Other (what : string).

Record MadaraGenesisBlockBuilder (FS Prog V1 : Type) := {
  gb_genesis_storage : GenesisStorage FS Prog V1; gb_commit_genesis_state : bool; gb_genesis_block : DeoxysBlock;
}.
Arguments gb_genesis_storage {FS Prog V1}. Arguments gb_commit_genesis_state {FS Prog V1}.
Arguments gb_genesis_block {FS Prog V1}.

(** The parts of Substrate's [Configuration] that are read. *)
Record Configuration (FS Prog V1 : Type) := {
  cf_chain_spec : ChainSpec FS Prog V1;
  cf_base_path : Path;
  cf_database : DatabaseSource;
  cf_telemetry_endpoints : option (list (string * Z));
  cf_keystore_in_memory : bool;
  cf_is_authority : bool;
  cf_disable_grandpa : bool;
  cf_offchain_worker : bool;
}.
Arguments cf_chain_spec {FS Prog V1}. Arguments cf_base_path {FS Prog V1}. Arguments cf_database {FS Prog V1}.
Arguments cf_telemetry_endpoints {FS Prog V1}. Arguments cf_keystore_in_memory {FS Prog V1}.
Arguments cf_is_authority {FS Prog V1}. Arguments cf_disable_grandpa {FS Prog V1}. Arguments cf_offchain_worker {FS Prog V1}.

(** The client: the hash of the genesis block and the best number. *)
Record FullClient := { fc_block_hash_0 : Outcome unit (option DHashT); fc_best_number : Z }.

(** What the calls into Substrate answer. *)
Class Services (FS Prog V1 : Type) := {
  config_dir : Path → string → Path;
  telemetry_worker_new : Outcome ServiceError unit;
  new_db_backend : DatabaseSource → Outcome ServiceError unit;
  resolve_state_version_from_wasm : GenesisStorage FS Prog V1 → Outcome BlockchainError Z;
  begin_operation : Outcome BlockchainError unit;
  set_genesis_state : GenesisStorage FS Prog V1 → bool → Z → Outcome BlockchainError DHashT;
  new_full_parts : Configuration FS Prog V1 → Outcome BlockchainError (DHeaderT DigestItem) → Outcome ServiceError FullClient;
  grandpa_block_import : FullClient → Outcome ServiceError unit;
  slot_duration : FullClient → Outcome ServiceError Z;
  aura_import_queue : FullClient → Z → Outcome ServiceError unit;
  build_network : FullClient → (* warp sync *) bool → Outcome ServiceError unit;
  spawn_tasks : FullClient → (* the channel of the RPC *) bool → Outcome ServiceError unit;
  start_aura : FullClient → Z → Outcome ServiceError unit;
  run_grandpa_voter : FullClient → Outcome ServiceError unit;
}.

(** ** The service (service.rs) *)

(** What a task of the node runs. *)
Inductive Job :=
| Job_Telemetry
| Job_OffchainWorkers (is_validator : bool)
| Job_MappingSync (timeout retry_times sync_from : Z)
| Job_StarknetSync (fetch_config : FetchConfig) (l1_url : string) (starting_block : Z)
| Job_ManualSeal
| Job_InstantSeal (finalize : bool)
| Job_Aura (slot_duration : Z)
| Job_GrandpaVoter.

(** A task: its name, its group, and whether its end stops the node. *)
Record Task := { t_name : string; t_group : option string; t_essential : bool; t_job : Job }.

Record NodeState (S BP BC : Type) := {
  ns_tasks : list Task; ns_network : bool; ns_config : option FetchConfig; ns_backend : Singletons S BP BC;
}.
Arguments ns_tasks {S BP BC}. Arguments ns_network {S BP BC}. Arguments ns_config {S BP BC}. Arguments ns_backend {S BP BC}.

Definition MADARA_TASK_GROUP : string := "madara".

Section Service.
Context {E S BP BC FS Prog V1 : Type} `{svc : Services FS Prog V1} `{sto : Storage E S BP BC}.
Context `{btp : BonsaiTrie BP} `{btc : BonsaiTrie BC} `{dc : DigestCodecs Prog V1}.
Abbreviation St := (NodeState S BP BC).
Abbreviation M := (SyncM St ServiceError).
Abbreviation Config := (Configuration FS Prog V1).

Definition MadaraGenesisBlockBuilder_new (spec : ChainSpec FS Prog V1) (commit_genesis_state : bool)
    (genesis_block : DeoxysBlock) : Outcome BlockchainError (MadaraGenesisBlockBuilder FS Prog V1) :=
  genesis_storage ← map_err Blockchain_Storage (cs_build_storage spec);
  Ok {| gb_genesis_storage := genesis_storage; gb_commit_genesis_state := commit_genesis_state;
        gb_genesis_block := genesis_block |}.

(** The state root is not part of the modelled header. *)
Definition build_genesis_block (self : MadaraGenesisBlockBuilder FS Prog V1)
    : Outcome BlockchainError (DHeaderT DigestItem) :=
  genesis_state_version ← resolve_state_version_from_wasm (gb_genesis_storage self);
  op ← begin_operation;
  state_root ← set_genesis_state (gb_genesis_storage self) (gb_commit_genesis_state self) genesis_state_version;
  Ok (construct_genesis_block (gb_genesis_block self)).

Definition NodeState_init : St :=
  {| ns_tasks := []; ns_network := false; ns_config := None; ns_backend := DeoxysBackend.no_singletons |}.

Definition spawn (name : string) (group : option string) (essential : bool) (job : Job) : M unit := λ s,
  ({| ns_tasks := ns_tasks s ++ [{| t_name := name; t_group := group; t_essential := essential; t_job := job |}];
      ns_network := ns_network s; ns_config := ns_config s; ns_backend := ns_backend s |}, Ok tt).
Definition start_network : M unit := λ s,
  ({| ns_tasks := ns_tasks s; ns_network := true; ns_config := ns_config s; ns_backend := ns_backend s |}, Ok tt).

(** starknet.rs *)
Definition db_config_dir (config : Config) : Path := config_dir (cf_base_path config) (cs_id (cf_chain_spec config)).

(** [DeoxysBackend::open(…).unwrap()] *)
Definition open_backend (config : Config) (cache_more_things : bool) : M unit := λ s,
  let '(b, r) := DeoxysBackend.open (cf_database config) (db_config_dir config) cache_more_things (ns_backend s) in
  ({| ns_tasks := ns_tasks s; ns_network := ns_network s; ns_config := ns_config s; ns_backend := b |},
   _ ← unwrap r; Ok tt).

Definition build_aura_grandpa_import_queue (client : FullClient) : M unit :=
  slot_duration ← lift (slot_duration client);
  lift (aura_import_queue client slot_duration).
Definition build_manual_seal_import_queue (client : FullClient) : M unit := mret tt.

Definition new_partial (config : Config) (build_import_queue : FullClient → M unit) (cache_more_things : bool)
    (genesis_block : DeoxysBlock) : M FullClient :=
  let endpoints := match cf_telemetry_endpoints config with Some [] => None | e => e end in
  telemetry ← (match endpoints with Some _ => _ ← lift telemetry_worker_new; mret true | None => mret false end);
  _ ← lift (new_db_backend (cf_database config));
  genesis_block_builder ← lift (unwrap (MadaraGenesisBlockBuilder_new (cf_chain_spec config) true genesis_block));
  client ← lift (new_full_parts config (build_genesis_block genesis_block_builder));
  _ ← (if telemetry : bool then spawn "telemetry" None false Job_Telemetry else mret tt);
  _ ← lift (grandpa_block_import client);
  _ ← open_backend config cache_more_things;
  _ ← build_import_queue client;
  mret client.

(** [commands_stream] says whether the channel of the RPC exists. *)
Definition run_manual_seal_authorship (sealing : SealingMode) (commands_stream : bool) : M unit :=
  manual_seal ← (match sealing with
                 | Sealing_Manual => _ ← lift (assert_true commands_stream); mret Job_ManualSeal
                 | Sealing_Instant finalize => mret (Job_InstantSeal finalize)
                 | Sealing_Default => lift Panic
                 end);
  spawn "manual-seal" None true manual_seal.

(** The two workers, with [command_sink.unwrap()] of the sender's configuration. *)
Definition spawn_workers (fetch_config : FetchConfig) (l1_url : string) (starting_block : Z) (command_sink : bool) : M unit :=
  _ ← spawn "mc-mapping-sync-worker" (Some MADARA_TASK_GROUP) true (Job_MappingSync 6 3 0);
  _ ← lift (assert_true command_sink);
  spawn "starknet-sync-worker" (Some "madara"%string) true (Job_StarknetSync fetch_config l1_url starting_block).

Definition spawn_aura (client : FullClient) : M unit :=
  slot_duration ← lift (slot_duration client);
  _ ← lift (start_aura client slot_duration);
  spawn "aura" (Some "block-authoring"%string) true (Job_Aura slot_duration).

Definition spawn_grandpa_voter (client : FullClient) : M unit :=
  _ ← lift (run_grandpa_voter client);
  spawn "grandpa-voter" None true Job_GrandpaVoter.

Definition new_full (config : Config) (sealing : SealingMode) (l1_url : string) (cache_more_things : bool)
    (fetch_config : FetchConfig) (genesis_block : DeoxysBlock) : M unit :=
  let build_import_queue :=
    if is_default sealing then build_aura_grandpa_import_queue else build_manual_seal_import_queue in
  client ← new_partial config build_import_queue cache_more_things genesis_block;
  _ ← lift (unwrap_opt (match fc_block_hash_0 client with Ok h => h | _ => None end));
  let warp_sync := is_default sealing in
  _ ← lift (build_network client warp_sync);
  _ ← (if cf_offchain_worker config
       then spawn "offchain-workers-runner" (Some "offchain-worker"%string) false (Job_OffchainWorkers (cf_is_authority config))
       else mret tt);
  let enable_grandpa := negb (cf_disable_grandpa config) && is_default sealing in
  let starting_block := fc_best_number client in
  let command_sink := match sealing with Sealing_Manual => true | _ => false end in
  _ ← lift (spawn_tasks client command_sink);
  _ ← spawn_workers fetch_config l1_url starting_block command_sink;
  if negb (is_default sealing) then
    _ ← run_manual_seal_authorship sealing command_sink;
    start_network
  else
    _ ← (if cf_is_authority config then spawn_aura client else mret tt);
    _ ← (if enable_grandpa then spawn_grandpa_voter client else mret tt);
    start_network.

Definition DeoxysBlock_default : DeoxysBlock := {| header := Header_default; transactions := []; events := [] |}.

(** The node of the subcommands that work on a stored chain. *)
Definition new_chain_ops (config : Config) (cache_more_things : bool) : M FullClient :=
  let config := {| cf_chain_spec := cf_chain_spec config; cf_base_path := cf_base_path config;
                   cf_database := cf_database config; cf_telemetry_endpoints := cf_telemetry_endpoints config;
                   cf_keystore_in_memory := true; cf_is_authority := cf_is_authority config;
                   cf_disable_grandpa := cf_disable_grandpa config; cf_offchain_worker := cf_offchain_worker config |} in
  new_partial config build_aura_grandpa_import_queue cache_more_things DeoxysBlock_default.
End Service.

(** ** Running the node (run.rs) *)

Inductive CliError := Cli_Input (what : string) | Cli_Service (e : ServiceError) | Cli_Other (what : string).

Section Run.
Context {E S BP BC FS Prog V1 AuraId GrandpaId B : Type}.
Context `{svc : Services FS Prog V1} `{sto : Storage E S BP BC} `{btp : BonsaiTrie BP} `{btc : BonsaiTrie BC}.
Context `{dc : DigestCodecs Prog V1} `{sl : SpecLibs AuraId GrandpaId FS Prog V1} `{libs : FeltLibs}.
Context `{bv : BoundsFromVec} `{crypto : StarknetCrypto} `{ca : ContractAddresses} `{acc : TxAccessors} `{bt : BonsaiTrie B}.
Variable parse_url : string → option string.
Variable parse_h160 : string → option Z.
Variable bonsai_new : Outcome unit B.
(** [cli.create_runner]: Substrate's configuration, which loads the specification. *)
Variable create_runner : (string → Outcome string (ChainSpec FS Prog V1)) → ExtendedRunCmd → Outcome CliError (Configuration FS Prog V1).
(** [SequencerGatewayProvider::starknet_alpha_mainnet] and [::new] of a configuration. *)
Variable alpha_mainnet : Gateway.
Variable provider : FetchConfig → Gateway.
Variable pokemon : Outcome string string.
Abbreviation St := (NodeState S BP BC).
Abbreviation M := (SyncM St CliError).

Definition set_config (config : FetchConfig) : M unit := λ s,
  ({| ns_tasks := ns_tasks s; ns_network := ns_network s; ns_config := update_config config (ns_config s);
      ns_backend := ns_backend s |}, Ok tt).
Definition config_chain_id : M (option Z) := λ s,
  (s, Ok (match get_config (ns_config s) with Ok config => Some (fc_chain_id config) | _ => None end)).

(** The environments [--dev] and [--deoxys]; the former wins. *)
Definition environment (cmd : ExtendedRunCmd) : Outcome Empty_set ExtendedRunCmd :=
  if rc_dev cmd then Ok (override_dev_environment cmd)
  else if rc_deoxys cmd then deoxys_environment pokemon cmd else Ok cmd.

Definition run_node (cmd : ExtendedRunCmd) : M unit :=
  cmd ← lift_pure (environment cmd);
  config ← lift (create_runner (load_spec (gw := alpha_mainnet) cmd) cmd);
  l1_endpoint ← (match rc_l1_endpoint cmd with
                 | Some url => mret url
                 | None => fail (Cli_Input "Missing required --l1-endpoint argument please reffer to https://deoxys-docs.kasar.io")
                 end);
  let sealing := cmd_sealing cmd in
  let cache := rc_cache cmd in
  fetch_block_config ← lift_pure (block_fetch_config parse_url parse_h160 (rc_network cmd));
  let fetch_block_config := {|
    fc_gateway := fc_gateway fetch_block_config; fc_feeder_gateway := fc_feeder_gateway fetch_block_config;
    fc_chain_id := fc_chain_id fetch_block_config; fc_workers := fc_workers fetch_block_config;
    fc_sound := rc_sound cmd; fc_l1_core_address := fc_l1_core_address fetch_block_config;
    fc_verify := negb (rc_disable_root cmd); fc_api_key := rc_gateway_key cmd |} in
  _ ← set_config fetch_block_config;
  chain_id ← config_chain_id;
  genesis_block ← lift (unwrap (fetch_apply_genesis_block (gw := provider fetch_block_config)
                                  (convert.convert_block_sync bonsai_new chain_id)));
  map_err_m Cli_Service (new_full config sealing l1_endpoint cache fetch_block_config genesis_block).
End Run.

(** ** Properties *)

Section ServiceProperties.
Context {E S BP BC FS Prog V1 : Type} `{svc : Services FS Prog V1} `{sto : Storage E S BP BC}.
Context `{btp : BonsaiTrie BP} `{btc : BonsaiTrie BC} `{dc : DigestCodecs Prog V1}.
Abbreviation St := (NodeState S BP BC).
Abbreviation Config := (Configuration FS Prog V1).

Definition telemetry_tasks (config : Config) : list Task :=
  match cf_telemetry_endpoints config with
  | Some (_ :: _) => [{| t_name := "telemetry"; t_group := None; t_essential := false; t_job := Job_Telemetry |}]
  | _ => []
  end.
Definition offchain_tasks (config : Config) : list Task :=
  if cf_offchain_worker config
  then [{| t_name := "offchain-workers-runner"; t_group := Some "offchain-worker"%string; t_essential := false;
           t_job := Job_OffchainWorkers (cf_is_authority config) |}]
  else [].
Definition mapping_task : Task :=
  {| t_name := "mc-mapping-sync-worker"; t_group := Some "madara"%string; t_essential := true; t_job := Job_MappingSync 6 3 0 |}.
Definition sync_task (fetch_config : FetchConfig) (l1_url : string) (starting_block : Z) : Task :=
  {| t_name := "starknet-sync-worker"; t_group := Some "madara"%string; t_essential := true;
     t_job := Job_StarknetSync fetch_config l1_url starting_block |}.
Definition seal_task : Task :=
  {| t_name := "manual-seal"; t_group := None; t_essential := true; t_job := Job_ManualSeal |}.

(** The state with more tasks. *)
Definition add_tasks (s : St) (l : list Task) : St :=
  {| ns_tasks := ns_tasks s ++ l; ns_network := ns_network s; ns_config := ns_config s; ns_backend := ns_backend s |}.

(** An import queue is built without an effect on the state. *)
Lemma import_queue_state (d : bool) client (s s' : St) :
  (if d then build_aura_grandpa_import_queue else build_manual_seal_import_queue) client s = (s', Ok tt) → s' = s.
Proof.
  destruct d; intros H; [|by injection H]. unfold build_aura_grandpa_import_queue in H. by sync_inv.
Qed.

(** The telemetry of [new_partial]: its worker, then its task. *)
Lemma telemetry_ok config (b : bool) (s s1 s2 : St) :
  match match cf_telemetry_endpoints config with Some [] => None | e => e end with
  | Some _ => _ ← lift telemetry_worker_new; mret true
  | None => mret false
  end s = (s1, Ok b : Outcome ServiceError bool) →
  (if b then spawn "telemetry" None false Job_Telemetry else mret tt) s1 = (s2, Ok tt) →
  s2 = add_tasks s (telemetry_tasks config).
Proof.
  unfold telemetry_tasks, add_tasks. destruct (cf_telemetry_endpoints config) as [[|e l]|]; intros H1 H2.
  2: { sync_inv. by injection H2 as <-. }
  all: injection H1 as <- <-; injection H2 as <-; rewrite app_nil_r; by destruct s.
Qed.

Lemma new_partial_ok config (d : bool) cache g (s s' : St) client :
  new_partial config (if d then build_aura_grandpa_import_queue else build_manual_seal_import_queue) cache g s
    = (s', Ok client) →
  ∃ b db builder, DeoxysBackend.open (cf_database config) (db_config_dir config) cache (ns_backend s) = (b, Ok db) ∧
    MadaraGenesisBlockBuilder_new (cf_chain_spec config) true g = Ok builder ∧
    new_full_parts config (build_genesis_block builder) = Ok client ∧
    s' = {| ns_tasks := ns_tasks s ++ telemetry_tasks config; ns_network := ns_network s; ns_config := ns_config s;
            ns_backend := b |}.
Proof.
  unfold new_partial. intros H. sync_inv.
  match goal with
  | H1 : match _ with Some _ => _ | None => _ end _ = _, H2 : (if _ then spawn _ _ _ _ else _) _ = _ |- _ =>
      pose proof (telemetry_ok _ _ _ _ _ H1 H2) as ->
  end.
  match goal with H : _ _ _ = (s', Ok tt) |- _ => apply import_queue_state in H as -> end.
  match goal with H : open_backend _ _ _ = _ |- _ => unfold open_backend in H; cbn [add_tasks ns_backend] in H end.
  destruct (DeoxysBackend.open _ _ _ _) as [b [db| |]]; simplify_eq/=.
  destruct (MadaraGenesisBlockBuilder_new _ _ _) as [builder| |] eqn:Hbu; simplify_eq/=. by eexists _, _, _.
Qed.

(** A node starts only with manual sealing; its tasks are then known. *)
Lemma new_full_ok config sealing l1_url cache fetch_config g (s s' : St) :
  new_full config sealing l1_url cache fetch_config g s = (s', Ok tt) →
  sealing = Sealing_Manual ∧
  ∃ client b db builder,
    DeoxysBackend.open (cf_database config) (db_config_dir config) cache (ns_backend s) = (b, Ok db) ∧
    MadaraGenesisBlockBuilder_new (cf_chain_spec config) true g = Ok builder ∧
    new_full_parts config (build_genesis_block builder) = Ok client ∧
    s' = {| ns_tasks := ns_tasks s ++ telemetry_tasks config ++ offchain_tasks config ++
              [mapping_task; sync_task fetch_config l1_url (fc_best_number client); seal_task];
            ns_network := true; ns_config := ns_config s; ns_backend := b |}.
Proof.
  unfold new_full. intros H. apply bind_ok in H as (s1 & client & H1 & H).
  apply new_partial_ok in H1 as (b & db & builder & Hb & Hst & Hcl & ->).
  unfold spawn_workers in H. destruct sealing; [sync_inv; done| |sync_inv; done]. split; [done|].
  exists client, b, db, builder. split; [done|]. split; [done|]. split; [done|]. cbn [is_default negb] in H. sync_inv.
  unfold offchain_tasks. destruct (cf_offchain_worker config);
    repeat match goal with H : _ = (_, Ok ()) |- _ => injection H as <- end; simpl; by rewrite <- ?app_assoc.
Qed.

(** Substrate's calls succeed. *)
Record client_ok (client : FullClient) : Prop := {
  co_grandpa : grandpa_block_import client = Ok tt;
  co_queue : ∃ d, slot_duration client = Ok d ∧ aura_import_queue client d = Ok tt;
  co_genesis : ∃ h, fc_block_hash_0 client = Ok (Some h);
  co_network w : build_network client w = Ok tt;
  co_tasks c : spawn_tasks client c = Ok tt;
}.
Record services_ok (config : Config) (cache : bool) (g : DeoxysBlock) : Prop := {
  so_telemetry : telemetry_worker_new = Ok tt;
  so_db : new_db_backend (cf_database config) = Ok tt;
  so_client : ∃ builder client, MadaraGenesisBlockBuilder_new (cf_chain_spec config) true g = Ok builder ∧
    new_full_parts config (build_genesis_block builder) = Ok client ∧ client_ok client;
  so_backend : ∃ b db, DeoxysBackend.open (cf_database config) (db_config_dir config) cache DeoxysBackend.no_singletons
    = (b, Ok db);
}.

Lemma telemetry_run config (s : St) : telemetry_worker_new = Ok tt →
  ∃ b : bool, match match cf_telemetry_endpoints config with Some [] => None | e => e end with
  | Some _ => _ ← lift telemetry_worker_new; mret true
  | None => mret false
  end s = (s, Ok b : Outcome ServiceError bool) ∧
  (if b then spawn "telemetry" None false Job_Telemetry else mret tt) s = (add_tasks s (telemetry_tasks config), Ok tt).
Proof.
  unfold telemetry_tasks, add_tasks. intros H. destruct (cf_telemetry_endpoints config) as [[|e l]|].
  2: { exists true. run_m. by rewrite H. }
  all: exists false; rewrite app_nil_r; by destruct s.
Qed.

Lemma new_partial_run config (d : bool) cache g (s : St) :
  services_ok config cache g → ns_backend s = DeoxysBackend.no_singletons →
  ∃ client b, client_ok client ∧
    new_partial config (if d then build_aura_grandpa_import_queue else build_manual_seal_import_queue) cache g s =
    ({| ns_tasks := ns_tasks s ++ telemetry_tasks config; ns_network := ns_network s; ns_config := ns_config s;
        ns_backend := b |}, Ok client).
Proof.
  intros [Ht Hdb (builder & client & Hb & Hp & Hc) (b & db & Ho)] Hs. exists client, b. split; [done|].
  destruct (telemetry_run config s Ht) as (t & H1 & H2). unfold new_partial.
  rewrite (bind_run _ _ _ _ _ H1). unfold lift at 1. run_m. rewrite Hdb, Hb. cbn [unwrap]. rewrite Hp.
  revert H2. cbv beta iota delta [mret SyncM_ret]. intros ->. destruct Hc as [-> (dur & Hd & Hq) _ _ _].
  unfold open_backend. cbn [add_tasks ns_backend]. rewrite Hs, Ho. cbn.
  destruct d; cbn; [|done]. unfold build_aura_grandpa_import_queue. run_m. by rewrite Hd, Hq.
Qed.

(** With working services only the sealing mode decides: without the channel of
    manual sealing the start panics, with the mapping worker already spawned. *)
Lemma new_full_run config sealing l1_url cache fetch_config g (s : St) :
  services_ok config cache g → ns_backend s = DeoxysBackend.no_singletons →
  ∃ s', new_full config sealing l1_url cache fetch_config g s =
    (s', if decide (sealing = Sealing_Manual) then Ok tt else Panic) ∧
    (sealing ≠ Sealing_Manual →
     ns_tasks s' = ns_tasks s ++ telemetry_tasks config ++ offchain_tasks config ++ [mapping_task] ∧
     ns_network s' = ns_network s).
Proof.
  intros So Hs. destruct (new_partial_run config (is_default sealing) cache g s So Hs) as (client & b & Hc & Hp).
  unfold new_full, spawn_workers. rewrite (bind_run _ _ _ _ _ Hp). destruct Hc as [_ _ (h & Hh) Hn Ht].
  run_m. rewrite Hh. cbn [unwrap_opt]. rewrite Hn, Ht. unfold offchain_tasks.
  destruct (cf_offchain_worker config), sealing; cbn; (eexists; split; [reflexivity|]); try done; intros _; cbn;
    by rewrite <- ?app_assoc.
Qed.
End ServiceProperties.

(** The storage of the two built-in specifications: the sealing mode of the command
    line, and the state of the genesis of the main network. *)
Lemma load_spec_storage {AuraId GrandpaId FS Prog V1} `{sl : SpecLibs AuraId GrandpaId FS Prog V1} `{gw : Gateway}
    cmd id spec (storage : GenesisStorage FS Prog V1) :
  load_spec cmd id = Ok spec → id = "dev"%string ∨ id = "starknet"%string → cs_build_storage spec = Ok storage →
  cs_id spec = id ∧ Sealing_get (gs_sealing storage) = cmd_sealing cmd ∧
  ∃ su, get_state_update 0 (Seq_Number 0) = Ok su ∧
    gs_starknet storage = genesis_state (GenesisData_from (Provider.state_diff su)).
Proof.
  intros H Hid Hb.
  assert (∃ name data wasm, load_genesis = Ok data ∧ spec = spec_from_genesis name id data wasm (cmd_sealing cmd))
    as (name & data & wasm & Hl & ->).
  { unfold load_spec, development_config, deoxys_config in H.
    destruct Hid as [->| ->]; repeat case_decide; simplify_eq; ok_inv; eauto. }
  unfold load_genesis in Hl. destruct (get_state_update _ _) as [su| |]; simplify_eq/=.
  destruct (unwrap _) as [alice| |]; simplify_eq/=. unfold build_storage, assimilate_storage in Hb.
  unfold RuntimeGenesisConfig_assimilate_storage in Hb. ok_inv. split_and!; [done| |by exists su].
  apply sealing_roundtrip.
Qed.

Section RunProperties.
Context {E S BP BC FS Prog V1 AuraId GrandpaId B : Type}.
Context `{svc : Services FS Prog V1} `{sto : Storage E S BP BC} `{btp : BonsaiTrie BP} `{btc : BonsaiTrie BC}.
Context `{dc : DigestCodecs Prog V1} `{sl : SpecLibs AuraId GrandpaId FS Prog V1} `{libs : FeltLibs}.
Context `{bv : BoundsFromVec} `{crypto : StarknetCrypto} `{ca : ContractAddresses} `{acc : TxAccessors} `{bt : BonsaiTrie B}.
Variable parse_url : string → option string.
Variable parse_h160 : string → option Z.
Variable bonsai_new : Outcome unit B.
Variable create_runner : (string → Outcome string (ChainSpec FS Prog V1)) → ExtendedRunCmd → Outcome CliError (Configuration FS Prog V1).
Variable alpha_mainnet : Gateway.
Variable provider : FetchConfig → Gateway.
Variable pokemon : Outcome string string.
Abbreviation run := (run_node parse_url parse_h160 bonsai_new create_runner alpha_mainnet provider pokemon).

(** Manual sealing is in force: the flag asks for it, or the Deoxys environment. *)
Definition manual_requested (cmd : ExtendedRunCmd) : bool :=
  match rc_sealing cmd with
  | Some Seal_Manual => true
  | _ => negb (rc_dev cmd) && rc_deoxys cmd
  end.

Lemma environment_spec cmd cmd' :
  environment pokemon cmd = Ok cmd' →
  rc_l1_endpoint cmd' = rc_l1_endpoint cmd ∧ rc_network cmd' = rc_network cmd ∧ rc_cache cmd' = rc_cache cmd ∧
  rc_sound cmd' = rc_sound cmd ∧ rc_disable_root cmd' = rc_disable_root cmd ∧ rc_gateway_key cmd' = rc_gateway_key cmd ∧
  (cmd_sealing cmd' = Sealing_Manual ↔ manual_requested cmd = true) ∧
  (rc_dev cmd = true → rc_chain cmd' = Some "dev"%string) ∧
  (rc_dev cmd = false → rc_deoxys cmd = true → rc_chain cmd' = Some "starknet"%string).
Proof.
  unfold environment, manual_requested, cmd_sealing, deoxys_environment. intros H.
  destruct (rc_dev cmd) eqn:Hd; [|destruct (rc_deoxys cmd) eqn:Hx]; ok_inv;
    cbn; split_and!; try done; destruct (rc_sealing _) as [[]|]; cbn; naive_solver.
Qed.

(** The configuration the node fetches with. *)
Definition fetch_config_of (cmd : ExtendedRunCmd) (fetch : FetchConfig) : Prop :=
  NetworkType_chain_id (rc_network cmd) = Ok (fc_chain_id fetch) ∧
  parse_url (uri (rc_network cmd) +:+ "/gateway") = Some (fc_gateway fetch) ∧
  parse_url (uri (rc_network cmd) +:+ "/feeder_gateway") = Some (fc_feeder_gateway fetch) ∧
  NetworkType_l1_core_address parse_h160 (rc_network cmd) = Ok (fc_l1_core_address fetch) ∧
  fc_workers fetch = 5 ∧ fc_sound fetch = rc_sound cmd ∧ fc_verify fetch = negb (rc_disable_root cmd) ∧
  fc_api_key fetch = rc_gateway_key cmd.

(** The state when [new_full] is called. *)
Definition configured (fetch : FetchConfig) : NodeState S BP BC :=
  {| ns_tasks := []; ns_network := false; ns_config := Some fetch; ns_backend := DeoxysBackend.no_singletons |}.

Definition with_flags (cmd : ExtendedRunCmd) (fetch : FetchConfig) : FetchConfig :=
  {| fc_gateway := fc_gateway fetch; fc_feeder_gateway := fc_feeder_gateway fetch; fc_chain_id := fc_chain_id fetch;
     fc_workers := fc_workers fetch; fc_sound := rc_sound cmd; fc_l1_core_address := fc_l1_core_address fetch;
     fc_verify := negb (rc_disable_root cmd); fc_api_key := rc_gateway_key cmd |}.

Lemma with_flags_spec cmd fetch :
  block_fetch_config parse_url parse_h160 (rc_network cmd) = Ok fetch → fetch_config_of cmd (with_flags cmd fetch).
Proof.
  unfold block_fetch_config. intros H. ok_inv.
  repeat match goal with H : unwrap_opt ?o = Ok _ |- _ => destruct o eqn:?; simplify_eq/= end. done.
Qed.

(** The genesis block: that of the configured network, converted with its chain id. *)
Definition genesis_of (fetch : FetchConfig) : Outcome string DeoxysBlock :=
  fetch_apply_genesis_block (gw := provider fetch) (convert.convert_block_sync bonsai_new (Some (fc_chain_id fetch))).

Lemma genesis_of_ok fetch g :
  genesis_of fetch = Ok g → ∃ b0, @Fetch.get_block (provider fetch) 0 (Seq_Number 0) = Ok b0 ∧
    convert.convert_block_sync bonsai_new (Some (fc_chain_id fetch)) b0 = Ok g.
Proof.
  unfold genesis_of, fetch_apply_genesis_block. destruct (Fetch.get_block _ _) as [b0| |]; [|discriminate..].
  simpl. destruct (convert.convert_block_sync _ _ b0) as [g'|[]|] eqn:Hc; [|discriminate].
  simpl. intros [= <-]. by exists b0.
Qed.

Lemma builder_ok spec c g (builder : MadaraGenesisBlockBuilder FS Prog V1) :
  MadaraGenesisBlockBuilder_new spec c g = Ok builder →
  cs_build_storage spec = Ok (gb_genesis_storage builder) ∧ gb_genesis_block builder = g.
Proof.
  unfold MadaraGenesisBlockBuilder_new. destruct (cs_build_storage spec) as [st| |]; [|discriminate..].
  by intros [= <-].
Qed.

Lemma run_ok cmd s' :
  run cmd NodeState_init = (s', Ok tt) →
  ∃ cmd' config url fetch g,
    environment pokemon cmd = Ok cmd' ∧ create_runner (load_spec (gw := alpha_mainnet) cmd') cmd' = Ok config ∧
    rc_l1_endpoint cmd' = Some url ∧ fetch_config_of cmd' fetch ∧ genesis_of fetch = Ok g ∧
    new_full config (cmd_sealing cmd') url (rc_cache cmd') fetch g (configured fetch) = (s', Ok tt).
Proof.
  unfold run_node. run_m. unfold lift_pure, lift.
  destruct (environment pokemon cmd) as [cmd'| |] eqn:He; cbn [map_err]; [|done..].
  destruct (create_runner _ cmd') as [config| |] eqn:Hr; [|done..].
  destruct (rc_l1_endpoint cmd') as [url|] eqn:Hu; [|done].
  destruct (block_fetch_config _ _ _) as [fetch| |] eqn:Hf; cbn [map_err]; [|done..]. fold (with_flags cmd' fetch).
  cbn [set_config config_chain_id NodeState_init ns_tasks ns_network ns_config ns_backend update_config get_config].
  fold (genesis_of (with_flags cmd' fetch)). destruct (genesis_of _) as [g| |] eqn:Hg; cbn [unwrap]; [|done..].
  intros H. exists cmd', config, url, (with_flags cmd' fetch), g. split_and!; try done; [by apply with_flags_spec|].
  revert H. unfold map_err_m. fold (configured (with_flags cmd' fetch)).
  destruct (new_full _ _ _ _ _ _ _) as [s1 [[]| |]]; intros H; by simplify_eq/=.
Qed.

(** The calls before [new_full] succeed, and so do Substrate's. *)
Definition working (cmd : ExtendedRunCmd) : Prop :=
  ∃ cmd' config fetch g,
    environment pokemon cmd = Ok cmd' ∧ create_runner (load_spec (gw := alpha_mainnet) cmd') cmd' = Ok config ∧
    block_fetch_config parse_url parse_h160 (rc_network cmd') = Ok fetch ∧
    genesis_of (with_flags cmd' fetch) = Ok g ∧ services_ok config (rc_cache cmd') g.

(** C38: When everything outside the node works, its flags alone decide the start: without
    an L1 endpoint it is refused, with one it succeeds exactly when manual sealing is in
    force (asked for, or in the Deoxys environment without [--dev]).  In the other cases,
    among them a start without flags, it panics after the mapping worker was spawned and
    before the Starknet worker and the network are. *)
Theorem start_decided cmd :
  working cmd →
  ∃ s', run cmd NodeState_init =
    (s', match rc_l1_endpoint cmd with
         | None => Err (Cli_Input "Missing required --l1-endpoint argument please reffer to https://deoxys-docs.kasar.io")
         | Some _ => if manual_requested cmd then Ok tt else Panic
         end) ∧
    (∀ url, rc_l1_endpoint cmd = Some url → manual_requested cmd = false →
     mapping_task ∈ ns_tasks s' ∧ ns_network s' = false ∧ ∀ f u n, sync_task f u n ∉ ns_tasks s').
Proof.
  intros (cmd' & config & fetch & g & He & Hr & Hf & Hg & Hs).
  destruct (environment_spec cmd cmd' He) as (Hu & _ & _ & _ & _ & _ & Hm & _).
  unfold run_node. run_m. unfold lift_pure, lift. rewrite He. cbn [map_err]. rewrite Hr, <- Hu.
  destruct (rc_l1_endpoint cmd') as [url|]; [|by eexists; split; [reflexivity|]].
  rewrite Hf. cbn [map_err]. fold (with_flags cmd' fetch).
  cbn [set_config config_chain_id NodeState_init ns_tasks ns_network ns_config ns_backend update_config get_config].
  fold (genesis_of (with_flags cmd' fetch)). rewrite Hg. cbn [unwrap]. unfold map_err_m, update_config.
  fold (configured (with_flags cmd' fetch)).
  destruct (new_full_run config (cmd_sealing cmd') url (rc_cache cmd') (with_flags cmd' fetch) g
    (configured (with_flags cmd' fetch)) Hs eq_refl) as (s' & -> & Hp).
  exists s'. split.
  - case_decide as Hd; destruct (manual_requested cmd); try done; naive_solver.
  - intros ? _ Hn. destruct Hp as [-> ->]; [rewrite Hm; congruence|]. cbn [configured ns_tasks ns_network app].
    split_and!; [|done|].
    + rewrite !elem_of_app. right. right. by left.
    + intros f u n. rewrite !not_elem_of_app. unfold telemetry_tasks, offchain_tasks.
      split_and!; [destruct (cf_telemetry_endpoints config) as [[]|]|destruct (cf_offchain_worker config)|];
      rewrite ?list_elem_of_singleton; first [apply not_elem_of_nil | discriminate].
Qed.

(** Substrate's configuration holds the specification of the chain the flags name. *)
Hypothesis runner_loads : ∀ load cmd config id,
  create_runner load cmd = Ok config → rc_chain cmd = Some id → load id = Ok (cf_chain_spec config).

(** C20: A node whose start succeeds was given an L1 endpoint and seals manually.  Its
    Substrate client is the one built with the configuration of its flags, the Starknet
    block 0 of the chosen network, and the storage of the chain specification.  It runs
    exactly the mapping worker, the Starknet worker, which starts after the client's best
    block with the configuration of the chosen network (its chain id, gateways and
    L1 contract), the sealing task, and Substrate's telemetry and off-chain tasks when
    they are enabled; the network is started, the global fetch configuration is the one
    of the worker, and the database has the flag of the command line.  In the two
    environments the storage that the client starts from has the genesis state of the
    main network, whatever the network chosen, and says that sealing is manual. *)
Theorem node_start cmd s' :
  run cmd NodeState_init = (s', Ok tt) →
  manual_requested cmd = true ∧
  ∃ cmd' config url fetch b0 g builder client db,
    environment pokemon cmd = Ok cmd' ∧ create_runner (load_spec (gw := alpha_mainnet) cmd') cmd' = Ok config ∧
    rc_l1_endpoint cmd = Some url ∧ fetch_config_of cmd fetch ∧
    @Fetch.get_block (provider fetch) 0 (Seq_Number 0) = Ok b0 ∧
    convert.convert_block_sync bonsai_new (Some (fc_chain_id fetch)) b0 = Ok g ∧
    cs_build_storage (cf_chain_spec config) = Ok (gb_genesis_storage builder) ∧ gb_genesis_block builder = g ∧
    new_full_parts config (build_genesis_block builder) = Ok client ∧
    ns_tasks s' = telemetry_tasks config ++ offchain_tasks config ++
      [mapping_task; sync_task fetch url (fc_best_number client); seal_task] ∧
    ns_network s' = true ∧ get_config (ns_config s') = Ok fetch ∧
    DeoxysBackend.mapping (ns_backend s') = Ok (db, rc_cache cmd) ∧
    (rc_dev cmd || rc_deoxys cmd = true →
     Sealing_get (gs_sealing (gb_genesis_storage builder)) = Sealing_Manual ∧
     ∃ su, @Fetch.get_state_update alpha_mainnet 0 (Seq_Number 0) = Ok su ∧
       gs_starknet (gb_genesis_storage builder) = genesis_state (GenesisData_from (Provider.state_diff su))).
Proof.
  intros (cmd' & config & url & fetch & g & He & Hr & Hu & Hf & Hg & Hn)%run_ok.
  destruct (environment_spec cmd cmd' He) as (E1 & E2 & E3 & E4 & E5 & E6 & Hm & Hdev & Hdx).
  apply new_full_ok in Hn as (Hsm & client & b & be & builder & Hb & Hbu & Hcl & ->). split; [by apply Hm|].
  destruct (open_fresh (cf_database config, db_config_dir config, rc_cache cmd') _ _ Hb)
    as [[_ ?]|(db & _ & _ & [[_ ?]|(be' & (Hmap & _) & Hbs & ?)])]; [done..|].
  apply genesis_of_ok in Hg as (b0 & Hb0 & Hg).
  apply builder_ok in Hbu as [Hst Hgb].
  exists cmd', config, url, fetch, b0, g, builder, client, db. split_and!; try done; try congruence.
  - unfold fetch_config_of in *. by rewrite <- E2, <- E4, <- E5, <- E6.
  - unfold DeoxysBackend.mapping, DeoxysBackend.accessor. cbn [ns_backend]. rewrite Hbs. simpl. by rewrite Hmap, <- E3.
  - intros Hdd. assert (∃ id, rc_chain cmd' = Some id ∧ (id = "dev"%string ∨ id = "starknet"%string)) as (id & Hid & Hor).
    { destruct (rc_dev cmd); [by eexists; split; [apply Hdev|left]|]. by eexists; split; [apply Hdx|right]. }
    pose proof (runner_loads _ _ _ _ Hr Hid) as Hl.
    destruct (load_spec_storage (gw := alpha_mainnet) _ _ _ _ Hl Hor Hst) as (_ & -> & Hsu). by split.
Qed.
End RunProperties.

(** ** The chain id of the network and that of the runtime *)

Section Networks.
Context {E1 E2 S Item F : Type} `{kv : KvStore E1 S} `{codecs : DbCodecs}.
Context `{items : DigestItems Item} `{client : SubstrateClient E2 Item} `{f64 : F64 F}.
Context `{Hlibs : !FeltLibsSpec libs} `{crypto : StarknetCrypto} `{Hca : !ContractAddressesSpec ca} `{hasher : HasherT}.
Context {Hkv : KvStoreSpec kv} {Hcodecs : DbCodecsSpec codecs} `{chain : ChainBackend E2}.
Variable cache : bool.

(** The runtime has the chain id of the main network only. *)
Lemma network_chain_id n c : NetworkType_chain_id n = Ok c → c = ChainId ↔ n = Main.
Proof.
  replace ChainId with (be_decode (bytes_of_string "SN_MAIN")) by (symmetry; apply (runtime_chain_id_main false 0)).
  destruct n; unfold NetworkType_chain_id; rewrite from_byte_slice_be_ok by (apply (bool_decide_unpack _); by vm_compute);
    cbv; naive_solver.
Qed.

(** C39: On a network other than the main one, no transaction of an indexed block is found
    by its hash on that network, whatever the number of its block: the mapping worker
    indexes transactions under hashes computed with the chain id of the runtime, which is
    always the main network's, and the client is asked for the hash computed with the
    configured network's.  (No list hashed for an indexed transaction collides with the
    one hashed for the transaction asked for, and the database does not fail.) *)
Theorem transactions_of_other_networks_not_found network net_cid all order (s : MappingSync.SyncState S F) h b tx :
  network ≠ Main → NetworkType_chain_id network = Ok net_cid →
  env_ok all → blocks_ok ChainId all → refines (contents (ss_db s)) (index_of cache ChainId order) →
  Forall (.∈ all) order → h ∈ order → wraps h b → tx ∈ transactions b → is_felt (tx_hash_of net_cid b tx) →
  (∀ x, recorded_from ChainId order x → compute_hash_on_elements x = tx_hash_of net_cid b tx →
     x = preimage tx net_cid false (Some (block_number (header b)))) →
  get_transaction_by_hash cache (ss_db s) (Some net_cid) (tx_hash_of net_cid b tx) = Err (Rpc_Api TxnHashNotFound).
Proof.
  intros Hn Hc. intros. eapply other_network_not_found; eauto. intros ->. by apply Hn, (network_chain_id _ _ Hc).
Qed.
End Networks.

Lemma model_chain_id : ChainId = mainnet_id.
Proof. by vm_compute. Qed.

(** On the test network the transaction has another hash, under which it is not found. *)
Lemma transactions_of_other_networks_not_found_witness :
  get_transaction_by_hash (E2 := unit) (kv := kv_model) (codecs := codecs_model) (items := log_items)
    (client := network_client) (crypto := crypto_small) (ca := address_model)
    (hasher := @PedersenHasher _ crypto_small) true network_store (Some sepolia_id)
    (tx_hash_of (crypto := crypto_small) (ca := address_model) (hasher := @PedersenHasher _ crypto_small) sepolia_id
       network_block tx_model) = Err (Rpc_Api TxnHashNotFound).
Proof.
  refine (transactions_of_other_networks_not_found (codecs := codecs_model) (items := log_items) (client := network_client)
    (crypto := crypto_small) (ca := address_model) (hasher := @PedersenHasher _ crypto_small) (kv := kv_model)
    (Hkv := kv_model_spec) true Test sepolia_id all_model [DHash 1] (state_of network_store) (DHash 1) network_block tx_model
    _ _ network_env _ _ _ _ _ _ _ _).
  - discriminate.
  - by vm_compute.
  - rewrite model_chain_id. exact network_blocks.
  - rewrite model_chain_id. exact network_refines.
  - apply Forall_singleton. unfold all_model. set_solver.
  - apply list_elem_of_singleton. reflexivity.
  - eexists. split; [reflexivity|]. split; [done|reflexivity].
  - apply list_elem_of_singleton. reflexivity.
  - vm_compute. split; [discriminate|reflexivity].
  - intros x (h & b & tx & _ & Hb & Htx & ->). rewrite (network_wraps h b Hb) in *.
    apply list_elem_of_singleton in Htx as ->. vm_compute. discriminate.
Defined.

(** ** Witnesses *)

Definition gateway_ready : Gateway := {|
  Fetch.get_block _ _ := Ok example_p_block;
  Fetch.get_state_update _ _ := Ok example_su;
  Fetch.get_class _ _ _ := Ok (rpc.Legacy example_legacy_class);
  Fetch.get_block_id_by_hash _ _ := Ok 0;
|}.

Definition spec_libs_model : SpecLibs string string unit unit unit := {|
  WASM_BINARY := Some [0; 97; 115; 109];
  aura_from_string := Some;
  grandpa_from_string := Some;
  frame_empty := tt;
  frame_assimilate_storage _ _ _ s := Ok s;
  from_json_file _ := Err "no such file"%string;
|}.

Definition services_model : Services unit unit unit := {|
  config_dir base id := base ++ ["chains"%string; id];
  telemetry_worker_new := Ok tt;
  new_db_backend _ := Ok tt;
  resolve_state_version_from_wasm _ := Ok 1;
  begin_operation := Ok tt;
  set_genesis_state _ _ _ := Ok (DHash 0);
  new_full_parts _ _ := Ok {| fc_block_hash_0 := Ok (Some (DHash 0)); fc_best_number := 0 |};
  grandpa_block_import _ := Ok tt;
  slot_duration _ := Ok SLOT_DURATION;
  aura_import_queue _ _ := Ok tt;
  build_network _ _ := Ok tt;
  spawn_tasks _ _ := Ok tt;
  start_aura _ _ := Ok tt;
  run_grandpa_voter _ := Ok tt;
|}.

Definition runner_model (load : string → Outcome string (ChainSpec unit unit unit)) (cmd : ExtendedRunCmd)
    : Outcome CliError (Configuration unit unit unit) :=
  spec ← map_err Cli_Other (load (default ""%string (rc_chain cmd)));
  Ok {| cf_chain_spec := spec; cf_base_path := ["base"%string]; cf_database := Source_RocksDb ["db"%string] 0;
        cf_telemetry_endpoints := Some (rc_telemetry_endpoints cmd); cf_keystore_in_memory := false;
        cf_is_authority := rc_alice cmd; cf_disable_grandpa := rc_no_grandpa cmd; cf_offchain_worker := false |}.

Lemma runner_model_loads load cmd config id :
  runner_model load cmd = Ok config → rc_chain cmd = Some id → load id = Ok (cf_chain_spec config).
Proof. unfold runner_model. intros H Hid. rewrite Hid in H. simpl in H. destruct (load id); by simplify_eq/=. Qed.

(** [--network main --l1-endpoint l1] and the environment flags. *)
Definition cmd_model (dev deoxys : bool) : ExtendedRunCmd := {|
  rc_dev := dev; rc_chain := None; rc_base_path := None; rc_name := None; rc_force_authoring := false; rc_alice := false;
  rc_tmp := false; rc_rpc_external := false; rc_rpc_methods := Rpc_Auto; rc_telemetry_endpoints := []; rc_no_grandpa := false;
  rc_sealing := None; rc_l1_endpoint := Some "l1"%string; rc_network := Main; rc_cache := true; rc_sound := false;
  rc_deoxys := deoxys; rc_disable_root := false; rc_gateway_key := None |}.

Abbreviation run_model := (run_node (svc := services_model) (sto := storage_model) (btp := trie_model) (btc := trie_model)
  (dc := unit_codecs) (sl := spec_libs_model) (bv := bounds_model) (crypto := crypto_small) (ca := address_model)
  (acc := accessors_model) (bt := trie_model) Some (λ _, Some 1) (Ok trie_empty) runner_model gateway_ready
  (λ _, gateway_ready) (Err "offline"%string)).

Definition start_model (cmd : ExtendedRunCmd) := run_model cmd NodeState_init.

Lemma start_model_ok : (start_model (cmd_model false true)).2 = Ok tt.
Proof. vm_compute. reflexivity. Qed.

(** The Deoxys environment: the storage the node starts from has the state that the
    gateway of the main network gives for its block 0. *)
Lemma node_start_witness :
  let s' := (start_model (cmd_model false true)).1 in
  ns_network s' = true ∧ (∃ db, DeoxysBackend.mapping (ns_backend s') = Ok (db, true)) ∧
  ∃ cmd' config storage su,
    environment (Err "offline"%string) (cmd_model false true) = Ok cmd' ∧
    runner_model (load_spec (sl := spec_libs_model) (gw := gateway_ready) cmd') cmd' = Ok config ∧
    cs_build_storage (cf_chain_spec config) = Ok storage ∧
    Fetch.get_state_update (Gateway := gateway_ready) 0 (Seq_Number 0) = Ok su ∧
    gs_starknet storage = genesis_state (GenesisData_from (Provider.state_diff su)).
Proof.
  destruct (node_start (svc := services_model) (sto := storage_model) (btp := trie_model) (btc := trie_model)
    (dc := unit_codecs) (sl := spec_libs_model) (bv := bounds_model) (crypto := crypto_small) (ca := address_model)
    (acc := accessors_model) (bt := trie_model) Some (λ _, Some 1) (Ok trie_empty) runner_model gateway_ready
    (λ _, gateway_ready) (Err "offline"%string) runner_model_loads (cmd_model false true)
    (start_model (cmd_model false true)).1) as (_ & cmd' & config & url & fetch & b0 & g & builder & client & db &
      He & Hc & _ & _ & _ & _ & Hst & _ & _ & _ & H1 & _ & H2 & Hg).
  - rewrite <- start_model_ok. apply surjective_pairing.
  - split; [exact H1|]. split; [exists db; exact H2|]. destruct (Hg eq_refl) as (_ & su & Hsu & Hgs).
    exists cmd', config, (gb_genesis_storage builder), su. exact (conj He (conj Hc (conj Hst (conj Hsu Hgs)))).
Defined.

(** A start with [--dev] alone panics. *)
Lemma start_decided_witness : ∃ s', start_model (cmd_model true false) = (s', Panic) ∧ mapping_task ∈ ns_tasks s'.
Proof.
  destruct (start_decided (svc := services_model) (sto := storage_model) (btp := trie_model) (btc := trie_model)
    (dc := unit_codecs) (sl := spec_libs_model) (bv := bounds_model) (crypto := crypto_small) (ca := address_model)
    (acc := accessors_model) (bt := trie_model) Some (λ _, Some 1) (Ok trie_empty) runner_model gateway_ready
    (λ _, gateway_ready) (Err "offline"%string) (cmd_model true false)) as (s' & Hr & Hp).
  - eexists _, _, _, _. split; [reflexivity|]. split; [reflexivity|]. split; [reflexivity|]. split; [vm_compute; reflexivity|].
    split; [done|done| |].
    + eexists _, _. split; [reflexivity|]. split; [reflexivity|]. split; try done; eauto.
    + eexists _, _. reflexivity.
  - exists s'. split; [exact Hr|]. by destruct (Hp "l1"%string eq_refl eq_refl) as (? & _).
Defined.
