(* ===== verification/Setup.v ===== *)
(** * Setup: the [setup] subcommand ([node/src/commands/setup.rs], [configs.rs])

    The command copies a chain's [index.json] and the genesis assets it lists, from a
    directory or from a URL, below the configuration directory of the node.  The file
    system is the class [FileSystem] with a specification; downloads, the parser of the
    index and the hash function are parameters.  An effect that fails keeps what was
    written before. *)

From S2P Require Import Prelude Felt.

(** ** Paths (std::path) *)

(** A path is its text. *)
Definition slash : Z := 47.
Definition dot : Z := 46.

(** [Path::join]: an absolute path replaces the directory. *)
Definition join (self path : bytes) : bytes :=
  match path with
  | c :: _ => if decide (c = slash) then path
              else match last self with
                   | Some l => if decide (l = slash) then self ++ path else self ++ [slash] ++ path
                   | None => path
                   end
  | [] => match last self with
          | Some l => if decide (l = slash) then self else self ++ [slash]
          | None => []
          end
  end.

(** [Path::parent] on the reversed text: what follows the last separator is dropped;
    separators and [.] components at the end count for nothing, the root has no
    parent. *)
Fixpoint trim_rev (r : bytes) : bytes :=
  match r with
  | c :: ((d :: _) as rest) =>
      if decide (c = slash ∨ (c = dot ∧ d = slash)) then trim_rev rest else r
  | _ => r
  end.
Fixpoint drop_component (r : bytes) : bytes :=
  match r with
  | [] => []
  | c :: r' => if decide (c = slash) then r else drop_component r'
  end.
Definition parent (path : bytes) : option bytes :=
  let r := trim_rev (reverse path) in
  match r with
  | [] => None
  | [c] => if decide (c = slash) then None else Some []
  | _ => Some (reverse (trim_rev (drop_component r)))
  end.

Example parent_file : parent (bytes_of_string "/c/genesis-assets/a.json") = Some (bytes_of_string "/c/genesis-assets").
Proof. reflexivity. Qed.
Example parent_root : parent (bytes_of_string "//a") = Some (bytes_of_string "/") ∧ parent (bytes_of_string "/") = None.
Proof. by split. Qed.
Example join_absolute : join (bytes_of_string "/c") (bytes_of_string "/etc/x") = bytes_of_string "/etc/x".
Proof. reflexivity. Qed.

(** ** The configuration (configs.rs) *)

Record FileInfos := { fi_name : bytes; fi_sha3_256 : option bytes; fi_url : option bytes }.
Record Configs := { cf_remote_base_path : bytes; cf_genesis_assets : list FileInfos }.

Definition GENESIS_ASSETS_DIR : bytes := bytes_of_string "genesis-assets/".

Inductive SetupError := Application | Input (what : string) | Io | NoSource (path : bytes).

(** [std::fs]: an operation that fails may have changed the file it is about. *)
Class FileSystem (FS : Type) := {
  fs_exists : FS → bytes → bool;
  fs_read : FS → bytes → option bytes;
  fs_create_dir_all : bytes → SyncM FS unit unit;
  fs_create : bytes → SyncM FS unit unit;             (* [File::create] truncates *)
  fs_copy : bytes → bytes → SyncM FS unit unit;       (* [io::copy] into the created file *)
}.
(** [file] is the file a path leads to. *)
Class FileSystemSpec {FS} (fs : FileSystem FS) := {
  file : bytes → bytes;
  create_dir_all_read s p s' r q : fs_create_dir_all p s = (s', r) → fs_read s' q = fs_read s q;
  create_read s p s' r q : fs_create p s = (s', r) → file q ≠ file p → fs_read s' q = fs_read s q;
  copy_frame s p c s' r q : fs_copy p c s = (s', r) → file q ≠ file p → fs_read s' q = fs_read s q;
  copy_read s p c s' : fs_copy p c s = (s', Ok tt) → fs_read s' p = Some c;
}.

(** The libraries: URLs, downloads, the parser of the index, SHA3-256, Substrate's paths. *)
Class SetupLibs (Url : Type) := {
  url_parse : bytes → option Url;
  url_join : Url → bytes → option Url;
  url_to_string : Url → bytes;
  http_get : Url → option bytes;
  configs_from_slice : bytes → option Configs;
  sha3_256_hex : bytes → bytes;
  default_base_path : bytes;
  base_config_dir : bytes → bytes → bytes;
}.

Inductive ConfigSource (Url : Type) := Local (path : bytes) | Remote (url : Url).
Arguments Local {Url}. Arguments Remote {Url}.

Record SetupSource := { from_remote : option bytes; from_local : option bytes }.
Record SetupCmd := { sc_chain : option bytes; sc_base_path : option bytes; sc_source : SetupSource }.

Section Setup.
Context {FS Url : Type} `{fs : FileSystem FS} `{sl : SetupLibs Url}.
Abbreviation M := (SyncM FS SetupError).

Definition chain_id (self : SetupCmd) : bytes := default [] (sc_chain self).
Definition base_path (self : SetupCmd) : option bytes := sc_base_path self.

(** A read of the file system. *)
Definition read_file {E} (e : E) (path : bytes) : SyncM FS E bytes := λ s, (s, ok_or e (fs_read s path)).
Definition io {A} (m : SyncM FS unit A) : M A := map_err_m (λ _, Io) m.

Definition display (self : ConfigSource Url) (child_path : list bytes) : Outcome SetupError bytes :=
  match self with
  | Local path_buf => Ok (foldl join path_buf child_path)
  | Remote url =>
      full ← foldl (λ full child, full ← full; ok_or Application (url_join full child)) (Ok url) child_path;
      Ok (url_to_string full)
  end.

Definition load_config (self : ConfigSource Url) : M bytes :=
  match self with
  | Local source_configs_path => read_file Application (join source_configs_path (bytes_of_string "index.json"))
  | Remote source_configs_url => lift (ok_or Application (http_get source_configs_url))
  end.

Definition load_asset (self : ConfigSource Url) (asset : FileInfos) : M bytes :=
  match self with
  | Local source_config_dir_path =>
      let asset_path := join (join source_config_dir_path GENESIS_ASSETS_DIR) (fi_name asset) in
      exists_ ← (λ s, (s, Ok (fs_exists s asset_path)));
      if exists_ : bool then read_file Io asset_path else fail (NoSource asset_path)
  | Remote source_configs_dir_url =>
      dir_url ← lift (ok_or Application (url_join source_configs_dir_url GENESIS_ASSETS_DIR));
      full_url ← lift (ok_or Application (url_join dir_url (fi_name asset)));
      lift (ok_or Application (http_get full_url))
  end.

Definition write_content_to_disk (config_content dest_config_file_path : bytes) : M unit :=
  dir ← lift (unwrap_opt (parent dest_config_file_path));
  _ ← io (fs_create_dir_all dir);
  _ ← io (fs_create dest_config_file_path);
  io (fs_copy dest_config_file_path config_content).

(** One iteration of the loop over the assets. *)
Definition setup_asset (config_source : ConfigSource Url) (assets_dir_dest_path : bytes) (asset : FileInfos) : M unit :=
  asset_file_content ← load_asset config_source asset;
  _ ← (match fi_sha3_256 asset with
       | Some file_hash =>
           if decide (sha3_256_hex asset_file_content = file_hash) then mret tt else fail (Input "Hash mismatch")
       | None => mret tt
       end);
  let asset_dest_path := join assets_dir_dest_path (fi_name asset) in
  _ ← lift (display config_source [GENESIS_ASSETS_DIR; fi_name asset]);
  write_content_to_disk asset_file_content asset_dest_path.

Fixpoint setup_assets (config_source : ConfigSource Url) (assets_dir_dest_path : bytes) (assets : list FileInfos) : M unit :=
  match assets with
  | [] => mret tt
  | asset :: assets =>
      _ ← setup_asset config_source assets_dir_dest_path asset;
      setup_assets config_source assets_dir_dest_path assets
  end.

Definition dest_config_dir_path (self : SetupCmd) : bytes :=
  base_config_dir (default default_base_path (base_path self)) (chain_id self).

Definition config_source_of (self : SetupCmd) : Outcome SetupError (ConfigSource Url) :=
  match from_local (sc_source self), from_remote (sc_source self) with
  | Some src_cfg_dir_path, _ => Ok (Local src_cfg_dir_path)
  | None, Some src_cfg_dir_url =>
      Remote <$> ok_or (Input "invalid input for 'fetch_madara_configs'") (url_parse src_cfg_dir_url)
  | None, None => Panic
  end.

Definition SetupCmd_run (self : SetupCmd) : M unit :=
  let dest_config_dir_path := dest_config_dir_path self in
  config_source ← lift (config_source_of self);
  configs_file_content ← load_config config_source;
  configs ← lift (ok_or Application (configs_from_slice configs_file_content));
  _ ← write_content_to_disk configs_file_content (join dest_config_dir_path (bytes_of_string "index.json"));
  let assets_dir_dest_path := join dest_config_dir_path GENESIS_ASSETS_DIR in
  setup_assets config_source assets_dir_dest_path (cf_genesis_assets configs).
End Setup.

(** ** Properties *)

Section Properties.
Context {FS Url : Type} `{fs : FileSystem FS} {Hfs : FileSystemSpec fs} `{sl : SetupLibs Url}.

(** [m] changes only the files that [P] holds of. *)
Definition touches {A} (P : bytes → Prop) (m : SyncM FS SetupError A) : Prop :=
  ∀ s s' r q, m s = (s', r) → ¬ P (file q) → fs_read s' q = fs_read s q.

Lemma touches_lift {A} P (m : Outcome SetupError A) : touches P (lift m).
Proof. by intros s s' r q [= <- _]. Qed.
Lemma touches_bind {A B} P (m : SyncM FS SetupError A) (f : A → SyncM FS SetupError B) :
  touches P m → (∀ a, touches P (f a)) → touches P (m ≫= f).
Proof.
  intros Hm Hf s s' r q H Hq. change ((m ≫= f) s) with (SyncM_bind A B f m s) in H. unfold SyncM_bind in H.
  destruct (m s) as [s1 [a|e|]] eqn:E; [|injection H as <- _; by eapply Hm..].
  rewrite (Hf a s1 s' r q) by done. by eapply Hm.
Qed.
Lemma touches_weaken {A} (P Q : bytes → Prop) (m : SyncM FS SetupError A) :
  touches P m → (∀ p, P p → Q p) → touches Q m.
Proof. intros H HPQ s s' r q Hr Hq. eapply H; [done|]. intros Hp. by apply Hq, HPQ. Qed.

Lemma touches_read P {A} (f : FS → Outcome SetupError A) : touches P (λ s, (s, f s)).
Proof. by intros s s' r q [= <- _]. Qed.

Lemma touches_io {A} P (m : SyncM FS unit A) :
  (∀ s s' r q, m s = (s', r) → ¬ P (file q) → fs_read s' q = fs_read s q) → touches P (io m).
Proof.
  intros H s s' r q. unfold io, map_err_m. destruct (m s) as [s1 r1] eqn:E. intros [= <- _]. by eapply H.
Qed.

Lemma write_touches c p : touches (λ f, f = file p) (write_content_to_disk c p).
Proof.
  apply touches_bind; [apply touches_lift|]. intros dir.
  apply touches_bind; [apply touches_io; intros; by eapply create_dir_all_read|]. intros _.
  apply touches_bind; [apply touches_io; intros; by eapply create_read|]. intros _.
  apply touches_io. intros. by eapply copy_frame.
Qed.

Lemma write_ok c p s s' : write_content_to_disk c p s = (s', Ok tt) → fs_read s' p = Some c.
Proof.
  unfold write_content_to_disk. intros H. sync_inv.
  match goal with H : io (fs_copy _ _) ?s = _ |- _ => unfold io, map_err_m in H; destruct (fs_copy p c s) as [? [[]| |]] eqn:E end;
    simplify_eq/=. by eapply copy_read.
Qed.

Lemma load_asset_touches P src a : touches P (load_asset src a).
Proof.
  destruct src; simpl; [apply touches_bind; [apply touches_read|]; intros []; [apply touches_read|apply touches_lift]|].
  repeat (apply touches_bind; [apply touches_lift|]; intros ?). apply touches_lift.
Qed.

Lemma setup_asset_touches src dir a :
  touches (λ f, f = file (join dir (fi_name a))) (setup_asset src dir a).
Proof.
  apply touches_bind; [apply load_asset_touches|]. intros c. apply touches_bind; [|intros _].
  { destruct (fi_sha3_256 a); [case_decide|]; apply (touches_lift _ (Ok tt)) || apply touches_lift. }
  apply touches_bind; [apply touches_lift|]. intros _. apply write_touches.
Qed.

(** Where the assets go. *)
Definition dest (dir : bytes) (a : FileInfos) : bytes := file (join dir (fi_name a)).

Lemma setup_assets_touches src dir assets : touches (.∈ dest dir <$> assets) (setup_assets src dir assets).
Proof.
  induction assets as [|a assets IH]; simpl; [apply (touches_lift _ (Ok tt))|].
  apply touches_bind; [|intros _]; (eapply touches_weaken; [apply setup_asset_touches || apply IH|]);
    intros p Hp; rewrite elem_of_cons; auto.
Qed.

(** A verified asset. *)
Definition verified (s : FS) (dir : bytes) (a : FileInfos) : Prop :=
  ∃ c, fs_read s (join dir (fi_name a)) = Some c ∧ ∀ h, fi_sha3_256 a = Some h → sha3_256_hex c = h.

Lemma setup_asset_ok src dir a s s' : setup_asset src dir a s = (s', Ok tt) → verified s' dir a.
Proof.
  unfold setup_asset. intros H. apply bind_ok in H as (s1 & c & _ & H).
  apply bind_ok in H as (s2 & [] & Hh & H). apply bind_ok in H as (s3 & d & _ & H).
  exists c. split; [by eapply write_ok|]. intros h Hs. rewrite Hs in Hh. by case_decide.
Qed.

(** An asset is verified when no later one is written to its file. *)
Lemma setup_assets_ok src dir assets s s' i a :
  setup_assets src dir assets s = (s', Ok tt) → assets !! i = Some a →
  dest dir a ∉ dest dir <$> drop (S i) assets → verified s' dir a.
Proof.
  revert s i. induction assets as [|a0 assets IH]; intros s i; [done|]. cbn [setup_assets].
  intros (s1 & [] & H1 & H2)%bind_ok. destruct i as [|i]; cbn [lookup list_lookup drop]; [|by eapply IH].
  intros [= ->] Hd. destruct (setup_asset_ok _ _ _ _ _ H1) as (c & Hc & Hh). exists c. split; [|done].
  by rewrite (setup_assets_touches src dir assets _ _ _ _ H2).
Qed.

(** The index a run starts with. *)
Definition loaded (self : SetupCmd) (s : FS) : Outcome SetupError (ConfigSource Url * bytes * Configs) :=
  src ← config_source_of self;
  c ← (load_config src s).2;
  configs ← ok_or Application (configs_from_slice c);
  Ok (src, c, configs).

Lemma load_config_state src s : load_config src s = (s, (load_config src s).2).
Proof. by destruct src. Qed.

(** C40: A run of [setup] that fails to load or parse the index changes nothing.
    Otherwise it changes only the copy of the index and the files of the assets, whether
    it succeeds or not; when it succeeds, the index is the one loaded unless an asset is
    written to its file, and every asset that has a checksum has it unless a later entry
    of the list is written to its file: of the entries that share a file, the file has the
    checksum of the last one. *)
Theorem setup_verified self s s' r :
  SetupCmd_run self s = (s', r) →
  match loaded self s with
  | Ok (src, content, configs) =>
      let index := join (dest_config_dir_path self) (bytes_of_string "index.json") in
      let dir := join (dest_config_dir_path self) GENESIS_ASSETS_DIR in
      (∀ q, file q ≠ file index → file q ∉ dest dir <$> cf_genesis_assets configs → fs_read s' q = fs_read s q) ∧
      (r = Ok tt →
       (file index ∉ dest dir <$> cf_genesis_assets configs → fs_read s' index = Some content) ∧
       ∀ i a, cf_genesis_assets configs !! i = Some a →
         dest dir a ∉ dest dir <$> drop (S i) (cf_genesis_assets configs) →
         ∃ c, fs_read s' (join dir (fi_name a)) = Some c ∧ ∀ h, fi_sha3_256 a = Some h → sha3_256_hex c = h)
  | _ => s' = s ∧ r ≠ Ok tt
  end.
Proof.
  unfold SetupCmd_run, loaded. run_m. unfold mbind, Outcome_bind.
  destruct (config_source_of self) as [src| |]; [|by intros [= <- <-]..].
  rewrite load_config_state. cbn [snd]. destruct (load_config src s).2 as [c| |]; [|by intros [= <- <-]..].
  destruct (configs_from_slice c) as [configs|]; cbn [ok_or]; [|by intros [= <- <-]].
  set (index := join _ _). set (dir := join _ GENESIS_ASSETS_DIR).
  destruct (write_content_to_disk c index s) as [s1 r1] eqn:Hw. pose proof (λ q, write_touches c index s s1 r1 q Hw) as Hf.
  destruct r1 as [[]|e|]; [|intros [= <- <-]; split; [intros q Hq _; by apply Hf|done]..].
  intros Ha. split.
  - intros q Hi Hn. rewrite (setup_assets_touches src dir _ _ _ _ q Ha Hn). by apply Hf.
  - intros ->. split; [intros Hi|intros i a Hi Hd; exact (setup_assets_ok _ _ _ _ _ i a Ha Hi Hd)].
    rewrite (setup_assets_touches src dir _ _ _ _ index Ha Hi). by eapply write_ok.
Qed.

(** An asset whose name is an absolute path is written there, outside the directory of
    the assets. *)
Lemma absolute_asset dir name : head name = Some slash → join dir name = name.
Proof. by destruct name; intros [= ->]. Qed.
End Properties.

(** ** Witness: a source directory with one asset *)

Abbreviation Files := (gmap bytes bytes).
Definition files_model : FileSystem Files := {|
  fs_exists s p := bool_decide (is_Some (s !! p));
  fs_read s p := s !! p;
  fs_create_dir_all p := λ s, (s, Ok tt);
  fs_create p := λ s, (<[p := []]> s, Ok tt);
  fs_copy p c := λ s, (<[p := c]> s, Ok tt);
|}.
Definition files_model_spec : FileSystemSpec files_model.
Proof.
  refine {| file := id |}; simpl.
  - by intros ????? [= <- _].
  - intros ????? [= <- _] ?. by apply lookup_insert_ne.
  - intros ?????? [= <- _] ?. by apply lookup_insert_ne.
  - intros ???? [= <-]. apply lookup_insert_eq.
Defined.

Definition asset_model : FileInfos := {| fi_name := bytes_of_string "a"; fi_sha3_256 := Some [1]; fi_url := None |}.
Definition setup_libs_model : SetupLibs bytes := {|
  url_parse := Some; url_join u p := Some (u ++ p); url_to_string := id; http_get _ := None;
  configs_from_slice _ := Some {| cf_remote_base_path := []; cf_genesis_assets := [asset_model] |};
  sha3_256_hex c := [Z.of_nat (length c)];
  default_base_path := bytes_of_string "/home"; base_config_dir base chain := join (join base (bytes_of_string "chains")) chain;
|}.
Definition setup_model : SetupCmd :=
  {| sc_chain := Some (bytes_of_string "x"); sc_base_path := None;
     sc_source := {| from_remote := None; from_local := Some (bytes_of_string "/src") |} |}.
Definition source_files : Files :=
  {[ bytes_of_string "/src/index.json" := [9]; bytes_of_string "/src/genesis-assets/a" := [7] ]}.
Definition setup_run : Files * Outcome SetupError unit :=
  SetupCmd_run (fs := files_model) (sl := setup_libs_model) setup_model source_files.

Lemma setup_verified_witness :
  setup_run.2 = Ok tt ∧
  fs_read (FileSystem := files_model) setup_run.1 (bytes_of_string "/home/chains/x/index.json") = Some [9] ∧
  ∃ c, fs_read (FileSystem := files_model) setup_run.1 (bytes_of_string "/home/chains/x/genesis-assets/a") = Some c ∧
    sha3_256_hex (SetupLibs := setup_libs_model) c = [1].
Proof.
  split; [by vm_compute|].
  pose proof (setup_verified (Hfs := files_model_spec) (sl := setup_libs_model) setup_model source_files
    setup_run.1 setup_run.2 (surjective_pairing _)) as H.
  replace (loaded (fs := files_model) (sl := setup_libs_model) setup_model source_files)
    with (Ok (Local (bytes_of_string "/src"), [9], {| cf_remote_base_path := []; cf_genesis_assets := [asset_model] |})
          : Outcome SetupError (ConfigSource bytes * bytes * Configs)) in H by (symmetry; by vm_compute).
  destruct H as [_ H]. destruct (H ltac:(by vm_compute)) as [Hi Ha]. split.
  - apply Hi. apply (bool_decide_unpack _). by vm_compute.
  - destruct (Ha 0%nat asset_model eq_refl) as (c & Hc & Hh); [apply not_elem_of_nil|].
    exists c. split; [exact Hc|exact (Hh _ eq_refl)].
Defined.
