(* ===== verification/Cli.v ===== *)
(** * Cli: the command line ([node/src/cli.rs], [command.rs])

    Dispatch of the subcommands.  What a Substrate command does with the chain it is
    given is a parameter; which of them open the chain, and with what, is the node's
    own code. *)

From S2P Require Import Prelude Felt Hashers Transactions TxHash CoreTx Broadcast Blocks Db BonsaiDb Tries Commitments.
From S2P Require Import Backend Convert Fetch Pallet Runtime Genesis Setup Node.

Inductive BenchmarkCmd := Bench_Pallet | Bench_Block | Bench_Storage | Bench_Overhead | Bench_Extrinsic | Bench_Machine.

(** Without the features [try-runtime] and [runtime-benchmarks], the default ones. *)
Inductive Subcommand :=
| Cmd_Benchmark (cmd : BenchmarkCmd)
| Cmd_BuildSpec | Cmd_ChainInfo | Cmd_CheckBlock | Cmd_ExportBlocks | Cmd_ExportState | Cmd_ImportBlocks
| Cmd_Key | Cmd_PurgeChain | Cmd_Revert | Cmd_Setup (cmd : SetupCmd) | Cmd_TryRuntimeDisabled.

Record Cli := { subcommand : option Subcommand; cli_run : ExtendedRunCmd }.

Section Command.
Context {E S BP BC FS Prog V1 AuraId GrandpaId B : Type}.
Context `{svc : Services FS Prog V1} `{sto : Storage E S BP BC} `{btp : BonsaiTrie BP} `{btc : BonsaiTrie BC}.
Context `{dc : DigestCodecs Prog V1} `{sl : SpecLibs AuraId GrandpaId FS Prog V1} `{libs : FeltLibs}.
Context `{bv : BoundsFromVec} `{crypto : StarknetCrypto} `{ca : ContractAddresses} `{acc : TxAccessors} `{bt : BonsaiTrie B}.
Context {Disk Url : Type} `{fs : FileSystem Disk} `{ssl : SetupLibs Url}.
Variable parse_url : string → option string.
Variable parse_h160 : string → option Z.
Variable bonsai_new : Outcome unit B.
(** [create_runner] of the run command, and of a subcommand. *)
Variable create_runner : (string → Outcome string (ChainSpec FS Prog V1)) → ExtendedRunCmd → Outcome CliError (Configuration FS Prog V1).
Variable create_sub_runner : (string → Outcome string (ChainSpec FS Prog V1)) → Subcommand → Outcome CliError (Configuration FS Prog V1).
Variable alpha_mainnet : Gateway.
Variable provider : FetchConfig → Gateway.
Variable pokemon : Outcome string string.
(** The command itself, on the configuration or on the opened chain. *)
Variable cmd_run : Subcommand → Outcome CliError unit.
Abbreviation St := (NodeState S BP BC * Disk)%type.
Abbreviation M := (SyncM St CliError).

Definition on_node {A} (m : SyncM (NodeState S BP BC) CliError A) : M A := λ '(n, d),
  let '(n', r) := m n in ((n', d), r).
Definition on_disk {A} (m : SyncM Disk CliError A) : M A := λ '(n, d),
  let '(d', r) := m d in ((n, d'), r).

(** [impl_name], [support_url] and [copyright_start_year] *)
Definition support_url : string := "https://kasar.io".
Definition copyright_start_year : Z := 2017.

(** [service::new_chain_ops(&mut config, cli.run.cache)?] *)
Definition chain_ops (cli : Cli) (config : Configuration FS Prog V1) : M FullClient :=
  on_node (map_err_m Cli_Service (new_chain_ops config (rc_cache (cli_run cli)))).

(** The subcommands that work on an opened chain. *)
Definition on_chain (cli : Cli) (cmd : Subcommand) (config : Configuration FS Prog V1) : M unit :=
  _ ← chain_ops cli config;
  lift (cmd_run cmd).

Definition run_benchmark (cli : Cli) (cmd : BenchmarkCmd) (config : Configuration FS Prog V1) : M unit :=
  match cmd with
  | Bench_Pallet => fail (Cli_Other "Runtime benchmarking wasn't enabled when building the node. You can enable it with `--features runtime-benchmarks`.")
  | Bench_Storage => fail (Cli_Other "Storage benchmarking can be enabled with `--features runtime-benchmarks`.")
  | Bench_Machine => lift (cmd_run (Cmd_Benchmark cmd))
  | Bench_Block | Bench_Overhead | Bench_Extrinsic => on_chain cli (Cmd_Benchmark cmd) config
  end.

Definition run (cli : Cli) : M unit :=
  let load := load_spec (gw := alpha_mainnet) (cli_run cli) in
  match subcommand cli with
  | Some Cmd_Key => lift (cmd_run Cmd_Key)
  | Some Cmd_TryRuntimeDisabled =>
      fail (Cli_Other "TryRuntime wasn't enabled when building the node. You can enable it with `--features try-runtime`.")
  | Some (Cmd_Setup cmd) => on_disk (map_err_m (λ _, Cli_Other "setup") (SetupCmd_run cmd))
  | Some ((Cmd_BuildSpec | Cmd_PurgeChain | Cmd_ChainInfo) as cmd) =>
      _ ← lift (create_sub_runner load cmd);
      lift (cmd_run cmd)
  | Some ((Cmd_CheckBlock | Cmd_ExportBlocks | Cmd_ExportState | Cmd_ImportBlocks | Cmd_Revert) as cmd) =>
      config ← lift (create_sub_runner load cmd);
      on_chain cli cmd config
  | Some (Cmd_Benchmark bench) =>
      config ← lift (create_sub_runner load (Cmd_Benchmark bench));
      run_benchmark cli bench config
  | None => on_node (run_node parse_url parse_h160 bonsai_new create_runner alpha_mainnet provider pokemon (cli_run cli))
  end.

(** ** A subcommand never synchronises *)

(** The node is idle: no network, no global configuration, no task but telemetry's. *)
Definition idle (s : St) : Prop :=
  ns_network s.1 = false ∧ ns_config s.1 = None ∧ Forall (λ t, t_job t = Job_Telemetry) (ns_tasks s.1).

Definition keeps_idle {A} (m : M A) : Prop := ∀ s s' r, idle s → m s = (s', r) → idle s'.

Lemma keeps_idle_lift {A} (m : Outcome CliError A) : keeps_idle (lift m).
Proof. by intros s s' r Hs [= <- _]. Qed.
Lemma keeps_idle_bind {A A'} (m : M A) (f : A → M A') : keeps_idle m → (∀ a, keeps_idle (f a)) → keeps_idle (m ≫= f).
Proof.
  intros Hm Hf s s' r Hs H. change ((m ≫= f) s) with (SyncM_bind A A' f m s) in H. unfold SyncM_bind in H.
  destruct (m s) as [s1 [a|e|]] eqn:E1; [eapply Hf; [|done]; by eapply Hm|injection H as <- _; by eapply Hm..].
Qed.
Lemma keeps_idle_disk {A} (m : SyncM Disk CliError A) : keeps_idle (on_disk m).
Proof. intros [n d] s' r Hs H. unfold on_disk in H. destruct (m d). by injection H as <- _. Qed.

(** Every step of [new_partial] leaves the node idle. *)
Lemma new_partial_idle config cache g s s' r d :
  new_partial config build_aura_grandpa_import_queue cache g s = (s', r) → idle (s, d) → idle (s', d).
Proof.
  unfold new_partial, open_backend, build_aura_grandpa_import_queue. run_m. intros H (Hn & Hc & Ht).
  repeat match type of H with
  | context [match ?x with _ => _ end] =>
      match x with
      | context [match _ with _ => _ end] => fail 1
      | _ => destruct x; simpl in H
      end
  end; simplify_eq; unfold idle; simpl in *; split_and!; try done;
  rewrite ?Forall_app; by repeat constructor.
Qed.

Lemma chain_ops_idle cli config : keeps_idle (chain_ops cli config).
Proof.
  intros [n d] s' r Hs H. unfold chain_ops, on_node, map_err_m, new_chain_ops in H.
  destruct (new_partial _ _ _ _ n) as [n' r'] eqn:E'. injection H as <- _. by eapply new_partial_idle.
Qed.

Lemma on_chain_idle cli cmd config : keeps_idle (on_chain cli cmd config).
Proof. apply keeps_idle_bind; [apply chain_ops_idle|]. intros _. apply keeps_idle_lift. Qed.

(** A subcommand never starts the network, the workers or the sealing: only a run without
    one does. *)
Theorem subcommands_never_synchronise cli cmd : subcommand cli = Some cmd → keeps_idle (run cli).
Proof.
  intros H. unfold run. rewrite H. destruct cmd as [[]| | | | | | | | | | | ];
    first [apply keeps_idle_lift | apply keeps_idle_disk
      | apply keeps_idle_bind; [apply keeps_idle_lift|]; intros ?;
        first [apply on_chain_idle | apply keeps_idle_lift]].
Qed.
End Command.
