(* ===== verification/Tui.v ===== *)
(** * Tui: the terminal dashboard ([crates/tui/src])

    The dashboard keeps the last hundred readings of each sensor and the last hundred
    log lines of each layer ([app.rs]), takes them from the system ([radar.rs]) and from
    the writer of the logger ([logging.rs]), and draws a frame after each update until a
    key ends it ([deoxys_ui.rs], [ui]).  A frame is the list of the widgets drawn on it,
    without their borders, markers and time axes.
    [f64] is the binary64 of the Standard Library's [SpecFloat].  What the system
    answers is the record [Readings]; ratatui, the splines, chrono and humansize are the
    class [TuiLibs].  The copy of Substrate's logger under [tui/substrate] is not the
    node's code. *)

From Stdlib Require Import Floats.SpecFloat.
From S2P Require Import Prelude.

(** ** Numbers ([f64]) and texts (lists of [char]) *)

Abbreviation f64 := spec_float.
Abbreviation text := (list Z).
Abbreviation Res := (Outcome Empty_set).

#[global] Instance f64_eq_dec : EqDecision f64.
Proof. solve_decision. Defined.

Definition fadd : f64 → f64 → f64 := SFadd 53 1024.
Definition fsub : f64 → f64 → f64 := SFsub 53 1024.
Definition fmul : f64 → f64 → f64 := SFmul 53 1024.
Definition fdiv : f64 → f64 → f64 := SFdiv 53 1024.
Definition fsqrt : f64 → f64 := SFsqrt 53 1024.

(** [x as f64] of an integer, and the literals: a decimal literal is the nearest number,
    as is the quotient of two integers. *)
Definition of_int (z : Z) : f64 := binary_normalize 53 1024 z 0 false.
Definition f64_zero : f64 := of_int 0.

(** [f64::round] (half away from zero) and [f64::ceil]. *)
Definition f64_round (x : f64) : f64 :=
  match x with
  | S754_finite s m e =>
      if 0 <=? e then x
      else let d := 2 ^ (- e) in
           binary_normalize 53 1024 (cond_Zopp s ((2 * Zpos m + d) / (2 * d))) 0 s
  | _ => x
  end.

Definition f64_ceil (x : f64) : f64 :=
  match x with
  | S754_finite s m e =>
      if 0 <=? e then x
      else let d := 2 ^ (- e) in
           binary_normalize 53 1024 (if s then - (Zpos m / d) else (Zpos m + d - 1) / d) 0 s
  | _ => x
  end.

(** [x as usize]: saturating, and 0 for what is not a number. *)
Definition f64_as_usize (x : f64) : Z :=
  match x with
  | S754_finite false m e => Z.min (Z.shiftl (Zpos m) e) u64_max
  | S754_infinity false => u64_max
  | _ => 0
  end.

(** [Vec::rotate_left(1)], and [v[i] = x], which panics out of range. *)
Definition rotate_left {A} (v : list A) : list A :=
  match v with [] => [] | x :: v => v ++ [x] end.

Definition set_at {A} (i : nat) (x : A) (v : list A) : Res (list A) :=
  if bool_decide (i < length v)%nat then Ok (<[i := x]> v) else Panic.

(** [char::is_whitespace] and [str::split_whitespace]. *)
Definition is_whitespace (c : Z) : bool :=
  (9 <=? c) && (c <=? 13) || (c =? 32) || (c =? 0x85) || (c =? 0xA0) || (c =? 0x1680) ||
  (0x2000 <=? c) && (c <=? 0x200A) || (c =? 0x2028) || (c =? 0x2029) || (c =? 0x202F) ||
  (c =? 0x205F) || (c =? 0x3000).

Fixpoint split_whitespace_from (word : text) (s : text) : list text :=
  let done_word := if decide (word = []) then [] else [word] in
  match s with
  | [] => done_word
  | c :: s => if is_whitespace c then done_word ++ split_whitespace_from [] s
              else split_whitespace_from (word ++ [c]) s
  end.
Definition split_whitespace : text → list text := split_whitespace_from [].

(** [[&str]::join(" ")]. *)
Fixpoint join_space (l : list text) : text :=
  match l with [] => [] | [x] => x | x :: l => x ++ [32] ++ join_space l end.

(** [String::from_utf8_lossy]: a byte sequence that starts no character is replaced, up to
    the first byte that cannot continue it. *)
Definition utf8_plan (b0 : Z) : option (Z * list (Z * Z)) :=
  let cont := (0x80, 0xBF) in
  if b0 <? 0x80 then Some (b0, [])
  else if (0xC2 <=? b0) && (b0 <=? 0xDF) then Some (b0 - 0xC0, [cont])
  else if b0 =? 0xE0 then Some (0, [(0xA0, 0xBF); cont])
  else if b0 =? 0xED then Some (0xD, [(0x80, 0x9F); cont])
  else if (0xE1 <=? b0) && (b0 <=? 0xEF) then Some (b0 - 0xE0, [cont; cont])
  else if b0 =? 0xF0 then Some (0, [(0x90, 0xBF); cont; cont])
  else if (0xF1 <=? b0) && (b0 <=? 0xF3) then Some (b0 - 0xF0, [cont; cont; cont])
  else if b0 =? 0xF4 then Some (4, [(0x80, 0x8F); cont; cont])
  else None.

Fixpoint utf8_continue (acc : Z) (plan : list (Z * Z)) (bs : bytes) : Z * bytes :=
  match plan, bs with
  | [], _ => (acc, bs)
  | (lo, hi) :: plan, b :: bs' =>
      if (lo <=? b) && (b <=? hi) then utf8_continue (acc * 64 + (b - 0x80)) plan bs' else (0xFFFD, bs)
  | _, [] => (0xFFFD, [])
  end.

Fixpoint utf8_lossy (fuel : nat) (bs : bytes) : text :=
  match fuel, bs with
  | S fuel, b :: bs =>
      match utf8_plan b with
      | Some (acc, plan) => let '(c, rest) := utf8_continue acc plan bs in c :: utf8_lossy fuel rest
      | None => 0xFFFD :: utf8_lossy fuel bs
      end
  | _, _ => []
  end.
Definition from_utf8_lossy (bs : bytes) : text := utf8_lossy (length bs) bs.

(** ** The screen, of ratatui *)

Record Rect := mk_Rect { rect_x : Z; rect_y : Z; rect_width : Z; rect_height : Z }.
Inductive Direction := Horizontal | Vertical.
Inductive Constraint := Percentage (p : Z) | Ratio (num den : Z).
Inductive Color := Green | Red | Cyan | Magenta | LightRed | Rgb (r g b : Z).

(** A label of an axis: a text, or a number followed by its unit. *)
Inductive Label := L_Text (s : string) | L_Mbps (x : f64).

Inductive Widget :=
| W_Block (title : string)
| W_Gauge (color : Color) (ratio : f64)
| W_Chart (datasets : list (string * Color * list (f64 * f64))) (y_labels : list Label) (y_max : f64)
| W_Paragraph (lines : list text).

Abbreviation Frame := (list (Widget * Rect)).

Class TuiLibs := {
  (* ratatui *)
  layout_split : Direction → list Constraint → Rect → list Rect;
  rect_inner : Z → Z → Rect → Rect;
  gauge_ratio : f64 → Res f64;
  (* splines: a linear spline through the keys, sampled *)
  spline_sample : list (f64 * f64) → f64 → option f64;
  (* humansize, chrono (the timestamp of a log line, reformatted), regex *)
  format_size : Z → text;
  reformat_timestamp : text → option text;
  strip_escapes : text → text;
}.

(** Layouts give an area for each constraint, and a gauge takes a ratio between 0 and 1. *)
Class TuiLibsSpec (libs : TuiLibs) := {
  split_length : ∀ d cs area, length (layout_split d cs area) = length cs;
  gauge_accepts : ∀ r, SFleb f64_zero r = true → SFleb r (of_int 1) = true → gauge_ratio r = Ok r;
}.

(** ** Sensors (radar.rs)

    What one update reads: the CPU share the sampling thread sent within the timeout, the
    memory of the process, total and available space of the disks, the size of the storage
    directory, the milliseconds since the last refresh ([None]: the clock went back), the
    bytes received and sent by each network, and a waiting log line. *)

Record Readings := {
  r_cpu : option f64;
  r_process : option Z;
  r_disks : list (Z * Z);
  r_du : option Z;
  r_elapsed : option Z;
  r_networks : list (Z * Z);
  r_log : option text;
}.

Module Radar.

(** A sample of the thread that watches the CPU; [None] ends the thread. *)
Definition cpu_sample (process : option f64) (cpus_number : Z) : option f64 :=
  process ← process; Some (fdiv process (of_int cpus_number)).

Definition get_cpu_usage (r : Readings) : option f64 := r_cpu r.
Definition get_memory_usage (r : Readings) : Res (option Z) := process ← unwrap_opt (r_process r); Ok (Some process).
Definition get_total_storage (r : Readings) : option Z := fst <$> head (r_disks r).
Definition get_available_storage (r : Readings) : option Z := snd <$> head (r_disks r).
Definition get_storage_usage (r : Readings) : Z := default 0 (r_du r).

(** [Iterator::sum] of [u64]s. *)
Definition sum_u64 (l : list Z) : Res Z :=
  foldM (λ acc x, if acc + x <=? u64_max then Ok (acc + x) else Panic) 0 l.

Definition get_network_usage (r : Readings) : Res (option (f64 * f64)) :=
  elapsed ← unwrap_opt (r_elapsed r);
  let dt := fdiv (of_int elapsed) (of_int 1000) in
  received ← sum_u64 (r_networks r).*1;
  sent ← sum_u64 (r_networks r).*2;
  Ok (Some (fdiv (fdiv (of_int received) dt) (of_int 1000000), fdiv (fdiv (of_int sent) dt) (of_int 1000000))).

Definition format_log `{libs : TuiLibs} (log : text) : Res text :=
  let parts := split_whitespace log in
  first ← unwrap_opt (head parts);
  match reformat_timestamp first with
  | Some formatted_timestamp =>
      let message := filter (λ part, part ≠ bytes_of_string "log:") (drop 3 parts) in
      Ok (formatted_timestamp ++ bytes_of_string ": " ++ join_space message)
  | None => Ok log
  end.

(** The character that marks the log lines of L1. *)
Definition l1_mark : Z := 0x1F504.

Definition get_logs `{libs : TuiLibs} (r : Readings) : Res (option text * option text) :=
  match r_log r with
  | Some raw =>
      let readable := strip_escapes raw in
      line ← format_log readable;
      if bool_decide (l1_mark ∈ readable) then Ok (Some line, None) else Ok (None, Some line)
  | None => Ok (None, None)
  end.

End Radar.

(** ** The state of the dashboard (app.rs) *)

Inductive SyncStatusType := NotSyncing | Syncing (starting current highest : Z).

Record Metrics := {
  block_number : Outcome string Z;
  syncing : Outcome string SyncStatusType;
  cpu_name : string;
  cpu_usage : list f64;
  memory_usage : list Z;
  total_memory : Z;
  disk_name : string;
  disk_size : Z;
  disk_usage : Z;
  available_storage : Z;
  rx_flow : list f64;
  tx_flow : list f64;
  l1_logs : list (option text);
  l2_logs : list (option text);
}.

Record App := { should_quit : bool; data : Metrics }.

(** [Radar::new] fails only on the address of the RPC, which it parses. *)
Definition App_new (rpc_url_ok : bool) (total : Z) : Outcome string App :=
  if negb rpc_url_ok then Err "Error: Not a Valid URL for RPC endpoint"
  else Ok {| should_quit := false;
             data := {| block_number := Ok 0; syncing := Ok NotSyncing; cpu_name := "unknown";
                        cpu_usage := replicate 100 f64_zero; memory_usage := replicate 100 0;
                        total_memory := total; disk_name := "unknown"; disk_size := 0; disk_usage := 0; available_storage := 0;
                        rx_flow := replicate 100 f64_zero; tx_flow := replicate 100 f64_zero;
                        l1_logs := replicate 100 None; l2_logs := replicate 100 None |} |}.

(** A new line of a log, if there is one. *)
Definition push_log (log : option text) (logs : list (option text)) : Res (list (option text)) :=
  match log with Some _ => set_at 99 log (rotate_left logs) | None => Ok logs end.

Definition thousandths (x : f64) : f64 := fdiv (f64_round (fmul x (of_int 1000))) (of_int 1000).

Definition update_metrics `{libs : TuiLibs} (d : Metrics) (r : Readings) : Res Metrics :=
  let cpu := rotate_left (cpu_usage d) in
  cpu ← match Radar.get_cpu_usage r with
        | Some usage => set_at 99 usage cpu
        | None => previous ← unwrap_opt (cpu !! 98%nat); set_at 99 previous cpu
        end;
  memory ← Radar.get_memory_usage r;
  memory ← set_at 99 (default 0 memory) (rotate_left (memory_usage d));
  let size := default 0 (Radar.get_total_storage r) in
  let usage := Radar.get_storage_usage r in
  let available := default 0 (Radar.get_available_storage r) in
  flows ← Radar.get_network_usage r;
  let '(rxf, txf) := default (f64_zero, f64_zero) flows in
  rx ← set_at 99 (thousandths rxf) (rotate_left (rx_flow d));
  tx ← set_at 99 (thousandths txf) (rotate_left (tx_flow d));
  '(l1_log, l2_log) ← Radar.get_logs r;
  l1 ← push_log l1_log (l1_logs d);
  l2 ← push_log l2_log (l2_logs d);
  Ok {| block_number := block_number d; syncing := syncing d; cpu_name := cpu_name d;
        cpu_usage := cpu; memory_usage := memory; total_memory := total_memory d;
        disk_name := disk_name d; disk_size := size; disk_usage := usage; available_storage := available;
        rx_flow := rx; tx_flow := tx; l1_logs := l1; l2_logs := l2 |}.

(** ** The log writer (logging.rs)

    The channel from the logger to the dashboard holds one line. *)

Module MpscWriter.

Definition capacity : nat := 1.

(** [io::Write::write]: the bytes written, and the queue after. *)
Definition write (closed : bool) (queue : list text) (buf : bytes) : list text * Outcome string Z :=
  if closed || bool_decide (capacity ≤ length queue)%nat then (queue, Err "Failed to send message")
  else (queue ++ [from_utf8_lossy buf], Ok (Z.of_nat (length buf))).

(** [try_recv] of the dashboard. *)
Definition try_recv (queue : list text) : list text * option text :=
  match queue with [] => ([], None) | x :: queue => (queue, Some x) end.

End MpscWriter.

(** ** Curves and gauges (ui/widgets/utils.rs) *)

Section Widgets.
Context `{libs : TuiLibs}.

Definition fsum (l : list f64) : f64 := foldl fadd f64_zero l.

(** [series[a..=b]]. *)
Definition slice_incl {A} (a b : nat) (v : list A) : Res (list A) :=
  if bool_decide (a ≤ S b ∧ b < length v)%nat then Ok (take (S b - a) (drop a v)) else Panic.

Definition smooth_serie (series : list f64) (window_size : nat) : Res (list (f64 * f64)) :=
  let ignore_count := (window_size / 2)%nat in
  if bool_decide (length series < ignore_count)%nat then Panic
  else
    smoothed ← mapM (λ i,
        window ← slice_incl (i - ignore_count) (i + ignore_count) series;
        Ok (fdiv (fsum window) (of_int (Z.of_nat window_size))))
      (seq ignore_count (length series - ignore_count - ignore_count));
    Ok (zip (of_int <$> seqZ 0 101) smoothed).

Definition render_zone (area : Rect) (title : string) : Frame := [(W_Block title, area)].

Definition gauge_color (ratio : f64) (alert_mode : bool) : Color :=
  if alert_mode then
    if SFleb ratio (fdiv (of_int 1) (of_int 3)) then Green
    else if SFleb ratio (fdiv (of_int 2) (of_int 3)) then Rgb 255 128 0
    else Red
  else Green.

Definition render_gauge (area : Rect) (ratio : f64) (alert_mode : bool) : Res Frame :=
  r ← gauge_ratio (if SFleb ratio (of_int 1) then ratio else of_int 1);
  Ok [(W_Gauge (gauge_color ratio alert_mode) r, area)].

Fixpoint windows2 {A} (l : list A) : list (A * A) :=
  match l with x :: (y :: _) as l' => (x, y) :: windows2 l' | _ => [] end.

Definition distance (p q : f64 * f64) : f64 :=
  let dx := fsub q.1 p.1 in let dy := fsub q.2 p.2 in
  fsqrt (fadd (fmul dx dx) (fmul dy dy)).

Definition continuous (points : list (f64 * f64)) : Res (list (f64 * f64)) :=
  let total_distance := foldl (λ acc w, fadd acc (distance w.1 w.2)) f64_zero (windows2 points) in
  let target_distance := fdiv (of_int 1) (of_int 100) in
  let points_nb := f64_as_usize (f64_ceil (fdiv total_distance target_distance)) in
  start ← unwrap_opt (head points);
  last_point ← unwrap_opt (last points);
  let ds := fdiv (fsub last_point.1 start.1) (fsub (of_int points_nb) (of_int 1)) in
  Ok (omap (λ i, let x := fadd start.1 (fmul (of_int i) ds) in
                 y ← spline_sample points x; Some (x, y)) (seqZ 0 points_nb)).

(** The element of a slice, which panics out of range. *)
Definition at_index {A} (l : list A) (i : nat) : Res A := unwrap_opt (l !! i).

(** ** The panels (ui/widgets) *)

Definition render_cpu_graph (d : Metrics) (area : Rect) : Res Frame :=
  points ← smooth_serie (cpu_usage d) 5;
  serie ← continuous points;
  Ok [(W_Chart [("CPU"%string, Cyan, serie)] [L_Text "0%"; L_Text "50%"; L_Text "100%"] (of_int 101), area)].

Definition render_cpu_gauge (d : Metrics) (area : Rect) : Res Frame :=
  serie ← smooth_serie (cpu_usage d) 20;
  last_point ← unwrap_opt (last serie);
  render_gauge area (fdiv last_point.2 (of_int 100)) true.

(** The layout of the panels with a gauge: the graph above, the gauge below. *)
Definition graph_over_gauge : list Constraint := [Percentage 80; Percentage 20].

Definition render_cpu (d : Metrics) (area : Rect) : Res Frame :=
  let layout := layout_split Vertical graph_over_gauge area in
  below ← at_index layout 1;
  gauge ← render_cpu_gauge d (rect_inner 1 1 below);
  above ← at_index layout 0;
  graph ← render_cpu_graph d above;
  Ok (render_zone below "Used" ++ gauge ++ graph).

Definition render_memory_gauge (d : Metrics) (area : Rect) : Res Frame :=
  used ← unwrap_opt (last (memory_usage d));
  render_gauge area (fdiv (of_int used) (of_int (total_memory d))) true.

Definition render_memory_graph (d : Metrics) (area : Rect) : Res Frame :=
  let fserie := (λ elm, fdiv (of_int elm) (of_int 1000000)) <$> memory_usage d in
  points ← smooth_serie fserie 5;
  serie ← continuous points;
  Ok [(W_Chart [("RAM"%string, Magenta, serie)] [L_Text "0%"; L_Text "50%"; L_Text "100%"]
         (fdiv (of_int (total_memory d)) (of_int 1000000)), area)].

Definition render_memory (d : Metrics) (area : Rect) : Res Frame :=
  let layout := layout_split Vertical graph_over_gauge area in
  below ← at_index layout 1;
  gauge ← render_memory_gauge d (rect_inner 1 1 below);
  above ← at_index layout 0;
  graph ← render_memory_graph d above;
  Ok (render_zone below "Used" ++ gauge ++ graph).

Definition render_storage_data (d : Metrics) (area : Rect) : Frame :=
  [(W_Paragraph [bytes_of_string "Total Disk Space: " ++ format_size (disk_size d);
                 bytes_of_string "Node Disk Usage: " ++ format_size (disk_usage d);
                 bytes_of_string "Available Space: " ++ format_size (available_storage d)], area)].

Definition storage_ratio (d : Metrics) : f64 :=
  if available_storage d =? 0 then of_int 1 else fdiv (of_int (disk_size d)) (of_int (available_storage d)).

Definition render_storage_gauge (d : Metrics) (area : Rect) : Res Frame :=
  gauge ← render_gauge (rect_inner 1 1 area) (storage_ratio d) true;
  Ok (render_zone area "Used" ++ gauge).

Definition render_storage (d : Metrics) (area : Rect) : Res Frame :=
  let zones := layout_split Vertical graph_over_gauge area in
  below ← at_index zones 1;
  gauge ← render_storage_gauge d below;
  above ← at_index zones 0;
  Ok (gauge ++ render_storage_data d above).

(** The lines of a log that are drawn in an area: those of the last [height] messages. *)
Definition log_lines (height : Z) (logs : list (option text)) : list text :=
  let raw := omap id logs in
  let ll := Z.of_nat (length raw) in
  if height <? ll then drop (Z.to_nat (ll - height)) raw else raw.

Definition render_logs (title : string) (logs : list (option text)) (area : Rect) : Frame :=
  render_zone area title ++
  match omap id logs with
  | [] => []
  | _ => [(W_Paragraph (log_lines (rect_height area) logs), rect_inner 1 1 area)]
  end.

Definition render_l1_logs (d : Metrics) (area : Rect) : Frame := render_logs "L1 Logs" (l1_logs d) area.
Definition render_l2_logs (d : Metrics) (area : Rect) : Frame := render_logs "L2 Logs" (l2_logs d) area.

(** [max_by(|a, b| a.partial_cmp(b).unwrap())], of two numbers and of an iterator. *)
Definition max_by2 (a b : f64) : Res f64 :=
  c ← unwrap_opt (SFcompare a b);
  Ok (match c with Gt => a | _ => b end).

Definition max_by (l : list f64) : Res f64 :=
  match l with [] => Panic | x :: l => foldM max_by2 x l end.

Definition network_chart (d : Metrics) : Res Widget :=
  rx_points ← smooth_serie (rx_flow d) 5;
  rx_serie ← continuous rx_points;
  tx_points ← smooth_serie (tx_flow d) 5;
  tx_serie ← continuous tx_points;
  rx_max ← max_by rx_serie.*2;
  tx_max ← max_by tx_serie.*2;
  ymax ← max_by2 rx_max tx_max;
  let y_labels := (λ i, let elm := fadd f64_zero (fdiv (fmul ymax (of_int i)) (of_int 2)) in
                        L_Mbps (fdiv (f64_round (fmul elm (of_int 100))) (of_int 100))) <$> seqZ 0 3 in
  let bound := if negb (SFeqb ymax f64_zero) then ymax else fdiv (of_int 1) (of_int 10) in
  Ok (W_Chart [("Sending"%string, LightRed, tx_serie); ("Receiving"%string, Green, rx_serie)] y_labels bound).

Definition render_network_graph (d : Metrics) (area : Rect) : Res Frame :=
  chart ← network_chart d;
  Ok [(chart, rect_inner 1 1 area)].

(** ** A frame (ui/render.rs) *)

Definition thirds : list Constraint := [Ratio 1 3; Ratio 1 3; Ratio 1 3].

Definition ui (app : App) (size : Rect) : Res Frame :=
  let d := data app in
  let node0 := layout_split Horizontal [Percentage 50; Percentage 50] (rect_inner 2 1 size) in
  left_half ← at_index node0 0;
  let left := layout_split Vertical thirds left_half in
  right_half ← at_index node0 1;
  let right := layout_split Vertical thirds right_half in
  right0 ← at_index right 0;
  cpu ← render_cpu d (rect_inner 1 1 right0);
  right1 ← at_index right 1;
  memory ← render_memory d (rect_inner 1 1 right1);
  right2 ← at_index right 2;
  storage ← render_storage d (rect_inner 1 1 right2);
  left2 ← at_index left 2;
  network ← render_network_graph d left2;
  left0 ← at_index left 0;
  left1 ← at_index left 1;
  Ok ([(W_Block " Deoxys-TUI v0.1.0 (Press q to quit) ", size)] ++
      render_zone right0 "CPU" ++ cpu ++ render_zone right1 "Memory" ++ memory ++
      render_zone right2 "Storage" ++ storage ++ render_zone left2 "Network" ++ network ++
      render_l2_logs d left0 ++ render_l1_logs d left1).

End Widgets.

(** ** The loop (deoxys_ui.rs)

    A turn of the loop: what the sensors read, the event that arrived within the timeout
    ([None]: none did), and the screen it is drawn on.  [E] is the error of the terminal. *)

Inductive KeyEventKind := Press | Repeat | Release.
Inductive Event := Key (kind : KeyEventKind) (code : option Z) | OtherEvent.

Record Turn (E : Type) := {
  t_readings : Readings;
  t_event : Outcome E (option Event);
  t_screen : Rect;
  t_draw : Outcome E unit;
}.
Arguments t_readings {E}. Arguments t_event {E}. Arguments t_screen {E}. Arguments t_draw {E}.

Record Term := { tm_raw : bool; tm_alternate : bool; tm_rust_log : option string }.

(** The calls to the terminal at the start and at the end. *)
Record TermCalls (E : Type) := {
  tc_new : Outcome E unit; tc_enable_raw : Outcome E unit; tc_enter : Outcome E unit;
  tc_leave : Outcome E unit; tc_disable_raw : Outcome E unit;
}.
Arguments tc_new {E}. Arguments tc_enable_raw {E}. Arguments tc_enter {E}.
Arguments tc_leave {E}. Arguments tc_disable_raw {E}.

Section Loop.
Context {E : Type} `{libs : TuiLibs}.

Definition lift {A} (m : Res A) : Outcome E A := map_err (λ e : Empty_set, match e with end) m.

Definition key_q : Z := 113.

Definition update (app : App) (t : Turn E) : Outcome E App :=
  d ← lift (update_metrics (data app) (t_readings t));
  ev ← t_event t;
  Ok {| should_quit := match ev with
                       | Some (Key Press (Some c)) => if c =? key_q then true else should_quit app
                       | _ => should_quit app
                       end;
        data := d |}.

(** The loop over the turns there are: [None] while it has not ended; the frames drawn. *)
Fixpoint run_loop (turns : list (Turn E)) (app : App) : option (Outcome E (App * list Frame)) :=
  match turns with
  | [] => None
  | t :: turns =>
      match (app ← update app t; frame ← lift (ui app (t_screen t)); _ ← t_draw t; Ok (app, frame)) with
      | Ok (app, frame) =>
          if should_quit app then Some (Ok (app, [frame]))
          else (λ r, '(a, frames) ← r; Ok (a, frame :: frames)) <$> run_loop turns app
      | Err e => Some (Err e)
      | Panic => Some Panic
      end
  end.

(** [render::startup] and [render::shutdown]: the terminal after, and the outcome. *)
Definition startup (tc : TermCalls E) (t : Term) : Term * Outcome E unit :=
  match tc_enable_raw tc with
  | Ok _ =>
      let t := {| tm_raw := true; tm_alternate := tm_alternate t; tm_rust_log := tm_rust_log t |} in
      match tc_enter tc with
      | Ok _ => ({| tm_raw := true; tm_alternate := true; tm_rust_log := tm_rust_log t |}, Ok tt)
      | r => (t, r)
      end
  | r => (t, r)
  end.

Definition shutdown (tc : TermCalls E) (t : Term) : Term * Outcome E unit :=
  match tc_leave tc with
  | Ok _ =>
      let t := {| tm_raw := tm_raw t; tm_alternate := false; tm_rust_log := tm_rust_log t |} in
      match tc_disable_raw tc with
      | Ok _ => ({| tm_raw := false; tm_alternate := false; tm_rust_log := Some "TRACE"%string |}, Ok tt)
      | r => (t, r)
      end
  | r => (t, r)
  end.

(** [set_subscriber] sets [RUST_LOG]; the global logger may be set once. *)
Definition set_subscriber (already_set : bool) (t : Term) : Outcome E Term :=
  if already_set then Panic
  else Ok {| tm_raw := tm_raw t; tm_alternate := tm_alternate t; tm_rust_log := Some "INFO"%string |}.

Definition run (tc : TermCalls E) (already_set rpc_url_ok : bool) (total : Z) (turns : list (Turn E)) (t : Term) :
    Term * option (Outcome E (list Frame)) :=
  match set_subscriber already_set t with
  | Ok t =>
      match (_ ← tc_new tc; unwrap (App_new rpc_url_ok total)) with
      | Ok app =>
          match startup tc t with
          | (t, Ok _) =>
              match run_loop turns app with
              | Some (Ok (_, frames)) => let '(t, r) := shutdown tc t in (t, Some (_ ← r; Ok frames))
              | Some (Err e) => (t, Some (Err e))
              | Some Panic => (t, Some Panic)
              | None => (t, None)
              end
          | (t, Err e) => (t, Some (Err e))
          | (t, Panic) => (t, Some Panic)
          end
      | Err e => (t, Some (Err e))
      | Panic => (t, Some Panic)
      end
  | Err e => (t, Some (Err e))
  | Panic => (t, Some Panic)
  end.

End Loop.

(** ** The series are sliding windows *)

(** The last [n] elements of a list. *)
Definition last_n {A} (n : nat) (l : list A) : list A := drop (length l - n) l.

Lemma length_last_n {A} n (l : list A) : (n ≤ length l)%nat → length (last_n n l) = n.
Proof. intros H. unfold last_n. rewrite length_drop. lia. Qed.

(** Rotating a full window and writing its last place drops the oldest element. *)
Lemma push_slides {A} (x : A) v l :
  (100 ≤ length l)%nat → v = last_n 100 l → set_at 99 x (rotate_left v) = Ok (last_n 100 (l ++ [x])).
Proof.
  intros Hl Hv. pose proof (length_last_n 100 l Hl) as Hlen. rewrite <- Hv in Hlen.
  destruct v as [|y v]; [done|]. simpl in Hlen. injection Hlen as Hlen. unfold set_at, rotate_left.
  rewrite bool_decide_true by (rewrite length_app; simpl; lia).
  f_equal. assert (Hi : <[99%nat := x]> (v ++ [y]) = v ++ [x]).
  { rewrite <- Hlen, <- (Nat.add_0_r (length v)). by rewrite insert_app_r. }
  rewrite Hi. unfold last_n in *. rewrite length_app. simpl.
  replace (length l + 1 - 100)%nat with (S (length l - 100)) by lia. rewrite drop_app_le by lia.
  f_equal. apply (f_equal (drop 1)) in Hv. rewrite drop_drop, Nat.add_1_r in Hv. exact Hv.
Qed.

Section History.
Context `{libs : TuiLibs}.

(** What the readings say: a missing CPU sample repeats the previous one. *)
Fixpoint cpu_values (previous : f64) (rs : list Readings) : list f64 :=
  match rs with
  | [] => []
  | r :: rs => let v := default previous (r_cpu r) in v :: cpu_values v rs
  end.

Definition memory_value (r : Readings) : Z := default 0 (r_process r).

Definition flow_values (r : Readings) : f64 * f64 :=
  match Radar.get_network_usage r with
  | Ok flows => let '(rx, tx) := default (f64_zero, f64_zero) flows in (thousandths rx, thousandths tx)
  | _ => (f64_zero, f64_zero)
  end.

Definition lines_of (r : Readings) : option text * option text :=
  match Radar.get_logs r with Ok lines => lines | _ => (None, None) end.

(** A window over the history of a series that starts with a hundred default values. *)
Definition window {A} (blank : A) (history : list A) : list A := last_n 100 (replicate 100 blank ++ history).

(** The series of a dashboard show the last hundred of the readings it took, in order. *)
Definition shows (d : Metrics) (rs : list Readings) : Prop :=
  cpu_usage d = window f64_zero (cpu_values f64_zero rs) ∧
  memory_usage d = window 0 (memory_value <$> rs) ∧
  rx_flow d = window f64_zero (fst ∘ flow_values <$> rs) ∧
  tx_flow d = window f64_zero (snd ∘ flow_values <$> rs) ∧
  l1_logs d = window None (Some <$> omap (fst ∘ lines_of) rs) ∧
  l2_logs d = window None (Some <$> omap (snd ∘ lines_of) rs).

Lemma length_window {A} (b : A) h : length (window b h) = 100%nat.
Proof. unfold window. apply length_last_n. rewrite length_app, length_replicate. lia. Qed.

Lemma push_window {A} (b x : A) h : set_at 99 x (rotate_left (window b h)) = Ok (window b (h ++ [x])).
Proof.
  unfold window. rewrite app_assoc. apply push_slides; [|done]. rewrite length_app, length_replicate. lia.
Qed.

Lemma push_log_window log h :
  push_log log (window None (Some <$> h)) = Ok (window None (Some <$> (h ++ option_list log))).
Proof.
  destruct log as [x|]; simpl; [|by rewrite app_nil_r]. by rewrite push_window, fmap_app.
Qed.

(** The last element of a full window is that of its history. *)
Lemma last_window {A} (b : A) h : last (window b h) = Some (List.last h b).
Proof.
  destruct h as [|x h _] using rev_ind.
  - done.
  - unfold window, last_n. rewrite app_assoc, drop_app_le, last_snoc, List.last_last; [done|].
    rewrite !length_app, length_replicate. simpl. lia.
Qed.

Lemma list_last_cons {A} (a b : A) l : List.last (a :: l) b = List.last l a.
Proof. revert a b. induction l as [|x l IH]; intros a b; [done|]. transitivity (List.last l x); [apply (IH x b)|symmetry; apply IH]. Qed.

Lemma cpu_values_snoc p rs r :
  cpu_values p (rs ++ [r]) = cpu_values p rs ++ [default (List.last (cpu_values p rs) p) (r_cpu r)].
Proof.
  revert p. induction rs as [|r' rs IH]; intros p; [done|]. cbn [app cpu_values]. rewrite IH. cbn [app]. by rewrite list_last_cons.
Qed.

(** The place before the last, after the rotation, holds the last reading. *)
Lemma rotated_previous {A} (v : list A) : length v = 100%nat → rotate_left v !! 98%nat = last v.
Proof.
  destruct v as [|x v]; [done|]. intros [= H]. simpl. rewrite lookup_app_l by lia.
  destruct v as [|y v]; [done|]. rewrite last_cons_cons, last_lookup. f_equal. by rewrite H.
Qed.

Lemma update_shows d rs r d' : shows d rs → update_metrics d r = Ok d' → shows d' (rs ++ [r]).
Proof.
  intros (Hc & Hm & Hr & Ht & H1 & H2) H. unfold update_metrics in H.
  assert (Hcpu : match Radar.get_cpu_usage r with
                 | Some usage => set_at 99 usage (rotate_left (cpu_usage d))
                 | None => previous ← unwrap_opt (rotate_left (cpu_usage d) !! 98%nat);
                           set_at 99 previous (rotate_left (cpu_usage d)) end
                 = Ok (window f64_zero (cpu_values f64_zero (rs ++ [r])))).
  { rewrite cpu_values_snoc, Hc. unfold Radar.get_cpu_usage. destruct (r_cpu r); cbn [default]; [apply push_window|].
    rewrite rotated_previous, last_window by apply length_window. apply push_window. }
  rewrite Hcpu in H. cbn [mbind Outcome_bind] in H.
  destruct (Radar.get_memory_usage r) as [mem| |] eqn:Hmem; try done. cbn [mbind Outcome_bind] in H.
  rewrite Hm, push_window in H. cbn [mbind Outcome_bind] in H.
  destruct (Radar.get_network_usage r) as [flows| |] eqn:Hn; try done. cbn [mbind Outcome_bind] in H.
  destruct (default (f64_zero, f64_zero) flows) as [rxf txf] eqn:Hf.
  rewrite Hr, Ht, !push_window in H. cbn [mbind Outcome_bind] in H.
  destruct (Radar.get_logs r) as [[l1 l2]| |] eqn:Hl; try done. cbn [mbind Outcome_bind] in H.
  rewrite H1, H2, !push_log_window in H. cbn [mbind Outcome_bind] in H. injection H as <-.
  unfold shows. rewrite !fmap_app, !omap_app. cbn [cpu_usage memory_usage rx_flow tx_flow l1_logs l2_logs fmap list_fmap compose].
  split_and!; try done.
  - f_equal. f_equal. f_equal. unfold Radar.get_memory_usage in Hmem. unfold memory_value.
    destruct (r_process r); simpl in Hmem; by simplify_eq.
  - unfold flow_values. by rewrite Hn, Hf.
  - unfold flow_values. by rewrite Hn, Hf.
  - unfold lines_of. rewrite <- fmap_app. simpl. rewrite Hl. simpl. by destruct l1.
  - unfold lines_of. rewrite <- fmap_app. simpl. rewrite Hl. simpl. by destruct l2.
Qed.

Lemma update_keeps_total d r d' : update_metrics d r = Ok d' → total_memory d' = total_memory d.
Proof.
  unfold update_metrics. intros H. ok_inv. destruct (default (f64_zero, f64_zero) _). ok_inv. case_match. by ok_inv.
Qed.

Lemma updates_show rs : ∀ d0 past d, shows d0 past → foldM update_metrics d0 rs = Ok d →
  shows d (past ++ rs) ∧ total_memory d = total_memory d0.
Proof.
  induction rs as [|r rs IH]; intros d0 past d H0 H; cbn [foldM] in H.
  - injection H as <-. by rewrite app_nil_r.
  - destruct (update_metrics d0 r) as [d1| |] eqn:H1; try done.
    rewrite cons_middle, app_assoc, <- (update_keeps_total _ _ _ H1). apply IH; [|done]. by apply (update_shows d0).
Qed.

Lemma new_shows total app : App_new true total = Ok app →
  shows (data app) [] ∧ total_memory (data app) = total ∧ disk_size (data app) = 0 ∧ available_storage (data app) = 0.
Proof. by intros [= <-]. Qed.

(** However many updates a dashboard took, its series show the last hundred readings of
    each sensor, its logs the last hundred lines of each layer, oldest first. *)
Theorem dashboard_shows_last_readings total app rs d :
  App_new true total = Ok app → foldM update_metrics (data app) rs = Ok d → shows d rs ∧ total_memory d = total.
Proof. intros (Hn & <- & _)%new_shows H. by apply (updates_show rs _ [] d). Qed.

End History.

(** ** Frames *)

(** Numbers that are not below zero, or not a number. *)
Definition not_negative (x : f64) : bool :=
  match x with S754_infinity true | S754_finite true _ _ => false | _ => true end.

Lemma round_not_negative m e l : not_negative (binary_round_aux 53 1024 false m e l) = true.
Proof. unfold binary_round_aux. repeat (case_match; try done). Qed.

Lemma binary_round_not_negative m e : not_negative (binary_round 53 1024 false m e) = true.
Proof. unfold binary_round. case_match. apply round_not_negative. Qed.

Lemma normalize_not_negative m e s : 0 ≤ m → not_negative (binary_normalize 53 1024 m e s) = true.
Proof. destruct m; [by destruct s|intros _|lia]. apply binary_round_not_negative. Qed.

Lemma of_int_not_negative z : 0 ≤ z → not_negative (of_int z) = true.
Proof. apply normalize_not_negative. Qed.

Lemma fadd_not_negative x y : not_negative x = true → not_negative y = true → not_negative (fadd x y) = true.
Proof.
  destruct x as [[]|[]| |[]], y as [[]|[]| |[]]; simpl; try done.
  intros _ _. apply binary_round_not_negative.
Qed.

Lemma fdiv_not_negative x y : not_negative x = true → not_negative y = true →
  (∀ s, y ≠ S754_zero s) → not_negative (fdiv x y) = true.
Proof.
  destruct x as [[]|[]| |[]], y as [[]|[]| |[]]; simpl; try done;
    intros _ _ Hz; try (by destruct (Hz true)); try (by destruct (Hz false)).
  unfold fdiv, SFdiv. simpl xorb. repeat (case_match; try done). apply round_not_negative.
Qed.

(** A quotient of integers that are not negative, zero included: 0/0 is not a number. *)
Lemma quotient_not_negative a b : 0 ≤ a → 0 ≤ b → not_negative (fdiv (of_int a) (of_int b)) = true.
Proof.
  intros Ha Hb. destruct (decide (b = 0)) as [->|Hne].
  - pose proof (of_int_not_negative a Ha). change (of_int 0) with (S754_zero false).
    by destruct (of_int a) as [[]|[]| |[]].
  - destruct (of_int b) as [s| | |] eqn:Hob.
    + pose proof (of_int_not_negative a Ha). destruct s; [|by destruct (of_int a) as [[]|[]| |[]]].
      exfalso. revert Hob. unfold of_int. destruct b; [done| |lia]. simpl. unfold binary_round. case_match.
      unfold binary_round_aux. repeat (case_match; try done).
    + rewrite <- Hob. apply fdiv_not_negative; [by apply of_int_not_negative..|by rewrite Hob].
    + by destruct (of_int a).
    + rewrite <- Hob. apply fdiv_not_negative; [by apply of_int_not_negative..|by rewrite Hob].
Qed.

Section Frames.
Context `{libs : TuiLibs}.

Lemma fsum_not_negative l : Forall (λ x, not_negative x = true) l → not_negative (fsum l) = true.
Proof.
  unfold fsum. assert (H : not_negative f64_zero = true) by done. revert H. generalize f64_zero.
  induction l as [|x l IH]; intros a Ha Hl; [done|]. apply Forall_cons in Hl as [Hx Hl].
  simpl. apply IH; [by apply fadd_not_negative|done].
Qed.

Lemma seqZ_lookup_of_int k : (k < 101)%nat → (of_int <$> seqZ 0 101) !! k = Some (of_int (Z.of_nat k)).
Proof. intros H. rewrite list_lookup_fmap, lookup_seqZ_lt by lia. done. Qed.

(** Smoothing a full series gives the averages of its windows, none of them negative. *)
Definition average (series : list f64) (w i : nat) : f64 :=
  fdiv (fsum (take (S (w / 2 + w / 2)) (drop i series))) (of_int (Z.of_nat w)).

Lemma smooth_serie_full series w :
  length series = 100%nat → (w / 2 + w / 2 < 100)%nat →
  smooth_serie series w =
    Ok ((λ i, (of_int (Z.of_nat i), average series w i)) <$> seq 0 (100 - w / 2 - w / 2)).
Proof.
  intros Hl Hw. unfold smooth_serie. rewrite Hl, bool_decide_false by lia.
  assert (Hm : mapM (λ i, window ← slice_incl (i - w / 2) (i + w / 2) series;
                 Ok (fdiv (fsum window) (of_int (Z.of_nat w)))) (seq (w / 2) (100 - w / 2 - w / 2)) =
               Ok (average series w <$> seq 0 (100 - w / 2 - w / 2))).
  { replace (seq (w / 2) (100 - w / 2 - w / 2)) with ((Nat.add (w / 2)) <$> seq 0 (100 - w / 2 - w / 2))
      by (rewrite fmap_add_seq; f_equal; lia).
    apply mapM_Ok_Forall2, Forall2_fmap, Forall_Forall2_diag, Forall_seq. intros i Hi.
    unfold slice_incl, average. rewrite Hl, bool_decide_true by lia. cbn [mbind Outcome_bind].
    by replace (w / 2 + i - w / 2)%nat with i by lia;
       replace (S (w / 2 + i + w / 2) - i)%nat with (S (w / 2 + w / 2)) by lia. }
  rewrite Hm. cbn [mbind Outcome_bind]. f_equal. apply list_eq. intros k.
  rewrite lookup_zip_with, list_lookup_fmap.
  destruct (decide (k < 100 - w / 2 - w / 2)%nat) as [Hk|Hk].
  - rewrite seqZ_lookup_of_int, list_lookup_fmap, !lookup_seq_lt by lia. done.
  - rewrite !list_lookup_fmap, !lookup_seq_ge by lia. by destruct (seqZ 0 101 !! k).
Qed.

Lemma render_gauge_drawn `{Hlibs : !TuiLibsSpec libs} area ratio b : not_negative ratio = true →
  ∃ r, render_gauge area ratio b = Ok [(W_Gauge (gauge_color ratio b) r, area)] ∧
    SFleb f64_zero r = true ∧ SFleb r (of_int 1) = true.
Proof.
  intros Hr. unfold render_gauge. destruct (SFleb ratio (of_int 1)) eqn:Hle.
  - assert (H0 : SFleb f64_zero ratio = true) by (by destruct ratio as [[]|[]| |[]]).
    rewrite gauge_accepts by done. by exists ratio.
  - rewrite gauge_accepts by done. by exists (of_int 1).
Qed.

(** ** The network graph and numbers that are none *)

Lemma fadd_nan_r x : fadd x S754_nan = S754_nan.
Proof. by destruct x. Qed.
Lemma fdiv_nan_l x : fdiv S754_nan x = S754_nan.
Proof. by destruct x. Qed.
Lemma fold_nan {A} (f : A → f64) l a :
  a = S754_nan ∨ (∃ x, x ∈ l ∧ f x = S754_nan) → foldl (λ acc x, fadd acc (f x)) a l = S754_nan.
Proof.
  revert a. induction l as [|y l IH]; intros a H; simpl; [destruct H as [->|(x & Hx & _)]; [done|by apply not_elem_of_nil in Hx]|].
  apply IH. destruct H as [->|(x & [->|Hx]%elem_of_cons & Hf)].
  - by left.
  - left. rewrite Hf. apply fadd_nan_r.
  - right. by exists x.
Qed.

Lemma fsum_nan l : S754_nan ∈ l → fsum l = S754_nan.
Proof. intros H. apply (fold_nan (λ x, x)). right. by exists S754_nan. Qed.

Lemma windows2_elem {A} (p q : A) l1 l2 : (p, q) ∈ windows2 (l1 ++ p :: q :: l2).
Proof.
  induction l1 as [|x l1 IH]; [by apply elem_of_cons; left|].
  destruct l1; simpl; apply elem_of_cons; by right.
Qed.

(** A curve with an undefined point has an undefined length, and no points at all. *)
Lemma continuous_nan points p q l1 l2 :
  points = l1 ++ p :: q :: l2 → distance p q = S754_nan → continuous points = Ok [].
Proof.
  intros -> Hd. unfold continuous. rewrite (fold_nan (λ w, distance w.1 w.2)).
  - rewrite fdiv_nan_l. cbn [f64_ceil f64_as_usize].
    destruct (l1 ++ p :: q :: l2) as [|x l] eqn:Hl; [by apply app_eq_nil in Hl as [_ ?]|]. cbn [head].
    destruct (last (x :: l)) eqn:Hlast; [done|]. by apply last_None in Hlast.
  - right. exists (p, q). split; [apply windows2_elem|done].
Qed.

Lemma distance_nan p q : p.2 = S754_nan ∨ q.2 = S754_nan → distance p q = S754_nan.
Proof.
  unfold distance. intros [H|H]; rewrite H.
  - replace (fsub q.2 S754_nan) with S754_nan by (by destruct q.2). by rewrite fadd_nan_r.
  - change (fsub S754_nan p.2) with S754_nan. by rewrite fadd_nan_r.
Qed.

(** A point of the smoothed series. *)
Definition smooth_point (series : list f64) (w i : nat) : f64 * f64 := (of_int (Z.of_nat i), average series w i).

Lemma smooth_serie_5 series :
  length series = 100%nat → smooth_serie series 5 = Ok (smooth_point series 5 <$> seq 0 96).
Proof. intros H. by rewrite smooth_serie_full by (done || simpl; lia). Qed.

Lemma average_nan series i k :
  series !! k = Some S754_nan → (i ≤ k ≤ i + 4)%nat → average series 5 i = S754_nan.
Proof.
  intros Hk Hi. unfold average. rewrite fsum_nan; [apply fdiv_nan_l|].
  apply (list_elem_of_lookup_2 _ (k - i)). rewrite lookup_take_lt by (simpl; lia).
  rewrite lookup_drop. by replace (i + (k - i))%nat with k by lia.
Qed.

Lemma smooth_nan_empty series k :
  length series = 100%nat → series !! k = Some S754_nan →
  continuous (smooth_point series 5 <$> seq 0 96) = Ok [].
Proof.
  intros Hr Hk. pose proof (lookup_lt_Some _ _ _ Hk) as Hlt. rewrite Hr in Hlt.
  set (j := Nat.min (k - 4) 94).
  apply (continuous_nan _ (smooth_point series 5 j) (smooth_point series 5 (S j))
           (smooth_point series 5 <$> seq 0 j) (smooth_point series 5 <$> seq (S (S j)) (94 - j))).
  - rewrite <- !fmap_cons, <- fmap_app. f_equal.
    transitivity (seq 0 (j + S (S (94 - j)))); [f_equal; lia|]. by rewrite seq_app.
  - apply distance_nan. destruct (decide (k = 99)%nat).
    + right. apply (average_nan _ _ k); [done|lia].
    + left. apply (average_nan _ _ k); [done|lia].
Qed.

Lemma network_graph_empty (d : Metrics) rx_points tx_points :
  smooth_serie (rx_flow d) 5 = Ok rx_points → smooth_serie (tx_flow d) 5 = Ok tx_points →
  continuous rx_points = Ok [] → network_chart d = Panic.
Proof.
  intros Hr Ht Hc. unfold network_chart. rewrite Hr, Ht. cbn [mbind Outcome_bind]. rewrite Hc.
  by destruct (continuous tx_points).
Qed.

Lemma network_graph_nan (d : Metrics) k :
  length (rx_flow d) = 100%nat → length (tx_flow d) = 100%nat → rx_flow d !! k = Some S754_nan →
  network_chart d = Panic.
Proof.
  intros Hr Ht Hk. eapply network_graph_empty; [by apply smooth_serie_5|by apply smooth_serie_5|].
  by apply (smooth_nan_empty _ k).
Qed.

Context `{Hlibs : !TuiLibsSpec libs}.

(** What the sensors give: no share, size or number of bytes is negative. *)
Definition sensible (r : Readings) : Prop :=
  (∀ x, r_cpu r = Some x → not_negative x = true) ∧ (∀ m, r_process r = Some m → 0 ≤ m) ∧
  Forall (λ sizes, 0 ≤ sizes.1 ∧ 0 ≤ sizes.2) (r_disks r).

(** What the frame of a dashboard needs. *)
Record drawable (d : Metrics) : Prop := {
  dr_cpu : length (cpu_usage d) = 100%nat ∧ Forall (λ x, not_negative x = true) (cpu_usage d);
  dr_memory : length (memory_usage d) = 100%nat ∧ Forall (λ x, 0 ≤ x) (memory_usage d);
  dr_total : 0 ≤ total_memory d;
  dr_disk : 0 ≤ disk_size d ∧ 0 ≤ available_storage d;
  dr_flows : length (rx_flow d) = 100%nat ∧ length (tx_flow d) = 100%nat;
}.

Lemma continuous_drawn points : points ≠ [] → ∃ serie, continuous points = Ok serie.
Proof.
  destruct points as [|p l]; [done|]. intros _. unfold continuous.
  destruct (last (p :: l)) eqn:H; [by eexists|]. by apply last_None in H.
Qed.

Lemma curve_drawn series : length series = 100%nat →
  ∃ points serie, smooth_serie series 5 = Ok points ∧ continuous points = Ok serie.
Proof.
  intros H. destruct (continuous_drawn (smooth_point series 5 <$> seq 0 96)) as [serie Hs]; [done|].
  exists (smooth_point series 5 <$> seq 0 96), serie. split; [by apply smooth_serie_5|done].
Qed.

Lemma average_not_negative series w i : (0 < w)%nat → Forall (λ x, not_negative x = true) series →
  of_int (Z.of_nat w) ≠ S754_zero true → of_int (Z.of_nat w) ≠ S754_zero false → not_negative (average series w i) = true.
Proof.
  intros Hw H Hz1 Hz2. unfold average. apply fdiv_not_negative.
  - by apply fsum_not_negative, Forall_take, Forall_drop.
  - apply of_int_not_negative. lia.
  - by intros [].
Qed.

Lemma cpu_gauge_drawn d area : drawable d → ∃ c r,
  render_cpu_gauge d area = Ok [(W_Gauge c r, area)] ∧ SFleb f64_zero r = true ∧ SFleb r (of_int 1) = true.
Proof.
  intros [[Hl Hf] _ _ _ _]. unfold render_cpu_gauge. rewrite smooth_serie_full by (done || simpl; lia).
  cbn [mbind Outcome_bind]. rewrite last_lookup, length_fmap, length_seq, list_lookup_fmap, lookup_seq_lt by (simpl; lia).
  cbn [fmap option_fmap option_map unwrap_opt mbind Outcome_bind snd].
  edestruct render_gauge_drawn as (r & -> & Hr); [|by eexists _, r].
  apply fdiv_not_negative; [by apply average_not_negative; [lia| |done..]|done|by intros []].
Qed.

Lemma memory_gauge_drawn d area : drawable d → ∃ c r,
  render_memory_gauge d area = Ok [(W_Gauge c r, area)] ∧ SFleb f64_zero r = true ∧ SFleb r (of_int 1) = true.
Proof.
  intros [_ [Hl Hf] Ht _ _]. unfold render_memory_gauge.
  destruct (last (memory_usage d)) as [used|] eqn:Hu; [|by apply last_None in Hu; rewrite Hu in Hl].
  cbn [unwrap_opt mbind Outcome_bind].
  edestruct render_gauge_drawn as (r & -> & Hr); [|by eexists _, r].
  apply quotient_not_negative; [|done]. apply last_Some_elem_of in Hu. by apply (Forall_forall _ (memory_usage d)).
Qed.

Lemma storage_gauge_drawn d area : drawable d → ∃ c r,
  render_gauge area (storage_ratio d) true = Ok [(W_Gauge c r, area)] ∧
  SFleb f64_zero r = true ∧ SFleb r (of_int 1) = true.
Proof.
  intros [_ _ _ [Hs Ha] _]. edestruct (render_gauge_drawn area (storage_ratio d) true) as (r & -> & Hr); [|by eexists _, r].
  unfold storage_ratio. case_match; [done|]. by apply quotient_not_negative.
Qed.

(** The ratios of the gauges of a frame. *)
Definition gauges (frame : Frame) : list f64 :=
  omap (λ wr, match wr.1 with W_Gauge _ r => Some r | _ => None end) frame.

Definition in_unit (r : f64) : Prop := SFleb f64_zero r = true ∧ SFleb r (of_int 1) = true.

Lemma gauges_app f g : gauges (f ++ g) = gauges f ++ gauges g.
Proof. apply omap_app. Qed.

Lemma split2 d c1 c2 area : ∃ a b, layout_split d [c1; c2] area = [a; b].
Proof.
  pose proof (split_length d [c1; c2] area) as H. destruct (layout_split _ _ _) as [|a [|b [|]]]; try done. by exists a, b.
Qed.

Lemma split3 d c1 c2 c3 area : ∃ a b c, layout_split d [c1; c2; c3] area = [a; b; c].
Proof.
  pose proof (split_length d [c1; c2; c3] area) as H.
  destruct (layout_split _ _ _) as [|a [|b [|c [|]]]]; try done. by exists a, b, c.
Qed.

Ltac run_split := cbn [at_index lookup list_lookup unwrap_opt mbind Outcome_bind].

Lemma cpu_panel_drawn d area : drawable d → ∃ f r, render_cpu d area = Ok f ∧ gauges f = [r] ∧ in_unit r.
Proof.
  intros Hd. unfold render_cpu, graph_over_gauge. destruct (split2 Vertical (Percentage 80) (Percentage 20) area) as (above & below & ->).
  run_split.
  destruct (cpu_gauge_drawn d (rect_inner 1 1 below) Hd) as (c & r & -> & Hr). cbn [mbind Outcome_bind].
  unfold render_cpu_graph.
  destruct (curve_drawn _ (proj1 (dr_cpu _ Hd))) as (points & serie & -> & Hs). cbn [mbind Outcome_bind].
  rewrite Hs. by eexists _, r.
Qed.

Lemma memory_panel_drawn d area : drawable d → ∃ f r, render_memory d area = Ok f ∧ gauges f = [r] ∧ in_unit r.
Proof.
  intros Hd. unfold render_memory, graph_over_gauge. destruct (split2 Vertical (Percentage 80) (Percentage 20) area) as (above & below & ->).
  run_split.
  destruct (memory_gauge_drawn d (rect_inner 1 1 below) Hd) as (c & r & -> & Hr). cbn [mbind Outcome_bind].
  unfold render_memory_graph.
  edestruct (curve_drawn ((λ elm, fdiv (of_int elm) (of_int 1000000)) <$> memory_usage d)) as (points & serie & -> & Hs).
  { rewrite length_fmap. apply (dr_memory _ Hd). }
  cbn [mbind Outcome_bind]. rewrite Hs. by eexists _, r.
Qed.

Lemma storage_panel_drawn d area : drawable d → ∃ f r, render_storage d area = Ok f ∧ gauges f = [r] ∧ in_unit r.
Proof.
  intros Hd. unfold render_storage, graph_over_gauge. destruct (split2 Vertical (Percentage 80) (Percentage 20) area) as (above & below & ->).
  run_split. unfold render_storage_gauge.
  destruct (storage_gauge_drawn d (rect_inner 1 1 below) Hd) as (c & r & -> & Hr). cbn [mbind Outcome_bind].
  by eexists _, r.
Qed.

Lemma logs_no_gauges title logs area : gauges (render_logs title logs area) = [].
Proof. unfold render_logs. by destruct (omap id logs). Qed.

Lemma network_chart_no_gauge d chart area : network_chart d = Ok chart → gauges [(chart, area)] = [].
Proof. unfold network_chart. intros H. by ok_inv. Qed.

Lemma frame_of_panels d quit size : drawable d →
  match network_chart d with
  | Ok _ => ∃ frame, ui {| should_quit := quit; data := d |} size = Ok frame ∧
              length (gauges frame) = 3%nat ∧ Forall in_unit (gauges frame)
  | _ => ui {| should_quit := quit; data := d |} size = Panic
  end.
Proof.
  intros Hd. unfold ui, render_network_graph, thirds. cbn [data].
  destruct (split2 Horizontal (Percentage 50) (Percentage 50) (rect_inner 2 1 size)) as (lh & rh & ->). run_split.
  destruct (split3 Vertical (Ratio 1 3) (Ratio 1 3) (Ratio 1 3) lh) as (l0 & l1 & l2 & ->).
  destruct (split3 Vertical (Ratio 1 3) (Ratio 1 3) (Ratio 1 3) rh) as (m0 & m1 & m2 & ->). run_split.
  destruct (cpu_panel_drawn d (rect_inner 1 1 m0) Hd) as (f1 & r1 & -> & H1 & ?). run_split.
  destruct (memory_panel_drawn d (rect_inner 1 1 m1) Hd) as (f2 & r2 & -> & H2 & ?). run_split.
  destruct (storage_panel_drawn d (rect_inner 1 1 m2) Hd) as (f3 & r3 & -> & H3 & ?). run_split.
  destruct (network_chart d) as [chart| [] |] eqn:Hc; run_split; [|done].
  eexists. split; [done|]. unfold render_l1_logs, render_l2_logs.
  rewrite !gauges_app, H1, H2, H3, !logs_no_gauges, (network_chart_no_gauge d chart) by done.
  assert (Hz : ∀ a t, gauges (render_zone a t) = []) by done. rewrite !Hz.
  change (gauges [(W_Block _, size)]) with (@nil f64). cbn [app]. split; [done|].
  do 3 (apply Forall_cons; split; [assumption|]). apply Forall_nil_2.
Qed.

Lemma window_Forall {A} (P : A → Prop) b h : P b → Forall P h → Forall P (window b h).
Proof. intros Hb Hh. unfold window, last_n. apply Forall_drop, Forall_app. split; [by apply Forall_replicate|done]. Qed.

Lemma cpu_values_sensible rs : ∀ p, not_negative p = true → Forall sensible rs →
  Forall (λ x, not_negative x = true) (cpu_values p rs).
Proof.
  induction rs as [|r rs IH]; intros p Hp H; [by constructor|]. apply Forall_cons in H as [[Hr _] H]. cbn [cpu_values].
  assert (Hv : not_negative (default p (r_cpu r)) = true) by (destruct (r_cpu r) eqn:Hc; [by apply Hr|done]).
  constructor; [done|]. by apply IH.
Qed.

Lemma update_disk d r d' : sensible r → update_metrics d r = Ok d' → 0 ≤ disk_size d' ∧ 0 ≤ available_storage d'.
Proof.
  intros (_ & _ & Hd) H. unfold update_metrics in H. ok_inv. destruct (default (f64_zero, f64_zero) _). ok_inv.
  case_match. ok_inv. cbn [disk_size available_storage]. unfold Radar.get_total_storage, Radar.get_available_storage.
  destruct (r_disks r) as [|[]]; [done|]. by apply Forall_cons in Hd as [? _].
Qed.

Lemma updates_disk rs : ∀ d0 d, Forall sensible rs → 0 ≤ disk_size d0 ∧ 0 ≤ available_storage d0 →
  foldM update_metrics d0 rs = Ok d → 0 ≤ disk_size d ∧ 0 ≤ available_storage d.
Proof.
  induction rs as [|r rs IH]; intros d0 d Hs H0 H; cbn [foldM] in H; [by injection H as <-|].
  apply Forall_cons in Hs as [Hr Hs]. destruct (update_metrics d0 r) as [d1| |] eqn:H1; try done.
  apply (IH d1); [done| |done]. by apply (update_disk d0 r).
Qed.

Lemma dashboard_drawable total app rs d :
  App_new true total = Ok app → 0 ≤ total → Forall sensible rs → foldM update_metrics (data app) rs = Ok d → drawable d.
Proof.
  intros (Hn & Hnt & Hns & Hna)%new_shows Ht Hs H.
  destruct (updates_show rs _ [] d Hn H) as [(Hc & Hm & Hr & Hx & _) Htot]. rewrite app_nil_l in *.
  split.
  - rewrite Hc. split; [apply length_window|]. apply window_Forall; [done|]. by apply cpu_values_sensible.
  - rewrite Hm. split; [apply length_window|]. apply window_Forall; [done|]. apply Forall_fmap.
    apply (Forall_impl _ _ _ Hs). intros r (_ & Hp & _). unfold compose, memory_value.
    destruct (r_process r); [by apply Hp|done].
  - by rewrite Htot, Hnt.
  - apply (updates_disk rs (data app)); [done| |done]. by rewrite Hns, Hna.
  - rewrite Hr, Hx. split; apply length_window.
Qed.

(** Nothing received within no time: 0/0. *)
Lemma rx_flow_nan d r d' : drawable d' → update_metrics d r = Ok d' →
  r_elapsed r = Some 0 → Radar.sum_u64 (r_networks r).*1 = Ok 0 → rx_flow d' !! 99%nat = Some S754_nan.
Proof.
  intros Hd Hu He Hz. unfold update_metrics in Hu.
  assert (Hn : ∀ flows, Radar.get_network_usage r = Ok flows → ∃ txf, flows = Some (S754_nan, txf)).
  { unfold Radar.get_network_usage. rewrite He, Hz. cbn [unwrap_opt mbind Outcome_bind].
    destruct (Radar.sum_u64 (r_networks r).*2); try done. intros flows [= <-]. by eexists. }
  ok_inv. destruct (Hn _ eq_refl) as [txf ->]. unfold default, from_option, id in Hu. ok_inv. case_match. ok_inv. cbn [rx_flow].
  match goal with H : set_at 99 (thousandths S754_nan) _ = Ok _ |- _ => revert H end.
  unfold set_at. case_bool_decide; [|done]. intros [= <-]. by apply list_lookup_insert_eq.
Qed.

(** The frame of a dashboard, whatever it has read so far: it is drawn with the gauges of
    the processor, the memory and the disk, each between 0 and 1, unless the network
    graph cannot be drawn, in which case the dashboard panics; and that happens as soon
    as an update falls into the same millisecond as the refresh before it while nothing
    was received, for then the received rate is not a number. *)
Theorem dashboard_frame total app rs r d d' quit size :
  App_new true total = Ok app → 0 ≤ total → Forall sensible rs → sensible r →
  foldM update_metrics (data app) rs = Ok d → update_metrics d r = Ok d' →
  match network_chart d' with
  | Ok _ => ∃ frame, ui {| should_quit := quit; data := d' |} size = Ok frame ∧
              length (gauges frame) = 3%nat ∧ Forall in_unit (gauges frame)
  | _ => ui {| should_quit := quit; data := d' |} size = Panic
  end ∧
  (r_elapsed r = Some 0 → Radar.sum_u64 (r_networks r).*1 = Ok 0 →
   ui {| should_quit := quit; data := d' |} size = Panic).
Proof.
  intros Ha Ht Hs Hr Hf Hu.
  assert (Hd : drawable d').
  { apply (dashboard_drawable total app (rs ++ [r])); [done..| |].
    - by apply Forall_app_2, Forall_singleton.
    - rewrite foldM_app, Hf. cbn. by rewrite Hu. }
  pose proof (frame_of_panels d' quit size Hd) as Hframe. split; [done|]. intros He Hz.
  rewrite (network_graph_nan d' 99) in Hframe; [done|apply Hd..|].
  apply (rx_flow_nan _ _ _ Hd Hu He Hz).
Qed.

End Frames.

(** ** The terminal *)

Section Terminal.
Context {E : Type} `{libs : TuiLibs}.

(** What became of the dashboard decides the state of the terminal: a run that ends
    normally leaves it as it found it, but one whose loop fails or panics leaves it in raw
    mode on the alternate screen, for nothing restores it on those paths. *)
Theorem terminal_restored (tc : TermCalls E) total turns (t : Term) app :
  tm_raw t = false → tm_alternate t = false → App_new true total = Ok app →
  tc_new tc = Ok tt → tc_enable_raw tc = Ok tt → tc_enter tc = Ok tt → tc_leave tc = Ok tt → tc_disable_raw tc = Ok tt →
  let '(t', r) := run tc false true total turns t in
  match run_loop turns app with
  | Some (Ok (_, frames)) => r = Some (Ok frames) ∧ tm_raw t' = false ∧ tm_alternate t' = false
  | Some (Err e) => r = Some (Err e) ∧ tm_raw t' = true ∧ tm_alternate t' = true
  | Some Panic => r = Some Panic ∧ tm_raw t' = true ∧ tm_alternate t' = true
  | None => r = None ∧ tm_raw t' = true ∧ tm_alternate t' = true
  end.
Proof.
  intros Hr Ha Happ H1 H2 H3 H4 H5. unfold run, set_subscriber, startup, shutdown.
  rewrite Happ, H1, H2, H3, H4, H5. cbn [mbind Outcome_bind unwrap].
  destruct (run_loop turns app) as [[[? frames]|e|]|]; done.
Qed.

(** The loop draws a frame per turn and ends with the first turn in which [q] is pressed. *)
Definition presses_q (t : Turn E) : bool :=
  match t_event t with Ok (Some (Key Press (Some c))) => c =? key_q | _ => false end.

Theorem loop_ends_on_q turns app app' frames :
  should_quit app = false → run_loop turns app = Some (Ok (app', frames)) →
  ∃ before t after, turns = before ++ t :: after ∧ presses_q t = true ∧
    Forall (λ t, presses_q t = false) before ∧ length frames = S (length before) ∧
    foldM update_metrics (data app) (t_readings <$> before ++ [t]) = Ok (data app').
Proof.
  revert app frames. induction turns as [|t turns IH]; intros app frames Hq H; [done|]. cbn [run_loop] in H.
  destruct (update app t) as [app1| |] eqn:Hu; try done. cbn [mbind Outcome_bind] in H.
  destruct (lift (ui app1 (t_screen t))) as [frame| |]; try done. cbn [mbind Outcome_bind] in H.
  destruct (t_draw t); try done. cbn [mbind Outcome_bind] in H.
  unfold update in Hu. destruct (update_metrics (data app) (t_readings t)) as [d1| [] |] eqn:Hd; try done.
  cbn [lift map_err mbind Outcome_bind] in Hu. destruct (t_event t) as [ev| |] eqn:Hev; try done.
  cbn [mbind Outcome_bind] in Hu. injection Hu as <-. cbn [should_quit] in H.
  assert (Hp : match ev with
               | Some (Key Press (Some c)) => if c =? key_q then true else should_quit app
               | _ => should_quit app end = presses_q t).
  { unfold presses_q. rewrite Hev, Hq. repeat (case_match; try done). }
  rewrite Hp in H. destruct (presses_q t) eqn:Hpt.
  - injection H as <- <-. exists [], t, turns. by cbn; rewrite Hd.
  - destruct (run_loop turns _) as [[[a2 fs]|e|]|] eqn:Hl; try done. injection H as <- <-.
    destruct (IH {| should_quit := false; data := d1 |} fs eq_refl Hl) as (before & t' & after & -> & ? & ? & Hlen & Hf).
    exists (t :: before), t', after. split_and!; [done|done|by constructor|by rewrite length_cons, Hlen|].
    cbn. rewrite Hd. exact Hf.
Qed.

End Terminal.

(** A log line of blanks only ends the dashboard: it has no first word. *)
Lemma blank_log_panics `{libs : TuiLibs} log : Forall (λ c, is_whitespace c = true) log → Radar.format_log log = Panic.
Proof.
  intros H. unfold Radar.format_log. assert (Hs : split_whitespace log = []); [|by rewrite Hs].
  unfold split_whitespace. induction H as [|c log Hc _ IH]; [done|]. simpl. by rewrite Hc.
Qed.

(** Of two lines written before the dashboard reads one, the second is lost. *)
Lemma second_line_lost buf1 buf2 :
  let '(q, r1) := MpscWriter.write false [] buf1 in
  r1 = Ok (Z.of_nat (length buf1)) ∧ MpscWriter.write false q buf2 = (q, Err "Failed to send message"%string) ∧
  MpscWriter.try_recv q = ([], Some (from_utf8_lossy buf1)).
Proof. done. Qed.

(** ** An instance, and the theorems at a concrete dashboard *)

#[local] Instance example_tui : TuiLibs := {|
  layout_split _ cs area := replicate (length cs) area;
  rect_inner _ _ area := area;
  gauge_ratio r := if SFleb f64_zero r && SFleb r (of_int 1) then Ok r else Panic;
  spline_sample keys x := snd <$> list_find (λ k : f64 * f64, SFleb x k.1 = true) keys ≫= λ p, Some p.2;
  format_size _ := bytes_of_string "1 kB";
  reformat_timestamp w := if decide (w = bytes_of_string "now") then Some (bytes_of_string "2024") else None;
  strip_escapes s := s;
|}.

#[local] Instance example_tui_spec : TuiLibsSpec example_tui.
Proof.
  split.
  - intros. apply length_replicate.
  - intros r H0 H1. change (gauge_ratio r) with (if SFleb f64_zero r && SFleb r (of_int 1) then @Ok Empty_set f64 r else Panic).
    by rewrite H0, H1.
Qed.

(** A quiet second, in which the processor is half busy and a line is logged. *)
Definition example_reading (elapsed : Z) : Readings := {|
  r_cpu := Some (of_int 50); r_process := Some 1000; r_disks := [(2000, 1000)]; r_du := Some 10;
  r_elapsed := Some elapsed; r_networks := [(0, 0)];
  r_log := Some (bytes_of_string "now INFO log: log: imported block");
|}.

Definition example_screen : Rect := mk_Rect 0 0 80 24.

Definition new_metrics : Metrics := {|
  block_number := Ok 0; syncing := Ok NotSyncing; cpu_name := "unknown"; disk_name := "unknown";
  cpu_usage := replicate 100 f64_zero; memory_usage := replicate 100 0; total_memory := 4000;
  disk_size := 0; disk_usage := 0; available_storage := 0; rx_flow := replicate 100 f64_zero;
  tx_flow := replicate 100 f64_zero; l1_logs := replicate 100 None; l2_logs := replicate 100 None |}.
Definition example_app : App := {| should_quit := false; data := new_metrics |}.

Lemma example_app_new : App_new true 4000 = Ok example_app.
Proof. reflexivity. Qed.

Lemma example_total : 0 ≤ 4000.
Proof. lia. Qed.

Definition read_once (elapsed : Z) : Metrics :=
  match update_metrics new_metrics (example_reading elapsed) with Ok d => d | _ => new_metrics end.

Lemma example_sensible elapsed : sensible (example_reading elapsed).
Proof. split_and!; [by intros ? [= <-]|by intros ? [= <-]|by repeat constructor]. Qed.

Lemma read_once_0 : update_metrics new_metrics (example_reading 0) = Ok (read_once 0).
Proof. vm_compute. reflexivity. Qed.

(** The dashboard panics on the update within a millisecond, and draws the one of a second. *)
Lemma dashboard_frame_witness :
  ui {| should_quit := false; data := read_once 0 |} example_screen = Panic ∧
  last (l2_logs (read_once 1000)) = Some (Some (bytes_of_string "2024: imported block")).
Proof.
  split; [|vm_compute; reflexivity].
  destruct (dashboard_frame (libs := example_tui) 4000 example_app [] (example_reading 0) new_metrics (read_once 0)
    false example_screen example_app_new example_total (Forall_nil_2 _) (example_sensible 0) eq_refl read_once_0)
    as [_ H].
  apply H; reflexivity.
Defined.

(** With a second between the readings the network graph is drawn. *)
Lemma second_drawn : is_ok (network_chart (read_once 1000)) = true.
Proof. vm_compute. reflexivity. Qed.
